(* ===== verification/_CoqProject ===== *)
-Q . S2P
Prelude.v
Printf.v
Gf2.v
UsbCrc.v
Ulpi.v
UlpiSafe.v
UlpiTrace.v
UlpiRecv.v
Descriptor.v
UlpiPhy.v
UlpiPhyProps.v
StdReq.v
StdReqProps.v
UsbHost.v
UsbHostProps.v
UsbHostTrans.v
UsbHostIn.v
UsbFunc.v
UsbFuncProps.v
TestCases.v
TestCasesProps.v
Main.v
MainProps.v
Vpi.v
UlpiSim.v
UlpiSimProps.v
UsbControl.v
ControlStages.v
ControlWrite.v
ControlRead.v
Bulk.v
BulkTests.v
BulkSession.v
Monitor.v
PacketTb.v
VpiProps.v
PacketTbProps.v
PacketTbSafe.v
Builds.v
Register.v
Show.v
ShowProps.v
