(* ===== verification/Prelude.v ===== *)
(** * The VPI simulation models of misc-verilog-cores

    The C code under src/vpi/ emulates what a USB 2.0 high-speed device core sees
    when it is simulated: a ULPI PHY and a USB host, loaded into a Verilog simulator
    as VPI tasks, with test cases that enumerate the device and move data, and a
    testbench for a packet FIFO.  This library models that code as Rocq functions
    and proves what it promises.

    ** The parts, and how they interact

    On every rising clock edge the simulator calls [cb_step_clock], which samples the
    bus, and then [cb_step_sync], which runs [ut_step] and drives what changed.
    While the link powers up [ut_step] steps the PHY; afterwards it steps the host,
    whose transaction in progress is a [transfer_t] advanced by one packet step per
    edge; when the host is idle it calls the current test case, which queues the next
    transaction by writing to the host.  The packet FIFO testbench and the bus
    monitor are tasks of their own; src/vpi/usb/main.c is a program without a
    simulator around the same host.

    ** The files

    - Prelude: machine integers ([u8] to [u64] wrap as the C types do), outcomes of a
      C function ([Ok], a failed [assert], an access outside of an array), array
      accesses, the stream that [rand()] returns, record updates, and the lemmas and
      tactics for safety ([safe]) and total correctness ([ends]).
    - Gf2: linear maps over GF(2).  UsbCrc: src/vpi/usb/usbcrc.c, function by function.
    - Ulpi: src/vpi/usb/ulpi.h and ulpi.c: the bus, the transfer record, and one
      definition per packet step ([token_send_step], [datax_send_step],
      [datax_recv_step], [ack_recv_step], [ack_send_step]) with the loop of
      [ulpi_step_with].  UlpiSafe: the well-formed transfers that all steps keep.
      UlpiTrace: what the senders put on the wires.  UlpiRecv: what the receiver
      stores and accepts.
    - Descriptor: src/vpi/usb/descriptor.c and its unit test.
    - UlpiPhy, UlpiPhyProps: src/vpi/usb/ulpiphy.h and ulpiphy.c.
    - StdReq, StdReqProps: the host's state (src/vpi/usb/usbhost.h) and the standard
      requests of src/vpi/usb/stdreq.c.
    - UsbHost, UsbHostProps: src/vpi/usb/usbhost.c and its steps.  UsbHostTrans,
      UsbHostIn: whole bulk OUT and bulk IN transactions.  UsbControl: the SETUP, data
      and status transactions of a control transfer, on the host alone.
    - UsbFunc, UsbFuncProps: the device model of src/vpi/usb/usbfunc.c.
    - TestCases, TestCasesProps: src/vpi/testcase.h and the twelve src/vpi/tc_*.c
      files, a Module each; the C pointers to a test's [init], [step] and data are the
      constructors of [testcase_t].
    - ControlStages, ControlWrite, ControlRead: the control-transfer tests on the running
      simulator, clock edge by clock edge.
    - Bulk, BulkTests, BulkSession: the same for the tests that move bulk data.  Bulk has a
      whole transaction as edges of [ut_step]; BulkTests has the class of such a test,
      with its laws, and its four instances; BulkSession proves the session for the class.
    - Main, MainProps: src/vpi/usb/main.c.
    - Vpi: the interface of the simulator as a type class, with what the tasks share:
      argument parsing and the time scale.
    - UlpiSim, UlpiSimProps: src/vpi/ulpisim.h and ulpisim.c.
    - Monitor: src/vpi/monitor.c.  PacketTb, PacketTbProps, PacketTbSafe:
      src/vpi/packet_tb.c.  VpiProps: the set-up of the three tasks, and the monitor.
    - Register: src/vpi/startup.c, the three [_register] functions and
      src/vpi/testcase.c.  Builds: what the preprocessor chooses in other builds.
    - Printf: the part of the C library's [printf] that the code uses.  Show, ShowProps:
      the tables of names and every function that formats a part of the state.

    ** Conventions

    A C function that updates its arguments in place is a function that returns them;
    the result code comes first.  A structure is a record with the source's field
    names, prefixed where two structures share one.  Arrays are lists of the declared
    length; an access outside of one is [Undef], so that a theorem that a call is [Ok]
    or [safe] is a memory-safety statement.  [assert] is [AssertFail].  Uninitialised
    memory and the addresses that [malloc] returns are arguments, and theorems hold
    for all of them.  [rand()] is a stream of integers that theorems quantify over.
    [vpi_control(vpiFinish, n)] is recorded where it is called: those of the test cases
    and of the simulator, in order, in the [world] that their steps thread, and so are the
    descriptors that [show_desc] prints.  A load or a store of a word through a pointer
    to bytes is the one of a little-endian machine that allows any alignment.  The order
    of clock edges is the order of the list, or of the loop, that a [..._run] function
    folds over.  The functions that format state are modelled on strings, in Show; the
    single-line messages in the middle of the steps are left out.

    ** What the theorems show

    - The CRCs: [crc16_calc] is the remainder of the USB polynomial, [crc5_check]
      accepts exactly the codewords of [crc5_calc]; round trip and error detection.
    - The wire format: tokens and data packets appear on the bus byte for byte, for
      every payload, and pass the receiver's CRC; the receiver accepts a packet exactly
      when its CRC16 is right; a runt of at most one byte is accepted exactly if the first
      two bytes of the buffer are zero, and one that is too long is written past its end.
    - The PHY: its invariant over arbitrary bus cycles, register write and read,
      start-up, the chirp handshake with the line states it drives and how the device
      core decodes them.
    - The host: reset and start of frame, memory safety of each step; a bulk OUT
      transaction, from its token to the handshake or the time-out, is the one of USB
      2.0 under arbitrary [rand()] wait states and every answer of the link; so is a
      bulk IN transaction, from its token over the link's packet to the host's ACK, the
      CRC error or the time-out; the standard requests are the bytes of USB 2.0.
    - Control transfers: a SET ADDRESS or SET CONFIGURATION test, and any sequence of the
      GET DESCRIPTOR, GET CONFIGURATION and GET STRINGS tests, run by [ut_step] against a
      link that answers in time, performs the three stages of USB 2.0, in order, and
      leaves the host with the new address, or with the data of the device.
    - Bulk transfers: the bulk OUT, bulk IN, DDR3 read and DDR3 write tests, run by [ut_step]
      against a link that acknowledges, sends data, or is silent, put on the wires the
      packets of their commands, in order and with the right toggles, and end with the
      test done and the simulator idle.
    - The device model: it receives the tokens of the host, and nothing after a token.
    - The test cases: each takes a fixed number of successful calls; what they queue is
      a valid packet; the DDR3 commands decode; the parity test corrupts a
      transfer in three ways and sends the right one next.
    - The simulator: every clock edge is safe, the schedule of sixteen tests ends in 195
      calls; [dir] and [nxt] carry what the step computed, and the data are written
      to [dato] exactly if they differ from those sampled from [dati].
    - The set-up of the tasks: exactly the right arguments are accepted.  The monitor
      reports exactly the turns of the bus.
    - The FIFO testbench: the store side is an AXI4 stream source under any
      back-pressure, the fetch side reports exactly the wrong bytes, and a clock edge
      from a well-formed schedule keeps it so, or fails an assertion, or reads past the
      buffer, each in exactly the situations stated.
    - Printing: for transfers that are well formed every formatted string fits its buffer,
      which is not so for all values of the C types; the name tables have an entry for
      every state.
    - Registration: the two tasks that a simulation has; a test case is freed once.
    - The other builds: the fast end of packet leaves the same transfer one cycle earlier.
    - The standalone program: its unit tests pass for every [rand()], and its control
      read stops after the SETUP token.

    ** Bounds and fuel

    Loops that the code bounds are structural recursion on their count.  Three loops run
    until a condition holds and take fuel, [None] meaning that it ran out:
    [ulpi_step_loop], which ends after one iteration for each byte of the packet and
    each turn of the bus (the theorems of UlpiTrace give the number);
    [test_desc_recv_loop], 21 iterations; and [host_while], 6,001 iterations, which are
    the 6,000 ticks of the reset and the test that ends the loop.  More fuel does not
    change a result.  The schedule of the simulator takes 195 calls.

    ** Not modelled

    The single-line messages that the steps print, and the VPI calls that print them.  The
    Verilog sources and the host-side tools are not C; nor is the simulator, whose
    behaviour is the type class of Vpi.  [usbh_send] is in a comment.  The VPI callbacks
    are registered with their state, so that their tests for a null pointer are left out.
    What remains of the C files without a definition is includes, prototypes, comments,
    and constants that nothing uses.

    ** Plan

    Next: the power-up of the simulator, from reset over the chirp to its first test; the
    retransmission of a bulk IN packet whose ACK was lost; the parity and link-restart
    tests on the running simulator; the composition of the sessions over the whole
    schedule; and a packet FIFO specification against which the schedule of the FIFO
    testbench completes. *)

From stdpp Require Export base tactics list numbers option decidable.
From Stdlib Require Export ZArith Lia.

#[global] Open Scope Z_scope.

(** ** Machine integers: a w-bit unsigned value is a [Z] and every assignment
    to a w-bit variable wraps explicitly. *)

Definition u8 (x : Z) : Z := x mod 2 ^ 8.
Definition u16 (x : Z) : Z := x mod 2 ^ 16.
Definition u32 (x : Z) : Z := x mod 2 ^ 32.
Definition u64 (x : Z) : Z := x mod 2 ^ 64.

Lemma u8_small x : 0 <= x < 2 ^ 8 -> u8 x = x.
Proof. apply Z.mod_small. Qed.
Lemma u16_small x : 0 <= x < 2 ^ 16 -> u16 x = x.
Proof. apply Z.mod_small. Qed.
Lemma u32_small x : 0 <= x < 2 ^ 32 -> u32 x = x.
Proof. apply Z.mod_small. Qed.
Lemma u64_small x : 0 <= x < 2 ^ 64 -> u64 x = x.
Proof. apply Z.mod_small. Qed.

Definition is_byte (x : Z) : Prop := 0 <= x < 256.

(** ** Outcomes of running a C function: a normal return, a failed [assert]
    (the process aborts), or an access outside of an array (undefined
    behaviour, after which the program promises nothing). *)

Inductive outcome (A : Type) : Type :=
| Ok (a : A)
| AssertFail
| Undef.
Arguments Ok {A} a.
Arguments AssertFail {A}.
Arguments Undef {A}.

#[export] Instance outcome_ret : MRet outcome := fun A a => Ok a.
#[export] Instance outcome_bind : MBind outcome := fun A B f m =>
  match m with Ok a => f a | AssertFail => AssertFail | Undef => Undef end.
#[export] Instance outcome_map : FMap outcome := fun A B f m =>
  match m with Ok a => Ok (f a) | AssertFail => AssertFail | Undef => Undef end.

(** One step of a computation; unlike [cbn], it leaves the rest folded. *)
Lemma outcome_bind_ok {A B} (a : A) (f : A -> outcome B) : Ok a ≫= f = f a.
Proof. done. Qed.

(** [assert(b)]: the build does not define NDEBUG. *)
Definition c_assert (b : bool) : outcome unit := if b then Ok tt else AssertFail.

(** [arr[i]] as an rvalue, and [arr[i] = v]. *)
Definition read_at {A} (arr : list A) (i : Z) : outcome A :=
  if 0 <=? i
  then match arr !! Z.to_nat i with Some v => Ok v | None => Undef end
  else Undef.

Definition write_at {A} (arr : list A) (i : Z) (v : A) : outcome (list A) :=
  if (0 <=? i) && (i <? Z.of_nat (length arr))
  then Ok (<[Z.to_nat i := v]> arr)
  else Undef.

(** The first [n] elements, read one by one; a negative count is a huge
    unsigned one. *)
Definition read_n {A} (arr : list A) (n : Z) : outcome (list A) :=
  if (0 <=? n) && (n <=? Z.of_nat (length arr)) then Ok (take (Z.to_nat n) arr) else Undef.

(** [memcpy(arr, src, len)] to the start of an array. *)
Definition write_n {A} (arr src : list A) : outcome (list A) :=
  if Z.of_nat (length src) <=? Z.of_nat (length arr)
  then Ok (src ++ drop (length src) arr)
  else Undef.

(** ** [rand()]: the C library's generator is an arbitrary stream of values;
    theorems quantify over it. *)

Definition rng : Type := nat -> Z.
Definition rng_next (g : rng) : Z * rng := (g 0%nat, fun n => g (S n)).

(** ** Record updates: [x <| field := v |>]. *)

Class Setter {R T : Type} (proj : R -> T) : Type := set_field : T -> R -> R.
Arguments set_field {R T} proj {_} v r /.

Declare Scope usb_scope.
Delimit Scope usb_scope with usb.
#[warnings="-postfix-notation-not-level-1"]
Notation "x <| proj := v |>" := (set_field proj v x)
  (at level 12, left associativity, format "x  <| proj  :=  v |>") : usb_scope.
#[global] Open Scope usb_scope.

(** ** Generic list lemmas *)

Lemma Forall_pair {A} (P : A -> Prop) a b : Forall P [a; b] -> P a /\ P b.
Proof. intros H. by inversion_clear H as [|? ? Ha Hb]; inversion_clear Hb. Qed.

(** A property of finitely many integers, checked on each of them. *)
Lemma forall_range (f : Z -> bool) n r :
  forallb f (seqZ 0 n) = true -> 0 <= r < n -> f r = true.
Proof.
  intros H Hr. rewrite forallb_forall in H. apply H, list_elem_of_In, elem_of_seqZ. lia.
Qed.

Lemma last_cons_default {A} (l : list A) : forall x d, List.last (x :: l) d = List.last l x.
Proof.
  induction l as [|y l IH]; intros x d; [done|].
  change (List.last (y :: l) d = List.last (y :: l) x). by rewrite !IH.
Qed.

(** ** Array accesses *)

Lemma read_at_Some {A} (arr : list A) i v :
  arr !! i = Some v -> read_at arr (Z.of_nat i) = Ok v.
Proof.
  intros H. unfold read_at. rewrite Nat2Z.id, H. by destruct (Z.leb_spec 0 (Z.of_nat i)); [|lia].
Qed.

Lemma read_n_take {A} (arr : list A) n :
  0 <= n <= Z.of_nat (length arr) -> read_n arr n = Ok (take (Z.to_nat n) arr).
Proof.
  intros H. unfold read_n. destruct (Z.leb_spec 0 n), (Z.leb_spec n (Z.of_nat (length arr)));
    done || lia.
Qed.

Lemma read_at_lookup {A} (arr : list A) i v :
  read_at arr i = Ok v -> arr !! Z.to_nat i = Some v.
Proof. unfold read_at. destruct (0 <=? i), (arr !! Z.to_nat i); congruence. Qed.

Lemma read_at_ge {A} (arr : list A) i : Z.of_nat (length arr) <= i -> read_at arr i = Undef.
Proof.
  intros H. unfold read_at. destruct (Z.leb_spec 0 i); [|done].
  by rewrite lookup_ge_None_2 by lia.
Qed.

Lemma write_at_in {A} (arr : list A) i v :
  0 <= i < Z.of_nat (length arr) -> write_at arr i v = Ok (<[Z.to_nat i := v]> arr).
Proof.
  intros H. unfold write_at. destruct (Z.leb_spec 0 i), (Z.ltb_spec i (Z.of_nat (length arr)));
    done || lia.
Qed.

Lemma write_at_ge {A} (arr : list A) i v :
  Z.of_nat (length arr) <= i -> write_at arr i v = Undef.
Proof.
  intros H. unfold write_at. destruct (Z.ltb_spec i (Z.of_nat (length arr))); [lia|].
  by rewrite andb_false_r.
Qed.

(** ** Safety of an outcome: no undefined behaviour, and [P] on return.  A failed
    [assert] stops the program and is allowed. *)

Definition safe {A} (P : A -> Prop) (m : outcome A) : Prop :=
  match m with Ok a => P a | AssertFail => True | Undef => False end.

Lemma safe_ok {A} (P : A -> Prop) a : P a -> safe P (Ok a).
Proof. done. Qed.

Lemma safe_bind {A B} (Q : A -> Prop) (P : B -> Prop) m (f : A -> outcome B) :
  safe Q m -> (forall a, Q a -> safe P (f a)) -> safe P (m ≫= f).
Proof. destruct m; cbn; auto. Qed.

Lemma safe_mono {A} (P Q : A -> Prop) m : safe P m -> (forall a, P a -> Q a) -> safe Q m.
Proof. destruct m; cbn; auto. Qed.

Lemma safe_assert {A} (P : A -> Prop) c (k : unit -> outcome A) :
  (c = true -> safe P (k tt)) -> safe P (c_assert c ≫= k).
Proof. destruct c; cbn; auto. Qed.

Lemma safe_if {A} (P : A -> Prop) (c : bool) (m1 m2 : outcome A) :
  (c = true -> safe P m1) -> (c = false -> safe P m2) -> safe P (if c then m1 else m2).
Proof. destruct c; auto. Qed.

Lemma safe_read_at {A B} (P : B -> Prop) (arr : list A) i (f : A -> outcome B) :
  0 <= i < Z.of_nat (length arr) ->
  (forall v, arr !! Z.to_nat i = Some v -> safe P (f v)) -> safe P (read_at arr i ≫= f).
Proof.
  intros Hi Hf. unfold read_at. destruct (Z.leb_spec 0 i); [|lia].
  destruct (lookup_lt_is_Some_2 arr (Z.to_nat i) ltac:(lia)) as [v Hv].
  rewrite Hv. by apply Hf.
Qed.

Lemma safe_read_n {A B} (P : B -> Prop) (arr : list A) n (f : list A -> outcome B) :
  0 <= n <= Z.of_nat (length arr) ->
  safe P (f (take (Z.to_nat n) arr)) -> safe P (read_n arr n ≫= f).
Proof. intros Hn Hf. by rewrite read_n_take. Qed.

Lemma safe_write_at {A B} (P : B -> Prop) (arr : list A) i v (f : list A -> outcome B) :
  0 <= i < Z.of_nat (length arr) ->
  safe P (f (<[Z.to_nat i := v]> arr)) -> safe P (write_at arr i v ≫= f).
Proof. intros Hi Hf. by rewrite write_at_in. Qed.

(** One step of a safety proof, by the shape of the program. *)
Ltac safe_step :=
  lazymatch goal with
  | |- safe _ (Ok _) => apply safe_ok
  | |- safe _ (c_assert _ ≫= _) => apply safe_assert; intros ?
  | |- safe _ (if _ then _ else _) => apply safe_if; intros ?
  | |- safe _ (read_at _ _ ≫= _) => apply safe_read_at; [|intros ? ?]
  | |- safe _ (read_n _ _ ≫= _) => apply safe_read_n
  | |- safe _ (write_at _ _ _ ≫= _) => apply safe_write_at
  end.

(** ** What holds of an outcome, if it returns *)

Definition returns {A} (P : A -> Prop) (m : outcome A) : Prop :=
  match m with Ok a => P a | _ => True end.

Lemma returns_if {A} (P : A -> Prop) (c : bool) m1 m2 :
  (c = true -> returns P m1) -> (c = false -> returns P m2) -> returns P (if c then m1 else m2).
Proof. destruct c; auto. Qed.

Lemma returns_bind {A B} (P : B -> Prop) (m : outcome A) f :
  (forall a, m = Ok a -> returns P (f a)) -> returns P (m ≫= f).
Proof. destruct m; cbn; auto. Qed.

Ltac returns_step :=
  lazymatch goal with
  | |- returns _ (Ok _) => cbn [returns]
  | |- returns _ (if _ then _ else _) => apply returns_if; intros ?
  | |- returns _ (_ ≫= _) => apply returns_bind; intros ? ?
  end.

Lemma returns_mono {A} (P Q : A -> Prop) m : returns P m -> (forall a, P a -> Q a) -> returns Q m.
Proof. destruct m; cbn; auto. Qed.

Lemma returns_use {A B} (Q : A -> Prop) (P : B -> Prop) m (f : A -> outcome B) :
  returns Q m -> (forall a, Q a -> returns P (f a)) -> returns P (m ≫= f).
Proof. destruct m; cbn; auto. Qed.

(** ** Total correctness of an outcome: it returns, and [P] holds. *)

Definition ends {A} (P : A -> Prop) (m : outcome A) : Prop :=
  match m with Ok a => P a | _ => False end.

Lemma ends_bind {A B} (Q : A -> Prop) (P : B -> Prop) m (f : A -> outcome B) :
  ends Q m -> (forall a, Q a -> ends P (f a)) -> ends P (m ≫= f).
Proof. destruct m; cbn; auto; by intros []. Qed.

Lemma ends_mono {A} (P Q : A -> Prop) m : ends P m -> (forall a, P a -> Q a) -> ends Q m.
Proof. destruct m; cbn; auto. Qed.

Lemma ends_if {A} (P : A -> Prop) (c : bool) (m1 m2 : outcome A) :
  (c = true -> ends P m1) -> (c = false -> ends P m2) -> ends P (if c then m1 else m2).
Proof. destruct c; auto. Qed.

Lemma ends_assert {A} (P : A -> Prop) c (k : unit -> outcome A) :
  c = true -> ends P (k tt) -> ends P (c_assert c ≫= k).
Proof. by intros ->. Qed.

Lemma ends_read_at {A B} (P : B -> Prop) (arr : list A) i (f : A -> outcome B) :
  0 <= i < Z.of_nat (length arr) ->
  (forall v, arr !! Z.to_nat i = Some v -> ends P (f v)) -> ends P (read_at arr i ≫= f).
Proof.
  intros Hi Hf. destruct (lookup_lt_is_Some_2 arr (Z.to_nat i) ltac:(lia)) as [v Hv].
  rewrite <- (Z2Nat.id i) by lia. rewrite (read_at_Some _ _ _ Hv). by apply Hf.
Qed.

Lemma ends_write_at {A B} (P : B -> Prop) (arr : list A) i v (f : list A -> outcome B) :
  0 <= i < Z.of_nat (length arr) ->
  ends P (f (<[Z.to_nat i := v]> arr)) -> ends P (write_at arr i v ≫= f).
Proof. intros Hi Hf. by rewrite write_at_in. Qed.

(** The result of a computation that ends, from a proof that it does. *)
Lemma ends_inv {A} (P : A -> Prop) m : ends P m -> exists a, m = Ok a /\ P a.
Proof. destruct m; cbn; [by eexists|done..]. Qed.

(** Closes [Forall is_byte l] for a literal list. *)
Ltac solve_bytes :=
  repeat match goal with
  | |- Forall _ [] => apply List.Forall_nil
  | |- Forall _ (_ :: _) => apply List.Forall_cons
  | |- is_byte _ => unfold is_byte; lia
  end.
