(* ===== verification/Printf.v ===== *)
(** The conversions of printf that the models use, [%u], [%d], [%x], [%s], [%p] and
    [%%] with a width, as an interpreter of the format string, and a bound on the
    length of what a format prints. *)

From stdpp Require Export strings.
From S2P Require Import Prelude.
From Stdlib Require Import Ascii.

#[local] Open Scope string_scope.
#[local] Open Scope Z_scope.

(** ** Strings *)

Lemma strlen_app s t : String.length (s +:+ t) = (String.length s + String.length t)%nat.
Proof. induction s as [|c s IH]; [done|]. exact (f_equal S IH). Qed.

Definition blank : ascii := " ".

Fixpoint repeat_char (n : nat) (c : ascii) : string :=
  match n with
  | O => EmptyString
  | S n => String c (repeat_char n c)
  end.

Lemma strlen_repeat n c : String.length (repeat_char n c) = n.
Proof. induction n; cbn; congruence. Qed.

(** The escapes of C's string literals that the source uses. *)
Fixpoint c_str (s : string) : string :=
  match s with
  | EmptyString => EmptyString
  | String c s =>
      match c, s with
      | "\"%char, String "n" s => String "010" (c_str s)
      | "\"%char, String "t" s => String "009" (c_str s)
      | _, _ => String c (c_str s)
      end
  end.

(** ** Numbers *)

Definition digit (d : Z) : ascii :=
  ascii_of_N (Z.to_N (if d <? 10 then 48 + d else 87 + d)).

Definition digit_value (c : ascii) : Z :=
  let v := Z.of_N (N_of_ascii c) in if v <? 58 then v - 48 else v - 87.

(** The digits of [n] in base [b], before [acc]. *)
Fixpoint digits_go (fuel : nat) (b n : Z) (acc : string) : string :=
  match fuel with
  | O => acc
  | S fuel =>
      let acc := String (digit (n mod b)) acc in
      if n <? b then acc else digits_go fuel b (n / b) acc
  end.

Definition digits (b n : Z) : string := digits_go (S (Z.to_nat (Z.log2 n))) b n EmptyString.

(** What a number in base [b] means. *)
Fixpoint digits_val (b : Z) (s : string) (acc : Z) : Z :=
  match s with
  | EmptyString => acc
  | String c s => digits_val b s (acc * b + digit_value c)
  end.

Lemma digit_value_digit d : 0 <= d < 16 -> digit_value (digit d) = d.
Proof.
  intros H. unfold digit_value, digit.
  rewrite N_ascii_embedding by (destruct (Z.ltb_spec d 10); lia).
  rewrite Z2N.id by (destruct (Z.ltb_spec d 10); lia).
  destruct (Z.ltb_spec d 10); [rewrite (proj2 (Z.ltb_lt _ _)) by lia|rewrite (proj2 (Z.ltb_ge _ _)) by lia]; lia.
Qed.

Lemma log2_div b n : 2 <= b -> b <= n -> Z.log2 (n / b) < Z.log2 n.
Proof.
  intros Hb Hn. pose proof (Z.mul_div_le n b ltac:(lia)) as Hm.
  assert (Hp : 0 < n / b) by (apply Z.div_str_pos; lia).
  enough (Z.log2 (n / b * 2) <= Z.log2 n).
  { pose proof (Z.log2_mul_pow2 (n / b) 1 ltac:(lia) ltac:(lia)) as E. change (2 ^ 1) with 2 in E. lia. }
  apply Z.log2_le_mono. nia.
Qed.

Lemma digits_go_val fuel : forall b n acc k,
  2 <= b <= 16 -> 0 <= n -> (Z.to_nat (Z.log2 n) < fuel)%nat ->
  (forall a, digits_val b acc a = a * b ^ k + digits_val b acc 0) -> 0 <= k ->
  digits_val b (digits_go fuel b n acc) 0 = n * b ^ k + digits_val b acc 0.
Proof.
  induction fuel as [|fuel IH]; intros b n acc k Hb Hn Hf Hk Hk0; [lia|]. cbn [digits_go].
  assert (Hm : 0 <= n mod b < b) by (apply Z.mod_pos_bound; lia).
  set (acc1 := String (digit (n mod b)) acc).
  assert (H1 : forall a, digits_val b acc1 a = (a * b + n mod b) * b ^ k + digits_val b acc 0).
  { intros a. subst acc1. cbn [digits_val]. rewrite Hk, digit_value_digit by lia. done. }
  destruct (Z.ltb_spec n b) as [Hs|Hs].
  - rewrite H1. rewrite Z.mod_small by lia. lia.
  - assert (Hl : 0 <= Z.log2 (n / b) < Z.log2 n) by (split; [apply Z.log2_nonneg|by apply log2_div; lia]).
    rewrite (IH b (n / b) acc1 (k + 1)); [|done|apply Z.div_pos; lia|lia| |lia].
    + rewrite (H1 0), Z.pow_add_r, Z.pow_1_r by lia. pose proof (Z.div_mod n b ltac:(lia)). nia.
    + intros a. rewrite H1, (H1 0), Z.pow_add_r, Z.pow_1_r by lia. lia.
Qed.

(** Reading a printed number gives the number. *)
Lemma digits_roundtrip b n : 2 <= b <= 16 -> 0 <= n -> digits_val b (digits b n) 0 = n.
Proof.
  intros Hb Hn. unfold digits. rewrite (digits_go_val _ b n EmptyString 0); try done; [cbn; lia|lia|].
  intros a. cbn. lia.
Qed.

Lemma digits_go_length fuel : forall b n acc k,
  2 <= b -> 0 <= n < b ^ Z.of_nat k -> (1 <= k)%nat ->
  (String.length (digits_go fuel b n acc) <= k + String.length acc)%nat.
Proof.
  induction fuel as [|fuel IH]; intros b n acc k Hb Hn Hk; cbn [digits_go]; [lia|].
  destruct (Z.ltb_spec n b) as [Hs|Hs]; [cbn [String.length]; lia|].
  destruct k as [|[|k]]; [lia|cbn in Hn; lia|].
  etrans; [apply (IH b (n / b) _ (S k)); [done| |lia]|cbn [String.length]; lia].
  split; [apply Z.div_pos; lia|]. apply Z.div_lt_upper_bound; [lia|].
  rewrite (Nat2Z.inj_succ (S k)), Z.pow_succ_r in Hn by lia. lia.
Qed.

Lemma digits_length b n k :
  2 <= b -> 0 <= n < b ^ Z.of_nat k -> (1 <= k)%nat -> (String.length (digits b n) <= k)%nat.
Proof.
  intros Hb Hn Hk. unfold digits. rewrite <- (Nat.add_0_r k).
  by apply (digits_go_length _ b n EmptyString k).
Qed.

Definition signed (n : Z) : string := if n <? 0 then String "-" (digits 10 (- n)) else digits 10 n.

Lemma signed_length n k :
  - 10 ^ (Z.of_nat k - 1) < n < 10 ^ Z.of_nat k -> (1 <= k)%nat -> (String.length (signed n) <= k)%nat.
Proof.
  intros Hn Hk. unfold signed. destruct (Z.ltb_spec n 0) as [Hs|Hs].
  - destruct k as [|[|k]]; [lia|change (- 10 ^ 0 < n < 10 ^ 1) in Hn; lia|]. cbn [String.length].
    apply le_n_S, digits_length; [lia| |lia]. replace (Z.of_nat (S (S k)) - 1) with (Z.of_nat (S k)) in Hn by lia. lia.
  - apply digits_length; lia.
Qed.

(** ** The interpreter *)

(** Arguments: an unsigned integer, a signed one, a string, a pointer. *)
Inductive arg : Type := AU (n : Z) | AI (n : Z) | AS (s : string) | AP (addr : Z).

Definition pad (c : ascii) (width : nat) (s : string) : string :=
  repeat_char (width - String.length s) c +:+ s.

Section Printf.

(** The representation of a pointer is up to the C library. *)
Context (show_ptr : Z -> string).

(** A conversion with its flag [0] and width; [None] where the argument has another
    type, which is undefined behaviour. *)
Definition convert (zero : bool) (width : nat) (c : ascii) (a : arg) : option string :=
  let fill := pad (if zero then "0" else " ")%char width in
  match c, a with
  | "u"%char, AU n => Some (fill (digits 10 n))
  | "x"%char, AU n => Some (fill (digits 16 n))
  | "d"%char, AI n => if zero then None else Some (fill (signed n))
  | "s"%char, AS s => Some (pad " " width s)
  | "p"%char, AP addr => Some (pad " " width (show_ptr addr))
  | _, _ => None
  end.

Definition is_digit (c : ascii) : bool :=
  (48 <=? N_of_ascii c)%N && (N_of_ascii c <=? 57)%N.

(** Between conversions, or in one. *)
Inductive fmt_mode : Type := Text | Spec (zero : bool) (width : nat).

Fixpoint format (m : fmt_mode) (f : string) (args : list arg) : option string :=
  match f, m with
  | EmptyString, Text => Some EmptyString
  | EmptyString, Spec _ _ => None
  | String c f, Text =>
      if (c =? "%")%char then format (Spec false 0) f args
      else s ← format Text f args; Some (String c s)
  | String c f, Spec zero width =>
      if (c =? "0")%char && (width =? 0)%nat then format (Spec true 0) f args
      else if is_digit c then format (Spec zero (10 * width + Z.to_nat (digit_value c))) f args
      else if (c =? "l")%char then format (Spec zero width) f args
      else if (c =? "%")%char then s ← format Text f args; Some (String c s)
      else
        match args with
        | [] => None
        | a :: args => t ← convert zero width c a; s ← format Text f args; Some (t +:+ s)
        end
  end.

(** The format is written as in the source. *)
Definition printf (f : string) (args : list arg) : outcome string :=
  match format Text (c_str f) args with
  | Some s => Ok s
  | None => Undef
  end.

(** [sprintf] to an array of [size] characters, the null character included. *)
Definition sprintf (size : nat) (f : string) (args : list arg) : outcome string :=
  s ← printf f args;
  if (String.length s <? size)%nat then Ok s else Undef.

(** [idx += sprintf(&str[idx], ...)]: what [str] holds up to [idx] is [str]. *)
Definition sprintf_at (size : nat) (str f : string) (args : list arg) : outcome string :=
  s ← sprintf (size - String.length str) f args;
  Ok (str +:+ s).

(** ** The length of what is printed *)

(** The width of a value: in decimal (or as a string or pointer), and in hex. *)
Definition width : Type := nat * nat.

(** [arg_fits k a]: every conversion prints [a] in at most the width [k]. *)
Definition arg_fits (k : width) (a : arg) : Prop :=
  (1 <= k.1)%nat /\
  match a with
  | AU n => 0 <= n < 10 ^ Z.of_nat k.1 /\ (1 <= k.2)%nat /\ n < 16 ^ Z.of_nat k.2
  | AI n => - 10 ^ (Z.of_nat k.1 - 1) < n < 10 ^ Z.of_nat k.1
  | AS s => (String.length s <= k.1)%nat
  | AP addr => (String.length (show_ptr addr) <= k.1)%nat
  end.

Definition conversion_width (c : ascii) (k : width) : nat := if (c =? "x")%char then k.2 else k.1.

(** The length that [format] needs for arguments of the sizes [ks]. *)
Fixpoint format_bound (m : fmt_mode) (f : string) (ks : list width) : nat :=
  match f, m with
  | EmptyString, _ => 0
  | String c f, Text =>
      if (c =? "%")%char then format_bound (Spec false 0) f ks else S (format_bound Text f ks)
  | String c f, Spec zero width =>
      if (c =? "0")%char && (width =? 0)%nat then format_bound (Spec true 0) f ks
      else if is_digit c then format_bound (Spec zero (10 * width + Z.to_nat (digit_value c))) f ks
      else if (c =? "l")%char then format_bound (Spec zero width) f ks
      else if (c =? "%")%char then S (format_bound Text f ks)
      else Nat.max width (conversion_width c (hd (0%nat, 0%nat) ks)) + format_bound Text f (tl ks)
  end%nat.

Lemma pad_length c width s : String.length (pad c width s) = Nat.max width (String.length s).
Proof. unfold pad. rewrite strlen_app, strlen_repeat. lia. Qed.

Lemma convert_length zero width c a k s :
  arg_fits k a -> convert zero width c a = Some s ->
  (String.length s <= Nat.max width (conversion_width c k))%nat.
Proof.
  destruct k as [k h]. intros [Hk Ha] H. unfold convert in H. cbn [fst snd] in *.
  destruct c as [[] [] [] [] [] [] [] []]; destruct a; try discriminate H.
  all: first [injection H as <-|destruct zero; [discriminate H|]; injection H as <-]; rewrite pad_length; cbn -[Nat.max digits signed].
  all: first [pose proof (digits_length 10 n k ltac:(lia) (proj1 Ha) Hk); lia
             |pose proof (digits_length 16 n h ltac:(lia) (conj (proj1 (proj1 Ha)) (proj2 (proj2 Ha))) (proj1 (proj2 Ha))); lia
             |pose proof (signed_length n k Ha Hk); lia|lia].
Qed.

Lemma format_length f : forall m args ks s,
  Forall2 arg_fits ks args -> format m f args = Some s -> (String.length s <= format_bound m f ks)%nat.
Proof.
  induction f as [|c f IH]; intros m args ks s Hks H; cbn [format format_bound] in *.
  { destruct m; [|done]. injection H as <-. done. }
  destruct m as [|zero width].
  - destruct (c =? "%")%char; [by eapply IH|].
    destruct (format Text f args) as [t|] eqn:E; [|done]. injection H as <-. cbn [String.length].
    pose proof (IH Text args ks t Hks E). lia.
  - destruct ((c =? "0")%char && (width =? 0)%nat); [by eapply IH|].
    destruct (is_digit c); [by eapply IH|]. destruct (c =? "l")%char; [by eapply IH|].
    destruct (c =? "%")%char.
    { destruct (format Text f args) as [t|] eqn:E; [|done]. injection H as <-. cbn [String.length].
      pose proof (IH Text args ks t Hks E). lia. }
    destruct Hks as [|k a ks args Ha Hks]; [done|]. cbn [hd tl].
    destruct (convert zero width c a) as [t|] eqn:Et; [|done].
    destruct (format Text f args) as [u|] eqn:Eu; [|done]. injection H as <-. rewrite strlen_app.
    pose proof (convert_length _ _ _ _ _ _ Ha Et). pose proof (IH Text args ks u Hks Eu). lia.
Qed.

(** A format whose conversions have arguments of the right types. *)
Definition well_typed (f : string) (args : list arg) : Prop := is_Some (format Text (c_str f) args).

(** The check of the types, which does not look at the values. *)
Definition convertible (zero : bool) (c : ascii) (a : arg) : bool :=
  match c, a with
  | "u"%char, AU _ | "x"%char, AU _ | "s"%char, AS _ | "p"%char, AP _ => true
  | "d"%char, AI _ => negb zero
  | _, _ => false
  end.

Fixpoint typed (m : fmt_mode) (f : string) (args : list arg) : bool :=
  match f, m with
  | EmptyString, Text => true
  | EmptyString, Spec _ _ => false
  | String c f, Text => if (c =? "%")%char then typed (Spec false 0) f args else typed Text f args
  | String c f, Spec zero width =>
      if (c =? "0")%char && (width =? 0)%nat then typed (Spec true 0) f args
      else if is_digit c then typed (Spec zero (10 * width + Z.to_nat (digit_value c))) f args
      else if (c =? "l")%char then typed (Spec zero width) f args
      else if (c =? "%")%char then typed Text f args
      else match args with [] => false | a :: args => convertible zero c a && typed Text f args end
  end.

Lemma convertible_some zero width c a : convertible zero c a = true -> is_Some (convert zero width c a).
Proof.
  unfold convertible, convert. destruct c as [[] [] [] [] [] [] [] []]; destruct a; try discriminate; try done.
  by destruct zero.
Qed.

Lemma typed_some f : forall m args, typed m f args = true -> is_Some (format m f args).
Proof.
  induction f as [|c f IH]; intros m args H; cbn [format typed] in *; [by destruct m|].
  destruct m as [|zero width].
  - destruct (c =? "%")%char; [by apply IH|]. destruct (IH _ _ H) as [s ->]. done.
  - destruct ((c =? "0")%char && (width =? 0)%nat); [by apply IH|].
    destruct (is_digit c); [by apply IH|]. destruct (c =? "l")%char; [by apply IH|].
    destruct (c =? "%")%char; [destruct (IH _ _ H) as [s ->]; done|].
    destruct args as [|a args]; [done|]. apply andb_true_iff in H as [H1 H2].
    destruct (convertible_some _ width _ _ H1) as [t ->]. destruct (IH _ _ H2) as [s ->]. done.
Qed.

Lemma typed_well_typed f args : typed Text (c_str f) args = true -> well_typed f args.
Proof. apply typed_some. Qed.

Definition printf_bound (f : string) (ks : list width) : nat := format_bound Text (c_str f) ks.

Lemma printf_ends f args : typed Text (c_str f) args = true -> ends (fun _ => True) (printf f args).
Proof. intros H. destruct (typed_well_typed f args H) as [s Hs]. unfold printf. by rewrite Hs. Qed.

Lemma sprintf_ends size f args ks :
  typed Text (c_str f) args = true -> Forall2 arg_fits ks args -> (printf_bound f ks <? size)%nat = true ->
  ends (fun s => (String.length s <= printf_bound f ks)%nat) (sprintf size f args).
Proof.
  intros Ht Hks Hb%Nat.ltb_lt. destruct (typed_well_typed f args Ht) as [s Hs].
  pose proof (format_length _ _ _ _ _ Hks Hs) as Hl. unfold sprintf, printf. rewrite Hs, outcome_bind_ok.
  unfold printf_bound in *. by rewrite (proj2 (Nat.ltb_lt _ _)) by lia.
Qed.

(** The room is counted from the string in the buffer, of length [n] at most. *)
Lemma sprintf_at_ends size str f args ks n :
  (String.length str <= n)%nat ->
  typed Text (c_str f) args = true -> Forall2 arg_fits ks args -> (n + printf_bound f ks <? size)%nat = true ->
  ends (fun s => (String.length s <= n + printf_bound f ks)%nat) (sprintf_at size str f args).
Proof.
  intros Hn Ht Hks Hb%Nat.ltb_lt. unfold sprintf_at.
  eapply ends_bind; [apply (sprintf_ends (size - String.length str) f args ks Ht Hks); apply Nat.ltb_lt; lia|].
  intros s Hs. cbv beta in Hs. cbn [ends]. rewrite strlen_app. lia.
Qed.

End Printf.

Example format_ex : format (fun _ => "0x1") Text "%02x, %8lu %d%% <%p> %s"
  [AU 10; AU 42; AI (-7); AP 1; AS "ok"] = Some "0a,       42 -7% <0x1> ok".
Proof. reflexivity. Qed.
