(* ===== verification/Gf2.v ===== *)
(** GF(2)-linear functions on integers read as bit vectors: the algebra
    behind the CRC routines.  Addition of the field is [Z.lxor]. *)

From S2P Require Import Prelude.

Definition linear (f : Z -> Z) : Prop :=
  forall a b, f (Z.lxor a b) = Z.lxor (f a) (f b).

(** Carry-less product of the low [k] coefficients of [q] with [g]. *)
Fixpoint clmul (k : nat) (q g : Z) : Z :=
  match k with
  | O => 0
  | S k' => Z.lxor (clmul k' q g)
              (if Z.testbit q (Z.of_nat k') then Z.shiftl g (Z.of_nat k') else 0)
  end.

Lemma lxor_move a b c : Z.lxor a b = c -> a = Z.lxor b c.
Proof.
  intros <-. by rewrite (Z.lxor_comm a b), <- Z.lxor_assoc, Z.lxor_nilpotent, Z.lxor_0_l.
Qed.

Lemma lxor_cancel_r a b : Z.lxor (Z.lxor a b) b = a.
Proof. by rewrite Z.lxor_assoc, Z.lxor_nilpotent, Z.lxor_0_r. Qed.

Lemma lxor_inj_r a b c : Z.lxor a c = Z.lxor b c -> a = b.
Proof. intros H. by rewrite <- (lxor_cancel_r a c), H, lxor_cancel_r. Qed.

Lemma lxor_inj_l a b c : Z.lxor c a = Z.lxor c b -> a = b.
Proof. rewrite !(Z.lxor_comm c). apply lxor_inj_r. Qed.

Lemma lxor_swap4 a b c d :
  Z.lxor (Z.lxor a b) (Z.lxor c d) = Z.lxor (Z.lxor a c) (Z.lxor b d).
Proof. rewrite !Z.lxor_assoc. f_equal. by rewrite <- !Z.lxor_assoc, (Z.lxor_comm b c). Qed.

Lemma lxor_bounded n a b :
  0 <= n -> 0 <= a < 2 ^ n -> 0 <= b < 2 ^ n -> 0 <= Z.lxor a b < 2 ^ n.
Proof.
  intros Hn Ha Hb.
  assert (Hx : Z.lxor a b = Z.lxor a b mod 2 ^ n).
  { rewrite <- Z.land_ones by lia. apply Z.bits_inj'. intros i Hi.
    rewrite Z.land_spec, Z.lxor_spec. destruct (decide (i < n)).
    - rewrite Z.ones_spec_low by lia. by rewrite andb_true_r.
    - rewrite Z.ones_spec_high, andb_false_r by lia.
      rewrite <- (Z.mod_small a (2 ^ n)), <- (Z.mod_small b (2 ^ n)) by lia.
      by rewrite !Z.mod_pow2_bits_high by lia. }
  rewrite Hx. apply Z.mod_pos_bound. lia.
Qed.

(** ** Closure properties *)

Lemma linear_id : linear (fun x => x).
Proof. by intros a b. Qed.

Lemma linear_const_0 : linear (fun _ => 0).
Proof. by intros a b. Qed.

Lemma linear_comp f g : linear f -> linear g -> linear (fun x => f (g x)).
Proof. intros Hf Hg a b. by rewrite Hg, Hf. Qed.

Lemma linear_lxor f g : linear f -> linear g -> linear (fun x => Z.lxor (f x) (g x)).
Proof. intros Hf Hg a b. by rewrite Hf, Hg, lxor_swap4. Qed.

Lemma linear_shiftr f k : linear f -> linear (fun x => Z.shiftr (f x) k).
Proof. intros Hf a b. by rewrite Hf, Z.shiftr_lxor. Qed.

Lemma linear_shiftl f k : linear f -> linear (fun x => Z.shiftl (f x) k).
Proof. intros Hf a b. by rewrite Hf, Z.shiftl_lxor. Qed.

Lemma linear_land f m : linear f -> linear (fun x => Z.land (f x) m).
Proof.
  intros Hf a b. rewrite Hf. apply Z.bits_inj'. intros i _.
  rewrite !Z.land_spec, !Z.lxor_spec, !Z.land_spec.
  by destruct (Z.testbit (f a) i), (Z.testbit (f b) i), (Z.testbit m i).
Qed.

Lemma linear_mod f w : 0 <= w -> linear f -> linear (fun x => f x mod 2 ^ w).
Proof.
  intros Hw Hf a b. rewrite <- !Z.land_ones by done.
  by apply (linear_land f (Z.ones w) Hf a b).
Qed.

Lemma land_pow2 x k : 0 <= k -> Z.land x (2 ^ k) = Z.b2z (Z.testbit x k) * 2 ^ k.
Proof.
  intros Hk. apply Z.bits_inj'. intros i Hi.
  rewrite Z.land_spec, Z.pow2_bits_eqb by done.
  destruct (Z.eqb_spec k i) as [->|Hne].
  - destruct (Z.testbit x i); cbn [Z.b2z andb].
    + by rewrite Z.mul_1_l, Z.pow2_bits_true.
    + by rewrite Z.mul_0_l, Z.bits_0.
  - rewrite andb_false_r. destruct (Z.testbit x k); cbn [Z.b2z].
    + by rewrite Z.mul_1_l, Z.pow2_bits_false.
    + by rewrite Z.mul_0_l, Z.bits_0.
Qed.

(** A single masked bit spread over a constant: the feedback of a CRC. *)
Lemma linear_feedback f k c :
  0 <= k -> linear f -> linear (fun x => Z.land (f x) (2 ^ k) * c).
Proof.
  intros Hk Hf a b. rewrite Hf, !land_pow2, Z.lxor_spec by done.
  destruct (Z.testbit (f a) k), (Z.testbit (f b) k); cbn [xorb Z.b2z];
    rewrite ?Z.mul_1_l, ?Z.mul_0_l, ?Z.lxor_0_l, ?Z.lxor_0_r, ?Z.lxor_nilpotent; done.
Qed.

Lemma linear_iter n f : linear f -> linear (fun x => Nat.iter n f x).
Proof.
  intros Hf. induction n as [|n IH]; [by intros a b|].
  intros a b. simpl. by rewrite IH, Hf.
Qed.

Create HintDb gf2 discriminated.
#[export] Hint Constants Opaque : gf2.
#[export] Hint Resolve linear_id linear_const_0 linear_lxor linear_shiftr linear_shiftl
  linear_land linear_iter : gf2.
#[export] Hint Extern 2 (linear (fun x => _ mod 2 ^ _)) =>
  apply linear_mod; [lia|] : gf2.
#[export] Hint Extern 2 (linear (fun x => Z.land _ (2 ^ _) * _)) =>
  apply linear_feedback; [lia|] : gf2.

(** ** Extensionality: a linear map is determined by its values on bits *)

Lemma linear_0 f : linear f -> f 0 = 0.
Proof. intros Hf. pose proof (Hf 0 0) as H. by rewrite !Z.lxor_nilpotent in H. Qed.

Lemma split_top_bit n x :
  0 <= n -> 0 <= x < 2 ^ (n + 1) ->
  exists y, 0 <= y < 2 ^ n /\ (x = y \/ x = Z.lxor (2 ^ n) y).
Proof.
  intros Hn Hx. rewrite Z.pow_add_r in Hx by lia. change (2 ^ 1) with 2 in Hx.
  destruct (decide (x < 2 ^ n)) as [Hlt|Hge]; [exists x; split; [lia|by left]|].
  exists (x - 2 ^ n). split; [lia|]. right.
  assert (Hand : Z.land (2 ^ n) (x - 2 ^ n) = 0).
  { rewrite Z.land_comm, land_pow2 by lia.
    replace (Z.testbit (x - 2 ^ n) n) with false; [done|].
    symmetry. apply Z.testbit_false; [lia|]. by rewrite Z.div_small by lia. }
  rewrite <- Z.add_nocarry_lxor by done. lia.
Qed.

Lemma linear_ext n f g :
  linear f -> linear g ->
  (forall i, (i < n)%nat -> f (2 ^ Z.of_nat i) = g (2 ^ Z.of_nat i)) ->
  forall x, 0 <= x < 2 ^ Z.of_nat n -> f x = g x.
Proof.
  intros Hf Hg. induction n as [|n IH]; intros Hb x Hx.
  - replace x with 0 by (change (2 ^ Z.of_nat 0) with 1 in Hx; lia).
    by rewrite !linear_0.
  - destruct (split_top_bit (Z.of_nat n) x) as (y & Hy & [->| ->]);
      [lia|by replace (Z.of_nat n + 1) with (Z.of_nat (S n)) by lia|..].
    + apply IH; [intros; apply Hb; lia|done].
    + rewrite Hf, Hg, Hb, IH by (try lia; intros; apply Hb; lia). done.
Qed.

(** [Z.lxor]-differences decide injectivity of a linear map. *)
Lemma linear_inj_kernel f a b :
  linear f -> (f (Z.lxor a b) = 0 -> Z.lxor a b = 0) -> f a = f b -> a = b.
Proof.
  intros Hf Hk Heq. apply Z.lxor_eq, Hk. by rewrite Hf, Heq, Z.lxor_nilpotent.
Qed.
