(* ===== verification/UsbCrc.v ===== *)
(** The CRC routines of src/vpi/usb/usbcrc.c.  CRC5 protects the 11 bits of a
    token, CRC16 the payload of a data packet.  All arithmetic is done in
    [int] by the code and truncated by each assignment to the [uint16_t] or
    [uint8_t] register, which is what [u16] and [u8] write out. *)

From S2P Require Import Prelude Gf2.

Definition CRC5_START : Z := 0x1F.
Definition CRC5_POLYN : Z := 0x05.
Definition CRC5_START_REFLECTED : Z := 0xF800.
Definition CRC5_POLYN_REFLECTED : Z := 0x14.
Definition CRC16_START_REFLECTED : Z := 0xFFFF.
Definition CRC16_POLYN_REFLECTED : Z := 0xA001.
Definition CRC16_RESID_REFLECTED : Z := 0xB001.

(** [for (int j = 8; j--;) { y |= (x & 1) << j; x >>= 1; }] *)
Fixpoint reflect8_loop (j : nat) (x y : Z) : Z :=
  match j with
  | O => y
  | S j' => reflect8_loop j' (u8 (Z.shiftr x 1))
              (u8 (Z.lor y (Z.shiftl (Z.land x 0x01) (Z.of_nat j'))))
  end.

Definition reflect8 (x : Z) : Z := reflect8_loop 8 x 0.

Definition crc5_calc_bit (crc : Z) : Z :=
  u16 (Z.lxor (Z.shiftr crc 1)
         (Z.land (Z.lxor crc (Z.shiftl crc 11)) 0x0800 * CRC5_POLYN_REFLECTED)).

Definition crc5_calc (dat : Z) : Z :=
  let crc := u16 (Z.lor CRC5_START_REFLECTED (Z.land dat 0x07FF)) in
  let crc := Nat.iter 11 crc5_calc_bit crc in
  u16 (Z.lor (Z.land dat 0x07FF) (Z.land (Z.lnot crc) 0xF800)).

Definition crc5_check_bit (st : Z * Z) : Z * Z :=
  let '(crc, dat) := st in
  (u8 (Z.lxor (Z.shiftl crc 1)
         (Z.land (Z.lxor dat (Z.shiftr crc 4)) 0x01 * CRC5_POLYN)),
   u16 (Z.shiftr dat 1)).

Definition crc5_check (dat : Z) : bool :=
  let crc := fst (Nat.iter 16 crc5_check_bit (CRC5_START, dat)) in
  Z.land crc 0x1F =? 0x0C.

Definition crc16_bit (st : Z * Z) : Z * Z :=
  let '(crc, val) := st in
  (u16 (Z.lxor (Z.shiftr crc 1)
          (Z.land (Z.lxor val crc) 0x01 * CRC16_POLYN_REFLECTED)),
   u16 (Z.shiftr val 1)).

Definition crc16_byte (crc val : Z) : Z := fst (Nat.iter 8 crc16_bit (crc, val)).

(** [crc16_calc(ptr, len)]: [ptr] is the list of the [len] bytes read. *)
Definition crc16_calc (ptr : list Z) : Z :=
  u16 (Z.lnot (foldl crc16_byte CRC16_START_REFLECTED ptr)).

Definition crc16_check (ptr : list Z) : bool :=
  let crc := u16 (Z.lnot (crc16_calc ptr)) in
  crc =? CRC16_RESID_REFLECTED.

(** ** CRC16 as a linear register *)

(** One shift of the register with no message bit. *)
Definition zstep (s : Z) : Z :=
  Z.lxor (Z.shiftr s 1) (Z.land s (2 ^ 0) * CRC16_POLYN_REFLECTED).

(** The message as one integer, in transmission order from bit 0. *)
Fixpoint le_int (msg : list Z) : Z :=
  match msg with
  | [] => 0
  | b :: msg' => b + 2 ^ 8 * le_int msg'
  end.

(** The generator x^16 + x^15 + x^2 + 1, highest power in bit 0. *)
Definition CRC16_GENERATOR_REFLECTED : Z := 0x14003.

Lemma zstep_linear : linear zstep.
Proof. unfold zstep. auto with gf2. Qed.

Lemma zstep_iter_linear n : linear (fun x => Nat.iter n zstep x).
Proof. apply linear_iter, zstep_linear. Qed.

#[export] Hint Resolve zstep_linear zstep_iter_linear : gf2.

Lemma feedback_bounds s c :
  0 <= c < 2 ^ 16 -> 0 <= Z.land s (2 ^ 0) * c < 2 ^ 16.
Proof.
  intros Hc. rewrite land_pow2 by lia. destruct (Z.testbit s 0); cbn [Z.b2z]; lia.
Qed.

Lemma shiftr1_bounds s w : 0 < w -> 0 <= s < 2 ^ w -> 0 <= Z.shiftr s 1 < 2 ^ (w - 1).
Proof.
  intros Hw Hs. rewrite Z.shiftr_div_pow2 by lia.
  replace w with (w - 1 + 1) in Hs by lia. rewrite Z.pow_add_r in Hs by lia.
  change (2 ^ 1) with 2 in *. split; [apply Z.div_pos; lia|apply Z.div_lt_upper_bound; lia].
Qed.

Lemma zstep_bounds s : 0 <= s < 2 ^ 16 -> 0 <= zstep s < 2 ^ 16.
Proof.
  intros Hs. pose proof (shiftr1_bounds s 16 ltac:(lia) Hs).
  apply lxor_bounded; [lia| |apply feedback_bounds; unfold CRC16_POLYN_REFLECTED; lia]. lia.
Qed.

Lemma zstep_iter_bounds n s : 0 <= s < 2 ^ 16 -> 0 <= Nat.iter n zstep s < 2 ^ 16.
Proof. intros Hs. induction n; [done|]. simpl. by apply zstep_bounds. Qed.

Lemma crc16_bit_zstep crc val :
  0 <= crc < 2 ^ 16 -> 0 <= val < 2 ^ 16 ->
  let '(crc', val') := crc16_bit (crc, val) in
  Z.lxor crc' val' = zstep (Z.lxor crc val) /\ val' = Z.shiftr val 1
  /\ 0 <= crc' < 2 ^ 16 /\ 0 <= val' < 2 ^ 16.
Proof.
  intros Hc Hv. cbn [crc16_bit].
  pose proof (shiftr1_bounds crc 16 ltac:(lia) Hc).
  pose proof (shiftr1_bounds val 16 ltac:(lia) Hv).
  change (Z.land (Z.lxor val crc) 1) with (Z.land (Z.lxor val crc) (2 ^ 0)).
  pose proof (feedback_bounds (Z.lxor val crc) CRC16_POLYN_REFLECTED
                ltac:(unfold CRC16_POLYN_REFLECTED; lia)) as Hf.
  pose proof (lxor_bounded 16 (Z.shiftr crc 1) _ ltac:(lia) ltac:(lia) Hf).
  unfold u16. rewrite !Z.mod_small by lia.
  repeat split; try lia. unfold zstep.
  rewrite Z.shiftr_lxor, (Z.lxor_comm val crc).
  rewrite !Z.lxor_assoc. f_equal. apply Z.lxor_comm.
Qed.

Lemma crc16_byte_zstep crc val :
  0 <= crc < 2 ^ 16 -> is_byte val ->
  crc16_byte crc val = Nat.iter 8 zstep (Z.lxor crc val).
Proof.
  intros Hc Hv. unfold is_byte in Hv.
  assert (Hind : forall n, let '(c, v) := Nat.iter n crc16_bit (crc, val) in
    Z.lxor c v = Nat.iter n zstep (Z.lxor crc val) /\ v = Z.shiftr val (Z.of_nat n)
    /\ 0 <= c < 2 ^ 16 /\ 0 <= v < 2 ^ 16).
  { induction n as [|n IH]; [simpl; rewrite Z.shiftr_0_r; repeat split; lia|].
    rewrite !Nat.iter_succ. destruct (Nat.iter n crc16_bit (crc, val)) as [c v].
    destruct IH as (He & -> & Hcb & Hvb).
    pose proof (crc16_bit_zstep _ _ Hcb Hvb) as Hb. revert Hb.
    destruct (crc16_bit (c, Z.shiftr val (Z.of_nat n))) as [c' v'].
    intros (H1 & -> & H2 & H3). rewrite Z.shiftr_shiftr in * by lia.
    rewrite H1, He. replace (Z.of_nat (S n)) with (Z.of_nat n + 1) by lia. done. }
  specialize (Hind 8%nat). unfold crc16_byte.
  destruct (Nat.iter 8 crc16_bit (crc, val)) as [c v]. destruct Hind as (He & -> & _).
  rewrite <- He. cbn [fst].
  rewrite Z.shiftr_div_pow2, Z.div_small by lia. by rewrite Z.lxor_0_r.
Qed.

Lemma zstep_shiftl x n : zstep (Z.shiftl x (Z.of_nat (S n))) = Z.shiftl x (Z.of_nat n).
Proof.
  unfold zstep. rewrite land_pow2, Z.shiftl_spec_low by lia. cbn [Z.b2z].
  rewrite Z.mul_0_l, Z.lxor_0_r, Z.shiftr_shiftl_l by lia. f_equal. lia.
Qed.

Lemma zstep_iter_shiftl n x : Nat.iter n zstep (Z.shiftl x (Z.of_nat n)) = x.
Proof.
  induction n as [|n IH]; [by rewrite Z.shiftl_0_r|].
  by rewrite Nat.iter_succ_r, zstep_shiftl.
Qed.

Lemma le_int_cons b msg :
  is_byte b -> le_int (b :: msg) = Z.lxor b (Z.shiftl (le_int msg) 8).
Proof.
  intros Hb. unfold is_byte in Hb. cbn [le_int].
  rewrite Z.shiftl_mul_pow2, (Z.mul_comm (le_int msg)) by lia.
  apply Z.add_nocarry_lxor. apply Z.bits_inj'. intros i Hi.
  rewrite Z.land_spec, Z.bits_0. destruct (decide (i < 8)).
  - rewrite (Z.mul_comm (2 ^ 8)), Z.mul_pow2_bits_low by lia. by rewrite andb_false_r.
  - rewrite <- (Z.mod_small b (2 ^ 8)) by (change (2 ^ 8) with 256; lia).
    by rewrite Z.mod_pow2_bits_high by lia.
Qed.

Lemma crc16_fold r msg :
  0 <= r < 2 ^ 16 -> Forall is_byte msg ->
  foldl crc16_byte r msg = Nat.iter (8 * length msg) zstep (Z.lxor r (le_int msg)).
Proof.
  intros Hr Hmsg. revert r Hr. induction Hmsg as [|b msg Hb Hmsg IH]; intros r Hr.
  - cbn. by rewrite Z.lxor_0_r.
  - cbn [foldl length].
    assert (Hrb : 0 <= Z.lxor r b < 2 ^ 16).
    { unfold is_byte in Hb. apply lxor_bounded; lia. }
    rewrite crc16_byte_zstep, IH by (try apply zstep_iter_bounds; done).
    rewrite le_int_cons by done.
    replace (8 * S (length msg))%nat with (8 * length msg + 8)%nat by lia.
    rewrite Nat.iter_add. f_equal.
    rewrite <- (zstep_iter_shiftl 8 (le_int msg)) at 1.
    rewrite <- zstep_iter_linear, Z.lxor_assoc. done.
Qed.

Lemma crc16_fold_bounds r msg :
  0 <= r < 2 ^ 16 -> Forall is_byte msg -> 0 <= foldl crc16_byte r msg < 2 ^ 16.
Proof.
  intros Hr Hmsg. revert r Hr. induction Hmsg as [|b msg Hb Hmsg IH]; intros r Hr; [done|].
  cbn [foldl]. apply IH. rewrite crc16_byte_zstep by done. apply zstep_iter_bounds.
  unfold is_byte in Hb. apply lxor_bounded; lia.
Qed.

Lemma start_bounds : 0 <= CRC16_START_REFLECTED < 2 ^ 16.
Proof. unfold CRC16_START_REFLECTED. lia. Qed.

Lemma u16_lnot r : 0 <= r < 2 ^ 16 -> u16 (Z.lnot r) = Z.lxor r 0xFFFF.
Proof.
  intros Hr. unfold u16. change 0xFFFF with (Z.ones 16).
  rewrite <- Z.land_ones by lia. apply Z.bits_inj'. intros i Hi.
  rewrite Z.land_spec, Z.lxor_spec, Z.lnot_spec by done.
  destruct (decide (i < 16)).
  - rewrite Z.ones_spec_low by lia. by destruct (Z.testbit r i).
  - rewrite Z.ones_spec_high by lia. rewrite <- (Z.mod_small r (2 ^ 16)) by lia.
    by rewrite Z.mod_pow2_bits_high by lia.
Qed.

Lemma crc16_calc_lxor msg :
  Forall is_byte msg ->
  crc16_calc msg = Z.lxor (foldl crc16_byte CRC16_START_REFLECTED msg) 0xFFFF.
Proof. intros. apply u16_lnot, crc16_fold_bounds; [apply start_bounds|done]. Qed.

Lemma crc16_calc_bounds msg : 0 <= crc16_calc msg < 2 ^ 16.
Proof. apply Z.mod_pos_bound. lia. Qed.

Lemma crc16_check_fold msg :
  Forall is_byte msg ->
  crc16_check msg = (foldl crc16_byte CRC16_START_REFLECTED msg =? CRC16_RESID_REFLECTED).
Proof.
  intros. unfold crc16_check. rewrite u16_lnot by apply crc16_calc_bounds.
  by rewrite crc16_calc_lxor, lxor_cancel_r.
Qed.

Lemma zstep_kernel s : 0 <= s < 2 ^ 16 -> zstep s = 0 -> s = 0.
Proof.
  intros Hs H. pose proof (shiftr1_bounds s 16 ltac:(lia) Hs) as Hb.
  apply lxor_move in H. rewrite Z.lxor_0_r, land_pow2 in H by lia.
  change (2 ^ 0) with 1 in H. rewrite Z.mul_1_r in H.
  destruct (Z.testbit s 0) eqn:E; cbn [Z.b2z] in H.
  - unfold CRC16_POLYN_REFLECTED in H. change (2 ^ (16 - 1)) with 32768 in Hb. lia.
  - pose proof (Z.div2_odd s) as Hodd. rewrite Z.div2_spec, H in Hodd.
    rewrite <- Z.bit0_odd, E in Hodd. cbn in Hodd. lia.
Qed.

Lemma zstep_iter_kernel n s : 0 <= s < 2 ^ 16 -> Nat.iter n zstep s = 0 -> s = 0.
Proof.
  intros Hs. induction n as [|n IH]; [done|].
  rewrite Nat.iter_succ. intros H%zstep_kernel; [auto|by apply zstep_iter_bounds].
Qed.

Lemma zstep_iter_inj n a b :
  0 <= a < 2 ^ 16 -> 0 <= b < 2 ^ 16 ->
  Nat.iter n zstep a = Nat.iter n zstep b -> a = b.
Proof.
  intros Ha Hb. apply (linear_inj_kernel (fun x => Nat.iter n zstep x)); [apply zstep_iter_linear|].
  apply zstep_iter_kernel, lxor_bounded; lia.
Qed.

(** The two CRC bytes as every sender of the code computes them:
    [crc1 = crc & 0xFF; crc2 = (crc >> 8) & 0xFF]. *)
Definition crc_lo (crc : Z) : Z := Z.land crc 0xFF.
Definition crc_hi (crc : Z) : Z := Z.land (Z.shiftr crc 8) 0xFF.

Lemma crc_lo_mod crc : crc_lo crc = crc mod 2 ^ 8.
Proof. unfold crc_lo. change 0xFF with (Z.ones 8). by rewrite Z.land_ones by lia. Qed.

Lemma crc_hi_mod crc : crc_hi crc = (crc / 2 ^ 8) mod 2 ^ 8.
Proof.
  unfold crc_hi. change 0xFF with (Z.ones 8).
  by rewrite Z.land_ones, Z.shiftr_div_pow2 by lia.
Qed.

Lemma crc_lo_byte crc : is_byte (crc_lo crc).
Proof. rewrite crc_lo_mod. unfold is_byte. pose proof (Z.mod_pos_bound crc (2 ^ 8)). lia. Qed.

Lemma crc_hi_byte crc : is_byte (crc_hi crc).
Proof.
  rewrite crc_hi_mod. unfold is_byte. pose proof (Z.mod_pos_bound (crc / 2 ^ 8) (2 ^ 8)). lia.
Qed.

Lemma crc_pair_bytes crc : Forall is_byte [crc_lo crc; crc_hi crc].
Proof. apply Forall_cons; [apply crc_lo_byte|]. apply Forall_singleton, crc_hi_byte. Qed.

#[export] Hint Resolve crc_lo_byte crc_hi_byte crc_pair_bytes : core.

Lemma le_int_crc crc : 0 <= crc < 2 ^ 16 -> le_int [crc_lo crc; crc_hi crc] = crc.
Proof.
  intros Hc. cbn [le_int]. rewrite crc_lo_mod, crc_hi_mod.
  rewrite (Z.mod_small (crc / 2 ^ 8)).
  - pose proof (Z.div_mod crc (2 ^ 8)). lia.
  - split; [apply Z.div_pos; lia|apply Z.div_lt_upper_bound; lia].
Qed.

Lemma foldl_append_crc msg :
  Forall is_byte msg ->
  foldl crc16_byte CRC16_START_REFLECTED
    (msg ++ [crc_lo (crc16_calc msg); crc_hi (crc16_calc msg)]) = CRC16_RESID_REFLECTED.
Proof.
  intros Hmsg. rewrite foldl_app, crc16_fold;
    [|by apply crc16_fold_bounds; [apply start_bounds|]|done].
  rewrite le_int_crc by apply crc16_calc_bounds.
  rewrite crc16_calc_lxor, <- Z.lxor_assoc, Z.lxor_nilpotent by done. reflexivity.
Qed.

(** Equal registers after a common suffix mean equal registers before it. *)
Lemma crc16_suffix_inj r1 r2 s :
  0 <= r1 < 2 ^ 16 -> 0 <= r2 < 2 ^ 16 -> Forall is_byte s ->
  foldl crc16_byte r1 s = foldl crc16_byte r2 s -> r1 = r2.
Proof.
  intros H1 H2 Hs. rewrite !crc16_fold by done. rewrite !zstep_iter_linear.
  intros H%lxor_inj_r. by apply zstep_iter_inj in H.
Qed.

Lemma le_int_pair_bounds a b : is_byte a -> is_byte b -> 0 <= le_int [a; b] < 2 ^ 16.
Proof. unfold is_byte. cbn [le_int]. lia. Qed.

Lemma crc16_pair_inj r a1 a2 b1 b2 :
  0 <= r < 2 ^ 16 -> Forall is_byte [a1; a2] -> Forall is_byte [b1; b2] ->
  foldl crc16_byte r [a1; a2] = foldl crc16_byte r [b1; b2] -> a1 = b1 /\ a2 = b2.
Proof.
  intros Hr Ha Hb. rewrite !crc16_fold by done.
  apply Forall_pair in Ha as [Ha1 Ha2]. apply Forall_pair in Hb as [Hb1 Hb2].
  intros H%zstep_iter_inj; try (apply lxor_bounded; try lia; by apply le_int_pair_bounds).
  apply lxor_inj_l in H. cbn [le_int] in H. unfold is_byte in *. lia.
Qed.

(** ** Polynomial division *)

Lemma clmul_low_ext k q q' g :
  (forall i, 0 <= i < Z.of_nat k -> Z.testbit q i = Z.testbit q' i) ->
  clmul k q g = clmul k q' g.
Proof.
  induction k as [|k IH]; intros H; [done|]. cbn [clmul].
  rewrite IH, H by (lia || (intros; apply H; lia)). done.
Qed.

Lemma zstep_divides s :
  s = Z.lxor (if Z.testbit s 0 then CRC16_GENERATOR_REFLECTED else 0) (Z.shiftl (zstep s) 1).
Proof.
  assert (Hs : s = Z.lxor (Z.b2z (Z.testbit s 0)) (Z.shiftl (Z.shiftr s 1) 1)).
  { apply Z.bits_inj'. intros i Hi. rewrite Z.lxor_spec, Z.shiftl_spec by done.
    destruct (decide (i = 0)) as [->|Hne].
    - rewrite Z.b2z_bit0, (Z.testbit_neg_r _ (0 - 1)) by lia. by rewrite xorb_false_r.
    - rewrite Z.shiftr_spec by lia. replace (i - 1 + 1) with i by lia.
      replace (Z.testbit (Z.b2z (Z.testbit s 0)) i) with false.
      + by rewrite xorb_false_l.
      + destruct (Z.testbit s 0); cbn [Z.b2z]; [|by rewrite Z.bits_0].
        change 1 with (2 ^ 0). by rewrite Z.pow2_bits_false by lia. }
  rewrite Hs at 1. unfold zstep. rewrite land_pow2, Z.mul_1_r by lia.
  rewrite Z.shiftl_lxor, (Z.lxor_comm (Z.shiftl (Z.shiftr s 1) 1)), <- Z.lxor_assoc.
  f_equal. by destruct (Z.testbit s 0).
Qed.

Lemma zstep_division k a :
  exists q, a = Z.lxor (clmul k q CRC16_GENERATOR_REFLECTED)
                  (Z.shiftl (Nat.iter k zstep a) (Z.of_nat k)).
Proof.
  induction k as [|k (q & IH)]; [exists 0; cbn; by rewrite Z.shiftl_0_r|].
  set (s := Nat.iter k zstep a) in *.
  exists (if Z.testbit s 0 then Z.setbit q (Z.of_nat k) else Z.clearbit q (Z.of_nat k)).
  cbn [clmul]. rewrite (clmul_low_ext k _ q); cycle 1.
  { intros i Hi. destruct (Z.testbit s 0);
      [rewrite Z.setbit_neq|rewrite Z.clearbit_neq]; done || lia. }
  rewrite IH at 1. rewrite (zstep_divides s) at 1. rewrite Z.shiftl_lxor, Z.lxor_assoc.
  rewrite Nat.iter_succ. fold s. rewrite Z.shiftl_shiftl by lia.
  replace (1 + Z.of_nat k) with (Z.of_nat (S k)) by lia. f_equal. f_equal.
  destruct (Z.testbit s 0);
    [by rewrite Z.setbit_eq by lia|by rewrite Z.clearbit_eq, Z.shiftl_0_l by lia].
Qed.

(** ** CRC5 as affine maps *)

Definition crc5_check_lin (d : Z) : Z := fst (Nat.iter 16 crc5_check_bit (0, d)).
Definition crc5_check_const : Z := fst (Nat.iter 16 crc5_check_bit (CRC5_START, 0)).

Definition pair_lxor (p q : Z * Z) : Z * Z := (Z.lxor p.1 q.1, Z.lxor p.2 q.2).

Lemma crc5_check_bit_linear p q :
  crc5_check_bit (pair_lxor p q) = pair_lxor (crc5_check_bit p) (crc5_check_bit q).
Proof.
  destruct p as [c1 d1], q as [c2 d2]. unfold pair_lxor. cbn [crc5_check_bit fst snd].
  assert (Hshift : linear (fun d => u16 (Z.shiftr d 1))) by (unfold u16; auto with gf2).
  assert (Hreg : linear (fun c => u8 (Z.lxor (Z.shiftl c 1)
                    (Z.land (Z.shiftr c 4) (2 ^ 0) * CRC5_POLYN)))).
  { unfold u8. auto with gf2. }
  assert (Hdat : linear (fun d => u8 (Z.land d (2 ^ 0) * CRC5_POLYN))).
  { unfold u8. auto with gf2. }
  assert (Hfb : linear (fun x => Z.land x (2 ^ 0) * CRC5_POLYN)) by auto with gf2.
  assert (Hsplit : forall c d, u8 (Z.lxor (Z.shiftl c 1)
      (Z.land (Z.lxor d (Z.shiftr c 4)) 1 * CRC5_POLYN)) =
    Z.lxor (u8 (Z.lxor (Z.shiftl c 1) (Z.land (Z.shiftr c 4) (2 ^ 0) * CRC5_POLYN)))
           (u8 (Z.land d (2 ^ 0) * CRC5_POLYN))).
  { intros c d. change 1 with (2 ^ 0) at 2. rewrite Hfb.
    assert (Hu8 : linear (fun x => u8 x)) by (unfold u8; auto with gf2).
    rewrite <- Hu8. f_equal. rewrite !Z.lxor_assoc. f_equal. apply Z.lxor_comm. }
  f_equal; [|apply Hshift]. rewrite !Hsplit, Hreg, Hdat. apply lxor_swap4.
Qed.

Lemma crc5_check_iter_linear n p q :
  Nat.iter n crc5_check_bit (pair_lxor p q) =
  pair_lxor (Nat.iter n crc5_check_bit p) (Nat.iter n crc5_check_bit q).
Proof. induction n as [|n IH]; [done|]. by rewrite !Nat.iter_succ, IH, crc5_check_bit_linear. Qed.

Lemma crc5_check_lin_linear : linear crc5_check_lin.
Proof.
  intros a b. unfold crc5_check_lin.
  change (0, Z.lxor a b) with (pair_lxor (0, a) (0, b)). by rewrite crc5_check_iter_linear.
Qed.

Lemma crc5_check_affine dat :
  crc5_check dat = (Z.land (Z.lxor crc5_check_const (crc5_check_lin dat)) 0x1F =? 0x0C).
Proof.
  unfold crc5_check. change (CRC5_START, dat) with (pair_lxor (CRC5_START, 0) (0, dat)).
  rewrite crc5_check_iter_linear. unfold pair_lxor, crc5_check_const, crc5_check_lin.
  cbn [fst]. reflexivity.
Qed.

(** The register of [crc5_check] after the codeword of [d], as a linear map. *)
Definition crc5_calc_lin (d : Z) : Z :=
  Z.lxor (Z.land d 0x07FF) (Z.land (Nat.iter 11 crc5_calc_bit (Z.land d 0x07FF)) 0xF800).

Lemma crc5_calc_bit_linear : linear crc5_calc_bit.
Proof. unfold crc5_calc_bit, u16. change 0x0800 with (2 ^ 11). auto 8 with gf2. Qed.

Lemma crc5_calc_lin_linear : linear crc5_calc_lin.
Proof.
  unfold crc5_calc_lin. apply linear_lxor; [auto with gf2|]. apply linear_land.
  apply (linear_comp (fun x => Nat.iter 11 crc5_calc_bit x)); [|auto with gf2].
  apply linear_iter, crc5_calc_bit_linear.
Qed.

Lemma lor_lxor_disjoint a b : Z.land a b = 0 -> Z.lor a b = Z.lxor a b.
Proof.
  intros H. apply Z.bits_inj'. intros i Hi. rewrite Z.lor_spec, Z.lxor_spec.
  assert (Hb : Z.testbit (Z.land a b) i = false) by (rewrite H; apply Z.bits_0).
  rewrite Z.land_spec in Hb. by destruct (Z.testbit a i), (Z.testbit b i).
Qed.

Lemma land_disjoint a b m n : Z.land m n = 0 -> Z.land (Z.land a m) (Z.land b n) = 0.
Proof.
  intros H. rewrite !Z.land_assoc, <- (Z.land_assoc a m b), (Z.land_comm m b).
  by rewrite <- !Z.land_assoc, H, !Z.land_0_r.
Qed.

Definition crc5_calc_const : Z := crc5_calc 0.

Lemma crc5_calc_affine d :
  crc5_calc d = Z.lxor (crc5_calc_lin d) crc5_calc_const.
Proof.
  unfold crc5_calc. set (m := Z.land d 0x07FF).
  assert (Hm : 0 <= m < 2 ^ 11).
  { unfold m. change 0x07FF with (Z.ones 11). rewrite Z.land_ones by lia.
    apply Z.mod_pos_bound. lia. }
  rewrite (lor_lxor_disjoint CRC5_START_REFLECTED m).
  2: { unfold m. rewrite <- (Z.land_diag CRC5_START_REFLECTED), <- Z.land_assoc.
       by rewrite (Z.land_comm d), (Z.land_assoc _ 0x07FF). }
  assert (Hiter : linear (fun x => Nat.iter 11 crc5_calc_bit (u16 x))).
  { apply (linear_comp (fun x => Nat.iter 11 crc5_calc_bit x)).
    - apply linear_iter, crc5_calc_bit_linear.
    - unfold u16. auto with gf2. }
  rewrite Hiter. rewrite (u16_small m) by lia.
  set (k := Nat.iter 11 crc5_calc_bit m).
  rewrite lor_lxor_disjoint by (unfold m; by apply land_disjoint).
  assert (Hf8 : linear (fun x => Z.land x 0xF800)) by auto with gf2.
  assert (Hu : linear (fun x => u16 x)) by (unfold u16; auto with gf2).
  rewrite <- Z.lxor_m1_l, !Hf8, !Hu. unfold crc5_calc_lin. fold m. fold k.
  assert (Hk : u16 (Z.land k 0xF800) = Z.land k 0xF800).
  { unfold u16. rewrite <- Z.land_ones, <- Z.land_assoc by lia. done. }
  rewrite Hk, (u16_small m) by lia.
  rewrite !Z.lxor_assoc. f_equal.
  rewrite <- Z.lxor_assoc, Z.lxor_comm. f_equal.
Qed.

Lemma crc5_check_lin_codeword d :
  0 <= d < 2 ^ 16 -> Z.land (crc5_check_lin (crc5_calc_lin d)) 0x1F = 0.
Proof.
  apply (linear_ext 16 (fun d => Z.land (crc5_check_lin (crc5_calc_lin d)) 0x1F) (fun _ => 0)).
  - apply linear_land. apply (linear_comp crc5_check_lin);
      [apply crc5_check_lin_linear|apply crc5_calc_lin_linear].
  - apply linear_const_0.
  - intros i Hi. do 16 (destruct i as [|i]; [reflexivity|]). lia.
Qed.

(** The syndrome of a received token. *)
Definition crc5_syndrome (e : Z) : Z := Z.land (crc5_check_lin e) 0x1F.

Lemma crc5_syndrome_linear : linear crc5_syndrome.
Proof. unfold crc5_syndrome. apply linear_land, crc5_check_lin_linear. Qed.

Lemma crc5_check_syndrome d e :
  crc5_check d = true -> crc5_check (Z.lxor d e) = (crc5_syndrome e =? 0).
Proof.
  rewrite !crc5_check_affine. intros Hd%Z.eqb_eq.
  rewrite crc5_check_lin_linear, <- Z.lxor_assoc.
  assert (Hl : linear (fun x => Z.land x 0x1F)) by auto with gf2.
  rewrite Hl, Hd. unfold crc5_syndrome.
  apply eq_bool_prop_intro. rewrite !Is_true_true, !Z.eqb_eq. split; intros H.
  - rewrite <- (Z.lxor_0_r 0x0C) in H at 2. by apply lxor_inj_l in H.
  - rewrite H. apply Z.lxor_0_r.
Qed.

Lemma crc5_check_calc d : 0 <= d < 2 ^ 16 -> crc5_check (crc5_calc d) = true.
Proof.
  intros Hd. rewrite crc5_calc_affine, Z.lxor_comm.
  rewrite (crc5_check_syndrome crc5_calc_const) by (vm_compute; reflexivity).
  unfold crc5_syndrome. by rewrite crc5_check_lin_codeword.
Qed.

Lemma crc5_calc_payload d : Z.land (crc5_calc d) 0x07FF = Z.land d 0x07FF.
Proof.
  unfold crc5_calc. set (c := Nat.iter _ _ _). unfold u16.
  rewrite <- Z.land_ones by lia. rewrite <- Z.land_assoc.
  change (Z.land (Z.ones 16) 0x07FF) with 0x07FF.
  rewrite Z.land_lor_distr_l, <- !Z.land_assoc.
  change (Z.land 0xF800 0x07FF) with 0. change (Z.land 0x07FF 0x07FF) with 0x07FF.
  by rewrite Z.land_0_r, Z.lor_0_r.
Qed.

Lemma crc5_calc_bounds d : 0 <= crc5_calc d < 2 ^ 16.
Proof. apply Z.mod_pos_bound. lia. Qed.

(** Only the 5 check bits distinguish a token from its codeword. *)
Lemma check_bits_error d c :
  0 <= d < 2 ^ 16 -> 0 <= c < 2 ^ 16 -> Z.land d 0x07FF = Z.land c 0x07FF ->
  exists y, 0 <= y < 32 /\ d = Z.lxor c (Z.shiftl y 11).
Proof.
  intros Hd Hc H. exists (Z.shiftr (Z.lxor c d) 11).
  assert (Hb : 0 <= Z.lxor c d < 2 ^ 16) by (apply lxor_bounded; lia).
  split.
  - rewrite Z.shiftr_div_pow2 by lia.
    split; [apply Z.div_pos; lia|apply Z.div_lt_upper_bound; lia].
  - apply Z.bits_inj'. intros i Hi. rewrite Z.lxor_spec, Z.shiftl_spec by done.
    destruct (decide (i < 11)) as [Hlt|Hge].
    + rewrite (Z.testbit_neg_r _ (i - 11)), xorb_false_r by lia.
      assert (Hti : Z.testbit (Z.land d 0x07FF) i = Z.testbit (Z.land c 0x07FF) i)
        by by rewrite H.
      rewrite !Z.land_spec in Hti. change 0x07FF with (Z.ones 11) in Hti.
      by rewrite Z.ones_spec_low, !andb_true_r in Hti by lia.
    + rewrite Z.shiftr_spec by lia. replace (i - 11 + 11) with i by lia.
      rewrite Z.lxor_spec. by destruct (Z.testbit c i), (Z.testbit d i).
Qed.

Lemma crc5_syndrome_check_bits y :
  0 <= y < 32 -> crc5_syndrome (Z.shiftl y 11) = 0 -> y = 0.
Proof.
  intros Hy H.
  assert (Hall : forallb (fun y => (y =? 0) || negb (crc5_syndrome (Z.shiftl y 11) =? 0))
                   (seqZ 0 32) = true) by (vm_compute; reflexivity).
  rewrite forallb_forall in Hall. specialize (Hall y).
  rewrite <- list_elem_of_In, elem_of_seqZ in Hall. specialize (Hall ltac:(lia)).
  rewrite H in Hall. cbn in Hall. rewrite orb_false_r in Hall. lia.
Qed.

(** ** Properties *)

(** C11.  CRC16 round trip: the message followed by its two CRC bytes, low byte
    first as the senders emit them, passes [crc16_check]. *)
Theorem crc16_roundtrip msg :
  Forall is_byte msg ->
  crc16_check (msg ++ [crc_lo (crc16_calc msg); crc_hi (crc16_calc msg)]) = true.
Proof.
  intros Hmsg. rewrite crc16_check_fold by (by apply Forall_app_2).
  by rewrite foldl_append_crc.
Qed.

Lemma crc16_roundtrip_witness : crc16_check [0x80; 6; 0; 1; 0; 0; 0x40; 0; 0xDD; 0x94] = true.
Proof. apply (crc16_roundtrip [0x80; 6; 0; 1; 0; 0; 0x40; 0]). solve_bytes. Defined.

(** C28.  CRC16 error detection: of two packets that differ in at most two
    adjacent bytes, at most one passes [crc16_check]. *)
Theorem crc16_detects_adjacent p a1 a2 b1 b2 s :
  Forall is_byte p -> Forall is_byte [a1; a2] -> Forall is_byte [b1; b2] -> Forall is_byte s ->
  crc16_check (p ++ [a1; a2] ++ s) = true -> crc16_check (p ++ [b1; b2] ++ s) = true ->
  a1 = b1 /\ a2 = b2.
Proof.
  intros Hp Ha Hb Hs. rewrite !crc16_check_fold by (by repeat apply Forall_app_2).
  intros HA%Z.eqb_eq HB%Z.eqb_eq. rewrite <- HB, !foldl_app in HA.
  assert (Hr := crc16_fold_bounds _ _ start_bounds Hp).
  apply crc16_suffix_inj in HA; auto using crc16_fold_bounds.
  by apply crc16_pair_inj in HA.
Qed.

Lemma crc16_detects_adjacent_witness :
  Forall is_byte [192; 178] /\ crc16_check ([0x12] ++ [192; 178] ++ []) = true /\
  (192 = 192 /\ 178 = 178).
Proof.
  split; [solve_bytes|split; [reflexivity|]].
  apply (crc16_detects_adjacent [0x12] _ _ _ _ []); solve_bytes; reflexivity.
Defined.

(** C12.  CRC16 against its algebraic definition: the register the code computes
    (the complement of the returned value) is the remainder of the message,
    with the start value added to its first 16 bits and 16 zero bits appended,
    divided by x^16 + x^15 + x^2 + 1 over GF(2). *)
Theorem crc16_polynomial_remainder msg :
  Forall is_byte msg ->
  exists q, Z.lxor CRC16_START_REFLECTED (le_int msg) =
    Z.lxor (clmul (8 * length msg) q CRC16_GENERATOR_REFLECTED)
           (Z.shiftl (u16 (Z.lnot (crc16_calc msg))) (Z.of_nat (8 * length msg)))
  /\ 0 <= u16 (Z.lnot (crc16_calc msg)) < 2 ^ 16.
Proof.
  intros Hmsg. rewrite u16_lnot by apply crc16_calc_bounds.
  rewrite crc16_calc_lxor, lxor_cancel_r by done.
  destruct (zstep_division (8 * length msg) (Z.lxor CRC16_START_REFLECTED (le_int msg))) as [q Hq].
  exists q. rewrite crc16_fold by (done || apply start_bounds). split; [exact Hq|].
  rewrite <- crc16_fold by (done || apply start_bounds).
  by apply crc16_fold_bounds; [apply start_bounds|].
Qed.

(** C16.  CRC5 accepts exactly the codewords: a 16-bit token passes [crc5_check]
    if and only if it is the [crc5_calc] of its own low 11 bits. *)
Theorem crc5_check_iff_codeword dat :
  0 <= dat < 2 ^ 16 -> crc5_check dat = true <-> crc5_calc dat = dat.
Proof.
  intros Hd. pose proof (crc5_check_calc dat Hd) as Hc.
  destruct (check_bits_error dat (crc5_calc dat)) as (y & Hy & Hdy);
    [done|apply crc5_calc_bounds|by rewrite crc5_calc_payload|].
  split; intros H; [|by rewrite H in Hc].
  rewrite Hdy, (crc5_check_syndrome _ _ Hc) in H. apply Z.eqb_eq in H.
  apply crc5_syndrome_check_bits in H; [|done]. rewrite Hdy at 2. rewrite H.
  by rewrite Z.lxor_0_r.
Qed.

(** C27.  CRC5 error detection: flipping any one or two of the 16 bits of an
    accepted token makes [crc5_check] reject it. *)
Theorem crc5_min_distance dat i j :
  crc5_check dat = true -> 0 <= i < 16 -> 0 <= j < 16 ->
  crc5_check (Z.lxor dat (Z.lor (2 ^ i) (2 ^ j))) = false.
Proof.
  intros Hd Hi Hj. rewrite (crc5_check_syndrome _ _ Hd).
  assert (Hall : forallb (fun i => forallb (fun j =>
      negb (crc5_syndrome (Z.lor (2 ^ i) (2 ^ j)) =? 0)) (seqZ 0 16)) (seqZ 0 16) = true)
    by (vm_compute; reflexivity).
  rewrite forallb_forall in Hall. specialize (Hall i). rewrite forallb_forall in Hall.
  setoid_rewrite <- list_elem_of_In in Hall. setoid_rewrite elem_of_seqZ in Hall.
  specialize (Hall ltac:(lia) j ltac:(lia)). by apply negb_true_iff in Hall.
Qed.

Lemma crc16_polynomial_remainder_witness :
  exists q, Z.lxor CRC16_START_REFLECTED (le_int [0x80; 0x06]) =
    Z.lxor (clmul (8 * 2) q CRC16_GENERATOR_REFLECTED)
           (Z.shiftl (u16 (Z.lnot (crc16_calc [0x80; 0x06]))) (Z.of_nat (8 * 2)))
  /\ 0 <= u16 (Z.lnot (crc16_calc [0x80; 0x06])) < 2 ^ 16.
Proof. apply (crc16_polynomial_remainder [0x80; 0x06]). solve_bytes. Defined.

Lemma crc5_check_iff_codeword_witness : crc5_check 0x1000 = true <-> crc5_calc 0x1000 = 0x1000.
Proof. apply (crc5_check_iff_codeword 0x1000). lia. Defined.

Lemma crc5_min_distance_witness : crc5_check (Z.lxor 0x1000 (Z.lor (2 ^ 3) (2 ^ 15))) = false.
Proof. apply (crc5_min_distance 0x1000 3 15); [vm_compute; reflexivity|lia|lia]. Defined.
