(* ===== verification/Ulpi.v ===== *)
(** The ULPI bus and the transfer step functions of src/vpi/usb/ulpi.h and
    src/vpi/usb/ulpi.c, in the default configuration of the headers
    ([__fast_eop] is not defined).

    A [bit_t] is the [uint8_t] holding a VPI scalar and a [byte_t] the
    aval/bval pair of a VPI vector; both are integers here, so signals may be
    [SIGZ] or [SIGX].  Arrays are lists of the declared length and every access
    goes through [read_at] and [write_at], which return [Undef] outside of the
    bounds.  A step function takes the transfer, the bus it reads ([in], called
    [inp] here) and the bus it drives ([out]) and returns the code's [int]
    result with the updated transfer and the updated [out]. *)

From S2P Require Import Prelude UsbCrc.

(** ** Signals and protocol constants *)

Definition SIG0 : Z := 0.
Definition SIG1 : Z := 1.
Definition SIGZ : Z := 2.
Definition SIGX : Z := 3.

Definition MAX_PACKET_SIZE : Z := 512.
Definition MAX_CONFIG_SIZE : Z := 64.

Definition USBPID_OUT : Z := 0x1.
Definition USBPID_IN : Z := 0x9.
Definition USBPID_SOF : Z := 0x5.
Definition USBPID_SETUP : Z := 0xD.
Definition USBPID_DATA0 : Z := 0x3.
Definition USBPID_DATA1 : Z := 0xB.
Definition USBPID_ACK : Z := 0x2.
Definition USBPID_NAK : Z := 0xA.
Definition USBPID_STALL : Z := 0xE.
Definition USBPID_NYET : Z := 0x6.
Definition USBPID_PING : Z := 0x4.

Definition RX_EVENT_MASK : Z := 0x30.
Definition RX_ACTIVE_BITS : Z := 0x10.

Definition ULPITX_DATA0 : Z := Z.lor USBPID_DATA0 0x40.
Definition ULPITX_DATA1 : Z := Z.lor USBPID_DATA1 0x40.
Definition ULPITX_ACK : Z := Z.lor USBPID_ACK 0x40.

Definition ZDP_CRC16_BYTE1 : Z := 0x00.

(** ** The bus *)

Record byte_t : Type := MkByte {
  a : Z;
  b : Z
}.

#[export] Instance set_a : Setter a := fun v r =>
  MkByte v (b r).
#[export] Instance set_b : Setter b := fun v r =>
  MkByte (a r) v.

Record ulpi_bus_t : Type := MkBus {
  clock : Z;
  rst_n : Z;
  dir : Z;
  stp : Z;
  nxt : Z;
  data : byte_t
}.

#[export] Instance set_clock : Setter clock := fun v r =>
  MkBus v (rst_n r) (dir r) (stp r) (nxt r) (data r).
#[export] Instance set_rst_n : Setter rst_n := fun v r =>
  MkBus (clock r) v (dir r) (stp r) (nxt r) (data r).
#[export] Instance set_dir : Setter dir := fun v r =>
  MkBus (clock r) (rst_n r) v (stp r) (nxt r) (data r).
#[export] Instance set_stp : Setter stp := fun v r =>
  MkBus (clock r) (rst_n r) (dir r) v (nxt r) (data r).
#[export] Instance set_nxt : Setter nxt := fun v r =>
  MkBus (clock r) (rst_n r) (dir r) (stp r) v (data r).
#[export] Instance set_data : Setter data := fun v r =>
  MkBus (clock r) (rst_n r) (dir r) (stp r) (nxt r) v.

(** [bus->data.a] and [bus->data.b]. *)
Definition data_a (bus : ulpi_bus_t) : Z := a (data bus).
Definition data_b (bus : ulpi_bus_t) : Z := b (data bus).
#[export] Instance set_data_a : Setter data_a := fun v r => r <| data := data r <| a := v |> |>.
#[export] Instance set_data_b : Setter data_b := fun v r => r <| data := data r <| b := v |> |>.

(** ** Transfers *)

Inductive xfer_type_t : Type :=
| XferIdle | NOPID | RegWrite | RegRead | SETUP | OUT | IN | SOF | PING
| DnDATA0 | DnDATA1 | DnACK | UpACK | UpNYET | UpNAK | UpSTALL | UpDATA0 | UpDATA1
| TimeOut.

Inductive xfer_stage_t : Type :=
| NoXfer | AssertDir | InitRXCMD | TokenPID | Token1 | Token2 | HskPID | HskStop
| DATAxPID | DATAxBody | DATAxCRC1 | DATAxCRC2 | DATAxStop | ULPITurn | EndRXCMD
| EOP | REGW | REGR | REGD | LineIdle.

(** The enumerators' values, for the code's comparisons. *)
Definition xfer_type_val (t : xfer_type_t) : Z :=
  match t with
  | XferIdle => 0 | NOPID => 1 | RegWrite => 2 | RegRead => 3 | SETUP => 4 | OUT => 5
  | IN => 6 | SOF => 7 | PING => 8 | DnDATA0 => 9 | DnDATA1 => 10 | DnACK => 11
  | UpACK => 12 | UpNYET => 13 | UpNAK => 14 | UpSTALL => 15 | UpDATA0 => 16
  | UpDATA1 => 17 | TimeOut => 18
  end.

Definition xfer_stage_val (s : xfer_stage_t) : Z :=
  match s with
  | NoXfer => 0 | AssertDir => 1 | InitRXCMD => 2 | TokenPID => 3 | Token1 => 4
  | Token2 => 5 | HskPID => 6 | HskStop => 7 | DATAxPID => 8 | DATAxBody => 9
  | DATAxCRC1 => 10 | DATAxCRC2 => 11 | DATAxStop => 12 | ULPITurn => 13
  | EndRXCMD => 14 | EOP => 15 | REGW => 16 | REGR => 17 | REGD => 18 | LineIdle => 19
  end.

#[export] Instance xfer_type_eq_dec : EqDecision xfer_type_t.
Proof. solve_decision. Defined.
#[export] Instance xfer_stage_eq_dec : EqDecision xfer_stage_t.
Proof. solve_decision. Defined.

(** [xfer->type == t] and [xfer->stage == s]. *)
Definition type_eqb (s t : xfer_type_t) : bool := xfer_type_val s =? xfer_type_val t.
Definition stage_eqb (s t : xfer_stage_t) : bool := xfer_stage_val s =? xfer_stage_val t.

(** [transfer_t]; the field [cycle] is called [xcycle] here, because a host has a
    [cycle] of its own. *)
Record transfer_t : Type := MkXfer {
  address : Z;
  endpoint : Z;
  type : xfer_type_t;
  stage : xfer_stage_t;
  ep_seq : list Z;
  xcycle : Z;
  tx : list Z;
  tx_len : Z;
  tx_ptr : Z;
  rx : list Z;
  rx_len : Z;
  rx_ptr : Z;
  tok1 : Z;
  tok2 : Z;
  crc1 : Z;
  crc2 : Z
}.

#[export] Instance set_address : Setter address := fun v r =>
  MkXfer v (endpoint r) (type r) (stage r) (ep_seq r) (xcycle r) (tx r) (tx_len r) (tx_ptr
    r) (rx r) (rx_len r) (rx_ptr r) (tok1 r) (tok2 r) (crc1 r) (crc2 r).
#[export] Instance set_endpoint : Setter endpoint := fun v r =>
  MkXfer (address r) v (type r) (stage r) (ep_seq r) (xcycle r) (tx r) (tx_len r) (tx_ptr
    r) (rx r) (rx_len r) (rx_ptr r) (tok1 r) (tok2 r) (crc1 r) (crc2 r).
#[export] Instance set_type : Setter type := fun v r =>
  MkXfer (address r) (endpoint r) v (stage r) (ep_seq r) (xcycle r) (tx r) (tx_len r)
    (tx_ptr r) (rx r) (rx_len r) (rx_ptr r) (tok1 r) (tok2 r) (crc1 r) (crc2 r).
#[export] Instance set_stage : Setter stage := fun v r =>
  MkXfer (address r) (endpoint r) (type r) v (ep_seq r) (xcycle r) (tx r) (tx_len r)
    (tx_ptr r) (rx r) (rx_len r) (rx_ptr r) (tok1 r) (tok2 r) (crc1 r) (crc2 r).
#[export] Instance set_ep_seq : Setter ep_seq := fun v r =>
  MkXfer (address r) (endpoint r) (type r) (stage r) v (xcycle r) (tx r) (tx_len r)
    (tx_ptr r) (rx r) (rx_len r) (rx_ptr r) (tok1 r) (tok2 r) (crc1 r) (crc2 r).
#[export] Instance set_xcycle : Setter xcycle := fun v r =>
  MkXfer (address r) (endpoint r) (type r) (stage r) (ep_seq r) v (tx r) (tx_len r)
    (tx_ptr r) (rx r) (rx_len r) (rx_ptr r) (tok1 r) (tok2 r) (crc1 r) (crc2 r).
#[export] Instance set_tx : Setter tx := fun v r =>
  MkXfer (address r) (endpoint r) (type r) (stage r) (ep_seq r) (xcycle r) v (tx_len r)
    (tx_ptr r) (rx r) (rx_len r) (rx_ptr r) (tok1 r) (tok2 r) (crc1 r) (crc2 r).
#[export] Instance set_tx_len : Setter tx_len := fun v r =>
  MkXfer (address r) (endpoint r) (type r) (stage r) (ep_seq r) (xcycle r) (tx r) v
    (tx_ptr r) (rx r) (rx_len r) (rx_ptr r) (tok1 r) (tok2 r) (crc1 r) (crc2 r).
#[export] Instance set_tx_ptr : Setter tx_ptr := fun v r =>
  MkXfer (address r) (endpoint r) (type r) (stage r) (ep_seq r) (xcycle r) (tx r) (tx_len
    r) v (rx r) (rx_len r) (rx_ptr r) (tok1 r) (tok2 r) (crc1 r) (crc2 r).
#[export] Instance set_rx : Setter rx := fun v r =>
  MkXfer (address r) (endpoint r) (type r) (stage r) (ep_seq r) (xcycle r) (tx r) (tx_len
    r) (tx_ptr r) v (rx_len r) (rx_ptr r) (tok1 r) (tok2 r) (crc1 r) (crc2 r).
#[export] Instance set_rx_len : Setter rx_len := fun v r =>
  MkXfer (address r) (endpoint r) (type r) (stage r) (ep_seq r) (xcycle r) (tx r) (tx_len
    r) (tx_ptr r) (rx r) v (rx_ptr r) (tok1 r) (tok2 r) (crc1 r) (crc2 r).
#[export] Instance set_rx_ptr : Setter rx_ptr := fun v r =>
  MkXfer (address r) (endpoint r) (type r) (stage r) (ep_seq r) (xcycle r) (tx r) (tx_len
    r) (tx_ptr r) (rx r) (rx_len r) v (tok1 r) (tok2 r) (crc1 r) (crc2 r).
#[export] Instance set_tok1 : Setter tok1 := fun v r =>
  MkXfer (address r) (endpoint r) (type r) (stage r) (ep_seq r) (xcycle r) (tx r) (tx_len
    r) (tx_ptr r) (rx r) (rx_len r) (rx_ptr r) v (tok2 r) (crc1 r) (crc2 r).
#[export] Instance set_tok2 : Setter tok2 := fun v r =>
  MkXfer (address r) (endpoint r) (type r) (stage r) (ep_seq r) (xcycle r) (tx r) (tx_len
    r) (tx_ptr r) (rx r) (rx_len r) (rx_ptr r) (tok1 r) v (crc1 r) (crc2 r).
#[export] Instance set_crc1 : Setter crc1 := fun v r =>
  MkXfer (address r) (endpoint r) (type r) (stage r) (ep_seq r) (xcycle r) (tx r) (tx_len
    r) (tx_ptr r) (rx r) (rx_len r) (rx_ptr r) (tok1 r) (tok2 r) v (crc2 r).
#[export] Instance set_crc2 : Setter crc2 := fun v r =>
  MkXfer (address r) (endpoint r) (type r) (stage r) (ep_seq r) (xcycle r) (tx r) (tx_len
    r) (tx_ptr r) (rx r) (rx_len r) (rx_ptr r) (tok1 r) (tok2 r) (crc1 r) v.

(** [transfer_t xfer = {0}], and what [memset(&xfer, 0, sizeof)] stores. *)
Definition transfer_zero : transfer_t :=
  MkXfer 0 0 XferIdle NoXfer (replicate 16 0) 0 (replicate 512 0) 0 0
    (replicate 512 0) 0 0 0 0 0 0.

(** [ulpi_bus_t bus = {0}]. *)
Definition ulpi_bus_zero : ulpi_bus_t := MkBus 0 0 0 0 0 (MkByte 0 0).

(** ** Helpers of ulpi.h *)

Definition phy_bus_release (bus : ulpi_bus_t) : ulpi_bus_t :=
  bus <| dir := SIG0 |> <| nxt := SIG0 |> <| data_a := 0x00 |> <| data_b := 0xff |>.

Definition ulpi_bus_is_idle (bus : ulpi_bus_t) : bool :=
  (rst_n bus =? SIG1) && (data_a bus =? 0x00) && (data_b bus =? 0x00) &&
  (dir bus =? SIG0) && (nxt bus =? SIG0) && (stp bus =? SIG0).

Definition check_pid (bus : ulpi_bus_t) : bool :=
  if negb (data_b bus =? 0x00) then false
  else
    let u := u8 (Z.lxor (Z.shiftr (data_a bus) 4) 0x0f) in
    u =? Z.land (data_a bus) 0x0f.

(** The [&&]/[||] are short-circuiting; the masked index is in range. *)
Definition check_seq (xfer : transfer_t) (pid : Z) : outcome bool :=
  s ← read_at (ep_seq xfer) (Z.land (endpoint xfer) 0x0f);
  Ok ((pid =? USBPID_DATA0) && (s =? 0) || (pid =? USBPID_DATA1) && (s =? 1)).

(** ** Helpers of ulpi.c *)

Definition ulpi_bus_idle (bus : ulpi_bus_t) : ulpi_bus_t :=
  bus <| clock := SIG1 |> <| rst_n := SIG1 |> <| dir := SIG0 |> <| nxt := SIG0 |>
      <| stp := SIG0 |> <| data_a := 0x00 |> <| data_b := 0x00 |>.

Definition transfer_out (xfer : transfer_t) (addr ep : Z) : transfer_t :=
  xfer <| address := addr |> <| endpoint := ep |> <| type := OUT |> <| stage := NoXfer |>
       <| tx_len := 0 |> <| tx_ptr := 0 |>.

Definition transfer_in (xfer : transfer_t) (addr ep : Z) : transfer_t :=
  xfer <| address := addr |> <| endpoint := ep |> <| type := IN |> <| stage := NoXfer |>
       <| rx_len := 0 |> <| rx_ptr := 0 |>.

(** The endpoint is not masked here: 16 and above is out of bounds. *)
Definition transfer_ack (xfer : transfer_t) : outcome transfer_t :=
  let ep := endpoint xfer in
  s ← read_at (ep_seq xfer) ep;
  seq ← write_at (ep_seq xfer) ep (if s =? SIG0 then SIG1 else SIG0);
  Ok (xfer <| ep_seq := seq |>).

Definition transfer_tok (xfer : transfer_t) : transfer_t :=
  let ad := u16 (Z.land (address xfer) 0x7F) in
  let ep := u16 (Z.shiftl (u16 (Z.land (endpoint xfer) 0x0F)) 7) in
  let tok := crc5_calc (Z.lor ad ep) in
  xfer <| tok1 := Z.land tok 0xFF |> <| tok2 := u8 (Z.shiftr tok 8) |>.

(** The parameter [frame] is not used by the code. *)
Definition sof_frame (xfer : transfer_t) (frame : Z) : transfer_t :=
  xfer <| address := 0 |> <| endpoint := 0 |> <| type := SOF |> <| stage := NoXfer |>
       <| xcycle := 0 |> <| rx_len := 0 |> <| rx_ptr := 0 |> <| tx_len := 0 |> <| tx_ptr := 0 |>.

Definition transfer_type_to_pid (xfer : transfer_t) : Z :=
  let encode pid :=
    if xfer_type_val (type xfer) <? xfer_type_val UpACK
    then (* host to device *) u8 (Z.lor pid (Z.lxor (Z.shiftl pid 4) 0xF0))
    else (* ULPI PHY transmit-encoding *) u8 (Z.lor pid 0x10) in
  match type xfer with
  | SETUP => encode USBPID_SETUP
  | OUT => encode USBPID_OUT
  | IN => encode USBPID_IN
  | SOF => encode USBPID_SOF
  | PING => encode USBPID_PING
  | DnACK | UpACK => encode USBPID_ACK
  | UpNAK => encode USBPID_NAK
  | UpNYET => encode USBPID_NYET
  | UpSTALL => encode USBPID_STALL
  | DnDATA0 | UpDATA0 => encode USBPID_DATA0
  | DnDATA1 | UpDATA1 => encode USBPID_DATA1
  | _ => 255
  end.

(** ** Transaction step functions *)

Definition step_result : Type := outcome (Z * transfer_t * ulpi_bus_t).

Definition check_rx_crc16 (xfer : transfer_t) : outcome (bool * transfer_t) :=
  let len := rx_len xfer in
  if 0 <? len then
    body ← read_n (rx xfer) len;
    all ← read_n (rx xfer) (rx_ptr xfer);
    let crc := crc16_calc body in
    let cod := crc16_calc all in
    let xfer := xfer <| crc1 := Z.land crc 0xFF |>
                     <| crc2 := Z.land (Z.shiftr crc 8) 0xFF |> in
    r1 ← read_at (rx xfer) len;
    r2 ← read_at (rx xfer) (len + 1);
    Ok ((crc1 xfer =? r1) && (crc2 xfer =? r2) && (cod =? 0x4FFE), xfer)
  else
    r0 ← read_at (rx xfer) 0;
    r1 ← read_at (rx xfer) 1;
    Ok ((r0 =? 0x00) && (r1 =? 0x00), xfer).

Definition drive_eop (xfer : transfer_t) (inp out : ulpi_bus_t) : step_result :=
  match stage xfer with
  | NoXfer (* [case XferIdle], also 0 *) => Ok (1, xfer, out)
  | Token2 | DATAxCRC2 | HskPID =>
      c_assert (dir inp =? SIG1);;
      c_assert (nxt inp =? SIG1);;
      c_assert (data_b inp =? 0x00);;
      Ok (0, xfer <| stage := EndRXCMD |>, out <| nxt := SIG0 |> <| data_a := 0x4C |>)
  | DATAxStop =>
      c_assert (nxt inp =? SIG0);;
      Ok (0, xfer <| stage := EndRXCMD |>, out <| data_a := 0x4C |> <| data_b := 0x00 |>)
  | EndRXCMD =>
      c_assert (dir out =? SIG1);;
      c_assert (nxt out =? SIG0);;
      c_assert (data_b out =? 0x00);;
      Ok (0, xfer <| stage := EOP |>, out <| data_a := 0x4D |>)
  | EOP =>
      c_assert (dir out =? SIG1);;
      c_assert (nxt out =? SIG0);;
      c_assert (data_b out =? 0x00);;
      Ok (0, xfer <| stage := LineIdle |>,
          out <| dir := SIG0 |> <| data_a := 0x00 |> <| data_b := 0xFF |>)
  | LineIdle =>
      c_assert (dir inp =? SIG0);;
      c_assert (nxt inp =? SIG0);;
      c_assert (data_a inp =? 0x00);;
      Ok (1, xfer <| type := XferIdle |> <| stage := NoXfer |>, out)
  | _ => Ok (-1, xfer, out)
  end.

Definition token_send_step (xfer : transfer_t) (inp out : ulpi_bus_t) : step_result :=
  if (xfer_stage_val NoXfer <? xfer_stage_val (stage xfer)) &&
     (xfer_stage_val (stage xfer) <? xfer_stage_val LineIdle) && negb (dir inp =? SIG1)
  then Ok (-1, xfer, out)
  else
  match type xfer with
  | SETUP | OUT | IN | SOF =>
      let out := inp in (* memcpy *)
      match stage xfer with
      | NoXfer =>
          Ok (0, xfer <| stage := AssertDir |>,
              out <| dir := SIG1 |> <| nxt := SIG1 |> <| data_a := 0x00 |> <| data_b := 0xFF |>)
      | AssertDir =>
          Ok (0, xfer <| stage := InitRXCMD |>,
              out <| nxt := SIG0 |> <| data_a := 0x5D |> <| data_b := 0x00 |>)
      | InitRXCMD =>
          Ok (0, xfer <| stage := TokenPID |>,
              out <| dir := SIG1 |> <| nxt := SIG1 |> <| data_a := transfer_type_to_pid xfer |>)
      | TokenPID =>
          Ok (0, xfer <| stage := Token1 |>,
              out <| nxt := SIG1 |> <| data_a := tok1 xfer |> <| data_b := 0x00 |>)
      | Token1 =>
          c_assert (dir out =? SIG1);;
          c_assert (nxt out =? SIG1);;
          c_assert (data_b out =? 0x00);;
          Ok (0, xfer <| stage := Token2 |>, out <| data_a := tok2 xfer |>)
      | _ => drive_eop xfer inp out
      end
  | _ => Ok (-1, xfer, out)
  end.

Definition datax_send_step (xfer : transfer_t) (inp out : ulpi_bus_t) : step_result :=
  let pid := if type_eqb (type xfer) DnDATA0 then 0xC3 else 0x4B in
  seq ← check_seq xfer (Z.land pid 0x0f);
  if negb seq then Ok (-1, xfer, out)
  else
  let out := inp in (* memcpy *)
  match type xfer with
  | DnDATA0 | DnDATA1 =>
      match stage xfer with
      | NoXfer =>
          if negb (data_a inp =? 0x00) || negb (stp inp =? SIG0)
          then Ok (-1, xfer, out)
          else Ok (0, xfer <| stage := AssertDir |>,
                   out <| dir := SIG1 |> <| nxt := SIG1 |> <| data_a := 0x00 |>
                       <| data_b := 0xff |>)
      | AssertDir =>
          Ok (0, xfer <| stage := InitRXCMD |>,
              out <| nxt := SIG0 |> <| data_a := 0x5D |> <| data_b := 0x00 |>)
      | InitRXCMD =>
          Ok (0, xfer <| stage := DATAxPID |>,
              out <| nxt := SIG1 |> <| data_a := pid |> <| data_b := 0x00 |>)
      | DATAxPID =>
          let out := out <| nxt := SIG1 |> <| data_b := 0x00 |> in
          if 0 <? tx_len xfer then
            d ← read_at (tx xfer) (tx_ptr xfer);
            Ok (0, xfer <| tx_ptr := tx_ptr xfer + 1 |> <| stage := DATAxBody |>,
                out <| data_a := d |>)
          else Ok (0, xfer <| stage := DATAxCRC1 |>, out <| data_a := ZDP_CRC16_BYTE1 |>)
      | DATAxBody =>
          let out := out <| nxt := SIG1 |> <| data_b := 0x00 |> in
          if tx_ptr xfer <? tx_len xfer then
            d ← read_at (tx xfer) (tx_ptr xfer);
            Ok (0, xfer <| tx_ptr := tx_ptr xfer + 1 |> <| stage := DATAxBody |>,
                out <| data_a := d |>)
          else Ok (0, xfer <| stage := DATAxCRC1 |>, out <| data_a := crc1 xfer |>)
      | DATAxCRC1 =>
          Ok (0, xfer <| stage := DATAxCRC2 |>,
              out <| nxt := SIG1 |> <| data_a := crc2 xfer |> <| data_b := 0x00 |>)
      | _ => drive_eop xfer inp out
      end
  | _ => Ok (-1, xfer, out)
  end.

(** The part of [datax_recv_step] that runs while the link sends the body of
    the packet; [bulk_in_step] has the same code in its [TimeOut] case. *)
Definition recv_body (xfer : transfer_t) (inp out : ulpi_bus_t) : step_result :=
  if stp inp =? SIG1 then
    let out := out <| nxt := SIG0 |> <| data_a := 0x00 |> <| dir := SIG1 |>
                   <| data_b := 0xFF |> in
    let xfer := xfer <| stage := DATAxStop |> <| rx_len := rx_ptr xfer - 2 |> in
    '(ok, xfer) ← check_rx_crc16 xfer;
    if negb ok then Ok (-1, xfer, out) else Ok (0, xfer, out)
  else if nxt inp =? SIG1 then
    rx' ← write_at (rx xfer) (rx_ptr xfer) (data_a inp);
    Ok (0, xfer <| rx := rx' |> <| rx_ptr := rx_ptr xfer + 1 |>, out)
  else Ok (0, xfer, out <| nxt := SIG1 |>).

Definition datax_recv_step (xfer : transfer_t) (inp out : ulpi_bus_t) : step_result :=
  let out := inp in (* memcpy *)
  match type xfer with
  | UpDATA0 | UpDATA1 =>
      match stage xfer with
      | NoXfer =>
          let out := out <| dir := SIG0 |> in
          if negb (data_a inp =? 0x00)
          then Ok (0, xfer <| stage := DATAxPID |>, out <| nxt := SIG1 |>)
          else Ok (0, xfer, out)
      | DATAxPID =>
          c_assert (dir inp =? SIG0);;
          c_assert (nxt inp =? SIG1);;
          c_assert (data_b inp =? 0x00);;
          let out := out <| nxt := SIG0 |> in
          let xfer := xfer <| stage := DATAxBody |> <| rx_ptr := 0 |> in
          if negb (data_a inp =? ULPITX_DATA0) && negb (data_a inp =? ULPITX_DATA1)
          then Ok (-2, xfer, out)
          else
            seq ← check_seq xfer (Z.land (data_a inp) 0x0F);
            if negb seq then Ok (-3, xfer, out) else Ok (0, xfer, out)
      | DATAxBody =>
          c_assert (dir inp =? SIG0);;
          recv_body xfer inp out
      | _ => drive_eop xfer inp out
      end
  | _ => Ok (-1, xfer, out)
  end.

Definition ack_recv_step (xfer : transfer_t) (inp out : ulpi_bus_t) : step_result :=
  match type xfer with
  | UpACK =>
      match stage xfer with
      | NoXfer =>
          if negb (ulpi_bus_is_idle inp) then
            if data_a inp =? ULPITX_ACK then
              xfer ← transfer_ack (xfer <| stage := HskPID |>);
              Ok (0, xfer, out <| nxt := SIG1 |>)
            else Ok (-1, xfer, out)
          else Ok (0, xfer, out)
      | HskPID =>
          c_assert (dir inp =? SIG0);;
          c_assert (data_b inp =? 0x00);;
          let out := out <| nxt := SIG0 |> in
          if stp inp =? SIG1 then Ok (0, xfer <| stage := HskStop |>, out)
          else Ok (0, xfer, out)
      | HskStop =>
          c_assert (dir inp =? SIG0);;
          c_assert (nxt inp =? SIG0);;
          c_assert (stp inp =? SIG0);;
          Ok (1, xfer <| stage := NoXfer (* [XferIdle], also 0 *) |>, out)
      | _ => Ok (-1, xfer, out)
      end
  | _ => Ok (-1, xfer, out)
  end.

Definition ack_send_step (xfer : transfer_t) (inp out : ulpi_bus_t) : step_result :=
  match type xfer with
  | DnACK =>
      match stage xfer with
      | NoXfer =>
          if negb (ulpi_bus_is_idle inp) then Ok (-1, xfer, out)
          else Ok (0, xfer <| stage := AssertDir |>,
                   out <| dir := SIG1 |> <| nxt := SIG1 |> <| data_a := 0x00 |>
                       <| data_b := 0xFF |>)
      | AssertDir =>
          c_assert (dir inp =? SIG1);;
          c_assert (nxt inp =? SIG1);;
          c_assert (stp inp =? SIG0);;
          Ok (0, xfer <| stage := InitRXCMD |>,
              out <| nxt := SIG0 |> <| data_a := 0x5D |> <| data_b := 0x00 |>)
      | InitRXCMD =>
          c_assert (dir inp =? SIG1);;
          c_assert (nxt inp =? SIG0);;
          c_assert (stp inp =? SIG0);;
          c_assert (data_b inp =? 0x00);;
          Ok (0, xfer <| stage := HskPID |>,
              out <| nxt := SIG1 |> <| data_a := transfer_type_to_pid xfer |>)
      | _ => drive_eop xfer inp out
      end
  | _ => Ok (-1, xfer, out)
  end.

(** ** [ulpi_step_with]: a host and a function step alternately, each one
    reading the bus the other one has just driven.  The C loop has no bound:
    the model takes fuel, and [None] is the loop still running. *)

Section StepWith.
Context {S : Type}.
Variable host_fn : transfer_t -> ulpi_bus_t -> ulpi_bus_t -> step_result.
Variable user_fn : S -> ulpi_bus_t -> ulpi_bus_t -> outcome (Z * S * ulpi_bus_t).

(** The body of the [while] loop. *)
Definition ulpi_step_once (xfer : transfer_t) (user_data : S) (bus out : ulpi_bus_t)
  : outcome (Z * transfer_t * S * ulpi_bus_t * ulpi_bus_t) :=
  '(result, xfer, out) ← host_fn xfer bus out;
  let bus := out in
  if result <? 0 then Ok (result, xfer, user_data, bus, out)
  else
    '(r, user_data, out) ← user_fn user_data bus out;
    let bus := out in
    Ok (Z.lor result r, xfer, user_data, bus, out).

Fixpoint ulpi_step_loop (fuel : nat) (xfer : transfer_t) (user_data : S)
    (bus out : ulpi_bus_t) : option (outcome (Z * transfer_t * S * ulpi_bus_t)) :=
  match fuel with
  | O => None
  | Datatypes.S fuel =>
      match ulpi_step_once xfer user_data bus out with
      | Ok (result, xfer, user_data, bus, out) =>
          if result =? 0 then ulpi_step_loop fuel xfer user_data bus out
          else Some (Ok (result, xfer, user_data, bus))
      | AssertFail => Some AssertFail
      | Undef => Some Undef
      end
  end.

Definition ulpi_step_with (fuel : nat) (xfer : transfer_t) (bus : ulpi_bus_t)
    (user_data : S) : option (outcome (Z * transfer_t * S * ulpi_bus_t)) :=
  ulpi_step_loop fuel (xfer <| stage := NoXfer |>) user_data (ulpi_bus_idle bus) ulpi_bus_zero.
End StepWith.

(** ** Shared lemmas *)

Lemma check_seq_bit xfer p :
  ep_seq xfer !! Z.to_nat (Z.land (endpoint xfer) 0x0f) = Some p ->
  forall pid, check_seq xfer pid =
    Ok ((pid =? USBPID_DATA0) && (p =? 0) || (pid =? USBPID_DATA1) && (p =? 1)).
Proof.
  intros Hs pid. unfold check_seq, read_at.
  assert (H0 : 0 <= Z.land (endpoint xfer) 15) by (apply Z.land_nonneg; lia).
  apply Z.leb_le in H0. by rewrite H0, Hs.
Qed.
