(* ===== verification/UlpiSafe.v ===== *)
(** Well-formed transfers: the ranges of the fields and the lengths of the
    arrays.  Every step function keeps them and never leaves its arrays, as
    long as there is room for the byte it may have to store or fetch. *)

From S2P Require Import Prelude UsbCrc Ulpi.

Definition is_bit (s : Z) : Prop := s = SIG0 \/ s = SIG1.

Record wf_xfer (x : transfer_t) : Prop := {
  wf_endpoint : 0 <= endpoint x < 16;
  wf_seq_len : length (ep_seq x) = 16%nat;
  wf_seq_bits : Forall is_bit (ep_seq x);
  wf_tx_size : length (tx x) = 512%nat;
  wf_tx_bytes : Forall is_byte (tx x);
  wf_tx_range : 0 <= tx_ptr x /\ tx_len x <= 512;
  wf_rx_size : length (rx x) = 512%nat;
  wf_rx_bytes : Forall is_byte (rx x);
  wf_rx_range : 0 <= rx_ptr x <= 512;
  wf_crc_bytes : is_byte (crc1 x) /\ is_byte (crc2 x);
  wf_tok_bytes : is_byte (tok1 x) /\ is_byte (tok2 x);
}.

(** Updates that keep well-formedness. *)
Lemma wf_set_stage x s : wf_xfer x -> wf_xfer (x <| stage := s |>).
Proof. by intros []; split. Qed.
Lemma wf_set_type x t : wf_xfer x -> wf_xfer (x <| type := t |>).
Proof. by intros []; split. Qed.
Lemma wf_set_xcycle x c : wf_xfer x -> wf_xfer (x <| xcycle := c |>).
Proof. by intros []; split. Qed.
Lemma wf_set_address x c : wf_xfer x -> wf_xfer (x <| address := c |>).
Proof. by intros []; split. Qed.
Lemma wf_set_rx_len x n : wf_xfer x -> wf_xfer (x <| rx_len := n |>).
Proof. by intros []; split. Qed.
Lemma wf_set_rx_ptr x n : 0 <= n <= 512 -> wf_xfer x -> wf_xfer (x <| rx_ptr := n |>).
Proof. by intros ? []; split. Qed.
Lemma wf_set_tx_ptr x n : 0 <= n -> wf_xfer x -> wf_xfer (x <| tx_ptr := n |>).
Proof. intros ? []; split; cbn; auto; lia. Qed.
Lemma wf_set_tx_len x n : n <= 512 -> wf_xfer x -> wf_xfer (x <| tx_len := n |>).
Proof. intros ? []; split; cbn; auto; lia. Qed.
Lemma wf_set_endpoint x n : 0 <= n < 16 -> wf_xfer x -> wf_xfer (x <| endpoint := n |>).
Proof. by intros ? []; split. Qed.
Lemma wf_set_crc x c1 c2 :
  is_byte c1 -> is_byte c2 -> wf_xfer x -> wf_xfer (x <| crc1 := c1 |> <| crc2 := c2 |>).
Proof. by intros ? ? []; split. Qed.
Lemma wf_set_tok x t1 t2 :
  is_byte t1 -> is_byte t2 -> wf_xfer x -> wf_xfer (x <| tok1 := t1 |> <| tok2 := t2 |>).
Proof. by intros ? ? []; split. Qed.
Lemma wf_set_ep_seq x q :
  length q = 16%nat -> Forall is_bit q -> wf_xfer x -> wf_xfer (x <| ep_seq := q |>).
Proof. by intros ? ? []; split. Qed.
Lemma wf_set_rx x r :
  length r = 512%nat -> Forall is_byte r -> wf_xfer x -> wf_xfer (x <| rx := r |>).
Proof. by intros ? ? []; split. Qed.
Lemma wf_set_tx x r :
  length r = 512%nat -> Forall is_byte r -> wf_xfer x -> wf_xfer (x <| tx := r |>).
Proof. by intros ? ? []; split. Qed.

Create HintDb wf discriminated.
#[export] Hint Constants Opaque : wf.
#[export] Hint Resolve wf_set_stage wf_set_type wf_set_xcycle wf_set_address wf_set_rx_len
  wf_set_rx_ptr wf_set_tx_ptr wf_set_tx_len wf_set_endpoint wf_set_crc wf_set_tok
  wf_set_ep_seq wf_set_rx wf_set_tx crc_lo_byte crc_hi_byte : wf.
#[export] Hint Extern 4 (_ <= _ <= _) => lia : wf.
#[export] Hint Extern 4 (_ <= _ < _) => lia : wf.
#[export] Hint Extern 4 (_ <= _) => lia : wf.

Lemma wf_zero : wf_xfer transfer_zero.
Proof.
  assert (is_byte 0) by (unfold is_byte; lia).
  split; cbn -[replicate]; rewrite ?length_replicate; try lia; try done;
    try (by apply Forall_replicate).
  apply Forall_replicate. by left.
Qed.

(** ** The step functions *)

(** What a step returns: an [int] in the code's range and a transfer that is
    still well formed. *)
Definition step_post (res : Z * transfer_t * ulpi_bus_t) : Prop :=
  let '(r, x, _) := res in -3 <= r <= 1 /\ wf_xfer x.

Ltac step_done := cbn [step_post]; split; [lia|solve [auto 10 with wf]].

Lemma check_seq_safe x pid : wf_xfer x -> safe (fun _ => True) (check_seq x pid).
Proof.
  intros H. unfold check_seq.
  assert (Hb : 0 <= Z.land (endpoint x) 15 < 16).
  { change 15 with (Z.ones 4). rewrite Z.land_ones by lia. apply Z.mod_pos_bound; lia. }
  destruct H. repeat safe_step; [lia|done].
Qed.

Lemma transfer_ack_safe x : wf_xfer x -> safe wf_xfer (transfer_ack x).
Proof.
  intros H. pose proof H as []. unfold transfer_ack.
  repeat safe_step; [lia|lia|]. apply wf_set_ep_seq; [by rewrite length_insert| |done].
  apply Forall_insert; [done|]. destruct (v =? SIG0); [by right|by left].
Qed.

Lemma check_rx_crc16_safe x :
  wf_xfer x -> rx_len x <= 510 -> safe (fun res => wf_xfer res.2) (check_rx_crc16 x).
Proof.
  intros H Hl. pose proof H as []. unfold check_rx_crc16. safe_step.
  - apply Z.ltb_lt in H0. repeat safe_step; try (cbn -[crc16_calc]; lia). cbn [snd].
    apply (wf_set_crc x (crc_lo _) (crc_hi _)); auto.
  - repeat safe_step; try lia. done.
Qed.

Lemma drive_eop_safe x inp out : wf_xfer x -> safe step_post (drive_eop x inp out).
Proof. intros H. unfold drive_eop. destruct (stage x); repeat safe_step; step_done. Qed.

Lemma token_send_step_safe x inp out : wf_xfer x -> safe step_post (token_send_step x inp out).
Proof.
  intros H. unfold token_send_step. safe_step; [safe_step; step_done|].
  destruct (type x); try (safe_step; step_done);
    (destruct (stage x); try (by apply drive_eop_safe); repeat safe_step; step_done).
Qed.

(** The room a data packet needs: a byte to fetch, or a place to store one. *)
Definition tx_room (x : transfer_t) : Prop := stage x = DATAxPID -> tx_ptr x < 512.
Definition rx_room (x : transfer_t) : Prop := stage x = DATAxBody -> rx_ptr x < 512.

Lemma datax_send_step_safe x inp out :
  wf_xfer x -> tx_room x -> safe step_post (datax_send_step x inp out).
Proof.
  intros H Hr. pose proof H as []. unfold datax_send_step.
  eapply safe_bind; [by apply check_seq_safe|]. intros seq _. cbn beta zeta.
  safe_step; [safe_step; step_done|].
  destruct (type x); try (safe_step; step_done).
  all: destruct (stage x) eqn:Hs; try (by apply drive_eop_safe).
  all: cbv zeta; safe_step; try (repeat safe_step; step_done).
  all: try specialize (Hr Hs).
  all: match goal with H : (_ <? _) = true |- _ => apply Z.ltb_lt in H end.
  all: safe_step; [lia|safe_step; step_done].
Qed.

Lemma recv_body_safe x inp out :
  wf_xfer x -> rx_ptr x < 512 -> is_byte (data_a inp) -> safe step_post (recv_body x inp out).
Proof.
  intros H Hr Hb. pose proof H as []. unfold recv_body. cbv zeta. safe_step.
  - eapply safe_bind; [apply check_rx_crc16_safe|].
    + auto with wf.
    + cbn. lia.
    + intros [ok x'] Hx'. cbn [snd] in Hx'. repeat safe_step; step_done.
  - safe_step; [|safe_step; step_done].
    safe_step; [lia|]. safe_step. cbn [step_post]. split; [lia|].
    apply wf_set_rx_ptr; [lia|]. apply wf_set_rx; [by rewrite length_insert| |done].
    by apply Forall_insert.
Qed.

Lemma datax_recv_step_safe x inp out :
  wf_xfer x -> rx_room x -> is_byte (data_a inp) -> safe step_post (datax_recv_step x inp out).
Proof.
  intros H Hr Hb. unfold datax_recv_step. cbv zeta.
  destruct (type x); try (safe_step; step_done).
  all: destruct (stage x) eqn:Hs; try (by apply drive_eop_safe).
  all: repeat safe_step; try step_done.
  all: try (apply recv_body_safe; auto).
  all: eapply safe_bind; [apply check_seq_safe; auto with wf|]; intros seq _;
    repeat safe_step; step_done.
Qed.

Lemma ack_recv_step_safe x inp out : wf_xfer x -> safe step_post (ack_recv_step x inp out).
Proof.
  intros H. unfold ack_recv_step. destruct (type x); try (safe_step; step_done).
  destruct (stage x); try (repeat safe_step; step_done).
  repeat safe_step; try step_done.
  eapply safe_bind; [apply transfer_ack_safe; auto with wf|].
  intros x' Hx'. safe_step. step_done.
Qed.

Lemma ack_send_step_safe x inp out : wf_xfer x -> safe step_post (ack_send_step x inp out).
Proof.
  intros H. unfold ack_send_step. destruct (type x); try (safe_step; step_done).
  destruct (stage x); try (by apply drive_eop_safe); repeat safe_step; step_done.
Qed.

(** Memory safety of the packet steps: from a well-formed transfer with room
    for the byte to fetch or to store, no step leaves its arrays, each one
    returns a code between -3 and 1, and the transfer stays well formed. *)
Theorem packet_steps_safe x inp out :
  wf_xfer x -> tx_room x -> rx_room x -> is_byte (data_a inp) ->
  Forall (fun step : transfer_t -> ulpi_bus_t -> ulpi_bus_t -> step_result =>
            safe step_post (step x inp out))
    [token_send_step; datax_send_step; datax_recv_step; ack_recv_step; ack_send_step].
Proof.
  intros H Ht Hr Hb.
  repeat apply List.Forall_cons; [| | | | |apply List.Forall_nil];
    auto using token_send_step_safe, datax_send_step_safe, datax_recv_step_safe,
      ack_recv_step_safe, ack_send_step_safe.
Qed.

(** ** The DATA0/DATA1 toggle *)

Definition flip_seq (s : Z) : Z := if s =? SIG0 then SIG1 else SIG0.

Lemma flip_seq_bit s : is_bit s -> flip_seq (flip_seq s) = s.
Proof. by intros [-> | ->]. Qed.

Lemma transfer_ack_run x s :
  ep_seq x !! Z.to_nat (endpoint x) = Some s -> 0 <= endpoint x ->
  transfer_ack x = Ok (x <| ep_seq := <[Z.to_nat (endpoint x) := flip_seq s]> (ep_seq x) |>).
Proof.
  intros Hs He. unfold transfer_ack.
  rewrite <- (Z2Nat.id (endpoint x)) at 1 by done. rewrite (read_at_Some _ _ _ Hs). cbn -[write_at].
  rewrite write_at_in; [done|].
  pose proof (lookup_lt_Some _ _ _ Hs). lia.
Qed.

Lemma endpoint_mask e : 0 <= e < 16 -> Z.land e 0x0f = e.
Proof. intros H. change 0x0f with (Z.ones 4). rewrite Z.land_ones by lia. by apply Z.mod_small. Qed.

(** An ACK toggles the data sequence bit of its own endpoint only: the PID
    that was expected is no longer accepted and the other one is, every other
    endpoint's bit is unchanged, and a second ACK restores the transfer. *)
Theorem transfer_ack_toggles x :
  wf_xfer x ->
  exists x', transfer_ack x = Ok x' /\ wf_xfer x' /\
    check_seq x' USBPID_DATA0 = check_seq x USBPID_DATA1 /\
    check_seq x' USBPID_DATA1 = check_seq x USBPID_DATA0 /\
    check_seq x USBPID_DATA0 = (negb <$> check_seq x USBPID_DATA1) /\
    (forall i, i <> Z.to_nat (endpoint x) -> ep_seq x' !! i = ep_seq x !! i) /\
    transfer_ack x' = Ok x.
Proof.
  intros H. pose proof H as [He Hlen Hbits _ _ _ _ _ _ _ _].
  set (i := Z.to_nat (endpoint x)).
  destruct (lookup_lt_is_Some_2 (ep_seq x) i ltac:(lia)) as [s Hs].
  pose proof (Forall_lookup_1 _ _ _ _ Hbits Hs) as Hbit.
  pose proof (transfer_ack_safe x H) as Hwf. rewrite (transfer_ack_run x s) in Hwf |- * by (done || lia).
  cbn [safe] in Hwf. eexists; split; [done|]. split; [done|]. fold i in Hwf |- *.
  set (x' := x <| ep_seq := _ |>) in *.
  assert (Hs' : ep_seq x' !! i = Some (flip_seq s)) by (cbn; by rewrite list_lookup_insert_eq by lia).
  assert (Hi : Z.to_nat (Z.land (endpoint x) 0x0f) = i) by (by rewrite endpoint_mask).
  rewrite <- Hi in Hs, Hs'.
  rewrite !(check_seq_bit x _ Hs), !(check_seq_bit x' _ Hs').
  repeat split; [by destruct Hbit as [-> | ->]..| |].
  - intros j Hj. cbn. by rewrite list_lookup_insert_ne.
  - rewrite Hi in Hs'. rewrite (transfer_ack_run x' (flip_seq s)) by (exact Hs' || cbn; lia).
    f_equal. subst x'. rewrite flip_seq_bit by done. destruct x as [ad ep t sg sq]. cbn in *.
    rewrite list_insert_insert_eq. rewrite Hi in Hs. by rewrite list_insert_id.
Qed.

(** ** Witnesses *)

Lemma packet_steps_safe_witness :
  Forall (fun step : transfer_t -> ulpi_bus_t -> ulpi_bus_t -> step_result =>
            safe step_post (step transfer_zero ulpi_bus_zero ulpi_bus_zero))
    [token_send_step; datax_send_step; datax_recv_step; ack_recv_step; ack_send_step].
Proof.
  apply (packet_steps_safe transfer_zero ulpi_bus_zero ulpi_bus_zero).
  - exact wf_zero.
  - discriminate.
  - discriminate.
  - unfold is_byte; cbn; lia.
Defined.

Lemma transfer_ack_toggles_witness :
  exists x', transfer_ack transfer_zero = Ok x' /\ check_seq x' USBPID_DATA1 = Ok true.
Proof.
  destruct (transfer_ack_toggles transfer_zero wf_zero) as (x' & H1 & _ & _ & H3 & _).
  exists x'. split; [exact H1|]. rewrite H3. reflexivity.
Defined.
