(* ===== verification/UlpiTrace.v ===== *)
(** What the transmit step functions put on the ULPI bus: complete traces of a
    token, a data packet and a handshake, and what a receiver reads off them. *)

From S2P Require Import Prelude Gf2 UsbCrc Ulpi.

(** ** Observing a transmission

    A passive link: it drives nothing, so the bus stays as the host left it,
    and it keeps every bus value it has seen, newest last. *)

Definition link_monitor (seen : list ulpi_bus_t) (inp out : ulpi_bus_t)
  : outcome (Z * list ulpi_bus_t * ulpi_bus_t) :=
  Ok (0, seen ++ [inp], inp).

(** The bus values of a transmission; STP stays low, RST# and the clock high. *)
Definition phy_bus (d n a b : Z) : ulpi_bus_t := MkBus SIG1 SIG1 d SIG0 n (MkByte a b).
Definition bus_turnaround : ulpi_bus_t := phy_bus SIG1 SIG1 0x00 0xFF.
Definition bus_rx_cmd (cmd : Z) : ulpi_bus_t := phy_bus SIG1 SIG0 cmd 0x00.
Definition bus_rx_byte (v : Z) : ulpi_bus_t := phy_bus SIG1 SIG1 v 0x00.
Definition bus_released : ulpi_bus_t := phy_bus SIG0 SIG0 0x00 0xFF.

(** A packet as the ULPI specification frames it: turnaround, an RX CMD with
    RxActive, the bytes under NXT, RX CMDs for end-of-packet and idle, and the
    release of the bus. *)
Definition packet_trace (bytes : list Z) : list ulpi_bus_t :=
  [bus_turnaround; bus_rx_cmd 0x5D] ++ map bus_rx_byte bytes ++
  [bus_rx_cmd 0x4C; bus_rx_cmd 0x4D; bus_released; bus_released].

(** What a link receives: the data under DIR and NXT that is not high-impedance. *)
Definition is_rx_byte (bus : ulpi_bus_t) : bool :=
  (dir bus =? SIG1) && (nxt bus =? SIG1) && (data_b bus =? 0x00).
Definition received (trace : list ulpi_bus_t) : list Z :=
  map data_a (List.filter is_rx_byte trace).

Lemma received_packet bytes : received (packet_trace bytes) = bytes.
Proof.
  unfold received, packet_trace. rewrite !List.filter_app. cbn -[is_rx_byte map].
  replace (List.filter is_rx_byte (map bus_rx_byte bytes)) with (map bus_rx_byte bytes).
  - cbn. rewrite app_nil_r, List.map_map. cbn. apply List.map_id.
  - induction bytes as [|v bytes IH]; [done|]. cbn. by rewrite <- IH.
Qed.

(** USB's PID bytes of the token packets. *)
Definition token_pid_byte (t : xfer_type_t) : Z :=
  match t with SETUP => 0x2D | OUT => 0xE1 | IN => 0x69 | _ => 0xA5 end.

Definition is_token (t : xfer_type_t) : bool :=
  match t with SETUP | OUT | IN | SOF => true | _ => false end.

(** One iteration of the stepping loop that goes on. *)
Lemma step_loop_continue {S} h u n (xfer xfer' : transfer_t) (ud ud' : S) bus bus' out out' :
  ulpi_step_once h u xfer ud bus out = Ok (0, xfer', ud', bus', out') ->
  ulpi_step_loop h u (Datatypes.S n) xfer ud bus out = ulpi_step_loop h u n xfer' ud' bus' out'.
Proof. intros H. cbn [ulpi_step_loop]. by rewrite H. Qed.

Lemma step_loop_finish {S} h u n r (xfer xfer' : transfer_t) (ud ud' : S) bus bus' out out' :
  ulpi_step_once h u xfer ud bus out = Ok (r, xfer', ud', bus', out') -> r <> 0 ->
  ulpi_step_loop h u (Datatypes.S n) xfer ud bus out = Some (Ok (r, xfer', ud', bus')).
Proof.
  intros H Hr. cbn [ulpi_step_loop]. rewrite H. by destruct (Z.eqb_spec r 0).
Qed.

(** C13.  A token is sent in exactly nine steps: for each token type and any
    token bytes, [token_send_step] run against a passive link puts exactly the
    packet PID, token byte 1, token byte 2 on the bus, and leaves the transfer
    idle with the rest of it unchanged. *)
Theorem token_send_trace xfer bus fuel :
  is_token (type xfer) = true -> (9 <= fuel)%nat ->
  ulpi_step_with token_send_step link_monitor fuel xfer bus [] =
  Some (Ok (1, xfer <| type := XferIdle |> <| stage := NoXfer |>,
            packet_trace [token_pid_byte (type xfer); tok1 xfer; tok2 xfer], bus_released)).
Proof.
  intros Ht Hf. do 9 (destruct fuel as [|fuel]; [lia|]). clear Hf.
  destruct xfer as [ad ep t s sq cy tx tl tp rx rl rp t1 t2 c1 c2].
  destruct t; try discriminate Ht; reflexivity.
Qed.

(** ** Data packets *)

Definition is_down_data (t : xfer_type_t) : bool :=
  match t with DnDATA0 | DnDATA1 => true | _ => false end.

(** The PID byte of DATA0 or DATA1, and the sequence bit it stands for. *)
Definition data_pid_byte (t : xfer_type_t) : Z := if type_eqb t DnDATA0 then 0xC3 else 0x4B.
Definition data_seq_bit (t : xfer_type_t) : Z := if type_eqb t DnDATA0 then 0 else 1.

(** The transfer is set up to send [payload] with the right sequence bit. *)
Record sends (xfer : transfer_t) (payload : list Z) : Prop := {
  sends_type : is_down_data (type xfer) = true;
  sends_seq : ep_seq xfer !! Z.to_nat (Z.land (endpoint xfer) 0x0f) =
                Some (data_seq_bit (type xfer));
  sends_tx : take (length payload) (tx xfer) = payload;
  sends_len : tx_len xfer = Z.of_nat (length payload);
}.

Lemma sends_lookup xfer payload i v :
  sends xfer payload -> payload !! i = Some v -> tx xfer !! i = Some v.
Proof.
  intros [_ _ Htx _] Hi. rewrite <- Htx in Hi.
  destruct (decide (i < length payload)%nat).
  - by rewrite lookup_take_lt in Hi.
  - by rewrite lookup_take_ge in Hi by lia.
Qed.

(** One step of the loop, computed: the transfer is taken apart, its sequence
    check is rewritten with [Hs], and the rest reduces. *)
Ltac datax_step Hs :=
  unfold ulpi_step_once, datax_send_step; cbn -[check_seq read_at Z.of_nat Z.add];
  erewrite check_seq_bit by exact Hs; cbn -[check_seq read_at Z.of_nat Z.add].

Lemma datax_body_step xfer payload i v w seen out n :
  sends xfer payload -> payload !! i = Some v ->
  tx_ptr xfer = Z.of_nat i -> stage xfer = DATAxBody ->
  ulpi_step_loop datax_send_step link_monitor (S n) xfer seen (bus_rx_byte w) out =
  ulpi_step_loop datax_send_step link_monitor n (xfer <| tx_ptr := Z.of_nat (S i) |>)
    (seen ++ [bus_rx_byte v]) (bus_rx_byte v) (bus_rx_byte v).
Proof.
  intros Hsend Hv Hp Hst. pose proof (sends_lookup _ _ _ _ Hsend Hv) as Hr.
  apply lookup_lt_Some in Hv. destruct Hsend as [Ht Hs _ Hl].
  destruct xfer as [ad ep t s sq cy tx tl tp rx rl rp t1 t2 c1 c2]; cbn -[check_seq] in *; subst.
  assert (Hlt : (Z.of_nat i <? Z.of_nat (length payload)) = true) by lia.
  assert (Hrd : read_at tx (Z.of_nat i) = Ok v) by (by apply read_at_Some).
  replace (Z.of_nat (S i)) with (Z.of_nat i + 1) by lia.
  destruct t; try discriminate Ht; apply step_loop_continue; datax_step Hs; rewrite Hlt, Hrd; reflexivity.
Qed.

Lemma datax_body_run xfer payload i w seen out n :
  sends xfer payload -> (i <= length payload)%nat ->
  tx_ptr xfer = Z.of_nat i -> stage xfer = DATAxBody ->
  exists w' out', ulpi_step_loop datax_send_step link_monitor (length payload - i + n)
      xfer seen (bus_rx_byte w) out =
    ulpi_step_loop datax_send_step link_monitor n
      (xfer <| tx_ptr := Z.of_nat (length payload) |>)
      (seen ++ map bus_rx_byte (drop i payload)) (bus_rx_byte w') out'.
Proof.
  intros Hsend. remember (length payload - i)%nat as k eqn:Hk.
  revert xfer Hsend i Hk w seen out. induction k as [|k IH];
    intros xfer Hsend i Hk w seen out Hi Hp Hst.
  - assert (i = length payload) as -> by lia. exists w, out.
    rewrite drop_all, app_nil_r. destruct xfer; cbn in *; subst. reflexivity.
  - destruct (lookup_lt_is_Some_2 payload i ltac:(lia)) as [v Hv].
    rewrite (drop_S _ _ _ Hv). cbn [Nat.add map].
    rewrite (datax_body_step _ _ _ _ _ _ _ _ Hsend Hv Hp Hst).
    destruct (IH (xfer <| tx_ptr := Z.of_nat (S i) |>)) with (i := S i) (w := v)
      (seen := seen ++ [bus_rx_byte v]) (out := bus_rx_byte v) as (w' & out' & ->); try done || lia.
    { by destruct Hsend; split. }
    exists w', out'. rewrite <- app_assoc. reflexivity.
Qed.

(** The first three steps take the bus and send the PID. *)
Lemma datax_head xfer payload bus n :
  sends xfer payload ->
  ulpi_step_with datax_send_step link_monitor (3 + n) xfer bus [] =
  ulpi_step_loop datax_send_step link_monitor n (xfer <| stage := DATAxPID |>)
    [bus_turnaround; bus_rx_cmd 0x5D; bus_rx_byte (data_pid_byte (type xfer))]
    (bus_rx_byte (data_pid_byte (type xfer))) (bus_rx_byte (data_pid_byte (type xfer))).
Proof.
  intros [Ht Hs _ _]. unfold ulpi_step_with. change (3 + n)%nat with (S (S (S n))).
  destruct xfer as [ad ep t s sq cy tx tl tp rx rl rp t1 t2 c1 c2]; cbn in Ht, Hs.
  destruct t; try discriminate Ht; do 3 (erewrite step_loop_continue; [|datax_step Hs; reflexivity]);
    reflexivity.
Qed.

(** From the first CRC byte on: the second one and the end of packet. *)
Lemma datax_tail xfer payload seen w out n :
  sends xfer payload -> stage xfer = DATAxCRC1 ->
  ulpi_step_loop datax_send_step link_monitor (5 + n) xfer seen (bus_rx_byte w) out =
  Some (Ok (1, xfer <| type := XferIdle |> <| stage := NoXfer |>,
            seen ++ [bus_rx_byte (crc2 xfer); bus_rx_cmd 0x4C; bus_rx_cmd 0x4D;
                     bus_released; bus_released], bus_released)).
Proof.
  intros [Ht Hs _ _] Hst. change (5 + n)%nat with (S (S (S (S (S n))))).
  destruct xfer as [ad ep t s sq cy tx tl tp rx rl rp t1 t2 c1 c2]; cbn in Ht, Hs, Hst; subst.
  destruct t; try discriminate Ht; (do 4 (erewrite step_loop_continue; [|datax_step Hs; reflexivity]);
    erewrite step_loop_finish; [|datax_step Hs; reflexivity|done]);
    rewrite <- !app_assoc; reflexivity.
Qed.

(** The first CRC byte on the bus: the constant of a zero-length packet, else
    the transfer's [crc1]. *)
Definition first_crc (xfer : transfer_t) : Z :=
  if tx_len xfer =? 0 then ZDP_CRC16_BYTE1 else crc1 xfer.

(** From the PID to the first CRC byte. *)
Lemma datax_payload xfer payload seen w out n :
  sends xfer payload -> stage xfer = DATAxPID -> tx_ptr xfer = 0 ->
  ulpi_step_loop datax_send_step link_monitor (length payload + 1 + n) xfer seen
    (bus_rx_byte w) out =
  ulpi_step_loop datax_send_step link_monitor n
    (xfer <| tx_ptr := Z.of_nat (length payload) |> <| stage := DATAxCRC1 |>)
    (seen ++ map bus_rx_byte (payload ++ [first_crc xfer]))
    (bus_rx_byte (first_crc xfer)) (bus_rx_byte (first_crc xfer)).
Proof.
  intros Hsend Hst Hp.
  destruct payload as [|v payload].
  - destruct Hsend as [Ht Hs _ Hl]. unfold first_crc.
    destruct xfer as [ad ep t s sq cy tx tl tp rx rl rp t1 t2 c1 c2]; cbn in Ht, Hs, Hl, Hst, Hp; subst.
    cbn [length Nat.add]. destruct t; try discriminate Ht;
      (erewrite step_loop_continue; [|datax_step Hs; reflexivity]); reflexivity.
  - pose proof (sends_lookup _ _ 0%nat v Hsend eq_refl) as Hr%read_at_Some.
    change (Z.of_nat 0) with 0 in Hr.
    transitivity (ulpi_step_loop datax_send_step link_monitor
      (length (v :: payload) - 1 + (1 + n))
      (xfer <| tx_ptr := Z.of_nat 1 |> <| stage := DATAxBody |>) (seen ++ [bus_rx_byte v])
      (bus_rx_byte v) (bus_rx_byte v)).
    + replace (length (v :: payload) + 1 + n)%nat
        with (S (length (v :: payload) - 1 + (1 + n))) by (cbn; lia).
      apply step_loop_continue. destruct Hsend as [Ht Hs _ Hl].
      destruct xfer as [ad ep t s sq cy tx tl tp rx rl rp t1 t2 c1 c2]; cbn -[read_at] in Ht, Hs, Hl, Hst, Hp, Hr; subst.
      destruct t; try discriminate Ht; datax_step Hs; rewrite Hr; reflexivity.
    + destruct (datax_body_run (xfer <| tx_ptr := Z.of_nat 1 |> <| stage := DATAxBody |>)
        (v :: payload) 1 v (seen ++ [bus_rx_byte v]) (bus_rx_byte v) (1 + n)) as (w' & out' & ->);
        try done; [by destruct Hsend; split|cbn; lia|].
      destruct Hsend as [Ht Hs _ Hl]. unfold first_crc.
      assert (Hlt : forall k, (Z.of_nat k <? Z.of_nat k) = false) by lia.
      assert (Hnz : (Z.of_nat (length (v :: payload)) =? 0) = false) by (apply Z.eqb_neq; cbn [length]; lia).
      destruct xfer as [ad ep t s sq cy tx tl tp rx rl rp t1 t2 c1 c2];
        cbn -[length Z.of_nat] in Ht, Hs, Hl, Hst, Hp; subst.
      destruct t; try discriminate Ht; (erewrite step_loop_continue;
        [|datax_step Hs; rewrite Hlt; reflexivity]); rewrite map_app, <- !app_assoc;
        cbn [tx_len Ulpi.crc1]; rewrite Hnz; reflexivity.
Qed.

Lemma sends_ext xfer xfer' payload :
  sends xfer payload -> type xfer' = type xfer -> endpoint xfer' = endpoint xfer ->
  ep_seq xfer' = ep_seq xfer -> tx xfer' = tx xfer -> tx_len xfer' = tx_len xfer ->
  sends xfer' payload.
Proof. intros [] Ht He Hq Hx Hl. by split; rewrite ?Ht, ?He, ?Hq, ?Hx, ?Hl. Qed.

Lemma datax_send_run xfer bus payload fuel :
  sends xfer payload -> tx_ptr xfer = 0 -> (length payload + 9 <= fuel)%nat ->
  ulpi_step_with datax_send_step link_monitor fuel xfer bus [] =
  Some (Ok (1, xfer <| tx_ptr := Z.of_nat (length payload) |>
                    <| type := XferIdle |> <| stage := NoXfer |>,
    packet_trace (data_pid_byte (type xfer) :: payload ++ [first_crc xfer; crc2 xfer]),
    bus_released)).
Proof.
  intros Hs Hp Hf. replace fuel with (3 + (length payload + 1 + (5 + (fuel - length payload - 9))))%nat
    by lia.
  rewrite (datax_head _ _ _ _ Hs).
  erewrite datax_payload; [|by eapply sends_ext|done|done].
  erewrite datax_tail; [|by eapply sends_ext|done].
  unfold packet_trace. destruct xfer; cbn. do 3 f_equal.
  by rewrite !map_app, <- !app_assoc.
Qed.

(** C14.  A data packet is sent in [length payload + 9] steps: against a passive
    link, [datax_send_step] puts exactly PID, payload and two CRC bytes on the
    bus, framed as a packet, for every payload (the empty one included). *)
Theorem datax_send_trace xfer bus payload fuel :
  sends xfer payload -> tx_ptr xfer = 0 -> (length payload + 9 <= fuel)%nat ->
  ulpi_step_with datax_send_step link_monitor fuel xfer bus [] =
  Some (Ok (1, xfer <| tx_ptr := Z.of_nat (length payload) |>
                    <| type := XferIdle |> <| stage := NoXfer |>,
    packet_trace (data_pid_byte (type xfer) :: payload ++ [first_crc xfer; crc2 xfer]),
    bus_released)).
Proof. apply datax_send_run. Qed.

(** ** What the receiver can conclude *)

Lemma tok_bytes_join tok :
  0 <= tok < 2 ^ 16 ->
  Z.lor (Z.land tok 0xFF) (Z.shiftl (u8 (Z.shiftr tok 8)) 8) = tok.
Proof.
  intros Ht. apply Z.bits_inj'. intros i Hi. unfold u8.
  rewrite Z.lor_spec, Z.land_spec, Z.shiftl_spec by done. change 0xFF with (Z.ones 8).
  destruct (decide (i < 8)).
  - rewrite Z.ones_spec_low, (Z.testbit_neg_r _ (i - 8)) by lia.
    by rewrite andb_true_r, orb_false_r.
  - rewrite Z.ones_spec_high, andb_false_r, orb_false_l by lia.
    destruct (decide (i < 16)).
    + rewrite Z.mod_pow2_bits_low, Z.shiftr_spec by lia. f_equal. lia.
    + rewrite Z.mod_pow2_bits_high by lia. rewrite <- (Z.mod_small tok (2 ^ 16)) by lia.
      by rewrite Z.mod_pow2_bits_high by lia.
Qed.

(** The 16 bits of a token's two bytes, as the device reassembles them. *)
Definition token_word (xfer : transfer_t) : Z := Z.lor (tok1 xfer) (Z.shiftl (tok2 xfer) 8).

Lemma token_word_calc xfer :
  token_word (transfer_tok xfer) =
  crc5_calc (Z.lor (u16 (Z.land (address xfer) 0x7F))
               (u16 (Z.shiftl (u16 (Z.land (endpoint xfer) 0x0F)) 7))).
Proof. apply tok_bytes_join, crc5_calc_bounds. Qed.

Lemma token_payload_bits ad ep :
  let d := Z.lor (u16 (Z.land ad 0x7F)) (u16 (Z.shiftl (u16 (Z.land ep 0x0F)) 7)) in
  0 <= d < 2 ^ 16 /\ Z.land d 0x7F = Z.land ad 0x7F /\
  Z.land (Z.shiftr d 7) 0x0F = Z.land ep 0x0F /\ Z.land d 0x07FF = d.
Proof.
  cbn zeta.
  assert (Ha : 0 <= Z.land ad 0x7F < 2 ^ 7).
  { change 0x7F with (Z.ones 7). rewrite Z.land_ones by lia. apply Z.mod_pos_bound; lia. }
  assert (He : 0 <= Z.land ep 0x0F < 2 ^ 4).
  { change 0x0F with (Z.ones 4). rewrite Z.land_ones by lia. apply Z.mod_pos_bound; lia. }
  rewrite (u16_small (Z.land ad _)), (u16_small (Z.land ep _)) by lia.
  rewrite u16_small by (rewrite Z.shiftl_mul_pow2; lia).
  revert Ha He. generalize (Z.land ad 0x7F) as x, (Z.land ep 0x0F) as y. intros x y Hx Hy.
  assert (Hadd : Z.lor x (Z.shiftl y 7) = x + y * 2 ^ 7).
  { rewrite <- Z.shiftl_mul_pow2 by lia. rewrite <- Z.lxor_lor, Z.add_nocarry_lxor; try done.
    all: apply Z.bits_inj'; intros i Hi; rewrite Z.land_spec, Z.bits_0, Z.shiftl_spec by done.
    all: destruct (decide (i < 7)); [rewrite (Z.testbit_neg_r _ (i - 7)) by lia; apply andb_false_r|].
    all: rewrite <- (Z.mod_small x (2 ^ 7)) by lia; by rewrite Z.mod_pow2_bits_high by lia. }
  rewrite Hadd. change 0x7F with (Z.ones 7). change 0x0F with (Z.ones 4).
  change 0x07FF with (Z.ones 11). rewrite !Z.land_ones, Z.shiftr_div_pow2 by lia.
  repeat split; try lia.
  - rewrite Z.mod_add by lia. apply Z.mod_small. lia.
  - rewrite Z.div_add, (Z.div_small x), Z.add_0_l by lia. apply Z.mod_small. lia.
  - apply Z.mod_small. lia.
Qed.

(** C15.  The token built by [transfer_tok] is what a device expects: the two
    bytes form a word that passes [crc5_check] and carries the 7-bit address
    and the 4-bit endpoint. *)
Theorem transfer_tok_wellformed xfer :
  let w := token_word (transfer_tok xfer) in
  crc5_check w = true /\ Z.land w 0x7F = Z.land (address xfer) 0x7F /\
  Z.land (Z.shiftr w 7) 0x0F = Z.land (endpoint xfer) 0x0F.
Proof.
  cbn zeta. rewrite token_word_calc.
  destruct (token_payload_bits (address xfer) (endpoint xfer)) as (Hd & Had & Hep & Hm).
  set (d := Z.lor _ _) in *. pose proof (crc5_calc_payload d) as Hp. rewrite Hm in Hp.
  split; [by apply crc5_check_calc|].
  revert Hp. generalize (crc5_calc d) as c. intros c Hp. clearbody d.
  rewrite <- Had, <- Hep, <- Hp, Z.shiftr_land, <- !Z.land_assoc. done.
Qed.

(** C9.  End to end, data: if the CRC bytes of the transfer are those the
    set-up routines compute over the payload, then whatever the payload, the
    bytes a link receives from [datax_send_step] are the PID followed by bytes
    that pass [crc16_check]. *)
Theorem datax_send_valid xfer bus payload fuel :
  sends xfer payload -> tx_ptr xfer = 0 -> (length payload + 9 <= fuel)%nat ->
  Forall is_byte payload ->
  crc1 xfer = crc_lo (crc16_calc payload) -> crc2 xfer = crc_hi (crc16_calc payload) ->
  exists xfer' trace bus' body,
    ulpi_step_with datax_send_step link_monitor fuel xfer bus [] = Some (Ok (1, xfer', trace, bus'))
    /\ received trace = data_pid_byte (type xfer) :: body
    /\ take (length payload) body = payload /\ length body = (length payload + 2)%nat
    /\ crc16_check body = true.
Proof.
  intros Hs Hp Hf Hb H1 H2. rewrite (datax_send_run _ _ _ _ Hs Hp Hf).
  do 4 eexists. split; [reflexivity|]. rewrite received_packet. split; [reflexivity|].
  rewrite take_app_length, length_app. repeat split.
  rewrite H2. unfold first_crc. destruct (Z.eqb_spec (tx_len xfer) 0) as [Hz|_].
  - destruct payload; [reflexivity|]. rewrite (sends_len _ _ Hs) in Hz. cbn [length] in Hz. lia.
  - rewrite H1, crc16_check_fold by (by apply Forall_app_2).
    by rewrite foldl_append_crc.
Qed.

(** ** Witnesses *)

Definition xfer_example : transfer_t :=
  transfer_zero <| type := DnDATA0 |> <| endpoint := 2 |>
    <| tx := [0xAA; 0x55; 0x01] ++ replicate 509 0 |> <| tx_len := 3 |>
    <| crc1 := crc_lo (crc16_calc [0xAA; 0x55; 0x01]) |>
    <| crc2 := crc_hi (crc16_calc [0xAA; 0x55; 0x01]) |>.

Lemma xfer_example_sends : sends xfer_example [0xAA; 0x55; 0x01].
Proof. by split. Qed.

Lemma token_send_trace_witness :
  is_token IN = true /\ (9 <= 20)%nat /\
  ulpi_step_with token_send_step link_monitor 20
    (transfer_zero <| type := IN |> <| tok1 := 0x81 |> <| tok2 := 0x18 |>) ulpi_bus_zero [] =
  Some (Ok (1, transfer_zero <| tok1 := 0x81 |> <| tok2 := 0x18 |>,
            packet_trace [0x69; 0x81; 0x18], bus_released)).
Proof.
  split; [reflexivity|split; [lia|]].
  exact (token_send_trace (transfer_zero <| type := IN |> <| tok1 := 0x81 |> <| tok2 := 0x18 |>)
           ulpi_bus_zero 20 eq_refl ltac:(lia)).
Defined.

Lemma datax_send_trace_witness :
  ulpi_step_with datax_send_step link_monitor 12 xfer_example ulpi_bus_zero [] =
  Some (Ok (1, xfer_example <| tx_ptr := 3 |> <| type := XferIdle |> <| stage := NoXfer |>,
    packet_trace [0xC3; 0xAA; 0x55; 0x01; crc1 xfer_example; crc2 xfer_example], bus_released)).
Proof.
  exact (datax_send_trace xfer_example ulpi_bus_zero [0xAA; 0x55; 0x01] 12
           xfer_example_sends eq_refl ltac:(cbn; lia)).
Defined.

Lemma datax_send_valid_witness :
  exists xfer' trace bus' body,
    ulpi_step_with datax_send_step link_monitor 12 xfer_example ulpi_bus_zero []
      = Some (Ok (1, xfer', trace, bus'))
    /\ received trace = 0xC3 :: body /\ take 3 body = [0xAA; 0x55; 0x01]
    /\ length body = 5%nat /\ crc16_check body = true.
Proof.
  apply (datax_send_valid xfer_example ulpi_bus_zero [0xAA; 0x55; 0x01] 12
           xfer_example_sends eq_refl ltac:(cbn; lia)); [solve_bytes|reflexivity|reflexivity].
Defined.
