(* ===== verification/UlpiRecv.v ===== *)
(** Receiving a data packet: what [datax_recv_step] stores while the link
    sends, when it accepts the packet, and where it leaves its buffer. *)

From S2P Require Import Prelude Gf2 UsbCrc Ulpi.

(** ** [check_rx_crc16] against [crc16_check] *)

Lemma crc16_check_pair msg r1 r2 :
  Forall is_byte msg -> is_byte r1 -> is_byte r2 ->
  crc16_check (msg ++ [r1; r2]) = true <->
  r1 = crc_lo (crc16_calc msg) /\ r2 = crc_hi (crc16_calc msg).
Proof.
  intros Hm H1 H2.
  assert (Hr : Forall is_byte [r1; r2]) by (repeat constructor; apply H1 || apply H2).
  rewrite crc16_check_fold by (by apply Forall_app_2). rewrite Z.eqb_eq.
  rewrite <- (foldl_append_crc msg Hm), !foldl_app.
  split; [|by intros [-> ->]]. intros H.
  eapply crc16_pair_inj; [| |apply crc_pair_bytes|exact H]; [|done].
  by apply crc16_fold_bounds; [apply start_bounds|].
Qed.

Lemma crc16_check_code msg :
  crc16_check msg = (crc16_calc msg =? 0x4FFE).
Proof.
  unfold crc16_check. rewrite u16_lnot by apply crc16_calc_bounds.
  apply eq_bool_prop_intro. rewrite !Is_true_true, !Z.eqb_eq.
  change CRC16_RESID_REFLECTED with (Z.lxor 0x4FFE 0xFFFF).
  split; [apply lxor_inj_r|by intros ->].
Qed.

(** The packet as received: payload and two CRC bytes at the head of [rx]. *)
Definition rx_packet (xfer : transfer_t) : list Z := take (Z.to_nat (rx_ptr xfer)) (rx xfer).

Lemma take_split2 {A} (l : list A) n r1 r2 :
  l !! n = Some r1 -> l !! S n = Some r2 -> take (S (S n)) l = take n l ++ [r1; r2].
Proof. intros H1 H2. by rewrite (take_S_r _ _ r2), (take_S_r _ _ r1), <- app_assoc by done. Qed.

Lemma check_rx_crc16_spec xfer :
  Forall is_byte (rx xfer) -> 2 <= rx_ptr xfer <= Z.of_nat (length (rx xfer)) ->
  rx_len xfer = rx_ptr xfer - 2 ->
  exists xfer', check_rx_crc16 xfer = Ok (crc16_check (rx_packet xfer), xfer') /\
    (xfer' = xfer \/ exists c1 c2, xfer' = xfer <| crc1 := c1 |> <| crc2 := c2 |>).
Proof.
  intros Hb Hp Hl. unfold check_rx_crc16, rx_packet.
  set (n := Z.to_nat (rx_ptr xfer - 2)).
  destruct (lookup_lt_is_Some_2 (rx xfer) n ltac:(lia)) as [r1 Hr1].
  destruct (lookup_lt_is_Some_2 (rx xfer) (S n) ltac:(lia)) as [r2 Hr2].
  replace (Z.to_nat (rx_ptr xfer)) with (S (S n)) by lia.
  pose proof (take_split2 _ _ _ _ Hr1 Hr2) as Hsplit. rewrite Hsplit, Hl.
  pose proof (Forall_lookup_1 _ _ _ _ Hb Hr1) as Hb1.
  pose proof (Forall_lookup_1 _ _ _ _ Hb Hr2) as Hb2.
  assert (Hmsg : Forall is_byte (take n (rx xfer))) by (by apply Forall_take).
  pose proof (crc16_check_pair _ _ _ Hmsg Hb1 Hb2) as Hiff.
  apply read_at_Some in Hr1, Hr2.
  replace (Z.of_nat n) with (rx_ptr xfer - 2) in Hr1 by lia.
  replace (Z.of_nat (S n)) with (rx_ptr xfer - 2 + 1) in Hr2 by lia.
  assert (Hval : (crc_lo (crc16_calc (take n (rx xfer))) =? r1) &&
    (crc_hi (crc16_calc (take n (rx xfer))) =? r2) &&
    crc16_check (take n (rx xfer) ++ [r1; r2]) = crc16_check (take n (rx xfer) ++ [r1; r2])).
  { destruct (crc16_check _); [|by rewrite andb_false_r].
    destruct Hiff as [[-> ->] _]; [done|]. by rewrite !Z.eqb_refl. }
  destruct (Z.ltb_spec 0 (rx_ptr xfer - 2)).
  - rewrite !read_n_take by lia. fold n.
    replace (Z.to_nat (rx_ptr xfer)) with (S (S n)) by lia.
    rewrite Hsplit.
    cbn -[read_at crc16_calc]. rewrite Hr1. cbn -[read_at crc16_calc]. rewrite Hr2.
    cbn -[crc16_calc]. rewrite <- crc16_check_code. eexists. split; [f_equal; f_equal; exact Hval|].
    right. by do 2 eexists.
  - assert (n = 0)%nat as Hn by lia. rewrite Hn in *.
    replace (rx_ptr xfer - 2) with 0 in * by lia.
    rewrite Hr1. cbn -[read_at crc16_check]. change (0 + 1) with 1 in Hr2. rewrite Hr2.
    cbn -[crc16_check]. exists xfer. split; [|by left]. f_equal. f_equal.
    rewrite <- Hval, take_0. change (crc_lo (crc16_calc [])) with 0. change (crc_hi (crc16_calc [])) with 0.
    rewrite (Z.eqb_sym r1), (Z.eqb_sym r2).
    destruct (0 =? r1) eqn:E1; [|done]. destruct (0 =? r2) eqn:E2; [|done].
    symmetry. rewrite take_0 in Hiff. apply Hiff. split; symmetry; by apply Z.eqb_eq.
Qed.

(** ** Runs of a step function over a sequence of bus values *)

Fixpoint run_steps (step : transfer_t -> ulpi_bus_t -> ulpi_bus_t -> step_result)
    (xfer : transfer_t) (ins : list ulpi_bus_t) (out : ulpi_bus_t) : step_result :=
  match ins with
  | [] => Ok (0, xfer, out)
  | inp :: ins =>
      '(result, xfer, out) ← step xfer inp out;
      if result =? 0 then run_steps step xfer ins out else Ok (result, xfer, out)
  end.

Lemma run_steps_app step xfer ins1 ins2 out :
  run_steps step xfer (ins1 ++ ins2) out =
  ('(result, xfer, out) ← run_steps step xfer ins1 out;
   if result =? 0 then run_steps step xfer ins2 out else Ok (result, xfer, out)).
Proof.
  revert xfer out. induction ins1 as [|i ins1 IH]; intros xfer out; [done|].
  cbn. destruct (step xfer i out) as [[[r x] o]| |]; cbn; [|done..].
  destruct (r =? 0) eqn:E; [apply IH|]. cbn. by rewrite E.
Qed.

(** A bus cycle while the link sends: the link owns the bus and has not
    asserted STP.  NXT accepts the byte on the bus. *)
Definition body_cycle (inp : ulpi_bus_t) : bool := (dir inp =? SIG0) && negb (stp inp =? SIG1).
Definition accepted (ins : list ulpi_bus_t) : list Z :=
  map data_a (List.filter (fun inp => nxt inp =? SIG1) ins).

Definition is_up_data (t : xfer_type_t) : bool :=
  match t with UpDATA0 | UpDATA1 => true | _ => false end.

(** Storing bytes at [rx_ptr]. *)
Definition rx_append (xfer : transfer_t) (bytes : list Z) : transfer_t :=
  xfer <| rx := take (Z.to_nat (rx_ptr xfer)) (rx xfer) ++ bytes ++
                drop (Z.to_nat (rx_ptr xfer) + length bytes) (rx xfer) |>
       <| rx_ptr := rx_ptr xfer + Z.of_nat (length bytes) |>.

Lemma rx_append_nil xfer : 0 <= rx_ptr xfer -> rx_append xfer [] = xfer.
Proof.
  intros H. unfold rx_append. cbn [length app]. rewrite Nat.add_0_r, Z.add_0_r, take_drop.
  by destruct xfer.
Qed.

Lemma insert_append {A} (l : list A) p v bytes :
  (p < length l)%nat ->
  take (S p) (<[p := v]> l) ++ bytes ++ drop (S p + length bytes) (<[p := v]> l) =
  take p l ++ (v :: bytes) ++ drop (p + length (v :: bytes)) l.
Proof.
  intros Hp. rewrite (take_S_r _ _ v) by (by rewrite list_lookup_insert_eq).
  rewrite take_insert_ge, drop_insert_lt by lia. cbn [length].
  rewrite <- app_assoc. cbn. by replace (S (p + length bytes)) with (p + S (length bytes))%nat by lia.
Qed.

Lemma rx_append_cons xfer v bytes :
  0 <= rx_ptr xfer < Z.of_nat (length (rx xfer)) ->
  rx_append (xfer <| rx := <[Z.to_nat (rx_ptr xfer) := v]> (rx xfer) |> <| rx_ptr := rx_ptr xfer + 1 |>)
    bytes = rx_append xfer (v :: bytes).
Proof.
  intros H. unfold rx_append. cbn [rx rx_ptr set_field set_rx set_rx_ptr].
  replace (Z.to_nat (rx_ptr xfer + 1)) with (S (Z.to_nat (rx_ptr xfer))) by lia.
  rewrite insert_append by lia. cbn [length].
  by replace (rx_ptr xfer + 1 + Z.of_nat (length bytes))
    with (rx_ptr xfer + Z.of_nat (S (length bytes))) by lia.
Qed.

Lemma accepted_cons inp ins :
  accepted (inp :: ins) = (if nxt inp =? SIG1 then [data_a inp] else []) ++ accepted ins.
Proof. unfold accepted. cbn. by destruct (nxt inp =? SIG1). Qed.

Lemma recv_body_cycle xfer inp out :
  is_up_data (type xfer) = true -> stage xfer = DATAxBody -> body_cycle inp = true ->
  datax_recv_step xfer inp out =
  if nxt inp =? SIG1
  then rx' ← write_at (rx xfer) (rx_ptr xfer) (data_a inp);
       Ok (0, xfer <| rx := rx' |> <| rx_ptr := rx_ptr xfer + 1 |>, inp)
  else Ok (0, xfer, inp <| nxt := SIG1 |>).
Proof.
  intros Ht Hs [Hd Hp]%andb_true_iff. apply negb_true_iff in Hp.
  unfold datax_recv_step, recv_body. rewrite Hs, Hd, Hp.
  destruct (type xfer); try discriminate Ht; reflexivity.
Qed.

Lemma recv_body_run xfer ins out :
  is_up_data (type xfer) = true -> stage xfer = DATAxBody -> 0 <= rx_ptr xfer ->
  forallb body_cycle ins = true ->
  if rx_ptr xfer + Z.of_nat (length (accepted ins)) <=? Z.of_nat (length (rx xfer))
  then exists out', run_steps datax_recv_step xfer ins out
                    = Ok (0, rx_append xfer (accepted ins), out')
  else rx_ptr xfer <= Z.of_nat (length (rx xfer)) ->
       run_steps datax_recv_step xfer ins out = Undef.
Proof.
  revert xfer out. induction ins as [|i ins IH]; intros xfer out Ht Hs Hp Hb.
  - cbn [run_steps accepted List.filter map length]. destruct (Z.leb_spec (rx_ptr xfer + Z.of_nat 0)
      (Z.of_nat (length (rx xfer)))); [|lia].
    exists out. by rewrite rx_append_nil.
  - cbn [forallb] in Hb. apply andb_true_iff in Hb as [Hi Hb].
    cbn [run_steps]. rewrite (recv_body_cycle _ _ _ Ht Hs Hi).
    destruct (nxt i =? SIG1) eqn:Hn.
    + assert (Hacc : accepted (i :: ins) = data_a i :: accepted ins) by (by rewrite accepted_cons, Hn).
      rewrite Hacc. cbn [length].
      destruct (Z.ltb_spec (rx_ptr xfer) (Z.of_nat (length (rx xfer)))) as [Hlt|Hge].
      * rewrite write_at_in by lia. cbn [mbind outcome_bind Z.eqb].
        set (x' := xfer <| rx := _ |> <| rx_ptr := _ |>).
        specialize (IH x' i Ht Hs ltac:(cbn; lia) Hb).
        assert (Hx : rx_append x' (accepted ins) = rx_append xfer (data_a i :: accepted ins))
          by (apply rx_append_cons; lia).
        rewrite Hx in IH. unfold x' in IH at 1 2. cbn [rx rx_ptr set_field set_rx set_rx_ptr] in IH.
        rewrite length_insert in IH.
        replace (rx_ptr xfer + 1 + Z.of_nat (length (accepted ins)))
          with (rx_ptr xfer + Z.of_nat (S (length (accepted ins)))) in IH by lia.
        destruct (_ <=? _); [done|]. intros _. apply IH. cbn. rewrite length_insert. lia.
      * destruct (Z.leb_spec (rx_ptr xfer + Z.of_nat (S (length (accepted ins))))
          (Z.of_nat (length (rx xfer)))); [lia|]. intros _. by rewrite write_at_ge by lia.
    + assert (Hacc : accepted (i :: ins) = accepted ins) by (by rewrite accepted_cons, Hn).
      rewrite Hacc. apply IH; done.
Qed.

Lemma rx_append_packet xfer bytes :
  rx_ptr xfer = 0 -> rx_packet (rx_append xfer bytes) = bytes.
Proof.
  intros H. unfold rx_packet, rx_append. cbn [rx rx_ptr set_field set_rx set_rx_ptr].
  rewrite H, Z.add_0_l, Nat2Z.id. change (Z.to_nat 0) with 0%nat.
  by rewrite take_0, app_nil_l, take_app_length.
Qed.

Lemma rx_append_length xfer bytes :
  0 <= rx_ptr xfer -> rx_ptr xfer + Z.of_nat (length bytes) <= Z.of_nat (length (rx xfer)) ->
  length (rx (rx_append xfer bytes)) = length (rx xfer).
Proof.
  intros H0 H. unfold rx_append. cbn [rx set_field set_rx set_rx_ptr].
  rewrite !length_app, length_take, length_drop. lia.
Qed.

Lemma rx_append_bytes xfer bytes :
  Forall is_byte (rx xfer) -> Forall is_byte bytes -> Forall is_byte (rx (rx_append xfer bytes)).
Proof.
  intros Hr Hb. cbn. apply Forall_app_2; [by apply Forall_take|].
  apply Forall_app_2; [done|by apply Forall_drop].
Qed.

(** The link has driven the PID and the PHY has accepted it. *)
Definition pid_cycle (inp : ulpi_bus_t) : bool :=
  (dir inp =? SIG0) && (nxt inp =? SIG1) && (data_b inp =? 0x00).
Definition stop_cycle (inp : ulpi_bus_t) : bool := (dir inp =? SIG0) && (stp inp =? SIG1).

(** The sequence bit that a DATA0 or DATA1 transmit command carries. *)
Definition txcmd_seq (cmd : Z) : option Z :=
  if cmd =? ULPITX_DATA0 then Some 0 else if cmd =? ULPITX_DATA1 then Some 1 else None.

(** What the receiver answers to a whole packet: -2 for a command that is not
    DATA0 or DATA1, -3 for the wrong sequence bit, -1 for a bad CRC, else 0. *)
Definition recv_verdict (seq cmd : Z) (bytes : list Z) : Z :=
  match txcmd_seq cmd with
  | None => -2
  | Some s => if s =? seq then if crc16_check bytes then 0 else -1 else -3
  end.

Lemma recv_pid_step xfer inp out seq :
  is_up_data (type xfer) = true -> stage xfer = DATAxPID -> pid_cycle inp = true ->
  ep_seq xfer !! Z.to_nat (Z.land (endpoint xfer) 0x0f) = Some seq ->
  datax_recv_step xfer inp out =
  Ok (match txcmd_seq (data_a inp) with
      | None => -2 | Some s => if s =? seq then 0 else -3 end,
      xfer <| stage := DATAxBody |> <| rx_ptr := 0 |>, inp <| nxt := SIG0 |>).
Proof.
  intros Ht Hs [[Hd Hn]%andb_true_iff Hb]%andb_true_iff Hq.
  unfold datax_recv_step, txcmd_seq. rewrite Hs, Hd, Hn, Hb.
  destruct (type xfer); try discriminate Ht; cbn -[check_seq Z.eqb]; try erewrite check_seq_bit by exact Hq;
    (destruct (Z.eqb_spec (data_a inp) ULPITX_DATA0) as [->|];
      [|destruct (Z.eqb_spec (data_a inp) ULPITX_DATA1) as [->|]; [|reflexivity]]);
    cbn -[Z.eqb]; destruct (Z.eqb_spec seq 0), (Z.eqb_spec seq 1); subst; try reflexivity; try lia;
    destruct (Z.eqb_spec 0 seq), (Z.eqb_spec 1 seq); try lia; reflexivity.
Qed.

Lemma recv_stop_step xfer inp out :
  is_up_data (type xfer) = true -> stage xfer = DATAxBody -> stop_cycle inp = true ->
  Forall is_byte (rx xfer) -> 2 <= rx_ptr xfer <= Z.of_nat (length (rx xfer)) ->
  exists xfer' out', datax_recv_step xfer inp out =
    Ok (if crc16_check (rx_packet xfer) then 0 else -1, xfer', out') /\
    stage xfer' = DATAxStop /\ rx xfer' = rx xfer /\ rx_ptr xfer' = rx_ptr xfer /\
    rx_len xfer' = rx_ptr xfer - 2 /\ ep_seq xfer' = ep_seq xfer /\ nxt out' = SIG0.
Proof.
  intros Ht Hs [Hd Hp]%andb_true_iff Hb Hlen.
  set (x := xfer <| stage := DATAxStop |> <| rx_len := rx_ptr xfer - 2 |>).
  destruct (check_rx_crc16_spec x Hb Hlen eq_refl) as (x' & Hck & Hx').
  change (rx_packet x) with (rx_packet xfer) in Hck.
  unfold datax_recv_step, recv_body. rewrite Hs, Hd, Hp. fold x. rewrite Hck.
  exists x'. destruct (type xfer); try discriminate Ht; cbn -[check_rx_crc16 crc16_check];
    (destruct (crc16_check (rx_packet xfer)); eexists; split; [reflexivity| |reflexivity|]);
    destruct Hx' as [->|(c1 & c2 & ->)]; repeat split.
Qed.

(** C10.  Receiving a packet: given the accepted transmit command, any body of
    bytes and wait states of at most 512 bytes including the two CRC bytes, and
    the stop cycle, [datax_recv_step] gives exactly the verdict of
    [recv_verdict]; when it reaches the end of the packet it has stored exactly
    the accepted bytes, with [rx_len] the length of the payload. *)
Theorem datax_recv_packet xfer seq p body e out :
  is_up_data (type xfer) = true -> stage xfer = DATAxPID ->
  ep_seq xfer !! Z.to_nat (Z.land (endpoint xfer) 0x0f) = Some seq ->
  Forall is_byte (rx xfer) -> length (rx xfer) = 512%nat ->
  pid_cycle p = true -> forallb body_cycle body = true -> stop_cycle e = true ->
  Forall is_byte (accepted body) -> (2 <= length (accepted body) <= 512)%nat ->
  exists xfer' out',
    run_steps datax_recv_step xfer (p :: body ++ [e]) out =
      Ok (recv_verdict seq (data_a p) (accepted body), xfer', out') /\
    ep_seq xfer' = ep_seq xfer /\
    (-2 < recv_verdict seq (data_a p) (accepted body) ->
     stage xfer' = DATAxStop /\ rx_packet xfer' = accepted body /\
     rx_len xfer' = Z.of_nat (length (accepted body)) - 2).
Proof.
  intros Ht Hs Hq Hrx Hl Hp Hb He Hacc Hlen. cbn [run_steps].
  rewrite (recv_pid_step _ _ _ _ Ht Hs Hp Hq). unfold recv_verdict.
  set (x0 := xfer <| stage := DATAxBody |> <| rx_ptr := 0 |>).
  destruct (txcmd_seq (data_a p)) as [s|]; [|by (do 2 eexists; split; [reflexivity|split; [done|lia]])].
  destruct (s =? seq); [|by (do 2 eexists; split; [reflexivity|split; [done|lia]])].
  cbn [mbind outcome_bind Z.eqb]. rewrite run_steps_app.
  pose proof (recv_body_run x0 body (p <| nxt := SIG0 |>) Ht eq_refl ltac:(cbn; lia) Hb) as Hrun.
  destruct (Z.leb_spec (rx_ptr x0 + Z.of_nat (length (accepted body))) (Z.of_nat (length (rx x0))));
    [|cbn [x0 rx rx_ptr set_field set_rx_ptr set_stage] in *; lia].
  destruct Hrun as [o ->]. cbn [mbind outcome_bind Z.eqb run_steps].
  pose proof (rx_append_packet x0 (accepted body) eq_refl) as Hpk.
  destruct (recv_stop_step (rx_append x0 (accepted body)) e o) as (x' & o' & Hst & H1 & H2 & H3 & H4 & H5 & _);
    [done..|by apply rx_append_bytes| |].
  { rewrite rx_append_length by done. cbn [x0 rx_append rx rx_ptr set_field set_rx_ptr set_rx set_stage].
    lia. }
  rewrite Hst, Hpk. exists x', o'.
  assert (Hp' : rx_packet x' = accepted body) by (unfold rx_packet; by rewrite H2, H3).
  destruct (crc16_check (accepted body)); cbn; (split; [reflexivity|]); repeat split; try done;
    rewrite H4; cbn; lia.
Qed.

(** C38.  The receive buffer is not bounded by the code: a link that sends more
    than 512 bytes in one packet makes [datax_recv_step] write past [rx]. *)
Theorem datax_recv_overrun xfer body rest out :
  is_up_data (type xfer) = true -> stage xfer = DATAxBody -> rx_ptr xfer = 0 ->
  length (rx xfer) = 512%nat -> forallb body_cycle body = true ->
  (512 < length (accepted body))%nat ->
  run_steps datax_recv_step xfer (body ++ rest) out = Undef.
Proof.
  intros Ht Hs Hp Hl Hb Hlen. rewrite run_steps_app.
  pose proof (recv_body_run xfer body out Ht Hs ltac:(lia) Hb) as Hrun.
  destruct (Z.leb_spec (rx_ptr xfer + Z.of_nat (length (accepted body)))
    (Z.of_nat (length (rx xfer)))); [lia|]. rewrite Hrun by lia. done.
Qed.

(** A packet that is too short for a CRC: [rx_len] is negative, and the two bytes that
    [check_rx_crc16] looks at are not, or not both, bytes of the packet. *)
Lemma recv_stop_runt xfer inp out r0 r1 :
  is_up_data (type xfer) = true -> stage xfer = DATAxBody -> stop_cycle inp = true ->
  rx_ptr xfer <= 1 -> rx xfer !! 0%nat = Some r0 -> rx xfer !! 1%nat = Some r1 ->
  exists out', datax_recv_step xfer inp out =
    Ok (if (r0 =? 0) && (r1 =? 0) then 0 else -1,
        xfer <| stage := DATAxStop |> <| rx_len := rx_ptr xfer - 2 |>, out').
Proof.
  intros Ht Hs [Hd Hp]%andb_true_iff Hptr H0 H1.
  set (x := xfer <| stage := DATAxStop |> <| rx_len := rx_ptr xfer - 2 |>).
  assert (Hck : check_rx_crc16 x = Ok ((r0 =? 0) && (r1 =? 0), x)).
  { unfold check_rx_crc16, x. cbn [rx_len rx set_field set_rx_len set_stage].
    destruct (Z.ltb_spec 0 (rx_ptr xfer - 2)); [lia|].
    apply read_at_Some in H0, H1. change (Z.of_nat 0) with 0 in H0. change (Z.of_nat 1) with 1 in H1.
    by rewrite H0, outcome_bind_ok, H1. }
  unfold datax_recv_step, recv_body. rewrite Hs, Hd, Hp. fold x. rewrite Hck.
  destruct (type xfer); try discriminate Ht; cbn; destruct ((r0 =? 0) && (r1 =? 0)); by eexists.
Qed.

(** What the receiver answers to a packet that is too short: the command and the
    sequence bit are checked, and in place of a CRC whether the buffer starts with two
    zero bytes, the bytes before [old] the ones just received. *)
Definition runt_verdict (seq cmd : Z) (bytes old : list Z) : Z :=
  match txcmd_seq cmd with
  | None => -2
  | Some s =>
      if s =? seq then
        if decide (take 2 (bytes ++ drop (length bytes) old) = [0; 0]) then 0 else -1
      else -3
  end.

(** C37.  Receiving a runt, a packet of no or one byte after the PID, which cannot
    hold a CRC: with the right command and sequence bit [datax_recv_step] accepts it,
    with result 0, exactly if the first two bytes of the receive buffer are zero once
    the packet is stored, that is, if the byte of the packet, if any, and the bytes
    that an earlier packet left there are, and answers -1 otherwise.  It ends with a
    negative [rx_len], -2 or -1.  USB 2.0 has a receiver ignore a data packet whose CRC
    is not right. *)
Theorem datax_recv_runt xfer seq p body e out :
  is_up_data (type xfer) = true -> stage xfer = DATAxPID ->
  ep_seq xfer !! Z.to_nat (Z.land (endpoint xfer) 0x0f) = Some seq ->
  length (rx xfer) = 512%nat ->
  pid_cycle p = true -> forallb body_cycle body = true -> stop_cycle e = true ->
  (length (accepted body) <= 1)%nat ->
  exists xfer' out',
    run_steps datax_recv_step xfer (p :: body ++ [e]) out =
      Ok (runt_verdict seq (data_a p) (accepted body) (rx xfer), xfer', out') /\
    ep_seq xfer' = ep_seq xfer /\
    (-2 < runt_verdict seq (data_a p) (accepted body) (rx xfer) ->
     stage xfer' = DATAxStop /\ rx_len xfer' = Z.of_nat (length (accepted body)) - 2 /\
     rx xfer' = accepted body ++ drop (length (accepted body)) (rx xfer)).
Proof.
  intros Ht Hs Hq Hl Hp Hb He Hlen. cbn [run_steps].
  rewrite (recv_pid_step _ _ _ _ Ht Hs Hp Hq). unfold runt_verdict.
  set (x0 := xfer <| stage := DATAxBody |> <| rx_ptr := 0 |>).
  destruct (txcmd_seq (data_a p)) as [s|]; [|by (do 2 eexists; split; [reflexivity|split; [done|lia]])].
  destruct (s =? seq); [|by (do 2 eexists; split; [reflexivity|split; [done|lia]])].
  cbn [mbind outcome_bind Z.eqb]. rewrite run_steps_app.
  pose proof (recv_body_run x0 body (p <| nxt := SIG0 |>) Ht eq_refl ltac:(cbn; lia) Hb) as Hrun.
  set (x1 := rx_append x0 (accepted body)) in *.
  assert (Hrx : rx x1 = accepted body ++ drop (length (accepted body)) (rx xfer)) by done.
  assert (Hl1 : length (rx x1) = 512%nat) by (rewrite Hrx, length_app, length_drop; lia).
  assert (Hp1 : rx_ptr x1 = Z.of_nat (length (accepted body))) by done.
  destruct (Z.leb_spec (rx_ptr x0 + Z.of_nat (length (accepted body))) (Z.of_nat (length (rx x0))));
    [|cbn [x0 rx rx_ptr set_field set_rx_ptr set_stage] in *; lia].
  destruct Hrun as [o ->]. cbn [mbind outcome_bind Z.eqb run_steps].
  destruct (rx x1) as [|r0 [|r1 l]] eqn:Hr1; [done..|]. rewrite <- Hr1 in *.
  destruct (recv_stop_runt x1 e o r0 r1) as [o' ->]; [done..|lia|by rewrite Hr1|by rewrite Hr1|].
  rewrite <- Hrx, Hr1. cbn [take].
  assert (Hd : (if decide ([r0; r1] = [0; 0]) then 0 else -1) = if (r0 =? 0) && (r1 =? 0) then 0 else -1).
  { destruct (decide _) as [[= -> ->]|Hn]; [done|].
    destruct (Z.eqb_spec r0 0) as [->|]; [|done]. by destruct (Z.eqb_spec r1 0) as [->|]. }
  rewrite firstn_O, Hd. do 2 eexists. split; [rewrite outcome_bind_ok; cbv beta iota|split; [|intros _; split_and!]];
    [by destruct ((r0 =? 0) && (r1 =? 0))|done..| |done].
  change (rx_ptr x1 - 2 = Z.of_nat (length (accepted body)) - 2). by rewrite Hp1.
Qed.

(** ** Witnesses *)

Definition recv_example : transfer_t :=
  transfer_zero <| type := UpDATA0 |> <| stage := DATAxPID |> <| endpoint := 1 |>.
Definition link_cycle (s n v : Z) : ulpi_bus_t := MkBus SIG1 SIG1 SIG0 s n (MkByte v 0x00).
Definition body_example : list ulpi_bus_t :=
  [link_cycle SIG0 SIG1 0x12; link_cycle SIG0 SIG0 0x77;
   link_cycle SIG0 SIG1 (crc_lo (crc16_calc [0x12]));
   link_cycle SIG0 SIG1 (crc_hi (crc16_calc [0x12]))].

Lemma datax_recv_packet_witness :
  exists xfer' out',
    run_steps datax_recv_step recv_example
      (link_cycle SIG0 SIG1 ULPITX_DATA0 :: body_example ++ [link_cycle SIG1 SIG0 0]) ulpi_bus_zero =
      Ok (0, xfer', out') /\
    ep_seq xfer' = replicate 16 0 /\
    (-2 < 0 -> stage xfer' = DATAxStop /\ rx_packet xfer' = accepted body_example /\ rx_len xfer' = 1).
Proof.
  apply (datax_recv_packet recv_example 0 (link_cycle SIG0 SIG1 ULPITX_DATA0) body_example
           (link_cycle SIG1 SIG0 0) ulpi_bus_zero); try reflexivity.
  - apply Forall_replicate. unfold is_byte. lia.
  - vm_compute. repeat constructor; discriminate.
  - vm_compute. lia.
Defined.

Lemma datax_recv_overrun_witness :
  run_steps datax_recv_step (recv_example <| stage := DATAxBody |>)
    (replicate 513 (link_cycle SIG0 SIG1 0xAA) ++ []) ulpi_bus_zero = Undef.
Proof.
  apply (datax_recv_overrun (recv_example <| stage := DATAxBody |>)
           (replicate 513 (link_cycle SIG0 SIG1 0xAA)) [] ulpi_bus_zero); try reflexivity.
  vm_compute. lia.
Defined.

(** One zero byte: accepted after a reset, and refused when the second byte of the
    buffer is not zero. *)
Definition runt_byte : list ulpi_bus_t := [link_cycle SIG0 SIG1 0x00].

Lemma datax_recv_runt_witness :
  (exists xfer' out', run_steps datax_recv_step recv_example
      (link_cycle SIG0 SIG1 ULPITX_DATA0 :: runt_byte ++ [link_cycle SIG1 SIG0 0]) ulpi_bus_zero
    = Ok (0, xfer', out') /\ rx_len xfer' = -1) /\
  (exists xfer' out', run_steps datax_recv_step (recv_example <| rx := replicate 512 7 |>)
      (link_cycle SIG0 SIG1 ULPITX_DATA0 :: [] ++ [link_cycle SIG1 SIG0 0]) ulpi_bus_zero
    = Ok (-1, xfer', out') /\ rx_len xfer' = -2).
Proof.
  split.
  - destruct (datax_recv_runt recv_example 0 (link_cycle SIG0 SIG1 ULPITX_DATA0) runt_byte
      (link_cycle SIG1 SIG0 0) ulpi_bus_zero) as (x & o & E & _ & H);
      [reflexivity..|vm_compute; lia|].
    exists x, o. split; [exact E|]. apply H. reflexivity.
  - destruct (datax_recv_runt (recv_example <| rx := replicate 512 7 |>) 0
      (link_cycle SIG0 SIG1 ULPITX_DATA0) [] (link_cycle SIG1 SIG0 0) ulpi_bus_zero)
      as (x & o & E & _ & H); [reflexivity..|vm_compute; lia|].
    exists x, o. split; [exact E|]. apply H. reflexivity.
Defined.
