(* ===== verification/Descriptor.v ===== *)
(** Receiving a descriptor byte by byte: src/vpi/usb/descriptor.c. *)

From S2P Require Import Prelude UsbCrc Ulpi UlpiSafe UlpiRecv.

(** ** [desc_recv] *)

Definition desc_result : Type := outcome (Z * transfer_t).

Definition desc_recv (xfer : transfer_t) (inp : ulpi_bus_t) : desc_result :=
  if (xfer_type_val (type xfer) <? xfer_type_val UpDATA0) || negb (dir inp =? SIG0) ||
     (SIG1 <? nxt inp) || (SIG1 <? stp inp)
  then Ok (-1, xfer)
  else if negb (nxt inp =? SIG1) then Ok (0, xfer)
  else
  match stage xfer with
  | DATAxPID =>
      if negb (check_pid inp) then Ok (-1, xfer)
      else
        seq ← check_seq xfer (Z.land (data_a inp) 0x0F);
        if negb seq then Ok (-1, xfer)
        else Ok (0, xfer <| stage := DATAxBody |> <| rx_ptr := 0 |>)
  | DATAxBody | DATAxCRC1 | DATAxCRC2 =>
      xfer ← (if nxt inp =? SIG1
              then rx' ← write_at (rx xfer) (rx_ptr xfer) (data_a inp);
                   Ok (xfer <| rx := rx' |> <| rx_ptr := rx_ptr xfer + 1 |>)
              else Ok xfer);
      if stp inp =? SIG1
      then Ok (1, xfer <| stage := DATAxStop |> <| rx_len := rx_ptr xfer - 2 |>)
      else Ok (0, xfer)
  | DATAxStop =>
      if negb (nxt inp =? SIG0) then Ok (-1, xfer)
      else Ok (1, xfer <| stage := EndRXCMD |>)
  | EndRXCMD | EOP => Ok (1, xfer)
  | _ => Ok (-1, xfer)
  end.

(** ** [test_desc_recv] *)

Definition test_packet : list Z :=
  [0x12; 0x01; 0x00; 0x02; 0xFF; 0x00; 0x00; 0x40; 0xCE; 0xF4; 0x03; 0x00; 0x00; 0x00; 0x01;
   0x02; 0x03; 0x01; 0x21; 0xDD] ++ replicate 48 0.

(** The [do ... while] loop, with the [uint16_t index] that it increments. *)
Fixpoint test_desc_recv_loop (fuel : nat) (xfer : transfer_t) (bus : ulpi_bus_t)
    (packet : list Z) (index length : Z) : option (outcome (Z * transfer_t)) :=
  match fuel with
  | O => None
  | S fuel =>
      match desc_recv xfer bus with
      | Ok (result, xfer) =>
          match (if stage_eqb (stage xfer) DATAxBody then
                   d ← read_at packet index;
                   let index := u16 (index + 1) in
                   let bus := bus <| data_a := d |> in
                   Ok (if length <=? index then bus <| stp := SIG1 |> else bus, index)
                 else Ok (bus <| stp := SIG0 |>, index)) with
          | Ok (bus, index) =>
              if result =? 0 then test_desc_recv_loop fuel xfer bus packet index length
              else Some (Ok (result, xfer))
          | AssertFail => Some AssertFail
          | Undef => Some Undef
          end
      | AssertFail => Some AssertFail
      | Undef => Some Undef
      end
  end.

Definition test_desc_recv (fuel : nat) : option (outcome (Z * transfer_t)) :=
  let pid := USBPID_DATA1 in
  let bus := ulpi_bus_zero <| clock := SIG1 |> <| rst_n := SIG1 |> <| nxt := SIG1 |>
      <| data_a := u8 (Z.lor (Z.shiftl (u8 (Z.land (Z.lnot pid) 0x0f)) 4) pid) |> in
  let xfer := transfer_zero <| type := UpDATA1 |> <| stage := DATAxPID |>
      <| ep_seq := <[0%nat := 1]> (ep_seq transfer_zero) |> <| rx_len := 64 |> in
  test_desc_recv_loop fuel xfer bus test_packet 0 20.

(** ** Properties *)

(** [desc_recv] over a sequence of bus cycles, until it returns non-zero. *)
Fixpoint desc_run (xfer : transfer_t) (ins : list ulpi_bus_t) : desc_result :=
  match ins with
  | [] => Ok (0, xfer)
  | inp :: ins =>
      '(result, xfer) ← desc_recv xfer inp;
      if result =? 0 then desc_run xfer ins else Ok (result, xfer)
  end.

Definition desc_type (t : xfer_type_t) : bool :=
  match t with UpDATA0 | UpDATA1 | TimeOut => true | _ => false end.

(** A cycle that carries a byte ([nxt]) or a wait state, without STP. *)
Definition desc_cycle (inp : ulpi_bus_t) : bool :=
  (dir inp =? SIG0) && ((nxt inp =? SIG0) || (nxt inp =? SIG1)) && (stp inp =? SIG0).

Lemma desc_recv_cycle xfer inp :
  desc_type (type xfer) = true -> stage xfer = DATAxBody -> desc_cycle inp = true ->
  desc_recv xfer inp =
  if nxt inp =? SIG1
  then rx' ← write_at (rx xfer) (rx_ptr xfer) (data_a inp);
       Ok (0, xfer <| rx := rx' |> <| rx_ptr := rx_ptr xfer + 1 |>)
  else Ok (0, xfer).
Proof.
  intros Ht Hs [[Hd%Z.eqb_eq Hn]%andb_true_iff Hp%Z.eqb_eq]%andb_true_iff.
  unfold desc_recv. rewrite Hs, Hd, Hp.
  destruct (type xfer); try discriminate Ht.
  all: apply orb_true_iff in Hn as [->%Z.eqb_eq| ->%Z.eqb_eq]; cbn -[write_at]; [done|].
  all: by destruct (write_at _ _ _).
Qed.

Lemma desc_body_run xfer ins :
  desc_type (type xfer) = true -> stage xfer = DATAxBody -> 0 <= rx_ptr xfer ->
  forallb desc_cycle ins = true ->
  rx_ptr xfer + Z.of_nat (length (accepted ins)) <= Z.of_nat (length (rx xfer)) ->
  desc_run xfer ins = Ok (0, rx_append xfer (accepted ins)).
Proof.
  revert xfer. induction ins as [|i ins IH]; intros xfer Ht Hs Hp Hins Hlen.
  - cbn. by rewrite rx_append_nil.
  - cbn in Hins. apply andb_true_iff in Hins as [Hi Hins]. cbn [desc_run].
    rewrite desc_recv_cycle by done. rewrite accepted_cons in Hlen |- *.
    destruct (nxt i =? SIG1); cbn [app length] in Hlen |- *.
    + rewrite write_at_in by lia. cbn [mbind outcome_bind].
      change (0 =? 0) with true. cbv iota. rewrite IH; try done; try (cbn; lia).
      * by rewrite rx_append_cons by lia.
      * cbn. rewrite length_insert. lia.
    + by apply IH.
Qed.

Lemma desc_run_app xfer ins1 ins2 xfer' :
  desc_run xfer ins1 = Ok (0, xfer') -> desc_run xfer (ins1 ++ ins2) = desc_run xfer' ins2.
Proof.
  revert xfer. induction ins1 as [|i ins1 IH]; intros xfer; cbn; [by intros [= <-]|].
  destruct (desc_recv xfer i) as [[r x]| |]; cbn; [|done..].
  destruct (Z.eqb_spec r 0) as [->|Hr]; [apply IH|]. by intros [= ->].
Qed.

(** Receiving a descriptor: with the PID done and an empty buffer,
    [desc_recv] returns 0 while the link sends, stores the bytes of the accepted
    cycles in order, and on the cycle whose byte comes with STP it returns 1 with
    the whole packet in [rx], [rx_len] two bytes shorter (the CRC), and the rest
    of the buffer untouched. *)
Lemma desc_recv_packet xfer body e :
  desc_type (type xfer) = true -> stage xfer = DATAxBody -> rx_ptr xfer = 0 ->
  forallb desc_cycle body = true ->
  dir e = SIG0 -> nxt e = SIG1 -> stp e = SIG1 ->
  let bytes := accepted body ++ [data_a e] in
  (length bytes <= length (rx xfer))%nat ->
  desc_run xfer body = Ok (0, rx_append xfer (accepted body)) /\
  exists xfer', desc_run xfer (body ++ [e]) = Ok (1, xfer') /\
    rx xfer' = bytes ++ drop (length bytes) (rx xfer) /\
    rx_len xfer' = Z.of_nat (length bytes) - 2 /\ stage xfer' = DATAxStop.
Proof.
  intros Ht Hs Hp Hb Hd Hn He bytes Hlen. unfold bytes in Hlen. rewrite length_app in Hlen. cbn in Hlen.
  assert (H1 : desc_run xfer body = Ok (0, rx_append xfer (accepted body))).
  { apply desc_body_run; done || lia. }
  split; [done|]. rewrite (desc_run_app _ _ _ _ H1).
  assert (Hr : rx (rx_append xfer (accepted body)) =
    accepted body ++ drop (length (accepted body)) (rx xfer)).
  { unfold rx_append. cbn. by rewrite Hp. }
  assert (Hlen' : length (rx (rx_append xfer (accepted body))) = length (rx xfer)).
  { rewrite Hr, length_app, length_drop. lia. }
  assert (Hp' : rx_ptr (rx_append xfer (accepted body)) = Z.of_nat (length (accepted body))).
  { unfold rx_append. cbn. lia. }
  cbn [desc_run]. unfold desc_recv. rewrite Hd, Hn, He.
  change (type (rx_append xfer (accepted body))) with (type xfer).
  change (stage (rx_append xfer (accepted body))) with (stage xfer). rewrite Hs.
  destruct (type xfer); try discriminate Ht.
  all: cbn -[write_at rx_append]; rewrite write_at_in by lia; cbn -[rx_append].
  all: eexists; split; [reflexivity|]; cbn -[rx_append]; rewrite Hp', Hr, Nat2Z.id.
  all: unfold bytes; rewrite length_app; cbn [length]; (split; [|split; [lia|done]]).
  all: rewrite insert_app_r_alt, Nat.sub_diag, <- app_assoc by lia; f_equal.
  all: destruct (drop (length (accepted body)) (rx xfer)) as [|w l] eqn:E.
  all: try (apply (f_equal length) in E; rewrite length_drop in E; cbn in E; lia).
  all: cbn; f_equal; rewrite <- drop_drop, E; done.
Qed.

Lemma test_desc_recv_fuel n k xfer bus packet index len r :
  test_desc_recv_loop n xfer bus packet index len = Some r ->
  test_desc_recv_loop (n + k) xfer bus packet index len = Some r.
Proof.
  revert xfer bus index. induction n as [|n IH]; intros xfer bus index; [done|]. cbn.
  destruct (desc_recv xfer bus) as [[res x]| |]; [|done..].
  destruct (if stage_eqb (stage x) DATAxBody then _ else _) as [[bus' index']| |]; [|done..].
  destruct (res =? 0); [apply IH|done].
Qed.

Lemma test_desc_recv_mono n k r : test_desc_recv n = Some r -> test_desc_recv (n + k) = Some r.
Proof. apply test_desc_recv_fuel. Qed.

(** The repository's own test of [desc_recv] terminates and succeeds: the
    loop ends on its 21st iteration with result 1 and the 18 descriptor bytes,
    and not earlier. *)
Theorem test_desc_recv_succeeds :
  test_desc_recv 20 = None /\
  forall fuel, (21 <= fuel)%nat -> exists xfer, test_desc_recv fuel = Some (Ok (1, xfer)) /\
    rx_len xfer = 18 /\ take 20 (rx xfer) = take 20 test_packet.
Proof.
  split; [vm_compute; reflexivity|].
  intros fuel Hf. replace fuel with (21 + (fuel - 21))%nat by lia.
  assert (H : match test_desc_recv 21 with
              | Some (Ok (r, x)) => (r =? 1) && (rx_len x =? 18) &&
                                    bool_decide (take 20 (rx x) = take 20 test_packet)
              | _ => false
              end = true) by (vm_compute; reflexivity).
  destruct (test_desc_recv 21) as [[[r x]| |]|] eqn:E; [|discriminate H..].
  apply andb_true_iff in H as [[->%Z.eqb_eq H1%Z.eqb_eq]%andb_true_iff H2%bool_decide_eq_true].
  exists x. split; [|exact (conj H1 H2)]. exact (test_desc_recv_mono _ _ _ E).
Qed.

(** ** Witnesses *)

Definition desc_example : transfer_t :=
  transfer_zero <| type := UpDATA1 |> <| stage := DATAxBody |>.

Lemma desc_recv_packet_witness : exists xfer',
  desc_run desc_example ([link_cycle SIG0 SIG1 0x12; link_cycle SIG0 SIG0 0; link_cycle SIG0 SIG1 0x01;
    link_cycle SIG0 SIG1 0x07] ++ [link_cycle SIG1 SIG1 0xF0]) = Ok (1, xfer') /\ rx_len xfer' = 2.
Proof.
  destruct (desc_recv_packet desc_example [link_cycle SIG0 SIG1 0x12; link_cycle SIG0 SIG0 0;
    link_cycle SIG0 SIG1 0x01; link_cycle SIG0 SIG1 0x07] (link_cycle SIG1 SIG1 0xF0))
    as (_ & xfer' & H1 & _ & H2 & _); try reflexivity.
  - cbn. lia.
  - exists xfer'. split; [exact H1|exact H2].
Defined.
