(* ===== verification/UlpiPhy.v ===== *)
(** The ULPI PHY model of src/vpi/usb/ulpiphy.h and src/vpi/usb/ulpiphy.c: the
    register file, the start-up delay, the TX CMD decoder and the high-speed
    detection handshake (device chirp K, then the host's K-J-K-J-K-J), with the
    default timers of the file (neither [__short_timers] nor [__long_timers]).

    The ten registers are a list; [regnum] is whatever six bits the link sent,
    so the register accesses of the code are [read_at] and [write_at]. *)

From S2P Require Import Prelude UsbCrc Ulpi.

(** ** Constants and data *)

Definition UPHY_REG_FN_CTRL : Z := 4.
Definition UPHY_TXCMD_MASK : Z := 0xC0.
Definition UPHY_NOPID_BITS : Z := 0x00.
Definition UPHY_XMIT_BITS : Z := 0x40.
Definition UPHY_REGW_BITS : Z := 0x80.
Definition UPHY_REGR_BITS : Z := 0xC0.

Definition UPHY_DELAY_2_5_US : Z := 150.
Definition UPHY_CHIRPK_TIMER : Z := 60.
Definition HOST_CHIRPK_TIMER : Z := 30.

Definition ULPI_REG_DEFAULTS : list Z :=
  [0x24; 0x04; 0x06; 0x00; 0x41; 0x41; 0x41; 0x00; 0x00; 0x00].

(** [ulpi_phy_op_t]; [phy_Undefined] is the enumerator [Undefined]. *)
Inductive ulpi_phy_op_t : Type :=
| Disconnected | ErrorResetB | phy_Undefined | PowerOn | RefClkValid | Starting
| WaitForIdle | StatusRXCMD | PhyIdle | PhyRecv | PhySend | PhyREGW | PhyREGI | PhyStop
| PhyREGR | PhyREGZ | PhyREGO | PhySuspend | PhyResume | PhyChirpJ | PhyChirpK | HostChirp.

#[export] Instance ulpi_phy_op_eq_dec : EqDecision ulpi_phy_op_t.
Proof. solve_decision. Defined.

Definition is_PhyIdle (op : ulpi_phy_op_t) : bool := match op with PhyIdle => true | _ => false end.

(** [line_speed_t], as the [uint8_t] that holds it. *)
Definition FullSpeed : Z := 0.
Definition HostSE0 : Z := 1.
Definition FuncChirpK : Z := 2.
Definition HostChirpK1 : Z := 3.
Definition HostChirpJ1 : Z := 4.
Definition HostChirpK2 : Z := 5.
Definition HostChirpJ2 : Z := 6.
Definition HostChirpK3 : Z := 7.
Definition HostChirpJ3 : Z := 8.
Definition HighSpeed : Z := 9.

(** [phy_state_t]; the field [op] is called [phy_op] here. *)
Record phy_state_t : Type := MkPhyState {
  timer : Z;
  phy_op : ulpi_phy_op_t;
  rx_cmd : Z;
  regs : list Z;
  regnum : Z;
  update : Z;
  speed : Z
}.

#[export] Instance set_timer : Setter timer := fun v r =>
  MkPhyState v (phy_op r) (rx_cmd r) (regs r) (regnum r) (update r) (speed r).
#[export] Instance set_phy_op : Setter phy_op := fun v r =>
  MkPhyState (timer r) v (rx_cmd r) (regs r) (regnum r) (update r) (speed r).
#[export] Instance set_rx_cmd : Setter rx_cmd := fun v r =>
  MkPhyState (timer r) (phy_op r) v (regs r) (regnum r) (update r) (speed r).
#[export] Instance set_regs : Setter regs := fun v r =>
  MkPhyState (timer r) (phy_op r) (rx_cmd r) v (regnum r) (update r) (speed r).
#[export] Instance set_regnum : Setter regnum := fun v r =>
  MkPhyState (timer r) (phy_op r) (rx_cmd r) (regs r) v (update r) (speed r).
#[export] Instance set_update : Setter update := fun v r =>
  MkPhyState (timer r) (phy_op r) (rx_cmd r) (regs r) (regnum r) v (speed r).
#[export] Instance set_speed : Setter speed := fun v r =>
  MkPhyState (timer r) (phy_op r) (rx_cmd r) (regs r) (regnum r) (update r) v.

(** [ulpi_phy_t], with fields [state], [bus] and [xfer]. *)
Record ulpi_phy_t : Type := MkPhy {
  phy_state : phy_state_t;
  phy_bus : ulpi_bus_t;
  phy_xfer : transfer_t
}.

#[export] Instance set_phy_state : Setter phy_state := fun v r =>
  MkPhy v (phy_bus r) (phy_xfer r).
#[export] Instance set_phy_bus : Setter phy_bus := fun v r =>
  MkPhy (phy_state r) v (phy_xfer r).
#[export] Instance set_phy_xfer : Setter phy_xfer := fun v r =>
  MkPhy (phy_state r) (phy_bus r) v.

(** [phy->state.f]. *)
Definition st_timer (phy : ulpi_phy_t) : Z := timer (phy_state phy).
Definition st_op (phy : ulpi_phy_t) : ulpi_phy_op_t := phy_op (phy_state phy).
Definition st_rx_cmd (phy : ulpi_phy_t) : Z := rx_cmd (phy_state phy).
Definition st_regs (phy : ulpi_phy_t) : list Z := regs (phy_state phy).
Definition st_regnum (phy : ulpi_phy_t) : Z := regnum (phy_state phy).
Definition st_update (phy : ulpi_phy_t) : Z := update (phy_state phy).
Definition st_speed (phy : ulpi_phy_t) : Z := speed (phy_state phy).
#[export] Instance set_st_timer : Setter st_timer := fun v phy =>
  phy <| phy_state := phy_state phy <| timer := v |> |>.
#[export] Instance set_st_op : Setter st_op := fun v phy =>
  phy <| phy_state := phy_state phy <| phy_op := v |> |>.
#[export] Instance set_st_rx_cmd : Setter st_rx_cmd := fun v phy =>
  phy <| phy_state := phy_state phy <| rx_cmd := v |> |>.
#[export] Instance set_st_regs : Setter st_regs := fun v phy =>
  phy <| phy_state := phy_state phy <| regs := v |> |>.
#[export] Instance set_st_regnum : Setter st_regnum := fun v phy =>
  phy <| phy_state := phy_state phy <| regnum := v |> |>.
#[export] Instance set_st_update : Setter st_update := fun v phy =>
  phy <| phy_state := phy_state phy <| update := v |> |>.
#[export] Instance set_st_speed : Setter st_speed := fun v phy =>
  phy <| phy_state := phy_state phy <| speed := v |> |>.

(** ** Predicates *)

Definition ulpi_phy_is_idle (phy : ulpi_phy_t) : bool :=
  let xfer_idle := type_eqb (type (phy_xfer phy)) XferIdle &&
                   stage_eqb (stage (phy_xfer phy)) NoXfer in
  is_PhyIdle (st_op phy) && ulpi_bus_is_idle (phy_bus phy) && xfer_idle.

(** In C [a & MASK == BITS] is [a & (MASK == BITS)]. *)
Definition ulpi_phy_is_reg_read (phy : ulpi_phy_t) (inp : ulpi_bus_t) : bool :=
  let regr := (rst_n inp =? SIG1) && (dir inp =? SIG0) && (data_b inp =? 0x00) &&
    negb (Z.land (data_a inp) (if UPHY_TXCMD_MASK =? UPHY_REGR_BITS then 1 else 0) =? 0) in
  ulpi_phy_is_idle phy && regr.

Definition ulpi_phy_is_reg_write (phy : ulpi_phy_t) (inp : ulpi_bus_t) : bool :=
  let regw := (rst_n inp =? SIG1) && (dir inp =? SIG0) && (data_b inp =? 0x00) &&
    negb (Z.land (data_a inp) (if UPHY_TXCMD_MASK =? UPHY_REGW_BITS then 1 else 0) =? 0) in
  ulpi_phy_is_idle phy && regw.

Definition ulpi_phy_is_chirp (phy : ulpi_phy_t) : outcome bool :=
  r ← read_at (st_regs phy) UPHY_REG_FN_CTRL;
  Ok (Z.land r 0x1C =? 0x14).

Definition phy_drive_rx_cmd (phy : ulpi_phy_t) : ulpi_phy_t :=
  phy <| phy_bus := phy_bus phy <| dir := SIG1 |> <| nxt := SIG0 |>
                                <| data_a := st_rx_cmd phy |> <| data_b := 0x00 |> |>.

(** ** Steps *)

Definition phy_result : Type := outcome (Z * ulpi_phy_t * ulpi_bus_t).

(** [uphy_chirp_kj_step]: no caller in the program. *)
Definition uphy_chirp_kj_step (phy : ulpi_phy_t) (inp out : ulpi_bus_t) : Z * ulpi_phy_t * ulpi_bus_t :=
  match st_op phy with
  | PhyChirpJ => (-1, phy <| st_timer := u32 (st_timer phy + 1) |>, out)
  | _ => (-1, phy, out)
  end.

Definition uphy_txcmd_step (phy : ulpi_phy_t) (inp out : ulpi_bus_t) : phy_result :=
  let txcmd := Z.land (data_a inp) UPHY_TXCMD_MASK in
  let regpid := Z.land (data_a inp) 0x3F in
  c_assert ((dir inp =? SIG0) && (nxt inp =? SIG0));;
  if txcmd =? UPHY_XMIT_BITS then
    if regpid =? 0x00 then
      Ok (0, phy <| st_op := PhyChirpK |> <| st_timer := 0 |> <| st_speed := FuncChirpK |>,
          out <| nxt := SIG1 |>)
    else Ok (0, phy <| st_op := PhySend |>, out <| nxt := SIG1 |>)
  else if txcmd =? UPHY_REGR_BITS then
    Ok (0, phy <| st_regnum := Z.land (data_a inp) 0x3F |> <| st_op := PhyREGR |>,
        out <| nxt := SIG1 |>)
  else if txcmd =? UPHY_REGW_BITS then
    Ok (0, phy <| st_regnum := Z.land (data_a inp) 0x3F |> <| st_op := PhyREGW |>,
        out <| nxt := SIG1 |>)
  else Ok (-1, phy, out).

Definition uphy_reset (phy : ulpi_phy_t) : ulpi_phy_t :=
  phy <| st_regs := ULPI_REG_DEFAULTS |> <| st_rx_cmd := 0x4C |> <| st_op := PowerOn |>.

(** [malloc] does not clear its memory: [mem] is what it happens to hold, and
    [timer], [regnum], [update], [speed] and [xfer] keep it. *)
Definition phy_init (mem : ulpi_phy_t) : ulpi_phy_t :=
  let phy := uphy_reset mem in
  phy <| phy_bus := MkBus SIGX SIGX SIGZ SIGX SIGZ (MkByte 0x00 0xff) |>.

(** The line state that the PHY reports while it is set up for chirps: the
    [switch (phy->state.speed)] of [StatusRXCMD]; [None] is its [return -1]. *)
Definition uphy_chirp_status (phy : ulpi_phy_t) : option ulpi_phy_t :=
  let phy := phy <| st_rx_cmd := Z.land (st_rx_cmd phy) 0xFC |> in
  let s := st_speed phy in
  if s =? FullSpeed then Some (phy <| st_speed := HostSE0 |> <| st_timer := 0 |>)
  else if s =? HostSE0 then Some phy
  else if s =? FuncChirpK then Some (phy <| st_rx_cmd := Z.lor (st_rx_cmd phy) 0x01 |>)
  else if (s =? HostChirpK1) || (s =? HostChirpK2) || (s =? HostChirpK3)
  then Some (phy <| st_rx_cmd := Z.lor (st_rx_cmd phy) 0x01 |> <| st_timer := 0 |>)
  else if (s =? HostChirpJ1) || (s =? HostChirpJ2) || (s =? HostChirpJ3)
  then Some (phy <| st_rx_cmd := Z.lor (st_rx_cmd phy) 0x02 |> <| st_timer := 0 |>)
  else if s =? HighSpeed then Some (phy <| st_timer := 0 |>)
  else None.

(** The end of [uphy_step]: the last bus values are kept and the result tells
    that the PHY is idle at high speed. *)
Definition uphy_return (phy : ulpi_phy_t) (out : ulpi_bus_t) : phy_result :=
  let phy := phy <| phy_bus := out |> in
  Ok ((if is_PhyIdle (st_op phy) && (st_speed phy =? HighSpeed) then 1 else 0), phy, out).

(** The cases of the [switch (op)] of [uphy_step] that do more than one thing. *)

Definition uphy_starting (phy : ulpi_phy_t) (inp out : ulpi_bus_t) : phy_result :=
  if negb (clock inp =? SIG1) then uphy_return phy out
  else if negb (rst_n inp =? SIG1) then uphy_return (phy <| st_op := PowerOn |>) out
  else if (data_a inp =? 0x00) && (data_b inp =? 0x00) then
    let phy := phy <| st_timer := u32 (st_timer phy + 1) |> in
    if UPHY_DELAY_2_5_US <? st_timer phy
    then uphy_return (phy <| st_op := PhyIdle |>) out
    else uphy_return phy out
  else if ulpi_bus_is_idle (phy_bus phy) && (data_b inp =? 0x00) &&
          negb (data_a inp =? 0x00) then
    c_assert (Z.land (data_a inp) 0x80 =? 0x80);;
    uphy_txcmd_step phy inp out
  else Ok (-1, phy <| st_op := phy_Undefined |>, out).

Definition uphy_status (phy : ulpi_phy_t) (inp out : ulpi_bus_t) : phy_result :=
  let out := out <| dir := SIG1 |> <| nxt := SIG0 |> in
  chirp ← ulpi_phy_is_chirp phy;
  match (if (chirp : bool) then uphy_chirp_status phy else Some phy) with
  | None => Ok (-1, phy <| st_rx_cmd := Z.land (st_rx_cmd phy) 0xFC |>, out)
  | Some phy =>
      let out := out <| data_a := st_rx_cmd phy |> <| data_b := 0x00 |> in
      uphy_return (phy <| st_update := 0 |> <| st_op := WaitForIdle |>) out
  end.

Definition uphy_idle (phy : ulpi_phy_t) (inp out : ulpi_bus_t) : phy_result :=
  if ulpi_bus_is_idle (phy_bus phy) then
    if (data_b inp =? 0x00) && negb (data_a inp =? 0x00) then
      uphy_txcmd_step phy inp out
    else if negb (ulpi_bus_is_idle inp) then Ok (-1, phy, out)
    else if negb (st_update phy =? 0) then
      uphy_return (phy <| st_op := StatusRXCMD |>)
                  (out <| dir := SIG1 |> <| data_b := 0xFF |>)
    else if (FuncChirpK <? st_speed phy) && (st_speed phy <? HighSpeed) then
      let phy := phy <| st_timer := u32 (st_timer phy + 1) |> in
      if HOST_CHIRPK_TIMER <=? st_timer phy
      then uphy_return (phy <| st_update := 1 |> <| st_speed := u8 (st_speed phy + 1) |>) out
      else uphy_return phy out
    else uphy_return phy out
  else uphy_return phy out.

Definition uphy_regw (phy : ulpi_phy_t) (inp out : ulpi_bus_t) : phy_result :=
  if data_b inp =? 0x00
  then uphy_return (phy <| st_op := PhyREGI |>) (out <| nxt := SIG1 |>)
  else Ok (-1, phy <| st_op := phy_Undefined |>, out).

Definition uphy_regi (phy : ulpi_phy_t) (inp out : ulpi_bus_t) : phy_result :=
  if data_b inp =? 0x00 then
    let out := out <| dir := SIG0 |> <| nxt := SIG0 |> in
    let phy := phy <| st_update := if st_regnum phy =? UPHY_REG_FN_CTRL then 1 else 0 |> in
    regs ← write_at (st_regs phy) (st_regnum phy) (data_a inp);
    uphy_return (phy <| st_regs := regs |> <| st_op := PhyStop |>) out
  else Ok (-1, phy <| st_op := phy_Undefined |>, out).

Definition uphy_stop (phy : ulpi_phy_t) (inp out : ulpi_bus_t) : phy_result :=
  c_assert ((dir inp =? SIG0) && (nxt inp =? SIG0));;
  if stp inp =? SIG1 then uphy_return (phy <| st_op := PhyIdle |>) out
  else Ok (-1, phy <| st_op := phy_Undefined |>, out).

Definition uphy_regr (phy : ulpi_phy_t) (inp out : ulpi_bus_t) : phy_result :=
  uphy_return (phy <| st_op := PhyREGZ |>)
    (out <| dir := SIG1 |> <| nxt := SIG0 |> <| data_a := 0x00 |> <| data_b := 0xFF |>).

Definition uphy_regz (phy : ulpi_phy_t) (inp out : ulpi_bus_t) : phy_result :=
  v ← read_at (st_regs phy) (st_regnum phy);
  uphy_return (phy <| st_op := PhyREGO |>)
    (out <| dir := SIG1 |> <| nxt := SIG1 |> <| data_a := v |> <| data_b := 0x00 |>).

Definition uphy_rego (phy : ulpi_phy_t) (inp out : ulpi_bus_t) : phy_result :=
  uphy_return (phy <| st_op := PhyIdle |>)
    (out <| dir := SIG0 |> <| nxt := SIG0 |> <| data_a := 0x00 |> <| data_b := 0xFF |>).

Definition uphy_chirpk (phy : ulpi_phy_t) (inp out : ulpi_bus_t) : phy_result :=
  let phy := phy <| st_timer := u32 (st_timer phy + 1) |> in
  if (stp inp =? SIG1) && (UPHY_CHIRPK_TIMER <? st_timer phy)
  then uphy_return (phy <| st_op := WaitForIdle |> <| st_update := 1 |>
                        <| st_speed := HostChirpK1 |>)
                   (out <| dir := SIG0 |> <| nxt := SIG0 |>)
  else uphy_return phy out.

Definition uphy_step (phy : ulpi_phy_t) (inp out : ulpi_bus_t) : phy_result :=
  let phy := if rst_n inp =? SIG0 then phy <| st_op := PowerOn |> else phy in
  let out := inp in (* memcpy *)
  c_assert (clock inp =? SIG1);;
  match st_op phy with
  | PowerOn =>
      if rst_n inp =? SIG0 then
        let phy := uphy_reset phy in
        let out := out <| dir := SIG0 |> <| nxt := SIG0 |> in
        if (clock inp =? SIG1) && (dir inp =? SIG0) && (nxt inp =? SIG0)
        then uphy_return (phy <| st_op := RefClkValid |>) out
        else uphy_return phy out
      else uphy_return phy out
  | RefClkValid =>
      if (clock inp =? SIG1) && (rst_n inp =? SIG1) && (data_a inp =? 0x00) &&
         (data_b inp =? 0x00)
      then uphy_return (phy <| st_timer := 0 |> <| st_op := Starting |>) out
      else uphy_return phy out
  | Starting => uphy_starting phy inp out
  | WaitForIdle =>
      if ulpi_bus_is_idle inp then uphy_return (phy <| st_op := PhyIdle |>) out
      else uphy_return phy (out <| dir := SIG0 |> <| nxt := SIG0 |> <| data_a := 0x00 |>
                                <| data_b := 0xFF |>)
  | StatusRXCMD => uphy_status phy inp out
  | PhyIdle => uphy_idle phy inp out
  | PhyREGW => uphy_regw phy inp out
  | PhyREGI => uphy_regi phy inp out
  | PhyStop => uphy_stop phy inp out
  | PhyREGR => uphy_regr phy inp out
  | PhyREGZ => uphy_regz phy inp out
  | PhyREGO => uphy_rego phy inp out
  | PhySend | PhyRecv => uphy_return phy out
  | PhyChirpK => uphy_chirpk phy inp out
  | _ => Ok (-1, phy <| st_op := phy_Undefined |>, out)
  end.

Ltac unfold_uphy := unfold uphy_step, uphy_starting, uphy_status, uphy_idle, uphy_regw, uphy_regi, uphy_stop,
  uphy_regr, uphy_regz, uphy_rego, uphy_chirpk.
