(* ===== verification/UlpiPhyProps.v ===== *)
(** The PHY model's properties: its invariant and the register numbers it
    needs, register write/read round trips, the start-up delay, and the
    high-speed detection handshake. *)

From S2P Require Import Prelude UsbCrc Ulpi UlpiSafe UlpiPhy.

(** ** Invariant *)

(** The states in which [regnum] indexes the register file later on. *)
Definition uses_regnum (op : ulpi_phy_op_t) : bool :=
  match op with PhyREGW | PhyREGI | PhyREGR | PhyREGZ => true | _ => false end.

Record wf_phy (phy : ulpi_phy_t) : Prop := {
  wf_regs_size : length (st_regs phy) = 10%nat;
  wf_regs_bytes : Forall is_byte (st_regs phy);
  wf_regnum : uses_regnum (st_op phy) = true -> 0 <= st_regnum phy < 10;
  wf_speed : FullSpeed <= st_speed phy <= HighSpeed;
  wf_update : st_update phy = 0 \/ st_update phy = 1;
}.

(** A register command on the bus names one of the ten registers. *)
Definition reg_in_map (inp : ulpi_bus_t) : Prop :=
  Z.land (data_a inp) 0x80 = 0x80 -> Z.land (data_a inp) 0x3F < 10.

(** The result is an error, or it tells whether the PHY is idle at high speed. *)
Definition phy_post (res : Z * ulpi_phy_t * ulpi_bus_t) : Prop :=
  let '(r, phy, _) := res in
  -1 <= r <= 1 /\ wf_phy phy /\ (r = 1 -> st_op phy = PhyIdle /\ st_speed phy = HighSpeed).

Lemma uphy_return_post phy out : wf_phy phy -> safe phy_post (uphy_return phy out).
Proof.
  intros [H1 H2 H3 H4 H5]. destruct phy as [[t op rc rg rn up sp] bs xf]. cbn in *.
  destruct (is_PhyIdle op) eqn:E; cbn; [destruct (Z.eqb_spec sp HighSpeed)|].
  all: split; [lia|]; split; [by split|]; try done.
  intros _. by destruct op.
Qed.

Lemma txcmd_reg_bit v : Z.land v UPHY_TXCMD_MASK = UPHY_REGR_BITS \/
  Z.land v UPHY_TXCMD_MASK = UPHY_REGW_BITS -> Z.land v 0x80 = 0x80.
Proof.
  unfold UPHY_TXCMD_MASK, UPHY_REGR_BITS, UPHY_REGW_BITS.
  intros H. change 0x80 with (Z.land 0xC0 0x80) at 1. rewrite Z.land_assoc.
  by destruct H as [-> | ->].
Qed.

Lemma txcmd_post phy inp out :
  wf_phy phy -> reg_in_map inp -> is_byte (data_a inp) ->
  safe phy_post (uphy_txcmd_step phy inp out).
Proof.
  intros [H1 H2 H3 H4 H5] Hm Hb. unfold uphy_txcmd_step. cbv zeta.
  destruct phy as [[t op rc rg rn up sp] bs xf]. cbn in *.
  assert (Hr : 0 <= Z.land (data_a inp) 63) by (apply Z.land_nonneg; lia).
  repeat safe_step; (split; [lia|]; split; [|done]); split; cbn; try done.
  all: try (unfold FuncChirpK, FullSpeed, HighSpeed; lia).
  all: intros _; split; [done|]; apply Hm, txcmd_reg_bit.
  - left. by apply Z.eqb_eq.
  - right. by apply Z.eqb_eq.
Qed.

Lemma chirp_status_wf phy phy' :
  wf_phy phy -> uphy_chirp_status phy = Some phy' ->
  st_regs phy' = st_regs phy /\ FullSpeed <= st_speed phy' <= HighSpeed.
Proof.
  intros [H1 H2 H3 H4 H5]. destruct phy as [[t op rc rg rn up sp] bs xf]. cbn in *.
  unfold uphy_chirp_status. cbn -[Z.land Z.lor].
  repeat case_match; intros; simplify_eq; cbn; split; try done.
  all: unfold HostSE0, FullSpeed, HighSpeed in *; lia.
Qed.

Lemma wf_phy_flag phy op n up : wf_phy phy -> uses_regnum op = false -> up = 0 \/ up = 1 ->
  FullSpeed <= n <= HighSpeed ->
  wf_phy (phy <| st_op := op |> <| st_update := up |> <| st_speed := n |>).
Proof. intros [H1 H2 H3 H4 H5] Ho Hu Hn. split; cbn; try done. by rewrite Ho. Qed.

Lemma wf_phy_write phy v : wf_phy phy -> 0 <= st_regnum phy < 10 -> is_byte v ->
  wf_phy (phy <| st_regs := <[Z.to_nat (st_regnum phy) := v]> (st_regs phy) |> <| st_op := PhyStop |>
              <| st_update := if st_regnum phy =? UPHY_REG_FN_CTRL then 1 else 0 |>).
Proof.
  intros [H1 H2 H3 H4 H5] Hr Hv. split; cbn; try done.
  - by rewrite length_insert.
  - by apply Forall_insert.
  - destruct (_ =? _); auto.
Qed.

Lemma status_rxcmd_post phy inp :
  wf_phy phy -> st_op phy = StatusRXCMD -> rst_n inp <> SIG0 -> clock inp = SIG1 ->
  safe phy_post (uphy_step phy inp ulpi_bus_zero).
Proof.
  intros Hwf Hop Hr Hc. unfold_uphy. apply Z.eqb_neq in Hr. rewrite Hr, Hc, Hop. cbn beta zeta.
  safe_step. unfold ulpi_phy_is_chirp. pose proof Hwf as [H1 H2 H3 H4 H5].
  eapply safe_bind with (Q := fun _ => True).
  { repeat safe_step; [unfold UPHY_REG_FN_CTRL; lia|done]. }
  intros chirp _.
  destruct (if chirp then uphy_chirp_status phy else Some phy) as [phy'|] eqn:E.
  - apply uphy_return_post. assert (Hs : st_regs phy' = st_regs phy /\ FullSpeed <= st_speed phy' <= HighSpeed).
    { destruct chirp; [by apply chirp_status_wf|]. by simplify_eq. }
    destruct Hs as [Hs1 Hs2]. unfold st_regs, st_speed in *. split; cbn; rewrite ?Hs1; auto; congruence.
  - safe_step. split; [lia|]. split; [|done]. split; cbn; try done.
Qed.

(** [uphy_step] on a running PHY, out of reset. *)
Lemma uphy_step_out phy inp out : uphy_step phy inp out = uphy_step phy inp ulpi_bus_zero.
Proof. done. Qed.

Lemma reg_defaults_bytes : Forall is_byte ULPI_REG_DEFAULTS.
Proof. unfold ULPI_REG_DEFAULTS. solve_bytes. Qed.

Ltac phy_wf_simple :=
  match goal with Hwf : wf_phy _ |- _ => destruct Hwf as [? ? ? ? ?] end;
  split; cbn in *; auto; try congruence; try lia.

(** While the link addresses registers of the register map only, a step never
    leaves the register file, returns -1, 0 or 1 (1 only when the PHY is idle at
    high speed), and keeps the register file, the register number, the line
    speed and the update flag in range. *)
Lemma uphy_step_post phy inp out :
  wf_phy phy -> is_byte (data_a inp) -> reg_in_map inp ->
  safe phy_post (uphy_step phy inp out).
Proof.
  intros Hwf Hb Hm. rewrite uphy_step_out.
  destruct (decide (st_op phy = StatusRXCMD /\ rst_n inp <> SIG0 /\ clock inp = SIG1)) as [(?&?&?)|Hns];
    [by apply status_rxcmd_post|].
  unfold_uphy. cbv zeta.
  assert (Hwf' : wf_phy (if rst_n inp =? SIG0 then phy <| st_op := PowerOn |> else phy)).
  { destruct (rst_n inp =? SIG0); [|done]. phy_wf_simple. }
  assert (Hns' : clock inp = SIG1 ->
    st_op (if rst_n inp =? SIG0 then phy <| st_op := PowerOn |> else phy) <> StatusRXCMD).
  { intros Hc. destruct (Z.eqb_spec (rst_n inp) SIG0); [done|]. by intros ?; apply Hns. }
  clear Hwf Hns. revert Hwf' Hns'.
  generalize (if rst_n inp =? SIG0 then phy <| st_op := PowerOn |> else phy).
  clear phy. intros phy Hwf Hns. safe_step. apply Z.eqb_eq in H. specialize (Hns H).
  pose proof Hwf as [H1 H2 H3 H4 H5].
  destruct (st_op phy) eqn:Hop; try done; repeat safe_step.
  all: try (by apply uphy_return_post).
  all: try (by apply txcmd_post).
  all: try (unfold st_regs, st_regnum in *; cbn; specialize (H3 eq_refl); lia).
  all: try (by apply uphy_return_post, (wf_phy_write phy (data_a inp)); auto).
  all: try (split; [lia|]; split; [|done]); try apply uphy_return_post.
  all: try phy_wf_simple.
  - apply reg_defaults_bytes.
  - apply reg_defaults_bytes.
  - match goal with H : (_ <? _) && _ = true |- _ => apply andb_true_iff in H as [?%Z.ltb_lt ?%Z.ltb_lt] end.
    unfold st_speed, FuncChirpK, FullSpeed, HighSpeed in *. rewrite u8_small by lia. lia.
  - unfold FullSpeed, HostChirpK1, HighSpeed. lia.
Qed.

(** ** Register accesses *)

(** The PHY over a sequence of bus cycles, with the bus it drives in each one. *)
Fixpoint phy_run (phy : ulpi_phy_t) (ins : list ulpi_bus_t)
  : outcome (list ulpi_bus_t * ulpi_phy_t) :=
  match ins with
  | [] => Ok ([], phy)
  | inp :: ins =>
      '(_, phy, out) ← uphy_step phy inp ulpi_bus_zero;
      '(outs, phy) ← phy_run phy ins;
      Ok (out :: outs, phy)
  end.

(** C26.  The PHY model's invariant: from any PHY in range, over any sequence of
    bus cycles in which the link addresses registers of the register map only, no
    step leaves the register file, one bus value is driven per cycle, and the PHY
    ends in range, so that its next step returns -1, 0 or 1, and 1 only when it is
    idle at high speed. *)
Theorem uphy_run_invariant phy ins :
  wf_phy phy -> Forall (fun inp => is_byte (data_a inp) /\ reg_in_map inp) ins ->
  safe (fun '(outs, phy') => length outs = length ins /\ wf_phy phy' /\
          forall inp out, is_byte (data_a inp) -> reg_in_map inp ->
            safe phy_post (uphy_step phy' inp out)) (phy_run phy ins).
Proof.
  revert phy. induction ins as [|inp ins IH]; intros phy Hw Hins; cbn [phy_run].
  { split; [done|]. split; [done|]. intros. by apply uphy_step_post. }
  apply Forall_cons_1 in Hins as [[Hb Hm] Hins].
  eapply safe_bind; [by apply uphy_step_post|]. intros [[r phy1] out] (_ & Hw1 & _).
  eapply safe_bind; [by apply IH|]. intros [outs phy2] (Hl & Hw2 & Hs). cbn. by rewrite Hl.
Qed.

(** A cycle in which the link owns the bus. *)
Definition link_drives (s n v : Z) : ulpi_bus_t := MkBus SIG1 SIG1 SIG0 s n (MkByte v 0x00).
(** A cycle in which the link releases the bus. *)
Definition link_floats (d n : Z) : ulpi_bus_t := MkBus SIG1 SIG1 d SIG0 n (MkByte 0x00 0xFF).

(** A register write: TX CMD, TX CMD held for the PHY's NXT, data, STP, idle. *)
Definition link_reg_write (r v : Z) : list ulpi_bus_t :=
  [link_drives SIG0 SIG0 (Z.lor UPHY_REGW_BITS r); link_drives SIG0 SIG1 (Z.lor UPHY_REGW_BITS r);
   link_drives SIG0 SIG1 v; link_drives SIG1 SIG0 0x00; link_drives SIG0 SIG0 0x00].

(** A register read: TX CMD, TX CMD held, turn-around, data cycle, turn-around. *)
Definition link_reg_read (r : Z) : list ulpi_bus_t :=
  [link_drives SIG0 SIG0 (Z.lor UPHY_REGR_BITS r); link_drives SIG0 SIG1 (Z.lor UPHY_REGR_BITS r);
   link_floats SIG1 SIG0; link_floats SIG1 SIG1; link_drives SIG0 SIG0 0x00].

Record phy_ready (phy : ulpi_phy_t) : Prop := {
  ready_op : st_op phy = PhyIdle;
  ready_bus : ulpi_bus_is_idle (phy_bus phy) = true;
}.

Lemma regw_txcmd r : 0 <= r < 64 ->
  Z.land (Z.lor UPHY_REGW_BITS r) UPHY_TXCMD_MASK = UPHY_REGW_BITS /\
  Z.land (Z.lor UPHY_REGW_BITS r) 0x3F = r /\ (Z.lor UPHY_REGW_BITS r =? 0) = false.
Proof.
  intros Hr.
  pose proof (forall_range (fun r => (Z.land (Z.lor UPHY_REGW_BITS r) UPHY_TXCMD_MASK =? UPHY_REGW_BITS) &&
    (Z.land (Z.lor UPHY_REGW_BITS r) 0x3F =? r) && negb (Z.lor UPHY_REGW_BITS r =? 0)) 64 r ltac:(vm_compute; reflexivity) Hr) as H. cbv beta in H.
  apply andb_true_iff in H as [[?%Z.eqb_eq ?%Z.eqb_eq]%andb_true_iff ?%negb_true_iff]. done.
Qed.

Lemma regr_txcmd r : 0 <= r < 64 ->
  Z.land (Z.lor UPHY_REGR_BITS r) UPHY_TXCMD_MASK = UPHY_REGR_BITS /\
  Z.land (Z.lor UPHY_REGR_BITS r) 0x3F = r /\ (Z.lor UPHY_REGR_BITS r =? 0) = false.
Proof.
  intros Hr.
  pose proof (forall_range (fun r => (Z.land (Z.lor UPHY_REGR_BITS r) UPHY_TXCMD_MASK =? UPHY_REGR_BITS) &&
    (Z.land (Z.lor UPHY_REGR_BITS r) 0x3F =? r) && negb (Z.lor UPHY_REGR_BITS r =? 0)) 64 r ltac:(vm_compute; reflexivity) Hr) as H. cbv beta in H.
  apply andb_true_iff in H as [[?%Z.eqb_eq ?%Z.eqb_eq]%andb_true_iff ?%negb_true_iff]. done.
Qed.

Lemma regw_cmd_step phy r :
  phy_ready phy -> 0 <= r < 64 ->
  uphy_step phy (link_drives SIG0 SIG0 (Z.lor UPHY_REGW_BITS r)) ulpi_bus_zero =
  Ok (0, phy <| st_regnum := r |> <| st_op := PhyREGW |>,
      link_drives SIG0 SIG1 (Z.lor UPHY_REGW_BITS r)).
Proof.
  intros [Ho Hb] Hr. destruct (regw_txcmd r Hr) as (H1 & H2 & H3).
  unfold_uphy. cbn -[Z.lor uphy_txcmd_step]. rewrite Ho, Hb, H3.
  unfold uphy_txcmd_step. cbn -[Z.lor Z.land]. by rewrite H1, H2.
Qed.

Lemma regr_cmd_step phy r :
  phy_ready phy -> 0 <= r < 64 ->
  uphy_step phy (link_drives SIG0 SIG0 (Z.lor UPHY_REGR_BITS r)) ulpi_bus_zero =
  Ok (0, phy <| st_regnum := r |> <| st_op := PhyREGR |>,
      link_drives SIG0 SIG1 (Z.lor UPHY_REGR_BITS r)).
Proof.
  intros [Ho Hb] Hr. destruct (regr_txcmd r Hr) as (H1 & H2 & H3).
  unfold_uphy. cbn -[Z.lor uphy_txcmd_step]. rewrite Ho, Hb, H3.
  unfold uphy_txcmd_step. cbn -[Z.lor Z.land]. by rewrite H1, H2.
Qed.

(** What a register write leaves: the register, the register number, and an RX
    CMD to send when the function-control register was written. *)
Definition reg_written (phy : ulpi_phy_t) (r v : Z) : ulpi_phy_t :=
  phy <| st_regs := <[Z.to_nat r := v]> (st_regs phy) |> <| st_regnum := r |>
      <| st_update := if r =? UPHY_REG_FN_CTRL then 1 else 0 |>
      <| phy_bus := link_drives SIG0 SIG0 0x00 |>.

Lemma reg_write_run phy r v :
  phy_ready phy -> 0 <= r < 64 -> length (st_regs phy) = 10%nat ->
  if r <? 10
  then exists outs, phy_run phy (link_reg_write r v) = Ok (outs, reg_written phy r v)
  else phy_run phy (link_reg_write r v) = Undef.
Proof.
  intros Hp Hr Hl. unfold link_reg_write.
  assert (Hw : write_at (st_regs phy) r v = if r <? 10 then Ok (<[Z.to_nat r := v]> (st_regs phy)) else Undef).
  { destruct (Z.ltb_spec r 10); [apply write_at_in|apply write_at_ge]; lia. }
  cbn [phy_run]. rewrite (regw_cmd_step phy r Hp Hr). destruct Hp as [Ho Hb].
  destruct phy as [[t op rc rg rn up sp] bs xf]. cbn in Hw, Ho. subst op.
  destruct (r <? 10) eqn:E; cbn -[write_at Z.lor]; rewrite Hw; cbn -[Z.lor]; [|done].
  by eexists.
Qed.

Lemma reg_read_run phy r :
  phy_ready phy -> 0 <= r < 64 -> length (st_regs phy) = 10%nat ->
  match st_regs phy !! Z.to_nat r with
  | Some v => exists o1 o2 o4 o5 phy', phy_run phy (link_reg_read r) =
      Ok ([o1; o2; link_floats SIG1 SIG1 <| data := MkByte v 0x00 |>; o4; o5], phy') /\
      st_regs phy' = st_regs phy /\ st_op phy' = PhyIdle
  | None => phy_run phy (link_reg_read r) = Undef
  end.
Proof.
  intros Hp Hr Hl. unfold link_reg_read.
  cbn [phy_run]. rewrite (regr_cmd_step phy r Hp Hr). destruct Hp as [Ho Hb].
  destruct phy as [[t op rc rg rn up sp] bs xf]. cbn in Ho, Hl |- *. subst op.
  assert (Hw : read_at rg r = match rg !! Z.to_nat r with Some v => Ok v | None => Undef end).
  { unfold read_at. destruct (Z.leb_spec 0 r); [done|lia]. }
  destruct (rg !! Z.to_nat r) as [v|] eqn:E; cbn -[read_at Z.lor]; unfold uphy_regz; cbn -[read_at Z.lor]; rewrite Hw; cbn -[Z.lor]; [|done].
  by do 5 eexists.
Qed.

Lemma phy_run_app phy ins1 ins2 :
  phy_run phy (ins1 ++ ins2) =
  ('(outs1, phy) ← phy_run phy ins1; '(outs2, phy) ← phy_run phy ins2; Ok (outs1 ++ outs2, phy)).
Proof.
  revert phy. induction ins1 as [|i ins1 IH]; intros phy; cbn -[uphy_step].
  - by destruct (phy_run phy ins2) as [[]| |].
  - destruct (uphy_step phy i ulpi_bus_zero) as [[[r p] o]| |]; cbn -[uphy_step]; [|done..].
    rewrite IH. destruct (phy_run p ins1) as [[o1 p1]| |]; cbn; [|done..].
    by destruct (phy_run p1 ins2) as [[]| |].
Qed.

Lemma reg_written_ready phy r v : phy_ready phy -> phy_ready (reg_written phy r v).
Proof. intros [Ho Hb]. by split. Qed.

(** C25.  Register round trip: from an idle PHY, after the link writes [v] to a
    register of the map and then reads a register, the PHY drives [v] in the
    data cycle if it is the same register and the old contents of that register
    otherwise; it ends idle, and an RX CMD is scheduled exactly when the
    function-control register was written. *)
Theorem reg_write_read phy w v r :
  phy_ready phy -> length (st_regs phy) = 10%nat -> 0 <= w < 10 -> 0 <= r < 10 ->
  exists outs o1 o2 o4 o5 phy1 phy2 old,
    phy_run phy (link_reg_write w v) = Ok (outs, phy1) /\
    st_update phy1 = (if w =? UPHY_REG_FN_CTRL then 1 else 0) /\
    phy_run phy1 (link_reg_read r) =
      Ok ([o1; o2; link_floats SIG1 SIG1 <| data := MkByte (if r =? w then v else old) 0x00 |>;
           o4; o5], phy2) /\
    st_regs phy !! Z.to_nat r = Some old /\
    st_regs phy2 = <[Z.to_nat w := v]> (st_regs phy) /\ st_op phy2 = PhyIdle.
Proof.
  intros Hp Hl Hw Hr. pose proof (reg_write_run phy w v Hp ltac:(lia) Hl) as H1.
  rewrite (proj2 (Z.ltb_lt w 10)) in H1 by lia. destruct H1 as [outs H1].
  destruct (lookup_lt_is_Some_2 (st_regs phy) (Z.to_nat r) ltac:(lia)) as [old Hold].
  pose proof (reg_read_run (reg_written phy w v) r (reg_written_ready _ _ _ Hp) ltac:(lia)
    ltac:(cbn; by rewrite length_insert)) as H2.
  assert (Hv : st_regs (reg_written phy w v) !! Z.to_nat r = Some (if r =? w then v else old)).
  { change (st_regs (reg_written phy w v)) with (<[Z.to_nat w := v]> (st_regs phy)).
    destruct (Z.eqb_spec r w) as [->|].
    - apply list_lookup_insert_eq. lia.
    - by rewrite list_lookup_insert_ne by lia. }
  rewrite Hv in H2. destruct H2 as (o1 & o2 & o4 & o5 & phy2 & H2 & H3 & H4).
  do 8 eexists. split; [exact H1|]. repeat split; [exact H2|exact Hold|exact H3|exact H4].
Qed.

(** C39.  The register number is not checked: a command for any of the 54 numbers
    above the register map writes, and reads, outside of [regs]. *)
Theorem reg_access_overrun phy r v :
  phy_ready phy -> length (st_regs phy) = 10%nat -> 10 <= r < 64 ->
  phy_run phy (link_reg_write r v) = Undef /\ phy_run phy (link_reg_read r) = Undef.
Proof.
  intros Hp Hl Hr. split.
  - pose proof (reg_write_run phy r v Hp ltac:(lia) Hl) as H.
    by rewrite (proj2 (Z.ltb_ge r 10)) in H by lia.
  - pose proof (reg_read_run phy r Hp ltac:(lia) Hl) as H.
    by rewrite lookup_ge_None_2 in H by lia.
Qed.

(** [ulpi_phy_is_reg_write] never holds, and [ulpi_phy_is_reg_read] tests the
    lowest data bit: [==] binds tighter than [&] in both. *)
Theorem reg_predicates_precedence phy inp :
  ulpi_phy_is_reg_write phy inp = false /\
  (ulpi_phy_is_reg_read phy inp = true -> Z.testbit (data_a inp) 0 = true).
Proof.
  unfold ulpi_phy_is_reg_write, ulpi_phy_is_reg_read. cbn -[Z.land]. split.
  - by rewrite Z.land_0_r, !andb_false_r.
  - intros [_ [_ H%negb_true_iff]%andb_true_iff]%andb_true_iff.
    change 1 with (Z.ones 1) in H. rewrite Z.land_ones in H by lia.
    change (Z.testbit (data_a inp) 0) with (Z.odd (data_a inp)).
    change (2 ^ 1) with 2 in H. rewrite Zmod_odd in H. by destruct (Z.odd (data_a inp)).
Qed.

(** ** Start-up *)

Definition link_idles : ulpi_bus_t := link_drives SIG0 SIG0 0x00.
Definition link_resets : ulpi_bus_t := link_idles <| rst_n := SIG0 |>.

(** The PHY's operation after some cycles. *)
Definition op_after (phy : ulpi_phy_t) (ins : list ulpi_bus_t) : outcome ulpi_phy_op_t :=
  (fun res => st_op (snd res)) <$> phy_run phy ins.

Lemma starting_step phy :
  st_op phy = Starting -> 0 <= st_timer phy < 2 ^ 32 - 1 ->
  uphy_step phy link_idles ulpi_bus_zero =
  uphy_return (phy <| st_timer := st_timer phy + 1 |>
                   <| st_op := if UPHY_DELAY_2_5_US <? st_timer phy + 1 then PhyIdle else Starting |>)
              link_idles.
Proof.
  intros Ho Ht. destruct phy as [[t op rc rg rn up sp] bs xf]. cbn in Ho, Ht. subst op.
  unfold_uphy. cbn -[uphy_return Z.ltb]. rewrite u32_small by lia.
  by destruct (UPHY_DELAY_2_5_US <? t + 1).
Qed.

Lemma starting_run n phy :
  st_op phy = Starting -> 0 <= st_timer phy -> st_timer phy + Z.of_nat n <= UPHY_DELAY_2_5_US ->
  exists outs bus, phy_run phy (replicate n link_idles) =
    Ok (outs, phy <| st_timer := st_timer phy + Z.of_nat n |> <| phy_bus := bus |>).
Proof.
  revert phy. induction n as [|n IH]; intros phy Ho Ht Hn.
  - exists [], (phy_bus phy). destruct phy as [[t op rc rg rn up sp] bs xf]. cbn. by rewrite Z.add_0_r.
  - unfold UPHY_DELAY_2_5_US in *. cbn -[uphy_step]. rewrite starting_step by (done || lia).
    rewrite (proj2 (Z.ltb_ge UPHY_DELAY_2_5_US (st_timer phy + 1))) by (unfold UPHY_DELAY_2_5_US; lia).
    destruct phy as [[t op rc rg rn up sp] bs xf]. cbn in Ho, Ht, Hn. subst op. cbn -[uphy_step].
    edestruct IH as (outs & bus & ->); [reflexivity|cbn; lia|cbn; lia|]. do 2 eexists.
    cbn. f_equal. f_equal. replace (t + Z.of_nat (S n)) with (t + 1 + Z.of_nat n) by lia.
    reflexivity.
Qed.

Lemma power_on_run mem :
  exists outs phy, phy_run (phy_init mem) [link_resets; link_idles] = Ok (outs, phy) /\
    st_op phy = Starting /\ st_timer phy = 0 /\ st_regs phy = ULPI_REG_DEFAULTS.
Proof. destruct mem as [[t op rc rg rn up sp] bs xf]. by do 2 eexists. Qed.

(** C31.  Power-up: whatever [malloc] left in the PHY's memory, after one cycle of
    reset and one idle cycle the PHY is [Starting] with the default registers; it
    stays there for 150 cycles of SE0 and is idle after the 151st, and no
    earlier. *)
Theorem phy_power_up mem n :
  (n <= 151)%nat ->
  exists outs phy,
    phy_run (phy_init mem) ([link_resets; link_idles] ++ replicate n link_idles) = Ok (outs, phy) /\
    st_op phy = (if (n <? 151)%nat then Starting else PhyIdle) /\ st_regs phy = ULPI_REG_DEFAULTS.
Proof.
  intros Hn. rewrite phy_run_app.
  destruct (power_on_run mem) as (o1 & phy & -> & Hop & Ht & Hr). cbn [mbind outcome_bind].
  destruct (Nat.ltb_spec n 151) as [Hlt|Hge].
  - destruct (starting_run n phy) as (o2 & bus & ->); [done|lia|unfold UPHY_DELAY_2_5_US; lia|].
    by do 2 eexists.
  - replace n with (150 + 1)%nat by lia. rewrite replicate_add, phy_run_app.
    destruct (starting_run 150 phy) as (o2 & bus & ->); [done|lia|unfold UPHY_DELAY_2_5_US; lia|].
    cbn [mbind outcome_bind]. rewrite Ht. cbn [replicate phy_run].
    rewrite starting_step by (cbn; done || lia). by do 2 eexists.
Qed.

(** ** The high-speed detection handshake *)

(** What the other side of the bus does in a cycle: the reset line, STP, and the data
    that the link drives when it owns the bus. *)
Record link_out : Type := MkLink { lk_rst : Z; lk_stp : Z; lk_data : Z }.

(** The bus in the cycle after the PHY has driven [out]: DIR and NXT are the PHY's, and
    the data are the link's, unless the PHY owns the bus. *)
Definition bus_of (out : ulpi_bus_t) (l : link_out) : ulpi_bus_t :=
  MkBus SIG1 (lk_rst l) (dir out) (lk_stp l) (nxt out)
        (if dir out =? SIG1 then data out else MkByte (lk_data l) 0x00).

(** A link that leaves the bus alone. *)
Definition link_off : link_out := MkLink SIG1 SIG0 0x00.
Definition link_quiet (out : ulpi_bus_t) : ulpi_bus_t := bus_of out link_off.

(** The RX CMD that the PHY drives in a cycle, if any. *)
Definition rx_cmds (out : ulpi_bus_t) : list Z :=
  if (dir out =? SIG1) && (nxt out =? SIG0) && (data_b out =? 0x00) then [data_a out] else [].

(** [n] cycles with a quiet link: the RX CMDs sent and the results of the steps. *)
Fixpoint phy_loop (n : nat) (phy : ulpi_phy_t) (inp : ulpi_bus_t)
  : outcome (list Z * list Z * ulpi_phy_t * ulpi_bus_t) :=
  match n with
  | O => Ok ([], [], phy, inp)
  | S n =>
      '(r, phy, out) ← uphy_step phy inp ulpi_bus_zero;
      '(cmds, rs, phy, inp) ← phy_loop n phy (link_quiet out);
      Ok (rx_cmds out ++ cmds, r :: rs, phy, inp)
  end.

Lemma phy_loop_app n m phy inp :
  phy_loop (n + m) phy inp =
  ('(cmds1, rs1, phy, inp) ← phy_loop n phy inp;
   '(cmds2, rs2, phy, inp) ← phy_loop m phy inp;
   Ok (cmds1 ++ cmds2, rs1 ++ rs2, phy, inp)).
Proof.
  revert phy inp. induction n as [|n IH]; intros phy inp; cbn -[uphy_step].
  - by destruct (phy_loop m phy inp) as [[[[]]]| |].
  - destruct (uphy_step phy inp ulpi_bus_zero) as [[[r p] o]| |]; cbn -[uphy_step]; [|done..].
    rewrite IH. destruct (phy_loop n p (link_quiet o)) as [[[[c1 r1] p1] i1]| |]; cbn; [|done..].
    destruct (phy_loop m p1 i1) as [[[[]]]| |]; cbn; [|done..]. by rewrite app_assoc.
Qed.

(** The function-control register is set up for chirps. *)
Definition chirp_mode (phy : ulpi_phy_t) : Prop :=
  exists r, st_regs phy !! 4%nat = Some r /\ Z.land r 0x1C = 0x14.

Lemma chirp_mode_is phy : chirp_mode phy -> ulpi_phy_is_chirp phy = Ok true.
Proof.
  intros (r & H & Hr). unfold ulpi_phy_is_chirp. apply read_at_Some in H.
  change (Z.of_nat 4) with UPHY_REG_FN_CTRL in H. rewrite H. cbn -[Z.land]. by rewrite Hr.
Qed.

(** The line states that end the handshake, in order, by the speed state: the code
    comments 1 as K and 2 as J. *)
Definition chirp_line (s : Z) : Z := if Z.odd s then 0x01 else 0x02.

(** An idle PHY in the handshake: waiting for [t] cycles in line state [s]. *)
Definition chirping (phy : ulpi_phy_t) (t s up cmd : Z) : ulpi_phy_t :=
  phy <| st_op := PhyIdle |> <| phy_bus := link_idles |> <| st_timer := t |> <| st_speed := s |>
      <| st_update := up |> <| st_rx_cmd := cmd |>.

Lemma chirp_wait n phy t s cmd :
  HostChirpK1 <= s <= HostChirpJ3 -> 0 <= t -> t + Z.of_nat n < HOST_CHIRPK_TIMER ->
  phy_loop n (chirping phy t s 0 cmd) link_idles =
  Ok ([], replicate n 0, chirping phy (t + Z.of_nat n) s 0 cmd, link_idles).
Proof.
  unfold HostChirpK1, HostChirpJ3, HOST_CHIRPK_TIMER. intros Hs.
  revert t. induction n as [|n IH]; intros t Ht Hn.
  - cbn. by rewrite Z.add_0_r.
  - assert (H : uphy_step (chirping phy t s 0 cmd) link_idles ulpi_bus_zero =
              Ok (0, chirping phy (t + 1) s 0 cmd, link_idles)).
    { destruct phy as [[t' op rc rg rn up sp] bs xf].
      unfold_uphy; unfold chirping. cbn -[Z.ltb Z.leb]. unfold FuncChirpK, HighSpeed, HOST_CHIRPK_TIMER.
      rewrite (proj2 (Z.ltb_lt 2 s)), (proj2 (Z.ltb_lt s 9)) by lia. cbn -[Z.ltb Z.leb].
      rewrite u32_small by lia. rewrite (proj2 (Z.leb_gt 30 (t + 1))) by lia.
      unfold uphy_return. cbn -[Z.eqb]. by rewrite (proj2 (Z.eqb_neq s HighSpeed)) by (unfold HighSpeed; lia). }
    cbn [phy_loop]. rewrite H. cbn [mbind outcome_bind]. change (link_quiet link_idles) with link_idles.
    rewrite IH by lia. cbn. by replace (t + 1 + Z.of_nat n) with (t + Z.of_nat (S n)) by lia.
Qed.

Lemma chirp_advance phy s cmd :
  HostChirpK1 <= s <= HostChirpJ3 ->
  phy_loop 1 (chirping phy 29 s 0 cmd) link_idles =
  Ok ([], [if s =? HostChirpJ3 then 1 else 0], chirping phy 30 (s + 1) 1 cmd, link_idles).
Proof.
  intros Hs. assert (Hc : In s [3; 4; 5; 6; 7; 8]).
  { unfold HostChirpK1, HostChirpJ3 in Hs. cbn. lia. }
  cbn in Hc. repeat destruct Hc as [<-|Hc]; done.
Qed.

Lemma status_chirp_step phy inp :
  chirp_mode phy -> HostChirpK1 <= st_speed phy <= HostChirpJ3 -> st_op phy = StatusRXCMD ->
  clock inp = SIG1 -> rst_n inp = SIG1 ->
  let cmd := Z.lor (Z.land (st_rx_cmd phy) 0xFC) (chirp_line (st_speed phy)) in
  let out := inp <| dir := SIG1 |> <| nxt := SIG0 |> <| data_a := cmd |> <| data_b := 0x00 |> in
  uphy_step phy inp ulpi_bus_zero =
  Ok (0, phy <| st_rx_cmd := cmd |> <| st_timer := 0 |> <| st_update := 0 |>
             <| st_op := WaitForIdle |> <| phy_bus := out |>, out).
Proof.
  intros Hm%chirp_mode_is Hs Ho Hc Hr cmd out. assert (Hin : In (st_speed phy) [3; 4; 5; 6; 7; 8]).
  { unfold HostChirpK1, HostChirpJ3 in Hs. cbn. lia. }
  unfold_uphy. rewrite Hr, Hc. change (SIG1 =? SIG0) with false. change (SIG1 =? SIG1) with true.
  cbn [c_assert mbind outcome_bind]. cbv iota. cbn zeta. rewrite Ho, Hm. cbn [mbind outcome_bind]. subst out cmd. clear Hm Hs.
  destruct phy as [[t op rc rg rn up sp] bs xf]. unfold st_speed in *. cbn in Hin.
  repeat destruct Hin as [<-|Hin]; done.
Qed.

Lemma wait_turn_step phy inp :
  st_op phy = WaitForIdle -> clock inp = SIG1 -> rst_n inp = SIG1 -> dir inp = SIG1 ->
  uphy_step phy inp ulpi_bus_zero =
  uphy_return phy (inp <| dir := SIG0 |> <| nxt := SIG0 |> <| data_a := 0x00 |> <| data_b := 0xFF |>).
Proof.
  intros Ho Hc Hr Hd. unfold_uphy. rewrite Hr, Hc. change (SIG1 =? SIG0) with false.
  change (SIG1 =? SIG1) with true. cbn [c_assert mbind outcome_bind]. cbv iota. cbn zeta. rewrite Ho.
  unfold ulpi_bus_is_idle. rewrite Hd. change (SIG1 =? SIG0) with false. by rewrite !andb_false_r.
Qed.

Lemma phy_loop_cons n phy inp r phy' out :
  uphy_step phy inp ulpi_bus_zero = Ok (r, phy', out) ->
  phy_loop (S n) phy inp =
  ('(cmds, rs, phy, inp) ← phy_loop n phy' (link_quiet out); Ok (rx_cmds out ++ cmds, r :: rs, phy, inp)).
Proof. intros H. cbn [phy_loop]. by rewrite H. Qed.

Lemma chirp_report phy t s cmd :
  chirp_mode phy -> HostChirpK1 <= s <= HostChirpJ3 ->
  let cmd' := Z.lor (Z.land cmd 0xFC) (chirp_line s) in
  phy_loop 4 (chirping phy t s 1 cmd) link_idles =
  Ok ([cmd'], [0; 0; 0; 0], chirping phy 0 s 0 cmd', link_idles).
Proof.
  intros Hm Hs cmd'.
  assert (Hn : (s =? HighSpeed) = false).
  { apply Z.eqb_neq. unfold HostChirpK1, HostChirpJ3, HighSpeed in *. lia. }
  erewrite phy_loop_cons by reflexivity.
  erewrite phy_loop_cons by (apply status_chirp_step; [exact Hm|exact Hs|reflexivity..]).
  erewrite phy_loop_cons by (apply wait_turn_step; reflexivity).
  erewrite phy_loop_cons by reflexivity.
  destruct phy as [[t' op rc rg rn up sp] bs xf].
  cbn -[Z.lor Z.land chirp_line HighSpeed]. by rewrite Hn.
Qed.

Lemma chirp_round phy t s cmd :
  chirp_mode phy -> HostChirpK1 <= s <= HostChirpJ3 ->
  let cmd' := Z.lor (Z.land cmd 0xFC) (chirp_line s) in
  phy_loop 34 (chirping phy t s 1 cmd) link_idles =
  Ok ([cmd'], replicate 33 0 ++ [if s =? HostChirpJ3 then 1 else 0],
      chirping phy 30 (s + 1) 1 cmd', link_idles).
Proof.
  intros Hm Hs cmd'. change 34%nat with (4 + (29 + 1))%nat.
  rewrite phy_loop_app, (chirp_report phy t s cmd Hm Hs). cbn [mbind outcome_bind].
  rewrite phy_loop_app, chirp_wait by (done || unfold HOST_CHIRPK_TIMER; lia).
  cbn [mbind outcome_bind]. change (0 + Z.of_nat 29) with 29.
  by rewrite chirp_advance.
Qed.

Lemma rx_cmd_masked cmd s : Z.land (Z.lor (Z.land cmd 0xFC) (chirp_line s)) 0xFC = Z.land cmd 0xFC.
Proof.
  rewrite Z.land_lor_distr_l, <- Z.land_assoc. change (Z.land 0xFC 0xFC) with 0xFC.
  replace (Z.land (chirp_line s) 0xFC) with 0 by (unfold chirp_line; by destruct (Z.odd s)).
  apply Z.lor_0_r.
Qed.

(** The line states of [n] rounds from [s], over the upper bits of [cmd]. *)
Fixpoint chirp_cmds (n : nat) (s cmd : Z) : list Z :=
  match n with
  | O => []
  | S n => Z.lor (Z.land cmd 0xFC) (chirp_line s) :: chirp_cmds n (s + 1) cmd
  end.

Lemma chirp_cmds_masked n s s' cmd :
  chirp_cmds n s (Z.lor (Z.land cmd 0xFC) (chirp_line s')) = chirp_cmds n s cmd.
Proof. revert s. induction n as [|n IH]; intros s; cbn -[Z.lor Z.land]; [done|]. by rewrite rx_cmd_masked, IH. Qed.

Lemma chirp_rounds n phy t s cmd :
  chirp_mode phy -> HostChirpK1 <= s -> s + Z.of_nat n = HighSpeed -> (0 < n)%nat ->
  exists cmd',
    phy_loop (34 * n) (chirping phy t s 1 cmd) link_idles =
    Ok (chirp_cmds n s cmd, replicate (34 * n - 1) 0 ++ [1],
        chirping phy 30 HighSpeed 1 cmd', link_idles).
Proof.
  unfold HostChirpK1, HighSpeed. intros Hm. revert t s cmd.
  induction n as [|n IH]; intros t s cmd Hs Hn Hpos; [lia|].
  replace (34 * S n)%nat with (34 + 34 * n)%nat by lia. rewrite phy_loop_app.
  rewrite chirp_round; [|done|unfold HostChirpK1, HostChirpJ3; lia].
  cbn [mbind outcome_bind]. destruct n as [|n].
  - replace s with HostChirpJ3 by (unfold HostChirpJ3; lia). by eexists.
  - destruct (IH 30 (s + 1) (Z.lor (Z.land cmd 0xFC) (chirp_line s))) as [cmd' H]; [lia..|].
    rewrite H. exists cmd'. cbn [mbind outcome_bind]. rewrite chirp_cmds_masked.
    rewrite (proj2 (Z.eqb_neq s HostChirpJ3)) by (unfold HostChirpJ3; lia).
    change (replicate 33 0 ++ [0]) with (replicate 34 0). rewrite app_assoc, <- replicate_add.
    by replace (34 + (34 * S n - 1))%nat with (34 + 34 * S n - 1)%nat by lia.
Qed.

Lemma chirp_k_end phy :
  chirp_mode phy -> st_op phy = PhyChirpK -> UPHY_CHIRPK_TIMER <= st_timer phy < 2 ^ 32 - 1 ->
  exists t, phy_loop 2 phy (link_drives SIG1 SIG0 0x00) =
    Ok ([], [0; 0], chirping phy t HostChirpK1 1 (st_rx_cmd phy), link_idles).
Proof.
  unfold UPHY_CHIRPK_TIMER. intros Hm Ho Ht.
  assert (H : uphy_step phy (link_drives SIG1 SIG0 0x00) ulpi_bus_zero =
    uphy_return (phy <| st_timer := st_timer phy + 1 |> <| st_op := WaitForIdle |> <| st_update := 1 |>
                     <| st_speed := HostChirpK1 |>) (link_drives SIG1 SIG0 0x00)).
  { destruct phy as [[t op rc rg rn up sp] bs xf]. cbn in Ho, Ht. subst op.
    unfold_uphy. cbn -[Z.ltb]. rewrite u32_small by lia.
    by rewrite (proj2 (Z.ltb_lt UPHY_CHIRPK_TIMER (t + 1))) by (unfold UPHY_CHIRPK_TIMER; lia). }
  erewrite phy_loop_cons by (rewrite H; reflexivity). erewrite phy_loop_cons by reflexivity.
  exists (st_timer phy + 1). by destruct phy as [[t op rc rg rn up sp] bs xf].
Qed.

(** The line state of an RX CMD as ULPI has it, and as the device core of the
    repository reads it (src/rtl/usb/line_state.v): 1 is J and 2 is K. *)
Inductive line_symbol : Type := LineSE0 | LineJ | LineK | LineSE1.
Definition line_symbol_of (cmd : Z) : line_symbol :=
  let ls := Z.land cmd 0x03 in
  if ls =? 0 then LineSE0 else if ls =? 1 then LineJ else if ls =? 2 then LineK else LineSE1.

Lemma line_symbol_low cmd ls : 0 <= ls < 4 -> line_symbol_of (Z.lor (Z.land cmd 0xFC) ls) = line_symbol_of ls.
Proof.
  intros H. unfold line_symbol_of. rewrite Z.land_lor_distr_l, <- Z.land_assoc.
  change (Z.land 0xFC 0x03) with 0. by rewrite Z.land_0_r, Z.lor_0_l.
Qed.

(** C21.  The high-speed handshake: a PHY that is set up for chirps and has seen
    the device's chirp for at least 60 cycles answers the end of that chirp, on
    a quiet bus, with exactly six RX CMDs, one every 34 cycles, of the line states
    01, 10, 01, 10, 01, 10, and reports high speed (result 1) in cycle 206 and not
    before; the upper bits of the RX CMD and the registers are unchanged.  The code
    names these states K-J-K-J-K-J, the order of USB 2.0; a receiver that decodes
    them as ULPI does, and the device core, reads J-K-J-K-J-K. *)
Theorem chirp_handshake phy :
  chirp_mode phy -> st_op phy = PhyChirpK -> UPHY_CHIRPK_TIMER <= st_timer phy < 2 ^ 32 - 1 ->
  let cmds := map (Z.lor (Z.land (st_rx_cmd phy) 0xFC)) [0x01; 0x02; 0x01; 0x02; 0x01; 0x02] in
  map line_symbol_of cmds = [LineJ; LineK; LineJ; LineK; LineJ; LineK] /\
  exists phy',
    phy_loop 206 phy (link_drives SIG1 SIG0 0x00) = Ok (cmds, replicate 205 0 ++ [1], phy', link_idles) /\
    st_speed phy' = HighSpeed /\ st_op phy' = PhyIdle /\ st_regs phy' = st_regs phy.
Proof.
  intros Hm Ho Ht cmds. split.
  { unfold cmds. cbn [map]. by rewrite !line_symbol_low by lia. }
  change 206%nat with (2 + 34 * 6)%nat. rewrite phy_loop_app.
  destruct (chirp_k_end phy Hm Ho Ht) as [t ->]. cbn [mbind outcome_bind].
  destruct (chirp_rounds 6 phy t HostChirpK1 (st_rx_cmd phy)) as [cmd' ->]; [done|done|done|lia|].
  eexists. split; [reflexivity|]. done.
Qed.

(** ** Witnesses *)

Definition phy_mem : ulpi_phy_t :=
  MkPhy (MkPhyState 0 PowerOn 0 (replicate 10 0) 0 0 0) ulpi_bus_zero transfer_zero.
Definition phy_example : ulpi_phy_t :=
  phy_init phy_mem <| st_op := PhyIdle |> <| phy_bus := link_idles |>.

Lemma phy_example_ready : phy_ready phy_example.
Proof. by split. Qed.

Lemma phy_example_wf : wf_phy phy_example.
Proof. split; cbn; try done; [apply reg_defaults_bytes|by left]. Qed.

Lemma uphy_run_invariant_witness :
  safe (fun '(outs, phy') => length outs = 4%nat) (phy_run phy_example (replicate 4 link_idles)).
Proof.
  assert (Hins : Forall (fun inp => is_byte (data_a inp) /\ reg_in_map inp) (replicate 4 link_idles)).
  { apply Forall_replicate. split; [unfold is_byte; cbn; lia|discriminate]. }
  pose proof (uphy_run_invariant phy_example (replicate 4 link_idles) phy_example_wf Hins) as H.
  destruct (phy_run phy_example (replicate 4 link_idles)) as [[outs phy']| |]; [|exact I|exact H].
  exact (proj1 H).
Defined.

Lemma reg_write_read_witness : exists outs phy1,
  phy_run phy_example (link_reg_write 4 0x45) = Ok (outs, phy1) /\ st_update phy1 = 1.
Proof.
  destruct (reg_write_read phy_example 4 0x45 4 phy_example_ready eq_refl ltac:(lia) ltac:(lia))
    as (outs & _ & _ & _ & _ & phy1 & _ & _ & H1 & H2 & _).
  exists outs, phy1. split; [exact H1|exact H2].
Defined.

Lemma reg_access_overrun_witness : phy_run phy_example (link_reg_write 0x16 0x00) = Undef.
Proof. apply (reg_access_overrun phy_example 0x16 0x00 phy_example_ready eq_refl); lia. Defined.

Lemma phy_power_up_witness : exists outs phy,
  phy_run (phy_init phy_mem) ([link_resets; link_idles] ++ replicate 151 link_idles) = Ok (outs, phy) /\
  st_op phy = PhyIdle.
Proof.
  destruct (phy_power_up phy_mem 151 ltac:(lia)) as (outs & phy & H1 & H2 & _).
  exists outs, phy. split; [exact H1|exact H2].
Defined.

Lemma chirp_handshake_witness : exists phy',
  phy_loop 206 (phy_example <| st_regs := [0x24; 0x04; 0x06; 0x00; 0x54; 0x41; 0x41; 0x00; 0x00; 0x00] |>
                            <| st_op := PhyChirpK |> <| st_timer := 60 |>) (link_drives SIG1 SIG0 0x00) =
  Ok ([0x4D; 0x4E; 0x4D; 0x4E; 0x4D; 0x4E], replicate 205 0 ++ [1], phy', link_idles).
Proof.
  destruct (chirp_handshake (phy_example <| st_regs := [0x24; 0x04; 0x06; 0x00; 0x54; 0x41; 0x41; 0x00; 0x00; 0x00] |>
    <| st_op := PhyChirpK |> <| st_timer := 60 |>)) as (_ & phy' & H & _).
  - by exists 0x54.
  - reflexivity.
  - unfold UPHY_CHIRPK_TIMER; cbn; lia.
  - exists phy'. exact H.
Defined.
