(* ===== verification/StdReq.v ===== *)
(** The state of the USB host (src/vpi/usb/usbhost.h) and its standard requests
    (src/vpi/usb/stdreq.h, src/vpi/usb/stdreq.c).

    The fields of [usb_host_t] carry the prefix [host_], because a device and a
    transfer have fields of the same names.  A pointer is its 64-bit address:
    the code stores and copies the two it has ([buf] and the request's [data])
    but never follows them.  [host_op_t] is an enumeration, compared by value. *)

From S2P Require Import Prelude UsbCrc Ulpi UlpiSafe.

(** ** The host *)

Inductive host_op_t : Type :=
| HostError | HostReset | HostSuspend | HostResume | HostIdle | HostSOF | HostSETUP
| HostBulkOUT | HostBulkIN.

Definition host_op_val (op : host_op_t) : Z :=
  match op with
  | HostError => -1 | HostReset => 0 | HostSuspend => 1 | HostResume => 2 | HostIdle => 3
  | HostSOF => 4 | HostSETUP => 5 | HostBulkOUT => 6 | HostBulkIN => 7
  end.

#[export] Instance host_op_eq_dec : EqDecision host_op_t.
Proof. solve_decision. Defined.

Definition RESET_TICKS : Z := 6000.
Definition SOF_N_TICKS : Z := 1500.

Record usb_host_t : Type := MkHost {
  host_cycle : Z;
  host_op : host_op_t;
  host_step : Z;
  host_prev : ulpi_bus_t;
  host_xfer : transfer_t;
  host_sof : Z;
  host_turnaround : Z;
  host_addr : Z;
  host_error_count : Z;
  host_len : Z;
  host_buf : Z;
  host_guard : Z
}.

#[export] Instance set_host_cycle : Setter host_cycle := fun v r =>
  MkHost v (host_op r) (host_step r) (host_prev r) (host_xfer r) (host_sof r)
    (host_turnaround r) (host_addr r) (host_error_count r) (host_len r) (host_buf r)
    (host_guard r).
#[export] Instance set_host_op : Setter host_op := fun v r =>
  MkHost (host_cycle r) v (host_step r) (host_prev r) (host_xfer r) (host_sof r)
    (host_turnaround r) (host_addr r) (host_error_count r) (host_len r) (host_buf r)
    (host_guard r).
#[export] Instance set_host_step : Setter host_step := fun v r =>
  MkHost (host_cycle r) (host_op r) v (host_prev r) (host_xfer r) (host_sof r)
    (host_turnaround r) (host_addr r) (host_error_count r) (host_len r) (host_buf r)
    (host_guard r).
#[export] Instance set_host_prev : Setter host_prev := fun v r =>
  MkHost (host_cycle r) (host_op r) (host_step r) v (host_xfer r) (host_sof r)
    (host_turnaround r) (host_addr r) (host_error_count r) (host_len r) (host_buf r)
    (host_guard r).
#[export] Instance set_host_xfer : Setter host_xfer := fun v r =>
  MkHost (host_cycle r) (host_op r) (host_step r) (host_prev r) v (host_sof r)
    (host_turnaround r) (host_addr r) (host_error_count r) (host_len r) (host_buf r)
    (host_guard r).
#[export] Instance set_host_sof : Setter host_sof := fun v r =>
  MkHost (host_cycle r) (host_op r) (host_step r) (host_prev r) (host_xfer r) v
    (host_turnaround r) (host_addr r) (host_error_count r) (host_len r) (host_buf r)
    (host_guard r).
#[export] Instance set_host_turnaround : Setter host_turnaround := fun v r =>
  MkHost (host_cycle r) (host_op r) (host_step r) (host_prev r) (host_xfer r) (host_sof r)
    v (host_addr r) (host_error_count r) (host_len r) (host_buf r) (host_guard r).
#[export] Instance set_host_addr : Setter host_addr := fun v r =>
  MkHost (host_cycle r) (host_op r) (host_step r) (host_prev r) (host_xfer r) (host_sof r)
    (host_turnaround r) v (host_error_count r) (host_len r) (host_buf r) (host_guard r).
#[export] Instance set_host_error_count : Setter host_error_count := fun v r =>
  MkHost (host_cycle r) (host_op r) (host_step r) (host_prev r) (host_xfer r) (host_sof r)
    (host_turnaround r) (host_addr r) v (host_len r) (host_buf r) (host_guard r).
#[export] Instance set_host_len : Setter host_len := fun v r =>
  MkHost (host_cycle r) (host_op r) (host_step r) (host_prev r) (host_xfer r) (host_sof r)
    (host_turnaround r) (host_addr r) (host_error_count r) v (host_buf r) (host_guard r).
#[export] Instance set_host_buf : Setter host_buf := fun v r =>
  MkHost (host_cycle r) (host_op r) (host_step r) (host_prev r) (host_xfer r) (host_sof r)
    (host_turnaround r) (host_addr r) (host_error_count r) (host_len r) v (host_guard r).
#[export] Instance set_host_guard : Setter host_guard := fun v r =>
  MkHost (host_cycle r) (host_op r) (host_step r) (host_prev r) (host_xfer r) (host_sof r)
    (host_turnaround r) (host_addr r) (host_error_count r) (host_len r) (host_buf r) v.

Definition host_op_eqb (s t : host_op_t) : bool := host_op_val s =? host_op_val t.

(** ** Standard requests *)

Definition STDREQ_GET_STATUS : Z := 0.
Definition STDREQ_SET_ADDRESS : Z := 5.
Definition STDREQ_GET_DESCRIPTOR : Z := 6.
Definition STDREQ_SET_CONFIGURATION : Z := 9.
Definition DESC_DEVICE : Z := 1.
Definition DESC_CONFIGURATION : Z := 2.

(** [usb_stdreq_t]; [req_data] is the address in [data]. *)
Record usb_stdreq_t : Type := MkStdReq {
  bmRequestType : Z;
  bRequest : Z;
  wValue : Z;
  wIndex : Z;
  wLength : Z;
  req_data : Z
}.

(** The bytes of a little-endian integer in memory. *)
Fixpoint le_bytes (n : nat) (v : Z) : list Z :=
  match n with
  | O => []
  | S n => Z.land v 0xFF :: le_bytes n (Z.shiftr v 8)
  end.

(** The 16 bytes of a [usb_stdreq_t] on a little-endian machine with 64-bit
    pointers: the fields are aligned without padding. *)
Definition stdreq_setup_bytes (req : usb_stdreq_t) : list Z :=
  [bmRequestType req; bRequest req] ++ le_bytes 2 (wValue req) ++ le_bytes 2 (wIndex req) ++
  le_bytes 2 (wLength req).
Definition stdreq_bytes (req : usb_stdreq_t) : list Z :=
  stdreq_setup_bytes req ++ le_bytes 8 (req_data req).

(** [stdreq_start]: the [memcpy] copies the whole structure, the address in
    [data] included; [tx_len] is the eight bytes to send. *)
Definition stdreq_start (host : usb_host_t) (req : usb_stdreq_t) : outcome (Z * usb_host_t) :=
  let xfer := host_xfer host in
  let tok := crc5_calc (Z.land (u16 (host_addr host)) 0x7F) in
  crc_in ← read_n (stdreq_bytes req) 8;
  let crc := crc16_calc crc_in in
  let xfer := xfer <| address := host_addr host |> <| endpoint := 0 |> in
  seq ← write_at (ep_seq xfer) 0 SIG0;
  let xfer := xfer <| ep_seq := seq |> <| tok1 := Z.land tok 0xFF |>
                   <| tok2 := Z.land (Z.shiftr tok 8) 0xFF |> <| type := SETUP |>
                   <| stage := NoXfer |> <| tx_len := 8 |> <| tx_ptr := 0 |>
                   <| crc1 := Z.land crc 0xFF |> <| crc2 := Z.land (Z.shiftr crc 8) 0xFF |> in
  tx' ← write_n (tx xfer) (stdreq_bytes req);
  let xfer := xfer <| tx := tx' |> <| rx_len := host_len host |> <| rx_ptr := 0 |> in
  Ok (1, host <| host_xfer := xfer |> <| host_op := HostSETUP |> <| host_step := 0 |>).

(** Unfinished entry points: all of them return an error. *)
Definition usbh_set_address (xfer : transfer_t) (addr : Z) : Z * transfer_t := (-1, xfer).
Definition usbh_set_config (xfer : transfer_t) (num : Z) : Z * transfer_t := (-1, xfer).
Definition set_configuration (req : usb_stdreq_t) (value : Z) : Z * usb_stdreq_t := (-1, req).

Definition get_descriptor (req : usb_stdreq_t) (dtype lang len desc : Z) : Z * usb_stdreq_t :=
  (1, MkStdReq 0x80 STDREQ_GET_DESCRIPTOR dtype lang len desc).

(** [desc] is the address that [malloc] returned for the descriptor, and [req]
    what the uninitialised [usb_stdreq_t] holds. *)
Definition stdreq_get_descriptor (host : usb_host_t) (num : Z) (desc : Z) (req : usb_stdreq_t)
  : outcome (Z * usb_host_t) :=
  if negb (host_op_eqb (host_op host) HostIdle) then Ok (-1, host)
  else
    let '(r, req) := get_descriptor req num 0 MAX_CONFIG_SIZE desc in
    if r <? 0 then Ok (-1, host) else stdreq_start host req.

Definition stdreq_get_status (host : usb_host_t) : outcome (Z * usb_host_t) :=
  if negb (host_op_eqb (host_op host) HostIdle) then Ok (-1, host)
  else stdreq_start host (MkStdReq 0x80 STDREQ_GET_STATUS 0 0 2 0).

Definition stdreq_get_desc_device (host : usb_host_t) : outcome (Z * usb_host_t) :=
  if negb (host_op_eqb (host_op host) HostIdle) then Ok (-1, host)
  else stdreq_start host
         (MkStdReq 0x80 STDREQ_GET_DESCRIPTOR (u16 (Z.shiftl DESC_DEVICE 8)) 0 MAX_CONFIG_SIZE 0).

Definition stdreq_get_desc_config (host : usb_host_t) (len : Z) : outcome (Z * usb_host_t) :=
  if negb (host_op_eqb (host_op host) HostIdle) then Ok (-1, host)
  else
    let len := if (MAX_CONFIG_SIZE <? len) || (len =? 0) then MAX_CONFIG_SIZE else len in
    stdreq_start host
      (MkStdReq 0x80 STDREQ_GET_DESCRIPTOR (u16 (Z.shiftl DESC_CONFIGURATION 8)) 0 len 0).

Definition stdreq_set_address (host : usb_host_t) (addr : Z) : outcome (Z * usb_host_t) :=
  stdreq_start host (MkStdReq 0x00 STDREQ_SET_ADDRESS addr 0 0 0).

Definition stdreq_set_config (host : usb_host_t) (conf : Z) : outcome (Z * usb_host_t) :=
  stdreq_start host (MkStdReq 0x00 STDREQ_SET_CONFIGURATION conf 0 0 0).

(** ** [stdreq_step] *)

Definition host_result : Type := outcome (Z * usb_host_t * ulpi_bus_t).

(** A packet step on the host's transfer. *)
Definition on_xfer (host : usb_host_t) (m : step_result) : host_result :=
  '(result, xfer, out) ← m;
  Ok (result, host <| host_xfer := xfer |>, out).

(** [if (xfer->type != t) { xfer->type = t; xfer->stage = NoXfer; }] *)
Definition enter_type (xfer : transfer_t) (t : xfer_type_t) : transfer_t :=
  if type_eqb (type xfer) t then xfer else xfer <| type := t |> <| stage := NoXfer |>.

(** The [switch (host->step)]: the packet step of each phase.  The two error
    returns of the switch are [None]. *)
Definition stdreq_phase (host : usb_host_t) (inp out : ulpi_bus_t)
  : option (outcome (Z * transfer_t * ulpi_bus_t)) :=
  let xfer := host_xfer host in
  let step := host_step host in
  if step =? 0 then (* SETUP (SETUP) *)
    if negb (type_eqb (type xfer) SETUP) then None
    else Some (token_send_step xfer inp out)
  else if step =? 1 then (* DATA0 (SETUP) *)
    if negb (type_eqb (type xfer) DnDATA0) then
      let xfer := xfer <| type := DnDATA0 |> <| stage := NoXfer |> in
      Some (c_assert (8 <=? tx_len xfer);; datax_send_step xfer inp out)
    else Some (datax_send_step xfer inp out)
  else if step =? 2 then (* ACK (SETUP) *)
    Some (ack_recv_step (enter_type xfer UpACK) inp out)
  else if step =? 3 then (* IN (DATA) *)
    Some (token_send_step (enter_type xfer IN) inp out)
  else if step =? 4 then (* DATA1 (DATA) *)
    let xfer := if type_eqb (type xfer) UpDATA1 then xfer
                else xfer <| type := UpDATA1 |> <| stage := NoXfer |>
                          <| rx_len := MAX_PACKET_SIZE |> <| rx_ptr := 0 |> in
    Some (datax_recv_step xfer inp out)
  else if step =? 5 then (* ACK (DATA) *)
    Some (ack_send_step (enter_type xfer DnACK) inp out)
  else if step =? 6 then (* OUT (STATUS) *)
    Some (token_send_step (enter_type xfer OUT) inp out)
  else if step =? 7 then (* ZDP (STATUS) *)
    let xfer := if type_eqb (type xfer) DnDATA1 then xfer
                else xfer <| type := DnDATA1 |> <| stage := NoXfer |> <| tx_len := 0 |> in
    Some (datax_send_step xfer inp out)
  else if step =? 8 then (* ACK (STATUS) *)
    Some (ack_recv_step (enter_type xfer UpACK) inp out)
  else None.

Definition stdreq_step (host : usb_host_t) (inp out : ulpi_bus_t) : host_result :=
  match stdreq_phase host inp out with
  | None => Ok (-1, host, out)
  | Some phase =>
      '(result, host, out) ← on_xfer host phase;
      if result <? 0 then Ok (result, host, out)
      else if 1 <? result then
        Ok (0, host <| host_step := u32 (host_step host + 1) |>
                    <| host_xfer := host_xfer host <| type := XferIdle |> |>, out)
      else Ok (result, host, out)
  end.

(** ** The unit test of the file *)

(** [stdreq.c]'s [user_func_step]. *)
Definition user_func_step (user_data : unit) (inp out : ulpi_bus_t)
  : outcome (Z * unit * ulpi_bus_t) := Ok (-1, tt, out).

(** [assert(ulpi_step_with(step, &xfer, &bus, user_func_step, NULL) == 1)]. *)
Definition assert_step_with (fuel : nat)
    (step : transfer_t -> ulpi_bus_t -> ulpi_bus_t -> step_result)
    (xfer : transfer_t) (bus : ulpi_bus_t) : option (outcome (transfer_t * ulpi_bus_t)) :=
  match ulpi_step_with step user_func_step fuel xfer bus tt with
  | None => None
  | Some m => Some ('(result, xfer, _, bus) ← m;
                    c_assert (result =? 1);; Ok (xfer, bus))
  end.

(** Sequencing of computations with fuel. *)
Definition fuel_bind {A B} (m : option (outcome A)) (f : A -> option (outcome B))
  : option (outcome B) :=
  match m with
  | None => None
  | Some (Ok a) => f a
  | Some AssertFail => Some AssertFail
  | Some Undef => Some Undef
  end.

Definition set_seq0 (xfer : transfer_t) (v : Z) : transfer_t :=
  xfer <| ep_seq := <[0%nat := v]> (ep_seq xfer) |>.

Definition test_stdreq_get_desc (fuel : nat) (num : Z) : option (outcome unit) :=
  let xfer := transfer_zero <| type := SETUP |> in
  fuel_bind (assert_step_with fuel token_send_step xfer ulpi_bus_zero) (fun '(xfer, bus) =>
  let xfer := xfer <| type := DnDATA0 |> in
  fuel_bind (assert_step_with fuel datax_send_step xfer bus) (fun '(xfer, bus) =>
  let xfer := transfer_in (set_seq0 xfer SIG1) 0 0 in
  fuel_bind (assert_step_with fuel token_send_step xfer bus) (fun '(xfer, bus) =>
  let xfer := xfer <| type := UpDATA1 |> in
  fuel_bind (assert_step_with fuel datax_recv_step xfer bus) (fun '(xfer, bus) =>
  let xfer := set_seq0 (transfer_out (set_seq0 xfer SIG0) 0 0) SIG1 in
  fuel_bind (assert_step_with fuel token_send_step xfer bus) (fun '(xfer, bus) =>
  let xfer := xfer <| type := DnDATA1 |> <| tx_len := 0 |> in
  fuel_bind (assert_step_with fuel datax_send_step xfer bus) (fun '(xfer, bus) =>
  Some (Ok tt))))))).
