(* ===== verification/StdReqProps.v ===== *)
(** Standard requests: what is queued for the device, the guards, and why the
    request state machine never leaves its first phase. *)

From S2P Require Import Prelude Gf2 UsbCrc Ulpi UlpiSafe UlpiTrace UlpiRecv StdReq.

(** The CRC routines are never evaluated on variables here. *)
#[local] Opaque crc16_calc crc5_calc crc5_check crc16_check.

(** ** Encoding *)

Lemma land_ff_byte v : is_byte (Z.land v 0xFF).
Proof. unfold is_byte. change 0xFF with (Z.ones 8). rewrite Z.land_ones by lia. apply Z.mod_pos_bound. lia. Qed.

Lemma le_bytes_byte n v : Forall is_byte (le_bytes n v).
Proof.
  revert v. induction n as [|n IH]; intros v; cbn -[Z.land]; [apply List.Forall_nil|].
  apply List.Forall_cons; [apply land_ff_byte|apply IH].
Qed.

Definition from_le2 (b0 b1 : Z) : Z := Z.lor b0 (Z.shiftl b1 8).

Lemma le_bytes_2 v : 0 <= v < 2 ^ 16 ->
  exists b0 b1, le_bytes 2 v = [b0; b1] /\ from_le2 b0 b1 = v.
Proof.
  intros Hv. exists (Z.land v 0xFF), (Z.land (Z.shiftr v 8) 0xFF). split; [done|].
  rewrite <- (tok_bytes_join v Hv) at 3. unfold from_le2, u8.
  change 0xFF with (Z.ones 8). by rewrite !Z.land_ones by lia.
Qed.

(** The device's view of the eight bytes of a SETUP data packet. *)
Definition decode_setup (bytes : list Z) : option (Z * Z * Z * Z * Z) :=
  match bytes with
  | [t; r; v0; v1; i0; i1; l0; l1] => Some (t, r, from_le2 v0 v1, from_le2 i0 i1, from_le2 l0 l1)
  | _ => None
  end.

Record wf_stdreq (req : usb_stdreq_t) : Prop := {
  wf_bmRequestType : is_byte (bmRequestType req);
  wf_bRequest : is_byte (bRequest req);
  wf_wValue : 0 <= wValue req < 2 ^ 16;
  wf_wIndex : 0 <= wIndex req < 2 ^ 16;
  wf_wLength : 0 <= wLength req < 2 ^ 16;
}.

Lemma stdreq_bytes_byte req : wf_stdreq req -> Forall is_byte (stdreq_bytes req).
Proof.
  intros []. unfold stdreq_bytes, stdreq_setup_bytes.
  repeat apply Forall_app_2; try apply le_bytes_byte.
  apply List.Forall_cons; [done|]. apply List.Forall_cons; [done|apply List.Forall_nil].
Qed.

Lemma decode_setup_bytes req :
  wf_stdreq req ->
  decode_setup (stdreq_setup_bytes req) =
  Some (bmRequestType req, bRequest req, wValue req, wIndex req, wLength req).
Proof.
  intros [_ _ Hv Hi Hl]. unfold stdreq_setup_bytes.
  destruct (le_bytes_2 _ Hv) as (v0 & v1 & -> & Ev).
  destruct (le_bytes_2 _ Hi) as (i0 & i1 & -> & Ei).
  destruct (le_bytes_2 _ Hl) as (l0 & l1 & -> & El).
  cbn. by rewrite Ev, Ei, El.
Qed.

(** The transfer that [stdreq_start] queues. *)
Definition stdreq_xfer (host : usb_host_t) (req : usb_stdreq_t) : transfer_t :=
  let x := host_xfer host in
  let tok := crc5_calc (Z.land (u16 (host_addr host)) 0x7F) in
  let crc := crc16_calc (stdreq_setup_bytes req) in
  x <| address := host_addr host |> <| endpoint := 0 |>
    <| ep_seq := <[0%nat := SIG0]> (ep_seq x) |>
    <| tok1 := Z.land tok 0xFF |> <| tok2 := Z.land (Z.shiftr tok 8) 0xFF |>
    <| type := SETUP |> <| stage := NoXfer |> <| tx_len := 8 |> <| tx_ptr := 0 |>
    <| crc1 := crc_lo crc |> <| crc2 := crc_hi crc |>
    <| tx := stdreq_bytes req ++ drop 16 (tx x) |>
    <| rx_len := host_len host |> <| rx_ptr := 0 |>.

(** The arrays of a transfer have their sizes, and the received data is bytes. *)
Record buffers (x : transfer_t) : Prop := {
  bf_seq : length (ep_seq x) = 16%nat;
  bf_tx : length (tx x) = 512%nat;
  bf_rx : length (rx x) = 512%nat;
  bf_bytes : Forall is_byte (rx x);
}.

Lemma wf_buffers x : wf_xfer x -> buffers x.
Proof. by intros []. Qed.

Lemma stdreq_start_queue host req :
  buffers (host_xfer host) ->
  stdreq_start host req =
  Ok (1, host <| host_xfer := stdreq_xfer host req |> <| host_op := HostSETUP |> <| host_step := 0 |>).
Proof.
  intros []. unfold stdreq_start.
  rewrite read_n_take by (cbn; lia). cbn [mbind outcome_bind].
  change (take (Z.to_nat 8) (stdreq_bytes req)) with (stdreq_setup_bytes req).
  rewrite write_at_in by (cbn; lia). cbn [mbind outcome_bind].
  assert (Hw : write_n (tx (host_xfer host)) (stdreq_bytes req) =
    Ok (stdreq_bytes req ++ drop 16 (tx (host_xfer host)))).
  { unfold write_n. change (length (stdreq_bytes req)) with 16%nat.
    by rewrite (proj2 (Z.leb_le _ _)) by lia. }
  cbn [tx set_field set_crc1 set_crc2 set_tx_ptr set_tx_len set_stage set_type set_tok1 set_tok2
    set_ep_seq set_address set_endpoint ep_seq].
  rewrite Hw. cbn [mbind outcome_bind]. unfold stdreq_xfer, crc_lo, crc_hi.
  cbn [set_field]. change (Z.to_nat 0) with 0%nat. reflexivity.
Qed.

Lemma stdreq_start_run host req :
  wf_xfer (host_xfer host) ->
  stdreq_start host req =
  Ok (1, host <| host_xfer := stdreq_xfer host req |> <| host_op := HostSETUP |> <| host_step := 0 |>).
Proof. intros H%wf_buffers. by apply stdreq_start_queue. Qed.

Lemma stdreq_xfer_wf host req :
  wf_xfer (host_xfer host) -> wf_stdreq req -> wf_xfer (stdreq_xfer host req).
Proof.
  intros H Hr. pose proof H as []. unfold stdreq_xfer.
  apply wf_set_rx_ptr; [lia|]. apply wf_set_rx_len.
  apply wf_set_tx.
  { rewrite length_app, length_drop. change (length (stdreq_bytes req)) with 16%nat. cbn. lia. }
  { apply Forall_app_2; [by apply stdreq_bytes_byte|by apply Forall_drop]. }
  apply wf_set_crc; [apply crc_lo_byte|apply crc_hi_byte|].
  apply wf_set_tx_ptr; [lia|]. apply wf_set_tx_len; [lia|]. apply wf_set_stage, wf_set_type.
  apply wf_set_tok; [apply land_ff_byte..|].
  apply wf_set_ep_seq; [by rewrite length_insert| |].
  { apply Forall_insert; [done|by left]. }
  apply wf_set_endpoint; [lia|]. by apply wf_set_address.
Qed.

Lemma stdreq_xfer_token host req :
  token_word (stdreq_xfer host req) = crc5_calc (Z.land (u16 (host_addr host)) 0x7F).
Proof.
  unfold token_word. cbn -[crc5_calc Z.land Z.shiftr Z.shiftl].
  rewrite <- (tok_bytes_join (crc5_calc _)) at 3 by apply crc5_calc_bounds.
  unfold u8. change 0xFF with (Z.ones 8). by rewrite !(Z.land_ones _ 8) by lia.
Qed.

Lemma stdreq_bytes_take req l : take 8 (stdreq_bytes req ++ l) = stdreq_setup_bytes req.
Proof. reflexivity. Qed.

(** A transfer that is set up to send a request. *)
Record sends_request (x : transfer_t) (addr : Z) (req : usb_stdreq_t) : Prop := {
  sr_type : type x = SETUP /\ stage x = NoXfer;
  sr_token : crc5_check (token_word x) = true;
  sr_address : Z.land (token_word x) 0x07FF = Z.land addr 0x7F;
  sr_packet : take (Z.to_nat (tx_len x)) (tx x) = stdreq_setup_bytes req;
  sr_crc : crc16_check (stdreq_setup_bytes req ++ [crc1 x; crc2 x]) = true;
  sr_seq : check_seq x USBPID_DATA0 = Ok true;
}.

Lemma stdreq_xfer_sends host req :
  buffers (host_xfer host) -> wf_stdreq req -> sends_request (stdreq_xfer host req) (host_addr host) req.
Proof.
  intros H Hr. set (ad := Z.land (u16 (host_addr host)) 0x7F).
  assert (Had : ad = Z.land (host_addr host) 0x7F /\ 0 <= ad < 2 ^ 7).
  { subst ad. unfold u16. change 0x7F with (Z.ones 7). rewrite !Z.land_ones by lia.
    split; [|apply Z.mod_pos_bound; lia].
    change (2 ^ 16) with (2 ^ 7 * 2 ^ 9). by rewrite Z.rem_mul_r, Z.mul_comm, Z.mod_add, Z.mod_mod by lia. }
  destruct Had as [Ead Had].
  constructor; [done|..].
  - rewrite stdreq_xfer_token. apply crc5_check_calc. fold ad. lia.
  - rewrite stdreq_xfer_token, crc5_calc_payload. fold ad. rewrite <- Ead. change 0x07FF with (Z.ones 11).
    rewrite Z.land_ones by lia. apply Z.mod_small. lia.
  - apply stdreq_bytes_take.
  - apply crc16_check_pair; [|apply crc_lo_byte|apply crc_hi_byte|done].
    apply stdreq_bytes_byte in Hr. unfold stdreq_bytes in Hr. by apply Forall_app in Hr as [? _].
  - assert (Hs : ep_seq (stdreq_xfer host req) !! Z.to_nat (Z.land (endpoint (stdreq_xfer host req)) 0x0f)
      = Some SIG0).
    { cbn. apply list_lookup_insert_eq. destruct H. lia. }
    by rewrite (check_seq_bit _ _ Hs).
Qed.

(** C19.  Queueing a standard request: from any host with a well-formed transfer,
    [stdreq_start] succeeds and leaves the host at the first phase of a SETUP
    transaction whose token carries the device's address with a valid CRC5, whose
    data packet decodes to the request and has a valid CRC16, and whose control
    endpoint expects DATA0; the transfer stays well formed. *)
Theorem stdreq_start_queues host req :
  wf_xfer (host_xfer host) -> wf_stdreq req ->
  exists host', stdreq_start host req = Ok (1, host') /\
    host_op host' = HostSETUP /\ host_step host' = 0 /\
    let x := host_xfer host' in
    let packet := take (Z.to_nat (tx_len x)) (tx x) in
    wf_xfer x /\ type x = SETUP /\ stage x = NoXfer /\
    crc5_check (token_word x) = true /\
    Z.land (token_word x) 0x07FF = Z.land (host_addr host) 0x7F /\
    decode_setup packet =
      Some (bmRequestType req, bRequest req, wValue req, wIndex req, wLength req) /\
    crc16_check (packet ++ [crc1 x; crc2 x]) = true /\
    check_seq x USBPID_DATA0 = Ok true.
Proof.
  intros H Hr. rewrite stdreq_start_run by done. eexists; split; [reflexivity|].
  split; [done|]. split; [done|]. cbv zeta.
  set (x := host_xfer (host <| host_xfer := _ |> <| host_op := _ |> <| host_step := _ |>)).
  assert (H1 : wf_xfer x) by (by apply stdreq_xfer_wf).
  assert (Hx : sends_request x (host_addr host) req) by (by apply stdreq_xfer_sends; [apply wf_buffers|]).
  clearbody x. destruct Hx as [[H2 H3] H4 H5 H6 H7 H8]. rewrite H6. split_and!; try done.
  by apply decode_setup_bytes.
Qed.

(** ** The requests *)

(** A request was queued and these are the bytes of its data packet. *)
Definition queued (m : outcome (Z * usb_host_t)) (bytes : list Z) : Prop :=
  exists host', m = Ok (1, host') /\ host_op host' = HostSETUP /\
    take (Z.to_nat (tx_len (host_xfer host'))) (tx (host_xfer host')) = bytes.

Lemma stdreq_start_queued host req bytes :
  wf_xfer (host_xfer host) -> stdreq_setup_bytes req = bytes -> queued (stdreq_start host req) bytes.
Proof.
  intros H <-. rewrite stdreq_start_run by done. eexists. split; [reflexivity|]. split; [done|].
  reflexivity.
Qed.

Lemma host_op_eqb_eq s t : host_op_eqb s t = true <-> s = t.
Proof. split; [|intros ->; by destruct t]. destruct s, t; done. Qed.

Lemma host_op_eqb_neq s t : s <> t -> host_op_eqb s t = false.
Proof. intros H. apply not_true_iff_false. by rewrite host_op_eqb_eq. Qed.

(** The configuration length that [stdreq_get_desc_config] asks for. *)
Definition config_length (len : Z) : Z := if (MAX_CONFIG_SIZE <? len) || (len =? 0) then MAX_CONFIG_SIZE else len.

Lemma le_bytes_2_small v : 0 <= v < 256 -> le_bytes 2 v = [v; 0].
Proof.
  intros Hv. cbn -[Z.land Z.shiftr]. change 0xFF with (Z.ones 8).
  rewrite !Z.land_ones, Z.shiftr_div_pow2, (Z.div_small v) by lia. by rewrite Z.mod_small by lia.
Qed.

Lemma le_bytes_2_divmod v : 0 <= v < 2 ^ 16 -> le_bytes 2 v = [v mod 256; v / 256].
Proof.
  intros Hv. cbn -[Z.land Z.shiftr]. change 0xFF with (Z.ones 8).
  rewrite !Z.land_ones, Z.shiftr_div_pow2 by lia. change (2 ^ 8) with 256.
  by rewrite (Z.mod_small (v / 256)) by (split; [apply Z.div_pos|apply Z.div_lt_upper_bound]; lia).
Qed.

(** C30.  The requests that the entry points queue are the ones of USB 2.0: on an idle
    host with a well-formed transfer, [stdreq_get_descriptor] queues GET DESCRIPTOR for
    every type and index (the upper and the lower byte of its 16-bit argument) and 64
    bytes, and the other five queue exactly their eight setup bytes, for every
    configuration length (0 and more than 64 ask for 64), address and configuration
    number. *)
Theorem stdreq_requests_encoded host num desc req len addr conf :
  wf_xfer (host_xfer host) -> host_op host = HostIdle ->
  0 <= num < 2 ^ 16 -> 0 <= len < 2 ^ 16 -> is_byte addr -> is_byte conf ->
  queued (stdreq_get_descriptor host num desc req) [0x80; 6; num mod 256; num / 256; 0; 0; 64; 0] /\
  queued (stdreq_get_status host) [0x80; 0; 0; 0; 0; 0; 2; 0] /\
  queued (stdreq_get_desc_device host) [0x80; 6; 0; 1; 0; 0; 64; 0] /\
  queued (stdreq_get_desc_config host len) [0x80; 6; 0; 2; 0; 0; config_length len; 0] /\
  queued (stdreq_set_address host addr) [0x00; 5; addr; 0; 0; 0; 0; 0] /\
  queued (stdreq_set_config host conf) [0x00; 9; conf; 0; 0; 0; 0; 0].
Proof.
  unfold is_byte. intros H Hop Hnum Hlen Haddr Hconf.
  assert (Hc : 0 <= config_length len < 256).
  { unfold config_length, MAX_CONFIG_SIZE. destruct (Z.ltb_spec 64 len); cbn; [lia|].
    destruct (len =? 0); lia. }
  unfold stdreq_get_descriptor, stdreq_get_status, stdreq_get_desc_device, stdreq_get_desc_config,
    stdreq_set_address, stdreq_set_config, get_descriptor. rewrite Hop.
  change (negb (host_op_eqb HostIdle HostIdle)) with false. cbv iota zeta.
  change (1 <? 0) with false. cbv iota. fold (config_length len).
  repeat apply conj; (apply stdreq_start_queued; [done|]); unfold stdreq_setup_bytes;
    cbn [bmRequestType bRequest wValue wIndex wLength]; 
    rewrite ?(le_bytes_2_divmod num), ?(le_bytes_2_small (config_length len)),
      ?(le_bytes_2_small addr), ?(le_bytes_2_small conf) by lia; reflexivity.
Qed.

(** The request is refused and the host is unchanged. *)
Definition refused (host : usb_host_t) (m : outcome (Z * usb_host_t)) : Prop := m = Ok (-1, host).
(** The request replaces the transaction in progress. *)
Definition replaces (m : outcome (Z * usb_host_t)) : Prop :=
  exists host', m = Ok (1, host') /\ host_op host' = HostSETUP /\ host_step host' = 0 /\
    stage (host_xfer host') = NoXfer.

(** C36.  Guards of the entry points: the four GET requests refuse a host that is
    not idle and leave it unchanged, while SET ADDRESS and SET CONFIGURATION
    have no guard and replace the transaction in progress, whatever it is. *)
Theorem stdreq_guards host num desc req len addr conf :
  wf_xfer (host_xfer host) -> host_op host <> HostIdle ->
  refused host (stdreq_get_descriptor host num desc req) /\
  refused host (stdreq_get_status host) /\
  refused host (stdreq_get_desc_device host) /\
  refused host (stdreq_get_desc_config host len) /\
  replaces (stdreq_set_address host addr) /\
  replaces (stdreq_set_config host conf).
Proof.
  intros H Hop%host_op_eqb_neq. unfold refused, replaces.
  unfold stdreq_get_descriptor, stdreq_get_status, stdreq_get_desc_device, stdreq_get_desc_config,
    stdreq_set_address, stdreq_set_config. rewrite Hop. cbn [negb].
  repeat (split; [done|]). rewrite !stdreq_start_run by done. split; by eexists.
Qed.

(** ** [stdreq_step] *)

(** Results of a step are at most [n]. *)
Definition result_le (n : Z) (m : step_result) : Prop :=
  match m with Ok (r, _, _) => r <= n | _ => True end.

Lemma result_le_safe P n m :
  safe P m -> (forall r x o, P (r, x, o) -> r <= n) -> result_le n m.
Proof. destruct m as [[[r x] o]| |]; cbn; eauto. Qed.

Ltac result_step :=
  repeat first
    [ progress cbn [mbind outcome_bind result_le]
    | progress cbv zeta
    | match goal with
      | |- _ <= _ => lia
      | |- True => exact I
      | |- result_le _ ((if ?b then _ else _) ≫= _) => destruct b
      | |- result_le _ (match ?m with _ => _ end) => destruct m
      | |- result_le _ (read_at ?l ?i ≫= _) => destruct (read_at l i)
      | |- result_le _ (write_at ?l ?i ?v ≫= _) => destruct (write_at l i v)
      | |- result_le _ (check_seq ?x ?p ≫= _) => destruct (check_seq x p)
      | |- result_le _ (check_rx_crc16 ?x ≫= _) => destruct (check_rx_crc16 x) as [[]| |]
      | |- result_le _ (transfer_ack ?x ≫= _) => destruct (transfer_ack x)
      end ].

Lemma drive_eop_le x inp out : result_le 1 (drive_eop x inp out).
Proof. unfold drive_eop, c_assert. result_step. Qed.
Lemma token_send_le x inp out : result_le 1 (token_send_step x inp out).
Proof. unfold token_send_step, c_assert. result_step; apply drive_eop_le. Qed.
Lemma datax_send_le x inp out : result_le 1 (datax_send_step x inp out).
Proof. unfold datax_send_step, c_assert. result_step; apply drive_eop_le. Qed.
Lemma datax_recv_le x inp out : result_le 1 (datax_recv_step x inp out).
Proof. unfold datax_recv_step, recv_body, c_assert. result_step; apply drive_eop_le. Qed.
Lemma ack_recv_le x inp out : result_le 1 (ack_recv_step x inp out).
Proof. unfold ack_recv_step, c_assert. result_step. Qed.
Lemma ack_send_le x inp out : result_le 1 (ack_send_step x inp out).
Proof. unfold ack_send_step, c_assert. result_step; apply drive_eop_le. Qed.

Lemma stdreq_phase_le host inp out m : stdreq_phase host inp out = Some m -> result_le 1 m.
Proof.
  unfold stdreq_phase. cbv zeta. intros H. repeat case_match; simplify_eq;
    auto using token_send_le, datax_send_le, datax_recv_le, ack_recv_le, ack_send_le.
  unfold c_assert. destruct (8 <=? _); [apply datax_send_le|done].
Qed.

Lemma stdreq_step_result host inp out r host' out' :
  stdreq_step host inp out = Ok (r, host', out') ->
  r <= 1 /\ host_step host' = host_step host /\
  (host' = host \/ exists x o, (exists m, stdreq_phase host inp out = Some m /\ m = Ok (r, x, o)) /\
     host' = host <| host_xfer := x |>).
Proof.
  unfold stdreq_step. destruct (stdreq_phase host inp out) as [m|] eqn:E.
  2: { intros [= <- <- <-]. split; [lia|]. split; [done|by left]. }
  apply stdreq_phase_le in E as Hle. destruct m as [[[res x] o]| |]; cbn; [|done..].
  cbn in Hle. destruct (res <? 0).
  - intros [= <- <- <-]. split; [done|]. split; [done|]. right. by eauto 7.
  - destruct (Z.ltb_spec 1 res); [lia|]. intros [= <- <- <-].
    split; [done|]. split; [done|]. right. by eauto 7.
Qed.

(** [stdreq_step] over a sequence of bus values, as long as it returns at
    least 0; the results are collected. *)
Fixpoint stdreq_run (host : usb_host_t) (ins : list ulpi_bus_t)
  : outcome (list Z * usb_host_t) :=
  match ins with
  | [] => Ok ([], host)
  | inp :: ins =>
      '(r, host, _) ← stdreq_step host inp inp;
      if r <? 0 then Ok ([r], host)
      else '(rs, host) ← stdreq_run host ins; Ok (r :: rs, host)
  end.

Lemma stdreq_run_step host ins rs host' :
  stdreq_run host ins = Ok (rs, host') -> host_step host' = host_step host.
Proof.
  revert host rs. induction ins as [|i ins IH]; intros host rs; cbn [stdreq_run]; [by intros [= <- <-]|].
  destruct (stdreq_step host i i) as [[[r h] o]| |] eqn:E; cbn [mbind outcome_bind]; [|done..].
  apply stdreq_step_result in E as (_ & Hs & _).
  destruct (r <? 0); [by intros [= <- <-]|].
  destruct (stdreq_run h ins) as [[rs' h']| |] eqn:E'; cbn; [|done..].
  intros [= <- <-]. rewrite (IH _ _ E'). done.
Qed.

(** A successful token step ends the transfer. *)
Lemma token_send_done x inp out r x' out' :
  token_send_step x inp out = Ok (r, x', out') -> r = 1 -> type x' = XferIdle.
Proof.
  unfold token_send_step, drive_eop, c_assert. intros H ->.
  repeat (case_match; simplify_eq; try done; cbn in H).
  all: by injection H as <- <-.
Qed.

Lemma stdreq_step_setup host inp out :
  host_step host = 0 ->
  stdreq_step host inp out =
  if type_eqb (type (host_xfer host)) SETUP
  then on_xfer host (token_send_step (host_xfer host) inp out)
  else Ok (-1, host, out).
Proof.
  intros Hs. unfold stdreq_step, stdreq_phase. rewrite Hs. cbv zeta. change (0 =? 0) with true. cbv iota.
  destruct (type_eqb _ _); cbn [negb]; [|done].
  pose proof (token_send_le (host_xfer host) inp out) as Hle.
  destruct (token_send_step (host_xfer host) inp out) as [[[r x] o]| |]; cbn; [|done..].
  cbn in Hle. destruct (r <? 0); [done|]. by destruct (Z.ltb_spec 1 r); [lia|].
Qed.

Lemma setup_run_stops host ins rs host' :
  host_step host = 0 -> stdreq_run host ins = Ok (rs, host') ->
  exists n, rs = replicate n 0 \/ (exists r, r < 0 /\ rs = replicate n 0 ++ [r]) \/
    rs = replicate n 0 ++ [1] \/ rs = replicate n 0 ++ [1; -1].
Proof.
  revert host rs. induction ins as [|i ins IH]; intros host rs Hs; cbn [stdreq_run].
  { intros [= <- <-]. exists 0%nat. by left. }
  rewrite stdreq_step_setup by done.
  destruct (type_eqb (type (host_xfer host)) SETUP) eqn:Ht.
  2: { cbn. intros [= <- <-]. exists 0%nat. right; left. exists (-1). split; [lia|done]. }
  pose proof (token_send_le (host_xfer host) i i) as Hle.
  destruct (token_send_step (host_xfer host) i i) as [[[r x] o]| |] eqn:E; cbn [on_xfer mbind outcome_bind];
    [|done..].
  cbn in Hle. destruct (Z.ltb_spec r 0).
  { intros [= <- <-]. exists 0%nat. right; left. by exists r. }
  destruct (stdreq_run _ ins) as [[rs' h']| |] eqn:E'; cbn; [|done..].
  intros [= <- <-]. assert (Hr : r = 0 \/ r = 1) by lia. destruct Hr as [-> | ->].
  - eapply IH in E' as (n & Hn); [|exact Hs]. exists (S n). cbn.
    destruct Hn as [-> | [(r & Hr & ->) | [-> | ->]]]; eauto 6.
  - apply token_send_done in E; [|done]. exists 0%nat. right; right.
    destruct ins as [|i' ins]; cbn [stdreq_run] in E'; [injection E' as <- <-; by left|].
    rewrite stdreq_step_setup in E' by done. cbn [host_xfer set_field set_host_xfer] in E'.
    rewrite E in E'. cbn in E'. injection E' as <- <-. by right.
Qed.

(** A control transfer never gets past its SETUP token: [stdreq_step] never
    returns more than 1, so the test for [result > 1] never advances
    [host->step]; from a request that was just queued, whatever the bus carries,
    the steps return zeros, then possibly the 1 of the sent token, and the call
    after that one fails. *)
Theorem stdreq_never_advances host req ins rs host1 host' :
  wf_xfer (host_xfer host) -> stdreq_start host req = Ok (1, host1) ->
  stdreq_run host1 ins = Ok (rs, host') ->
  host_step host' = 0 /\
  exists n, rs = replicate n 0 \/ (exists r, r < 0 /\ rs = replicate n 0 ++ [r]) \/
    rs = replicate n 0 ++ [1] \/ rs = replicate n 0 ++ [1; -1].
Proof.
  intros H Hs Hr. rewrite stdreq_start_run in Hs by done. injection Hs as <-.
  split; [by apply stdreq_run_step in Hr|]. by eapply setup_run_stops; [|exact Hr].
Qed.

(** The unit test of [stdreq.c] cannot pass: its device always returns -1,
    so the first [assert] fails for every descriptor number. *)
Theorem test_stdreq_get_desc_aborts fuel num :
  test_stdreq_get_desc (S fuel) num = Some AssertFail.
Proof. reflexivity. Qed.

(** ** Witnesses *)

Definition host_example : usb_host_t :=
  MkHost 0 HostIdle 0 ulpi_bus_zero transfer_zero 0 0 5 0 16384 0 0.

Lemma host_example_wf : wf_xfer (host_xfer host_example).
Proof. apply wf_zero. Qed.

Definition req_example : usb_stdreq_t := MkStdReq 0x80 6 0x0100 0 64 0.

Lemma req_example_wf : wf_stdreq req_example.
Proof. split; cbn; unfold is_byte; lia. Qed.

Lemma stdreq_start_queues_witness : exists host',
  stdreq_start host_example req_example = Ok (1, host') /\ host_op host' = HostSETUP.
Proof.
  destruct (stdreq_start_queues host_example req_example host_example_wf req_example_wf)
    as (host' & H1 & H2 & _).
  exists host'. split; [exact H1|exact H2].
Defined.

Lemma stdreq_requests_encoded_witness :
  queued (stdreq_get_descriptor host_example 0x0301 0 req_example) [0x80; 6; 1; 3; 0; 0; 64; 0] /\
  queued (stdreq_set_address host_example 9) [0x00; 5; 9; 0; 0; 0; 0; 0].
Proof.
  destruct (stdreq_requests_encoded host_example 0x0301 0 req_example 18 9 1 host_example_wf eq_refl
    ltac:(lia) ltac:(lia) ltac:(unfold is_byte; lia) ltac:(unfold is_byte; lia))
    as (H1 & _ & _ & _ & H2 & _). split; [exact H1|exact H2].
Defined.

Definition busy_example : usb_host_t := host_example <| host_op := HostBulkOUT |>.

Lemma stdreq_guards_witness : stdreq_get_status busy_example = Ok (-1, busy_example).
Proof.
  assert (Hn : HostBulkOUT <> HostIdle) by discriminate.
  destruct (stdreq_guards busy_example 1 0 req_example 18 9 1 host_example_wf Hn) as (_ & H & _).
  exact H.
Defined.

(** The bus over the token of a request, and two cycles more. *)
Definition token_cycles : list ulpi_bus_t :=
  [phy_bus SIG0 SIG0 0x00 0x00] ++ [bus_turnaround; bus_rx_cmd 0x5D; bus_rx_byte 0x2D;
   bus_rx_byte 0x05; bus_rx_byte 0x00; bus_rx_cmd 0x4C; bus_rx_cmd 0x4D] ++
  [bus_released; bus_released; bus_released].

Definition setup_example : usb_host_t :=
  host_example <| host_xfer := stdreq_xfer host_example req_example |> <| host_op := HostSETUP |>
               <| host_step := 0 |>.

Lemma setup_example_start : stdreq_start host_example req_example = Ok (1, setup_example).
Proof. apply stdreq_start_run, host_example_wf. Qed.

Definition run_results (m : outcome (list Z * usb_host_t)) : list Z :=
  match m with Ok (rs, _) => rs | _ => [] end.

Lemma setup_example_results :
  run_results (stdreq_run setup_example token_cycles) = replicate 8 0 ++ [1; -1].
Proof. vm_compute. reflexivity. Qed.

Lemma stdreq_never_advances_witness : exists rs host',
  stdreq_run setup_example token_cycles = Ok (rs, host') /\ rs = replicate 8 0 ++ [1; -1] /\
  host_step host' = 0.
Proof.
  pose proof setup_example_results as H.
  destruct (stdreq_run setup_example token_cycles) as [[rs host']| |] eqn:E; [|discriminate H..].
  exists rs, host'. split; [reflexivity|]. split; [exact H|].
  exact (proj1 (stdreq_never_advances host_example req_example token_cycles rs setup_example host'
    host_example_wf setup_example_start E)).
Defined.
