(* ===== verification/UsbHost.v ===== *)
(** The USB host model: src/vpi/usb/usbhost.c, with the default timers.

    [rand()] is the stream [g], threaded through the two steps that call it; a
    step consumes a value only where the code's [&&] reaches the call. *)

From S2P Require Import Prelude UsbCrc Ulpi UlpiSafe StdReq.

Definition HOST_BUF_LEN : Z := 16384.
Definition TURNAROUND_TIMER : Z := 40.
Definition NXT_MASK : Z := 0xF.
Definition GUARDIAN : Z := 0xA5B43C690F87E12D.

Definition is_ulpi_phy_idle (inp : ulpi_bus_t) : bool :=
  (dir inp =? SIG0) && (nxt inp =? SIG0) && (data_a inp =? 0x00).

Definition is_ulpi_phy_turn (inp : ulpi_bus_t) : bool :=
  (dir inp =? SIG1) && (nxt inp =? SIG1) && (data_a inp =? 0x00) && (data_b inp =? 0xff).

(** [start_host_to_func]: no caller in the program. *)
Definition start_host_to_func (host : usb_host_t) (inp out : ulpi_bus_t)
  : Z * usb_host_t * ulpi_bus_t :=
  let xfer := host_xfer host in
  if xfer_stage_val AssertDir <? xfer_stage_val (stage xfer) then (-1, host, out)
  else if stage_eqb (stage xfer) NoXfer && is_ulpi_phy_idle inp then
    (0, host <| host_xfer := xfer <| stage := AssertDir |> |>,
     out <| dir := SIG1 |> <| nxt := SIG1 |> <| data_a := 0x00 |> <| data_b := 0xFF |>)
  else if stage_eqb (stage xfer) AssertDir && is_ulpi_phy_turn inp then
    (0, host <| host_xfer := xfer <| stage := InitRXCMD |> |>,
     out <| nxt := SIG0 |> <| data_a := 0x5D |> <| data_b := 0x00 |>)
  else (-1, host,
        out <| dir := SIGX |> <| nxt := SIGX |> <| data_a := 0xFF |> <| data_b := 0xFF |>).

(** ** Bulk transactions *)

Definition bulk_result : Type := outcome (Z * usb_host_t * ulpi_bus_t * rng).

(** [(rand() & NXT_MASK) == NXT_MASK] *)
Definition rand_wait (g : rng) : bool * rng :=
  let '(v, g) := rng_next g in (Z.land v NXT_MASK =? NXT_MASK, g).

(** [xfer->ep_seq[xfer->endpoint] == SIG0 ? t0 : t1] *)
Definition seq_type (xfer : transfer_t) (t0 t1 : xfer_type_t) : outcome xfer_type_t :=
  s ← read_at (ep_seq xfer) (endpoint xfer);
  Ok (if s =? SIG0 then t0 else t1).

(** [host->cycle + TURNAROUND_TIMER], stored in the [uint32_t] of a transfer. *)
Definition turnaround_deadline (host : usb_host_t) : Z := u32 (u64 (host_cycle host + TURNAROUND_TIMER)).

Definition bulk_out_step (host : usb_host_t) (inp out : ulpi_bus_t) (g : rng) : bulk_result :=
  let xfer := host_xfer host in
  let ret result xfer out g : bulk_result := Ok (result, host <| host_xfer := xfer |>, out, g) in
  match type xfer with
  | OUT =>
      '(result, xfer, out) ← token_send_step xfer inp out;
      if result <? 0 then ret result xfer out g
      else if 0 <? result then
        t ← seq_type xfer DnDATA0 DnDATA1;
        ret 0 (xfer <| type := t |> <| stage := NoXfer |>) out g
      else ret 0 xfer out g
  | DnDATA0 | DnDATA1 =>
      let '(wait, g) :=
        if (tx_ptr xfer <? tx_len xfer) && (nxt inp =? SIG1) then rand_wait g else (false, g) in
      if wait then ret 0 xfer (out <| nxt := SIG0 |> <| data_a := 0x5D |>) g
      else
        '(result, xfer, out) ← datax_send_step xfer inp out;
        if result <? 0 then ret result xfer out g
        else if 0 <? result then
          ret 0 (xfer <| type := UpACK |> <| stage := NoXfer |>
                      <| xcycle := turnaround_deadline host |>) out g
        else ret 0 xfer out g
  | UpACK =>
      if xcycle xfer <=? host_cycle host then
        ret 1 (xfer <| type := XferIdle |> <| stage := NoXfer |>) out g
      else
        '(result, xfer, out) ← ack_recv_step xfer inp out;
        if 0 <? result then ret result (xfer <| type := XferIdle |> <| stage := NoXfer |>) out g
        else ret result xfer out g
  | _ => ret (-1) xfer out g
  end.

(** The [TimeOut] case of [bulk_in_step], while the packet is running. *)
Definition bulk_in_timeout_step (xfer : transfer_t) (inp out : ulpi_bus_t) : step_result :=
  '(result, xfer, out) ←
    (if stage_eqb (stage xfer) DATAxBody then
       c_assert ((dir inp =? SIG0) && (data_b inp =? 0x00));;
       recv_body xfer inp out
     else drive_eop xfer inp out);
  if result <? 0 then Ok (-1, xfer, out) else Ok (0, xfer <| type := TimeOut |>, out).

Definition bulk_in_step (host : usb_host_t) (inp out : ulpi_bus_t) (g : rng) : bulk_result :=
  let xfer := host_xfer host in
  let ret result xfer out g : bulk_result := Ok (result, host <| host_xfer := xfer |>, out, g) in
  match type xfer with
  | IN =>
      '(result, xfer, out) ← token_send_step xfer inp out;
      if result <? 0 then ret result xfer out g
      else if 0 <? result then
        t ← seq_type xfer UpDATA0 UpDATA1;
        ret 0 (xfer <| type := t |> <| stage := NoXfer |>
                    <| xcycle := turnaround_deadline host |>) out g
      else ret 0 xfer out g
  | UpDATA0 | UpDATA1 =>
      '(result, xfer, out) ← datax_recv_step xfer inp out;
      if (rx_ptr xfer =? 0) && (xcycle xfer <=? host_cycle host) then
        ret 0 (xfer <| type := TimeOut |>) out g
      else if result <? -2 then
        ret 0 (xfer <| type := TimeOut |> <| xcycle := turnaround_deadline host |>) out g
      else if result <? 0 then ret result xfer out g
      else if 0 <? result then ret 0 (xfer <| type := DnACK |> <| stage := NoXfer |>) out g
      else
        let '(wait, g) :=
          if (0 <? rx_ptr xfer) && (nxt out =? SIG1) then rand_wait g else (false, g) in
        ret 0 xfer (if wait then out <| nxt := SIG0 |> else out) g
  | DnACK =>
      '(result, xfer, out) ← ack_send_step xfer inp out;
      if 0 <? result then
        xfer ← transfer_ack xfer;
        ret result (xfer <| type := XferIdle |> <| stage := NoXfer |>) out g
      else ret result xfer out g
  | TimeOut =>
      if xcycle xfer <=? host_cycle host then
        ret 1 (xfer <| type := XferIdle |> <| stage := NoXfer |>) out g
      else
        '(result, xfer, out) ← bulk_in_timeout_step xfer inp out;
        ret result xfer out g
  | XferIdle => ret 1 xfer out g
  | _ => ret (-1) xfer out g
  end.

(** ** Reset and initialisation *)

Definition usbh_reset (host : usb_host_t) : usb_host_t :=
  host <| host_op := HostReset |> <| host_step := 0 |> <| host_turnaround := 0 |>
       <| host_addr := 0 |> <| host_error_count := 0 |> <| host_xfer := transfer_zero |>.

(** [buf] is the address that [malloc] returns; [prev] keeps whatever the memory
    of the host held. *)
Definition usbh_init (host : usb_host_t) (buf : Z) : usb_host_t :=
  usbh_reset host <| host_cycle := 0 |> <| host_sof := 0 |> <| host_buf := buf |>
                  <| host_len := HOST_BUF_LEN |> <| host_guard := GUARDIAN |>.

Definition usbh_busy (host : usb_host_t) : Z :=
  if host_op_eqb (host_op host) HostIdle then 0 else 1.

(** Unfinished entry points. *)
Definition usbh_reset_device (host : usb_host_t) (addr : Z) : Z * usb_host_t := (-1, host).
Definition usbh_bulk_out (host : usb_host_t) (data : list Z) (len : Z) : Z * usb_host_t := (-1, host).
Definition usbh_bulk_in (host : usb_host_t) (data : list Z) (len : Z) : Z * usb_host_t := (-1, host).

(** ** [usbh_step] *)

(** The handling of RST# and of the SOF interval, before the [switch]; [cycle]
    is the counter before its increment. *)
Definition usbh_pre (host : usb_host_t) (cycle : Z) (inp out : ulpi_bus_t)
  : usb_host_t * ulpi_bus_t :=
  if rst_n inp =? SIG0 then
    let host := if negb (rst_n (host_prev host) =? SIG0) then usbh_reset host else host in
    (host, out <| dir := SIG0 |> <| nxt := SIG0 |>)
  else if cycle mod SOF_N_TICKS =? 0 then
    if host_op_val HostIdle <? host_op_val (host_op host) then (host, out)
    else if host_op_val (host_op host) <? host_op_val HostIdle then (host, out)
    else
      let sof := Z.shiftr (host_sof host) 3 in
      let crc := crc5_calc sof in
      (host <| host_sof := u16 (host_sof host + 1) |> <| host_op := HostSOF |>
            <| host_step := 0 |>
            <| host_xfer := host_xfer host <| type := SOF |> <| tok1 := Z.land crc 0xFF |>
                                           <| tok2 := Z.land (Z.shiftr crc 8) 0xFF |> |>, out)
  else (host, out).

(** The end of [usbh_step], for the operations that [break]. *)
Definition usbh_post (result : Z) (host : usb_host_t) (inp out : ulpi_bus_t) (g : rng)
  : bulk_result :=
  let host := host <| host_prev := inp |> in
  if negb (host_guard host =? GUARDIAN) then Ok (-1, host, out, g) else Ok (result, host, out, g).

Definition usbh_step (host : usb_host_t) (inp out : ulpi_bus_t) (g : rng) : bulk_result :=
  let cycle := host_cycle host in
  let host := host <| host_cycle := u64 (host_cycle host + 1) |> in
  let out := inp in (* memcpy *)
  let '(host, out) := usbh_pre host cycle inp out in
  match host_op host with
  | HostError => usbh_post (-1) (host <| host_step := u32 (host_step host + 1) |>) inp out g
  | HostReset =>
      let host := host <| host_step := u32 (host_step host + 1) |> in
      let step := host_step host in
      if step <? 2 then usbh_post 0 host inp out g
      else if RESET_TICKS <=? step
      then usbh_post 0 (host <| host_op := HostIdle |> <| host_step := 0 |>) inp out g
      else usbh_post 0 host inp out g
  | HostSuspend | HostResume | HostIdle =>
      usbh_post 0 (host <| host_step := u32 (host_step host + 1) |>) inp out g
  | HostSOF =>
      '(result, host, out) ← on_xfer host (token_send_step (host_xfer host) inp out);
      if result =? 1 then usbh_post result (host <| host_op := HostIdle |>) inp out g
      else usbh_post result host inp out g
  | HostSETUP =>
      '(result, host, out) ← stdreq_step host inp out;
      Ok (result, host, out, g)
  | HostBulkOUT => bulk_out_step host inp out g
  | HostBulkIN => bulk_in_step host inp out g
  end.
