(* ===== verification/UsbHostProps.v ===== *)
(** The USB host model: reset and SOF timing, bulk transactions under random
    wait states, time-outs, and memory safety of every step. *)

From S2P Require Import Prelude Gf2 UsbCrc Ulpi UlpiSafe UlpiTrace UlpiRecv StdReq.
From S2P Require Import StdReqProps UsbHost.

#[local] Opaque crc16_calc crc5_calc crc5_check crc16_check.

(** ** Runs of the host *)

(** [usbh_step] over a sequence of bus values, with the results and the bus
    values driven; it goes on whatever the results are. *)
Fixpoint usbh_run (host : usb_host_t) (ins : list ulpi_bus_t) (g : rng)
  : outcome (list Z * list ulpi_bus_t * usb_host_t * rng) :=
  match ins with
  | [] => Ok ([], [], host, g)
  | inp :: ins =>
      '(r, host, out, g) ← usbh_step host inp ulpi_bus_zero g;
      '(rs, outs, host, g) ← usbh_run host ins g;
      Ok (r :: rs, out :: outs, host, g)
  end.

(** [n] steps on a bus that nobody else drives: each step reads what the one
    before has driven. *)
Fixpoint usbh_loop (n : nat) (host : usb_host_t) (inp : ulpi_bus_t) (g : rng)
  : outcome (list Z * list ulpi_bus_t * usb_host_t * rng) :=
  match n with
  | O => Ok ([], [], host, g)
  | S n =>
      '(r, host, out, g) ← usbh_step host inp ulpi_bus_zero g;
      '(rs, outs, host, g) ← usbh_loop n host out g;
      Ok (r :: rs, out :: outs, host, g)
  end.

Lemma usbh_run_app host ins1 ins2 g :
  usbh_run host (ins1 ++ ins2) g =
  ('(rs1, outs1, host, g) ← usbh_run host ins1 g;
   '(rs2, outs2, host, g) ← usbh_run host ins2 g;
   Ok (rs1 ++ rs2, outs1 ++ outs2, host, g)).
Proof.
  revert host g. induction ins1 as [|i ins1 IH]; intros host g; cbn -[usbh_step].
  - by destruct (usbh_run host ins2 g) as [[[[]]]| |].
  - destruct (usbh_step host i ulpi_bus_zero g) as [[[[r h] o] g1]| |]; cbn -[usbh_step]; [|done..].
    rewrite IH. destruct (usbh_run h ins1 g1) as [[[[r1 o1] h1] g2]| |]; cbn -[usbh_step]; [|done..].
    by destruct (usbh_run h1 ins2 g2) as [[[[]]]| |].
Qed.

Definition out_of_reset (inp : ulpi_bus_t) : Prop := rst_n inp <> SIG0.

Definition guarded (host : usb_host_t) : Prop := host_guard host = GUARDIAN.

Lemma usbh_post_guarded r host inp out g :
  guarded host -> usbh_post r host inp out g = Ok (r, host <| host_prev := inp |>, out, g).
Proof. intros H. unfold usbh_post. cbn. by rewrite H. Qed.

(** A busy host, or one in reset, does nothing special at an SOF tick. *)
Lemma usbh_pre_not_idle host c inp out :
  out_of_reset inp -> host_op host <> HostIdle -> usbh_pre host c inp out = (host, out).
Proof.
  intros Hr%Z.eqb_neq Ho. unfold usbh_pre. rewrite Hr.
  destruct (c mod SOF_N_TICKS =? 0); [|done].
  by destruct (host_op host).
Qed.

(** ** Device reset *)

Lemma usbh_reset_step host inp g :
  host_op host = HostReset -> guarded host -> out_of_reset inp -> 0 <= host_step host < 2 ^ 32 - 1 ->
  usbh_step host inp ulpi_bus_zero g =
  Ok (0, (if RESET_TICKS <=? host_step host + 1
          then host <| host_op := HostIdle |> <| host_step := 0 |>
          else host <| host_step := host_step host + 1 |>)
         <| host_cycle := u64 (host_cycle host + 1) |> <| host_prev := inp |>, inp, g).
Proof.
  intros Ho Hg Hr Hs. unfold usbh_step. rewrite usbh_pre_not_idle; [|done|cbn; by rewrite Ho].
  destruct host as [cy op st pv xf sf tu ad ec ln bf gd]. unfold guarded in Hg. cbn in Ho, Hs, Hg |- *. subst op gd.
  rewrite u32_small by lia. unfold usbh_post. cbn -[Z.eqb].
  unfold RESET_TICKS. destruct (Z.ltb_spec (st + 1) 2), (Z.leb_spec 6000 (st + 1)); done || lia.
Qed.

Lemma u64_step c n : u64 (u64 (c + 1) + Z.of_nat n) = u64 (c + Z.of_nat (S n)).
Proof. unfold u64. rewrite Zplus_mod_idemp_l. f_equal. lia. Qed.

Lemma usbh_reset_run ins host g :
  host_op host = HostReset -> guarded host -> Forall out_of_reset ins -> 0 <= host_step host ->
  host_step host + Z.of_nat (length ins) < RESET_TICKS ->
  exists outs host', usbh_run host ins g = Ok (replicate (length ins) 0, outs, host', g) /\
    host_op host' = HostReset /\ guarded host' /\
    host_step host' = host_step host + Z.of_nat (length ins) /\
    u64 (host_cycle host') = u64 (host_cycle host + Z.of_nat (length ins)) /\
    host_sof host' = host_sof host /\ host_xfer host' = host_xfer host.
Proof.
  unfold RESET_TICKS. revert host. induction ins as [|i ins IH]; intros host Ho Hg Hi Hs Hn.
  { exists [], host. cbn. by rewrite !Z.add_0_r. }
  inversion_clear Hi as [|? ? Hi1 Hi2]. cbn [length] in Hn |- *. cbn [usbh_run].
  rewrite usbh_reset_step by (done || lia). unfold RESET_TICKS.
  rewrite (proj2 (Z.leb_gt 6000 (host_step host + 1))) by lia. cbn [mbind outcome_bind].
  edestruct IH as (outs & host' & -> & H1 & H2 & H3 & H4 & H5 & H6);
    [exact Ho|exact Hg|exact Hi2|cbn; lia|cbn; lia|].
  cbn [mbind outcome_bind]. exists (i :: outs), host'. split; [done|].
  split; [done|]. split; [done|]. cbn in H3, H4. rewrite H3, H4, u64_step. split; [lia|]. done.
Qed.

(** Device reset: after [usbh_init], whatever the link drives while RST# is
    high, the host stays in reset for 5,999 steps and is idle after exactly
    6,000; every step returns 0, and neither the transfer nor the frame counter
    changes although SOF ticks pass. *)
Lemma usbh_reset_duration mem buf ins g :
  Forall out_of_reset ins -> Z.of_nat (length ins) <= RESET_TICKS ->
  exists outs host, usbh_run (usbh_init mem buf) ins g = Ok (replicate (length ins) 0, outs, host, g) /\
    host_op host = (if Z.of_nat (length ins) <? RESET_TICKS then HostReset else HostIdle) /\
    host_sof host = 0 /\ host_xfer host = transfer_zero /\
    u64 (host_cycle host) = Z.of_nat (length ins).
Proof.
  intros Hi Hn. unfold RESET_TICKS in *. destruct (Z.ltb_spec (Z.of_nat (length ins)) 6000) as [Hlt|Hge].
  - destruct (usbh_reset_run ins (usbh_init mem buf) g) as (outs & host & H & H1 & _ & _ & H2 & H3 & H4);
      [done|done|done|done|cbn; unfold RESET_TICKS; lia|].
    exists outs, host. split; [done|]. split; [done|]. split; [done|]. split; [done|].
    rewrite H2. cbn. apply u64_small. lia.
  - destruct (exists_last (l := ins)) as (ins' & i & ->); [by intros ->; cbn in Hge; lia|].
    rewrite length_app in Hn, Hge |- *. cbn in Hn, Hge |- *.
    apply Forall_app in Hi as [Hi' Hi]. inversion_clear Hi as [|? ? Hi1 _].
    destruct (usbh_reset_run ins' (usbh_init mem buf) g) as (outs & host & H & H1 & Hg & Hs & H2 & H3 & H4);
      [done|done|done|done|cbn; unfold RESET_TICKS; lia|].
    rewrite usbh_run_app, H. cbn [mbind outcome_bind usbh_run]. cbn in Hs.
    rewrite usbh_reset_step by (done || lia).
    rewrite (proj2 (Z.leb_le RESET_TICKS _)) by (unfold RESET_TICKS; lia). cbn [mbind outcome_bind].
    do 2 eexists. split; [by rewrite replicate_add|]. cbn. split; [done|]. split; [done|].
    split; [done|]. unfold u64 in *. rewrite Z.mod_mod, <- Zplus_mod_idemp_l, H2 by lia. cbn.
    rewrite Zplus_mod_idemp_l. rewrite Z.mod_small by lia. lia.
Qed.

(** ** Start of frame *)

(** The transfer of an SOF, and its token. *)
Definition sof_xfer (host : usb_host_t) : transfer_t :=
  let crc := crc5_calc (Z.shiftr (host_sof host) 3) in
  host_xfer host <| type := SOF |> <| tok1 := Z.land crc 0xFF |>
                 <| tok2 := Z.land (Z.shiftr crc 8) 0xFF |>.

Lemma sof_token_word host : token_word (sof_xfer host) = crc5_calc (Z.shiftr (host_sof host) 3).
Proof.
  unfold token_word. cbn -[crc5_calc Z.land Z.shiftr Z.shiftl].
  rewrite <- (tok_bytes_join (crc5_calc _)) at 3 by apply crc5_calc_bounds.
  unfold u8. change 0xFF with (Z.ones 8). by rewrite !(Z.land_ones _ 8) by lia.
Qed.

(** A host that is sending an SOF with transfer [x]. *)
Record sof_state (host : usb_host_t) (x : transfer_t) : Prop := {
  sof_op : host_op host = HostSOF;
  sof_guarded : guarded host;
  sof_transfer : host_xfer host = x;
}.

(** What the host does with the result of a token step during an SOF. *)
Definition sof_after (host : usb_host_t) (r : Z) (x : transfer_t) (host' : usb_host_t) : Prop :=
  guarded host' /\ host_xfer host' = x /\ host_sof host' = host_sof host /\
  host_op host' = if r =? 1 then HostIdle else HostSOF.

Lemma usbh_sof_step host x inp g r x' o :
  sof_state host x -> out_of_reset inp -> token_send_step x inp inp = Ok (r, x', o) ->
  exists host', usbh_step host inp ulpi_bus_zero g = Ok (r, host', o, g) /\ sof_after host r x' host'.
Proof.
  intros [Ho Hg Hx] Hr Ht. unfold usbh_step. rewrite usbh_pre_not_idle; [|done|cbn; by rewrite Ho].
  destruct host as [cy op st pv xf sf tu ad ec ln bf gd]. unfold guarded in Hg. cbn in Ho, Hg, Hx.
  subst op gd x. cbn -[token_send_step]. rewrite Ht. cbn -[Z.eqb].
  unfold usbh_post. destruct (r =? 1) eqn:E; cbn -[Z.eqb].
  all: eexists; split; [reflexivity|]; unfold sof_after; by rewrite E.
Qed.

Lemma usbh_sof_tick host inp g r x' o :
  host_op host = HostIdle -> guarded host -> host_cycle host mod SOF_N_TICKS = 0 ->
  out_of_reset inp -> token_send_step (sof_xfer host) inp inp = Ok (r, x', o) ->
  exists host', usbh_step host inp ulpi_bus_zero g = Ok (r, host', o, g) /\
    guarded host' /\ host_xfer host' = x' /\ host_sof host' = u16 (host_sof host + 1) /\
    host_op host' = if r =? 1 then HostIdle else HostSOF.
Proof.
  intros Ho Hg Hc%Z.eqb_eq Hr%Z.eqb_neq Ht. unfold usbh_step, usbh_pre. rewrite Hr, Hc.
  destruct host as [cy op st pv xf sf tu ad ec ln bf gd]. unfold guarded, sof_xfer in *.
  cbn in Ho, Hg. subst op gd. cbn -[token_send_step Z.eqb]. cbn -[token_send_step] in Ht.
  change (3 <? 3) with false. cbv iota. cbn -[token_send_step]. rewrite Ht. cbn -[Z.eqb].
  unfold usbh_post. destruct (r =? 1) eqn:E; cbn -[Z.eqb]; eexists; split; [reflexivity|done..].
Qed.

(** A token step run on a bus that nobody else drives. *)
Fixpoint token_loop (n : nat) (x : transfer_t) (inp : ulpi_bus_t)
  : outcome (list Z * list ulpi_bus_t * transfer_t) :=
  match n with
  | O => Ok ([], [], x)
  | S n =>
      '(r, x, o) ← token_send_step x inp inp;
      '(rs, outs, x) ← token_loop n x o;
      Ok (r :: rs, o :: outs, x)
  end.

Lemma token_send_rst x inp r x' o :
  token_send_step x inp inp = Ok (r, x', o) -> rst_n o = rst_n inp.
Proof.
  unfold token_send_step, drive_eop, c_assert. intros H.
  repeat (case_match; simplify_eq; try done; cbn in H).
  all: by injection H as <- <- <-.
Qed.

Lemma token_loop_inv n x inp rs outs x' :
  token_loop (S n) x inp = Ok (rs, outs, x') ->
  exists r rs' x1 o outs', rs = r :: rs' /\ outs = o :: outs' /\
    token_send_step x inp inp = Ok (r, x1, o) /\ token_loop n x1 o = Ok (rs', outs', x').
Proof.
  cbn [token_loop]. destruct (token_send_step x inp inp) as [[[r x1] o]| |];
    cbn [mbind outcome_bind]; [|done..].
  destruct (token_loop n x1 o) as [[[rs' outs'] x2]| |] eqn:E'; cbn [mbind outcome_bind]; [|done..].
  intros [= <- <- <-]. by do 5 eexists.
Qed.

Lemma usbh_loop_cons n host inp g r h o g' :
  usbh_step host inp ulpi_bus_zero g = Ok (r, h, o, g') ->
  usbh_loop (S n) host inp g =
  ('(rs, outs, host, g) ← usbh_loop n h o g'; Ok (r :: rs, o :: outs, host, g)).
Proof. intros H. cbn [usbh_loop]. by rewrite H. Qed.

Lemma usbh_sof_loop n host x inp g outs x' :
  sof_state host x -> out_of_reset inp ->
  token_loop (S n) x inp = Ok (replicate n 0 ++ [1], outs, x') ->
  exists host', usbh_loop (S n) host inp g = Ok (replicate n 0 ++ [1], outs, host', g) /\
    host_op host' = HostIdle /\ host_xfer host' = x' /\ host_sof host' = host_sof host.
Proof.
  revert host x inp outs. induction n as [|n IH]; intros host x inp outs Hs Hr H;
    apply token_loop_inv in H as (r & rs & x1 & o & outs' & Hrs & -> & E & E');
    destruct (usbh_sof_step host x inp g _ _ _ Hs Hr E) as (h & Hh & H1 & H2 & H3 & H4);
    rewrite (usbh_loop_cons _ _ _ _ _ _ _ _ Hh); cbn [mbind outcome_bind].
  - injection Hrs as <- <-. injection E' as <- <-. by exists h.
  - injection Hrs as <- <-. apply token_send_rst in E.
    destruct (IH h x1 o outs') as (h' & H & H5 & H6 & H7).
    + by split.
    + unfold out_of_reset. by rewrite E.
    + exact E'.
    + rewrite H. cbn [mbind outcome_bind]. exists h'. by rewrite H7.
Qed.

Definition bus_quiet : ulpi_bus_t := phy_bus SIG0 SIG0 0x00 0x00.

Lemma sof_token_loop x :
  type x = SOF -> stage x = NoXfer ->
  token_loop 9 x bus_quiet =
  Ok (replicate 8 0 ++ [1], packet_trace [0xA5; tok1 x; tok2 x], x <| type := XferIdle |>).
Proof.
  intros Ht Hs. destruct x as [ad ep t s sq cy tx tl tp rx rl rp t1 t2 c1 c2].
  cbn in Ht, Hs. subst t s. reflexivity.
Qed.

(** C32.  Start of frame: an idle host whose cycle counter is at a multiple of 1500
    sends, on a quiet bus and in exactly nine steps, the SOF PID and a token
    with a valid CRC5 whose payload is the low 11 bits of the frame number
    [sof >> 3]; it counts one microframe and is idle again. *)
Theorem sof_transaction host g :
  host_op host = HostIdle -> guarded host -> host_cycle host mod SOF_N_TICKS = 0 ->
  0 <= host_sof host < 2 ^ 16 -> stage (host_xfer host) = NoXfer ->
  exists outs host' t1 t2,
    usbh_loop 9 host bus_quiet g = Ok (replicate 8 0 ++ [1], outs, host', g) /\
    received outs = [0xA5; t1; t2] /\
    let w := Z.lor t1 (Z.shiftl t2 8) in
    crc5_check w = true /\ Z.land w 0x07FF = Z.shiftr (host_sof host) 3 mod 2 ^ 11 /\
    host_sof host' = u16 (host_sof host + 1) /\ host_op host' = HostIdle /\
    host_xfer host' = sof_xfer host <| type := XferIdle |>.
Proof.
  intros Ho Hg Hc Hsof Hst.
  destruct (token_loop_inv 8 _ _ _ _ _ (sof_token_loop (sof_xfer host) eq_refl Hst))
    as (r & rs & x1 & o & outs & Hrs & Houts & E & E').
  injection Hrs as <- <-.
  destruct (usbh_sof_tick host bus_quiet g 0 x1 o Ho Hg Hc ltac:(done) E) as (h & Hh & H1 & H2 & H3 & H4).
  destruct (usbh_sof_loop 7 h x1 o g outs (sof_xfer host <| type := XferIdle |>)) as (h' & Hh' & H5 & H6 & H7).
  { by split. }
  { apply token_send_rst in E. unfold out_of_reset. by rewrite E. }
  { exact E'. }
  rewrite (usbh_loop_cons 8 _ _ _ _ _ _ _ Hh), Hh'. cbn [mbind outcome_bind].
  exists (o :: outs), h', (tok1 (sof_xfer host)), (tok2 (sof_xfer host)).
  split; [done|]. rewrite <- Houts. split; [apply received_packet|]. cbv zeta.
  change (Z.lor _ _) with (token_word (sof_xfer host)). rewrite sof_token_word.
  rewrite crc5_calc_payload. change 0x07FF with (Z.ones 11). rewrite Z.land_ones by lia.
  split; [|by rewrite H7, H3]. apply crc5_check_calc. rewrite Z.shiftr_div_pow2 by lia.
  split; [apply Z.div_pos; lia|]. apply Z.div_lt_upper_bound; lia.
Qed.

(** ** What a step leaves alone *)

(** The result of a bulk step keeps the host apart from its transfer. *)
Definition only_xfer (host : usb_host_t) (m : bulk_result) : Prop :=
  match m with Ok (_, host', _, _) => exists x, host' = host <| host_xfer := x |> | _ => True end.

Ltac bulk_step :=
  repeat first
    [ progress cbn [mbind outcome_bind only_xfer]
    | progress cbv zeta
    | match goal with
      | |- True => exact I
      | |- exists x, ?h <| host_xfer := ?y |> = _ => exists y; reflexivity
      | |- only_xfer _ ((if ?b then _ else _) ≫= _) => destruct b
      | |- only_xfer _ (if ?b then _ else _) => destruct b
      | |- only_xfer _ (let '(_, _) := ?m in _) => destruct m
      | |- only_xfer _ (?m ≫= _) => destruct m as [[[]]| |]
      | |- only_xfer _ (?m ≫= _) => destruct m
      end ].

Lemma bulk_out_only host inp out g : only_xfer host (bulk_out_step host inp out g).
Proof. unfold bulk_out_step. destruct (type (host_xfer host)); bulk_step. Qed.

Lemma bulk_in_only host inp out g : only_xfer host (bulk_in_step host inp out g).
Proof. unfold bulk_in_step. destruct (type (host_xfer host)); bulk_step. Qed.

(** A transaction of the host, as opposed to reset, idle and SOF. *)
Definition transaction (op : host_op_t) : bool :=
  match op with HostSETUP | HostBulkOUT | HostBulkIN => true | _ => false end.

Lemma usbh_transaction_step host inp out g r host' out' g' :
  transaction (host_op host) = true -> out_of_reset inp ->
  usbh_step host inp out g = Ok (r, host', out', g') ->
  exists x, host' = host <| host_cycle := u64 (host_cycle host + 1) |> <| host_xfer := x |>.
Proof.
  intros Ht Hr. unfold usbh_step.
  rewrite usbh_pre_not_idle; [|done|cbn; by intros E; rewrite E in Ht].
  set (h := host <| host_cycle := _ |>).
  assert (Ho : host_op h = host_op host) by reflexivity. rewrite Ho.
  destruct (host_op host); try discriminate Ht.
  - destruct (stdreq_step h inp inp) as [[[r1 h1] o1]| |] eqn:E; cbn [mbind outcome_bind]; [|done..].
    intros [= <- <- <- <-]. apply stdreq_step_result in E as (_ & _ & [-> | (x & o & _ & ->)]).
    + exists (host_xfer h). by destruct host.
    + by exists x.
  - intros E. pose proof (bulk_out_only h inp inp g) as Ho'. rewrite E in Ho'. exact Ho'.
  - intros E. pose proof (bulk_in_only h inp inp g) as Ho'. rewrite E in Ho'. exact Ho'.
Qed.

(** A transaction is never cancelled: while RST# is high, a step of a host
    that is executing a SETUP or bulk transaction changes only the cycle
    counter and the transfer, at the SOF ticks too, where the code reports
    "Transaction cancelled for SOF"; no SOF is sent and no microframe counted. *)
Theorem transaction_not_cancelled host ins g rs outs host' g' :
  transaction (host_op host) = true -> Forall out_of_reset ins ->
  usbh_run host ins g = Ok (rs, outs, host', g') ->
  host_op host' = host_op host /\ host_sof host' = host_sof host /\
  host_step host' = host_step host /\ host_addr host' = host_addr host /\
  u64 (host_cycle host') = u64 (host_cycle host + Z.of_nat (length ins)).
Proof.
  revert host g rs outs. induction ins as [|i ins IH]; intros host g rs outs Ht Hi; cbn [usbh_run].
  { intros [= <- <- <- <-]. by rewrite Z.add_0_r. }
  inversion_clear Hi as [|? ? Hi1 Hi2].
  destruct (usbh_step host i ulpi_bus_zero g) as [[[[r1 h1] o1] g1]| |] eqn:E;
    cbn [mbind outcome_bind]; [|done..].
  apply usbh_transaction_step in E as [x ->]; [|done|done].
  destruct (usbh_run _ ins g1) as [[[[rs1 os1] h2] g2]| |] eqn:E2; cbn [mbind outcome_bind]; [|done..].
  intros [= <- <- <- <-]. apply IH in E2 as (H1 & H2 & H3 & H4 & H5); [|done|done].
  rewrite H1, H2, H3, H4, H5. repeat (split; [done|]). cbn [length]. apply u64_step.
Qed.

(** ** Time-outs *)

(** Waiting for the ACK of a bulk OUT transaction. *)
Record awaits_ack (host : usb_host_t) : Prop := {
  ack_op : host_op host = HostBulkOUT;
  ack_type : type (host_xfer host) = UpACK;
  ack_stage : stage (host_xfer host) = NoXfer;
}.

Lemma idle_out_of_reset inp : ulpi_bus_is_idle inp = true -> out_of_reset inp.
Proof.
  unfold ulpi_bus_is_idle. rewrite !andb_true_iff. intros [[[[[H%Z.eqb_eq _] _] _] _] _].
  unfold out_of_reset. by rewrite H.
Qed.

(** What the link receives while it has the bus itself: nothing. *)
Lemma received_app t1 t2 : received (t1 ++ t2) = received t1 ++ received t2.
Proof. unfold received. by rewrite List.filter_app, map_app. Qed.

Lemma received_skip o outs : is_rx_byte o = false -> received (o :: outs) = received outs.
Proof. unfold received. cbn. by intros ->. Qed.

Lemma idle_no_byte inp : dir inp = SIG0 -> is_rx_byte inp = false.
Proof. intros H. unfold is_rx_byte. by rewrite H. Qed.

Lemma is_idle_dir inp : ulpi_bus_is_idle inp = true -> dir inp = SIG0 /\ out_of_reset inp.
Proof.
  intros H. split; [|by apply idle_out_of_reset]. unfold ulpi_bus_is_idle in H.
  rewrite !andb_true_iff in H. destruct H as [[[_ H] _] _]. by apply Z.eqb_eq.
Qed.

Lemma idle_received inp : ulpi_bus_is_idle inp = true -> is_rx_byte inp = false.
Proof. intros H. by apply idle_no_byte, is_idle_dir. Qed.

Lemma awaits_ack_step host inp g :
  awaits_ack host -> out_of_reset inp ->
  usbh_step host inp ulpi_bus_zero g =
  (let h := host <| host_cycle := u64 (host_cycle host + 1) |> in
   if xcycle (host_xfer host) <=? host_cycle h
   then Ok (1, h <| host_xfer := host_xfer host <| type := XferIdle |> |>, inp, g)
   else '(r, x, o) ← ack_recv_step (host_xfer host) inp inp;
        Ok (r, h <| host_xfer := if 0 <? r then x <| type := XferIdle |> <| stage := NoXfer |> else x |>,
            o, g)).
Proof.
  intros [Ho Ht Hs] Hr. unfold usbh_step.
  rewrite usbh_pre_not_idle; [|done|cbn; by rewrite Ho].
  destruct host as [cy op st pv xf sf tu ad ec ln bf gd]. cbn in Ho, Ht, Hs. subst op.
  cbn -[u64 ack_recv_step]. unfold bulk_out_step. cbn -[u64 ack_recv_step]. rewrite Ht. cbn -[u64 ack_recv_step].
  destruct (xcycle xf <=? u64 (cy + 1)).
  - destruct xf. cbn in Hs. subst. done.
  - destruct (ack_recv_step xf inp inp) as [[[r x] o]| |]; [|done..]. cbn -[u64].
    by destruct (0 <? r).
Qed.

Lemma ack_recv_idle x inp :
  type x = UpACK -> stage x = NoXfer -> ulpi_bus_is_idle inp = true ->
  ack_recv_step x inp inp = Ok (0, x, inp).
Proof. intros Ht Hs Hi. unfold ack_recv_step. by rewrite Ht, Hs, Hi. Qed.

Lemma ack_wait_run ins host g :
  awaits_ack host -> Forall (fun inp => ulpi_bus_is_idle inp = true) ins ->
  0 <= host_cycle host -> host_cycle host + Z.of_nat (length ins) < xcycle (host_xfer host) ->
  xcycle (host_xfer host) < 2 ^ 32 ->
  exists outs host', usbh_run host ins g = Ok (replicate (length ins) 0, outs, host', g) /\
    awaits_ack host' /\ host_xfer host' = host_xfer host /\
    host_cycle host' = host_cycle host + Z.of_nat (length ins) /\
    host_addr host' = host_addr host /\ received outs = [].
Proof.
  revert host. induction ins as [|j ins IH]; intros host Hw Hi Hc Hd Hlt.
  { exists [], host. cbn. by rewrite Z.add_0_r. }
  inversion_clear Hi as [|? ? Hi1 Hi2]. cbn [length] in Hd |- *. cbn [usbh_run].
  rewrite awaits_ack_step by (auto using idle_out_of_reset). cbv zeta.
  pose proof Hw as [Ho Ht Hs]. rewrite ack_recv_idle by done. cbn [mbind outcome_bind].
  rewrite (proj2 (Z.leb_gt _ _)) by (cbn; rewrite u64_small by lia; lia). cbn [mbind outcome_bind].
  edestruct IH as (outs & host' & -> & H1 & H2 & H3 & H4 & H5);
    [by split|exact Hi2|cbn; rewrite u64_small by lia; lia..|cbn; lia|].
  cbn [mbind outcome_bind]. exists (j :: outs), host'. split; [done|]. split; [done|].
  split; [done|]. split; [rewrite H3; cbn; rewrite u64_small by lia; lia|].
  split; [done|]. by rewrite received_skip by by apply idle_received.
Qed.

(** Handshake time-out: a bulk OUT transaction that waits for its ACK keeps
    waiting on an idle bus until the host's cycle counter reaches the transfer's
    deadline; that step and no earlier one returns 1 and ends the transfer,
    without toggling the sequence bit. *)
Lemma bulk_out_timeout host ins i g :
  awaits_ack host -> Forall (fun inp => ulpi_bus_is_idle inp = true) (ins ++ [i]) ->
  0 <= host_cycle host -> xcycle (host_xfer host) < 2 ^ 32 ->
  host_cycle host + Z.of_nat (length ins) + 1 = xcycle (host_xfer host) ->
  exists outs host', usbh_run host (ins ++ [i]) g = Ok (replicate (length ins) 0 ++ [1], outs, host', g) /\
    host_cycle host' = xcycle (host_xfer host) /\
    host_xfer host' = host_xfer host <| type := XferIdle |> /\
    host_addr host' = host_addr host /\ received outs = [].
Proof.
  intros Hw [Hi Hi1]%Forall_app Hc Hlt Hd. inversion_clear Hi1 as [|? ? Hi2 _].
  destruct (ack_wait_run ins host g Hw Hi Hc ltac:(lia) Hlt) as (outs & h & H & Hw' & Hx & Hcy & Ha & Hn).
  rewrite usbh_run_app, H. cbn [mbind outcome_bind usbh_run].
  rewrite awaits_ack_step by (auto using idle_out_of_reset). cbv zeta. rewrite Hx.
  rewrite (proj2 (Z.leb_le _ _)) by (cbn; rewrite u64_small by lia; lia). cbn [mbind outcome_bind].
  do 2 eexists. split; [reflexivity|]. cbn. rewrite u64_small by lia.
  split; [lia|]. split; [done|]. split; [done|]. by rewrite received_app, Hn, received_skip by by apply idle_received.
Qed.

(** The deadline is a [uint32_t] and the cycle counter a [uint64_t]: from
    cycle 2^32 - 1 on every handshake wait ends in its first step, with a result
    of 1 and no toggle, even when the bus carries the ACK. *)
Theorem bulk_out_timeout_overflow host inp g :
  awaits_ack host -> out_of_reset inp ->
  0 <= xcycle (host_xfer host) < 2 ^ 32 -> 2 ^ 32 - 1 <= host_cycle host < 2 ^ 64 - 1 ->
  exists host', usbh_step host inp ulpi_bus_zero g = Ok (1, host', inp, g) /\
    host_xfer host' = host_xfer host <| type := XferIdle |>.
Proof.
  intros Hw Hr Hx Hc. rewrite awaits_ack_step by done. cbv zeta.
  rewrite (proj2 (Z.leb_le _ _)) by (cbn; rewrite u64_small by lia; lia).
  by eexists.
Qed.

(** ** Memory safety *)

(** Room in the host's transfer, and bytes on the bus. *)
Definition ready_for (x : transfer_t) (inp : ulpi_bus_t) : Prop :=
  tx_room x /\ rx_room x /\ is_byte (data_a inp).

Definition host_post (res : Z * usb_host_t * ulpi_bus_t * rng) : Prop :=
  let '(r, host, _, _) := res in -3 <= r <= 1 /\ wf_xfer (host_xfer host).

Lemma ready_set_stage x inp t : ready_for x inp -> ready_for (x <| type := t |> <| stage := NoXfer |>) inp.
Proof. intros (_ & _ & H). by split. Qed.

Lemma enter_type_ok x inp t :
  wf_xfer x -> ready_for x inp -> wf_xfer (enter_type x t) /\ ready_for (enter_type x t) inp.
Proof.
  intros Hw Hr. unfold enter_type. destruct (type_eqb _ _); [done|].
  split; [auto with wf|by apply ready_set_stage].
Qed.

Lemma stdreq_phase_safe host inp out m :
  wf_xfer (host_xfer host) -> ready_for (host_xfer host) inp ->
  stdreq_phase host inp out = Some m -> safe step_post m.
Proof.
  intros Hw Hr. set (x := host_xfer host) in *.
  assert (He : forall t, wf_xfer (enter_type x t) /\ ready_for (enter_type x t) inp)
    by (intros t; by apply enter_type_ok).
  pose proof Hr as (Ht & Hx & Hb).
  unfold stdreq_phase. cbv zeta. fold x. intros H. repeat case_match; simplify_eq.
  all: try (destruct (He UpACK) as [? _]; by apply ack_recv_step_safe).
  all: try (destruct (He DnACK) as [? _]; by apply ack_send_step_safe).
  all: try (destruct (He IN) as [? _]; by apply token_send_step_safe).
  all: try (destruct (He OUT) as [? _]; by apply token_send_step_safe).
  all: try (by apply token_send_step_safe).
  all: try (by apply datax_send_step_safe).
  all: try (by apply datax_recv_step_safe).
  - apply safe_assert. intros _.
    apply datax_send_step_safe; [by apply wf_set_stage, wf_set_type|done].
  - apply datax_recv_step_safe; [|done..]. apply wf_set_rx_ptr; [lia|].
    by apply wf_set_rx_len, wf_set_stage, wf_set_type.
  - apply datax_send_step_safe; [|done]. apply wf_set_tx_len; [lia|].
    by apply wf_set_stage, wf_set_type.
Qed.

Lemma stdreq_step_safe host inp out :
  wf_xfer (host_xfer host) -> ready_for (host_xfer host) inp ->
  safe (fun '(r, host, _) => -3 <= r <= 1 /\ wf_xfer (host_xfer host)) (stdreq_step host inp out).
Proof.
  intros Hw Hr. unfold stdreq_step. destruct (stdreq_phase host inp out) as [m|] eqn:E.
  2: { cbn. split; [lia|done]. }
  apply stdreq_phase_safe in E; [|done|done].
  destruct m as [[[r x] o]| |]; cbn in E |- *; [|done..]. destruct E as [E1 E2].
  destruct (r <? 0); [done|]. destruct (Z.ltb_spec 1 r); [lia|]. done.
Qed.

Lemma seq_type_safe x t0 t1 : wf_xfer x -> safe (fun _ => True) (seq_type x t0 t1).
Proof. intros []. unfold seq_type. repeat safe_step; lia || done. Qed.

Lemma ret_post host x r out g :
  -3 <= r <= 1 -> wf_xfer x -> safe host_post (Ok (r, host <| host_xfer := x |>, out, g)).
Proof. by intros. Qed.

(** Runs the packet step of a bulk step and keeps what it promises. *)
Ltac bulk_packet H :=
  eapply safe_bind; [exact H|]; intros [[? ?] ?] [? ?]; cbn beta iota.

Ltac bulk_done := apply ret_post; [lia|auto 8 with wf].

Lemma bulk_out_step_safe host inp out g :
  wf_xfer (host_xfer host) -> ready_for (host_xfer host) inp ->
  safe host_post (bulk_out_step host inp out g).
Proof.
  intros Hw (Ht & _ & Hb). unfold bulk_out_step. cbv zeta.
  assert (Hdata : forall g, safe host_post
    ('(result, xfer, out) ← datax_send_step (host_xfer host) inp out;
     if result <? 0 then Ok (result, host <| host_xfer := xfer |>, out, g)
     else if 0 <? result then
       Ok (0, host <| host_xfer := xfer <| type := UpACK |> <| stage := NoXfer |>
                                        <| xcycle := turnaround_deadline host |> |>, out, g)
     else Ok (0, host <| host_xfer := xfer |>, out, g))).
  { intros g'. bulk_packet (datax_send_step_safe _ inp out Hw Ht). repeat safe_step; bulk_done. }
  destruct (type (host_xfer host)); try bulk_done.
  - bulk_packet (token_send_step_safe _ inp out Hw). repeat safe_step; try bulk_done.
    eapply safe_bind; [by apply seq_type_safe|]. intros t' _. bulk_done.
  - destruct (if _ && _ then rand_wait g else _) as [[] g']; [bulk_done|apply Hdata].
  - destruct (if _ && _ then rand_wait g else _) as [[] g']; [bulk_done|apply Hdata].
  - safe_step; [bulk_done|]. bulk_packet (ack_recv_step_safe _ inp out Hw). repeat safe_step; bulk_done.
Qed.

Lemma bulk_in_step_safe host inp out g :
  wf_xfer (host_xfer host) -> ready_for (host_xfer host) inp ->
  safe host_post (bulk_in_step host inp out g).
Proof.
  intros Hw (_ & Hr & Hb). unfold bulk_in_step. cbv zeta.
  assert (Hdata : safe host_post
    ('(result, xfer, out) ← datax_recv_step (host_xfer host) inp out;
     if (rx_ptr xfer =? 0) && (xcycle xfer <=? host_cycle host) then
       Ok (0, host <| host_xfer := xfer <| type := TimeOut |> |>, out, g)
     else if result <? -2 then
       Ok (0, host <| host_xfer := xfer <| type := TimeOut |>
                                        <| xcycle := turnaround_deadline host |> |>, out, g)
     else if result <? 0 then Ok (result, host <| host_xfer := xfer |>, out, g)
     else if 0 <? result then
       Ok (0, host <| host_xfer := xfer <| type := DnACK |> <| stage := NoXfer |> |>, out, g)
     else
       let '(wait, g) :=
         if (0 <? rx_ptr xfer) && (nxt out =? SIG1) then rand_wait g else (false, g) in
       Ok (0, host <| host_xfer := xfer |>, if wait then out <| nxt := SIG0 |> else out, g))).
  { bulk_packet (datax_recv_step_safe _ inp out Hw Hr Hb). repeat safe_step; try bulk_done.
    destruct (if _ && _ then rand_wait g else _) as [w g']. bulk_done. }
  destruct (type (host_xfer host)); try bulk_done; try exact Hdata.
  - bulk_packet (token_send_step_safe _ inp out Hw). repeat safe_step; try bulk_done.
    eapply safe_bind; [by apply seq_type_safe|]. intros t' _. bulk_done.
  - bulk_packet (ack_send_step_safe _ inp out Hw). safe_step; [|bulk_done].
    eapply safe_bind; [by apply transfer_ack_safe|]. intros x' Hx'. bulk_done.
  - safe_step; [bulk_done|]. unfold bulk_in_timeout_step.
    assert (Hm : safe step_post (if stage_eqb (stage (host_xfer host)) DATAxBody
      then c_assert ((dir inp =? SIG0) && (data_b inp =? 0x00));; recv_body (host_xfer host) inp out
      else drive_eop (host_xfer host) inp out)).
    { destruct (stage_eqb _ _) eqn:E; [|by apply drive_eop_safe].
      apply safe_assert. intros _. apply recv_body_safe; try done. apply Hr.
      destruct (stage (host_xfer host)); done. }
    destruct (if stage_eqb _ _ then _ else _) as [[[r x] o]| |]; cbn in Hm |- *; [|done..].
    destruct Hm as [Hm1 Hm2]. destruct (r <? 0); cbn; (split; [lia|done || by apply wf_set_type]).
Qed.

(** Memory safety of the host: from a well-formed transfer with room for the
    byte to fetch or to store, whatever the host is doing and whatever the bus
    carries, [usbh_step] never leaves an array, returns a code between -3 and 1,
    and keeps the transfer well formed. *)
Lemma usbh_step_post host inp out g :
  wf_xfer (host_xfer host) -> ready_for (host_xfer host) inp ->
  safe host_post (usbh_step host inp out g).
Proof.
  intros Hw Hr. unfold usbh_step. cbv zeta.
  set (h := host <| host_cycle := _ |>).
  assert (Hpre : wf_xfer (host_xfer (usbh_pre h (host_cycle host) inp inp).1) /\
                 ready_for (host_xfer (usbh_pre h (host_cycle host) inp inp).1) inp).
  { unfold usbh_pre. destruct (rst_n inp =? SIG0).
    - destruct (negb _); cbn; [|done]. split; [apply wf_zero|]. split; [discriminate|]. split; [discriminate|apply Hr].
    - destruct (_ =? 0); [|done]. destruct (_ <? _); [done|]. destruct (_ <? _); [done|]. cbn.
      split; [|done]. apply (wf_set_tok (host_xfer host <| type := SOF |>)); [apply land_ff_byte..|].
      by apply wf_set_type. }
  destruct (usbh_pre h (host_cycle host) inp inp) as [h' o]. cbn in Hpre. destruct Hpre as [Hw' Hr'].
  assert (Hpost : forall r x, -3 <= r <= 1 -> wf_xfer (host_xfer x) -> forall o g,
    safe host_post (usbh_post r x inp o g)).
  { intros r x Hr0 Hx o' g'. unfold usbh_post. destruct (negb _); cbn; (split; [lia|done]). }
  destruct (host_op h').
  - by apply Hpost.
  - repeat safe_step; by apply Hpost.
  - by apply Hpost.
  - by apply Hpost.
  - by apply Hpost.
  - pose proof (token_send_step_safe (host_xfer h') inp o Hw') as Ht.
    destruct (token_send_step (host_xfer h') inp o) as [[[r x] o']| |]; cbn in Ht |- *; [|done..].
    destruct Ht as [Ht1 Ht2]. destruct (r =? 1); by apply Hpost.
  - pose proof (stdreq_step_safe h' inp o Hw' Hr') as Hs.
    by destruct (stdreq_step h' inp o) as [[[r x] o']| |].
  - by apply bulk_out_step_safe.
  - by apply bulk_in_step_safe.
Qed.

(** ** Bulk OUT data under random wait states *)

(** What the host drives in a wait state: an RX CMD instead of the next byte. *)
Definition wait_bus (inp : ulpi_bus_t) : ulpi_bus_t := inp <| nxt := SIG0 |> <| data_a := 0x5D |>.

(** A wait state may come only where the packet step starts its output afresh. *)
Definition wait_inv (x : transfer_t) (inp : ulpi_bus_t) : Prop :=
  is_down_data (type x) = true /\ 0 <= tx_ptr x /\
  match stage x with
  | NoXfer | InitRXCMD => nxt inp <> SIG1
  | AssertDir | DATAxPID | DATAxBody => True
  | _ => tx_len x <= tx_ptr x
  end.

Definition may_wait (x : transfer_t) (inp : ulpi_bus_t) : bool :=
  (tx_ptr x <? tx_len x) && (nxt inp =? SIG1).

Lemma wait_absorbed x inp r x' o :
  wait_inv x inp -> may_wait x inp = true -> datax_send_step x inp inp = Ok (r, x', o) -> 0 <= r ->
  datax_send_step x (wait_bus inp) (wait_bus inp) = Ok (r, x', o).
Proof.
  intros (Ht & _ & Hs) [Hl%Z.ltb_lt Hn%Z.eqb_eq]%andb_true_iff.
  unfold datax_send_step. cbv zeta.
  destruct inp as [cl rs di st nx [da db]]. cbn in Hn. subst nx. cbn [nxt] in Hs.
  destruct (check_seq x _) as [[]| |]; cbn [mbind outcome_bind negb]; [|intros [= <- <- <-]; lia|done..].
  destruct (stage x) eqn:E; try (exfalso; first [lia|by apply Hs]).
  all: destruct (type x); try discriminate Ht; intros H _; exact H.
Qed.

(** Splits the equation of a step into its branches. *)
Ltac split_step H :=
  repeat match type of H with
  | context [if ?b then _ else _] => destruct b eqn:?; cbn -[Z.add] in H
  | context [read_at ?l ?i] => destruct (read_at l i); cbn -[Z.add] in H
  end.

Lemma datax_step_inv x inp x' o :
  wait_inv x inp -> datax_send_step x inp inp = Ok (0, x', o) ->
  wait_inv x' o /\ rst_n o = rst_n inp.
Proof.
  intros (Ht & Hp & Hs). unfold datax_send_step, drive_eop, c_assert. cbv zeta.
  destruct (check_seq x _) as [[]| |]; cbn [mbind outcome_bind negb]; [|done..].
  destruct x as [ad ep t s sq cy tx tl tp rx rl rp t1 t2 c1 c2]. unfold wait_inv in *.
  cbn in Ht, Hp, Hs |- *. intros H.
  destruct t; try discriminate Ht; destruct s;
    cbn -[Z.add] in H; split_step H; try discriminate H.
  all: injection H as <- <-; cbn; repeat split; done || lia.
Qed.

(** The transfer when its data packet has been sent. *)
Definition data_sent (x : transfer_t) (cycle : Z) : transfer_t :=
  x <| type := UpACK |> <| stage := NoXfer |> <| xcycle := u32 (u64 (cycle + TURNAROUND_TIMER)) |>.

Lemma usbh_data_step host inp g :
  host_op host = HostBulkOUT -> is_down_data (type (host_xfer host)) = true -> out_of_reset inp ->
  usbh_step host inp ulpi_bus_zero g =
  (let h := host <| host_cycle := u64 (host_cycle host + 1) |> in
   let x := host_xfer host in
   let '(wait, g) := if may_wait x inp then rand_wait g else (false, g) in
   if wait then Ok (0, h <| host_xfer := x |>, wait_bus inp, g)
   else
     '(r, x', o) ← datax_send_step x inp inp;
     if r <? 0 then Ok (r, h <| host_xfer := x' |>, o, g)
     else if 0 <? r then Ok (0, h <| host_xfer := data_sent x' (host_cycle h) |>, o, g)
     else Ok (0, h <| host_xfer := x' |>, o, g)).
Proof.
  intros Ho Ht Hr. unfold usbh_step. rewrite usbh_pre_not_idle; [|done|cbn; by rewrite Ho].
  cbv zeta. change (host_op (host <| host_cycle := u64 (host_cycle host + 1) |>)) with (host_op host).
  rewrite Ho. unfold bulk_out_step.
  change (host_xfer (host <| host_cycle := u64 (host_cycle host + 1) |>)) with (host_xfer host).
  destruct (type (host_xfer host)); try discriminate Ht; reflexivity.
Qed.

(** One packet step of the host takes one or two cycles, and the bytes on the
    bus are the same. *)
Lemma usbh_data_progress host inp g r x' o :
  host_op host = HostBulkOUT -> wait_inv (host_xfer host) inp -> out_of_reset inp ->
  datax_send_step (host_xfer host) inp inp = Ok (r, x', o) -> r = 0 \/ r = 1 ->
  exists m outs host' g',
    (forall n, usbh_loop (m + n) host inp g =
      ('(rs, outs', host'', g'') ← usbh_loop n host' o g';
       Ok (replicate m 0 ++ rs, outs ++ outs', host'', g''))) /\
    (m <= 2)%nat /\ received outs = received [o] /\ host_op host' = HostBulkOUT /\
    host_cycle host' = u64 (host_cycle host + Z.of_nat m) /\ host_addr host' = host_addr host /\
    host_xfer host' = if r =? 1 then data_sent x' (host_cycle host') else x'.
Proof.
  intros Ho Hw Hr E Hr01.
  destruct (if may_wait (host_xfer host) inp then rand_wait g else (false, g)) as [w g1] eqn:Eg.
  assert (Hnow : forall h i g0 g2, host_op h = HostBulkOUT -> host_xfer h = host_xfer host ->
    out_of_reset i -> (if may_wait (host_xfer host) i then rand_wait g0 else (false, g0)) = (false, g2) ->
    datax_send_step (host_xfer host) i i = Ok (r, x', o) ->
    exists h', usbh_step h i ulpi_bus_zero g0 = Ok (0, h', o, g2) /\ host_op h' = HostBulkOUT /\
      host_cycle h' = u64 (host_cycle h + 1) /\ host_addr h' = host_addr h /\
      host_xfer h' = if r =? 1 then data_sent x' (host_cycle h') else x').
  { intros h i g0 g2 Ho' Hx Hr' Hg Hd. destruct Hw as (Ht & _).
    rewrite usbh_data_step by (done || by rewrite Hx). cbv zeta. rewrite Hx, Hg, Hd.
    cbn [mbind outcome_bind]. destruct Hr01 as [-> | ->]; cbn -[data_sent]; by eexists. }
  destruct w.
  - assert (Hm : may_wait (host_xfer host) inp = true) by (by destruct (may_wait _ _)).
    pose proof (wait_absorbed _ _ _ _ _ Hw Hm E ltac:(lia)) as E'.
    set (h1 := host <| host_cycle := u64 (host_cycle host + 1) |> <| host_xfer := host_xfer host |>).
    assert (H1 : usbh_step host inp ulpi_bus_zero g = Ok (0, h1, wait_bus inp, g1)).
    { destruct Hw as (Ht & _). rewrite usbh_data_step by done. cbv zeta. by rewrite Eg. }
    destruct (Hnow h1 (wait_bus inp) g1 g1) as (h2 & H2 & H3 & H5 & H6 & H4); [done|done|done| |done|].
    { unfold may_wait. change (nxt (wait_bus inp) =? SIG1) with false. by rewrite andb_false_r. }
    exists 2%nat, [wait_bus inp; o], h2, g1. split; [|split; [lia|split; [|split; [done|split; [|by split]]]]].
    + intros n. change (2 + n)%nat with (S (S n)).
      rewrite (usbh_loop_cons _ _ _ _ _ _ _ _ H1), (usbh_loop_cons _ _ _ _ _ _ _ _ H2).
      by destruct (usbh_loop n h2 o g1) as [[[[]]]| |].
    + unfold received. cbn. unfold is_rx_byte at 1. change (nxt (wait_bus inp) =? SIG1) with false.
      by rewrite andb_false_r.
    + rewrite H5. change (host_cycle h1) with (u64 (host_cycle host + 1)). exact (u64_step _ 1).
  - destruct (Hnow host inp g g1) as (h2 & H2 & H3 & H4); [done..|].
    exists 1%nat, [o], h2, g1. split; [|split; [lia|done]].
    intros n. change (1 + n)%nat with (S n). rewrite (usbh_loop_cons _ _ _ _ _ _ _ _ H2).
    by destruct (usbh_loop n h2 o g1) as [[[[]]]| |].
Qed.

Lemma throttled_run n x seen bus out x' seen' bus' :
  ulpi_step_loop datax_send_step link_monitor n x seen bus out = Some (Ok (1, x', seen', bus')) ->
  wait_inv x bus -> out_of_reset bus ->
  forall host g, host_op host = HostBulkOUT -> host_xfer host = x ->
  exists m outs host' g', usbh_loop m host bus g = Ok (replicate m 0, outs, host', g') /\
    (m <= 2 * n)%nat /\ received seen' = received seen ++ received outs /\
    host_cycle host' = u64 (host_cycle host + Z.of_nat m) /\ host_addr host' = host_addr host /\
    host_op host' = HostBulkOUT /\ host_xfer host' = data_sent x' (host_cycle host').
Proof.
  revert x seen bus out. induction n as [|n IH]; intros x seen bus out H Hw Hr host g Ho Hx; [done|].
  subst x. cbn [ulpi_step_loop] in H. unfold ulpi_step_once in H.
  assert (Hout : forall o1 o2, datax_send_step (host_xfer host) bus o1 =
    datax_send_step (host_xfer host) bus o2 \/
    exists r x o, datax_send_step (host_xfer host) bus o1 = Ok (r, x, o) /\ r < 0).
  { intros o1 o2. unfold datax_send_step. destruct (check_seq _ _) as [[]| |]; [by left| |by left..].
    right. cbn. exists (-1), (host_xfer host), o1. split; [done|lia]. }
  destruct (Hout out bus) as [Heq | (r & x1 & o & Heq & Hneg)].
  2: { rewrite Heq in H. cbn in H. rewrite (proj2 (Z.ltb_lt r 0)) in H by done. cbn in H.
       destruct (Z.eqb_spec r 0); [lia|]. injection H as -> _ _ _. lia. }
  rewrite Heq in H. clear Hout Heq.
  destruct (datax_send_step (host_xfer host) bus bus) as [[[r x1] o]| |] eqn:E; cbn in H; [|done..].
  pose proof (datax_send_le (host_xfer host) bus bus) as Hle. rewrite E in Hle. cbn in Hle.
  destruct (Z.ltb_spec r 0).
  { cbn in H. destruct (Z.eqb_spec r 0); [lia|]. injection H as -> _ _ _. lia. }
  rewrite Z.lor_0_r in H. assert (Hr01 : r = 0 \/ r = 1) by lia.
  destruct (usbh_data_progress host bus g r x1 o Ho Hw Hr E Hr01) as (m & outs & h & g1 & Hl & Hm & Hrec & Ho' & Hcy & Had & Hx').
  destruct Hr01 as [-> | ->]; cbn in H, Hx'.
  - apply datax_step_inv in E as [Hw' Hrst]; [|done].
    destruct (IH x1 (seen ++ [o]) o o H Hw' ltac:(unfold out_of_reset; by rewrite Hrst) h g1 Ho' Hx')
      as (m' & outs' & h' & g' & Hl' & Hm' & Hrec' & Hcy' & Had' & Hop & Hxf).
    exists (m + m')%nat, (outs ++ outs'), h', g'. split; [|split; [lia|]].
    + rewrite Hl, Hl'. cbn. by rewrite replicate_add.
    + split; [by rewrite Hrec', !received_app, <- app_assoc, Hrec|]. split; [|by rewrite Had', Had].
      rewrite Hcy', Hcy. unfold u64. rewrite Zplus_mod_idemp_l. f_equal. lia.
  - injection H as <- <- <-. exists m, outs, h, g1.
    pose proof (Hl 0%nat) as Hl0. rewrite Nat.add_0_r in Hl0. cbn in Hl0. rewrite !app_nil_r in Hl0.
    split; [done|]. split; [lia|]. split; [|done]. by rewrite received_app, Hrec.
Qed.

(** A bulk OUT data packet does not depend on [rand()]: whatever wait states
    the random stream inserts, the host sends, on a bus that nobody else
    drives, exactly PID, payload and CRC, in at most twice the cycles of an
    unthrottled packet, without an error or a failed assertion, and then waits
    for the ACK with the deadline 40 cycles ahead. *)
Lemma bulk_out_data_any_rand host payload g :
  host_op host = HostBulkOUT -> sends (host_xfer host) payload ->
  tx_ptr (host_xfer host) = 0 -> stage (host_xfer host) = NoXfer ->
  exists m outs host' g',
    usbh_loop m host bus_quiet g = Ok (replicate m 0, outs, host', g') /\
    (m <= 2 * (length payload + 9))%nat /\
    received outs = data_pid_byte (type (host_xfer host)) :: payload ++
                    [first_crc (host_xfer host); crc2 (host_xfer host)] /\
    awaits_ack host' /\ host_cycle host' = u64 (host_cycle host + Z.of_nat m) /\ host_addr host' = host_addr host /\
    host_xfer host' = data_sent (host_xfer host <| tx_ptr := Z.of_nat (length payload) |>) (host_cycle host').
Proof.
  intros Ho Hs Hp Hst.
  pose proof (datax_send_run (host_xfer host) bus_quiet payload (length payload + 9) Hs Hp ltac:(lia)) as Hrun.
  unfold ulpi_step_with in Hrun. change (ulpi_bus_idle bus_quiet) with bus_quiet in Hrun.
  assert (Hx : host_xfer host <| stage := NoXfer |> = host_xfer host).
  { destruct (host_xfer host). cbn in Hst. by subst. }
  rewrite Hx in Hrun.
  destruct (throttled_run _ _ _ _ _ _ _ _ Hrun) with (host := host) (g := g)
    as (m & outs & h & g' & Hl & Hm & Hrec & Hcy & Had & Ho' & Hx'); [|done|done|done|].
  - split; [by destruct Hs|]. rewrite Hst. split; [lia|done].
  - exists m, outs, h, g'. split; [done|]. split; [done|].
    rewrite received_packet in Hrec. cbn in Hrec. split; [by rewrite Hrec|].
    split; [by split; rewrite ?Hx'|]. split; [exact Hcy|]. split; [exact Had|]. rewrite Hx'. by destruct (host_xfer host).
Qed.

(** ** Witnesses *)

(** A stream that asks for a wait state wherever it can. *)
Definition rng_example : rng := fun _ => 0x1F.
Definition guarded_example : usb_host_t := host_example <| host_guard := GUARDIAN |>.

Lemma usbh_reset_duration_witness : exists outs host,
  usbh_run (usbh_init host_example 0) [bus_quiet; bus_quiet; bus_quiet] rng_example =
    Ok ([0; 0; 0], outs, host, rng_example) /\ host_op host = HostReset.
Proof.
  destruct (usbh_reset_duration host_example 0 [bus_quiet; bus_quiet; bus_quiet] rng_example)
    as (outs & host & H1 & H2 & _).
  - repeat constructor; discriminate.
  - discriminate.
  - exists outs, host. split; [exact H1|exact H2].
Defined.

Lemma sof_transaction_witness : exists outs host' t1 t2,
  usbh_loop 9 guarded_example bus_quiet rng_example = Ok (replicate 8 0 ++ [1], outs, host', rng_example) /\
  received outs = [0xA5; t1; t2].
Proof.
  assert (Hs : 0 <= host_sof guarded_example < 2 ^ 16) by (cbn; lia).
  destruct (sof_transaction guarded_example rng_example eq_refl eq_refl eq_refl Hs eq_refl)
    as (outs & host' & t1 & t2 & H1 & H2 & _).
  exists outs, host', t1, t2. split; [exact H1|exact H2].
Defined.

Definition ack_example : usb_host_t :=
  guarded_example <| host_op := HostBulkOUT |> <| host_cycle := 1499 |>
    <| host_xfer := transfer_zero <| type := UpACK |> <| xcycle := 1502 |> |>.

Lemma ack_example_awaits : awaits_ack ack_example.
Proof. by split. Qed.

Lemma transaction_not_cancelled_witness : exists rs outs host',
  usbh_run ack_example [bus_quiet; bus_quiet] rng_example = Ok (rs, outs, host', rng_example) /\
  host_op host' = HostBulkOUT.
Proof.
  assert (H : usbh_run ack_example [bus_quiet; bus_quiet] rng_example =
    Ok ([0; 0], [bus_quiet; bus_quiet], ack_example <| host_cycle := 1501 |>, rng_example))
    by (vm_compute; reflexivity).
  do 3 eexists. split; [exact H|].
  assert (Hi : Forall out_of_reset [bus_quiet; bus_quiet]) by (repeat constructor; discriminate).
  exact (proj1 (transaction_not_cancelled ack_example _ _ _ _ _ _ eq_refl Hi H)).
Defined.

Lemma bulk_out_timeout_witness : exists outs host',
  usbh_run ack_example ([bus_quiet; bus_quiet] ++ [bus_quiet]) rng_example =
    Ok (replicate 2 0 ++ [1], outs, host', rng_example) /\ host_cycle host' = 1502.
Proof.
  destruct (bulk_out_timeout ack_example [bus_quiet; bus_quiet] bus_quiet rng_example ack_example_awaits)
    as (outs & host' & H1 & H2 & _); [repeat constructor|cbn; lia|cbn; lia|reflexivity|].
  exists outs, host'. split; [exact H1|exact H2].
Defined.

(** The same host, 2^32 cycles later, and an ACK on the bus. *)
Definition late_example : usb_host_t := ack_example <| host_cycle := 2 ^ 32 + 1459 |>.

Lemma late_example_awaits : awaits_ack late_example.
Proof. by split. Qed.

Lemma bulk_out_timeout_overflow_witness : exists host',
  usbh_step late_example (link_cycle SIG0 SIG0 ULPITX_ACK) ulpi_bus_zero rng_example =
    Ok (1, host', link_cycle SIG0 SIG0 ULPITX_ACK, rng_example) /\
  host_xfer host' = host_xfer late_example <| type := XferIdle |>.
Proof.
  assert (Hr : out_of_reset (link_cycle SIG0 SIG0 ULPITX_ACK)) by discriminate.
  assert (Hx : 0 <= xcycle (host_xfer late_example) < 2 ^ 32) by (cbn; lia).
  assert (Hc : 2 ^ 32 - 1 <= host_cycle late_example < 2 ^ 64 - 1) by (cbn; lia).
  exact (bulk_out_timeout_overflow late_example _ rng_example late_example_awaits Hr Hx Hc).
Defined.

Definition data_example : usb_host_t :=
  guarded_example <| host_op := HostBulkOUT |> <| host_xfer := xfer_example |>.

Lemma bulk_out_data_any_rand_witness : exists m outs host' g',
  usbh_loop m data_example bus_quiet rng_example = Ok (replicate m 0, outs, host', g') /\
  received outs = [0xC3; 0xAA; 0x55; 0x01; first_crc xfer_example; crc2 xfer_example].
Proof.
  destruct (bulk_out_data_any_rand data_example [0xAA; 0x55; 0x01] rng_example eq_refl xfer_example_sends
    eq_refl eq_refl) as (m & outs & host' & g' & H1 & _ & H2 & _).
  exists m, outs, host', g'. split; [exact H1|exact H2].
Defined.
