(* ===== verification/UsbHostTrans.v ===== *)
(** Whole transactions of the USB host: the token that bulk OUT and bulk IN start
    with, and bulk OUT, its data and handshake composed from the packets of
    UsbHostProps, against what USB 2.0 says a transaction is. *)

From S2P Require Import Prelude Gf2 UsbCrc Ulpi UlpiSafe UlpiTrace UlpiRecv StdReq.
From S2P Require Import StdReqProps UsbHost UsbHostProps.

#[local] Opaque crc16_calc crc5_calc crc5_check crc16_check.

(** ** The token *)

Lemma token_send_keeps x inp o r x' :
  token_send_step x inp inp = Ok (r, x', o) -> r = 0 ->
  type x' = type x /\ ep_seq x' = ep_seq x /\ endpoint x' = endpoint x.
Proof.
  unfold token_send_step, drive_eop, c_assert. intros H Hr. subst r.
  repeat (case_match; simplify_eq; try done; cbn in H).
  all: by injection H as <- <-.
Qed.

(** A transfer that sends its token, and the same after it. *)
Definition token_done (x : transfer_t) : transfer_t := x <| type := XferIdle |> <| stage := NoXfer |>.

Lemma token_loop_packet x :
  is_token (type x) = true -> stage x = NoXfer ->
  token_loop 9 x bus_quiet =
    Ok (replicate 8 0 ++ [1], packet_trace [token_pid_byte (type x); tok1 x; tok2 x], token_done x).
Proof.
  intros Ht Hs. destruct x as [ad ep t s sq cy tx tl tp rx rl rp t1 t2 c1 c2].
  cbn in Ht, Hs. subst s. by destruct t.
Qed.

(** The type of the data packet for a sequence bit. *)
Definition out_type (s : Z) : xfer_type_t := if s =? SIG0 then DnDATA0 else DnDATA1.

Lemma seq_type_run x s t0 t1 :
  0 <= endpoint x -> ep_seq x !! Z.to_nat (endpoint x) = Some s ->
  seq_type x t0 t1 = Ok (if s =? SIG0 then t0 else t1).
Proof.
  intros He Hs. unfold seq_type. rewrite <- (Z2Nat.id (endpoint x)) by done.
  by rewrite (read_at_Some _ _ _ Hs).
Qed.

(** The cycles of a token in a transaction [op] that starts with a token of type [t]:
    each one advances the packet, and the last one leaves the transfer that [next]
    makes of it, the host's cycle counter and the sequence bit. *)
Definition token_phase (op : host_op_t) (t : xfer_type_t) (next : Z -> Z -> transfer_t -> transfer_t) : Prop :=
  forall host inp g r x' o s,
  host_op host = op -> type (host_xfer host) = t -> out_of_reset inp ->
  token_send_step (host_xfer host) inp inp = Ok (r, x', o) -> r = 0 \/ r = 1 ->
  0 <= endpoint x' -> ep_seq x' !! Z.to_nat (endpoint x') = Some s ->
  let cycle := u64 (host_cycle host + 1) in
  usbh_step host inp ulpi_bus_zero g =
  Ok (0, host <| host_cycle := cycle |> <| host_xfer := if r =? 1 then next cycle s x' else x' |>, o, g).

Lemma usbh_token_loop op t next n : token_phase op t next -> forall host inp outs x' g s,
  host_op host = op -> type (host_xfer host) = t -> out_of_reset inp ->
  0 <= endpoint (host_xfer host) -> ep_seq (host_xfer host) !! Z.to_nat (endpoint (host_xfer host)) = Some s ->
  endpoint x' = endpoint (host_xfer host) -> ep_seq x' = ep_seq (host_xfer host) ->
  token_loop (S n) (host_xfer host) inp = Ok (replicate n 0 ++ [1], outs, x') ->
  exists host', usbh_loop (S n) host inp g = Ok (replicate (S n) 0, outs, host', g) /\
    host_op host' = op /\ host_xfer host' = next (host_cycle host') s x' /\
    host_cycle host' = u64 (host_cycle host + Z.of_nat (S n)) /\ host_addr host' = host_addr host.
Proof.
  intros Hphase. induction n as [|n IH]; intros host inp outs x' g s Ho Ht Hr He Hs Ex Eq H;
    apply token_loop_inv in H as (r & rs & x1 & o & outs' & Hrs & -> & E & E'); injection Hrs as <- <-.
  - injection E' as <- <-.
    pose proof (Hphase host inp g 1 x1 o s Ho Ht Hr E ltac:(by right) ltac:(by rewrite Ex)
      ltac:(by rewrite Eq, Ex)) as Hst. cbv zeta in Hst.
    rewrite (usbh_loop_cons _ _ _ _ _ _ _ _ Hst). cbn [usbh_loop]. rewrite outcome_bind_ok. by eexists.
  - destruct (token_send_keeps _ _ _ _ _ E eq_refl) as (Kt & Ks & Ke).
    pose proof (Hphase host inp g 0 x1 o s Ho Ht Hr E ltac:(by left) ltac:(by rewrite Ke)
      ltac:(by rewrite Ks, Ke)) as Hst. cbv zeta in Hst. change (0 =? 1) with false in Hst. cbv iota in Hst.
    rewrite (usbh_loop_cons _ _ _ _ _ _ _ _ Hst).
    edestruct (IH (host <| host_cycle := u64 (host_cycle host + 1) |> <| host_xfer := x1 |>) o outs' x' g s)
      as (h & Hl & H1 & H2 & H3 & H4); [exact Ho|by rewrite <- Ht| | | | | |exact E'|].
    + unfold out_of_reset. by rewrite (token_send_rst _ _ _ _ _ E).
    + cbn. by rewrite Ke.
    + cbn. by rewrite Ks, Ke.
    + cbn. by rewrite Ke.
    + cbn. by rewrite Ks.
    + rewrite Hl, outcome_bind_ok. exists h. split; [done|]. split; [done|]. split; [done|].
      rewrite H3, H4. split; [exact (u64_step _ _)|done].
Qed.

(** The transfers after the tokens of the two bulk transactions. *)
Definition out_next (cycle s : Z) (x : transfer_t) : transfer_t :=
  x <| type := out_type s |> <| stage := NoXfer |>.
Definition in_type (s : Z) : xfer_type_t := if s =? SIG0 then UpDATA0 else UpDATA1.
Definition in_next (cycle s : Z) (x : transfer_t) : transfer_t :=
  x <| type := in_type s |> <| stage := NoXfer |> <| xcycle := u32 (u64 (cycle + TURNAROUND_TIMER)) |>.

Lemma bulk_out_token : token_phase HostBulkOUT OUT out_next.
Proof.
  intros host inp g r x' o s Ho Ht Hr E Hr01 He Hs. cbv zeta. unfold usbh_step.
  rewrite usbh_pre_not_idle; [|done|cbn; by rewrite Ho]. cbv zeta.
  set (h := host <| host_cycle := u64 (host_cycle host + 1) |>).
  change (host_op h) with (host_op host). rewrite Ho. unfold bulk_out_step.
  change (host_xfer h) with (host_xfer host). rewrite Ht, E, outcome_bind_ok. cbv beta iota zeta.
  destruct Hr01 as [-> | ->]; [done|]. change (1 <? 0) with false. change (0 <? 1) with true. cbv iota.
  by rewrite (seq_type_run _ _ _ _ He Hs), outcome_bind_ok.
Qed.

Lemma bulk_in_token : token_phase HostBulkIN IN in_next.
Proof.
  intros host inp g r x' o s Ho Ht Hr E Hr01 He Hs. cbv zeta. unfold usbh_step.
  rewrite usbh_pre_not_idle; [|done|cbn; by rewrite Ho]. cbv zeta.
  set (h := host <| host_cycle := u64 (host_cycle host + 1) |>).
  change (host_op h) with (host_op host). rewrite Ho. unfold bulk_in_step.
  change (host_xfer h) with (host_xfer host). rewrite Ht, E, outcome_bind_ok. cbv beta iota zeta.
  destruct Hr01 as [-> | ->]; [done|]. change (1 <? 0) with false. change (0 <? 1) with true. cbv iota.
  by rewrite (seq_type_run _ _ _ _ He Hs), outcome_bind_ok.
Qed.

(** ** From one packet to the next *)

Lemma usbh_loop_app n : forall m host inp g rs outs h g1,
  usbh_loop n host inp g = Ok (rs, outs, h, g1) ->
  usbh_loop (n + m) host inp g =
  ('(rs2, outs2, h2, g2) ← usbh_loop m h (List.last outs inp) g1; Ok (rs ++ rs2, outs ++ outs2, h2, g2)).
Proof.
  induction n as [|n IH]; intros m host inp g rs outs h g1 H.
  { injection H as <- <- <- <-. cbn. by destruct (usbh_loop m host inp g) as [[[[]]]| |]. }
  cbn [Nat.add usbh_loop] in *. destruct (usbh_step host inp ulpi_bus_zero g) as [[[[r x] o] g0]| |]; [|done..].
  rewrite outcome_bind_ok in *. cbv beta iota in *.
  destruct (usbh_loop n x o g0) as [[[[rs' outs'] h'] g']| |] eqn:E; [|done..].
  rewrite outcome_bind_ok in H. injection H as <- <- <- <-.
  rewrite (IH m _ _ _ _ _ _ _ E). rewrite last_cons_default.
  by destruct (usbh_loop m h' (List.last outs' o) g') as [[[[]]]| |].
Qed.

(** The bus that a packet releases is as good as a quiet one for the next. *)
Lemma sends_seq_ok x payload : sends x payload -> check_seq x (Z.land (data_pid_byte (type x)) 0x0f) = Ok true.
Proof.
  intros [Ht Hs _ _]. rewrite (check_seq_bit _ _ Hs). unfold data_pid_byte, data_seq_bit.
  by destruct (type x); try discriminate Ht.
Qed.

Lemma data_after_release n host payload g :
  host_op host = HostBulkOUT -> sends (host_xfer host) payload -> stage (host_xfer host) = NoXfer ->
  usbh_loop (S n) host bus_released g = usbh_loop (S n) host bus_quiet g.
Proof.
  intros Ho Hp Hs. pose proof (sends_seq_ok _ _ Hp) as Hq. destruct Hp as [Ht _ _ _].
  cbn [usbh_loop]. rewrite !usbh_data_step by done. cbv zeta. unfold may_wait.
  change (nxt bus_released =? SIG1) with false. change (nxt bus_quiet =? SIG1) with false.
  rewrite andb_false_r. cbv beta iota.
  replace (datax_send_step (host_xfer host) bus_released bus_released)
    with (datax_send_step (host_xfer host) bus_quiet bus_quiet); [done|].
  unfold datax_send_step. unfold data_pid_byte in Hq. rewrite Hq, !outcome_bind_ok. cbn [negb].
  rewrite Hs. by destruct (type (host_xfer host)); try discriminate Ht.
Qed.

(** ** The handshake *)

(** A cycle of the ACK phase, before the deadline. *)
Lemma ack_phase_step host inp g r x o :
  host_op host = HostBulkOUT -> type (host_xfer host) = UpACK -> out_of_reset inp ->
  0 <= host_cycle host -> host_cycle host + 1 < xcycle (host_xfer host) < 2 ^ 32 ->
  ack_recv_step (host_xfer host) inp inp = Ok (r, x, o) ->
  usbh_step host inp ulpi_bus_zero g =
  Ok (r, host <| host_cycle := host_cycle host + 1 |>
              <| host_xfer := if 0 <? r then x <| type := XferIdle |> <| stage := NoXfer |> else x |>, o, g).
Proof.
  intros Ho Ht Hr Hc Hd E. unfold usbh_step.
  rewrite usbh_pre_not_idle; [|done|cbn; by rewrite Ho]. cbv zeta. rewrite u64_small by lia.
  set (h := host <| host_cycle := host_cycle host + 1 |>).
  change (host_op h) with (host_op host). rewrite Ho. unfold bulk_out_step.
  change (host_xfer h) with (host_xfer host). rewrite Ht.
  change (host_cycle h) with (host_cycle host + 1). rewrite (proj2 (Z.leb_gt _ _)) by lia.
  rewrite E, outcome_bind_ok. cbv beta iota. by destruct (0 <? r).
Qed.

(** The link's ACK: the transmit command, cycles until it raises STP, and one more
    cycle, all while the link has the bus.  RST# stays high. *)
Record ack_reply (pid : ulpi_bus_t) (hold : list ulpi_bus_t) (stop fin : ulpi_bus_t) : Prop := {
  reply_rst : Forall out_of_reset (pid :: hold ++ [stop; fin]);
  reply_pid : dir pid = SIG0 /\ data_a pid = ULPITX_ACK;
  reply_hold : Forall (fun inp => dir inp = SIG0 /\ data_b inp = 0 /\ stp inp <> SIG1) hold;
  reply_stop : dir stop = SIG0 /\ data_b stop = 0 /\ stp stop = SIG1;
  reply_fin : dir fin = SIG0 /\ nxt fin = SIG0 /\ stp fin = SIG0;
}.

Lemma ack_recv_pid x inp s :
  type x = UpACK -> stage x = NoXfer -> data_a inp = ULPITX_ACK ->
  0 <= endpoint x -> ep_seq x !! Z.to_nat (endpoint x) = Some s ->
  ack_recv_step x inp inp =
  Ok (0, x <| stage := HskPID |> <| ep_seq := <[Z.to_nat (endpoint x) := flip_seq s]> (ep_seq x) |>,
      inp <| nxt := SIG1 |>).
Proof.
  intros Ht Hs Hd He Hq. unfold ack_recv_step. rewrite Ht, Hs, Hd.
  assert (Hi : ulpi_bus_is_idle inp = false).
  { unfold ulpi_bus_is_idle. rewrite Hd. change (ULPITX_ACK =? 0x00) with false.
    by rewrite andb_false_r. }
  rewrite Hi. cbn [negb]. change (ULPITX_ACK =? ULPITX_ACK) with true. cbv iota.
  set (y := x <| stage := HskPID |>). by rewrite (transfer_ack_run y s Hq He), outcome_bind_ok.
Qed.

Lemma ack_recv_hold x inp :
  type x = UpACK -> stage x = HskPID -> dir inp = SIG0 -> data_b inp = 0 ->
  ack_recv_step x inp inp =
  Ok (0, if stp inp =? SIG1 then x <| stage := HskStop |> else x, inp <| nxt := SIG0 |>).
Proof.
  intros Ht Hs Hd Hb. unfold ack_recv_step. rewrite Ht, Hs, Hd, Hb. cbn -[Z.eqb].
  by destruct (stp inp =? SIG1).
Qed.

Lemma ack_recv_fin x inp :
  type x = UpACK -> stage x = HskStop -> dir inp = SIG0 -> nxt inp = SIG0 -> stp inp = SIG0 ->
  ack_recv_step x inp inp = Ok (1, x <| stage := NoXfer |>, inp).
Proof. intros Ht Hs Hd Hn Hp. unfold ack_recv_step. by rewrite Ht, Hs, Hd, Hn, Hp. Qed.

(** What a host keeps while its handshake phase advances [n] cycles to transfer [x]. *)
Definition hsk_at (host : usb_host_t) (n : Z) (x : transfer_t) : usb_host_t :=
  host <| host_cycle := host_cycle host + n |> <| host_xfer := x |>.

Lemma hsk_at_0 host : hsk_at host 0 (host_xfer host) = host.
Proof. destruct host. unfold hsk_at. cbn. by rewrite Z.add_0_r. Qed.

Lemma hsk_at_at host a b x y : hsk_at (hsk_at host a x) b y = hsk_at host (a + b) y.
Proof. destruct host. unfold hsk_at. cbn. by rewrite Z.add_assoc. Qed.

Lemma hsk_step host inp g r x o :
  host_op host = HostBulkOUT -> type (host_xfer host) = UpACK -> out_of_reset inp ->
  0 <= host_cycle host -> host_cycle host + 1 < xcycle (host_xfer host) < 2 ^ 32 ->
  ack_recv_step (host_xfer host) inp inp = Ok (r, x, o) -> r <= 0 ->
  usbh_step host inp ulpi_bus_zero g = Ok (r, hsk_at host 1 x, o, g).
Proof.
  intros Ho Ht Hr Hc Hd E Hle. rewrite (ack_phase_step host inp g r x o) by done.
  by rewrite (proj2 (Z.ltb_ge 0 r)) by done.
Qed.

Lemma usbh_run_cons host i ins g r h o g1 rs outs h2 g2 :
  usbh_step host i ulpi_bus_zero g = Ok (r, h, o, g1) ->
  usbh_run h ins g1 = Ok (rs, outs, h2, g2) ->
  usbh_run host (i :: ins) g = Ok (r :: rs, o :: outs, h2, g2).
Proof. intros H1 H2. cbn [usbh_run]. by rewrite H1, outcome_bind_ok, H2. Qed.

Lemma hold_run hold : forall host g,
  host_op host = HostBulkOUT -> type (host_xfer host) = UpACK -> stage (host_xfer host) = HskPID ->
  Forall out_of_reset hold ->
  Forall (fun inp => dir inp = SIG0 /\ data_b inp = 0 /\ stp inp <> SIG1) hold ->
  0 <= host_cycle host -> host_cycle host + Z.of_nat (length hold) < xcycle (host_xfer host) < 2 ^ 32 ->
  exists outs, usbh_run host hold g =
    Ok (replicate (length hold) 0, outs, hsk_at host (Z.of_nat (length hold)) (host_xfer host), g) /\ received outs = [].
Proof.
  induction hold as [|i hold IH]; intros host g Ho Ht Hs Hr Hh Hc Hd.
  { exists []. cbn [length usbh_run]. split; [by rewrite hsk_at_0|done]. }
  apply Forall_cons_1 in Hr as [Hr1 Hr]. apply Forall_cons_1 in Hh as [(Hd1 & Hb1 & Hp1) Hh].
  cbn [length] in *.
  pose proof (ack_recv_hold _ i Ht Hs Hd1 Hb1) as E. rewrite (proj2 (Z.eqb_neq _ _) Hp1) in E.
  pose proof (hsk_step host i g 0 _ _ Ho Ht Hr1 Hc ltac:(lia) E ltac:(lia)) as H1.
  destruct (IH (hsk_at host 1 (host_xfer host)) g) as (outs & H2 & H3); [done|done|done|done|done|cbn; lia|cbn; lia|].
  eexists. rewrite (usbh_run_cons _ _ _ _ _ _ _ _ _ _ _ _ H1 H2).
  rewrite hsk_at_at, Nat2Z.inj_succ, <- Z.add_1_l. split; [done|]. by rewrite received_skip by by apply idle_no_byte.
Qed.

(** The transfer after its ACK. *)
Definition acked (x : transfer_t) (s : Z) : transfer_t :=
  x <| type := XferIdle |> <| stage := NoXfer |>
    <| ep_seq := <[Z.to_nat (endpoint x) := flip_seq s]> (ep_seq x) |>.

Lemma ack_run host pid hold stop fin s g :
  awaits_ack host -> ack_reply pid hold stop fin -> 0 <= host_cycle host ->
  0 <= endpoint (host_xfer host) ->
  ep_seq (host_xfer host) !! Z.to_nat (endpoint (host_xfer host)) = Some s ->
  host_cycle host + Z.of_nat (length hold) + 3 < xcycle (host_xfer host) < 2 ^ 32 ->
  exists outs, usbh_run host (pid :: hold ++ [stop; fin]) g =
    Ok (replicate (length hold + 2) 0 ++ [1], outs,
        hsk_at host (Z.of_nat (length hold) + 3) (acked (host_xfer host) s), g) /\ received outs = [].
Proof.
  intros [Ho Ht Hs] [Hrst [Hdir Hpid] Hhold (Hs1 & Hs2 & Hs3) (Hf1 & Hf2 & Hf3)] Hc He Hq Hd.
  apply Forall_cons_1 in Hrst as [Hr1 Hrst]. apply Forall_app in Hrst as [Hr2 Hr3].
  apply Forall_pair in Hr3 as [Hr3 Hr4].
  set (x := host_xfer host) in *.
  pose proof (ack_recv_pid x pid s Ht Hs Hpid He Hq) as E1.
  set (x1 := x <| stage := HskPID |> <| ep_seq := <[Z.to_nat (endpoint x) := flip_seq s]> (ep_seq x) |>) in E1.
  pose proof (hsk_step host pid g 0 _ _ Ho Ht Hr1 Hc ltac:(fold x; lia) E1 ltac:(lia)) as S1.
  destruct (hold_run hold (hsk_at host 1 x1) g) as (o2 & S2 & N2); [done|done|done|done|done|cbn; lia|cbn; fold x; lia|].
  set (h2 := hsk_at (hsk_at host 1 x1) (Z.of_nat (length hold)) (host_xfer (hsk_at host 1 x1))) in S2.
  pose proof (ack_recv_hold (host_xfer h2) stop Ht eq_refl Hs1 Hs2) as E3. rewrite Hs3 in E3.
  change (SIG1 =? SIG1) with true in E3. cbv iota in E3.
  pose proof (hsk_step h2 stop g 0 _ _ Ho Ht Hr3 ltac:(cbn; lia) ltac:(cbn; fold x; lia) E3 ltac:(lia)) as S3.
  set (x3 := host_xfer h2 <| stage := HskStop |>) in S3. set (h3 := hsk_at h2 1 x3) in S3.
  pose proof (ack_recv_fin (host_xfer h3) fin Ht eq_refl Hf1 Hf2 Hf3) as E4.
  pose proof (ack_phase_step h3 fin g 1 _ _ Ho Ht Hr4 ltac:(cbn; lia) ltac:(cbn; fold x; lia) E4) as S4.
  change (0 <? 1) with true in S4. cbv iota in S4.
  pose proof (usbh_run_cons _ _ [] _ _ _ _ _ _ _ _ _ S4 eq_refl) as R4.
  pose proof (usbh_run_cons _ _ _ _ _ _ _ _ _ _ _ _ S3 R4) as R3.
  pose proof (usbh_run_app (hsk_at host 1 x1) hold [stop; fin] g) as R2.
  rewrite S2, outcome_bind_ok in R2. cbv beta iota in R2. rewrite R3, outcome_bind_ok in R2.
  pose proof (usbh_run_cons _ _ _ _ _ _ _ _ _ _ _ _ S1 R2) as R1.
  eexists. rewrite R1. split.
  - do 4 f_equal.
    + by rewrite app_comm_cons, replicate_cons_app, replicate_add, <- !app_assoc.
    + subst h3 h2. destruct host as [cy op st pv xf sf tu ad ec ln bf gd].
      unfold hsk_at, acked. subst x3 x1. unfold hsk_at. subst x. destruct xf. cbn [host_cycle].
      by replace (cy + (Z.of_nat (length hold) + 3)) with (cy + 1 + Z.of_nat (length hold) + 1 + 1) by lia.
  - rewrite received_skip, received_app, N2 by by apply idle_no_byte.
    by rewrite !received_skip by by apply idle_no_byte.
Qed.

(** ** Bulk OUT *)

(** A bulk OUT transaction that is queued: [payload] in the transmit buffer, [s] the
    sequence bit of the endpoint. *)
Record queued_out (host : usb_host_t) (payload : list Z) (s : Z) : Prop := {
  qo_op : host_op host = HostBulkOUT;
  qo_type : type (host_xfer host) = OUT;
  qo_stage : stage (host_xfer host) = NoXfer;
  qo_ep : 0 <= endpoint (host_xfer host) < 16;
  qo_seq : ep_seq (host_xfer host) !! Z.to_nat (endpoint (host_xfer host)) = Some s;
  qo_bit : s = SIG0 \/ s = SIG1;
  qo_tx : take (length payload) (tx (host_xfer host)) = payload;
  qo_len : tx_len (host_xfer host) = Z.of_nat (length payload);
  qo_ptr : tx_ptr (host_xfer host) = 0;
  qo_cycle : 0 <= host_cycle host /\ host_cycle host + 2 * Z.of_nat (length payload) + 100 < 2 ^ 32;
}.

(** What USB 2.0 asks for: the token, and the data packet that the sequence bit
    selects; the bit flips if the device answers, and stays if it does not. *)
Definition out_wire (x : transfer_t) (payload : list Z) (s : Z) : list Z :=
  [0xE1; tok1 x; tok2 x] ++ data_pid_byte (out_type s) :: payload ++ [first_crc x; crc2 x].
Definition next_seq (s : Z) (answered : bool) : Z := if answered then flip_seq s else s.

(** The link's side after the data: an ACK that ends within the turnaround time, or
    silence for all of it. *)
Inductive link_answer : list ulpi_bus_t -> bool -> Prop :=
| answer_ack waits pid hold stop fin :
    Forall (fun inp => ulpi_bus_is_idle inp = true) waits -> ack_reply pid hold stop fin ->
    Z.of_nat (length waits + length hold) + 3 < TURNAROUND_TIMER ->
    link_answer (waits ++ pid :: hold ++ [stop; fin]) true
| answer_none waits :
    Forall (fun inp => ulpi_bus_is_idle inp = true) waits ->
    Z.of_nat (length waits) = TURNAROUND_TIMER -> link_answer waits false.

(** The transfer between token and data. *)
Definition data_phase (x : transfer_t) (s : Z) : transfer_t :=
  token_done x <| type := out_type s |> <| stage := NoXfer |>.

Lemma data_phase_sends host payload s :
  queued_out host payload s -> sends (data_phase (host_xfer host) s) payload.
Proof.
  intros []. constructor; [by destruct qo_bit0 as [-> | ->]| |done|done].
  unfold data_phase. cbn [endpoint ep_seq token_done set_field set_type set_stage].
  change (endpoint (data_phase (host_xfer host) s)) with (endpoint (host_xfer host)).
  rewrite endpoint_mask by done. change (ep_seq _) with (ep_seq (host_xfer host)).
  rewrite qo_seq0. by destruct qo_bit0 as [-> | ->].
Qed.

(** Token and data, up to the wait for the handshake. *)
Lemma bulk_out_packets host payload s g :
  queued_out host payload s ->
  exists m outs h g1, usbh_loop m host bus_quiet g = Ok (replicate m 0, outs, h, g1) /\
    (m <= 2 * length payload + 27)%nat /\ received outs = out_wire (host_xfer host) payload s /\
    awaits_ack h /\ host_cycle h = host_cycle host + Z.of_nat m /\ host_addr h = host_addr host /\
    host_xfer h = data_sent (data_phase (host_xfer host) s <| tx_ptr := Z.of_nat (length payload) |>) (host_cycle h).
Proof.
  intros Hq. pose proof (data_phase_sends _ _ _ Hq) as Hsend. destruct Hq as [Ho Ht Hs He Hseq Hb Htx Hl Hp Hc].
  pose proof (token_loop_packet (host_xfer host) ltac:(by rewrite Ht) Hs) as Htok.
  destruct (usbh_token_loop _ _ _ 8 bulk_out_token host bus_quiet _ (token_done (host_xfer host)) g s Ho Ht ltac:(done) ltac:(lia) Hseq
    eq_refl eq_refl Htok) as (h1 & L1 & Ho1 & Hx1 & Hc1 & Had1). change (out_next _ _ _) with (data_phase (host_xfer host) s) in Hx1.
  destruct (bulk_out_data_any_rand h1 payload g Ho1) as (m & outs & h2 & g2 & L2 & Hm & Hrec & Hack & Hc2 & Had2 & Hx2);
    [by rewrite Hx1|by rewrite Hx1|by rewrite Hx1|].
  destruct m as [|m]; [injection L2 as <- _ _; discriminate Hrec|].
  rewrite <- (data_after_release m h1 payload) in L2 by (done || by rewrite Hx1).
  pose proof (usbh_loop_app 9 (S m) _ _ _ _ _ _ _ L1) as L.
  change (List.last _ bus_quiet) with bus_released in L. rewrite L2, outcome_bind_ok in L.
  exists (9 + S m)%nat. do 3 eexists. rewrite L. split; [by rewrite replicate_add|].
  split; [lia|]. split.
  { rewrite received_app, Hrec, Hx1, Ht. unfold out_wire. rewrite received_packet. cbn.
    by destruct Hb as [-> | ->]. }
  split; [done|]. rewrite Hx2, Hx1. split; [|by rewrite Had2, Had1].
  rewrite Hc2, Hc1. unfold u64. rewrite Zplus_mod_idemp_l, Z.mod_small; lia.
Qed.

Lemma deadline_in_range cycle : 0 <= cycle -> cycle + TURNAROUND_TIMER < 2 ^ 32 ->
  u32 (u64 (cycle + TURNAROUND_TIMER)) = cycle + TURNAROUND_TIMER.
Proof. unfold TURNAROUND_TIMER. intros H1 H2. rewrite u64_small, u32_small; lia. Qed.

(** The transfer when the transaction is over. *)
Definition out_over (x : transfer_t) (s : Z) (answered : bool) (x' : transfer_t) : Prop :=
  type x' = XferIdle /\ stage x' = NoXfer /\
  ep_seq x' = <[Z.to_nat (endpoint x) := next_seq s answered]> (ep_seq x) /\ tx x' = tx x /\ rx x' = rx x.

(** The handshake, or its absence. *)
Lemma bulk_out_reply host h payload s g reply answered :
  queued_out host payload s -> awaits_ack h -> host_cycle host <= host_cycle h ->
  host_cycle h + TURNAROUND_TIMER < 2 ^ 32 ->
  host_xfer h = data_sent (data_phase (host_xfer host) s <| tx_ptr := Z.of_nat (length payload) |>) (host_cycle h) ->
  link_answer reply answered ->
  exists outs h', usbh_run h reply g = Ok (replicate (length reply - 1) 0 ++ [1], outs, h', g) /\ received outs = [] /\
    out_over (host_xfer host) s answered (host_xfer h') /\
    host_cycle h' = host_cycle h + Z.of_nat (length reply) /\ host_addr h' = host_addr h.
Proof.
  intros Hq Hack Hcy Hc' Hx Ha. destruct Hq as [_ _ _ He Hseq _ _ _ _ [Hc _]].
  assert (Hxc : xcycle (host_xfer h) = host_cycle h + TURNAROUND_TIMER).
  { rewrite Hx at 1. apply deadline_in_range; unfold TURNAROUND_TIMER in *; lia. }
  assert (Hxs : ep_seq (host_xfer h) = ep_seq (host_xfer host)) by (by rewrite Hx).
  assert (Hxe : endpoint (host_xfer h) = endpoint (host_xfer host)) by (by rewrite Hx).
  assert (Hxb : tx (host_xfer h) = tx (host_xfer host) /\ rx (host_xfer h) = rx (host_xfer host)) by (by rewrite Hx).
  unfold TURNAROUND_TIMER in Hxc, Hc'. clear Hx. unfold out_over.
  destruct Ha as [waits pid hold stop fin Hw Hr Hl|waits Hw Hl]; unfold TURNAROUND_TIMER in Hl.
  - destruct (ack_wait_run waits h g Hack Hw ltac:(lia) ltac:(lia) ltac:(lia))
      as (o1 & h1 & R1 & Hack1 & Hx1 & Hc1 & Had1 & N1).
    rewrite <- Hx1 in Hxc, Hxs, Hxe, Hxb.
    destruct (ack_run h1 pid hold stop fin s g Hack1 Hr ltac:(lia) ltac:(by rewrite Hxe; lia)
      ltac:(by rewrite Hxs, Hxe) ltac:(lia)) as (o2 & R2 & N2).
    rewrite usbh_run_app, R1, outcome_bind_ok. rewrite R2, outcome_bind_ok. do 2 eexists. split.
    + do 4 f_equal. rewrite length_app. cbn [length]. rewrite length_app. cbn [length].
      rewrite app_assoc, <- replicate_add. do 2 f_equal. lia.
    + rewrite received_app, N1, N2. cbn -[Z.add Z.of_nat]. rewrite Hxs, Hxe, Hc1.
      split_and!; try done; try apply Hxb. rewrite length_app. cbn [length]. rewrite length_app. cbn [length]. lia.
  - destruct (exists_last (l := waits)) as (ws & w & ->); [by intros ->|].
    rewrite length_app in Hl |- *. cbn [length] in Hl |- *.
    destruct (bulk_out_timeout h ws w g Hack Hw ltac:(lia) ltac:(lia) ltac:(lia)) as (o & h2 & R & Hc2 & Hx2 & Had2 & N2).
    exists o, h2. rewrite R, Hx2. split.
    { by replace (length ws + 1 - 1)%nat with (length ws) by lia. }
    split; [done|]. cbn -[Z.add Z.of_nat]. split; [|split; [lia|done]].
    split; [done|]. split; [by destruct Hack|]. split; [|done].
    rewrite Hxs. symmetry. by apply list_insert_id.
Qed.

(** C4.  A bulk OUT transaction does what USB 2.0 says, composed from its packets:
    whatever [rand()] inserts, the host drives on a quiet bus exactly the OUT token
    and the data packet that the endpoint's sequence bit selects, without an error
    and in at most 27 cycles and twice the payload, and then waits; for every link
    that answers with an ACK within the turnaround time, after any wait and with any
    hold, and for every link that stays silent, each cycle returns 0 but the last
    one, which returns 1 and leaves the transfer idle; the host drives no byte
    meanwhile; the sequence bit has flipped exactly if the link has answered, and no
    other endpoint's bit and no buffer has changed. *)
Theorem bulk_out_transaction host payload s g :
  queued_out host payload s ->
  exists m outs host1 g1, usbh_loop m host bus_quiet g = Ok (replicate m 0, outs, host1, g1) /\
    (m <= 2 * length payload + 27)%nat /\ received outs = out_wire (host_xfer host) payload s /\
    forall reply answered, link_answer reply answered ->
    exists outs' host2, usbh_run host1 reply g1 = Ok (replicate (length reply - 1) 0 ++ [1], outs', host2, g1) /\
      received outs' = [] /\ out_over (host_xfer host) s answered (host_xfer host2).
Proof.
  intros Hq. destruct (bulk_out_packets host payload s g Hq) as (m & outs & h & g1 & L & Hm & Hrec & Hack & Hcy & _ & Hx).
  exists m, outs, h, g1. split; [exact L|]. split; [exact Hm|]. split; [exact Hrec|].
  intros reply answered Ha. pose proof (qo_cycle _ _ _ Hq) as [Hc Hc'].
  destruct (bulk_out_reply host h payload s g1 reply answered Hq Hack ltac:(lia)
    ltac:(unfold TURNAROUND_TIMER; lia) Hx Ha) as (o & h2 & R & N & Hov & _).
  by exists o, h2.
Qed.

(** ** Witness *)

Definition out_example : usb_host_t :=
  guarded_example <| host_op := HostBulkOUT |>
    <| host_xfer := xfer_example <| type := OUT |> <| tok1 := 0x00 |> <| tok2 := 0x11 |> |>.

Definition ack_cycles : list ulpi_bus_t :=
  [bus_quiet; link_cycle SIG0 SIG0 ULPITX_ACK; link_cycle SIG0 SIG1 ULPITX_ACK; link_cycle SIG1 SIG0 0; bus_quiet].

Lemma ack_cycles_answer : link_answer ack_cycles true.
Proof.
  apply (answer_ack [bus_quiet] (link_cycle SIG0 SIG0 ULPITX_ACK) [link_cycle SIG0 SIG1 ULPITX_ACK]
    (link_cycle SIG1 SIG0 0) bus_quiet); [by repeat constructor| |done].
  constructor; try done; repeat constructor; discriminate.
Qed.

Lemma bulk_out_transaction_witness : exists m outs host1 g1,
  usbh_loop m out_example bus_quiet rng_example = Ok (replicate m 0, outs, host1, g1) /\
  received outs = [0xE1; 0x00; 0x11; 0xC3; 0xAA; 0x55; 0x01; crc1 xfer_example; crc2 xfer_example] /\
  exists outs' host2, usbh_run host1 ack_cycles g1 = Ok ([0; 0; 0; 0; 1], outs', host2, g1) /\
    ep_seq (host_xfer host2) !! 2%nat = Some SIG1.
Proof.
  assert (Hq : queued_out out_example [0xAA; 0x55; 0x01] 0) by (constructor; try done; by left).
  destruct (bulk_out_transaction out_example [0xAA; 0x55; 0x01] 0 rng_example Hq)
    as (m & outs & host1 & g1 & H1 & _ & H2 & H3).
  exists m, outs, host1, g1. split; [exact H1|]. split; [exact H2|].
  destruct (H3 ack_cycles true ack_cycles_answer) as (outs' & host2 & H4 & _ & _ & _ & H5 & _).
  exists outs', host2. split; [exact H4|]. rewrite H5. reflexivity.
Defined.
