(* ===== verification/UsbHostIn.v ===== *)
(** Bulk IN transactions of the USB host: the IN token, a data packet of the link
    with any wait states, and the host's handshake. *)

From S2P Require Import Prelude Gf2 UsbCrc Ulpi UlpiSafe UlpiTrace UlpiRecv StdReq.
From S2P Require Import StdReqProps UsbHost UsbHostProps UsbHostTrans.

#[local] Opaque crc16_calc crc5_calc crc5_check crc16_check.

(** ** Runs, without the bus and the random stream *)

(** Whatever [rand()] returns, the inputs [ins] take [host] to [host'], the steps
    return [rs], and the host drives no byte. *)
Definition runs (host : usb_host_t) (ins : list ulpi_bus_t) (rs : list Z) (host' : usb_host_t) : Prop :=
  forall g, exists outs g', usbh_run host ins g = Ok (rs, outs, host', g') /\ received outs = [].

Lemma runs_app host ins1 rs1 host1 ins2 rs2 host2 :
  runs host ins1 rs1 host1 -> runs host1 ins2 rs2 host2 -> runs host (ins1 ++ ins2) (rs1 ++ rs2) host2.
Proof.
  intros H1 H2 g. destruct (H1 g) as (o1 & g1 & E1 & N1). destruct (H2 g1) as (o2 & g2 & E2 & N2).
  rewrite usbh_run_app, E1, outcome_bind_ok. rewrite E2, outcome_bind_ok. do 2 eexists. split; [done|].
  by rewrite received_app, N1, N2.
Qed.

Lemma runs_one host inp r host' :
  (forall g, exists o g', usbh_step host inp ulpi_bus_zero g = Ok (r, host', o, g') /\ is_rx_byte o = false) ->
  runs host [inp] [r] host'.
Proof.
  intros H g. destruct (H g) as (o & g' & E & N). cbn [usbh_run]. rewrite E, outcome_bind_ok.
  do 2 eexists. split; [done|]. by rewrite received_skip.
Qed.

Lemma recv_silent x inp r x' o :
  datax_recv_step x inp inp = Ok (r, x', o) -> 0 <= r -> is_rx_byte o = false.
Proof.
  unfold datax_recv_step, recv_body, drive_eop, c_assert, is_rx_byte. cbv zeta.
  destruct (type x); try (intros [= <- _ _]; lia).
  all: destruct inp as [cl rs di st nx [da db]]; destruct (stage x); cbn -[Z.eqb check_seq check_rx_crc16 write_at]; intros H Hr.
  all: repeat match type of H with
    | context [if ?b then _ else _] => destruct b eqn:?
    | (check_seq ?y ?p ≫= _) = _ => destruct (check_seq y p) as [[]| |]
    | (check_rx_crc16 ?y ≫= _) = _ => destruct (check_rx_crc16 y) as [[[] ?]| |]
    | (write_at ?l ?p ?v ≫= _) = _ => destruct (write_at l p v)
    | _ => progress cbn -[Z.eqb] in H
    end; try discriminate H; injection H as <- <- <-; try lia; cbn -[Z.eqb].
  all: repeat match goal with E : (_ =? _) = true |- _ => apply Z.eqb_eq in E; subst end;
    rewrite ?andb_false_r; done.
Qed.

(** ** One cycle of the data phase *)

(** The transfer after a cycle: at the end of the packet it turns to the ACK. *)
Definition in_after (r : Z) (x : transfer_t) : transfer_t :=
  if 0 <? r then x <| type := DnACK |> <| stage := NoXfer |> else x.

Lemma in_step host inp r x o :
  host_op host = HostBulkIN -> is_up_data (type (host_xfer host)) = true -> out_of_reset inp ->
  0 <= host_cycle host < 2 ^ 32 -> -2 <= r ->
  datax_recv_step (host_xfer host) inp inp = Ok (r, x, o) -> is_rx_byte o = false ->
  0 < rx_ptr x \/ host_cycle host + 1 < xcycle x ->
  runs host [inp] [Z.min r 0] (hsk_at host 1 (in_after r x)).
Proof.
  intros Ho Ht Hr Hc Hle E Hn Hd. apply runs_one. intros g. unfold usbh_step.
  rewrite usbh_pre_not_idle; [|done|cbn; by rewrite Ho]. cbv zeta. rewrite u64_small by lia.
  set (h := host <| host_cycle := host_cycle host + 1 |>).
  change (host_op h) with (host_op host). rewrite Ho. unfold bulk_in_step.
  change (host_xfer h) with (host_xfer host). rewrite E, !outcome_bind_ok. cbv beta iota zeta.
  assert (Hl : (rx_ptr x =? 0) && (xcycle x <=? host_cycle h) = false).
  { change (host_cycle h) with (host_cycle host + 1). lia. }
  rewrite Hl, (proj2 (Z.ltb_ge r (-2))) by lia. unfold in_after.
  destruct (Z.ltb_spec r 0); [|destruct (Z.ltb_spec 0 r)].
  - rewrite (proj2 (Z.ltb_ge 0 r)), Z.min_l by lia. destruct (type (host_xfer host)); try discriminate Ht; by do 2 eexists.
  - rewrite Z.min_r by lia. destruct (type (host_xfer host)); try discriminate Ht; by do 2 eexists.
  - rewrite Z.min_r by lia.
    destruct (if (0 <? rx_ptr x) && (nxt o =? SIG1) then rand_wait g else (false, g)) as [w g'].
    assert (Hn' : is_rx_byte (if w then o <| nxt := SIG0 |> else o) = false)
      by (destruct w; [unfold is_rx_byte; cbn; by rewrite andb_false_r|done]).
    destruct (type (host_xfer host)); try discriminate Ht; by do 2 eexists.
Qed.

(** The turnaround deadline no longer applies: the first byte is stored. *)
Definition has_byte (x : transfer_t) : Prop :=
  0 < rx_ptr x /\ match stage x with NoXfer | DATAxPID => False | _ => True end.

Lemma check_rx_keeps x ok x' : check_rx_crc16 x = Ok (ok, x') -> exists c1 c2, x' = x <| crc1 := c1 |> <| crc2 := c2 |>.
Proof.
  unfold check_rx_crc16. destruct (0 <? rx_len x).
  - destruct (read_n (rx x) (rx_len x)) as [l| |]; [|done..]. rewrite outcome_bind_ok.
    destruct (read_n (rx x) (rx_ptr x)) as [l'| |]; [|done..]. rewrite outcome_bind_ok. cbv zeta.
    set (y := x <| crc1 := _ |> <| crc2 := _ |>). change (rx y) with (rx x).
    destruct (read_at (rx x) (rx_len x)); [|done..]. rewrite outcome_bind_ok.
    destruct (read_at (rx x) (rx_len x + 1)); [|done..]. rewrite outcome_bind_ok.
    intros [= _ <-]. by do 2 eexists.
  - intros H. exists (crc1 x), (crc2 x). destruct (read_at _ 0); [|done..]. rewrite outcome_bind_ok in H.
    destruct (read_at _ 1); [|done..]. rewrite outcome_bind_ok in H. injection H as _ <-. by destruct x.
Qed.

(** What every cycle of a packet but its last one keeps. *)
Record same_xfer (x x' : transfer_t) : Prop := {
  same_type : type x' = type x;
  same_ep : endpoint x' = endpoint x;
  same_seq : ep_seq x' = ep_seq x;
  same_cycle : xcycle x' = xcycle x;
  same_address : address x' = address x;
  same_tok1 : tok1 x' = tok1 x;
  same_tok2 : tok2 x' = tok2 x;
  same_tx : tx x' = tx x;
}.

#[export] Instance same_xfer_preorder : PreOrder same_xfer.
Proof. split; [by split|]. intros x y z [] []. constructor; by etrans. Qed.

Lemma recv_keeps x inp r x' o :
  is_up_data (type x) = true -> datax_recv_step x inp inp = Ok (r, x', o) -> r <= 0 ->
  same_xfer x x' /\ (has_byte x -> r = 0 -> has_byte x').
Proof.
  intros Ht. unfold datax_recv_step, recv_body, drive_eop, c_assert, has_byte. cbv zeta.
  destruct (type x) eqn:Ety; try discriminate Ht; clear Ht.
  all: destruct (stage x) eqn:Es; intros H Hr.
  all: repeat match type of H with
    | context [if ?b then _ else _] => destruct b
    | (check_seq ?y ?p ≫= _) = _ => destruct (check_seq y p) as [[]| |]
    | (check_rx_crc16 ?y ≫= _) = _ =>
        destruct (check_rx_crc16 y) as [[[] ?]| |] eqn:Ec; [apply check_rx_keeps in Ec as (? & ? & ->)|apply check_rx_keeps in Ec as (? & ? & ->)|..]
    | (write_at ?l ?p ?v ≫= _) = _ => destruct (write_at l p v)
    | _ => progress rewrite ?outcome_bind_ok in H
    | _ => progress cbn [mbind outcome_bind negb] in H
    end; try discriminate H; injection H as <- <- <-; try lia; rewrite <- ?Ety; cbn; rewrite ?Es; (split; [done|]); intros [? ?] ?; try done; try (split; [lia|done]).
Qed.

(** A stretch of a packet that [datax_recv_step] gets through takes the host one
    cycle per input. *)
Lemma in_run ins : forall host out x o,
  host_op host = HostBulkIN -> is_up_data (type (host_xfer host)) = true -> Forall out_of_reset ins ->
  0 <= host_cycle host -> host_cycle host + Z.of_nat (length ins) < 2 ^ 32 ->
  has_byte (host_xfer host) \/ host_cycle host + Z.of_nat (length ins) < xcycle (host_xfer host) ->
  run_steps datax_recv_step (host_xfer host) ins out = Ok (0, x, o) ->
  runs host ins (replicate (length ins) 0) (hsk_at host (Z.of_nat (length ins)) x) /\
  same_xfer (host_xfer host) x.
Proof.
  induction ins as [|i ins IH]; intros host out x o Ho Ht Hr Hc Hlt Hd H.
  { injection H as <- _. rewrite hsk_at_0. split; [|done]. intros g. by do 2 eexists. }
  apply Forall_cons_1 in Hr as [Hr1 Hr]. cbn [length] in *. cbn [run_steps] in H.
  assert (Hout : datax_recv_step (host_xfer host) i out = datax_recv_step (host_xfer host) i i) by done.
  rewrite Hout in H. destruct (datax_recv_step (host_xfer host) i i) as [[[r x1] o1]| |] eqn:E; [|done..].
  rewrite outcome_bind_ok in H. cbv beta iota in H. destruct (Z.eqb_spec r 0) as [->|Hr0]; [|by injection H].
  destruct (recv_keeps _ _ _ _ _ Ht E ltac:(lia)) as [K Kb]. pose proof K as [K1 _ _ K4 _ _ _ _].
  pose proof (in_step host i 0 x1 o1 Ho Ht Hr1 ltac:(lia) ltac:(lia) E
    ltac:(by apply (recv_silent _ _ _ _ _ E))) as H1.
  specialize (H1 ltac:(rewrite K4; destruct Hd as [Hb|]; [left; by apply Kb|right; lia])).
  destruct (IH (hsk_at host 1 x1) o1 x o) as [H2 K'];
    [done|by change (is_up_data (type x1) = true); rewrite K1|done|cbn; lia|cbn; lia| |exact H|].
  { change (has_byte x1 \/ host_cycle host + 1 + Z.of_nat (length ins) < xcycle x1).
    rewrite K4. destruct Hd as [Hb|]; [left; by apply Kb|right; lia]. }
  split.
  - pose proof (runs_app _ _ _ _ _ _ _ H1 H2) as H3. rewrite hsk_at_at in H3.
    by rewrite Nat2Z.inj_succ, <- Z.add_1_l.
  - by etrans.
Qed.

(** ** The link's packet *)

(** The link's cycles of a data packet with sequence bit [s]: none of the waiting
    ones drives the bus, [start] has the first byte of the transmit command, the
    PHY accepts the command at [pid] and the first byte at [first], with wait
    states of any number at [gap] and anywhere in [rest], and [stop] has STP. *)
Record up_packet (s : Z) (waits : list ulpi_bus_t) (start pid : ulpi_bus_t) (gap : list ulpi_bus_t)
    (first : ulpi_bus_t) (rest : list ulpi_bus_t) (stop : ulpi_bus_t) : Prop := {
  up_rst : Forall out_of_reset (waits ++ start :: pid :: gap ++ first :: rest ++ [stop]);
  up_waits : Forall (fun inp => data_a inp = 0) waits;
  up_start : data_a start <> 0;
  up_pid : pid_cycle pid = true;
  up_seq : txcmd_seq (data_a pid) = Some s;
  up_gap : forallb body_cycle gap = true /\ accepted gap = [];
  up_first : body_cycle first = true /\ nxt first = SIG1;
  up_rest : forallb body_cycle rest = true;
  up_stop : stop_cycle stop = true;
}.

(** The first byte comes within the turnaround time. *)
Definition in_time (waits gap : list ulpi_bus_t) : Prop :=
  Z.of_nat (length waits + length gap) + 2 < TURNAROUND_TIMER.

(** The link lets the host end the packet: it drives nothing while the host has
    the bus, and the bus is idle when it is released. *)
Record up_eop (e1 e2 e3 e4 : ulpi_bus_t) : Prop := {
  eop_rst : Forall out_of_reset [e1; e2; e3; e4];
  eop_stop : nxt e1 = SIG0;
  eop_end : dir e2 = SIG1 /\ nxt e2 = SIG0 /\ data_b e2 = 0;
  eop_eop : dir e3 = SIG1 /\ nxt e3 = SIG0 /\ data_b e3 = 0;
  eop_idle : dir e4 = SIG0 /\ nxt e4 = SIG0 /\ data_a e4 = 0;
}.

Lemma recv_wait_run waits x out :
  is_up_data (type x) = true -> stage x = NoXfer -> Forall (fun inp => data_a inp = 0) waits ->
  exists o, run_steps datax_recv_step x waits out = Ok (0, x, o).
Proof.
  intros Ht Hs Hw. revert out. induction Hw as [|i waits Hi Hw IH]; intros out; [by exists out|].
  assert (E : datax_recv_step x i out = Ok (0, x, i <| dir := SIG0 |>)).
  { unfold datax_recv_step. rewrite Hs, Hi. by destruct (type x). }
  cbn [run_steps]. rewrite E, outcome_bind_ok. apply IH.
Qed.

Lemma recv_start_step x inp out :
  is_up_data (type x) = true -> stage x = NoXfer -> data_a inp <> 0 ->
  exists o, datax_recv_step x inp out = Ok (0, x <| stage := DATAxPID |>, o).
Proof.
  intros Ht Hs Hd%Z.eqb_neq. unfold datax_recv_step. rewrite Hs, Hd.
  destruct (type x); try discriminate Ht; by eexists.
Qed.

(** The transfer when the packet's PID has been accepted. *)
Definition in_body (x : transfer_t) : transfer_t := x <| stage := DATAxBody |> <| rx_ptr := 0 |>.

Lemma run_steps_ok step x ins1 ins2 out x1 o1 :
  run_steps step x ins1 out = Ok (0, x1, o1) ->
  run_steps step x (ins1 ++ ins2) out = run_steps step x1 ins2 o1.
Proof. intros H. by rewrite run_steps_app, H, outcome_bind_ok. Qed.

(** Up to the cycle before the first byte. *)
Lemma recv_head_run s waits start pid gap first rest stop x out :
  up_packet s waits start pid gap first rest stop ->
  is_up_data (type x) = true -> stage x = NoXfer ->
  ep_seq x !! Z.to_nat (Z.land (endpoint x) 0x0f) = Some s ->
  exists o, run_steps datax_recv_step x (waits ++ [start; pid] ++ gap) out = Ok (0, in_body x, o).
Proof.
  intros [_ Hw Hst Hp Hq [Hg Ha] _ _ _] Ht Hs Hseq.
  destruct (recv_wait_run waits x out Ht Hs Hw) as [o1 H1]. rewrite (run_steps_ok _ _ _ _ _ _ _ H1).
  destruct (recv_start_step x start o1 Ht Hs Hst) as [o2 H2].
  set (x1 := x <| stage := DATAxPID |>) in *.
  pose proof (recv_pid_step x1 pid o2 s Ht eq_refl Hp Hseq) as H3. rewrite Hq, Z.eqb_refl in H3.
  cbn [app run_steps]. rewrite H2, outcome_bind_ok. cbv beta iota. change (0 =? 0) with true. cbv iota.
  rewrite H3, outcome_bind_ok. cbv beta iota. change (0 =? 0) with true. cbv iota.
  change (x1 <| stage := DATAxBody |> <| rx_ptr := 0 |>) with (in_body x).
  pose proof (recv_body_run (in_body x) gap (pid <| nxt := SIG0 |>) Ht eq_refl ltac:(done) Hg) as H4.
  rewrite Ha in H4. change (rx_ptr (in_body x) + Z.of_nat (length (@nil Z))) with 0 in H4.
  rewrite (proj2 (Z.leb_le 0 _)) in H4 by lia. rewrite rx_append_nil in H4 by done. exact H4.
Qed.

(** A host that waits for the data packet of its IN transaction. *)
Record awaits_data (host : usb_host_t) (s : Z) : Prop := {
  ad_op : host_op host = HostBulkIN;
  ad_type : is_up_data (type (host_xfer host)) = true;
  ad_stage : stage (host_xfer host) = NoXfer;
  ad_ep : 0 <= endpoint (host_xfer host) < 16;
  ad_seq : ep_seq (host_xfer host) !! Z.to_nat (endpoint (host_xfer host)) = Some s;
  ad_rx : Forall is_byte (rx (host_xfer host)) /\ length (rx (host_xfer host)) = 512%nat;
  ad_cycle : 0 <= host_cycle host;
  ad_deadline : xcycle (host_xfer host) = host_cycle host + TURNAROUND_TIMER;
}.

(** The transfer with the first byte of the packet. *)
Definition in_first (x : transfer_t) (v : Z) : transfer_t :=
  in_body x <| rx := <[0%nat := v]> (rx x) |> <| rx_ptr := 1 |>.

Lemma recv_first_step x inp out :
  is_up_data (type x) = true -> (0 < length (rx x))%nat -> body_cycle inp = true -> nxt inp = SIG1 ->
  datax_recv_step (in_body x) inp out = Ok (0, in_first x (data_a inp), inp).
Proof.
  intros Ht Hl Hb Hn. rewrite (recv_body_cycle (in_body x) inp out Ht eq_refl Hb), Hn.
  change (SIG1 =? SIG1) with true. cbv iota.
  change (rx (in_body x)) with (rx x). change (rx_ptr (in_body x)) with 0.
  by rewrite write_at_in, outcome_bind_ok by lia.
Qed.

(** The packet up to its first byte. *)
Lemma in_head_run host s waits start pid gap first rest stop :
  awaits_data host s -> up_packet s waits start pid gap first rest stop -> in_time waits gap ->
  host_cycle host + Z.of_nat (length waits + length gap) + 3 < 2 ^ 32 ->
  let n := (length waits + length gap + 3)%nat in
  let x := in_first (host_xfer host) (data_a first) in
  runs host (waits ++ start :: pid :: gap ++ [first]) (replicate n 0) (hsk_at host (Z.of_nat n) x).
Proof.
  intros [Ho Ht Hs He Hseq [Hrx Hlen] Hc Hd] Hp Htm Hlt. cbv zeta. unfold in_time in Htm. set (x := host_xfer host) in *.
  rewrite <- (endpoint_mask (endpoint x) He) in Hseq.
  destruct (recv_head_run s waits start pid gap first rest stop x bus_quiet Hp Ht Hs Hseq) as [o Hrun].
  destruct Hp as [Hrst _ _ _ _ _ [Hf Hn] _ _]. unfold TURNAROUND_TIMER in *.
  assert (Hrst1 : Forall out_of_reset (waits ++ [start; pid] ++ gap) /\ out_of_reset first).
  { apply Forall_app in Hrst as [Ha Hrst]. apply Forall_cons_1 in Hrst as [Hb Hrst].
    apply Forall_cons_1 in Hrst as [Hc' Hrst]. apply Forall_app in Hrst as [Hd' Hrst].
    apply Forall_cons_1 in Hrst as [He' _]. split; [|done].
    apply Forall_app_2; [done|]. by apply Forall_cons_2, Forall_cons_2. }
  destruct Hrst1 as [Hrst1 Hr1].
  assert (Hlw : length (waits ++ [start; pid] ++ gap) = (length waits + length gap + 2)%nat)
    by (rewrite !length_app; cbn [length]; lia).
  destruct (in_run _ host bus_quiet (in_body x) o Ho Ht Hrst1 Hc ltac:(lia) ltac:(right; fold x; lia) Hrun) as [R1 _].
  rewrite Hlw in R1. set (h1 := hsk_at host _ (in_body x)) in R1.
  pose proof (recv_first_step x first first Ht ltac:(lia) Hf Hn) as E1.
  assert (R2 : runs h1 [first] [0] (hsk_at h1 1 (in_first x (data_a first)))).
  { apply (in_step h1 first 0 _ first); [done|done|done|cbn; lia|lia|exact E1|by apply (recv_silent _ _ _ _ _ E1)|by left]. }
  pose proof (runs_app _ _ _ _ _ _ _ R1 R2) as R. subst h1. rewrite hsk_at_at in R.
  replace (waits ++ start :: pid :: gap ++ [first]) with ((waits ++ [start; pid] ++ gap) ++ [first])
    by (by rewrite <- !app_assoc).
  replace (length waits + length gap + 3)%nat with (length waits + length gap + 2 + 1)%nat by lia.
  rewrite replicate_add, (Nat2Z.inj_add _ 1). exact R.
Qed.

(** The bytes of the packet, with the CRC. *)
Definition packet_bytes (first : ulpi_bus_t) (rest : list ulpi_bus_t) : list Z :=
  data_a first :: accepted rest.

(** From the first byte to the stop, on the transfer. *)
Lemma recv_tail_run x0 first rest stop out :
  let bytes := packet_bytes first rest in
  let x1 := in_first x0 (data_a first) in
  is_up_data (type x0) = true -> Forall is_byte (rx x0) -> length (rx x0) = 512%nat ->
  forallb body_cycle rest = true -> stop_cycle stop = true ->
  Forall is_byte bytes -> (2 <= length bytes <= 512)%nat ->
  exists x2 o x' o', run_steps datax_recv_step x1 rest out = Ok (0, x2, o) /\
    datax_recv_step x2 stop stop = Ok (if crc16_check bytes then 0 else -1, x', o') /\
    is_up_data (type x2) = true /\ same_xfer x0 x2 /\ stage x' = DATAxStop /\ rx_packet x' = bytes /\
    rx_len x' = Z.of_nat (length bytes) - 2 /\ rx_ptr x' = Z.of_nat (length bytes) /\
    length (rx x') = 512%nat /\ Forall is_byte (rx x') /\ is_rx_byte o' = false.
Proof.
  cbv zeta. intros Ht Hrx Hl Hb Hst Hby Hlen.
  set (bytes := packet_bytes first rest) in *. set (x1 := in_first x0 (data_a first)) in *.
  pose proof (recv_body_run x1 rest out Ht eq_refl ltac:(done) Hb) as Hrun.
  assert (Hl1 : length (rx x1) = 512%nat) by (cbn; by rewrite length_insert).
  rewrite (proj2 (Z.leb_le _ _)) in Hrun by (rewrite Hl1; unfold bytes, packet_bytes in Hlen; cbn in Hlen |- *; lia).
  destruct Hrun as [o Hrun].
  assert (Ha : rx_append x1 (accepted rest) = rx_append (in_body x0) bytes)
    by (apply (rx_append_cons (in_body x0)); cbn; lia).
  rewrite Ha in Hrun. set (x2 := rx_append (in_body x0) bytes) in *. clearbody bytes.
  assert (Hp2 : rx_ptr x2 = Z.of_nat (length bytes)) by done.
  assert (Hl2 : length (rx x2) = 512%nat) by (unfold x2; rewrite rx_append_length; cbn; lia).
  pose proof (rx_append_packet (in_body x0) bytes eq_refl) as Hpk. fold x2 in Hpk.
  destruct (recv_stop_step x2 stop stop) as (x' & o' & E & S1 & S2 & S3 & S4 & _ & S5);
    [done|done|done|by apply rx_append_bytes|lia|].
  rewrite Hpk in E. exists x2, o, x', o'. rewrite S4, S3, Hp2, S2. split_and!; try done.
  - rewrite <- Hpk. unfold rx_packet. by rewrite S2, S3.
  - by apply rx_append_bytes.
  - unfold is_rx_byte. rewrite S5. by rewrite andb_false_r.
Qed.

(** From the first byte to the stop. *)
Lemma in_tail_run host x0 first rest stop :
  let bytes := packet_bytes first rest in
  host_op host = HostBulkIN -> is_up_data (type x0) = true -> host_xfer host = in_first x0 (data_a first) ->
  Forall is_byte (rx x0) -> length (rx x0) = 512%nat -> 0 <= host_cycle host ->
  Forall out_of_reset (rest ++ [stop]) -> forallb body_cycle rest = true -> stop_cycle stop = true ->
  Forall is_byte bytes -> (2 <= length bytes <= 512)%nat ->
  host_cycle host + Z.of_nat (length rest) + 1 < 2 ^ 32 ->
  exists x', runs host (rest ++ [stop]) (replicate (length rest) 0 ++ [if crc16_check bytes then 0 else -1])
      (hsk_at host (Z.of_nat (length rest + 1)) x') /\
    same_xfer (host_xfer host) x' /\ stage x' = DATAxStop /\ rx_packet x' = bytes /\
    rx_len x' = Z.of_nat (length bytes) - 2 /\ 2 <= rx_ptr x' /\ length (rx x') = 512%nat /\ Forall is_byte (rx x').
Proof.
  cbv zeta. intros Ho Ht Hx Hrx Hl Hc Hr Hb Hst Hby Hlen Hlt.
  apply Forall_app in Hr as [Hr Hr']. apply Forall_cons_1 in Hr' as [Hr' _].
  destruct (recv_tail_run x0 first rest stop bus_quiet Ht Hrx Hl Hb Hst Hby Hlen)
    as (x2 & o & x' & o' & Hrun & E & Ht2 & K1 & S1 & S2 & S3 & S4 & S5 & S6 & S7).
  set (bytes := packet_bytes first rest) in *. clearbody bytes. rewrite <- Hx in Hrun.
  destruct (in_run rest host bus_quiet x2 o Ho) as [R1 _]; [by rewrite Hx|done|done|lia| |exact Hrun|].
  { left. by rewrite Hx. }
  set (h1 := hsk_at host _ x2) in R1.
  destruct (recv_keeps x2 stop _ x' o' Ht2 E ltac:(by destruct (crc16_check bytes))) as [K2 _].
  exists x'. split; [|split; [|split_and!; [done|done|done|lia|done|done]]].
  - pose proof (in_step h1 stop (if crc16_check bytes then 0 else -1) x' o' Ho Ht2 Hr' ltac:(cbn; lia)
      ltac:(by destruct (crc16_check bytes)) E S7 ltac:(left; lia)) as R2.
    replace (in_after _ x') with x' in R2 by (by destruct (crc16_check bytes)).
    replace (Z.min _ 0) with (if crc16_check bytes then 0 else -1) in R2 by (by destruct (crc16_check bytes)).
    pose proof (runs_app _ _ _ _ _ _ _ R1 R2) as R. subst h1. rewrite hsk_at_at in R.
    by rewrite (Nat2Z.inj_add _ 1).
  - rewrite Hx. etrans; [|exact K2]. by destruct K1.
Qed.

(** ** The end of the packet, and the ACK *)

(** The transfer when the host starts its ACK. *)
Definition in_ack (x : transfer_t) : transfer_t := x <| type := DnACK |> <| stage := NoXfer |>.

Lemma recv_eop_run x e1 e2 e3 e4 out :
  is_up_data (type x) = true -> stage x = DATAxStop -> up_eop e1 e2 e3 e4 ->
  (exists o, run_steps datax_recv_step x [e1; e2; e3] out = Ok (0, x <| stage := LineIdle |>, o)) /\
  exists o, datax_recv_step (x <| stage := LineIdle |>) e4 e4 =
    Ok (1, x <| type := XferIdle |> <| stage := NoXfer |>, o).
Proof.
  intros Ht Hs [_ H1 (H2 & H3 & H4) (H5 & H6 & H7) (H8 & H9 & H10)].
  destruct x as [ad ep t s sq cy tx tl tp rx rl rp t1 t2 c1 c2]. cbn in Ht, Hs. subst s.
  cbn [run_steps]. unfold datax_recv_step, drive_eop.
  destruct t; try discriminate Ht; cbn -[Z.eqb];
    rewrite H1, H2, H3, H4, H5, H6, H7, H8, H9, H10; cbn; split; by eexists.
Qed.

Lemma in_eop_run host e1 e2 e3 e4 :
  host_op host = HostBulkIN -> is_up_data (type (host_xfer host)) = true ->
  stage (host_xfer host) = DATAxStop -> 2 <= rx_ptr (host_xfer host) ->
  0 <= host_cycle host -> host_cycle host + 4 < 2 ^ 32 -> up_eop e1 e2 e3 e4 ->
  runs host [e1; e2; e3; e4] (replicate 4 0) (hsk_at host 4 (in_ack (host_xfer host))).
Proof.
  intros Ho Ht Hs Hp Hc Hlt He. pose proof (eop_rst _ _ _ _ He) as Hr.
  destruct (recv_eop_run (host_xfer host) e1 e2 e3 e4 bus_quiet Ht Hs He) as [[o1 E1] [o2 E2]].
  change [e1; e2; e3; e4] with ([e1; e2; e3] ++ [e4]) in *. apply Forall_app in Hr as [Hr1 Hr2].
  apply Forall_cons_1 in Hr2 as [Hr2 _].
  set (x1 := host_xfer host <| stage := LineIdle |>) in *.
  destruct (in_run [e1; e2; e3] host bus_quiet x1 o1 Ho Ht Hr1 Hc ltac:(cbn; lia)) as [R1 _]; [|exact E1|].
  { left. split; [lia|by rewrite Hs]. }
  pose proof (in_step (hsk_at host 3 x1) e4 1 _ o2 Ho Ht Hr2 ltac:(cbn; lia) ltac:(lia) E2
    ltac:(by apply (recv_silent _ _ _ _ _ E2)) ltac:(left; cbn; lia)) as R2.
  pose proof (runs_app _ _ _ _ _ _ _ R1 R2) as R. rewrite hsk_at_at in R.
  unfold in_ack. unfold in_after in R. by destruct (host_xfer host).
Qed.

(** A cycle of the host's ACK; the last one flips the sequence bit. *)
Lemma send_ack_step host inp g r x o :
  host_op host = HostBulkIN -> type (host_xfer host) = DnACK -> out_of_reset inp ->
  0 <= host_cycle host < 2 ^ 32 -> ack_send_step (host_xfer host) inp inp = Ok (r, x, o) ->
  usbh_step host inp ulpi_bus_zero g =
  if 0 <? r
  then (x ← transfer_ack x; Ok (r, hsk_at host 1 (x <| type := XferIdle |> <| stage := NoXfer |>), o, g))
  else Ok (r, hsk_at host 1 x, o, g).
Proof.
  intros Ho Ht Hr Hc E. unfold usbh_step.
  rewrite usbh_pre_not_idle; [|done|cbn; by rewrite Ho]. cbv zeta. rewrite u64_small by lia.
  set (h := host <| host_cycle := host_cycle host + 1 |>).
  change (host_op h) with (host_op host). rewrite Ho. unfold bulk_in_step.
  change (host_xfer h) with (host_xfer host). by rewrite Ht, E, outcome_bind_ok.
Qed.

(** The bus while the host sends its ACK, and the transfer's stages. *)
Lemma ack_send_phases x :
  type x = DnACK -> stage x = NoXfer ->
  let at_ t := x <| stage := t |> in
  ack_send_step x bus_quiet bus_quiet = Ok (0, at_ AssertDir, bus_turnaround) /\
  ack_send_step (at_ AssertDir) bus_turnaround bus_turnaround = Ok (0, at_ InitRXCMD, bus_rx_cmd 0x5D) /\
  ack_send_step (at_ InitRXCMD) (bus_rx_cmd 0x5D) (bus_rx_cmd 0x5D) = Ok (0, at_ HskPID, bus_rx_byte 0xD2) /\
  ack_send_step (at_ HskPID) (bus_rx_byte 0xD2) (bus_rx_byte 0xD2) = Ok (0, at_ EndRXCMD, bus_rx_cmd 0x4C) /\
  ack_send_step (at_ EndRXCMD) (bus_rx_cmd 0x4C) (bus_rx_cmd 0x4C) = Ok (0, at_ EOP, bus_rx_cmd 0x4D) /\
  ack_send_step (at_ EOP) (bus_rx_cmd 0x4D) (bus_rx_cmd 0x4D) = Ok (0, at_ LineIdle, bus_released) /\
  ack_send_step (at_ LineIdle) bus_released bus_released =
    Ok (1, x <| type := XferIdle |> <| stage := NoXfer |>, bus_released).
Proof. intros Ht Hs. destruct x. cbn in Ht, Hs. subst. by split_and!. Qed.

Lemma send_ack_loop host s g :
  host_op host = HostBulkIN -> type (host_xfer host) = DnACK -> stage (host_xfer host) = NoXfer ->
  0 <= host_cycle host -> host_cycle host + 7 < 2 ^ 32 -> 0 <= endpoint (host_xfer host) ->
  ep_seq (host_xfer host) !! Z.to_nat (endpoint (host_xfer host)) = Some s ->
  usbh_loop 7 host bus_quiet g =
    Ok (replicate 6 0 ++ [1], packet_trace [0xD2], hsk_at host 7 (acked (host_xfer host) s), g).
Proof.
  intros Ho Ht Hs Hc Hlt He Hq. set (x := host_xfer host) in *.
  destruct (ack_send_phases x Ht Hs) as (E1 & E2 & E3 & E4 & E5 & E6 & E7).
  assert (Hstep : forall n k y inp y' o, ack_send_step y inp inp = Ok (0, y', o) ->
    0 <= k <= 6 -> type y = DnACK -> out_of_reset inp ->
    usbh_loop (S n) (hsk_at host k y) inp g =
    ('(rs, outs, h, g) ← usbh_loop n (hsk_at host (k + 1) y') o g; Ok (0 :: rs, o :: outs, h, g))).
  { intros n k y inp y' o E Hk Hy Hr. apply usbh_loop_cons.
    rewrite (send_ack_step (hsk_at host k y) inp g 0 y' o) by (done || cbn; lia).
    by rewrite hsk_at_at. }
  rewrite <- (hsk_at_0 host) at 1. fold x.
  rewrite (Hstep 6%nat 0 _ _ _ _ E1 ltac:(lia) Ht ltac:(done)).
  rewrite (Hstep 5%nat (0 + 1) _ _ _ _ E2 ltac:(lia) Ht ltac:(done)).
  rewrite (Hstep 4%nat (0 + 1 + 1) _ _ _ _ E3 ltac:(lia) Ht ltac:(done)).
  rewrite (Hstep 3%nat (0 + 1 + 1 + 1) _ _ _ _ E4 ltac:(lia) Ht ltac:(done)).
  rewrite (Hstep 2%nat (0 + 1 + 1 + 1 + 1) _ _ _ _ E5 ltac:(lia) Ht ltac:(done)).
  rewrite (Hstep 1%nat (0 + 1 + 1 + 1 + 1 + 1) _ _ _ _ E6 ltac:(lia) Ht ltac:(done)).
  set (h6 := hsk_at host (0 + 1 + 1 + 1 + 1 + 1 + 1) _).
  set (y := x <| type := XferIdle |> <| stage := NoXfer |>) in E7.
  pose proof (send_ack_step h6 bus_released g 1 y bus_released Ho Ht ltac:(done) ltac:(cbn; lia) E7) as H7.
  change (0 <? 1) with true in H7. cbv iota in H7.
  rewrite (transfer_ack_run y s Hq He), outcome_bind_ok in H7.
  rewrite (usbh_loop_cons 0 _ _ _ _ _ _ _ H7). cbn [usbh_loop].
  rewrite !outcome_bind_ok. cbn [app replicate]. subst h6. rewrite hsk_at_at.
  done.
Qed.

(** ** Bulk IN *)

(** A bulk IN transaction that is queued; [s] is the sequence bit of the endpoint. *)
Record queued_in (host : usb_host_t) (s : Z) : Prop := {
  qi_op : host_op host = HostBulkIN;
  qi_type : type (host_xfer host) = IN;
  qi_stage : stage (host_xfer host) = NoXfer;
  qi_ep : 0 <= endpoint (host_xfer host) < 16;
  qi_seq : ep_seq (host_xfer host) !! Z.to_nat (endpoint (host_xfer host)) = Some s;
  qi_rx : Forall is_byte (rx (host_xfer host)) /\ length (rx (host_xfer host)) = 512%nat;
  qi_ptr : rx_ptr (host_xfer host) = 0;
  qi_cycle : 0 <= host_cycle host /\ host_cycle host + 100 < 2 ^ 32;
}.

Lemma bulk_in_token_sent host s g :
  queued_in host s ->
  exists host', usbh_loop 9 host bus_quiet g =
      Ok (replicate 9 0, packet_trace [0x69; tok1 (host_xfer host); tok2 (host_xfer host)], host', g) /\
    awaits_data host' s /\ host_cycle host' = host_cycle host + 9 /\ rx_ptr (host_xfer host') = 0 /\
    endpoint (host_xfer host') = endpoint (host_xfer host) /\ ep_seq (host_xfer host') = ep_seq (host_xfer host) /\
    tx (host_xfer host') = tx (host_xfer host) /\ host_addr host' = host_addr host.
Proof.
  intros [Ho Ht Hs He Hq [Hr Hl] Hp [Hc Hlt]].
  pose proof (token_loop_packet (host_xfer host) ltac:(by rewrite Ht) Hs) as Htok. rewrite Ht in Htok.
  destruct (usbh_token_loop _ _ _ 8 bulk_in_token host bus_quiet _ (token_done (host_xfer host)) g s
    Ho Ht ltac:(done) ltac:(lia) Hq eq_refl eq_refl Htok) as (h & L & H1 & H2 & H3 & H4).
  change (Z.of_nat 9) with 9 in H3. rewrite u64_small in H3 by lia.
  exists h. split; [exact L|]. rewrite H2. split; [|by split_and!].
  constructor; rewrite ?H2; try done.
  - cbn. unfold in_type. by destruct (s =? SIG0).
  - lia.
  - change (xcycle _) with (u32 (u64 (host_cycle h + TURNAROUND_TIMER))).
    apply deadline_in_range; unfold TURNAROUND_TIMER; lia.
Qed.

(** The cycles of a data packet of the link, and its bytes with the CRC. *)
Inductive in_packet (s : Z) : list ulpi_bus_t -> list Z -> Prop :=
| in_packet_cycles waits start pid gap first rest stop :
    up_packet s waits start pid gap first rest stop -> in_time waits gap ->
    Forall is_byte (packet_bytes first rest) -> (2 <= length (packet_bytes first rest) <= 512)%nat ->
    in_packet s ((waits ++ start :: pid :: gap ++ [first]) ++ rest ++ [stop]) (packet_bytes first rest).

(** What a host holds when it has read a packet and checked its CRC. *)
Record packet_read (host : usb_host_t) (bytes : list Z) (host' : usb_host_t) : Prop := {
  pr_op : host_op host' = HostBulkIN;
  pr_type : is_up_data (type (host_xfer host')) = true;
  pr_stage : stage (host_xfer host') = DATAxStop;
  pr_ep : endpoint (host_xfer host') = endpoint (host_xfer host);
  pr_seq : ep_seq (host_xfer host') = ep_seq (host_xfer host);
  pr_bytes : rx_packet (host_xfer host') = bytes;
  pr_len : rx_len (host_xfer host') = Z.of_nat (length bytes) - 2;
  pr_ptr : 2 <= rx_ptr (host_xfer host');
  pr_buffers : tx (host_xfer host') = tx (host_xfer host) /\
    length (rx (host_xfer host')) = 512%nat /\ Forall is_byte (rx (host_xfer host'));
}.

Lemma in_packet_run host s packet bytes :
  awaits_data host s -> in_packet s packet bytes -> host_cycle host + Z.of_nat (length packet) < 2 ^ 32 ->
  exists host', runs host packet (replicate (length packet - 1) 0 ++ [if crc16_check bytes then 0 else -1]) host' /\
    packet_read host bytes host' /\ host_cycle host' = host_cycle host + Z.of_nat (length packet) /\
    host_addr host' = host_addr host.
Proof.
  intros Ha [waits start pid gap first rest stop Hp Htm Hb Hl] Hlt.
  assert (Hn : length ((waits ++ start :: pid :: gap ++ [first]) ++ rest ++ [stop]) =
    (length waits + length gap + 3 + (length rest + 1))%nat) by (repeat (rewrite !length_app; cbn [length]); lia).
  rewrite Hn in *.
  pose proof (in_head_run host s _ _ _ _ _ _ _ Ha Hp Htm ltac:(lia)) as R1. cbv zeta in R1.
  destruct Ha as [Ho Ht Hs He Hseq [Hrx Hl'] Hc Hd]. destruct Hp as [Hrst _ _ _ _ _ _ Hre Hst].
  set (h1 := hsk_at host _ _) in R1.
  assert (Hrst2 : Forall out_of_reset (rest ++ [stop])).
  { apply Forall_app in Hrst as [_ Hrst]. do 2 apply Forall_cons_1 in Hrst as [_ Hrst].
    apply Forall_app in Hrst as [_ Hrst]. by apply Forall_cons_1 in Hrst as [_ Hrst]. }
  destruct (in_tail_run h1 (host_xfer host) first rest stop Ho Ht eq_refl Hrx Hl' ltac:(cbn; lia)
    Hrst2 Hre Hst Hb Hl ltac:(cbn; lia)) as (x' & R2 & [K1 K2 K3 _ _ _ _ K8] & H1 & H2 & H3 & H4 & H5 & H6).
  exists (hsk_at h1 (Z.of_nat (length rest + 1)) x'). split; [|split].
  - pose proof (runs_app _ _ _ _ _ _ _ R1 R2) as R. rewrite (app_assoc (replicate _ 0)), <- replicate_add in R.
    replace (_ + (length rest + 1) - 1)%nat with (length waits + length gap + 3 + length rest)%nat by lia. exact R.
  - constructor; try done. change (is_up_data (type x') = true). by rewrite K1.
  - split; [cbn; lia|done].
Qed.

(** The host gives up after the turnaround time, and is done in the cycle after that. *)
Lemma in_silence_run host s waits i :
  awaits_data host s -> rx_ptr (host_xfer host) = 0 -> Forall out_of_reset (waits ++ [i]) -> dir i = SIG0 ->
  Forall (fun inp => data_a inp = 0) waits -> Z.of_nat (length waits) = TURNAROUND_TIMER ->
  host_cycle host + 41 < 2 ^ 32 ->
  exists host', runs host (waits ++ [i]) (replicate (length waits) 0 ++ [1]) host' /\
    host_xfer host' = host_xfer host <| type := XferIdle |> /\ host_addr host' = host_addr host /\
    host_cycle host' = host_cycle host + 41.
Proof.
  intros [Ho Ht Hs _ _ _ Hc Hd] Hp [Hr Hr']%Forall_app Hdir Hw Hl Hlt. unfold TURNAROUND_TIMER in *.
  apply Forall_cons_1 in Hr' as [Hr' _].
  destruct (exists_last (l := waits)) as (ws & w & ->); [by intros ->|].
  apply Forall_app in Hr as [Hr1 Hr2], Hw as [Hw1 Hw2].
  apply Forall_cons_1 in Hr2 as [Hr2 _], Hw2 as [Hw2 _].
  rewrite length_app in Hl |- *. cbn [length] in Hl |- *. set (x := host_xfer host) in *.
  destruct (recv_wait_run ws x bus_quiet Ht Hs Hw1) as [o1 E1].
  destruct (in_run ws host bus_quiet x o1 Ho Ht Hr1 Hc ltac:(lia) ltac:(right; fold x; lia) E1) as [R1 _].
  set (h1 := hsk_at host _ x) in R1. set (x2 := x <| type := TimeOut |>). set (h2 := hsk_at h1 1 x2).
  assert (R2 : runs h1 [w] [0] h2).
  { apply runs_one. intros g. unfold usbh_step. rewrite usbh_pre_not_idle; [|done|cbn; by rewrite Ho].
    cbv zeta. rewrite u64_small by (cbn; lia). set (h := h1 <| host_cycle := host_cycle h1 + 1 |>).
    change (host_op h) with (host_op host). rewrite Ho. unfold bulk_in_step.
    change (host_xfer h) with x.
    assert (E : datax_recv_step x w w = Ok (0, x, w <| dir := SIG0 |>)).
    { unfold datax_recv_step. rewrite Hs, Hw2. by destruct (type x). }
    rewrite E, !outcome_bind_ok. cbv beta iota zeta.
    assert (Hx : (rx_ptr x =? 0) && (xcycle x <=? host_cycle h) = true) by (rewrite Hp; cbn; lia).
    rewrite Hx. destruct (type x); try discriminate Ht; (do 2 eexists; split; [reflexivity|by apply idle_no_byte]). }
  exists (hsk_at h2 1 (x <| type := XferIdle |>)). split; [|split; [done|split; [done|cbn; lia]]].
  assert (R3 : runs h2 [i] [1] (hsk_at h2 1 (x <| type := XferIdle |>))).
  { apply runs_one. intros g. unfold usbh_step. rewrite usbh_pre_not_idle; [|done|cbn; by rewrite Ho].
    cbv zeta. rewrite u64_small by (cbn; lia). set (h := h2 <| host_cycle := host_cycle h2 + 1 |>).
    change (host_op h) with (host_op host). rewrite Ho. unfold bulk_in_step.
    change (host_xfer h) with x2. change (type x2) with TimeOut. cbv iota zeta.
    rewrite (proj2 (Z.leb_le (xcycle x2) (host_cycle h))) by (cbn; fold x; lia).
    do 2 eexists. split; [|by apply idle_no_byte]. subst x2. destruct x. cbn in Hs. subst. reflexivity. }
  pose proof (runs_app _ _ _ _ _ _ _ (runs_app _ _ _ _ _ _ _ R1 R2) R3) as R.
  by rewrite replicate_add.
Qed.

(** The transfer is over; [answered] says whether the sequence bit has flipped. *)
Definition in_done (host : usb_host_t) (s : Z) (answered : bool) (host' : usb_host_t) : Prop :=
  type (host_xfer host') = XferIdle /\ stage (host_xfer host') = NoXfer /\
  ep_seq (host_xfer host') =
    <[Z.to_nat (endpoint (host_xfer host)) := next_seq s answered]> (ep_seq (host_xfer host)) /\
  tx (host_xfer host') = tx (host_xfer host) /\ length (rx (host_xfer host')) = 512%nat /\
  Forall is_byte (rx (host_xfer host')).

(** The host's answer to a packet that it has read and that passes its CRC. *)
Definition acknowledges (host0 : usb_host_t) (s : Z) (host : usb_host_t) (bytes : list Z) : Prop :=
  forall e1 e2 e3 e4, up_eop e1 e2 e3 e4 ->
  exists host1, runs host [e1; e2; e3; e4] (replicate 4 0) host1 /\
    forall g, exists outs host2, usbh_loop 7 host1 bus_quiet g = Ok (replicate 6 0 ++ [1], outs, host2, g) /\
      received outs = [0xD2] /\ in_done host0 s true host2 /\
      rx_packet (host_xfer host2) = bytes /\ rx_len (host_xfer host2) = Z.of_nat (length bytes) - 2 /\
      host_cycle host2 = host_cycle host + 11 /\ host_addr host2 = host_addr host.

Lemma packet_acknowledged host0 s h host bytes :
  queued_in host0 s -> endpoint (host_xfer h) = endpoint (host_xfer host0) ->
  ep_seq (host_xfer h) = ep_seq (host_xfer host0) -> tx (host_xfer h) = tx (host_xfer host0) ->
  packet_read h bytes host ->
  0 <= host_cycle host -> host_cycle host + 11 < 2 ^ 32 -> acknowledges host0 s host bytes.
Proof.
  intros [_ _ _ He Hq _ _ _] Ee Eq Etx [P1 P2 P3 P4 P5 P6 P7 P8 [P9 P10]] Hc Hlt e1 e2 e3 e4 He4.
  rewrite Ee in P4. rewrite Eq in P5.
  pose proof (in_eop_run host e1 e2 e3 e4 P1 P2 P3 P8 Hc ltac:(lia) He4) as R.
  set (h1 := hsk_at host 4 (in_ack (host_xfer host))) in R. exists h1. split; [exact R|]. intros g.
  assert (He1 : endpoint (host_xfer h1) = endpoint (host_xfer host0)) by done.
  assert (Hq1 : ep_seq (host_xfer h1) = ep_seq (host_xfer host0)) by done.
  pose proof (send_ack_loop h1 s g P1 eq_refl eq_refl ltac:(cbn; lia) ltac:(cbn; lia)
    ltac:(rewrite He1; lia) ltac:(by rewrite Hq1, He1)) as L.
  do 2 eexists. split; [exact L|]. split; [done|]. split.
  - split; [done|]. split; [done|]. split; [|split; [|done]].
    + change (ep_seq (host_xfer (hsk_at h1 7 (acked (host_xfer h1) s))))
        with (<[Z.to_nat (endpoint (host_xfer h1)) := flip_seq s]> (ep_seq (host_xfer h1))).
      by rewrite He1, Hq1.
    + change (tx (host_xfer host) = tx (host_xfer host0)). by rewrite P9.
  - split; [done|]. split; [done|]. split; [|done]. cbn. lia.
Qed.

(** C5.  A bulk IN transaction does what USB 2.0 says.  The host drives exactly the IN
    token, in nine cycles.  Then, whatever [rand()] inserts: every packet of the
    link that has the right sequence bit and starts within the turnaround time,
    with any wait states, is stored byte for byte, without an error before its last
    cycle and without a byte of the host; that last cycle returns -1 if the CRC16 is
    bad, with no bit flipped, and else the host ends the packet and drives exactly one
    ACK on the released bus, returns 1, flips the sequence bit of this endpoint and of
    no other, and still holds the bytes.  And if the link stays silent, the host gives
    up one cycle after the turnaround time, with the sequence bits as they were. *)
Theorem bulk_in_transaction host s g :
  queued_in host s ->
  exists outs host1, usbh_loop 9 host bus_quiet g = Ok (replicate 9 0, outs, host1, g) /\
    received outs = [0x69; tok1 (host_xfer host); tok2 (host_xfer host)] /\
    (forall packet bytes, in_packet s packet bytes -> host_cycle host + Z.of_nat (length packet) + 20 < 2 ^ 32 ->
     exists host2,
       runs host1 packet (replicate (length packet - 1) 0 ++ [if crc16_check bytes then 0 else -1]) host2 /\
       rx_packet (host_xfer host2) = bytes /\ ep_seq (host_xfer host2) = ep_seq (host_xfer host) /\
       (crc16_check bytes = true -> acknowledges host s host2 bytes)) /\
    (forall waits i, Forall out_of_reset (waits ++ [i]) -> dir i = SIG0 -> Forall (fun inp => data_a inp = 0) waits ->
     Z.of_nat (length waits) = TURNAROUND_TIMER ->
     exists host2, runs host1 (waits ++ [i]) (replicate (length waits) 0 ++ [1]) host2 /\ in_done host s false host2).
Proof.
  intros Hq. destruct (bulk_in_token_sent host s g Hq) as (h & L & Ha & Hc & Hp & He & Hs & Htx & _).
  pose proof (qi_cycle _ _ Hq) as [Hc0 Hlt0].
  eexists _, h. split; [exact L|]. split; [apply received_packet|]. split.
  - intros packet bytes Hpk Hlt.
    destruct (in_packet_run h s packet bytes Ha Hpk ltac:(lia)) as (h2 & R & Hr & Hc2 & _).
    exists h2. split; [exact R|]. split; [apply Hr|]. split; [by rewrite (pr_seq _ _ _ Hr)|].
    intros _. apply (packet_acknowledged host s h); done || lia.
  - intros waits i Hr Hdir Hw Hl.
    destruct (in_silence_run h s waits i Ha Hp Hr Hdir Hw Hl ltac:(lia)) as (h2 & R & Hx & _).
    exists h2. split; [exact R|]. unfold in_done. rewrite Hx. split; [done|]. split; [apply Ha|].
    change (ep_seq (host_xfer h <| type := XferIdle |>)) with (ep_seq (host_xfer h)). rewrite Hs.
    split; [symmetry; apply list_insert_id, Hq|]. split; [exact Htx|split; apply Ha].
Qed.

(** ** Witness *)

Definition in_example : usb_host_t :=
  guarded_example <| host_op := HostBulkIN |>
    <| host_xfer := recv_example <| type := IN |> <| stage := NoXfer |> <| tok1 := 0x81 |> <| tok2 := 0x18 |> |>.

Definition in_first_example : ulpi_bus_t := link_cycle SIG0 SIG1 0x12.
Definition in_rest_example : list ulpi_bus_t := tail body_example.
Definition in_packet_example : list ulpi_bus_t :=
  ([bus_quiet] ++ link_cycle SIG0 SIG0 ULPITX_DATA0 :: link_cycle SIG0 SIG1 ULPITX_DATA0 ::
   [link_cycle SIG0 SIG0 0x12] ++ [in_first_example]) ++ in_rest_example ++ [link_cycle SIG1 SIG0 0].

Lemma in_packet_example_ok : in_packet 0 in_packet_example (accepted body_example).
Proof.
  change (accepted body_example) with (packet_bytes in_first_example in_rest_example).
  apply in_packet_cycles.
  - constructor; try done; repeat constructor; discriminate.
  - done.
  - vm_compute. repeat constructor; discriminate.
  - vm_compute. lia.
Qed.

Lemma in_example_queued : queued_in in_example 0.
Proof. constructor; try done. split; [apply Forall_replicate; unfold is_byte; lia|done]. Qed.

Lemma in_eop_example : up_eop bus_released (bus_rx_cmd 0x4C) (bus_rx_cmd 0x4D) bus_released.
Proof. constructor; try done; repeat constructor; discriminate. Qed.

Lemma bulk_in_transaction_witness : exists outs host1 host2 host3,
  usbh_loop 9 in_example bus_quiet rng_example = Ok (replicate 9 0, outs, host1, rng_example) /\
  received outs = [0x69; 0x81; 0x18] /\
  runs host1 in_packet_example (replicate 9 0) host2 /\
  runs host2 [bus_released; bus_rx_cmd 0x4C; bus_rx_cmd 0x4D; bus_released] (replicate 4 0) host3 /\
  forall g, exists outs' host4, usbh_loop 7 host3 bus_quiet g = Ok (replicate 6 0 ++ [1], outs', host4, g) /\
    received outs' = [0xD2] /\ rx_packet (host_xfer host4) = accepted body_example /\
    ep_seq (host_xfer host4) !! 1%nat = Some SIG1.
Proof.
  destruct (bulk_in_transaction in_example 0 rng_example in_example_queued) as (outs & host1 & H1 & H2 & H3 & _).
  assert (Hc : crc16_check (accepted body_example) = true) by (vm_compute; reflexivity).
  destruct (H3 _ _ in_packet_example_ok eq_refl) as (host2 & R2 & _ & _ & Ha). rewrite Hc in R2.
  destruct (Ha Hc bus_released (bus_rx_cmd 0x4C) (bus_rx_cmd 0x4D) bus_released) as (host3 & R3 & H4).
  { exact in_eop_example. }
  exists outs, host1, host2, host3. split; [exact H1|]. split; [exact H2|]. split; [exact R2|]. split; [exact R3|].
  intros g. destruct (H4 g) as (outs' & host4 & L & H5 & (_ & _ & H6 & _) & H7 & _).
  exists outs', host4. split; [exact L|]. split; [exact H5|]. split; [exact H7|]. rewrite H6. reflexivity.
Defined.
