(* ===== verification/UsbFunc.v ===== *)
(** The USB device (function) model: src/vpi/usb/usbfunc.h and
    src/vpi/usb/usbfunc.c.

    The fields of [usb_func_t] carry the prefix [func_]. *)

From S2P Require Import Prelude UsbCrc Ulpi UlpiSafe StdReq.

Inductive usbf_state : Type :=
| FuncIdle | FuncRecv | FuncRXCMD | FuncRxPID | FuncBusy | FuncEOT.

Record usb_func_t : Type := MkFunc {
  func_cycle : Z;
  func_op : host_op_t;
  func_state : usbf_state;
  func_step : Z;
  func_xfer : transfer_t;
  func_turnaround : Z;
  func_addr : Z
}.

#[export] Instance set_func_cycle : Setter func_cycle := fun v r =>
  MkFunc v (func_op r) (func_state r) (func_step r) (func_xfer r) (func_turnaround r) (func_addr r).
#[export] Instance set_func_op : Setter func_op := fun v r =>
  MkFunc (func_cycle r) v (func_state r) (func_step r) (func_xfer r) (func_turnaround r)
    (func_addr r).
#[export] Instance set_func_state : Setter func_state := fun v r =>
  MkFunc (func_cycle r) (func_op r) v (func_step r) (func_xfer r) (func_turnaround r) (func_addr r).
#[export] Instance set_func_step : Setter func_step := fun v r =>
  MkFunc (func_cycle r) (func_op r) (func_state r) v (func_xfer r) (func_turnaround r)
    (func_addr r).
#[export] Instance set_func_xfer : Setter func_xfer := fun v r =>
  MkFunc (func_cycle r) (func_op r) (func_state r) (func_step r) v (func_turnaround r)
    (func_addr r).
#[export] Instance set_func_turnaround : Setter func_turnaround := fun v r =>
  MkFunc (func_cycle r) (func_op r) (func_state r) (func_step r) (func_xfer r) v (func_addr r).
#[export] Instance set_func_addr : Setter func_addr := fun v r =>
  MkFunc (func_cycle r) (func_op r) (func_state r) (func_step r) (func_xfer r)
    (func_turnaround r) v.

(** [func->xfer.f = v]. *)
Definition func_stage (func : usb_func_t) : xfer_stage_t := stage (func_xfer func).
#[export] Instance set_func_stage : Setter func_stage := fun v func =>
  func <| func_xfer := func_xfer func <| stage := v |> |>.
Definition func_type (func : usb_func_t) : xfer_type_t := type (func_xfer func).
#[export] Instance set_func_type : Setter func_type := fun v func =>
  func <| func_xfer := func_xfer func <| type := v |> |>.

Definition stage_ltb (s t : xfer_stage_t) : bool := xfer_stage_val s <? xfer_stage_val t.

Definition func_result : Type := outcome (Z * usb_func_t * ulpi_bus_t).

(** [func->step++] *)
Definition func_next (func : usb_func_t) : usb_func_t := func <| func_step := u32 (func_step func + 1) |>.
(** [func->turnaround++] *)
Definition func_wait (func : usb_func_t) : usb_func_t :=
  func <| func_turnaround := u16 (func_turnaround func + 1) |>.

(** What the bus carries while the PHY receives: [-1] invalid, [0] an RX CMD
    with RxActive, [1] a byte. *)
Definition ulpi_bus_rx (inp : ulpi_bus_t) : Z :=
  if negb (dir inp =? SIG1) || negb (data_b inp =? 0x00) then -1
  else if (nxt inp =? SIG0) && (Z.land (data_a inp) RX_EVENT_MASK =? RX_ACTIVE_BITS) then 0
  else if nxt inp =? SIG1 then 1
  else -1.

(** ** Packet steps *)

Definition fn_token_recv_step (func : usb_func_t) (inp out : ulpi_bus_t) : func_result :=
  if negb (dir inp =? SIG1) && stage_ltb (func_stage func) Token2 then Ok (-1, func, out)
  else
  let out := inp in (* memcpy *)
  let rx := ulpi_bus_rx inp in
  match func_stage func with
  | AssertDir =>
      if nxt inp =? SIG1 then Ok (0, func <| func_stage := InitRXCMD |>, out)
      else Ok (-1, func, out)
  | InitRXCMD =>
      if (nxt inp =? SIG1) && check_pid inp then
        let pid := Z.land (data_a inp) 0x0F in
        if (pid =? USBPID_OUT) || (pid =? USBPID_IN) || (pid =? USBPID_SETUP) || (pid =? USBPID_SOF)
        then Ok (0, func <| func_stage := TokenPID |>, out)
        else Ok (-1, func, out)
      else Ok (-1, func, out)
  | TokenPID =>
      if rx <? 0 then Ok (-1, func, out)
      else if 0 <? rx then Ok (0, func <| func_stage := Token1 |>, out)
      else Ok (0, func, out)
  | Token1 =>
      if rx <? 0 then Ok (-1, func, out)
      else if 0 <? rx then
        Ok (0, func <| func_xfer := func_xfer func <| tok1 := data_a inp |> |>
                    <| func_stage := Token2 |>, out)
      else Ok (0, func, out)
  | Token2 =>
      if rx <? 0 then Ok (-1, func, out)
      else if 0 <? rx then
        Ok (0, func <| func_xfer := func_xfer func <| tok2 := data_a inp |> |>
                    <| func_stage := EndRXCMD |>, out)
      else Ok (0, func, out)
  | EndRXCMD =>
      if (nxt inp =? SIG0) && negb (Z.land (data_a inp) RX_EVENT_MASK =? RX_ACTIVE_BITS)
      then Ok (0, func <| func_stage := EOP |>, out)
      else Ok (-1, func, out)
  | EOP =>
      if nxt inp =? SIG0 then Ok (1, func_next func, out)
      else Ok (0, func, out)
  | _ => Ok (-1, func, out)
  end.

(** In C [a & MASK != BITS] is [a & (MASK != BITS)]. *)
Definition fn_datax_recv_step (func : usb_func_t) (inp out : ulpi_bus_t) : func_result :=
  if negb (dir inp =? SIG1) && stage_ltb (func_stage func) EndRXCMD then Ok (-1, func, out)
  else
  let out := inp in (* memcpy *)
  let xfer := func_xfer func in
  match func_stage func with
  | NoXfer =>
      if negb (dir inp =? SIG1) then Ok (0, func_wait func, out)
      else if (dir inp =? SIG1) && (nxt inp =? SIG1)
      then Ok (0, func <| func_stage := AssertDir |>, out)
      else Ok (-1, func, out)
  | AssertDir =>
      if (nxt inp =? SIG0) && (Z.land (data_a inp) RX_EVENT_MASK =? RX_ACTIVE_BITS)
      then Ok (0, func <| func_stage := InitRXCMD |>, out)
      else Ok (-1, func, out)
  | InitRXCMD =>
      if (nxt inp =? SIG1) && check_pid inp then
        seq ← check_seq xfer (Z.land (data_a inp) 0x0F);
        if (seq : bool) then
          Ok (0, func <| func_xfer := xfer <| stage := DATAxPID |> <| rx_ptr := 0 |>
                                           <| rx_len := 0 |> |>, out)
        else Ok (-1, func, out)
      else Ok (-1, func, out)
  | DATAxPID | DATAxBody =>
      if nxt inp =? SIG1 then
        rx' ← write_at (rx xfer) (rx_ptr xfer) (data_a inp);
        Ok (0, func <| func_xfer := xfer <| rx := rx' |> <| rx_ptr := rx_ptr xfer + 1 |> |>, out)
      else if nxt inp =? SIG0 then
        if negb (Z.land (data_a inp) (if RX_EVENT_MASK =? RX_ACTIVE_BITS then 0 else 1) =? 0) then
          Ok (0, func_next (func <| func_xfer := xfer <| stage := EndRXCMD |>
                                                      <| rx_len := rx_ptr xfer - 2 |> |>), out)
        else Ok (0, func, out)
      else Ok (-1, func, out)
  | EndRXCMD | EOP => Ok (0, func <| func_type := UpACK |>, out)
  | _ => Ok (-1, func, out)
  end.

(** [out->data.a = v; out->data.b = 0x00; out->stp = s;] *)
Definition fn_drive (out : ulpi_bus_t) (v s : Z) : ulpi_bus_t :=
  out <| data_a := v |> <| data_b := 0x00 |> <| stp := s |>.

Definition fn_datax_send_step (func : usb_func_t) (inp out : ulpi_bus_t) : func_result :=
  if negb (dir inp =? SIG0) then Ok (-1, func, out)
  else
  let out := inp in (* memcpy *)
  let xfer := func_xfer func in
  let fetch :=
    d ← read_at (tx xfer) (tx_ptr xfer);
    Ok (0, func <| func_xfer := xfer <| tx_ptr := tx_ptr xfer + 1 |> <| stage := DATAxBody |> |>,
        fn_drive out d SIG0) in
  match func_stage func with
  | NoXfer =>
      s ← read_at (ep_seq xfer) (endpoint xfer);
      let pid := if s =? 0 then ULPITX_DATA0 else ULPITX_DATA1 in
      Ok (0, func <| func_stage := DATAxPID |>, fn_drive out pid SIG0)
  | DATAxPID =>
      if nxt inp =? SIG1 then
        if 0 <? tx_len xfer then fetch
        else Ok (0, func <| func_stage := DATAxCRC1 |>, fn_drive out (crc1 xfer) SIG0)
      else Ok (0, func, out)
  | DATAxBody =>
      if nxt inp =? SIG1 then
        if tx_ptr xfer <? tx_len xfer then fetch
        else Ok (0, func <| func_stage := DATAxCRC1 |>, fn_drive out (crc1 xfer) SIG0)
      else Ok (0, func, out)
  | DATAxCRC1 =>
      if nxt inp =? SIG1
      then Ok (0, func <| func_stage := DATAxCRC2 |>, fn_drive out (crc2 xfer) SIG1)
      else Ok (0, func, out)
  | DATAxCRC2 =>
      if nxt inp =? SIG1
      then Ok (0, func <| func_stage := EOP |>, fn_drive out 0x00 SIG0)
      else Ok (0, func, out)
  | EOP => Ok (0, func, fn_drive out 0x00 SIG0)
  | _ => Ok (-1, func, out)
  end.

(** The [InitRXCMD] case of [fn_recv_ack_step], which [AssertDir] falls into. *)
Definition fn_recv_ack_pid (func : usb_func_t) (inp out : ulpi_bus_t) : func_result :=
  if (dir inp =? SIG1) && (nxt inp =? SIG1) && check_pid inp && (data_b inp =? 0x00) &&
     (Z.land (data_a inp) 0x0F =? USBPID_ACK)
  then Ok (0, func <| func_stage := HskPID |>, out)
  else Ok (-1, func, out).

Definition fn_recv_ack_step (func : usb_func_t) (inp out : ulpi_bus_t) : func_result :=
  let out := inp in (* memcpy *)
  match func_stage func with
  | NoXfer =>
      if ulpi_bus_is_idle inp then Ok (0, func_wait func, out)
      else if (dir inp =? SIG1) && (nxt inp =? SIG1)
      then Ok (0, func <| func_stage := InitRXCMD |>, out)
      else Ok (-1, func, out)
  | AssertDir =>
      if (dir inp =? SIG1) && (nxt inp =? SIG0) && (data_b inp =? 0x00) &&
         (Z.land (data_a inp) RX_EVENT_MASK =? RX_ACTIVE_BITS)
      then Ok (0, func <| func_stage := InitRXCMD |>, out)
      else fn_recv_ack_pid func inp out
  | InitRXCMD => fn_recv_ack_pid func inp out
  | HskPID =>
      if negb (dir inp =? SIG0) || negb (nxt inp =? SIG0) then Ok (-1, func, out)
      else Ok (1, func_next func <| func_stage := NoXfer |>, out)
  | _ => Ok (-1, func, out)
  end.

Definition fn_send_ack_step (func : usb_func_t) (inp out : ulpi_bus_t) : func_result :=
  if negb (dir inp =? SIG0) then Ok (-1, func, out)
  else
  let out := inp in (* memcpy *)
  match func_stage func with
  | NoXfer => Ok (0, func <| func_stage := HskPID |>, fn_drive out ULPITX_ACK SIG0)
  | HskPID =>
      if nxt inp =? SIG1
      then Ok (0, func <| func_stage := HskStop |>, fn_drive out 0x00 SIG1)
      else Ok (0, func, out)
  | HskStop => Ok (0, func_next (func <| func_stage := EOP |>), fn_drive out 0x00 SIG0)
  | EOP => Ok (0, func, fn_drive out 0x00 SIG0)
  | _ => Ok (-1, func, out)
  end.

(** ** Transactions *)

(** The device's [stdreq_step]: not finished, and without a caller. *)
Definition func_stdreq_step (func : usb_func_t) (inp out : ulpi_bus_t) : func_result := Ok (-1, func, out).

Definition func_xfer_step (func : usb_func_t) (inp out : ulpi_bus_t) : func_result :=
  if func_step func =? 0 then fn_token_recv_step func inp out
  else
  match func_op func with
  | HostBulkOUT =>
      if func_step func <? 2 then fn_datax_recv_step func inp out
      else if func_step func <? 3 then fn_send_ack_step func inp out
      else Ok (1, func, out)
  | HostBulkIN =>
      if func_step func <? 2 then fn_datax_send_step func inp out
      else if func_step func <? 3 then fn_recv_ack_step func inp out
      else Ok (1, func, out)
  | HostSETUP =>
      if func_step func <? 2 then fn_datax_recv_step func inp out
      else if func_step func <? 3 then fn_recv_ack_step func inp out
      else Ok (1, func, out)
  | _ => Ok (-1, func, out)
  end.

(** [usbf_init] leaves [state] and [xfer] alone. *)
Definition usbf_init (func : usb_func_t) : usb_func_t :=
  func <| func_cycle := 0 |> <| func_op := HostReset |> <| func_step := 0 |>
       <| func_turnaround := 0 |> <| func_addr := 0 |>.

(** The [FuncRxPID] state's decoding of a token PID. *)
Definition func_token (pid : Z) : option (host_op_t * xfer_type_t) :=
  if pid =? USBPID_OUT then Some (HostBulkOUT, OUT)
  else if pid =? USBPID_IN then Some (HostBulkIN, IN)
  else if pid =? USBPID_SETUP then Some (HostSETUP, SETUP)
  else if pid =? USBPID_SOF then Some (HostSOF, SOF)
  else None.

Definition usbf_step (func : usb_func_t) (inp out : ulpi_bus_t) : func_result :=
  if negb (rst_n inp =? SIG1) then Ok (-1, func, out)
  else if negb (clock inp =? SIG1) then Ok (-1, func, out)
  else
  match func_state func with
  | FuncIdle =>
      if ulpi_bus_is_idle inp then Ok (0, func, inp)
      else if dir inp =? SIG1 then
        if SIG1 <? nxt inp then Ok (-1, func, out)
        else Ok (0, func <| func_state := if nxt inp =? SIG0 then FuncRXCMD else FuncRecv |>, inp)
      else Ok (-1, func, out)
  | FuncRXCMD =>
      if (dir inp =? SIG1) && (nxt inp =? SIG0) then Ok (0, func, out)
      else if dir inp =? SIG0 then Ok (0, func <| func_state := FuncIdle |>, inp)
      else Ok (-1, func, out)
  | FuncRecv =>
      if (dir inp =? SIG1) && (nxt inp =? SIG0) && (data_b inp =? 0x00) &&
         (Z.land (data_a inp) RX_EVENT_MASK =? RX_ACTIVE_BITS)
      then Ok (0, func <| func_state := FuncRxPID |>, inp)
      else Ok (-1, func, out)
  | FuncRxPID =>
      if dir inp =? SIG1 then
        if (nxt inp =? SIG1) && check_pid inp then
          let func := func <| func_state := FuncBusy |> <| func_step := 0 |>
                           <| func_stage := Token1 |> in
          match func_token (Z.land (data_a inp) 0x0F) with
          | Some (op, t) => Ok (0, func <| func_op := op |> <| func_type := t |>, inp)
          | None => Ok (-1, func, out)
          end
        else if (nxt inp =? SIG0) && (data_b inp =? 0x00) &&
                (Z.land (data_a inp) RX_EVENT_MASK =? RX_ACTIVE_BITS)
        then Ok (0, func, inp)
        else Ok (-1, func, out)
      else Ok (-1, func, out)
  | FuncBusy => func_xfer_step func inp out
  | FuncEOT =>
      if ulpi_bus_is_idle inp
      then Ok (1, func <| func_type := XferIdle |> <| func_stage := NoXfer |>, inp)
      else Ok (-1, func, out)
  end.

(** ** [test_func_recv] *)

(** [usb_func_t func = {0}], then [op] and [state]. *)
Definition func_zero : usb_func_t := MkFunc 0 HostReset FuncIdle 0 transfer_zero 0 0.

Definition setup_packet : list Z := [0x80; 0x06; 0x00; 0x01; 0x00; 0x00; 0x40; 0x00].

(** [assert(ulpi_step_with(step, &host, &bus, usbf_step, &func) == 1)]. *)
Definition assert_func_step_with (fuel : nat)
    (step : transfer_t -> ulpi_bus_t -> ulpi_bus_t -> step_result)
    (host : transfer_t) (bus : ulpi_bus_t) (func : usb_func_t)
  : option (outcome (transfer_t * ulpi_bus_t * usb_func_t)) :=
  match ulpi_step_with step usbf_step fuel host bus func with
  | None => None
  | Some m => Some ('(result, host, func, bus) ← m;
                    c_assert (result =? 1);; Ok (host, bus, func))
  end.

(** The device's side of the unit test: the result is the device after it. *)
Definition test_func_recv (fuel : nat) : option (outcome usb_func_t) :=
  let bus := ulpi_bus_zero <| clock := SIG1 |> <| rst_n := SIG1 |> in
  let func := func_zero <| func_op := HostIdle |> <| func_state := FuncIdle |> in
  fuel_bind (Some (usbf_step func bus ulpi_bus_zero)) (fun '(result, func, out) =>
  fuel_bind (Some (c_assert (result =? 0))) (fun _ =>
  let bus := out in
  let host := transfer_zero <| type := SETUP |> <| tok1 := 0x00 |> <| tok2 := 0x10 |> in
  fuel_bind (assert_func_step_with fuel token_send_step host bus func) (fun '(host, bus, func) =>
  fuel_bind (Some (write_n (tx host) setup_packet)) (fun tx' =>
  let host := host <| type := DnDATA0 |> <| crc1 := 0xDD |> <| crc2 := 0x94 |> <| tx_len := 8 |>
                   <| tx := tx' |> in
  fuel_bind (assert_func_step_with fuel datax_send_step host bus func) (fun '(host, bus, func) =>
  Some (Ok func)))))).
