(* ===== verification/UsbFuncProps.v ===== *)
(** The USB device model: it receives every token, and then nothing else. *)

From S2P Require Import Prelude UsbCrc Ulpi UlpiSafe UlpiTrace UlpiRecv StdReq StdReqProps.
From S2P Require Import UsbHost UsbHostProps UsbFunc.

(** ** Tokens *)

(** The host operation that a token starts. *)
Definition token_op (t : xfer_type_t) : host_op_t :=
  match t with OUT => HostBulkOUT | IN => HostBulkIN | SETUP => HostSETUP | _ => HostSOF end.

(** The device after a token. *)
Definition func_got_token (func : usb_func_t) (x : transfer_t) : usb_func_t :=
  func <| func_state := FuncBusy |> <| func_step := 1 |> <| func_op := token_op (type x) |>
       <| func_xfer := func_xfer func <| type := type x |> <| stage := EOP |>
                                      <| tok1 := tok1 x |> <| tok2 := tok2 x |> |>.

Lemma token_received_run x bus func n :
  is_token (type x) = true -> func_state func = FuncIdle ->
  ulpi_step_with token_send_step usbf_step (7 + n) x bus func =
    Some (Ok (1, x <| stage := EOP |>, func_got_token func x, bus_rx_cmd 0x4D)).
Proof.
  intros Ht Hf. 
  destruct x as [ad ep t s sq cy tx tl tp rx rl rp t1 t2 c1 c2].
  destruct func as [fc fo fs fst [ad' ep' t' s' sq' cy' tx' tl' tp' rx' rl' rp' t1' t2' c1' c2'] ft fa].
  cbn in Ht, Hf. subst fs.
  destruct t; try discriminate Ht; vm_compute; reflexivity.
Qed.

(** Tokens reach the device: for every token type and token bytes, running
    the host's [token_send_step] against an idle device delivers the token in
    seven iterations: the device is busy with the operation of the PID and holds
    the two token bytes.  The device's result ends the loop while the host is
    still at [EOP], with the bus not released. *)
Lemma token_received x bus func fuel :
  is_token (type x) = true -> func_state func = FuncIdle -> (7 <= fuel)%nat ->
  exists func', ulpi_step_with token_send_step usbf_step fuel x bus func =
    Some (Ok (1, x <| stage := EOP |>, func', bus_rx_cmd 0x4D)) /\
    func_state func' = FuncBusy /\ func_step func' = 1 /\ func_op func' = token_op (type x) /\
    tok1 (func_xfer func') = tok1 x /\ tok2 (func_xfer func') = tok2 x.
Proof.
  intros Ht Hf Hn. replace fuel with (7 + (fuel - 7))%nat by lia.
  rewrite token_received_run by done. by eexists.
Qed.

(** ** After the token *)

(** [usbf_step] over a sequence of bus values, whatever it returns. *)
Fixpoint func_run (func : usb_func_t) (ins : list ulpi_bus_t)
  : outcome (list Z * list ulpi_bus_t * usb_func_t) :=
  match ins with
  | [] => Ok ([], [], func)
  | inp :: ins =>
      '(r, func, out) ← usbf_step func inp ulpi_bus_zero;
      '(rs, outs, func) ← func_run func ins;
      Ok (r :: rs, out :: outs, func)
  end.

(** The device has received a token and waits in the stage that ended it. *)
Record token_done (func : usb_func_t) : Prop := {
  done_state : func_state func = FuncBusy;
  done_step : func_step func = 1;
  done_stage : func_stage func = EOP;
}.

(** What such a device drives: what it reads, the idle bus, or nothing. *)
Definition drives_nothing (inp out : ulpi_bus_t) : Prop :=
  out = inp \/ out = fn_drive inp 0x00 SIG0 \/ out = ulpi_bus_zero.

(** The parts of the transfer that a data or handshake phase would change. *)
Definition func_data (func : usb_func_t) : list Z * Z * Z * Z * list Z :=
  let x := func_xfer func in (rx x, rx_len x, rx_ptr x, tx_ptr x, ep_seq x).

Lemma token_done_step func inp :
  token_done func ->
  exists r func' out, usbf_step func inp ulpi_bus_zero = Ok (r, func', out) /\
    r <= 0 /\ token_done func' /\ func_op func' = func_op func /\ func_data func' = func_data func /\
    drives_nothing inp out.
Proof.
  intros [Hs Hp Hg]. unfold usbf_step, drives_nothing.
  destruct (rst_n inp =? SIG1); cbn [negb]; [|by do 3 eexists; repeat split; auto; lia].
  destruct (clock inp =? SIG1); cbn [negb]; [|by do 3 eexists; repeat split; auto; lia].
  rewrite Hs. unfold func_xfer_step. rewrite Hp. change (1 =? 0) with false. change (1 <? 2) with true.
  cbv iota. destruct (func_op func) eqn:Ho.
  all: unfold fn_datax_recv_step, fn_datax_send_step; rewrite ?Hg; cbv zeta.
  all: try change (stage_ltb EOP EndRXCMD) with false; rewrite ?andb_false_r.
  all: try destruct (dir inp =? SIG0); cbn [negb].
  all: do 3 eexists; split; [reflexivity|]; split; [lia|]; split; [by split|]; auto.
Qed.

(** From [func1] on, whatever the bus carries, no step reports progress, the device
    drives nothing, never leaves the operation [op], and its data stay those of
    [func]. *)
Definition deaf (func func1 : usb_func_t) (op : host_op_t) : Prop :=
  forall ins, exists rs outs func', func_run func1 ins = Ok (rs, outs, func') /\
    Forall (fun r => r <= 0) rs /\ Forall2 drives_nothing ins outs /\
    func_state func' = FuncBusy /\ func_step func' = 1 /\ func_op func' = op /\
    func_data func' = func_data func.

Lemma token_done_deaf func : token_done func -> deaf func func (func_op func).
Proof.
  intros Hd ins. revert func Hd. induction ins as [|i ins IH]; intros func Hd.
  - exists [], [], func. destruct Hd. cbn. repeat split; try done; constructor.
  - destruct (token_done_step func i Hd) as (r & f1 & o & Hst & Hr & Hd1 & Ho1 & Hx1 & Hn).
    destruct (IH f1 Hd1) as (rs & outs & f2 & Hrun & H1 & H2 & H3 & H4 & H5 & H6).
    exists (r :: rs), (o :: outs), f2. cbn [func_run]. rewrite Hst. cbn [mbind outcome_bind].
    rewrite Hrun. cbn [mbind outcome_bind]. split; [done|].
    split; [by apply List.Forall_cons|]. split; [by apply Forall2_cons|]. rewrite H5, H6. by split_and!.
Qed.

(** The step in which the device has received the whole token. *)
Lemma token_recv_done func inp out func1 out1 :
  fn_token_recv_step func inp out = Ok (1, func1, out1) -> func_step func = 0 ->
  func1 = func <| func_step := 1 |> /\ func_stage func1 = EOP.
Proof.
  unfold fn_token_recv_step. intros H H0. revert H. cbv zeta. unfold func_next.
  repeat first [case_match|intros [=]]; subst; try discriminate; rewrite H0; by split.
Qed.

Lemma token_received_deaf func inp func1 out1 :
  func_state func = FuncBusy -> func_step func = 0 ->
  usbf_step func inp ulpi_bus_zero = Ok (1, func1, out1) -> deaf func func1 (func_op func).
Proof.
  intros Hs H0. unfold usbf_step. destruct (rst_n inp =? SIG1), (clock inp =? SIG1); cbn [negb]; try done.
  rewrite Hs. unfold func_xfer_step. rewrite H0. change (0 =? 0) with true. cbv iota.
  intros [-> Hg]%token_recv_done; [|done].
  change (deaf (func <| func_step := 1 |>) (func <| func_step := 1 |>) (func_op (func <| func_step := 1 |>))).
  by apply token_done_deaf.
Qed.

(** C40.  After a token the device is deaf: the step of [fn_token_recv_step] that
    completes a token, however it arrived, leaves the stage at [EOP], which the data
    steps take for a packet that has ended.  So whatever the bus carries from then
    on no byte is received or sent, no phase or sequence bit advances, the device
    drives nothing but the idle bus, and it never leaves [FuncBusy].  This is what
    becomes of an idle device to which the host's [token_send_step] sends a token of
    any kind: the device takes it, with its two bytes, in seven iterations, and
    nothing else after it. *)
Theorem device_deaf_after_token :
  (forall func inp func1 out1, func_state func = FuncBusy -> func_step func = 0 ->
   usbf_step func inp ulpi_bus_zero = Ok (1, func1, out1) -> deaf func func1 (func_op func)) /\
  (forall x bus func fuel, is_token (type x) = true -> func_state func = FuncIdle -> (7 <= fuel)%nat ->
   exists func1 bus1, ulpi_step_with token_send_step usbf_step fuel x bus func =
       Some (Ok (1, x <| stage := EOP |>, func1, bus1)) /\
     tok1 (func_xfer func1) = tok1 x /\ tok2 (func_xfer func1) = tok2 x /\
     deaf func func1 (token_op (type x))).
Proof.
  split; [apply token_received_deaf|]. intros x bus func fuel Ht Hf Hn.
  replace fuel with (7 + (fuel - 7))%nat by lia. rewrite token_received_run by done.
  do 2 eexists. split; [reflexivity|]. split; [done|]. split; [done|].
  change (deaf (func_got_token func x) (func_got_token func x) (func_op (func_got_token func x))).
  by apply token_done_deaf.
Qed.

(** ** The unit test *)

Lemma step_loop_mono {S} h u n k (x : transfer_t) (ud : S) bus out r :
  ulpi_step_loop h u n x ud bus out = Some r -> ulpi_step_loop h u (n + k) x ud bus out = Some r.
Proof.
  revert x ud bus out. induction n as [|n IH]; intros x ud bus out; [done|]. cbn.
  destruct (ulpi_step_once h u x ud bus out) as [[[[[res x'] ud'] bus'] out']| |]; [|done..].
  destruct (res =? 0); [apply IH|done].
Qed.

Lemma fuel_bind_mono {A B} (m m' : option (outcome A)) (f f' : A -> option (outcome B)) r :
  (forall v, m = Some v -> m' = Some v) -> (forall a v, f a = Some v -> f' a = Some v) ->
  fuel_bind m f = Some r -> fuel_bind m' f' = Some r.
Proof.
  intros Hm Hf. destruct m as [v|]; [|done]. rewrite (Hm v eq_refl). destruct v; cbn; auto.
Qed.

Lemma assert_func_mono n k step x bus func v :
  assert_func_step_with n step x bus func = Some v ->
  assert_func_step_with (n + k) step x bus func = Some v.
Proof.
  unfold assert_func_step_with, ulpi_step_with.
  destruct (ulpi_step_loop step usbf_step n _ _ _ _) as [m|] eqn:E; [|done].
  by rewrite (step_loop_mono _ _ _ k _ _ _ _ _ E).
Qed.

Lemma test_func_recv_mono n k r : test_func_recv n = Some r -> test_func_recv (n + k) = Some r.
Proof.
  unfold test_func_recv. cbv zeta.
  apply fuel_bind_mono; [done|intros [[z f] o] v1].
  apply fuel_bind_mono; [done|intros [] v2].
  apply fuel_bind_mono; [intros v; apply assert_func_mono|intros [[x b] f'] v3].
  apply fuel_bind_mono; [done|intros tx' v4].
  apply fuel_bind_mono; [intros v; apply assert_func_mono|done].
Qed.

(** The device's unit test passes without its data: [test_func_recv] ends
    with both assertions true after 17 iterations of its longer loop, and the
    device has stored none of the eight bytes sent to it. *)
Theorem test_func_recv_receives_nothing fuel :
  (17 <= fuel)%nat ->
  exists func, test_func_recv fuel = Some (Ok func) /\
    rx_ptr (func_xfer func) = 0 /\ rx_len (func_xfer func) = 0 /\ Forall (eq 0) (rx (func_xfer func)) /\
    func_step func = 1.
Proof.
  intros Hf. replace fuel with (17 + (fuel - 17))%nat by lia.
  assert (H : match test_func_recv 17 with
    | Some (Ok f) => (rx_ptr (func_xfer f) =? 0) && (rx_len (func_xfer f) =? 0) &&
        forallb (Z.eqb 0) (rx (func_xfer f)) && (func_step f =? 1)
    | _ => false end = true) by (vm_compute; reflexivity).
  destruct (test_func_recv 17) as [[f| |]|] eqn:E; [|discriminate H..].
  apply andb_true_iff in H as [[[H1%Z.eqb_eq H2%Z.eqb_eq]%andb_true_iff H3]%andb_true_iff H4%Z.eqb_eq].
  exists f. split; [exact (test_func_recv_mono _ _ _ E)|].
  split; [exact H1|]. split; [exact H2|]. split; [|exact H4].
  rewrite List.Forall_forall. intros v Hv. rewrite forallb_forall in H3.
  apply Z.eqb_eq. by apply H3.
Qed.

(** ** Witnesses *)

Definition setup_token : transfer_t :=
  transfer_zero <| type := SETUP |> <| tok1 := 0x00 |> <| tok2 := 0x10 |>.

Lemma token_received_witness : exists func',
  ulpi_step_with token_send_step usbf_step 7 setup_token ulpi_bus_zero func_zero =
    Some (Ok (1, setup_token <| stage := EOP |>, func', bus_rx_cmd 0x4D)) /\ tok2 (func_xfer func') = 0x10.
Proof.
  destruct (token_received setup_token ulpi_bus_zero func_zero 7 eq_refl eq_refl ltac:(lia))
    as (func' & H1 & _ & _ & _ & _ & H2).
  exists func'. split; [exact H1|exact H2].
Defined.

(** A SETUP token, and the first cycles of the DATA0 packet after it. *)
Definition data0_cycles : list ulpi_bus_t :=
  [bus_turnaround; bus_rx_cmd 0x5D; bus_rx_byte 0xC3; bus_rx_byte 0x80].

(** The last step of the token. *)
Definition func_eop : usb_func_t :=
  func_zero <| func_state := FuncBusy |> <| func_op := HostSETUP |> <| func_stage := EOP |>.
Definition eop_bus : ulpi_bus_t := ulpi_bus_zero <| clock := SIG1 |> <| rst_n := SIG1 |>.

Lemma device_deaf_after_token_witness :
  (exists func1 bus1, ulpi_step_with token_send_step usbf_step 7 setup_token ulpi_bus_zero func_zero =
      Some (Ok (1, setup_token <| stage := EOP |>, func1, bus1)) /\ tok2 (func_xfer func1) = 0x10 /\
    exists rs outs func', func_run func1 data0_cycles = Ok (rs, outs, func') /\ func_step func' = 1) /\
  deaf func_eop (func_eop <| func_step := 1 |>) HostSETUP.
Proof.
  split.
  - destruct (proj2 device_deaf_after_token setup_token ulpi_bus_zero func_zero 7%nat eq_refl eq_refl ltac:(lia))
      as (func1 & bus1 & H1 & _ & H2 & H3).
    exists func1, bus1. split; [exact H1|]. split; [exact H2|].
    destruct (H3 data0_cycles) as (rs & outs & func' & H4 & _ & _ & _ & H5 & _).
    exists rs, outs, func'. by split.
  - exact (proj1 device_deaf_after_token func_eop eop_bus _ _ eq_refl eq_refl eq_refl).
Defined.

Lemma test_func_recv_receives_nothing_witness : exists func,
  test_func_recv 17 = Some (Ok func) /\ rx_len (func_xfer func) = 0.
Proof.
  destruct (test_func_recv_receives_nothing 17 ltac:(lia)) as (func & H1 & _ & H2 & _).
  exists func. split; [exact H1|exact H2].
Defined.
