(* ===== verification/TestCases.v ===== *)
(** The simulator's test cases: src/vpi/testcase.h and the src/vpi/tc_*.c files
    that src/vpi/ulpisim.c schedules, and the link-restart test of
    src/vpi/tc_restarts.c.

    Each test case is a state machine that is stepped after every packet phase of
    the host: it inspects its own state, sets up the next transaction in the host
    and moves on.  A Module per file holds its state, its [init] and its [step].
    The state enumerations are inductive types: only enumerators are ever stored,
    so the [default] branches of the code, which end the simulation, are not
    reachable and are not modelled.  Of what the tests print, the descriptors of
    [show_desc] are recorded; the log messages are not. *)

From S2P Require Import Prelude UsbCrc Ulpi UlpiSafe StdReq UsbHost.

(** The outside of the program.  What the C library supplies: [rand()] and the
    addresses [malloc] returns; and what the simulator receives: the descriptors that
    have been printed and the codes of the calls of [vpi_control(vpiFinish, code)], in
    order. *)
Record world : Type := MkWorld {
  w_rand : rng;
  w_malloc : rng;
  w_shown : list (list Z);
  w_finish : list Z
}.

#[export] Instance set_w_rand : Setter w_rand :=
  fun v w => MkWorld v (w_malloc w) (w_shown w) (w_finish w).
#[export] Instance set_w_malloc : Setter w_malloc :=
  fun v w => MkWorld (w_rand w) v (w_shown w) (w_finish w).
#[export] Instance set_w_shown : Setter w_shown :=
  fun v w => MkWorld (w_rand w) (w_malloc w) v (w_finish w).
#[export] Instance set_w_finish : Setter w_finish :=
  fun v w => MkWorld (w_rand w) (w_malloc w) (w_shown w) v.

(** [vpi_control(vpiFinish, code)] *)
Definition w_stop (code : Z) (w : world) : world := w <| w_finish := w_finish w ++ [code] |>.

(** [rand()] and [malloc()]. *)
Definition w_rand_next (w : world) : Z * world :=
  let '(v, g) := rng_next (w_rand w) in (v, w <| w_rand := g |>).
Definition w_malloc_next (w : world) : Z * world :=
  let '(v, g) := rng_next (w_malloc w) in (v, w <| w_malloc := g |>).

Definition tc_result (St : Type) : Type := outcome (Z * usb_host_t * St * world).

Definition BULK_IN_EP : Z := 1.
Definition DDR3_IN_EP : Z := 3.
Definition BULK_OUT_EP : Z := 2.
Definition DDR3_OUT_EP : Z := 5.

(** ** Code that the files repeat *)

(** [host->step++] *)
Definition host_next (host : usb_host_t) : usb_host_t := host <| host_step := u32 (host_step host + 1) |>.

(** [host->xfer.ep_seq[0] = v] *)
Definition host_seq0 (host : usb_host_t) (v : Z) : outcome usb_host_t :=
  seq ← write_at (ep_seq (host_xfer host)) 0 v;
  Ok (host <| host_xfer := host_xfer host <| ep_seq := seq |> |>).

(** The set-up of the zero-length status packet. *)
Definition host_zdp (host : usb_host_t) : usb_host_t :=
  host <| host_xfer := host_xfer host <| tx_len := 0 |> <| type := DnDATA1 |>
                                      <| crc1 := 0x00 |> <| crc2 := 0x00 |> |>.

(** [host->op = HostIdle; xfer->type = XferIdle; xfer->stage = NoXfer;] *)
Definition host_idle (host : usb_host_t) : usb_host_t :=
  host <| host_op := HostIdle |>
       <| host_xfer := host_xfer host <| type := XferIdle |> <| stage := NoXfer |> |>.

(** The token of a bulk transaction, in [tok1] and [tok2]. *)
Definition xfer_token (xfer : transfer_t) (addr ep : Z) : transfer_t :=
  let tok := crc5_calc (Z.lor (Z.land (u16 addr) 0x7F) (u16 (Z.shiftl (Z.land (u16 ep) 0x0F) 7))) in
  xfer <| tok1 := Z.land tok 0xFF |> <| tok2 := Z.land (Z.shiftr tok 8) 0xFF |>.

(** [xfer->type = t; xfer->stage = NoXfer; xfer->address = host->addr;
    xfer->endpoint = ep;] and the token. *)
Definition xfer_start (host : usb_host_t) (t : xfer_type_t) (ep : Z) : transfer_t :=
  xfer_token (host_xfer host <| type := t |> <| stage := NoXfer |> <| address := host_addr host |>
                             <| endpoint := ep |>) (host_addr host) ep.

(** [for (int i=n; i--;) xfer->tx[i] = rand();] *)
Fixpoint tx_fill_rand (n : nat) (tx : list Z) (w : world) : outcome (list Z * world) :=
  match n with
  | O => Ok (tx, w)
  | S n =>
      let '(v, w) := w_rand_next w in
      tx ← write_at tx (Z.of_nat n) (u8 v);
      tx_fill_rand n tx w
  end.

(** [crc = crc16_calc(xfer->tx, len)], in [crc1] and [crc2]. *)
Definition xfer_crc (xfer : transfer_t) (len : Z) : outcome transfer_t :=
  body ← read_n (tx xfer) len;
  let crc := crc16_calc body in
  Ok (xfer <| crc1 := Z.land crc 0xFF |> <| crc2 := Z.land (Z.shiftr crc 8) 0xFF |>).

(** ** tc_bulkout.c *)

Module BulkOut.

Inductive bulkout_state_t : Type :=
| BulkOUT0 | BulkOUT1 | BulkOUT2 | BulkOUT3 | BulkOUT4 | BulkOUT5 | BulkOUT6 | BulkDone.

Definition tc_bulkout_xfer (host : usb_host_t) (n ep : Z) (w : world)
  : outcome (usb_host_t * world) :=
  let xfer := xfer_start host OUT ep <| tx_len := n |> <| tx_ptr := 0 |> in
  '(tx', w) ← tx_fill_rand (Z.to_nat n) (tx xfer) w;
  xfer ← xfer_crc (xfer <| tx := tx' |>) n;
  Ok (host <| host_op := HostBulkOUT |> <| host_xfer := xfer |>, w).

Definition tc_bulkout_init (host : usb_host_t) (st : bulkout_state_t) (w : world)
  : tc_result bulkout_state_t :=
  '(host, w) ← tc_bulkout_xfer host 16 BULK_OUT_EP w;
  Ok (0, host <| host_step := 0 |>, BulkOUT0, w).

Definition tc_bulkout_step (host : usb_host_t) (st : bulkout_state_t) (w : world)
  : tc_result bulkout_state_t :=
  let next n st :=
    '(host, w) ← tc_bulkout_xfer host n BULK_OUT_EP w;
    Ok (0, host, st, w) in
  match st with
  | BulkOUT0 => next 37 BulkOUT1
  | BulkOUT1 => next 0 BulkOUT2
  | BulkOUT2 => next 1 BulkOUT3
  | BulkOUT3 => next 2 BulkOUT4
  | BulkOUT4 => next 3 BulkOUT5
  | BulkOUT5 => next 4 BulkOUT6
  | BulkOUT6 => Ok (1, host_idle host, BulkDone, w)
  | BulkDone => Ok (1, host, BulkDone, w)
  end.

End BulkOut.

(** ** tc_bulkin.c *)

Module BulkIn.

Inductive bulkin_step_t : Type := BulkIN0 | BulkIN1 | BulkIN2 | BINDone.

Record bulkin_state_t : Type := MkBulkIn { bi_step : bulkin_step_t; bi_stage : Z; bi_ep : Z }.

Definition tc_bulkin_xfer (host : usb_host_t) (ep : Z) : usb_host_t :=
  host <| host_op := HostBulkIN |> <| host_xfer := xfer_start host IN ep <| rx_ptr := 0 |> |>.

Definition tc_bulkin_init (host : usb_host_t) (st : bulkin_state_t) (w : world)
  : tc_result bulkin_state_t :=
  Ok (0, tc_bulkin_xfer host (bi_ep st) <| host_step := 0 |>, MkBulkIn BulkIN0 0 (bi_ep st), w).

Definition tc_bulkin_step (host : usb_host_t) (st : bulkin_state_t) (w : world)
  : tc_result bulkin_state_t :=
  let goto s := MkBulkIn s (bi_stage st) (bi_ep st) in
  match bi_step st with
  | BulkIN0 => Ok (0, tc_bulkin_xfer host BULK_IN_EP, goto BulkIN1, w)
  | BulkIN1 => Ok (0, tc_bulkin_xfer host BULK_IN_EP, goto BulkIN2, w)
  | BulkIN2 => Ok (1, host_idle host, goto BINDone, w)
  | BINDone => Ok (1, host, st, w)
  end.

End BulkIn.

(** ** tc_parity.c *)

Module Parity.

Inductive parity_step_t : Type := BulkIN0 | BulkIN1 | BulkOUT0 | BulkOUT1 | DonePar.

(** The function pointer [adjust]. *)
Inductive adjust_t : Type := AdjustSeq | AdjustCrc | AdjustEpt.

Record parity_state_t : Type := MkParity { pa_adjust : adjust_t; pa_step : parity_step_t; pa_stage : Z }.

Definition adjust_seq (xfer : transfer_t) : outcome transfer_t := transfer_ack xfer.

Definition adjust_crc (xfer : transfer_t) : outcome transfer_t :=
  if endpoint xfer =? BULK_IN_EP then Ok (xfer <| tok2 := u8 (Z.lxor (tok2 xfer) 0x80) |>)
  else Ok (xfer <| crc1 := u8 (Z.lxor (crc1 xfer) 0xFF) |>).

Definition adjust_ept (xfer : transfer_t) : outcome transfer_t :=
  Ok (transfer_tok (xfer <| endpoint := u8 (Z.lxor (endpoint xfer) 0xF) |>)).

Definition adjust (a : adjust_t) : transfer_t -> outcome transfer_t :=
  match a with AdjustSeq => adjust_seq | AdjustCrc => adjust_crc | AdjustEpt => adjust_ept end.

Definition host_adjust (a : adjust_t) (host : usb_host_t) : outcome usb_host_t :=
  xfer ← adjust a (host_xfer host);
  Ok (host <| host_xfer := xfer |>).

Definition tc_parity_xfer (host : usb_host_t) (ep : Z) (w : world) : outcome (usb_host_t * world) :=
  if ep =? BULK_IN_EP then
    let xfer := xfer_start host IN ep <| rx_len := 0 |> <| rx_ptr := 0 |> in
    Ok (host <| host_op := HostBulkIN |> <| host_xfer := xfer |>, w)
  else
    let '(v, w) := w_rand_next w in
    let n := Z.land (Z.shiftl (Z.lor v 0x01) 1) 0x07 in
    let xfer := xfer_start host OUT ep <| tx_len := n |> <| tx_ptr := 0 |> in
    '(tx', w) ← tx_fill_rand (Z.to_nat n) (tx xfer) w;
    xfer ← xfer_crc (xfer <| tx := tx' |>) n;
    Ok (host <| host_op := HostBulkOUT |> <| host_xfer := xfer |>, w).

Definition tc_parity_init (host : usb_host_t) (st : parity_state_t) (w : world)
  : tc_result parity_state_t :=
  if pa_stage st =? 3 then Ok (1, host, st, w)
  else
    let a := if pa_stage st =? 0 then AdjustSeq
             else if pa_stage st =? 1 then AdjustCrc
             else if pa_stage st =? 2 then AdjustEpt
             else pa_adjust st in
    '(host, w) ← tc_parity_xfer host BULK_IN_EP w;
    host ← host_adjust a host;
    Ok (0, host, MkParity a BulkIN0 (pa_stage st), w).

Definition tc_parity_step (host : usb_host_t) (st : parity_state_t) (w : world)
  : tc_result parity_state_t :=
  let goto s := MkParity (pa_adjust st) s (pa_stage st) in
  match pa_step st with
  | BulkIN0 =>
      host ← host_adjust (pa_adjust st) host;
      '(host, w) ← tc_parity_xfer host BULK_IN_EP w;
      Ok (0, host, goto BulkIN1, w)
  | BulkIN1 =>
      '(host, w) ← tc_parity_xfer host BULK_OUT_EP w;
      host ← host_adjust (pa_adjust st) host;
      Ok (0, host, goto BulkOUT0, w)
  | BulkOUT0 =>
      host ← host_adjust (pa_adjust st) host;
      '(host, w) ← tc_parity_xfer host BULK_OUT_EP w;
      Ok (0, host, goto BulkOUT1, w)
  | BulkOUT1 =>
      let host := host_idle host in
      let st := MkParity (pa_adjust st) (pa_step st) (u8 (pa_stage st + 1)) in
      if pa_stage st <? 3 then
        '(_, host, st, w) ← tc_parity_init host st w;
        Ok (0, host, st, w)
      else Ok (1, host, MkParity (pa_adjust st) DonePar (pa_stage st), w)
  | DonePar => Ok (1, host, st, w)
  end.

End Parity.

(** ** tc_ddr3in.c *)

(** The six header bytes that both DDR3 tests write: command, length, address
    and transaction identifier. *)
Definition ddr3_header (tx : list Z) (cmd n addr id : Z) : outcome (list Z) :=
  write_n tx
    [cmd; Z.lor (u8 (n - 1)) 0x03; Z.land addr 0xFF; Z.land (Z.shiftr addr 8) 0xFF;
     Z.land (Z.shiftr addr 16) 0xFF;
     u8 (Z.lor (Z.land (Z.shiftr addr 24) 0x0F) (Z.shiftl (Z.land id 0x0F) 4))].

Module Ddr3In.

Inductive ddr3in_step_t : Type := DDR3Cmd | DDR3Dat | DDR3End.

Record ddr3in_state_t : Type := MkDdr3In {
  di_addr : Z; di_step : ddr3in_step_t; di_iter : Z; di_out : Z; di_in : Z; di_id : Z
}.

Definition NUM_ITER : Z := 6.
Definition ddr3in_lengths : list Z := [4; 8; 16; 20; 12; 24].

Definition tc_ddr3in_cmd (host : usb_host_t) (n : Z) (st : ddr3in_state_t) : outcome usb_host_t :=
  let xfer := xfer_start host OUT (di_out st) <| tx_len := 6 |> <| tx_ptr := 0 |> in
  tx' ← ddr3_header (tx xfer) 0x80 n (di_addr st) (di_id st);
  let xfer := xfer <| tx := tx' |> in
  xfer ← xfer_crc xfer (tx_len xfer);
  Ok (host <| host_op := HostBulkOUT |> <| host_xfer := xfer |>).

Definition tc_ddr3in_dat (host : usb_host_t) (st : ddr3in_state_t) : usb_host_t :=
  host <| host_op := HostBulkIN |> <| host_xfer := xfer_start host IN (di_in st) <| rx_ptr := 0 |> |>.

Definition tc_ddr3in_init (host : usb_host_t) (st : ddr3in_state_t) (w : world)
  : tc_result ddr3in_state_t :=
  let st := MkDdr3In (di_addr st) DDR3Cmd (di_iter st) DDR3_OUT_EP DDR3_IN_EP (di_id st) in
  n ← read_at ddr3in_lengths (di_iter st);
  host ← tc_ddr3in_cmd host n st;
  Ok (0, host <| host_step := 0 |>, st, w).

Definition tc_ddr3in_step (host : usb_host_t) (st : ddr3in_state_t) (w : world)
  : tc_result ddr3in_state_t :=
  let goto s iter := MkDdr3In (di_addr st) s iter (di_out st) (di_in st) (di_id st) in
  let iter := u8 (di_iter st + 1) in
  match di_step st with
  | DDR3Cmd =>
      if iter <? NUM_ITER then
        n ← read_at ddr3in_lengths iter;
        let st := goto DDR3Cmd iter in
        host ← tc_ddr3in_cmd host n st;
        Ok (0, host, st, w)
      else Ok (0, tc_ddr3in_dat host st, goto DDR3Dat 0, w)
  | DDR3Dat =>
      let host := host <| host_xfer := host_xfer host <| stage := NoXfer |> |> in
      if NUM_ITER <=? iter then
        Ok (1, host <| host_xfer := host_xfer host <| type := XferIdle |> |>
                    <| host_op := HostIdle |>, goto DDR3End iter, w)
      else Ok (0, tc_ddr3in_dat host st, goto DDR3Dat iter, w)
  | DDR3End => Ok (1, host, st, w)
  end.

End Ddr3In.

(** ** tc_ddr3out.c *)

Module Ddr3Out.

Inductive ddr3out_step_t : Type := DDR3Out | DDR3Res | DDR3End.

Record ddr3out_state_t : Type := MkDdr3Out {
  do_addr : Z; do_step : ddr3out_step_t; do_iter : Z; do_beat : Z; do_out : Z; do_in : Z; do_id : Z
}.

Definition NUM_ITER : Z := 7.
Definition ddr3out_lengths : list Z := [4; 4; 8; 16; 20; 12; 24; 0].

(** [dst[i] = rand()] for [i] from [n - 1] down to 0, where [dst] is
    [(uint32_t* )&xfer->tx[6]].  ISO C leaves these stores undefined: [tx] is at offset
    24 of [transfer_t], so that [dst] is not aligned, and bytes are written as words.
    This is what they do on a little-endian machine that allows unaligned accesses,
    as the x86-64 that the simulator runs on, compiled without assuming otherwise. *)
Fixpoint fill_words (n : nat) (tx : list Z) (w : world) : outcome (list Z * world) :=
  match n with
  | O => Ok (tx, w)
  | S n =>
      let '(v, w) := w_rand_next w in
      let p := 6 + 4 * Z.of_nat n in
      tx ← write_at tx p (Z.land v 0xFF);
      tx ← write_at tx (p + 1) (Z.land (Z.shiftr v 8) 0xFF);
      tx ← write_at tx (p + 2) (Z.land (Z.shiftr v 16) 0xFF);
      tx ← write_at tx (p + 3) (Z.land (Z.shiftr v 24) 0xFF);
      fill_words n tx w
  end.

Definition tc_ddr3out_cmd (host : usb_host_t) (n : Z) (st : ddr3out_state_t) (w : world)
  : outcome (usb_host_t * world) :=
  let len := n * do_beat st + 6 in
  let xfer := xfer_start host OUT (do_out st) <| tx_len := len |> <| tx_ptr := 0 |> in
  tx' ← ddr3_header (tx xfer) 0x01 n (do_addr st) (do_id st);
  '(tx', w) ← fill_words (Z.to_nat n) tx' w;
  xfer ← xfer_crc (xfer <| tx := tx' |>) len;
  Ok (host <| host_op := HostBulkOUT |> <| host_xfer := xfer |>, w).

Definition tc_ddr3out_res (host : usb_host_t) (st : ddr3out_state_t) : usb_host_t :=
  host <| host_op := HostBulkIN |> <| host_xfer := xfer_start host IN (do_in st) <| rx_ptr := 0 |> |>.

Definition tc_ddr3out_init (host : usb_host_t) (st : ddr3out_state_t) (w : world)
  : tc_result ddr3out_state_t :=
  let '(v, w) := w_rand_next w in
  let st := MkDdr3Out (do_addr st) DDR3Out (do_iter st) 4 DDR3_OUT_EP DDR3_IN_EP (Z.land v 0x0F) in
  n ← read_at ddr3out_lengths (do_iter st);
  '(host, w) ← tc_ddr3out_cmd host n st w;
  Ok (0, host <| host_step := 0 |>, st, w).

Definition tc_ddr3out_step (host : usb_host_t) (st : ddr3out_state_t) (w : world)
  : tc_result ddr3out_state_t :=
  let goto s iter := MkDdr3Out (do_addr st) s iter (do_beat st) (do_out st) (do_in st) (do_id st) in
  let iter := u8 (do_iter st + 1) in
  match do_step st with
  | DDR3Out =>
      if iter <? NUM_ITER then
        n ← read_at ddr3out_lengths iter;
        let st := goto DDR3Out iter in
        '(host, w) ← tc_ddr3out_cmd host n st w;
        Ok (0, host, st, w)
      else Ok (0, tc_ddr3out_res host st, goto DDR3Res 0, w)
  | DDR3Res =>
      if iter <? NUM_ITER then Ok (0, tc_ddr3out_res host st, goto DDR3Res iter, w)
      else Ok (1, host_idle host, goto DDR3End iter, w)
  | DDR3End => Ok (1, host, st, w)
  end.

End Ddr3Out.

(** ** tc_getdesc.c, and the phases of a control read that three files share *)

Inductive getdesc_state_t : Type :=
| SendSETUP | SendDATA0 | RecvACK0 | SendIN | RecvDATA1 | SendACK | SendOUT | SendZDP
| RecvACK1 | DescDone.

(** The phases up to [SendZDP]: the next phase and the host set up for it. *)
Definition getdesc_phase (host : usb_host_t) (st : getdesc_state_t)
  : option (outcome (usb_host_t * getdesc_state_t)) :=
  let host := host_next host in
  match st with
  | SendSETUP => Some (Ok (host, SendDATA0))
  | SendDATA0 => Some (Ok (host, RecvACK0))
  | RecvACK0 => Some (host ← host_seq0 host SIG1; Ok (host, SendIN))
  | SendIN => Some (Ok (host, RecvDATA1))
  | RecvDATA1 => Some (Ok (host, SendACK))
  | SendACK => Some (Ok (host, SendOUT))
  | SendOUT => Some (Ok (host_zdp host, SendZDP))
  | SendZDP => Some (Ok (host, RecvACK1))
  | RecvACK1 | DescDone => None
  end.

(** The bytes that [show_desc] prints, up to [MAX_CONFIG_SIZE] of [rx], if it prints. *)
Definition show_desc (xfer : transfer_t) : option (list Z) :=
  if (rx_len xfer <? 0) || (MAX_CONFIG_SIZE <? rx_len xfer) then None
  else Some (take (Z.to_nat (rx_len xfer)) (rx xfer)).

(** The call of it. *)
Definition w_show (xfer : transfer_t) (w : world) : world :=
  w <| w_shown := w_shown w ++ option_list (show_desc xfer) |>.

(** An uninitialised [usb_stdreq_t]: [get_descriptor] sets all of it. *)
Definition stdreq_uninit : usb_stdreq_t := MkStdReq 0 0 0 0 0 0.

Definition tc_get_descriptor (host : usb_host_t) (num : Z) (w : world)
  : outcome (Z * usb_host_t * world) :=
  let '(desc, w') := w_malloc_next w in
  '(result, host') ← stdreq_get_descriptor host num desc stdreq_uninit;
  Ok (result, host', if host_op_eqb (host_op host) HostIdle then w' else w).

Module GetDesc.

Definition tc_getdesc_init (host : usb_host_t) (st : getdesc_state_t) (w : world)
  : tc_result getdesc_state_t :=
  '(result, host, w) ← tc_get_descriptor host 0x0301 w;
  if result <? 0 then Ok (-1, host, SendSETUP, w_stop 2 w) else Ok (0, host, SendSETUP, w).

Definition tc_getdesc_step (host : usb_host_t) (st : getdesc_state_t) (w : world)
  : tc_result getdesc_state_t :=
  match getdesc_phase host st with
  | Some m => '(host, st) ← m; Ok (0, host, st, w)
  | None =>
      match st with
      | RecvACK1 =>
          let host := host_next host <| host_op := HostIdle |> in
          Ok (1, host, DescDone, w_show (host_xfer host) w)
      | _ => Ok (1, host, st, w)
      end
  end.

End GetDesc.

(** ** tc_getconf.c *)

Module GetConf.

(** The fields [buf] and [len] are set but never used. *)
Record getconf_state_t : Type := MkGetConf { gc_step : getdesc_state_t; gc_stage : Z }.

Definition tc_getconf_init (host : usb_host_t) (st : getconf_state_t) (w : world)
  : tc_result getconf_state_t :=
  let st := MkGetConf SendSETUP (gc_stage st) in
  if gc_stage st =? 3 then Ok (1, host, st, w)
  else
    '(result, host) ← (if gc_stage st =? 0 then stdreq_get_desc_device host
                       else if gc_stage st =? 1 then stdreq_get_desc_config host 9
                       else if gc_stage st =? 2 then stdreq_get_desc_config host 39
                       else Undef (* [result] is not initialised *));
    if result <? 0 then Ok (result, host, st, w_stop 2 w) else Ok (0, host, st, w).

Definition tc_getconf_step (host : usb_host_t) (st : getconf_state_t) (w : world)
  : tc_result getconf_state_t :=
  match getdesc_phase host (gc_step st) with
  | Some m => '(host, s) ← m; Ok (0, host, MkGetConf s (gc_stage st), w)
  | None =>
      match gc_step st with
      | RecvACK1 =>
          let host := host_next host <| host_op := HostIdle |> in
          let w := w_show (host_xfer host) w in
          let st := MkGetConf RecvACK1 (u8 (gc_stage st + 1)) in
          if gc_stage st <? 3 then
            '(_, host, st, w) ← tc_getconf_init host st w;
            Ok (0, host, st, w)
          else Ok (1, host, MkGetConf DescDone (gc_stage st), w)
      | _ => Ok (1, host, st, w)
      end
  end.

End GetConf.

(** ** tc_getstrs.c *)

Module GetStrs.

Record getstrs_state_t : Type := MkGetStrs { gs_step : getdesc_state_t; gs_stage : Z }.

Definition tc_getstrs_init (host : usb_host_t) (st : getstrs_state_t) (w : world)
  : tc_result getstrs_state_t :=
  let st := MkGetStrs SendSETUP (gs_stage st) in
  if gs_stage st =? 5 then Ok (1, host, st, w)
  else
    '(result, host, w) ←
      (if (0 <=? gs_stage st) && (gs_stage st <=? 3)
       then tc_get_descriptor host (0x0300 + gs_stage st) w
       else if gs_stage st =? 4 then
         '(result, host) ← stdreq_get_status host; Ok (result, host, w)
       else Undef (* [result] is not initialised *));
    if result <? 0 then Ok (result, host, st, w_stop 2 w) else Ok (0, host, st, w).

Definition tc_getstrs_step (host : usb_host_t) (st : getstrs_state_t) (w : world)
  : tc_result getstrs_state_t :=
  match getdesc_phase host (gs_step st) with
  | Some m => '(host, s) ← m; Ok (0, host, MkGetStrs s (gs_stage st), w)
  | None =>
      match gs_step st with
      | RecvACK1 =>
          let host := host_next host <| host_op := HostIdle |> in
          let w := w_show (host_xfer host) w in
          let st := MkGetStrs RecvACK1 (u8 (gs_stage st + 1)) in
          if gs_stage st <? 5 then
            '(_, host, st, w) ← tc_getstrs_init host st w;
            Ok (0, host, st, w)
          else Ok (1, host, MkGetStrs DescDone (gs_stage st), w)
      | _ => Ok (1, host, st, w)
      end
  end.

End GetStrs.

(** ** tc_setaddr.c and tc_setconf.c *)

Module SetAddr.

Inductive setaddr_stage_t : Type :=
| SendSETUP | SendDATA0 | RecvACK0 | SendIN | RecvDATA1 | SendACK | AddrDone.

Record setaddr_state_t : Type := MkSetAddr { sa_stage : setaddr_stage_t; sa_addr : Z }.

Definition tc_setaddr_init (host : usb_host_t) (st : setaddr_state_t) (w : world)
  : tc_result setaddr_state_t :=
  let st := MkSetAddr SendSETUP (sa_addr st) in
  '(result, host) ← stdreq_set_address host (sa_addr st);
  if result <? 0 then Ok (-1, host, st, w_stop 2 w) else Ok (0, host, st, w).

Definition tc_setaddr_step (host : usb_host_t) (st : setaddr_state_t) (w : world)
  : tc_result setaddr_state_t :=
  let goto s := MkSetAddr s (sa_addr st) in
  match sa_stage st with
  | SendSETUP => host ← host_seq0 host SIG0; Ok (0, host_next host, goto SendDATA0, w)
  | SendDATA0 => Ok (0, host_next host, goto RecvACK0, w)
  | RecvACK0 =>
      Ok (0, host_next (host <| host_addr := sa_addr st |>
                             <| host_xfer := host_xfer host <| address := sa_addr st |> |>),
          goto SendIN, w)
  | SendIN => host ← host_seq0 host SIG1; Ok (0, host_next host, goto RecvDATA1, w)
  | RecvDATA1 => Ok (0, host_next host, goto SendACK, w)
  | SendACK => Ok (1, host_next host <| host_op := HostIdle |>, goto AddrDone, w)
  | AddrDone => Ok (1, host, st, w)
  end.

(** [test_setaddr]: [None] is the NULL for an address of more than 7 bits. *)
Definition test_setaddr (addr : Z) : option setaddr_state_t :=
  if negb (Z.land addr 0x7F =? addr) then None else Some (MkSetAddr SendSETUP addr).

End SetAddr.

Module SetConf.

Inductive set_stage_t : Type :=
| SendSETUP | SendDATA0 | RecvACK0 | SendIN | RecvDATA1 | SendACK | SetDone.

Record setconf_t : Type := MkSetConf { sc_stage : set_stage_t; sc_conf : Z }.

Definition tc_setconf_init (host : usb_host_t) (st : setconf_t) (w : world) : tc_result setconf_t :=
  let st := MkSetConf SendSETUP (sc_conf st) in
  '(result, host) ← stdreq_set_config host (sc_conf st);
  if result <? 0 then Ok (-1, host, st, w_stop 2 w) else Ok (0, host, st, w).

Definition tc_setconf_step (host : usb_host_t) (st : setconf_t) (w : world) : tc_result setconf_t :=
  let goto s := MkSetConf s (sc_conf st) in
  match sc_stage st with
  | SendSETUP => host ← host_seq0 host SIG0; Ok (0, host_next host, goto SendDATA0, w)
  | SendDATA0 => Ok (0, host_next host, goto RecvACK0, w)
  | RecvACK0 => Ok (0, host_next host, goto SendIN, w)
  | SendIN => host ← host_seq0 host SIG1; Ok (0, host_next host, goto RecvDATA1, w)
  | RecvDATA1 => Ok (0, host_next host, goto SendACK, w)
  | SendACK => Ok (1, host_next host <| host_op := HostIdle |>, goto SetDone, w)
  | SetDone => Ok (1, host, st, w)
  end.

Definition test_setconf (conf : Z) : option setconf_t :=
  if negb (conf =? 0x01) then None else Some (MkSetConf SendSETUP conf).

End SetConf.

(** ** tc_waitsof.c *)

Module WaitSof.

Inductive waitsof_state_t : Type := WaitIdle | WaitDone.

Definition tc_waitsof_init (host : usb_host_t) (st : waitsof_state_t) (w : world)
  : tc_result waitsof_state_t := Ok (0, host <| host_step := 0 |>, WaitIdle, w).

Definition tc_waitsof_step (host : usb_host_t) (st : waitsof_state_t) (w : world)
  : tc_result waitsof_state_t := Ok (1, host, WaitDone, w).

End WaitSof.

(** ** tc_restarts.c: it drives the bus values in [host->prev] *)

Module Restarts.

Definition TSTART_TICKS : Z := 61800.
Definition LINK_IDLE_TICKS : Z := 1.

Inductive restart_stage_t : Type :=
| ErrReset | PowerOff | RefClock | TStart | LinkIdle | RXCMD | Restarted | Completed.

Record restart_t : Type := MkRestart { re_stage : restart_stage_t; re_ticks : Z }.

Definition data_is_idle (bus : ulpi_bus_t) : bool := (data_a bus =? 0x00) && (data_b bus =? 0x00).
Definition phy_is_driving (bus : ulpi_bus_t) : bool := (rst_n bus =? SIG1) && (dir bus =? SIG1).
Definition link_is_idle (bus : ulpi_bus_t) : bool :=
  (rst_n bus =? SIG1) && (dir bus =? SIG0) && (nxt bus =? SIG0) && (stp bus =? SIG0) &&
  data_is_idle bus.

Definition tc_restarts_init (host : usb_host_t) (st : restart_t) (w : world)
  : tc_result restart_t := Ok (0, host, MkRestart PowerOff 0, w).

(** [ticks] is an [int] that stops at [TSTART_TICKS]; it does not overflow. *)
Definition tc_restarts_step (host : usb_host_t) (por : restart_t) (w : world)
  : tc_result restart_t :=
  let bus := host_prev host in
  let ticks := re_ticks por in
  match re_stage por with
  | ErrReset => Ok (-1, host, por, w)
  | PowerOff =>
      if rst_n bus =? SIG0 then Ok (0, host, MkRestart RefClock ticks, w) else Ok (0, host, por, w)
  | RefClock =>
      if rst_n bus =? SIG1 then
        Ok (0, host <| host_prev := bus <| dir := SIG1 |> <| nxt := SIG0 |> <| data_a := 0x00 |>
                                        <| data_b := 0x00 |> |>, MkRestart TStart 0, w)
      else if negb (rst_n bus =? SIG0) then Ok (-1, host, MkRestart ErrReset ticks, w_stop 3 w)
      else Ok (0, host, MkRestart RefClock (ticks + 1), w)
  | TStart =>
      if phy_is_driving bus && data_is_idle bus then
        let ticks := ticks + 1 in
        if (TSTART_TICKS <=? ticks) && (stp bus =? SIG0)
        then Ok (0, host <| host_prev := phy_bus_release bus |>, MkRestart LinkIdle 0, w)
        else Ok (0, host, MkRestart TStart ticks, w)
      else Ok (-1, host, por, w_stop 3 w)
  | LinkIdle =>
      if link_is_idle bus then
        let ticks := ticks + 1 in
        if LINK_IDLE_TICKS <=? ticks
        then Ok (0, host <| host_prev := bus <| dir := SIG1 |> |>, MkRestart RXCMD 0, w)
        else Ok (0, host, MkRestart LinkIdle ticks, w)
      else Ok (0, host, por, w)
  | RXCMD => Ok (0, host, MkRestart Restarted 0, w)
  | Restarted => Ok (0, host <| host_prev := phy_bus_release bus |>, MkRestart Completed 0, w)
  | Completed => Ok (1, host, por, w)
  end.

End Restarts.

(** ** [testcase_t]: the data of a test with its [init] and [step] pointers *)

Inductive testcase_t : Type :=
| TestGetDesc (st : getdesc_state_t)
| TestSetAddr (st : SetAddr.setaddr_state_t)
| TestGetConf (st : GetConf.getconf_state_t)
| TestSetConf (st : SetConf.setconf_t)
| TestGetStrs (st : GetStrs.getstrs_state_t)
| TestWaitSof (st : WaitSof.waitsof_state_t)
| TestBulkOut (st : BulkOut.bulkout_state_t)
| TestBulkIn (st : BulkIn.bulkin_state_t)
| TestDdr3Out (st : Ddr3Out.ddr3out_state_t)
| TestDdr3In (st : Ddr3In.ddr3in_state_t)
| TestParity (st : Parity.parity_state_t)
| TestRestarts (st : Restarts.restart_t).

(** The call through a function pointer, with the test's data updated. *)
Definition tc_call {St} (mk : St -> testcase_t) (m : tc_result St) : tc_result testcase_t :=
  '(result, host, st, w) ← m; Ok (result, host, mk st, w).

Definition tc_init (test : testcase_t) (host : usb_host_t) (w : world) : tc_result testcase_t :=
  match test with
  | TestGetDesc st => tc_call TestGetDesc (GetDesc.tc_getdesc_init host st w)
  | TestSetAddr st => tc_call TestSetAddr (SetAddr.tc_setaddr_init host st w)
  | TestGetConf st => tc_call TestGetConf (GetConf.tc_getconf_init host st w)
  | TestSetConf st => tc_call TestSetConf (SetConf.tc_setconf_init host st w)
  | TestGetStrs st => tc_call TestGetStrs (GetStrs.tc_getstrs_init host st w)
  | TestWaitSof st => tc_call TestWaitSof (WaitSof.tc_waitsof_init host st w)
  | TestBulkOut st => tc_call TestBulkOut (BulkOut.tc_bulkout_init host st w)
  | TestBulkIn st => tc_call TestBulkIn (BulkIn.tc_bulkin_init host st w)
  | TestDdr3Out st => tc_call TestDdr3Out (Ddr3Out.tc_ddr3out_init host st w)
  | TestDdr3In st => tc_call TestDdr3In (Ddr3In.tc_ddr3in_init host st w)
  | TestParity st => tc_call TestParity (Parity.tc_parity_init host st w)
  | TestRestarts st => tc_call TestRestarts (Restarts.tc_restarts_init host st w)
  end.

Definition tc_step (test : testcase_t) (host : usb_host_t) (w : world) : tc_result testcase_t :=
  match test with
  | TestGetDesc st => tc_call TestGetDesc (GetDesc.tc_getdesc_step host st w)
  | TestSetAddr st => tc_call TestSetAddr (SetAddr.tc_setaddr_step host st w)
  | TestGetConf st => tc_call TestGetConf (GetConf.tc_getconf_step host st w)
  | TestSetConf st => tc_call TestSetConf (SetConf.tc_setconf_step host st w)
  | TestGetStrs st => tc_call TestGetStrs (GetStrs.tc_getstrs_step host st w)
  | TestWaitSof st => tc_call TestWaitSof (WaitSof.tc_waitsof_step host st w)
  | TestBulkOut st => tc_call TestBulkOut (BulkOut.tc_bulkout_step host st w)
  | TestBulkIn st => tc_call TestBulkIn (BulkIn.tc_bulkin_step host st w)
  | TestDdr3Out st => tc_call TestDdr3Out (Ddr3Out.tc_ddr3out_step host st w)
  | TestDdr3In st => tc_call TestDdr3In (Ddr3In.tc_ddr3in_step host st w)
  | TestParity st => tc_call TestParity (Parity.tc_parity_step host st w)
  | TestRestarts st => tc_call TestRestarts (Restarts.tc_restarts_step host st w)
  end.

(** ** The constructors of the tests *)

Definition test_getdesc : testcase_t := TestGetDesc SendSETUP.
Definition test_getconf : testcase_t := TestGetConf (GetConf.MkGetConf SendSETUP 0).
Definition test_getstrs : testcase_t := TestGetStrs (GetStrs.MkGetStrs SendSETUP 0).
Definition test_waitsof : testcase_t := TestWaitSof WaitSof.WaitIdle.
Definition test_bulkout : testcase_t := TestBulkOut BulkOut.BulkOUT0.
Definition test_bulkin (ep : Z) : testcase_t := TestBulkIn (BulkIn.MkBulkIn BulkIn.BulkIN0 0 ep).
Definition test_ddr3out (addr : Z) : testcase_t :=
  TestDdr3Out (Ddr3Out.MkDdr3Out addr Ddr3Out.DDR3Out 0 4 DDR3_OUT_EP DDR3_IN_EP 0x01).
Definition test_ddr3in (addr : Z) (w : world) : testcase_t * world :=
  let '(v, w) := w_rand_next w in
  (TestDdr3In (Ddr3In.MkDdr3In addr Ddr3In.DDR3Cmd 0 DDR3_OUT_EP DDR3_IN_EP (Z.land v 0x0F)), w).
Definition test_parity : testcase_t :=
  TestParity (Parity.MkParity Parity.AdjustSeq Parity.BulkIN0 0).
Definition test_restarts : testcase_t := TestRestarts (Restarts.MkRestart Restarts.PowerOff 0).
