(* ===== verification/TestCasesProps.v ===== *)
(** The test cases: every call succeeds, keeps the host's transfer well formed
    and brings the test one step closer to its end; the packets they queue are
    valid. *)

From S2P Require Import Prelude Gf2 UsbCrc Ulpi UlpiSafe UlpiTrace UlpiRecv StdReq.
From S2P Require Import StdReqProps UsbHost TestCases.

#[local] Opaque crc16_calc crc5_calc crc5_check crc16_check.

(** ** Set-up code keeps transfers well formed *)

Definition wf_host (host : usb_host_t) : Prop := wf_xfer (host_xfer host).

Lemma xfer_token_wf x ad ep : wf_xfer x -> wf_xfer (xfer_token x ad ep).
Proof. intros H. apply wf_set_tok; [apply land_ff_byte..|done]. Qed.

Lemma xfer_start_wf host t ep : wf_host host -> 0 <= ep < 16 -> wf_xfer (xfer_start host t ep).
Proof.
  intros H He. apply xfer_token_wf, wf_set_endpoint; [done|].
  by apply wf_set_address, wf_set_stage, wf_set_type.
Qed.

Lemma u8_byte v : is_byte (u8 v).
Proof. unfold is_byte, u8. apply Z.mod_pos_bound. lia. Qed.

Lemma tx_fill_rand_safe n l w :
  (n <= length l)%nat -> Forall is_byte l ->
  exists l' w', tx_fill_rand n l w = Ok (l', w') /\ length l' = length l /\ Forall is_byte l' /\
    drop n l' = drop n l.
Proof.
  revert l w. induction n as [|n IH]; intros l w Hn Hl; [by exists l, w|].
  cbn [tx_fill_rand]. destruct (w_rand_next w) as [v w1].
  rewrite write_at_in by lia. cbn [mbind outcome_bind]. rewrite Nat2Z.id.
  destruct (IH (<[n:=u8 v]> l) w1) as (l' & w' & H1 & H2 & H3 & H4).
  - rewrite length_insert. lia.
  - apply Forall_insert; [done|apply u8_byte].
  - rewrite length_insert in H2. exists l', w'. split; [done|]. split; [done|]. split; [done|].
    replace (S n) with (n + 1)%nat by lia. rewrite <- !drop_drop, H4, !drop_drop.
    by rewrite drop_insert_lt by lia.
Qed.

Lemma xfer_crc_run x len :
  0 <= len <= Z.of_nat (length (tx x)) ->
  xfer_crc x len = Ok (x <| crc1 := crc_lo (crc16_calc (take (Z.to_nat len) (tx x))) |>
                         <| crc2 := crc_hi (crc16_calc (take (Z.to_nat len) (tx x))) |>).
Proof. intros H. unfold xfer_crc. by rewrite read_n_take. Qed.

Lemma wf_crc x c : wf_xfer x -> wf_xfer (x <| crc1 := crc_lo c |> <| crc2 := crc_hi c |>).
Proof. intros H. apply wf_set_crc; [apply crc_lo_byte|apply crc_hi_byte|done]. Qed.

(** A bulk OUT packet of [n] random bytes. *)
Lemma fill_packet host t ep n w :
  wf_host host -> 0 <= ep < 16 -> 0 <= n <= 512 ->
  exists l w', tx_fill_rand (Z.to_nat n) (tx (host_xfer host)) w = Ok (l, w') /\
    length l = 512%nat /\ Forall is_byte l /\
    wf_xfer (xfer_start host t ep <| tx_len := n |> <| tx_ptr := 0 |> <| tx := l |>).
Proof.
  intros H He Hn. pose proof H as [].
  destruct (tx_fill_rand_safe (Z.to_nat n) (tx (host_xfer host)) w) as (l & w' & H1 & H2 & H3 & _); [lia|done|].
  exists l, w'. split; [done|]. rewrite wf_tx_size in H2. split; [done|]. split; [done|].
  apply wf_set_tx; [done|done|]. apply wf_set_tx_ptr; [lia|]. apply wf_set_tx_len; [lia|].
  by apply xfer_start_wf.
Qed.

(** ** [bulkout] packets *)

(** An OUT packet of [n] bytes of the buffer [l], with its CRC. *)
Definition out_xfer (host : usb_host_t) (ep n : Z) (l : list Z) : transfer_t :=
  let crc := crc16_calc (take (Z.to_nat n) l) in
  xfer_start host OUT ep <| tx_len := n |> <| tx_ptr := 0 |> <| tx := l |>
    <| crc1 := crc_lo crc |> <| crc2 := crc_hi crc |>.

Lemma out_xfer_crc host ep n l :
  length l = 512%nat -> 0 <= n <= 512 ->
  xfer_crc (xfer_start host OUT ep <| tx_len := n |> <| tx_ptr := 0 |> <| tx := l |>) n =
  Ok (out_xfer host ep n l).
Proof.
  intros Hl Hn. rewrite xfer_crc_run; [done|].
  change (tx (xfer_start host OUT ep <| tx_len := n |> <| tx_ptr := 0 |> <| tx := l |>)) with l. lia.
Qed.

Lemma wf_xfer_out host ep n l :
  wf_host host -> 0 <= ep < 16 -> n <= 512 -> length l = 512%nat -> Forall is_byte l ->
  wf_xfer (xfer_start host OUT ep <| tx_len := n |> <| tx_ptr := 0 |> <| tx := l |>).
Proof.
  intros H He Hn Hl Hb. apply wf_set_tx; [done|done|]. apply wf_set_tx_ptr; [lia|].
  apply wf_set_tx_len; [lia|]. by apply xfer_start_wf.
Qed.

Lemma out_xfer_wf host ep n l :
  wf_host host -> 0 <= ep < 16 -> n <= 512 -> length l = 512%nat -> Forall is_byte l ->
  wf_xfer (out_xfer host ep n l).
Proof. intros. apply wf_crc, wf_xfer_out; done. Qed.

(** The transmit buffer, which is all that the set-up of a packet depends on. *)
Record tx_buffer (x : transfer_t) : Prop := {
  txb_size : length (tx x) = 512%nat;
  txb_bytes : Forall is_byte (tx x);
}.

Lemma wf_tx_buffer x : wf_xfer x -> tx_buffer x.
Proof. by intros []. Qed.

Lemma bulkout_xfer_run host n ep w :
  tx_buffer (host_xfer host) -> 0 <= n <= 512 ->
  exists l w', BulkOut.tc_bulkout_xfer host n ep w =
      Ok (host <| host_op := HostBulkOUT |> <| host_xfer := out_xfer host ep n l |>, w') /\
    length l = 512%nat /\ Forall is_byte l.
Proof.
  intros [Hl Hb] Hn.
  destruct (tx_fill_rand_safe (Z.to_nat n) (tx (host_xfer host)) w ltac:(lia) Hb) as (l & w' & H1 & H2 & H3 & _).
  exists l, w'. rewrite Hl in H2. split; [|done]. unfold BulkOut.tc_bulkout_xfer. cbv zeta.
  change (tx (xfer_start host OUT ep <| tx_len := n |> <| tx_ptr := 0 |>)) with (tx (host_xfer host)).
  rewrite H1, outcome_bind_ok. cbv beta iota. by rewrite out_xfer_crc by done.
Qed.

Lemma u16_land v m : Z.land 0xFFFF m = m -> Z.land (u16 v) m = Z.land v m.
Proof.
  intros Hm. unfold u16. rewrite <- Z.land_ones by lia. rewrite <- Z.land_assoc.
  change (Z.ones 16) with 0xFFFF. by rewrite Hm.
Qed.

Lemma u16_land_ones v k : 0 <= k <= 16 -> u16 (Z.land v (Z.ones k)) = Z.land v (Z.ones k).
Proof.
  intros Hk. apply u16_small. rewrite Z.land_ones by lia.
  pose proof (Z.mod_pos_bound v (2 ^ k) ltac:(lia)). pose proof (Z.pow_le_mono_r 2 k 16). lia.
Qed.

(** The payload of a bulk token is the one of [transfer_tok]. *)
Lemma xfer_payload ad ep :
  Z.lor (Z.land (u16 ad) 0x7F) (u16 (Z.shiftl (Z.land (u16 ep) 0x0F) 7)) =
  Z.lor (u16 (Z.land ad 0x7F)) (u16 (Z.shiftl (u16 (Z.land ep 0x0F)) 7)).
Proof.
  rewrite !u16_land by reflexivity. change 0x7F with (Z.ones 7). change 0x0F with (Z.ones 4).
  by rewrite (u16_land_ones ad 7), (u16_land_ones ep 4) by lia.
Qed.

Lemma xfer_start_token host t ep :
  let w := token_word (xfer_start host t ep) in
  crc5_check w = true /\ Z.land w 0x7F = Z.land (host_addr host) 0x7F /\
  Z.land (Z.shiftr w 7) 0x0F = Z.land ep 0x0F.
Proof.
  cbv zeta. unfold token_word, xfer_start, xfer_token. cbv zeta.
  cbn [tok1 tok2 set_field set_tok1 set_tok2]. rewrite xfer_payload.
  destruct (token_payload_bits (host_addr host) ep) as (Hd & Had & Hep & Hm).
  set (d := Z.lor _ _) in *.
  replace (Z.land (Z.shiftr (crc5_calc d) 8) 0xFF) with (u8 (Z.shiftr (crc5_calc d) 8))
    by (unfold u8; change 0xFF with (Z.ones 8); by rewrite Z.land_ones by lia).
  rewrite tok_bytes_join by apply crc5_calc_bounds.
  pose proof (crc5_calc_payload d) as Hp. rewrite Hm in Hp.
  split; [by apply crc5_check_calc|].
  revert Hp. generalize (crc5_calc d) as c. intros c Hp. clearbody d.
  rewrite <- Had, <- Hep, <- Hp, Z.shiftr_land, <- !Z.land_assoc. done.
Qed.

(** ** Every call makes progress *)

(** What a call returns, on success. *)
Definition call_ok {St} (P : Z -> usb_host_t -> St -> Prop) (m : tc_result St) : Prop :=
  match m with Ok (result, host, st, _) => P result host st | _ => False end.

Lemma call_ok_tc {St} (mk : St -> testcase_t) P (m : tc_result St) :
  call_ok (fun r h s => P r h (mk s)) m -> call_ok P (tc_call mk m).
Proof. by destruct m as [[[[r h] s] w]| |]. Qed.

Lemma call_ok_mono {St} (P Q : Z -> usb_host_t -> St -> Prop) m :
  call_ok P m -> (forall r h s, P r h s -> Q r h s) -> call_ok Q m.
Proof. destruct m as [[[[r h] s] w]| |]; cbn; auto. Qed.

Lemma call_ok_exists {St} P (m : tc_result St) :
  call_ok P m -> exists r h s w, m = Ok (r, h, s, w) /\ P r h s.
Proof. destruct m as [[[[r h] s] w]| |]; cbn; [eauto 10|done..]. Qed.

Lemma wf_host_next host : wf_host host -> wf_host (host_next host).
Proof. done. Qed.
Lemma wf_host_zdp host : wf_host host -> wf_host (host_zdp host).
Proof.
  intros H. apply (wf_set_crc (host_xfer host <| tx_len := 0 |> <| type := DnDATA1 |>) 0 0);
    [unfold is_byte; lia..|]. by apply wf_set_type, wf_set_tx_len.
Qed.
Lemma wf_host_idle host : wf_host host -> wf_host (host_idle host).
Proof. intros H. by apply wf_set_stage, wf_set_type. Qed.

Lemma host_seq0_run host v : wf_host host -> is_bit v ->
  exists host', host_seq0 host v = Ok host' /\ wf_host host' /\ host_op host' = host_op host.
Proof.
  intros H Hv. pose proof H as []. unfold host_seq0. rewrite write_at_in by lia.
  eexists. split; [reflexivity|]. split; [|done]. apply wf_set_ep_seq; [by rewrite length_insert| |done].
  by apply Forall_insert.
Qed.

(** The requests that the tests queue. *)
Definition starts (m : outcome (Z * usb_host_t)) : Prop :=
  exists host', m = Ok (1, host') /\ wf_host host' /\ host_op host' = HostSETUP.

Lemma stdreq_start_starts host req : wf_host host -> wf_stdreq req -> starts (stdreq_start host req).
Proof.
  intros H Hr. unfold starts. rewrite stdreq_start_run by done.
  eexists. split; [reflexivity|]. split; [|done]. by apply stdreq_xfer_wf.
Qed.

Ltac solve_stdreq :=
  split; cbn [bmRequestType bRequest wValue wIndex wLength];
  unfold is_byte, STDREQ_GET_STATUS, STDREQ_SET_ADDRESS, STDREQ_GET_DESCRIPTOR,
    STDREQ_SET_CONFIGURATION, MAX_CONFIG_SIZE in *;
  try change (u16 (Z.shiftl DESC_DEVICE 8)) with 256;
  try change (u16 (Z.shiftl DESC_CONFIGURATION 8)) with 512; lia.

Lemma get_descriptor_starts host num desc req :
  wf_host host -> host_op host = HostIdle -> 0 <= num < 2 ^ 16 ->
  starts (stdreq_get_descriptor host num desc req).
Proof.
  intros H Hop Hn. unfold stdreq_get_descriptor. rewrite Hop.
  apply stdreq_start_starts; [done|solve_stdreq].
Qed.

Lemma get_status_starts host : wf_host host -> host_op host = HostIdle -> starts (stdreq_get_status host).
Proof.
  intros H Hop. unfold stdreq_get_status. rewrite Hop. apply stdreq_start_starts; [done|solve_stdreq].
Qed.

Lemma get_device_starts host :
  wf_host host -> host_op host = HostIdle -> starts (stdreq_get_desc_device host).
Proof.
  intros H Hop. unfold stdreq_get_desc_device. rewrite Hop. apply stdreq_start_starts; [done|solve_stdreq].
Qed.

Lemma get_config_starts host len :
  wf_host host -> host_op host = HostIdle -> 0 <= len < 2 ^ 16 -> starts (stdreq_get_desc_config host len).
Proof.
  intros H Hop Hl. unfold stdreq_get_desc_config. rewrite Hop. apply stdreq_start_starts; [done|].
  destruct ((MAX_CONFIG_SIZE <? len) || (len =? 0)); solve_stdreq.
Qed.

Lemma set_address_starts host addr : wf_host host -> is_byte addr -> starts (stdreq_set_address host addr).
Proof.
  unfold is_byte. intros H Ha. apply stdreq_start_starts; [done|solve_stdreq].
Qed.

Lemma set_config_starts host conf : wf_host host -> is_byte conf -> starts (stdreq_set_config host conf).
Proof.
  unfold is_byte. intros H Ha. apply stdreq_start_starts; [done|solve_stdreq].
Qed.

Lemma tc_get_descriptor_starts host num w :
  wf_host host -> host_op host = HostIdle -> 0 <= num < 2 ^ 16 ->
  exists host' w', tc_get_descriptor host num w = Ok (1, host', w') /\ wf_host host' /\
    host_op host' = HostSETUP.
Proof.
  intros H Hop Hn. unfold tc_get_descriptor. destruct (w_malloc_next w) as [desc w'].
  destruct (get_descriptor_starts host num desc stdreq_uninit H Hop Hn) as (host' & -> & H1 & H2).
  cbn [mbind outcome_bind]. eauto.
Qed.

(** ** The steps that are left before a test completes *)

Definition getdesc_left (st : getdesc_state_t) : Z :=
  match st with
  | SendSETUP => 9 | SendDATA0 => 8 | RecvACK0 => 7 | SendIN => 6 | RecvDATA1 => 5
  | SendACK => 4 | SendOUT => 3 | SendZDP => 2 | RecvACK1 => 1 | DescDone => 0
  end.

(** A test of [n] control reads, in the given phase of the read [stage]. *)
Definition reads_left (n stage : Z) (st : getdesc_state_t) : Z :=
  match st with DescDone => 0 | _ => getdesc_left st + 9 * (n - 1 - stage) end.

Definition setaddr_left (st : SetAddr.setaddr_stage_t) : Z :=
  match st with
  | SetAddr.SendSETUP => 6 | SetAddr.SendDATA0 => 5 | SetAddr.RecvACK0 => 4 | SetAddr.SendIN => 3
  | SetAddr.RecvDATA1 => 2 | SetAddr.SendACK => 1 | SetAddr.AddrDone => 0
  end.

Definition setconf_left (st : SetConf.set_stage_t) : Z :=
  match st with
  | SetConf.SendSETUP => 6 | SetConf.SendDATA0 => 5 | SetConf.RecvACK0 => 4 | SetConf.SendIN => 3
  | SetConf.RecvDATA1 => 2 | SetConf.SendACK => 1 | SetConf.SetDone => 0
  end.

Definition bulkout_left (st : BulkOut.bulkout_state_t) : Z :=
  match st with
  | BulkOut.BulkOUT0 => 7 | BulkOut.BulkOUT1 => 6 | BulkOut.BulkOUT2 => 5 | BulkOut.BulkOUT3 => 4
  | BulkOut.BulkOUT4 => 3 | BulkOut.BulkOUT5 => 2 | BulkOut.BulkOUT6 => 1 | BulkOut.BulkDone => 0
  end.

Definition bulkin_left (st : BulkIn.bulkin_step_t) : Z :=
  match st with BulkIn.BulkIN0 => 3 | BulkIn.BulkIN1 => 2 | BulkIn.BulkIN2 => 1 | BulkIn.BINDone => 0 end.

Definition ddr3out_left (st : Ddr3Out.ddr3out_state_t) : Z :=
  let iter := Ddr3Out.do_iter st in
  match Ddr3Out.do_step st with
  | Ddr3Out.DDR3Out => Ddr3Out.NUM_ITER - iter + Ddr3Out.NUM_ITER
  | Ddr3Out.DDR3Res => Ddr3Out.NUM_ITER - iter
  | Ddr3Out.DDR3End => 0
  end.

Definition ddr3in_left (st : Ddr3In.ddr3in_state_t) : Z :=
  let iter := Ddr3In.di_iter st in
  match Ddr3In.di_step st with
  | Ddr3In.DDR3Cmd => Ddr3In.NUM_ITER - iter + Ddr3In.NUM_ITER
  | Ddr3In.DDR3Dat => Ddr3In.NUM_ITER - iter
  | Ddr3In.DDR3End => 0
  end.

Definition parity_left (st : Parity.parity_state_t) : Z :=
  match Parity.pa_step st with
  | Parity.BulkIN0 => 4 + 4 * (2 - Parity.pa_stage st)
  | Parity.BulkIN1 => 3 + 4 * (2 - Parity.pa_stage st)
  | Parity.BulkOUT0 => 2 + 4 * (2 - Parity.pa_stage st)
  | Parity.BulkOUT1 => 1 + 4 * (2 - Parity.pa_stage st)
  | Parity.DonePar => 0
  end.

(** The link-restart test waits for the link, so no bound holds of it. *)
Definition steps_left (test : testcase_t) : Z :=
  match test with
  | TestGetDesc st => getdesc_left st
  | TestSetAddr st => setaddr_left (SetAddr.sa_stage st)
  | TestGetConf st => reads_left 3 (GetConf.gc_stage st) (GetConf.gc_step st)
  | TestSetConf st => setconf_left (SetConf.sc_stage st)
  | TestGetStrs st => reads_left 5 (GetStrs.gs_stage st) (GetStrs.gs_step st)
  | TestWaitSof WaitSof.WaitIdle => 1
  | TestWaitSof WaitSof.WaitDone => 0
  | TestBulkOut st => bulkout_left st
  | TestBulkIn st => bulkin_left (BulkIn.bi_step st)
  | TestDdr3Out st => ddr3out_left st
  | TestDdr3In st => ddr3in_left st
  | TestParity st => parity_left st
  | TestRestarts _ => 0
  end.

(** The states a test can be in. *)
Definition test_ok (test : testcase_t) : Prop :=
  match test with
  | TestSetAddr st => is_byte (SetAddr.sa_addr st)
  | TestSetConf st => is_byte (SetConf.sc_conf st)
  | TestGetConf st => 0 <= GetConf.gc_stage st < 3 \/ GetConf.gc_step st = DescDone
  | TestGetStrs st => 0 <= GetStrs.gs_stage st < 5 \/ GetStrs.gs_step st = DescDone
  | TestBulkIn st => 0 <= BulkIn.bi_ep st < 16
  | TestDdr3Out st =>
      (0 <= Ddr3Out.do_iter st < Ddr3Out.NUM_ITER \/ Ddr3Out.do_step st = Ddr3Out.DDR3End) /\
      Ddr3Out.do_beat st = 4 /\ 0 <= Ddr3Out.do_out st < 16 /\ 0 <= Ddr3Out.do_in st < 16
  | TestDdr3In st =>
      (0 <= Ddr3In.di_iter st < Ddr3In.NUM_ITER \/ Ddr3In.di_step st = Ddr3In.DDR3End) /\
      0 <= Ddr3In.di_out st < 16 /\ 0 <= Ddr3In.di_in st < 16
  | TestParity st => 0 <= Parity.pa_stage st < 3 \/ Parity.pa_step st = Parity.DonePar
  | TestRestarts _ => False
  | _ => True
  end.

(** A call that leaves [n] steps: it returns 1 exactly when none is left, and the
    host is then idle, or in the operation it was in. *)
Definition left_with (host : usb_host_t) (n result : Z) (host' : usb_host_t) (test : testcase_t) : Prop :=
  wf_host host' /\ test_ok test /\ steps_left test = n /\ 0 <= n /\
  result = (if n =? 0 then 1 else 0) /\
  (result = 1 -> host_op host' = HostIdle \/ host_op host' = host_op host).

(** ** Control reads *)

Lemma getdesc_phase_run host st :
  wf_host host ->
  match getdesc_phase host st with
  | Some m => exists host' st', m = Ok (host', st') /\ wf_host host' /\ st' <> DescDone /\
      getdesc_left st' = getdesc_left st - 1
  | None => st = RecvACK1 \/ st = DescDone
  end.
Proof.
  intros H. apply wf_host_next in H. unfold getdesc_phase. cbv zeta.
  destruct st; cbn [getdesc_left]; auto; try (by eexists _, _; split_and!; [|apply H|..]).
  - destruct (host_seq0_run (host_next host) SIG1 H) as (h & -> & Hh & _); [by right|].
    by exists h, SendIN.
  - exists (host_zdp (host_next host)), SendZDP. split; [done|]. split; [by apply wf_host_zdp|done].
Qed.

(** Closes the conjuncts of [left_with] that need only the state. *)
Ltac solve_left :=
  unfold left_with; cbn [steps_left test_ok]; split_and!; try done; try lia; auto.

Lemma left_step host n h t :
  wf_host h -> test_ok t -> steps_left t = n -> 0 < n -> left_with host n 0 h t.
Proof.
  intros Hh Ht Hn Hpos. assert (E : (n =? 0) = false) by lia. unfold left_with.
  rewrite E. split_and!; done || lia.
Qed.

Lemma left_end host h t n :
  wf_host h -> test_ok t -> steps_left t = n -> n = 0 ->
  host_op h = HostIdle \/ host_op h = host_op host -> left_with host n 1 h t.
Proof. intros Hh Ht Hn -> Ho. unfold left_with. by split_and!. Qed.

Lemma getdesc_progress host st w :
  wf_host host -> 0 < getdesc_left st ->
  call_ok (fun r h s => left_with host (getdesc_left st - 1) r h (TestGetDesc s))
    (GetDesc.tc_getdesc_step host st w).
Proof.
  intros H Hl. unfold GetDesc.tc_getdesc_step. pose proof (getdesc_phase_run host st H) as Hp.
  destruct (getdesc_phase host st) as [m|].
  - destruct Hp as (h & s & -> & Hh & Hs & He). cbn [mbind outcome_bind call_ok]. rewrite <- He.
    destruct s; solve_left.
  - destruct Hp as [-> | ->]; [|done]. cbn [call_ok]. solve_left.
Qed.

Lemma reads_left_phase n stage st st' :
  st <> DescDone -> st' <> DescDone -> getdesc_left st' = getdesc_left st - 1 ->
  reads_left n stage st' = reads_left n stage st - 1.
Proof. intros H H' E. unfold reads_left. destruct st, st'; cbn in *; done || lia. Qed.

Lemma reads_left_pos n stage st : 0 <= stage < n -> st <> DescDone -> 0 < reads_left n stage st.
Proof. intros H Hs. unfold reads_left. destruct st; cbn; done || lia. Qed.

Lemma getconf_init_ok host st w :
  wf_host host -> host_op host = HostIdle -> 0 <= GetConf.gc_stage st < 3 ->
  exists host', GetConf.tc_getconf_init host st w =
      Ok (0, host', GetConf.MkGetConf SendSETUP (GetConf.gc_stage st), w) /\
    wf_host host' /\ host_op host' = HostSETUP.
Proof.
  intros H Hop Hs. unfold GetConf.tc_getconf_init. cbv zeta. cbn [GetConf.gc_stage].
  assert (Hst : GetConf.gc_stage st = 0 \/ GetConf.gc_stage st = 1 \/ GetConf.gc_stage st = 2) by lia.
  destruct Hst as [-> | [-> | ->]].
  - destruct (get_device_starts host H Hop) as (h & E & Hh & Ho). cbn. rewrite E. cbn. eauto.
  - destruct (get_config_starts host 9 H Hop ltac:(lia)) as (h & E & Hh & Ho). cbn. rewrite E. cbn. eauto.
  - destruct (get_config_starts host 39 H Hop ltac:(lia)) as (h & E & Hh & Ho). cbn. rewrite E. cbn. eauto.
Qed.

Lemma getstrs_init_ok host st w :
  wf_host host -> host_op host = HostIdle -> 0 <= GetStrs.gs_stage st < 5 ->
  exists host' w', GetStrs.tc_getstrs_init host st w =
      Ok (0, host', GetStrs.MkGetStrs SendSETUP (GetStrs.gs_stage st), w') /\
    wf_host host' /\ host_op host' = HostSETUP.
Proof.
  intros H Hop Hs. unfold GetStrs.tc_getstrs_init. cbv zeta. cbn [GetStrs.gs_stage].
  rewrite (proj2 (Z.eqb_neq _ 5)) by lia. destruct (decide (GetStrs.gs_stage st = 4)) as [E4|E4].
  - rewrite E4. destruct (get_status_starts host H Hop) as (h & E & Hh & Ho). cbn. rewrite E. cbn. eauto.
  - rewrite (proj2 (Z.leb_le 0 _)), (proj2 (Z.leb_le _ 3)) by lia. cbn [andb].
    destruct (tc_get_descriptor_starts host (0x0300 + GetStrs.gs_stage st) w H Hop ltac:(lia))
      as (h & w' & E & Hh & Ho).
    rewrite E. cbn. eauto.
Qed.

(** The host after the last phase of a control read. *)
Definition host_rest (host : usb_host_t) : usb_host_t := host_next host <| host_op := HostIdle |>.

Lemma getconf_progress host st w :
  wf_host host -> test_ok (TestGetConf st) -> 0 < steps_left (TestGetConf st) ->
  call_ok (fun r h s => left_with host (steps_left (TestGetConf st) - 1) r h (TestGetConf s))
    (GetConf.tc_getconf_step host st w).
Proof.
  destruct st as [st stage]. intros H Hok Hl. cbn [test_ok steps_left GetConf.gc_stage GetConf.gc_step] in *.
  unfold GetConf.tc_getconf_step. cbn [GetConf.gc_stage GetConf.gc_step].
  pose proof (getdesc_phase_run host st H) as Hp. destruct (getdesc_phase host st) as [m|].
  - destruct Hp as (h & s & -> & Hh & Hs & He). cbn [mbind outcome_bind call_ok].
    assert (Hst : st <> DescDone) by (by intros ->). destruct Hok as [Hok|]; [|done].
    rewrite <- (reads_left_phase 3 stage st s) by done.
    apply left_step; [done|by left|done|by apply reads_left_pos].
  - destruct Hp as [-> | ->]; [|done]. destruct Hok as [Hok|]; [|done]. cbv zeta. cbn [GetConf.gc_stage].
    change (host_next host <| host_op := HostIdle |>) with (host_rest host).
    set (w1 := w_show _ w). rewrite (u8_small (stage + 1)) by lia. destruct (Z.ltb_spec (stage + 1) 3).
    + destruct (getconf_init_ok (host_rest host) (GetConf.MkGetConf RecvACK1 (stage + 1)) w1 H eq_refl
        ltac:(cbn; lia)) as (h & E & Hh & Ho).
      rewrite E. cbn [mbind outcome_bind call_ok].
      apply left_step; [done|left; cbn; lia|..]; cbn [steps_left GetConf.gc_stage GetConf.gc_step];
        unfold reads_left, getdesc_left; lia.
    + assert (stage = 2) as -> by lia. apply left_end; [done|by right|done|done|by left].
Qed.

Lemma getstrs_progress host st w :
  wf_host host -> test_ok (TestGetStrs st) -> 0 < steps_left (TestGetStrs st) ->
  call_ok (fun r h s => left_with host (steps_left (TestGetStrs st) - 1) r h (TestGetStrs s))
    (GetStrs.tc_getstrs_step host st w).
Proof.
  destruct st as [st stage]. intros H Hok Hl. cbn [test_ok steps_left GetStrs.gs_stage GetStrs.gs_step] in *.
  unfold GetStrs.tc_getstrs_step. cbn [GetStrs.gs_stage GetStrs.gs_step].
  pose proof (getdesc_phase_run host st H) as Hp. destruct (getdesc_phase host st) as [m|].
  - destruct Hp as (h & s & -> & Hh & Hs & He). cbn [mbind outcome_bind call_ok].
    assert (Hst : st <> DescDone) by (by intros ->). destruct Hok as [Hok|]; [|done].
    rewrite <- (reads_left_phase 5 stage st s) by done.
    apply left_step; [done|by left|done|by apply reads_left_pos].
  - destruct Hp as [-> | ->]; [|done]. destruct Hok as [Hok|]; [|done]. cbv zeta. cbn [GetStrs.gs_stage].
    change (host_next host <| host_op := HostIdle |>) with (host_rest host).
    set (w1 := w_show _ w). rewrite (u8_small (stage + 1)) by lia. destruct (Z.ltb_spec (stage + 1) 5).
    + destruct (getstrs_init_ok (host_rest host) (GetStrs.MkGetStrs RecvACK1 (stage + 1)) w1 H eq_refl
        ltac:(cbn; lia)) as (h & w' & E & Hh & Ho).
      rewrite E. cbn [mbind outcome_bind call_ok].
      apply left_step; [done|left; cbn; lia|..]; cbn [steps_left GetStrs.gs_stage GetStrs.gs_step];
        unfold reads_left, getdesc_left; lia.
    + assert (stage = 4) as -> by lia. apply left_end; [done|by right|done|done|by left].
Qed.

(** ** Control writes *)

Lemma setaddr_progress host st w :
  wf_host host -> test_ok (TestSetAddr st) -> 0 < steps_left (TestSetAddr st) ->
  call_ok (fun r h s => left_with host (steps_left (TestSetAddr st) - 1) r h (TestSetAddr s))
    (SetAddr.tc_setaddr_step host st w).
Proof.
  destruct st as [st ad]. intros H Hok Hl. unfold SetAddr.tc_setaddr_step. cbv zeta.
  cbn [SetAddr.sa_stage SetAddr.sa_addr].
  destruct (host_seq0_run host SIG0 H ltac:(by left)) as (h0 & E0 & Hh0 & _).
  destruct (host_seq0_run host SIG1 H ltac:(by right)) as (h1 & E1 & Hh1 & _).
  destruct st; rewrite ?E0, ?E1; cbn [mbind outcome_bind call_ok]; try (by apply left_step).
  - apply left_step; [by apply (wf_set_address (host_xfer host))|done..].
  - apply left_end; [done|done|done|done|by left].
  - done.
Qed.

Lemma setconf_progress host st w :
  wf_host host -> test_ok (TestSetConf st) -> 0 < steps_left (TestSetConf st) ->
  call_ok (fun r h s => left_with host (steps_left (TestSetConf st) - 1) r h (TestSetConf s))
    (SetConf.tc_setconf_step host st w).
Proof.
  destruct st as [st conf]. intros H Hok Hl. unfold SetConf.tc_setconf_step. cbv zeta.
  cbn [SetConf.sc_stage SetConf.sc_conf].
  destruct (host_seq0_run host SIG0 H ltac:(by left)) as (h0 & E0 & Hh0 & _).
  destruct (host_seq0_run host SIG1 H ltac:(by right)) as (h1 & E1 & Hh1 & _).
  destruct st; rewrite ?E0, ?E1; cbn [mbind outcome_bind call_ok]; try (by apply left_step).
  - apply left_end; [done|done|done|done|by left].
  - done.
Qed.

(** ** Bulk tests *)

Lemma bulkout_progress host st w :
  wf_host host -> 0 < steps_left (TestBulkOut st) ->
  call_ok (fun r h s => left_with host (steps_left (TestBulkOut st) - 1) r h (TestBulkOut s))
    (BulkOut.tc_bulkout_step host st w).
Proof.
  intros H Hl. unfold BulkOut.tc_bulkout_step. cbv zeta.
  assert (Hx : forall n, 0 <= n <= 512 -> exists h w', BulkOut.tc_bulkout_xfer host n BULK_OUT_EP w = Ok (h, w')
    /\ wf_host h).
  { intros n Hn. destruct (bulkout_xfer_run host n BULK_OUT_EP w (wf_tx_buffer _ H) Hn) as (l & w' & E & Hl' & Hb).
    rewrite E. eexists _, _. split; [done|]. apply out_xfer_wf; unfold BULK_OUT_EP; done || lia. }
  destruct st; try match goal with
    | |- context [BulkOut.tc_bulkout_xfer _ ?n _ _] =>
        let h := fresh "h" in let w' := fresh "w'" in let E := fresh "E" in
        destruct (Hx n ltac:(lia)) as (h & w' & E & ?); rewrite E; cbn [mbind outcome_bind call_ok];
        by apply left_step
    end.
  - apply left_end; [by apply wf_host_idle|done|done|done|by left].
  - done.
Qed.

Lemma wf_xfer_start_rx host t ep :
  wf_host host -> 0 <= ep < 16 -> wf_xfer (xfer_start host t ep <| rx_ptr := 0 |>).
Proof. intros H He. apply wf_set_rx_ptr; [lia|]. by apply xfer_start_wf. Qed.

Lemma bulkin_progress host st w :
  wf_host host -> test_ok (TestBulkIn st) -> 0 < steps_left (TestBulkIn st) ->
  call_ok (fun r h s => left_with host (steps_left (TestBulkIn st) - 1) r h (TestBulkIn s))
    (BulkIn.tc_bulkin_step host st w).
Proof.
  destruct st as [st sg ep]. intros H Hok Hl. unfold BulkIn.tc_bulkin_step. cbv zeta.
  cbn [BulkIn.bi_step BulkIn.bi_stage BulkIn.bi_ep].
  assert (Hx : wf_host (BulkIn.tc_bulkin_xfer host BULK_IN_EP)).
  { apply wf_xfer_start_rx; [done|unfold BULK_IN_EP; lia]. }
  destruct st; cbn [call_ok]; try (by apply left_step).
  - apply left_end; [by apply wf_host_idle|done|done|done|by left].
  - done.
Qed.

(** ** DDR3 commands *)

Lemma lor_3_byte n : is_byte (Z.lor (u8 n) 0x03).
Proof.
  pose proof (u8_byte n) as [H1 H2]. unfold is_byte. split; [apply Z.lor_nonneg; lia|].
  destruct (decide (Z.lor (u8 n) 3 = 0)) as [-> | Hz]; [lia|]. assert (0 <= Z.lor (u8 n) 3) by (apply Z.lor_nonneg; lia).
  apply (Z.log2_lt_pow2 _ 8); [lia|]. rewrite Z.log2_lor by lia. apply Z.max_lub_lt; [|done].
  destruct (decide (u8 n = 0)) as [-> | ]; [done|]. apply Z.log2_lt_pow2; lia.
Qed.

Definition header_bytes (cmd n addr id : Z) : list Z :=
  [cmd; Z.lor (u8 (n - 1)) 0x03; Z.land addr 0xFF; Z.land (Z.shiftr addr 8) 0xFF;
   Z.land (Z.shiftr addr 16) 0xFF;
   u8 (Z.lor (Z.land (Z.shiftr addr 24) 0x0F) (Z.shiftl (Z.land id 0x0F) 4))].

Lemma header_bytes_byte cmd n addr id : is_byte cmd -> Forall is_byte (header_bytes cmd n addr id).
Proof.
  intros H. unfold header_bytes.
  repeat (apply List.Forall_cons; [first [exact H|apply lor_3_byte|apply land_ff_byte|apply u8_byte]|]).
  apply List.Forall_nil.
Qed.

Lemma ddr3_header_run l cmd n addr id :
  length l = 512%nat -> ddr3_header l cmd n addr id = Ok (header_bytes cmd n addr id ++ drop 6 l).
Proof. intros H. unfold ddr3_header, write_n. rewrite H. done. Qed.

Lemma ddr3_header_ok l cmd n addr id :
  length l = 512%nat -> Forall is_byte l -> is_byte cmd ->
  length (header_bytes cmd n addr id ++ drop 6 l) = 512%nat /\
  Forall is_byte (header_bytes cmd n addr id ++ drop 6 l).
Proof.
  intros H Hl Hc. split; [rewrite length_app, length_drop; cbn; lia|].
  apply Forall_app_2; [by apply header_bytes_byte|by apply Forall_drop].
Qed.

Lemma ddr3in_cmd_run host n st :
  tx_buffer (host_xfer host) ->
  exists l, Ddr3In.tc_ddr3in_cmd host n st =
      Ok (host <| host_op := HostBulkOUT |> <| host_xfer := out_xfer host (Ddr3In.di_out st) 6 l |>) /\
    l = header_bytes 0x80 n (Ddr3In.di_addr st) (Ddr3In.di_id st) ++ drop 6 (tx (host_xfer host)) /\
    length l = 512%nat /\ Forall is_byte l.
Proof.
  intros [].
  destruct (ddr3_header_ok (tx (host_xfer host)) 0x80 n (Ddr3In.di_addr st) (Ddr3In.di_id st))
    as [Hl Hb]; [done|done|unfold is_byte; lia|].
  eexists. split; [|done]. unfold Ddr3In.tc_ddr3in_cmd. cbv zeta.
  change (tx (xfer_start host OUT (Ddr3In.di_out st) <| tx_len := 6 |> <| tx_ptr := 0 |>))
    with (tx (host_xfer host)).
  rewrite ddr3_header_run by done. cbn [mbind outcome_bind].
  revert Hl Hb. generalize (header_bytes 0x80 n (Ddr3In.di_addr st) (Ddr3In.di_id st) ++ drop 6 (tx (host_xfer host))) as l.
  intros l Hl Hb.
  change (tx_len (xfer_start host OUT (Ddr3In.di_out st) <| tx_len := 6 |> <| tx_ptr := 0 |> <| tx := l |>)) with 6.
  by rewrite out_xfer_crc by (done || lia).
Qed.

Lemma fill_words_run n l w :
  (6 + 4 * n <= length l)%nat -> Forall is_byte l ->
  exists l' w', Ddr3Out.fill_words n l w = Ok (l', w') /\ length l' = length l /\ Forall is_byte l' /\
    take 6 l' = take 6 l.
Proof.
  revert l w. induction n as [|n IH]; intros l w Hn Hl; [by exists l, w|].
  cbn [Ddr3Out.fill_words]. destruct (w_rand_next w) as [v w1]. cbv zeta.
  rewrite write_at_in by lia. cbn [mbind outcome_bind].
  rewrite write_at_in by (rewrite length_insert; lia). cbn [mbind outcome_bind].
  rewrite write_at_in by (rewrite !length_insert; lia). cbn [mbind outcome_bind].
  rewrite write_at_in by (rewrite !length_insert; lia). cbn [mbind outcome_bind].
  set (l4 := <[_ := _]> _). assert (E4 : length l4 = length l) by (subst l4; by rewrite !length_insert).
  destruct (IH l4 w1) as (l' & w' & H1 & H2 & H3 & H4).
  - lia.
  - subst l4. repeat (apply Forall_insert; [|apply land_ff_byte]). done.
  - exists l', w'. split; [done|]. split; [lia|]. split; [done|]. rewrite H4. subst l4.
    by rewrite !take_insert_ge by lia.
Qed.

Lemma ddr3out_cmd_run host n st w :
  tx_buffer (host_xfer host) -> 0 <= n <= 64 -> Ddr3Out.do_beat st = 4 ->
  exists l w', Ddr3Out.tc_ddr3out_cmd host n st w =
      Ok (host <| host_op := HostBulkOUT |>
               <| host_xfer := out_xfer host (Ddr3Out.do_out st) (n * 4 + 6) l |>, w') /\
    take 6 l = header_bytes 0x01 n (Ddr3Out.do_addr st) (Ddr3Out.do_id st) /\
    length l = 512%nat /\ Forall is_byte l.
Proof.
  intros [] Hn Hbeat.
  destruct (ddr3_header_ok (tx (host_xfer host)) 0x01 n (Ddr3Out.do_addr st) (Ddr3Out.do_id st))
    as [Hl Hb]; [done|done|unfold is_byte; lia|].
  destruct (fill_words_run (Z.to_nat n) _ w ltac:(rewrite Hl; lia) Hb) as (l & w' & E & El & Hb' & Ht).
  exists l, w'. rewrite Hl in El. split; [|split; [by rewrite Ht|done]].
  unfold Ddr3Out.tc_ddr3out_cmd. cbv zeta. rewrite Hbeat.
  change (tx (xfer_start host OUT (Ddr3Out.do_out st) <| tx_len := n * 4 + 6 |> <| tx_ptr := 0 |>))
    with (tx (host_xfer host)).
  rewrite ddr3_header_run by done. cbn [mbind outcome_bind]. rewrite E. cbn [mbind outcome_bind].
  by rewrite out_xfer_crc by (done || lia).
Qed.

Lemma ddr3in_length iter : 0 <= iter < 6 ->
  exists n, read_at Ddr3In.ddr3in_lengths iter = Ok n /\ 0 <= n <= 64.
Proof.
  intros H.
  destruct (lookup_lt_is_Some_2 Ddr3In.ddr3in_lengths (Z.to_nat iter) ltac:(cbn; lia)) as [n Hn].
  exists n. rewrite <- (Z2Nat.id iter) by lia. split; [by apply read_at_Some|].
  assert (Hall : Forall (fun n => 0 <= n <= 64) Ddr3In.ddr3in_lengths) by (repeat constructor; lia).
  by apply (Forall_lookup_1 _ _ _ _ Hall Hn).
Qed.

Lemma ddr3out_length iter : 0 <= iter < 8 ->
  exists n, read_at Ddr3Out.ddr3out_lengths iter = Ok n /\ 0 <= n <= 64.
Proof.
  intros H.
  destruct (lookup_lt_is_Some_2 Ddr3Out.ddr3out_lengths (Z.to_nat iter) ltac:(cbn; lia)) as [n Hn].
  exists n. rewrite <- (Z2Nat.id iter) by lia. split; [by apply read_at_Some|].
  assert (Hall : Forall (fun n => 0 <= n <= 64) Ddr3Out.ddr3out_lengths) by (repeat constructor; lia).
  by apply (Forall_lookup_1 _ _ _ _ Hall Hn).
Qed.

Lemma ddr3in_cmd_ok host n st :
  wf_host host -> 0 <= Ddr3In.di_out st < 16 ->
  exists host', Ddr3In.tc_ddr3in_cmd host n st = Ok host' /\ wf_host host'.
Proof.
  intros H He. destruct (ddr3in_cmd_run host n st (wf_tx_buffer _ H)) as (l & E & _ & Hl & Hb).
  eexists. split; [exact E|]. apply out_xfer_wf; done || lia.
Qed.

Lemma ddr3out_cmd_ok host n st w :
  wf_host host -> 0 <= Ddr3Out.do_out st < 16 -> 0 <= n <= 64 -> Ddr3Out.do_beat st = 4 ->
  exists host' w', Ddr3Out.tc_ddr3out_cmd host n st w = Ok (host', w') /\ wf_host host'.
Proof.
  intros H He Hn Hb. destruct (ddr3out_cmd_run host n st w (wf_tx_buffer _ H) Hn Hb) as (l & w' & E & _ & Hl & Hby).
  eexists _, _. split; [exact E|]. apply out_xfer_wf; done || lia.
Qed.

Lemma ddr3in_dat_wf host st :
  wf_host host -> 0 <= Ddr3In.di_in st < 16 -> wf_host (Ddr3In.tc_ddr3in_dat host st).
Proof. intros H He. by apply wf_xfer_start_rx. Qed.

Lemma ddr3out_res_wf host st :
  wf_host host -> 0 <= Ddr3Out.do_in st < 16 -> wf_host (Ddr3Out.tc_ddr3out_res host st).
Proof. intros H He. by apply wf_xfer_start_rx. Qed.

Definition host_noxfer (host : usb_host_t) : usb_host_t :=
  host <| host_xfer := host_xfer host <| stage := NoXfer |> |>.

Lemma host_noxfer_wf host : wf_host host -> wf_host (host_noxfer host).
Proof. intros H. by apply wf_set_stage. Qed.

Lemma host_xferidle_wf host :
  wf_host host -> wf_host (host <| host_xfer := host_xfer host <| type := XferIdle |> |> <| host_op := HostIdle |>).
Proof. intros H. by apply wf_set_type. Qed.

Lemma ddr3in_progress host st w :
  wf_host host -> test_ok (TestDdr3In st) -> 0 < steps_left (TestDdr3In st) ->
  call_ok (fun r h s => left_with host (steps_left (TestDdr3In st) - 1) r h (TestDdr3In s))
    (Ddr3In.tc_ddr3in_step host st w).
Proof.
  destruct st as [ad st iter oe ie id]. intros H (Hi & Ho & Hie) Hl.
  cbn [Ddr3In.di_iter Ddr3In.di_step Ddr3In.di_out Ddr3In.di_in] in *.
  unfold Ddr3In.NUM_ITER in *. unfold Ddr3In.tc_ddr3in_step.
  cbn [Ddr3In.di_iter Ddr3In.di_step Ddr3In.di_out Ddr3In.di_in Ddr3In.di_addr Ddr3In.di_id]. cbv zeta.
  unfold Ddr3In.NUM_ITER.
  fold (host_noxfer host). apply host_noxfer_wf in H as H'.
  destruct st; [| |done]; (destruct Hi as [Hi|Hi]; [|done]); rewrite (u8_small (iter + 1)) by lia.
  - destruct (Z.ltb_spec (iter + 1) 6).
    + destruct (ddr3in_length (iter + 1) ltac:(lia)) as (n & -> & Hn). rewrite outcome_bind_ok; cbv beta.
      set (st := Ddr3In.MkDdr3In ad Ddr3In.DDR3Cmd (iter + 1) oe ie id).
      destruct (ddr3in_cmd_ok host n st H Ho) as (h & -> & Hh). rewrite outcome_bind_ok; cbv beta; cbn [call_ok].
      apply left_step; [done|split; [left|]; unfold Ddr3In.NUM_ITER; cbn; done || lia|..];
        subst st; cbn; unfold ddr3in_left, Ddr3In.NUM_ITER; cbn; lia.
    + assert (iter = 5) as -> by lia. cbn [call_ok].
      apply left_step; [by apply ddr3in_dat_wf|split; [left|]; done|done|done].
  - destruct (Z.leb_spec 6 (iter + 1)); cbn [call_ok].
    + assert (iter = 5) as -> by lia.
      apply left_end; [by apply host_xferidle_wf|split; [by right|done]|done|done|by left].
    + apply left_step; [by apply ddr3in_dat_wf|split; [left|]; unfold Ddr3In.NUM_ITER; cbn; done || lia|..];
        cbn; unfold ddr3in_left, Ddr3In.NUM_ITER; cbn; lia.
Qed.

Lemma ddr3out_progress host st w :
  wf_host host -> test_ok (TestDdr3Out st) -> 0 < steps_left (TestDdr3Out st) ->
  call_ok (fun r h s => left_with host (steps_left (TestDdr3Out st) - 1) r h (TestDdr3Out s))
    (Ddr3Out.tc_ddr3out_step host st w).
Proof.
  destruct st as [ad st iter bt oe ie id]. intros H (Hi & Hb & Ho & Hie) Hl.
  cbn [Ddr3Out.do_iter Ddr3Out.do_step Ddr3Out.do_out Ddr3Out.do_in Ddr3Out.do_beat] in *. subst bt.
  unfold Ddr3Out.NUM_ITER in *. unfold Ddr3Out.tc_ddr3out_step.
  cbn [Ddr3Out.do_iter Ddr3Out.do_step Ddr3Out.do_out Ddr3Out.do_in Ddr3Out.do_addr Ddr3Out.do_id Ddr3Out.do_beat]. cbv zeta.
  unfold Ddr3Out.NUM_ITER.
  destruct st; [| |done]; (destruct Hi as [Hi|Hi]; [|done]); rewrite (u8_small (iter + 1)) by lia.
  - destruct (Z.ltb_spec (iter + 1) 7).
    + destruct (ddr3out_length (iter + 1) ltac:(lia)) as (n & -> & Hn). rewrite outcome_bind_ok; cbv beta.
      set (st := Ddr3Out.MkDdr3Out ad Ddr3Out.DDR3Out (iter + 1) 4 oe ie id).
      destruct (ddr3out_cmd_ok host n st w H Ho Hn eq_refl) as (h & w' & -> & Hh).
      rewrite outcome_bind_ok; cbv beta; cbn [call_ok].
      apply left_step; [done|split; [left|]; unfold Ddr3Out.NUM_ITER; cbn; done || lia|..];
        subst st; cbn; unfold ddr3out_left, Ddr3Out.NUM_ITER; cbn; lia.
    + assert (iter = 6) as -> by lia. cbn [call_ok].
      apply left_step; [by apply ddr3out_res_wf|split; [left|]; done|done|done].
  - destruct (Z.ltb_spec (iter + 1) 7); cbn [call_ok].
    + apply left_step; [by apply ddr3out_res_wf|split; [left|]; unfold Ddr3Out.NUM_ITER; cbn; done || lia|..];
        cbn; unfold ddr3out_left, Ddr3Out.NUM_ITER; cbn; lia.
    + assert (iter = 6) as -> by lia.
      apply left_end; [by apply wf_host_idle|split; [by right|done]|done|done|by left].
Qed.

(** ** The parity test: pairs of corrupted and repaired transfers *)

Lemma lxor_F_range e : 0 <= e < 16 -> 0 <= u8 (Z.lxor e 0xF) < 16.
Proof.
  intros H. pose proof (forall_range (fun e => (0 <=? u8 (Z.lxor e 0xF)) && (u8 (Z.lxor e 0xF) <? 16)) 16 e eq_refl H) as Hf.
  cbv beta in Hf. apply andb_true_iff in Hf as [?%Z.leb_le ?%Z.ltb_lt]. done.
Qed.

Lemma wf_transfer_tok x : wf_xfer x -> wf_xfer (transfer_tok x).
Proof. intros H. apply wf_set_tok; [apply land_ff_byte|apply u8_byte|done]. Qed.

Lemma wf_set_tok2 x b : is_byte b -> wf_xfer x -> wf_xfer (x <| tok2 := b |>).
Proof. intros Hb H. pose proof (wf_tok_bytes x H) as [Ht _]. by destruct H; split. Qed.
Lemma wf_set_crc1 x b : is_byte b -> wf_xfer x -> wf_xfer (x <| crc1 := b |>).
Proof. intros Hb H. pose proof (wf_crc_bytes x H) as [_ Hc]. by destruct H; split. Qed.

Lemma adjust_ok a x : wf_xfer x -> exists x', Parity.adjust a x = Ok x' /\ wf_xfer x'.
Proof.
  intros H. pose proof H as [He _ _ _ _ _ _ _ _ [Hc1 Hc2] [Ht1 Ht2]]. destruct a; cbn [Parity.adjust].
  - unfold Parity.adjust_seq. pose proof (transfer_ack_safe x H) as Hs.
    destruct (lookup_lt_is_Some_2 (ep_seq x) (Z.to_nat (endpoint x))) as [s Es].
    { destruct H. lia. }
    rewrite (transfer_ack_run x s Es) in * by lia. by eexists.
  - unfold Parity.adjust_crc. destruct (endpoint x =? BULK_IN_EP); eexists; (split; [done|]).
    + by apply wf_set_tok2; [apply u8_byte|].
    + by apply wf_set_crc1; [apply u8_byte|].
  - eexists. split; [done|]. apply wf_transfer_tok, wf_set_endpoint; [|done]. by apply lxor_F_range.
Qed.

Lemma host_adjust_ok a host : wf_host host -> exists host', Parity.host_adjust a host = Ok host' /\
  wf_host host' /\ host_op host' = host_op host.
Proof.
  intros H. destruct (adjust_ok a _ H) as (x & E & Hx). unfold Parity.host_adjust. rewrite E.
  eexists. split; [reflexivity|]. by split.
Qed.

Lemma parity_len v : 0 <= Z.land (Z.shiftl (Z.lor v 0x01) 1) 0x07 <= 7.
Proof.
  rewrite (Z.land_ones _ 3) by lia.
  pose proof (Z.mod_pos_bound (Z.shiftl (Z.lor v 1) 1) (2 ^ 3) eq_refl). lia.
Qed.

Lemma parity_xfer_ok host ep w :
  wf_host host -> 0 <= ep < 16 ->
  exists host' w', Parity.tc_parity_xfer host ep w = Ok (host', w') /\ wf_host host'.
Proof.
  intros H He. unfold Parity.tc_parity_xfer. destruct (ep =? BULK_IN_EP).
  - eexists _, _. split; [reflexivity|].
    apply (wf_set_rx_ptr (xfer_start host IN ep <| rx_len := 0 |>)); [lia|].
    apply wf_set_rx_len. by apply xfer_start_wf.
  - destruct (w_rand_next w) as [v w1]. cbv zeta. set (n := Z.land _ _).
    assert (Hn : 0 <= n <= 512) by (pose proof (parity_len v); subst n; lia). clearbody n.
    change (tx (xfer_start host OUT ep <| tx_len := n |> <| tx_ptr := 0 |>)) with (tx (host_xfer host)).
    destruct (fill_packet host OUT ep n w1 H He Hn) as (l & w' & -> & Hl & Hb & _).
    rewrite outcome_bind_ok; cbv beta iota. rewrite out_xfer_crc by done. rewrite outcome_bind_ok.
    eexists _, _. split; [reflexivity|]. apply out_xfer_wf; done || lia.
Qed.

Lemma parity_init_ok host st w :
  wf_host host -> 0 <= Parity.pa_stage st < 3 ->
  exists host' a w', Parity.tc_parity_init host st w =
      Ok (0, host', Parity.MkParity a Parity.BulkIN0 (Parity.pa_stage st), w') /\ wf_host host'.
Proof.
  intros H Hs. unfold Parity.tc_parity_init. rewrite (proj2 (Z.eqb_neq _ 3)) by lia. cbv zeta.
  destruct (parity_xfer_ok host BULK_IN_EP w H ltac:(unfold BULK_IN_EP; lia)) as (h & w' & -> & Hh).
  rewrite outcome_bind_ok; cbv beta iota. set (a := if _ =? 0 then _ else _).
  destruct (host_adjust_ok a h Hh) as (h' & -> & Hh' & _). rewrite outcome_bind_ok. by eexists _, _, _.
Qed.

Lemma parity_progress host st w :
  wf_host host -> test_ok (TestParity st) -> 0 < steps_left (TestParity st) ->
  call_ok (fun r h s => left_with host (steps_left (TestParity st) - 1) r h (TestParity s))
    (Parity.tc_parity_step host st w).
Proof.
  destruct st as [a st sg]. intros H Hok Hl. cbn [test_ok Parity.pa_stage Parity.pa_step] in Hok.
  unfold Parity.tc_parity_step. cbn [Parity.pa_step Parity.pa_stage Parity.pa_adjust]. cbv zeta.
  assert (Hin : 0 <= BULK_IN_EP < 16) by (unfold BULK_IN_EP; lia).
  assert (Hout : 0 <= BULK_OUT_EP < 16) by (unfold BULK_OUT_EP; lia).
  destruct (host_adjust_ok a host H) as (h1 & E1 & H1 & _).
  destruct st; [| | | |done]; (destruct Hok as [Hs|Hs]; [|done]).
  - rewrite E1, outcome_bind_ok; cbv beta.
    destruct (parity_xfer_ok h1 BULK_IN_EP w H1 Hin) as (h2 & w2 & -> & H2).
    rewrite outcome_bind_ok; cbv beta iota; cbn [call_ok].
    apply left_step; [done|by left|..]; cbn; unfold parity_left; cbn; lia.
  - destruct (parity_xfer_ok host BULK_OUT_EP w H Hout) as (h2 & w2 & -> & H2).
    rewrite outcome_bind_ok; cbv beta iota.
    destruct (host_adjust_ok a h2 H2) as (h3 & -> & H3 & _). rewrite outcome_bind_ok; cbn [call_ok].
    apply left_step; [done|by left|..]; cbn; unfold parity_left; cbn; lia.
  - rewrite E1, outcome_bind_ok; cbv beta.
    destruct (parity_xfer_ok h1 BULK_OUT_EP w H1 Hout) as (h2 & w2 & -> & H2).
    rewrite outcome_bind_ok; cbv beta iota; cbn [call_ok].
    apply left_step; [done|by left|..]; cbn; unfold parity_left; cbn; lia.
  - apply wf_host_idle in H as Hi. rewrite (u8_small (sg + 1)) by lia.
    destruct (Z.ltb_spec (sg + 1) 3).
    + destruct (parity_init_ok (host_idle host) (Parity.MkParity a Parity.BulkOUT1 (sg + 1)) w Hi
        ltac:(cbn; lia)) as (h2 & a' & w' & -> & H2).
      rewrite outcome_bind_ok; cbv beta iota; cbn [call_ok].
      apply left_step; [done|left; cbn; lia|..]; cbn; unfold parity_left; cbn; lia.
    + assert (sg = 2) as -> by lia. cbn [call_ok]. apply left_end; [done|by right|done|done|by left].
Qed.

(** ** The interface: [tc_init] and [tc_step] *)

(** [step_ok host n m]: the call [m] succeeds and leaves [n] steps. *)
Definition step_ok (host : usb_host_t) (n : Z) (m : tc_result testcase_t) : Prop :=
  call_ok (left_with host n) m.

Lemma tc_step_ok test host w :
  wf_host host -> test_ok test -> 0 < steps_left test ->
  step_ok host (steps_left test - 1) (tc_step test host w).
Proof.
  intros H Hok Hl.
  destruct test; cbn [tc_step]; apply (call_ok_tc _ (left_with host (steps_left _ - 1)));
    [by apply getdesc_progress|by apply setaddr_progress|by apply getconf_progress
    |by apply setconf_progress|by apply getstrs_progress| |by apply bulkout_progress
    |by apply bulkin_progress|by apply ddr3out_progress|by apply ddr3in_progress
    |by apply parity_progress|done].
  destruct st; [|done]. cbn [call_ok WaitSof.tc_waitsof_step]. apply left_end; [done..|by right].
Qed.

(** A test that can be started, and the steps it then takes. *)
Definition startable (test : testcase_t) : Prop :=
  test_ok test /\
  match test with
  | TestGetConf st => 0 <= GetConf.gc_stage st < 3
  | TestGetStrs st => 0 <= GetStrs.gs_stage st < 5
  | TestDdr3Out st => 0 <= Ddr3Out.do_iter st < Ddr3Out.NUM_ITER
  | TestDdr3In st => 0 <= Ddr3In.di_iter st < Ddr3In.NUM_ITER
  | TestParity st => 0 <= Parity.pa_stage st < 3
  | _ => True
  end.

Definition total_steps (test : testcase_t) : Z :=
  match test with
  | TestGetDesc _ => 9
  | TestSetAddr _ => 6
  | TestGetConf st => 9 * (3 - GetConf.gc_stage st)
  | TestSetConf _ => 6
  | TestGetStrs st => 9 * (5 - GetStrs.gs_stage st)
  | TestWaitSof _ => 1
  | TestBulkOut _ => 7
  | TestBulkIn _ => 3
  | TestDdr3Out st => 2 * Ddr3Out.NUM_ITER - Ddr3Out.do_iter st
  | TestDdr3In st => 2 * Ddr3In.NUM_ITER - Ddr3In.di_iter st
  | TestParity st => 4 * (3 - Parity.pa_stage st)
  | TestRestarts _ => 0
  end.

Lemma bulkout_init_ok host st w :
  wf_host host -> call_ok (fun r h s => left_with host 7 r h (TestBulkOut s)) (BulkOut.tc_bulkout_init host st w).
Proof.
  intros H. unfold BulkOut.tc_bulkout_init.
  destruct (bulkout_xfer_run host 16 BULK_OUT_EP w (wf_tx_buffer _ H) ltac:(lia)) as (l & w' & E & Hl & Hb).
  rewrite E, outcome_bind_ok; cbv beta iota; cbn [call_ok].
  apply left_step; [apply out_xfer_wf; unfold BULK_OUT_EP; done || lia|done..].
Qed.

Lemma ddr3in_init_ok host st w :
  wf_host host -> startable (TestDdr3In st) ->
  call_ok (fun r h s => left_with host (total_steps (TestDdr3In st)) r h (TestDdr3In s))
    (Ddr3In.tc_ddr3in_init host st w).
Proof.
  destruct st as [ad st iter oe ie id]. intros H [_ Hi]. cbn [Ddr3In.di_iter] in Hi. unfold Ddr3In.NUM_ITER in Hi.
  unfold Ddr3In.tc_ddr3in_init. cbn [Ddr3In.di_addr Ddr3In.di_iter Ddr3In.di_id]. cbv zeta.
  cbn [Ddr3In.di_iter].
  destruct (ddr3in_length iter Hi) as (n & -> & Hn). rewrite outcome_bind_ok; cbv beta.
  destruct (ddr3in_cmd_ok host n (Ddr3In.MkDdr3In ad Ddr3In.DDR3Cmd iter DDR3_OUT_EP DDR3_IN_EP id) H
    ltac:(cbn; unfold DDR3_OUT_EP; lia)) as (h & -> & Hh).
  rewrite outcome_bind_ok; cbn [call_ok].
  apply left_step; [done|split_and!; cbn; unfold Ddr3In.NUM_ITER, DDR3_OUT_EP, DDR3_IN_EP; lia|..];
    cbn; unfold ddr3in_left, Ddr3In.NUM_ITER; cbn; lia.
Qed.

Lemma ddr3out_init_ok host st w :
  wf_host host -> startable (TestDdr3Out st) ->
  call_ok (fun r h s => left_with host (total_steps (TestDdr3Out st)) r h (TestDdr3Out s))
    (Ddr3Out.tc_ddr3out_init host st w).
Proof.
  destruct st as [ad st iter bt oe ie id]. intros H [_ Hi]. cbn [Ddr3Out.do_iter] in Hi.
  unfold Ddr3Out.NUM_ITER in Hi. unfold Ddr3Out.tc_ddr3out_init. destruct (w_rand_next w) as [v w1].
  cbn [Ddr3Out.do_addr Ddr3Out.do_iter]. cbv zeta. cbn [Ddr3Out.do_iter].
  destruct (ddr3out_length iter ltac:(lia)) as (n & -> & Hn). rewrite outcome_bind_ok; cbv beta.
  destruct (ddr3out_cmd_ok host n
    (Ddr3Out.MkDdr3Out ad Ddr3Out.DDR3Out iter 4 DDR3_OUT_EP DDR3_IN_EP (Z.land v 0x0F)) w1 H
    ltac:(cbn; unfold DDR3_OUT_EP; lia) Hn eq_refl) as (h & w' & -> & Hh).
  rewrite outcome_bind_ok; cbv beta iota; cbn [call_ok].
  apply left_step; [done|split_and!; cbn; unfold Ddr3Out.NUM_ITER, DDR3_OUT_EP, DDR3_IN_EP; lia|..];
    cbn; unfold ddr3out_left, Ddr3Out.NUM_ITER; cbn; lia.
Qed.

(** The tests whose first request is refused by a host that is not idle. *)
Definition needs_idle (test : testcase_t) : bool :=
  match test with TestGetDesc _ | TestGetConf _ | TestGetStrs _ => true | _ => false end.

Lemma tc_init_ok test host w :
  wf_host host -> (needs_idle test = true -> host_op host = HostIdle) -> startable test ->
  step_ok host (total_steps test) (tc_init test host w).
Proof.
  intros H Hop Hs. pose proof Hs as [Hok Hst].
  destruct test; cbn [tc_init]; apply (call_ok_tc _ (left_with host (total_steps _))).
  - unfold GetDesc.tc_getdesc_init.
    destruct (tc_get_descriptor_starts host 0x0301 w H (Hop eq_refl) ltac:(lia)) as (h & w' & -> & Hh & _).
    rewrite outcome_bind_ok. by apply left_step.
  - unfold SetAddr.tc_setaddr_init. cbv zeta. cbn [SetAddr.sa_addr].
    destruct (set_address_starts host (SetAddr.sa_addr st) H Hok) as (h & -> & Hh & _).
    rewrite outcome_bind_ok. by apply left_step.
  - destruct (getconf_init_ok host st w H (Hop eq_refl) Hst) as (h & -> & Hh & _).
    apply left_step; [done|by left|..]; cbn; unfold reads_left, getdesc_left; lia.
  - unfold SetConf.tc_setconf_init. cbv zeta. cbn [SetConf.sc_conf].
    destruct (set_config_starts host (SetConf.sc_conf st) H Hok) as (h & -> & Hh & _).
    rewrite outcome_bind_ok. by apply left_step.
  - destruct (getstrs_init_ok host st w H (Hop eq_refl) Hst) as (h & w' & -> & Hh & _).
    apply left_step; [done|by left|..]; cbn; unfold reads_left, getdesc_left; lia.
  - by apply left_step.
  - by apply bulkout_init_ok.
  - by apply left_step; [apply wf_xfer_start_rx|..].
  - by apply ddr3out_init_ok.
  - by apply ddr3in_init_ok.
  - destruct (parity_init_ok host st w H Hst) as (h & a & w' & -> & Hh).
    apply left_step; [done|by left|..]; cbn; unfold parity_left; cbn; lia.
  - done.
Qed.

(** A start that the host refuses. *)
Definition refused (host : usb_host_t) (r : Z) (h : usb_host_t) (t : testcase_t) : Prop :=
  r = -1 /\ host_op host <> HostIdle /\ h = host /\ test_ok t /\ 0 < steps_left t.

Lemma tc_init_any test host w :
  wf_host host -> startable test ->
  call_ok (fun r h t => refused host r h t \/ left_with host (total_steps test) r h t)
    (tc_init test host w).
Proof.
  intros H Hs. destruct (decide (needs_idle test = true -> host_op host = HostIdle)) as [Hop|Hop].
  { eapply call_ok_mono; [by apply tc_init_ok|]. by right. }
  assert (Hn : needs_idle test = true) by (destruct (needs_idle test); [done|by destruct Hop]).
  assert (Ho : host_op host <> HostIdle) by (intros E; by destruct Hop).
  pose proof (host_op_eqb_neq _ _ Ho) as He. destruct test; try discriminate Hn; cbn [tc_init]; apply call_ok_tc.
  - unfold GetDesc.tc_getdesc_init, tc_get_descriptor, stdreq_get_descriptor.
    destruct (w_malloc_next w) as [desc w']. rewrite He. left. by split_and!.
  - destruct Hs as [_ Hst]. unfold GetConf.tc_getconf_init. cbv zeta. cbn [GetConf.gc_stage].
    unfold stdreq_get_desc_device, stdreq_get_desc_config. rewrite He.
    assert (Hc : GetConf.gc_stage st = 0 \/ GetConf.gc_stage st = 1 \/ GetConf.gc_stage st = 2) by lia.
    destruct Hc as [E | [E | E]]; rewrite E; left; (split_and!; [done|done|done|left; cbn; lia|]);
      cbn; unfold reads_left, getdesc_left; lia.
  - destruct Hs as [_ Hst]. unfold GetStrs.tc_getstrs_init, tc_get_descriptor, stdreq_get_descriptor, stdreq_get_status.
    cbv zeta. cbn [GetStrs.gs_stage]. destruct (w_malloc_next w) as [desc w']. rewrite He.
    rewrite (proj2 (Z.eqb_neq _ 5)) by lia.
    destruct (Z.leb_spec 0 (GetStrs.gs_stage st)); [|lia].
    assert (Hp : refused host (-1) host (TestGetStrs (GetStrs.MkGetStrs SendSETUP (GetStrs.gs_stage st)))).
    { split_and!; [done|done|done|left; cbn; lia|]. cbn. unfold reads_left, getdesc_left. lia. }
    destruct (Z.leb_spec (GetStrs.gs_stage st) 3); [by left|].
    assert (E : GetStrs.gs_stage st = 4) by lia. rewrite E in *. by left.
Qed.

(** ** What the tests tell the simulator *)

(** No test but the control reads prints a descriptor, and a call that succeeds does
    not end the simulation. *)
Definition quiet (w w' : world) : Prop := w_shown w' = w_shown w /\ w_finish w' = w_finish w.
Definition running {St} (w : world) (m : tc_result St) : Prop :=
  returns (fun '(r, _, _, w') => 0 <= r -> w_finish w' = w_finish w) m.

Lemma quiet_refl w : quiet w w.
Proof. done. Qed.
Lemma quiet_rand w : quiet w (snd (w_rand_next w)).
Proof. unfold w_rand_next. by destruct (rng_next (w_rand w)). Qed.
Lemma quiet_malloc w : quiet w (snd (w_malloc_next w)).
Proof. unfold w_malloc_next. by destruct (rng_next (w_malloc w)). Qed.
Lemma quiet_trans w1 w2 w3 : quiet w1 w2 -> quiet w2 w3 -> quiet w1 w3.
Proof. intros [H1 H2] [H3 H4]. split; congruence. Qed.

Lemma tx_fill_rand_quiet n tx w : returns (fun '(_, w') => quiet w w') (tx_fill_rand n tx w).
Proof.
  revert tx w. induction n as [|n IH]; intros tx w; [done|]. cbn [tx_fill_rand].
  pose proof (quiet_rand w) as Hq. destruct (w_rand_next w) as [v w1]. returns_step.
  specialize (IH a w1). destruct (tx_fill_rand n a w1) as [[l w2]| |]; [|done..]. by eapply quiet_trans.
Qed.

Lemma fill_words_quiet n tx w : returns (fun '(_, w') => quiet w w') (Ddr3Out.fill_words n tx w).
Proof.
  revert tx w. induction n as [|n IH]; intros tx w; [done|]. cbn [Ddr3Out.fill_words].
  pose proof (quiet_rand w) as Hq. destruct (w_rand_next w) as [v w1]. cbv zeta. do 4 returns_step.
  specialize (IH a2 w1). destruct (Ddr3Out.fill_words n a2 w1) as [[l w2]| |]; [|done..]. by eapply quiet_trans.
Qed.

Lemma bulkout_xfer_quiet host n ep w :
  returns (fun '(_, w') => quiet w w') (BulkOut.tc_bulkout_xfer host n ep w).
Proof.
  unfold BulkOut.tc_bulkout_xfer. cbv zeta. eapply returns_use; [apply tx_fill_rand_quiet|].
  intros [l w'] Hq. by returns_step.
Qed.

Lemma ddr3out_cmd_quiet host n st w :
  returns (fun '(_, w') => quiet w w') (Ddr3Out.tc_ddr3out_cmd host n st w).
Proof.
  unfold Ddr3Out.tc_ddr3out_cmd. cbv zeta. returns_step.
  eapply returns_use; [apply fill_words_quiet|]. intros [l w'] Hq. by returns_step.
Qed.

Lemma parity_xfer_quiet host ep w :
  returns (fun '(_, w') => quiet w w') (Parity.tc_parity_xfer host ep w).
Proof.
  unfold Parity.tc_parity_xfer. destruct (ep =? BULK_IN_EP); [apply quiet_refl|].
  pose proof (quiet_rand w) as Hq1. destruct (w_rand_next w) as [v w1]. cbv zeta.
  eapply returns_use; [apply tx_fill_rand_quiet|]. intros [l w'] Hq. returns_step.
  cbn [returns]. by eapply quiet_trans.
Qed.

Lemma get_descriptor_quiet host num w :
  returns (fun '(_, _, w') => quiet w w') (tc_get_descriptor host num w).
Proof.
  unfold tc_get_descriptor. pose proof (quiet_malloc w) as Hq. destruct (w_malloc_next w) as [v w1].
  returns_step. destruct a as [r h]. cbn [returns]. by destruct (host_op_eqb _ _).
Qed.

(** A call through a function pointer. *)
Lemma running_call {St} (mk : St -> testcase_t) w (m : tc_result St) : running w m -> running w (tc_call mk m).
Proof. unfold running, tc_call. destruct m as [[[[r h] s] w']| |]; cbn; auto. Qed.

Lemma parity_init_quiet host st w :
  returns (fun '(_, _, _, w') => quiet w w') (Parity.tc_parity_init host st w).
Proof.
  unfold Parity.tc_parity_init. destruct (Parity.pa_stage st =? 3); [done|]. cbv zeta.
  eapply returns_use; [apply parity_xfer_quiet|]. intros [h w1] Hq. by returns_step.
Qed.

Lemma parity_step_quiet host st w :
  returns (fun '(_, _, _, w') => quiet w w') (Parity.tc_parity_step host st w).
Proof.
  unfold Parity.tc_parity_step. cbv zeta. destruct (Parity.pa_step st); [| | | |done].
  - returns_step. eapply returns_use; [apply parity_xfer_quiet|]. by intros [h w1] Hq.
  - eapply returns_use; [apply parity_xfer_quiet|]. intros [h w1] Hq. by returns_step.
  - returns_step. eapply returns_use; [apply parity_xfer_quiet|]. by intros [h w1] Hq.
  - cbn [Parity.pa_stage]. destruct (_ <? 3); [|done].
    eapply returns_use; [apply parity_init_quiet|]. by intros [[[r h] s] w1] Hq.
Qed.

(** The tests of bulk transactions. *)
Definition bulk_case (test : testcase_t) : bool :=
  match test with
  | TestWaitSof _ | TestBulkOut _ | TestBulkIn _ | TestDdr3Out _ | TestDdr3In _ | TestParity _ => true
  | _ => false
  end.

Lemma quiet_call {St} (mk : St -> testcase_t) w (m : tc_result St) :
  returns (fun '(_, _, _, w') => quiet w w') m -> returns (fun '(_, _, _, w') => quiet w w') (tc_call mk m).
Proof. by destruct m as [[[[r h] s] w']| |]. Qed.

Lemma bulk_init_quiet test host w :
  bulk_case test = true -> returns (fun '(_, _, _, w') => quiet w w') (tc_init test host w).
Proof.
  intros Hc. destruct test; try discriminate Hc; cbn [tc_init]; apply quiet_call; try done.
  - unfold BulkOut.tc_bulkout_init. eapply returns_use; [apply bulkout_xfer_quiet|]. by intros [h w1] Hq.
  - unfold Ddr3Out.tc_ddr3out_init. pose proof (quiet_rand w) as Hq0.
    destruct (w_rand_next w) as [v w1]. cbv zeta. returns_step.
    eapply returns_use; [apply ddr3out_cmd_quiet|]. intros [h w2] Hq. by eapply quiet_trans.
  - unfold Ddr3In.tc_ddr3in_init. cbv zeta. by repeat returns_step.
  - apply parity_init_quiet.
Qed.

Lemma bulk_step_quiet test host w :
  bulk_case test = true -> returns (fun '(_, _, _, w') => quiet w w') (tc_step test host w).
Proof.
  intros Hc. destruct test; try discriminate Hc; cbn [tc_step]; apply quiet_call; try done.
  - unfold BulkOut.tc_bulkout_step. cbv zeta.
    destruct st; try done; (eapply returns_use; [apply bulkout_xfer_quiet|]; by intros [h w1] Hq).
  - unfold BulkIn.tc_bulkin_step. cbv zeta. by destruct (BulkIn.bi_step st).
  - unfold Ddr3Out.tc_ddr3out_step. cbv zeta. destruct (Ddr3Out.do_step st); [|by destruct (_ <? _)|done].
    destruct (_ <? _); [|done]. returns_step.
    eapply returns_use; [apply ddr3out_cmd_quiet|]. by intros [h w1] Hq.
  - unfold Ddr3In.tc_ddr3in_step. cbv zeta. destruct (Ddr3In.di_step st); [|by destruct (_ <=? _)|done].
    destruct (_ <? _); [|done]. by repeat returns_step.
  - apply parity_step_quiet.
Qed.

Lemma quiet_running w (m : tc_result testcase_t) :
  returns (fun '(_, _, _, w') => quiet w w') m -> running w m.
Proof. intros H. eapply returns_mono; [exact H|]. by intros [[[r h] s] w'] [_ Hq] _. Qed.

(** The control reads: the descriptor is printed, and the next request succeeds. *)
Lemma getdesc_running host st w : running w (GetDesc.tc_getdesc_step host st w).
Proof.
  unfold running, GetDesc.tc_getdesc_step. destruct (getdesc_phase host st) as [m|].
  - destruct m as [[h s]| |]; done.
  - by destruct st.
Qed.

Lemma getconf_running host st w :
  wf_host host -> test_ok (TestGetConf st) -> running w (GetConf.tc_getconf_step host st w).
Proof.
  destruct st as [st stage]. intros H Hok. cbn [test_ok GetConf.gc_stage GetConf.gc_step] in Hok.
  unfold running, GetConf.tc_getconf_step. cbn [GetConf.gc_stage GetConf.gc_step].
  destruct (getdesc_phase host st) as [m|]; [by destruct m as [[h s]| |]|].
  destruct st; try done. destruct Hok as [Hok|]; [|done]. cbv zeta. cbn [GetConf.gc_stage].
  change (host_next host <| host_op := HostIdle |>) with (host_rest host).
  set (w1 := w_show _ w). rewrite (u8_small (stage + 1)) by lia. destruct (Z.ltb_spec (stage + 1) 3); [|done].
  destruct (getconf_init_ok (host_rest host) (GetConf.MkGetConf RecvACK1 (stage + 1)) w1 H eq_refl
    ltac:(cbn; lia)) as (h & -> & _). done.
Qed.

Lemma getstrs_init_world host st w :
  returns (fun '(r, _, _, w') => 0 <= r -> quiet w w') (GetStrs.tc_getstrs_init host st w).
Proof.
  unfold GetStrs.tc_getstrs_init. cbv zeta. destruct (GetStrs.gs_stage _ =? 5); [done|].
  eapply (returns_use (fun '(_, _, w') => quiet w w')).
  - destruct (_ && _); [apply get_descriptor_quiet|]. destruct (_ =? 4); [|done].
    returns_step. by destruct a.
  - intros [[r h] w1] Hq. destruct (Z.ltb_spec r 0); cbn; intros; done || lia.
Qed.

Lemma getstrs_running host st w :
  wf_host host -> test_ok (TestGetStrs st) -> running w (GetStrs.tc_getstrs_step host st w).
Proof.
  destruct st as [st stage]. intros H Hok. cbn [test_ok GetStrs.gs_stage GetStrs.gs_step] in Hok.
  unfold running, GetStrs.tc_getstrs_step. cbn [GetStrs.gs_stage GetStrs.gs_step].
  destruct (getdesc_phase host st) as [m|]; [by destruct m as [[h s]| |]|].
  destruct st; try done. destruct Hok as [Hok|]; [|done]. cbv zeta. cbn [GetStrs.gs_stage].
  change (host_next host <| host_op := HostIdle |>) with (host_rest host).
  set (w1 := w_show _ w). rewrite (u8_small (stage + 1)) by lia. destruct (Z.ltb_spec (stage + 1) 5); [|done].
  pose proof (getstrs_init_world (host_rest host) (GetStrs.MkGetStrs RecvACK1 (stage + 1)) w1) as Hq.
  destruct (getstrs_init_ok (host_rest host) (GetStrs.MkGetStrs RecvACK1 (stage + 1)) w1 H eq_refl
    ltac:(cbn; lia)) as (h & w2 & E & _). rewrite E in Hq |- *. intros _. by apply Hq.
Qed.

Lemma init_running test host w : running w (tc_init test host w).
Proof.
  destruct (bulk_case test) eqn:Hc; [by apply quiet_running, bulk_init_quiet|].
  destruct test; try discriminate Hc; cbn [tc_init]; apply running_call; unfold running; try done.
  - unfold GetDesc.tc_getdesc_init. eapply returns_use; [apply get_descriptor_quiet|].
    intros [[r h] w1] [_ Hq]. destruct (r <? 0); cbn; intros; done || lia.
  - unfold SetAddr.tc_setaddr_init. cbv zeta. returns_step. destruct a as [r h]. destruct (r <? 0); cbn; intros; done || lia.
  - unfold GetConf.tc_getconf_init. cbv zeta. destruct (GetConf.gc_stage _ =? 3); [done|].
    returns_step. destruct a as [r h]. destruct (Z.ltb_spec r 0); cbn; intros; done || lia.
  - unfold SetConf.tc_setconf_init. cbv zeta. returns_step. destruct a as [r h]. destruct (r <? 0); cbn; intros; done || lia.
  - eapply returns_mono; [apply getstrs_init_world|]. intros [[[r h] s] w'] Hq Hr. by apply Hq.
Qed.

Lemma step_running test host w : wf_host host -> test_ok test -> running w (tc_step test host w).
Proof.
  intros H Hok. destruct (bulk_case test) eqn:Hc; [by apply quiet_running, bulk_step_quiet|].
  destruct test; try discriminate Hc; cbn [tc_step]; apply running_call;
    [apply getdesc_running| |by apply getconf_running| |by apply getstrs_running|done]; unfold running.
  - unfold SetAddr.tc_setaddr_step. cbv zeta. by destruct (SetAddr.sa_stage st); repeat returns_step.
  - unfold SetConf.tc_setconf_step. cbv zeta. by destruct (SetConf.sc_stage st); repeat returns_step.
Qed.

(** ** Whole tests *)

(** A test between two calls of the scheduler: the packet phases that run in
    between may do anything to the host but break its transfer. *)
Fixpoint tc_run (n : nat) (env : nat -> usb_host_t -> usb_host_t) (test : testcase_t)
    (host : usb_host_t) (w : world) : outcome (list Z * testcase_t) :=
  match n with
  | O => Ok ([], test)
  | S n =>
      '(r, host, test, w) ← tc_step test (env n host) w;
      '(rs, test) ← tc_run n env test host w;
      Ok (r :: rs, test)
  end.

Definition tc_session (n : nat) (env : nat -> usb_host_t -> usb_host_t) (test : testcase_t)
    (host : usb_host_t) (w : world) : outcome (list Z * testcase_t) :=
  '(r, host, test, w) ← tc_init test host w;
  '(rs, test) ← tc_run n env test host w;
  Ok (r :: rs, test).

Lemma tc_run_step n env test host w k :
  (forall k h, wf_host h -> wf_host (env k h)) ->
  wf_host host -> test_ok test -> steps_left test = Z.of_nat (S k) ->
  exists host' test' w', wf_host host' /\ test_ok test' /\ steps_left test' = Z.of_nat k /\
    tc_run (S n) env test host w =
      ('(rs, t) ← tc_run n env test' host' w'; Ok ((if (Z.of_nat k =? 0) then 1 else 0) :: rs, t)).
Proof.
  intros Henv H Hok Hl.
  pose proof (tc_step_ok test (env n host) w (Henv _ _ H) Hok ltac:(lia)) as Hs.
  apply call_ok_exists in Hs as (r & h & t & w' & E & Hh & Ht & Hn & _ & Hr & _).
  rewrite Hl in Hn, Hr. replace (Z.of_nat (S k) - 1) with (Z.of_nat k) in * by lia.
  exists h, t, w'. split_and!; try done. cbn [tc_run]. by rewrite E, outcome_bind_ok, Hr.
Qed.

Lemma tc_run_completes n env test host w :
  (forall k h, wf_host h -> wf_host (env k h)) ->
  wf_host host -> test_ok test -> steps_left test = Z.of_nat (S n) ->
  exists test', tc_run (S n) env test host w = Ok (replicate n 0 ++ [1], test') /\ steps_left test' = 0.
Proof.
  intros Henv. revert test host w. induction n as [|n IH]; intros test host w H Hok Hl.
  - destruct (tc_run_step 0 env test host w 0 Henv H Hok Hl) as (h & t & w' & _ & _ & Hn & ->).
    by exists t.
  - destruct (tc_run_step (S n) env test host w (S n) Henv H Hok Hl) as (h & t & w' & Hh & Ht & Hn & ->).
    destruct (IH t h w' Hh Ht Hn) as (t' & -> & Ht'). rewrite outcome_bind_ok. by exists t'.
Qed.

(** C20.  Every test case completes: started on an idle host, and whatever the
    packet phases in between do to a well-formed host, no call fails or leaves an
    array, the [init] returns 0 and the [step] returns 0 until the last of the
    test's [total_steps] calls, which returns 1. *)
Theorem tc_session_completes env test host w :
  (forall k h, wf_host h -> wf_host (env k h)) ->
  wf_host host -> host_op host = HostIdle -> startable test ->
  exists n test', total_steps test = Z.of_nat (S n) /\
    tc_session (S n) env test host w = Ok (0 :: replicate n 0 ++ [1], test') /\ steps_left test' = 0.
Proof.
  intros Henv H Hop Hs.
  pose proof (tc_init_ok test host w H (fun _ => Hop) Hs) as Hi.
  apply call_ok_exists in Hi as (r & h & t & w' & E & Hh & Ht & Hn & Hpos & Hr & _).
  assert (Hz : total_steps test <> 0).
  { destruct Hs as [Hok Hst]. destruct test; cbn in *; unfold Ddr3Out.NUM_ITER, Ddr3In.NUM_ITER in *; lia || done. }
  exists (Z.to_nat (total_steps test - 1)).
  destruct (tc_run_completes (Z.to_nat (total_steps test - 1)) env t h w' Henv Hh Ht ltac:(lia))
    as (t' & E' & Ht').
  exists t'. split; [lia|]. split; [|done]. unfold tc_session.
  rewrite E, outcome_bind_ok; cbv beta iota. rewrite E', outcome_bind_ok.
  assert (E0 : (total_steps test =? 0) = false) by lia. rewrite E0 in Hr. by subst r.
Qed.

(** ** The packets that the bulk tests queue *)

(** An OUT transaction to the endpoint [ep] of the host's device is queued, its
    data packet is [packet], and both CRCs are valid. *)
Record queued_out (host host' : usb_host_t) (ep : Z) (packet : list Z) : Prop := {
  qo_op : host_op host' = HostBulkOUT;
  qo_type : type (host_xfer host') = OUT;
  qo_stage : stage (host_xfer host') = NoXfer;
  qo_ptr : tx_ptr (host_xfer host') = 0;
  qo_len : tx_len (host_xfer host') = Z.of_nat (length packet);
  qo_data : take (length packet) (tx (host_xfer host')) = packet;
  qo_token : crc5_check (token_word (host_xfer host')) = true;
  qo_addr : Z.land (token_word (host_xfer host')) 0x7F = Z.land (host_addr host) 0x7F;
  qo_ep : Z.land (Z.shiftr (token_word (host_xfer host')) 7) 0x0F = ep;
  qo_crc : crc16_check (packet ++ [crc1 (host_xfer host'); crc2 (host_xfer host')]) = true;
}.

Lemma out_xfer_queued host ep n l :
  0 <= ep < 16 -> length l = 512%nat -> Forall is_byte l -> 0 <= n <= 512 ->
  queued_out host (host <| host_op := HostBulkOUT |> <| host_xfer := out_xfer host ep n l |>) ep
    (take (Z.to_nat n) l).
Proof.
  intros He Hl Hb Hn. destruct (xfer_start_token host OUT ep) as (Ht & Ha & Hep). cbv zeta in *.
  rewrite (endpoint_mask ep He) in Hep.
  set (x := out_xfer host ep n l).
  change (token_word (xfer_start host OUT ep)) with (token_word x) in Ht, Ha, Hep.
  assert (Hlen : length (take (Z.to_nat n) l) = Z.to_nat n) by (rewrite length_take; lia).
  split; try done.
  - rewrite Hlen. change (n = Z.of_nat (Z.to_nat n)). lia.
  - rewrite Hlen. done.
  - apply crc16_check_pair; [by apply Forall_take|apply crc_lo_byte|apply crc_hi_byte|done].
Qed.

(** The bulk OUT set-up: for every packet size up to 512, endpoint, address
    and stream of random numbers, [tc_bulkout_xfer] queues an OUT transaction
    whose token carries the device's address and the endpoint with a valid CRC5,
    and whose data packet has the requested size and a valid CRC16. *)
Lemma bulkout_queues_valid_packet host n ep w :
  wf_host host -> 0 <= ep < 16 -> 0 <= n <= 512 ->
  exists host' w' packet, BulkOut.tc_bulkout_xfer host n ep w = Ok (host', w') /\
    Z.of_nat (length packet) = n /\ Forall is_byte packet /\ queued_out host host' ep packet /\
    wf_host host'.
Proof.
  intros H He Hn. destruct (bulkout_xfer_run host n ep w (wf_tx_buffer _ H) Hn) as (l & w' & E & Hl & Hb).
  eexists _, w', (take (Z.to_nat n) l). split; [exact E|].
  split; [rewrite length_take; lia|]. split; [by apply Forall_take|]. split; [by apply out_xfer_queued|].
  apply out_xfer_wf; done || lia.
Qed.

(** What the DDR3 core reads from the six header bytes: command, length field,
    28-bit address and 4-bit transaction identifier. *)
Definition decode_ddr3 (bytes : list Z) : option (Z * Z * Z * Z) :=
  match bytes with
  | [c; n; a0; a1; a2; a3] =>
      Some (c, n, Z.lor (Z.lor (Z.lor a0 (Z.shiftl a1 8)) (Z.shiftl a2 16))
                        (Z.shiftl (Z.land a3 0x0F) 24), Z.shiftr a3 4)
  | _ => None
  end.

Lemma header_top a i :
  let b := u8 (Z.lor (Z.land a 0x0F) (Z.shiftl (Z.land i 0x0F) 4)) in
  Z.land b 0x0F = Z.land a 0x0F /\ Z.shiftr b 4 = Z.land i 0x0F.
Proof.
  cbv zeta. unfold u8. change 0x0F with (Z.ones 4). split; apply Z.bits_inj'; intros k Hk.
  - rewrite !Z.land_spec. destruct (decide (k < 4)).
    + rewrite Z.mod_pow2_bits_low, Z.lor_spec, Z.land_spec, Z.shiftl_spec, (Z.testbit_neg_r _ (k - 4)) by lia.
      rewrite Z.ones_spec_low by lia. by rewrite orb_false_r, !andb_true_r.
    + by rewrite Z.ones_spec_high, !andb_false_r by lia.
  - rewrite Z.shiftr_spec by done. destruct (decide (k < 4)).
    + rewrite Z.mod_pow2_bits_low, Z.lor_spec, !Z.land_spec, Z.shiftl_spec, Z.land_spec by lia.
      rewrite (Z.ones_spec_high _ (k + 4)), (Z.ones_spec_low _ k) by lia. replace (k + 4 - 4) with k by lia.
      by rewrite (Z.ones_spec_low 4 k), andb_false_r, orb_false_l by lia.
    + rewrite Z.mod_pow2_bits_high, Z.land_spec, Z.ones_spec_high by lia. by rewrite andb_false_r.
Qed.

Lemma header_addr a :
  Z.lor (Z.lor (Z.lor (Z.land a 0xFF) (Z.shiftl (Z.land (Z.shiftr a 8) 0xFF) 8))
               (Z.shiftl (Z.land (Z.shiftr a 16) 0xFF) 16))
        (Z.shiftl (Z.land (Z.shiftr a 24) 0x0F) 24) = a mod 2 ^ 28.
Proof.
  change 0xFF with (Z.ones 8). change 0x0F with (Z.ones 4). apply Z.bits_inj'. intros k Hk.
  rewrite !Z.lor_spec, !Z.shiftl_spec, Z.land_spec by done.
  assert (Hb : forall j m : Z, 0 <= m -> 0 <= j ->
    Z.testbit (Z.land (Z.shiftr a j) (Z.ones m)) (k - j) = Z.testbit a k && (j <=? k) && (k <? j + m)).
  { intros j m Hm Hj. destruct (Z.leb_spec j k).
    - rewrite Z.land_spec, Z.shiftr_spec by lia. replace (k - j + j) with k by lia.
      rewrite Z.testbit_ones by lia. destruct (Z.testbit a k); cbn; lia.
    - rewrite Z.testbit_neg_r by lia. by rewrite andb_false_r. }
  rewrite !Hb, Z.testbit_ones, (proj2 (Z.leb_le 0 k)) by lia.
  destruct (decide (k < 28)); [rewrite Z.mod_pow2_bits_low by lia|rewrite Z.mod_pow2_bits_high by lia].
  all: destruct (Z.testbit a k); cbn; lia.
Qed.

Lemma decode_header cmd n addr id :
  decode_ddr3 (header_bytes cmd n addr id) =
  Some (cmd, Z.lor (u8 (n - 1)) 0x03, addr mod 2 ^ 28, Z.land id 0x0F).
Proof.
  unfold header_bytes, decode_ddr3. destruct (header_top (Z.shiftr addr 24) id) as [H1 H2]. cbv zeta in *.
  by rewrite H1, H2, header_addr.
Qed.

Lemma length_field n : 0 < n <= 64 -> n mod 4 = 0 -> Z.lor (u8 (n - 1)) 0x03 = n - 1.
Proof.
  intros H H4.
  pose proof (forall_range (fun n => (n =? 0) || negb (n mod 4 =? 0) || (Z.lor (u8 (n - 1)) 0x03 =? n - 1)) 65 n
    eq_refl ltac:(lia)) as Hf.
  cbv beta in Hf. rewrite H4 in Hf. assert (E : (n =? 0) = false) by lia. rewrite E in Hf.
  by apply Z.eqb_eq in Hf.
Qed.

(** C33.  DDR3 command packets round trip: the six header bytes that the read and
    the write command queue decode to the command, the 28-bit address, the 4-bit
    identifier and, for a whole number of 4-word beats, one less than the number of
    words; a write carries its [4 * n] data bytes after them; both packets are valid
    OUT transactions of the DDR3 endpoint. *)
Theorem ddr3_commands_decode host sti sto n w :
  wf_host host -> 0 <= Ddr3In.di_out sti < 16 -> 0 <= Ddr3Out.do_out sto < 16 ->
  Ddr3Out.do_beat sto = 4 -> 0 < n <= 64 -> n mod 4 = 0 ->
  (exists host' packet, Ddr3In.tc_ddr3in_cmd host n sti = Ok host' /\
     queued_out host host' (Ddr3In.di_out sti) packet /\
     decode_ddr3 packet =
       Some (0x80, n - 1, Ddr3In.di_addr sti mod 2 ^ 28, Z.land (Ddr3In.di_id sti) 0x0F)) /\
  (exists host' w' header data, Ddr3Out.tc_ddr3out_cmd host n sto w = Ok (host', w') /\
     queued_out host host' (Ddr3Out.do_out sto) (header ++ data) /\
     Z.of_nat (length data) = 4 * n /\
     decode_ddr3 header =
       Some (0x01, n - 1, Ddr3Out.do_addr sto mod 2 ^ 28, Z.land (Ddr3Out.do_id sto) 0x0F)).
Proof.
  intros H Hi Ho Hb Hn H4. split.
  - destruct (ddr3in_cmd_run host n sti (wf_tx_buffer _ H)) as (l & E & El & Hl & Hby).
    eexists _, (take 6 l). split; [exact E|]. split; [by apply (out_xfer_queued host _ 6)|].
    rewrite El. change (take 6 _) with (header_bytes 0x80 n (Ddr3In.di_addr sti) (Ddr3In.di_id sti)).
    by rewrite decode_header, length_field.
  - destruct (ddr3out_cmd_run host n sto w (wf_tx_buffer _ H) ltac:(lia) Hb) as (l & w' & E & El & Hl & Hby).
    eexists _, w', (take 6 l), (take (Z.to_nat (4 * n)) (drop 6 l)). split; [exact E|].
    split; [|split; [rewrite length_take, length_drop; lia|by rewrite El, decode_header, length_field]].
    rewrite take_take_drop. replace (6 + Z.to_nat (4 * n))%nat with (Z.to_nat (n * 4 + 6)) by lia.
    by apply out_xfer_queued; [| | |lia].
Qed.

(** ** Parity adjustments *)

(** A link accepts the next packet of the transfer: the token's CRC5, for OUT data
    the CRC16, and the addressed endpoint. *)
Definition token_ok (x : transfer_t) : bool := crc5_check (token_word x).

Lemma token_word_tok2 x b :
  token_word (x <| tok2 := b |>) = Z.lor (tok1 x) (Z.shiftl b 8).
Proof. done. Qed.

Lemma lxor_ff b : is_byte b -> u8 (Z.lxor b 0xFF) <> b /\ u8 (Z.lxor (u8 (Z.lxor b 0xFF)) 0xFF) = b.
Proof.
  intros Hb.
  pose proof (forall_range (fun b => negb (u8 (Z.lxor b 0xFF) =? b) && (u8 (Z.lxor (u8 (Z.lxor b 0xFF)) 0xFF) =? b))
    256 b eq_refl Hb) as Hf.
  cbv beta in Hf. apply andb_true_iff in Hf as [?%negb_true_iff%Z.eqb_neq ?%Z.eqb_eq]. done.
Qed.

Lemma lxor_80 b : is_byte b ->
  u8 (Z.lxor b 0x80) = Z.lxor b 0x80 /\ is_byte (Z.lxor b 0x80) /\
  u8 (Z.lxor (u8 (Z.lxor b 0x80)) 0x80) = b.
Proof.
  intros Hb.
  pose proof (forall_range (fun b => (u8 (Z.lxor b 0x80) =? Z.lxor b 0x80) && (0 <=? Z.lxor b 0x80) &&
    (Z.lxor b 0x80 <? 256) && (u8 (Z.lxor (u8 (Z.lxor b 0x80)) 0x80) =? b))
    256 b eq_refl Hb) as Hf.
  cbv beta in Hf. rewrite !andb_true_iff in Hf.
  destruct Hf as [[[?%Z.eqb_eq ?%Z.leb_le] ?%Z.ltb_lt] ?%Z.eqb_eq]. by split_and!.
Qed.

Lemma token_flip t1 t2 : is_byte t1 -> is_byte t2 ->
  Z.lor t1 (Z.shiftl (Z.lxor t2 0x80) 8) = Z.lxor (Z.lor t1 (Z.shiftl t2 8)) (2 ^ 15).
Proof.
  intros H1 H2. apply Z.bits_inj'. intros k Hk.
  rewrite Z.lor_spec, Z.lxor_spec, Z.lor_spec, !Z.shiftl_spec, Z.lxor_spec by done.
  change (2 ^ 15) with (Z.shiftl 0x80 8). rewrite Z.shiftl_spec by done.
  destruct (decide (k < 8)).
  - rewrite !(Z.testbit_neg_r _ (k - 8)) by lia. by destruct (Z.testbit t1 k).
  - assert (E : Z.testbit t1 k = false).
    { unfold is_byte in H1. rewrite <- (Z.mod_small t1 (2 ^ 8)) by lia. by rewrite Z.mod_pow2_bits_high by lia. }
    by rewrite E.
Qed.

Lemma set_tok2_twice x a : x <| tok2 := a |> <| tok2 := tok2 x |> = x.
Proof. by destruct x. Qed.
Lemma set_crc1_twice x a : x <| crc1 := a |> <| crc1 := crc1 x |> = x.
Proof. by destruct x. Qed.

Lemma adjust_crc_in x :
  wf_xfer x -> endpoint x = BULK_IN_EP -> token_ok x = true ->
  exists y, Parity.adjust_crc x = Ok y /\ Parity.adjust_crc y = Ok x /\ token_ok y = false.
Proof.
  intros H He Ht. destruct (wf_tok_bytes x H) as [Ht1 Ht2].
  destruct (lxor_80 _ Ht2) as (E1 & Hb & E2).
  exists (x <| tok2 := u8 (Z.lxor (tok2 x) 0x80) |>). unfold Parity.adjust_crc. rewrite He.
  split; [done|]. split.
  - cbn [endpoint tok2 set_field set_tok2]. rewrite He, E2.
    f_equal. apply set_tok2_twice.
  - unfold token_ok. rewrite token_word_tok2, E1, token_flip by done.
    change (Z.lor (tok1 x) (Z.shiftl (tok2 x) 8)) with (token_word x).
    rewrite (crc5_check_syndrome _ _ Ht). vm_compute. reflexivity.
Qed.

Lemma adjust_crc_out x body :
  wf_xfer x -> endpoint x <> BULK_IN_EP -> Forall is_byte body ->
  crc16_check (body ++ [crc1 x; crc2 x]) = true ->
  exists y, Parity.adjust_crc x = Ok y /\ Parity.adjust_crc y = Ok x /\
    crc16_check (body ++ [crc1 y; crc2 y]) = false.
Proof.
  intros H He%Z.eqb_neq Hb Hc. destruct (wf_crc_bytes x H) as [Hc1 Hc2].
  destruct (lxor_ff _ Hc1) as (E1 & E2).
  exists (x <| crc1 := u8 (Z.lxor (crc1 x) 0xFF) |>). unfold Parity.adjust_crc. rewrite He.
  split; [done|]. split.
  - cbn [endpoint crc1 set_field set_crc1]. rewrite He, E2.
    f_equal. apply set_crc1_twice.
  - cbn [crc1 crc2 set_field set_crc1]. apply not_true_iff_false. intros Hy.
    apply crc16_check_pair in Hc as [Hc _]; [|done..].
    apply crc16_check_pair in Hy as [Hy _]; [congruence|done|apply u8_byte|done].
Qed.

Lemma adjust_ept_tok x :
  0 <= endpoint x < 16 ->
  let y := transfer_tok (x <| endpoint := Z.lxor (endpoint x) 0xF |>) in
  Parity.adjust_ept x = Ok y /\ Parity.adjust_ept y = Ok (transfer_tok x).
Proof.
  intros He.
  pose proof (forall_range (fun e => (u8 (Z.lxor e 0xF) =? Z.lxor e 0xF) && (u8 (Z.lxor (Z.lxor e 0xF) 0xF) =? e))
    16 _ eq_refl He) as Hf.
  cbv beta in Hf. apply andb_true_iff in Hf as [E1%Z.eqb_eq E2%Z.eqb_eq]. cbv zeta.
  unfold Parity.adjust_ept. rewrite E1. split; [done|].
  change (endpoint (transfer_tok (x <| endpoint := Z.lxor (endpoint x) 0xF |>))) with (Z.lxor (endpoint x) 0xF).
  rewrite E2. by destruct x.
Qed.

(** The bulk IN request of the parity test, without an adjustment. *)
Definition parity_request (host : usb_host_t) : transfer_t :=
  xfer_start host IN BULK_IN_EP <| rx_len := 0 |> <| rx_ptr := 0 |>.

(** The stage of the test that uses an adjustment. *)
Definition adjust_stage (a : Parity.adjust_t) : Z :=
  match a with Parity.AdjustSeq => 0 | Parity.AdjustCrc => 1 | Parity.AdjustEpt => 2 end.

(** The host with the request [x] queued. *)
Definition parity_host (host : usb_host_t) (x : transfer_t) : usb_host_t :=
  host <| host_op := HostBulkIN |> <| host_xfer := x |>.

Lemma adjust_twice a x y :
  wf_xfer x -> token_ok x = true -> endpoint x = BULK_IN_EP -> Parity.adjust a x = Ok y ->
  exists z, Parity.adjust a y = Ok z /\ (z = x \/ z = transfer_tok x).
Proof.
  intros H Ht He Ha. destruct a; cbn [Parity.adjust] in Ha |- *.
  - destruct (transfer_ack_toggles x H) as (x' & E & _ & _ & _ & _ & _ & E2).
    unfold Parity.adjust_seq in *. rewrite E in Ha. injection Ha as <-. exists x. by split; [|left].
  - destruct (adjust_crc_in x H He Ht) as (y' & E1 & E2 & _). rewrite E1 in Ha. injection Ha as <-.
    exists x. by split; [|left].
  - destruct (adjust_ept_tok x (wf_endpoint x H)) as [E1 E2]. cbv zeta in E2. rewrite E1 in Ha. injection Ha as <-.
    eexists. split; [exact E2|by right].
Qed.

Lemma parity_request_wf host : wf_host host -> wf_xfer (parity_request host).
Proof. intros H. apply wf_set_rx_ptr; [lia|]. apply wf_set_rx_len, xfer_start_wf; [done|]. unfold BULK_IN_EP. lia. Qed.

#[local] Opaque crc5_calc.

(** It does not depend on the token, the type and the endpoint from before. *)
Lemma parity_request_again host h z :
  host_addr h = host_addr host -> host_xfer h = z ->
  z = parity_request host \/ z = transfer_tok (parity_request host) -> parity_request h = parity_request host.
Proof.
  unfold parity_request, xfer_start, xfer_token, transfer_tok. cbv zeta. intros Ha -> Hz. rewrite Ha.
  generalize (crc5_calc (Z.lor (Z.land (u16 (host_addr host)) 0x7F) (u16 (Z.shiftl (Z.land (u16 BULK_IN_EP) 0x0F) 7)))) as t.
  destruct Hz as [-> | ->].
  - generalize (host_xfer host) as x. intros [] t. reflexivity.
  - match goal with |- context [crc5_calc ?v] => generalize (crc5_calc v) as t' end.
    generalize (host_xfer host) as x. intros [] t' t. reflexivity.
Qed.

(** The two requests of a stage: the adjusted one, and then the right one. *)
Lemma parity_pair a a0 p host w :
  wf_host host ->
  exists y, Parity.adjust a (parity_request host) = Ok y /\
    Parity.tc_parity_init host (Parity.MkParity a0 p (adjust_stage a)) w =
      Ok (0, parity_host host y, Parity.MkParity a Parity.BulkIN0 (adjust_stage a), w) /\
    Parity.tc_parity_step (parity_host host y) (Parity.MkParity a Parity.BulkIN0 (adjust_stage a)) w =
      Ok (0, parity_host host (parity_request host), Parity.MkParity a Parity.BulkIN1 (adjust_stage a), w).
Proof.
  intros H. pose proof (parity_request_wf host H) as Hx.
  assert (Ht : token_ok (parity_request host) = true) by exact (proj1 (xfer_start_token host IN BULK_IN_EP)).
  destruct (adjust_ok a _ Hx) as (y & E & _). exists y. split; [exact E|].
  destruct (adjust_twice a _ y Hx Ht eq_refl E) as (z & E2 & Hz). split.
  - assert (Hi : Parity.tc_parity_init host (Parity.MkParity a0 p (adjust_stage a)) w =
      (h ← Parity.host_adjust a (parity_host host (parity_request host));
       Ok (0, h, Parity.MkParity a Parity.BulkIN0 (adjust_stage a), w))).
    { unfold Parity.tc_parity_init, Parity.tc_parity_xfer. change (BULK_IN_EP =? BULK_IN_EP) with true.
      destruct a; cbn [adjust_stage Parity.pa_stage Z.eqb Pos.eqb]; cbv iota zeta; rewrite outcome_bind_ok; reflexivity. }
    rewrite Hi. unfold Parity.host_adjust. change (host_xfer (parity_host host _)) with (parity_request host).
    by rewrite E, !outcome_bind_ok.
  - unfold Parity.tc_parity_step. cbn [Parity.pa_step Parity.pa_adjust Parity.pa_stage]. cbv zeta.
    unfold Parity.host_adjust. change (host_xfer (parity_host host y)) with y. rewrite E2, !outcome_bind_ok.
    unfold Parity.tc_parity_xfer. change (BULK_IN_EP =? BULK_IN_EP) with true. cbv iota zeta. rewrite outcome_bind_ok.
    set (h := parity_host host y <| host_xfer := z |>). fold (parity_request h).
    rewrite (parity_request_again host h z eq_refl eq_refl Hz). reflexivity.
Qed.

(** C34.  The parity test's adjustments corrupt a transfer, and the second call makes
    the request right again.  On a well-formed transfer with valid CRCs: [adjust_seq]
    makes the transfer expect the other one of DATA0 and DATA1, on its endpoint only,
    and applied twice it is the identity; [adjust_crc] breaks the token's CRC5 on
    the IN endpoint and the data's CRC16 on any other, and applied twice it is the
    identity; [adjust_ept] addresses the complementary endpoint, with the token of that
    endpoint, and applied twice it leaves the transfer with the token of its own
    address and endpoint.  In each stage of the test the first IN request is the
    adjusted one, and the next call queues, for the host that the first request left
    alone, exactly the request without an adjustment and with the sequence bits from
    before the stage. *)
Theorem parity_corrupts_and_repairs x body :
  wf_xfer x -> token_ok x = true -> Forall is_byte body ->
  crc16_check (body ++ [crc1 x; crc2 x]) = true ->
  (exists y, Parity.adjust_seq x = Ok y /\ Parity.adjust_seq y = Ok x /\
     check_seq y USBPID_DATA0 = check_seq x USBPID_DATA1 /\ check_seq y USBPID_DATA1 = check_seq x USBPID_DATA0 /\
     check_seq x USBPID_DATA0 = (negb <$> check_seq x USBPID_DATA1) /\
     forall i, i <> Z.to_nat (endpoint x) -> ep_seq y !! i = ep_seq x !! i) /\
  (exists y, Parity.adjust_crc x = Ok y /\ Parity.adjust_crc y = Ok x /\
     (if endpoint x =? BULK_IN_EP then token_ok y else crc16_check (body ++ [crc1 y; crc2 y])) = false) /\
  (exists y, Parity.adjust_ept x = Ok y /\ Parity.adjust_ept y = Ok (transfer_tok x) /\
     token_word y = token_word (transfer_tok (x <| endpoint := 15 - endpoint x |>)) /\
     endpoint y = 15 - endpoint x) /\
  (forall a a0 p host w, wf_host host ->
     exists y, Parity.adjust a (parity_request host) = Ok y /\
       Parity.tc_parity_init host (Parity.MkParity a0 p (adjust_stage a)) w =
         Ok (0, parity_host host y, Parity.MkParity a Parity.BulkIN0 (adjust_stage a), w) /\
       Parity.tc_parity_step (parity_host host y) (Parity.MkParity a Parity.BulkIN0 (adjust_stage a)) w =
         Ok (0, parity_host host (parity_request host), Parity.MkParity a Parity.BulkIN1 (adjust_stage a), w)).
Proof.
  intros H Ht Hbody Hc. pose proof (wf_endpoint x H) as He. split; [|split; [|split]].
  - destruct (transfer_ack_toggles x H) as (y & E1 & _ & E2 & E3 & E4 & E5 & E6). by exists y.
  - destruct (Z.eqb_spec (endpoint x) BULK_IN_EP); [by apply adjust_crc_in|by apply adjust_crc_out].
  - destruct (adjust_ept_tok x He) as [E1 E2]. cbv zeta in *. eexists. split; [exact E1|]. split; [exact E2|].
    pose proof (forall_range (fun e => Z.lxor e 0xF =? 15 - e) 16 _ eq_refl He) as Hf.
    cbv beta in Hf. apply Z.eqb_eq in Hf. by rewrite Hf.
  - intros a a0 p host w. apply parity_pair.
Qed.

(** ** Witnesses *)

Definition world_example : world := MkWorld (fun n => Z.of_nat n) (fun n => 4096) [] [].

Lemma tc_session_completes_witness : exists test',
  tc_session 9 (fun _ h => h) test_getdesc host_example world_example =
    Ok ([0; 0; 0; 0; 0; 0; 0; 0; 0; 1], test').
Proof.
  destruct (tc_session_completes (fun _ h => h) test_getdesc host_example world_example
    (fun _ h H => H) host_example_wf eq_refl (conj I I)) as (n & test' & Hn & H & _).
  exists test'. replace n with 8%nat in H by (cbn in Hn; lia). exact H.
Defined.

Lemma bulkout_queues_valid_packet_witness : exists host' w' packet,
  BulkOut.tc_bulkout_xfer host_example 37 2 world_example = Ok (host', w') /\
  queued_out host_example host' 2 packet.
Proof.
  assert (He : 0 <= 2 < 16) by lia. assert (Hn : 0 <= 37 <= 512) by lia.
  destruct (bulkout_queues_valid_packet host_example 37 2 world_example host_example_wf He Hn)
    as (host' & w' & packet & H1 & _ & _ & H2 & _).
  exists host', w', packet. split; [exact H1|exact H2].
Defined.

Definition ddr3in_example : Ddr3In.ddr3in_state_t := Ddr3In.MkDdr3In 0x02A8F0 Ddr3In.DDR3Cmd 0 5 3 7.
Definition ddr3out_example : Ddr3Out.ddr3out_state_t := Ddr3Out.MkDdr3Out 0x02A8F0 Ddr3Out.DDR3Out 0 4 5 3 7.

Lemma ddr3_commands_decode_witness : exists host' packet,
  Ddr3In.tc_ddr3in_cmd host_example 16 ddr3in_example = Ok host' /\
  queued_out host_example host' 5 packet /\ decode_ddr3 packet = Some (0x80, 15, 0x02A8F0, 7).
Proof.
  assert (He : 0 <= 5 < 16) by lia. assert (Hn : 0 < 16 <= 64) by lia.
  destruct (ddr3_commands_decode host_example ddr3in_example ddr3out_example 16 world_example
    host_example_wf He He eq_refl Hn eq_refl) as [(host' & packet & H1 & H2 & H3) _].
  exists host', packet. split; [exact H1|]. split; [exact H2|exact H3].
Defined.

Definition parity_example : transfer_t :=
  transfer_tok (transfer_zero <| endpoint := 1 |> <| crc1 := 0x40 |> <| crc2 := 0xBF |>).

Lemma parity_example_wf : wf_xfer parity_example.
Proof.
  apply wf_transfer_tok, wf_set_crc; [unfold is_byte; lia..|]. apply wf_set_endpoint; [lia|exact wf_zero].
Qed.

Lemma parity_corrupts_and_repairs_witness : exists y,
  Parity.adjust_crc parity_example = Ok y /\ Parity.adjust_crc y = Ok parity_example /\ token_ok y = false.
Proof.
  assert (Ht : token_ok parity_example = true) by (vm_compute; reflexivity).
  assert (Hb : Forall is_byte [0x00]) by solve_bytes.
  assert (Hc : crc16_check ([0x00] ++ [crc1 parity_example; crc2 parity_example]) = true)
    by (vm_compute; reflexivity).
  destruct (parity_corrupts_and_repairs parity_example [0x00] parity_example_wf Ht Hb Hc)
    as (_ & (y & H1 & H2 & H3) & _).
  exists y. split; [exact H1|]. split; [exact H2|exact H3].
Defined.
