(* ===== verification/Main.v ===== *)
(** The standalone program of src/vpi/usb/main.c: its unit tests and the control
    read that it simulates without a device.

    [world] is what the C library supplies: the stream of [rand()] and the
    addresses that [malloc] returns.  Uninitialised memory is an argument.  The
    [while] loops take fuel: [None] means that it ran out.  Of the output, the
    codes that are printed as [ERROR: %d] are kept. *)

From S2P Require Import Prelude UsbCrc Ulpi Descriptor StdReq UsbHost UsbFunc TestCases.

(** ** The CRC tests *)

(** [for (int i = 0; i < 512; i++) buf[i] = rand();] on a block of [n] bytes. *)
Fixpoint rand_bytes (n : nat) (g : rng) : list Z * rng :=
  match n with
  | O => ([], g)
  | S n =>
      let '(v, g) := rng_next g in
      let '(bytes, g) := rand_bytes n g in
      (u8 v :: bytes, g)
  end.

(** One round: append the CRC to the 56 bytes at [buf] and check it. *)
Definition crc16_round (buf : list Z) : outcome (list Z) :=
  msg ← read_n buf 56;
  let crc := crc16_calc msg in
  buf ← write_at buf 56 (Z.land crc 0x0ff);
  buf ← write_at buf 57 (Z.shiftr crc 8);
  msg ← read_n buf 58;
  c_assert (crc16_check msg);;
  Ok buf.

(** [for (int i = 4; i--;)], with [buf] the rest of the block. *)
Fixpoint crc16_rounds (n : nat) (buf : list Z) : outcome unit :=
  match n with
  | O => Ok tt
  | S n => buf ← crc16_round buf; crc16_rounds n (drop 64 buf)
  end.

Definition check_crc16 (w : world) : outcome world :=
  let '(_, w) := w_malloc_next w in
  let '(buf, g) := rand_bytes 512 (w_rand w) in
  crc16_rounds 4 buf;;
  Ok (w <| w_rand := g |>).

Definition check_crc5 : outcome unit :=
  c_assert (crc5_check (crc5_calc 0x710));;
  c_assert (crc5_check (crc5_calc 0x715));;
  c_assert (crc5_check (crc5_calc 0x53A)).

Definition usb_unit_tests (fuel : nat) (w : world) : option (outcome world) :=
  fuel_bind (Some check_crc5) (fun _ =>
  fuel_bind (Some (check_crc16 w)) (fun w =>
  fuel_bind (test_desc_recv fuel) (fun _ =>
  fuel_bind (test_func_recv fuel) (fun _ =>
  Some (Ok w))))).

(** ** The main loop *)

(** [while (cond(host->op)) { ... }]: step the host, and stop on an error, else
    copy what it drives to the bus.  Returns the codes printed. *)
Fixpoint host_while (fuel : nat) (cond : host_op_t -> bool) (host : usb_host_t)
    (bus upd : ulpi_bus_t) (g : rng)
  : option (outcome (list Z * usb_host_t * ulpi_bus_t * ulpi_bus_t * rng)) :=
  match fuel with
  | O => None
  | S fuel =>
      if cond (host_op host) then
        fuel_bind (Some (usbh_step host bus upd g)) (fun '(result, host, upd, g) =>
        if result <? 0 then Some (Ok ([result], host, bus, upd, g))
        else host_while fuel cond host upd upd g)
      else Some (Ok ([], host, bus, upd, g))
  end.

(** The exit status, the codes printed, and the host before it is freed. *)
Definition main (fuel : nat) (mem : usb_host_t) (bus upd : ulpi_bus_t) (req : usb_stdreq_t) (w : world)
  : option (outcome (Z * list Z * usb_host_t)) :=
  fuel_bind (usb_unit_tests fuel (snd (w_malloc_next w))) (fun w =>
  let bus := ulpi_bus_idle bus in
  let '(buf, w) := w_malloc_next w in
  let host := usbh_init mem buf in
  fuel_bind (host_while fuel (fun op => host_op_eqb op HostReset) host bus upd (w_rand w))
    (fun '(errors1, host, bus, upd, g) =>
  let '(desc, w) := w_malloc_next (w <| w_rand := g |>) in
  fuel_bind (Some (stdreq_get_descriptor host 0x01 desc req)) (fun '(result, host) =>
  if result <? 0 then Some (Ok (1, errors1 ++ [result], host))
  else
    fuel_bind (host_while fuel (fun op => negb (host_op_eqb op HostIdle)) host bus upd (w_rand w))
      (fun '(errors2, host, _, _, _) =>
    Some (Ok (0, errors1 ++ errors2, host)))))).
