(* ===== verification/MainProps.v ===== *)
(** The standalone program: its unit tests pass for every [rand()], and its control
    read stops after the SETUP token. *)

From S2P Require Import Prelude Gf2 UsbCrc Ulpi UlpiRecv Descriptor StdReq StdReqProps.
From S2P Require Import UsbHost UsbHostProps UsbFunc UsbFuncProps TestCases TestCasesProps Main.

#[local] Opaque crc16_calc crc5_calc crc5_check crc16_check.

(** ** The unit tests *)

Lemma rand_bytes_spec n : forall g, length (rand_bytes n g).1 = n /\ Forall is_byte (rand_bytes n g).1.
Proof.
  induction n as [|n IH]; intros g; cbn; [done|].
  specialize (IH (fun i => g (S i))). destruct (rand_bytes n _) as [l g']. cbn in *.
  destruct IH as [<- H]. split; [done|]. apply List.Forall_cons; [apply u8_byte|done].
Qed.

Lemma crc_hi_shift crc : 0 <= crc < 2 ^ 16 -> Z.shiftr crc 8 = crc_hi crc.
Proof.
  intros H. rewrite crc_hi_mod, Z.shiftr_div_pow2 by lia. rewrite Z.mod_small; [done|].
  split; [apply Z.div_pos; lia|apply Z.div_lt_upper_bound; lia].
Qed.

Lemma crc16_round_ok buf :
  Forall is_byte buf -> (58 <= length buf)%nat ->
  exists buf', crc16_round buf = Ok buf' /\ length buf' = length buf /\ Forall is_byte buf'.
Proof.
  intros Hb Hl. pose proof (crc16_calc_bounds (take 56 buf)) as Hc. unfold crc16_round.
  rewrite read_n_take by lia. change (Z.to_nat 56) with 56%nat. rewrite outcome_bind_ok.
  cbv beta zeta. change (Z.land (crc16_calc (take 56 buf)) 0x0ff) with (crc_lo (crc16_calc (take 56 buf))).
  rewrite (crc_hi_shift _ Hc). set (crc := crc16_calc (take 56 buf)) in *.
  rewrite write_at_in by lia. rewrite outcome_bind_ok. cbv beta.
  rewrite write_at_in by (rewrite length_insert; lia). rewrite outcome_bind_ok. cbv beta.
  change (Z.to_nat 56) with 56%nat. change (Z.to_nat 57) with 57%nat.
  set (buf' := <[57%nat := crc_hi crc]> (<[56%nat := crc_lo crc]> buf)).
  assert (Hl' : length buf' = length buf) by (unfold buf'; by rewrite !length_insert).
  rewrite read_n_take by lia. rewrite outcome_bind_ok. cbv beta. change (Z.to_nat 58) with 58%nat.
  assert (E : take 58 buf' = take 56 buf ++ [crc_lo crc; crc_hi crc]).
  { rewrite (take_S_r buf' 57 (crc_hi crc)) by (apply list_lookup_insert_eq; rewrite length_insert; lia).
    rewrite (take_S_r buf' 56 (crc_lo crc)).
    2: { unfold buf'. rewrite list_lookup_insert_ne by done. apply list_lookup_insert_eq. lia. }
    unfold buf'. rewrite !take_insert_ge by lia. by rewrite <- app_assoc. }
  rewrite E. assert (Hk : crc16_check (take 56 buf ++ [crc_lo crc; crc_hi crc]) = true).
  { apply crc16_check_pair; [by apply Forall_take|apply crc_lo_byte|apply crc_hi_byte|done]. }
  rewrite Hk. cbn [c_assert]. rewrite outcome_bind_ok. exists buf'. split; [done|]. split; [done|].
  apply Forall_insert; [apply Forall_insert; [done|apply crc_lo_byte]|apply crc_hi_byte].
Qed.

Lemma crc16_rounds_ok n : forall buf,
  Forall is_byte buf -> (n * 64 <= length buf)%nat -> crc16_rounds n buf = Ok tt.
Proof.
  induction n as [|n IH]; intros buf Hb Hl; [done|]. cbn [crc16_rounds].
  destruct (crc16_round_ok buf Hb ltac:(lia)) as (buf' & E & Hl' & Hb'). rewrite E, outcome_bind_ok.
  apply IH; [by apply Forall_drop|]. rewrite length_drop. lia.
Qed.

Lemma check_crc16_ok w : exists w', check_crc16 w = Ok w'.
Proof.
  unfold check_crc16. destruct (w_malloc_next w) as [p w1].
  pose proof (rand_bytes_spec 512 (w_rand w1)) as [Hl Hb].
  destruct (rand_bytes 512 (w_rand w1)) as [buf g]. cbn [fst] in Hl, Hb.
  rewrite (crc16_rounds_ok 4 buf Hb) by (rewrite Hl; lia). rewrite outcome_bind_ok. by eexists.
Qed.

#[local] Transparent crc16_calc crc5_calc crc5_check crc16_check.
Lemma check_crc5_ok : check_crc5 = Ok tt.
Proof. reflexivity. Qed.

Lemma usb_unit_tests_ok fuel w : (21 <= fuel)%nat -> exists w', usb_unit_tests fuel w = Some (Ok w').
Proof.
  intros Hf. unfold usb_unit_tests. rewrite check_crc5_ok.
  destruct (check_crc16_ok w) as [w' ->]. exists w'. cbn [fuel_bind].
  destruct (proj2 test_desc_recv_succeeds fuel Hf) as (x & -> & _). cbn [fuel_bind].
  destruct (test_func_recv_receives_nothing fuel ltac:(lia)) as (f & -> & _). done.
Qed.

(** ** The loops *)

Lemma usbh_step_out host inp out g : usbh_step host inp out g = usbh_step host inp ulpi_bus_zero g.
Proof. reflexivity. Qed.

Definition in_reset (op : host_op_t) : bool := host_op_eqb op HostReset.
Definition not_idle (op : host_op_t) : bool := negb (host_op_eqb op HostIdle).

(** The host at the end of its reset. *)
Definition after_reset (host : usb_host_t) (n : nat) (bus : ulpi_bus_t) : usb_host_t :=
  host <| host_op := HostIdle |> <| host_step := 0 |>
       <| host_cycle := u64 (host_cycle host + Z.of_nat n) |> <| host_prev := bus |>.

Lemma host_while_S n cond host bus upd g :
  host_while (S n) cond host bus upd g =
  if cond (host_op host) then
    fuel_bind (Some (usbh_step host bus upd g)) (fun '(result, host, upd, g) =>
    if result <? 0 then Some (Ok ([result], host, bus, upd, g)) else host_while n cond host upd upd g)
  else Some (Ok ([], host, bus, upd, g)).
Proof. reflexivity. Qed.

Lemma host_while_reset n : forall k host bus upd g,
  host_op host = HostReset -> guarded host -> out_of_reset bus -> 0 <= host_step host ->
  host_step host + Z.of_nat (S n) = RESET_TICKS ->
  host_while (S n + S k) in_reset host bus upd g = Some (Ok ([], after_reset host (S n) bus, bus, bus, g)).
Proof.
  induction n as [|n IH]; intros k host bus upd g Ho Hg Hr Hs Hn.
  all: rewrite Nat.add_succ_l, host_while_S, Ho; change (in_reset HostReset) with true; cbv iota.
  all: rewrite usbh_step_out, usbh_reset_step by (done || (unfold RESET_TICKS in Hn; lia)).
  all: cbn [fuel_bind]; change (0 <? 0) with false; cbv iota.
  - rewrite (proj2 (Z.leb_le _ _)) by lia. rewrite Nat.add_0_l, host_while_S. reflexivity.
  - rewrite (proj2 (Z.leb_gt _ _)) by lia.
    rewrite IH; [|exact Ho|exact Hg|exact Hr|cbn; lia|cbn; lia].
    do 5 f_equal. unfold after_reset. destruct host. cbn -[u64 Z.of_nat].
    by rewrite u64_step.
Qed.

Lemma host_while_mono k n : forall cond host bus upd g r,
  host_while n cond host bus upd g = Some r -> host_while (n + k) cond host bus upd g = Some r.
Proof.
  induction n as [|n IH]; intros cond host bus upd g r; [done|]. cbn [Nat.add host_while].
  destruct (cond (host_op host)); [|done].
  destruct (usbh_step host bus upd g) as [[[[q h] o] g']| |]; cbn [fuel_bind]; [|done..].
  destruct (q <? 0); [done|apply IH].
Qed.

(** ** The control read *)

(** The bus that [ulpi_bus_idle] leaves, and the host that has been reset. *)
Definition bus_idle : ulpi_bus_t := ulpi_bus_idle ulpi_bus_zero.
Definition host_ready (buf : Z) : usb_host_t := 
  MkHost 6000 HostIdle 0 bus_idle transfer_zero 0 0 0 0 HOST_BUF_LEN buf GUARDIAN.

Lemma ulpi_bus_idle_const bus : ulpi_bus_idle bus = bus_idle.
Proof. by destruct bus as [? ? ? ? ? []]. Qed.

Lemma reset_loop mem bus upd buf g fuel :
  RESET_TICKS < Z.of_nat fuel ->
  host_while fuel in_reset (usbh_init mem buf) (ulpi_bus_idle bus) upd g =
  Some (Ok ([], host_ready buf, bus_idle, bus_idle, g)).
Proof.
  intros Hf. unfold RESET_TICKS in Hf.
  replace fuel with (S (Z.to_nat 5999) + S (fuel - Z.to_nat 6001))%nat by lia.
  rewrite ulpi_bus_idle_const, host_while_reset; [|done|done|done|cbn; lia|done].
  by destruct mem.
Qed.

(** The token of the SETUP transaction is sent in ten steps; the eleventh finds the
    transfer idle in the phase that sends it. *)
Lemma setup_loop buf desc req g :
  match stdreq_get_descriptor (host_ready buf) 0x01 desc req with
  | Ok (result, host) =>
      result = 1 /\
      match host_while 10 not_idle host bus_idle bus_idle g with
      | Some (Ok (errors, host, _, _, _)) =>
          errors = [-1] /\ host_op host = HostSETUP /\ host_step host = 0 /\
          type (host_xfer host) = XferIdle /\ host_cycle host = 6010
      | _ => False
      end
  | _ => False
  end.
Proof. vm_compute. repeat split. Qed.

(** C24.  The standalone program does not complete its control read: for every
    [rand()] and whatever the uninitialised memory holds, its unit tests pass, the
    host leaves reset after 6,000 steps and queues GET DESCRIPTOR; the SETUP token
    is sent, nothing advances [host->step], and the tenth step returns -1.  The
    program prints that one error, with the transaction still in its first phase
    and no data packet sent, and exits with status 0.  Fuel for 6,001 iterations is
    enough for each of its loops. *)
Theorem main_control_read_fails fuel mem bus upd req w :
  RESET_TICKS < Z.of_nat fuel ->
  (exists w', usb_unit_tests fuel w = Some (Ok w')) /\
  exists host, main fuel mem bus upd req w = Some (Ok (0, [-1], host)) /\
    host_op host = HostSETUP /\ host_step host = 0 /\ type (host_xfer host) = XferIdle /\
    host_cycle host = RESET_TICKS + 10.
Proof.
  intros Hf. assert (Hu : (21 <= fuel)%nat) by (unfold RESET_TICKS in Hf; lia).
  split; [by apply usb_unit_tests_ok|]. unfold main.
  destruct (usb_unit_tests_ok fuel (snd (w_malloc_next w)) Hu) as [w1 ->]. cbn [fuel_bind].
  destruct (w_malloc_next w1) as [buf w2]. cbv zeta. rewrite (reset_loop _ _ _ _ _ _ Hf). cbn [fuel_bind].
  destruct (w_malloc_next _) as [desc w3].
  pose proof (setup_loop buf desc req (w_rand w3)) as H.
  destruct (stdreq_get_descriptor (host_ready buf) 0x01 desc req) as [[r h]| |]; [|done..].
  destruct H as [-> H]. cbn [fuel_bind]. change (1 <? 0) with false. cbv iota.
  destruct (host_while 10 not_idle h bus_idle bus_idle (w_rand w3)) as [[[[[[e h'] b1] b2] g']| |]|] eqn:E; [|done..].
  destruct H as (-> & H). replace fuel with (10 + (fuel - 10))%nat by lia.
  rewrite (host_while_mono _ _ _ _ _ _ _ _ E). cbn [fuel_bind]. exists h'. split; [done|]. exact H.
Qed.

(** ** Witness *)

Lemma main_control_read_fails_witness : exists host,
  main (Z.to_nat 6001) host_example ulpi_bus_zero bus_quiet (MkStdReq 0 0 0 0 0 0) (MkWorld rng_example rng_example [] []) =
    Some (Ok (0, [-1], host)) /\ host_step host = 0.
Proof.
  destruct (main_control_read_fails (Z.to_nat 6001) host_example ulpi_bus_zero bus_quiet
    (MkStdReq 0 0 0 0 0 0) (MkWorld rng_example rng_example [] []) eq_refl) as (_ & host & H1 & _ & H2 & _).
  exists host. split; [exact H1|exact H2].
Defined.
