(* ===== verification/Vpi.v ===== *)
(** What the three simulator tasks share: the parsing of a task's arguments and the
    scale of the simulation time (src/vpi/ulpisim.c, src/vpi/packet_tb.c,
    src/vpi/monitor.c).

    The VPI routines belong to the simulator.  [Vpi] is the part of their interface
    that the parsing uses, and a parameter of everything here: handles, [None] being
    NULL, and iterators, whose state after a [vpi_scan] is a new value.  [VpiLaws]
    are the facts of IEEE 1364 that theorems rely on. *)

From S2P Require Import Prelude.

Class Vpi : Type := {
  handle : Type;
  iterator : Type;
  vpi_scan : iterator -> option handle * iterator;
  vpi_type : option handle -> Z; (* vpi_get(vpiType, h) *)
  vpi_size : option handle -> Z; (* vpi_get(vpiSize, h) *)
  vpiNet : Z;
  vpiReg : Z
}.

Class VpiLaws `{Vpi} : Prop := {
  net_not_reg : vpiNet <> vpiReg;
  null_not_net : vpi_type None <> vpiNet;
  null_not_reg : vpi_type None <> vpiReg
}.

(** What a set-up routine does to the simulator. *)
Inductive vpi_event `{Vpi} : Type :=
| VpiFree (it : iterator) (* vpi_free_object(it) *)
| VpiFinish (code : Z) (* vpi_control(vpiFinish, code) *)
| VpiUserdata. (* vpi_put_userdata(systf_handle, state) *)

(** The time precision is [10 ^ precision] seconds: [scale = -9 - precision], and
    [while (scale-- > 0) t_recip *= 10;]. *)
Definition time_recip (precision : Z) : Z :=
  Nat.iter (Z.to_nat (-9 - precision)) (fun t_recip => u64 (t_recip * 10)) 1.

(** [tick_ns = ((uint64_t)high << 32 | (uint64_t)low) / t_recip] *)
Definition sim_tick (high low t_recip : Z) : outcome Z :=
  if t_recip =? 0 then Undef else Ok (Z.lor (u64 (Z.shiftl high 32)) low / t_recip).

Section Arguments.
Context `{Vpi}.

Definition is_signal (arg : option handle) : bool :=
  (vpi_type arg =? vpiNet) || (vpi_type arg =? vpiReg).

(** [ut_error] and [pt_error]. *)
Definition vpi_error : list vpi_event := [VpiFinish 1].

(** [get_signal], with the handle it stores; [pt_get_signal] is the same routine. *)
Definition get_signal (it : iterator) : option (option handle) * iterator * list vpi_event :=
  let '(arg, it) := vpi_scan it in
  if negb (is_signal arg) then (None, it, [VpiFree it] ++ vpi_error)
  else (Some arg, it, []).

(** [if (!get_signal(&s1, it) || ... || !get_signal(&sn, it)) return 0;] *)
Fixpoint get_signals (n : nat) (it : iterator)
  : option (list (option handle)) * iterator * list vpi_event :=
  match n with
  | O => (Some [], it, [])
  | S n =>
      match get_signal it with
      | (None, it, ev) => (None, it, ev)
      | (Some arg, it, ev) =>
          match get_signals n it with
          | (None, it, ev') => (None, it, ev ++ ev')
          | (Some args, it, ev') => (Some (arg :: args), it, ev ++ ev')
          end
      end
  end.

(** [n] signals and no more arguments.  [systf] tells that the handle of the task is
    not NULL, [args] is what [vpi_iterate] returns. *)
Definition parse_args (n : nat) (systf : bool) (args : option iterator)
  : option (list (option handle)) * list vpi_event :=
  if negb systf then (None, vpi_error)
  else
    match args with
    | None => (None, vpi_error)
    | Some it =>
        match get_signals n it with
        | (None, _, ev) => (None, ev)
        | (Some hs, it, ev) =>
            let '(arg, it) := vpi_scan it in
            match arg with
            | Some _ => (None, ev ++ [VpiFree it] ++ vpi_error)
            | None => (Some hs, ev)
            end
        end
    end.

(** A check of the signal that is argument [i]. *)
Definition arg_at (hs : list (option handle)) (i : nat) : option handle := nth i hs None.
Definition arg_is (hs : list (option handle)) (i : nat) (type size : Z) : bool :=
  (vpi_type (arg_at hs i) =? type) && (vpi_size (arg_at hs i) =? size).

End Arguments.
