(* ===== verification/UlpiSim.v ===== *)
(** The simulator of src/vpi/ulpisim.h and src/vpi/ulpisim.c: the state of the
    [$ulpi_step] task, the stimulus and test schedulers, the step that runs on
    every clock edge, and the callbacks that sample the bus and drive it.

    The VPI routines of the simulator are not under src/: the values they sample
    are arguments, and what the code drives is a result.  [vpi_control(vpiFinish,
    code)] is recorded in [ut_finish].  Messages are not modelled.  The [int]
    counters of the scheduler stay below a few hundred; they are integers. *)

From S2P Require Import Prelude UsbCrc Ulpi UlpiSafe UlpiPhy StdReq UsbHost TestCases.
From S2P Require Import Vpi.

Definition NUM_TESTCASES : Z := 64.

Inductive ut_step_t : Type := UT_PowerOn | UT_StartUp | UT_Idle | UT_Test | UT_Done.

(** [ut_state_t], without the handles of the signals. *)
Record ut_state_t : Type := MkUt {
  ut_tick_ns : Z;
  ut_t_recip : Z;
  ut_cycle : Z;
  ut_bus : ulpi_bus_t;
  ut_phy : ulpi_phy_t;
  ut_host : usb_host_t;
  ut_sync_flag : Z;
  ut_test_num : Z;
  ut_test_curr : Z;
  ut_test_step : Z;
  ut_tests : list testcase_t;
  ut_op : ut_step_t;
  ut_world : world
}.

#[export] Instance set_ut_tick_ns : Setter ut_tick_ns := fun v s =>
  MkUt v (ut_t_recip s) (ut_cycle s) (ut_bus s) (ut_phy s) (ut_host s) (ut_sync_flag s)
    (ut_test_num s) (ut_test_curr s) (ut_test_step s) (ut_tests s) (ut_op s) (ut_world s).
#[export] Instance set_ut_t_recip : Setter ut_t_recip := fun v s =>
  MkUt (ut_tick_ns s) v (ut_cycle s) (ut_bus s) (ut_phy s) (ut_host s) (ut_sync_flag s)
    (ut_test_num s) (ut_test_curr s) (ut_test_step s) (ut_tests s) (ut_op s) (ut_world s).
#[export] Instance set_ut_cycle : Setter ut_cycle := fun v s =>
  MkUt (ut_tick_ns s) (ut_t_recip s) v (ut_bus s) (ut_phy s) (ut_host s) (ut_sync_flag s)
    (ut_test_num s) (ut_test_curr s) (ut_test_step s) (ut_tests s) (ut_op s) (ut_world s).
#[export] Instance set_ut_bus : Setter ut_bus := fun v s =>
  MkUt (ut_tick_ns s) (ut_t_recip s) (ut_cycle s) v (ut_phy s) (ut_host s) (ut_sync_flag s)
    (ut_test_num s) (ut_test_curr s) (ut_test_step s) (ut_tests s) (ut_op s) (ut_world s).
#[export] Instance set_ut_phy : Setter ut_phy := fun v s =>
  MkUt (ut_tick_ns s) (ut_t_recip s) (ut_cycle s) (ut_bus s) v (ut_host s) (ut_sync_flag s)
    (ut_test_num s) (ut_test_curr s) (ut_test_step s) (ut_tests s) (ut_op s) (ut_world s).
#[export] Instance set_ut_host : Setter ut_host := fun v s =>
  MkUt (ut_tick_ns s) (ut_t_recip s) (ut_cycle s) (ut_bus s) (ut_phy s) v (ut_sync_flag s)
    (ut_test_num s) (ut_test_curr s) (ut_test_step s) (ut_tests s) (ut_op s) (ut_world s).
#[export] Instance set_ut_sync_flag : Setter ut_sync_flag := fun v s =>
  MkUt (ut_tick_ns s) (ut_t_recip s) (ut_cycle s) (ut_bus s) (ut_phy s) (ut_host s) v
    (ut_test_num s) (ut_test_curr s) (ut_test_step s) (ut_tests s) (ut_op s) (ut_world s).
#[export] Instance set_ut_test_curr : Setter ut_test_curr := fun v s =>
  MkUt (ut_tick_ns s) (ut_t_recip s) (ut_cycle s) (ut_bus s) (ut_phy s) (ut_host s) (ut_sync_flag s)
    (ut_test_num s) v (ut_test_step s) (ut_tests s) (ut_op s) (ut_world s).
#[export] Instance set_ut_test_step : Setter ut_test_step := fun v s =>
  MkUt (ut_tick_ns s) (ut_t_recip s) (ut_cycle s) (ut_bus s) (ut_phy s) (ut_host s) (ut_sync_flag s)
    (ut_test_num s) (ut_test_curr s) v (ut_tests s) (ut_op s) (ut_world s).
#[export] Instance set_ut_tests : Setter ut_tests := fun v s =>
  MkUt (ut_tick_ns s) (ut_t_recip s) (ut_cycle s) (ut_bus s) (ut_phy s) (ut_host s) (ut_sync_flag s)
    (ut_test_num s) (ut_test_curr s) (ut_test_step s) v (ut_op s) (ut_world s).
#[export] Instance set_ut_op : Setter ut_op := fun v s =>
  MkUt (ut_tick_ns s) (ut_t_recip s) (ut_cycle s) (ut_bus s) (ut_phy s) (ut_host s) (ut_sync_flag s)
    (ut_test_num s) (ut_test_curr s) (ut_test_step s) (ut_tests s) v (ut_world s).
#[export] Instance set_ut_world : Setter ut_world := fun v s =>
  MkUt (ut_tick_ns s) (ut_t_recip s) (ut_cycle s) (ut_bus s) (ut_phy s) (ut_host s) (ut_sync_flag s)
    (ut_test_num s) (ut_test_curr s) (ut_test_step s) (ut_tests s) (ut_op s) v.
(** The codes of the calls that end the simulation, in the tests, too. *)
Definition ut_finish (s : ut_state_t) : list Z := w_finish (ut_world s).

(** ** Errors *)

(** [vpi_control(vpiFinish, code)] *)
Definition vpi_finish (code : Z) (state : ut_state_t) : ut_state_t :=
  state <| ut_world := w_stop code (ut_world state) |>.

(** Both report the error and end the simulation. *)
Definition ut_error (state : ut_state_t) : Z * ut_state_t := (0, vpi_finish 1 state).
Definition ut_failed (state : ut_state_t) : Z * ut_state_t :=
  let '(_, state) := ut_error state in (-1, state).

(** ** Stimulus *)

(** [stim_step]: the last component tells that [ut_error] was called. *)
Definition stim_step (phy : ulpi_phy_t) (host : usb_host_t) (curr next : ulpi_bus_t) (g : rng)
  : outcome (Z * ulpi_phy_t * usb_host_t * ulpi_bus_t * rng * bool) :=
  if (st_speed phy <? HighSpeed) || negb (is_PhyIdle (st_op phy)) then
    '(result, phy, next) ← uphy_step phy curr next;
    let host := host <| host_cycle := u64 (host_cycle host + 1) |> in
    if result <? 0 then Ok (0, phy, host, next, g, true)
    else if 0 <? result then Ok (result, phy, host <| host_op := HostIdle |>, next, g, false)
    else Ok (result, phy, host, next, g, false)
  else
    '(result, host, next, g) ← usbh_step host curr next g;
    Ok (result, phy, host, next, g, false).

(** [test_step]: one call of the current test's [init] or [step]. *)
Definition test_step (state : ut_state_t) : outcome (Z * ut_state_t) :=
  if ut_test_curr state <? ut_test_num state then
    test ← read_at (ut_tests state) (ut_test_curr state);
    let call := if ut_test_step state =? 0 then tc_init else tc_step in
    let state := state <| ut_test_step := ut_test_step state + 1 |> in
    '(result, host, test, w) ← call test (ut_host state) (ut_world state);
    tests ← write_at (ut_tests state) (ut_test_curr state) test;
    let state := state <| ut_host := host |> <| ut_tests := tests |> <| ut_world := w |> in
    if result <? 0 then Ok (ut_failed state)
    else if 0 <? result then
      Ok (result, state <| ut_test_step := 0 |> <| ut_test_curr := ut_test_curr state + 1 |>)
    else Ok (0, state)
  else Ok (2, state).

(** ** The step of every clock edge *)

(** A step of the host, on the simulator's state. *)
Definition ut_usbh_step (state : ut_state_t) (curr next : ulpi_bus_t)
  : outcome (Z * ut_state_t * ulpi_bus_t) :=
  '(result, host, next, g) ← usbh_step (ut_host state) curr next (w_rand (ut_world state));
  Ok (result, state <| ut_host := host |> <| ut_world := ut_world state <| w_rand := g |> |>, next).

Definition ut_host_cycle (state : ut_state_t) : ut_state_t :=
  state <| ut_host := ut_host state <| host_cycle := u64 (host_cycle (ut_host state) + 1) |> |>.

Definition ut_result : Type := outcome (Z * ut_state_t * ulpi_bus_t).

Definition ut_fail_with (state : ut_state_t) (next : ulpi_bus_t) : ut_result :=
  let '(result, state) := ut_failed state in Ok (result, state, next).

Definition ut_step (state : ut_state_t) : ut_result :=
  let state := state <| ut_cycle := u64 (ut_cycle state + 1) |> in
  let curr := ut_bus state in
  let next := curr in (* memcpy *)
  match ut_op state with
  | UT_PowerOn => Ok (0, ut_host_cycle state <| ut_op := UT_StartUp |>, next)
  | UT_StartUp =>
      '(result, phy, host, next, g, error) ←
        stim_step (ut_phy state) (ut_host state) curr next (w_rand (ut_world state));
      let state := state <| ut_phy := phy |> <| ut_host := host |>
                         <| ut_world := ut_world state <| w_rand := g |> |> in
      let state := if (error : bool) then snd (ut_error state) else state in
      if result <? 0 then ut_fail_with state next
      else if 0 <? result then Ok (0, state <| ut_op := UT_Idle |>, next)
      else Ok (0, state, next)
  | UT_Idle =>
      if negb (ulpi_bus_is_idle curr) then
        '(result, state, next) ← ut_usbh_step state curr next;
        if result <? 0 then ut_fail_with state next else Ok (0, state, next)
      else
        '(result, state) ← test_step (ut_host_cycle state);
        if result <? 0 then ut_fail_with state next
        else if 0 <? result then
          Ok (0, (if 1 <? result then state <| ut_op := UT_Done |> else state), next)
        else Ok (0, state <| ut_op := UT_Test |>, next)
  | UT_Test =>
      '(result, state, next) ← ut_usbh_step state curr next;
      if result <? 0 then ut_fail_with state next
      else if 0 <? result then Ok (0, state <| ut_op := UT_Idle |>, next)
      else Ok (0, state, next)
  | UT_Done => Ok (1, state, next)
  end.

(** ** Callbacks *)

(** What [vpi_put_value] writes to the three output signals, where it is
    called. *)
Record ut_drive : Type := MkDrive {
  drive_dir : option Z;
  drive_nxt : option Z;
  drive_data : option byte_t
}.

Definition ut_update_bus_state (state : ut_state_t) (next : ulpi_bus_t) : ut_state_t * ut_drive :=
  let curr := ut_bus state in
  (state <| ut_phy := ut_phy state <| phy_bus := next |> |>,
   MkDrive (if negb (dir curr =? dir next) then Some (dir next) else None)
           (if negb (nxt curr =? nxt next) then Some (nxt next) else None)
           (if negb (data_a curr =? data_a next) || negb (data_b curr =? data_b next)
            then Some (data next) else None)).

(** No caller in the program. *)
Definition ut_set_phy_idle (state : ut_state_t) : ut_drive := MkDrive (Some SIG0) (Some SIG0) None.
Definition ut_step_xfer (state : ut_state_t) : Z * ut_state_t := (0, state).

(** [cb_step_sync], with a state: the result of [ut_step] is only reported. *)
Definition cb_step_sync (state : ut_state_t) : outcome (ut_state_t * ut_drive) :=
  match ut_op state with
  | UT_Done =>
      Ok (vpi_finish 0 (state <| ut_cycle := u64 (ut_cycle state + 1) |>), MkDrive None None None)
  | _ =>
      '(_, state, next) ← ut_step state;
      let '(state, drive) := ut_update_bus_state state next in
      Ok (state <| ut_sync_flag := 0 |>, drive)
  end.

(** [ut_fetch_bus], with the values that the simulator reads from the signals. *)
Definition ut_fetch_bus (state : ut_state_t) (sampled : ulpi_bus_t) : ut_state_t :=
  state <| ut_bus := MkBus (u8 (clock sampled)) (u8 (rst_n sampled)) (u8 (dir sampled))
                           (u8 (stp sampled)) (u8 (nxt sampled))
                           (MkByte (u8 (data_a sampled)) (u8 (data_b sampled))) |>.

(** [cb_step_clock]: on a rising edge at time [high:low] it samples the bus and
    registers [cb_step_sync]. *)
Definition cb_step_clock (state : ut_state_t) (x high low : Z) (sampled : ulpi_bus_t)
  : outcome ut_state_t :=
  if negb (x =? 1) then Ok state
  else
    tick_ns ← sim_tick high low (ut_t_recip state);
    Ok (ut_fetch_bus (state <| ut_tick_ns := tick_ns |>) sampled <| ut_sync_flag := 1 |>).

(** ** Start-up *)

(** The tests that [ut_compiletf] schedules; [test_setaddr] and [test_setconf]
    accept their arguments. *)
Definition setaddr_case (addr : Z) : list testcase_t :=
  match SetAddr.test_setaddr addr with Some st => [TestSetAddr st] | None => [] end.
Definition setconf_case (conf : Z) : list testcase_t :=
  match SetConf.test_setconf conf with Some st => [TestSetConf st] | None => [] end.

Definition ut_schedule (w : world) : list testcase_t * world :=
  let '(ddr3in, w) := test_ddr3in 0x02A8F0 w in
  ([test_getdesc] ++ setaddr_case 0x23 ++ [test_getconf] ++ setconf_case 0x01 ++
   [test_getstrs; test_waitsof;
    test_bulkout; test_ddr3out 0x02A8F0; test_waitsof;
    ddr3in; test_bulkout; test_bulkin 1; test_waitsof;
    test_getconf; test_parity; test_waitsof], w).

(** The memory that [memset] clears. *)
Definition phy_zero : ulpi_phy_t :=
  MkPhy (MkPhyState 0 PowerOn 0 (replicate 10 0) 0 0 0) ulpi_bus_zero transfer_zero.
Definition host_zero : usb_host_t :=
  MkHost 0 HostReset 0 ulpi_bus_zero transfer_zero 0 0 0 0 0 0 0.

(** The state that [ut_compiletf] sets up: the [malloc] of [usbh_init] comes before
    the tests are created. *)
Definition ut_setup (w : world) : ut_state_t :=
  let '(buf, w) := w_malloc_next w in
  let '(tests, w) := ut_schedule w in
  MkUt 0 0 0 ulpi_bus_zero phy_zero (usbh_init host_zero buf) 0 (Z.of_nat (length tests)) 0 0 tests
    UT_PowerOn w.

(** [ut_compiletf]: the user data that it leaves, if any; the arguments of the task
    are clock, rst_n, dir, nxt, stp, dati and dato. *)
Definition ut_compiletf `{Vpi} (systf : bool) (args : option iterator) (w : world)
  : option ut_state_t * list vpi_event :=
  match parse_args 7 systf args with
  | (None, ev) => (None, ev)
  | (Some hs, ev) =>
      if negb (arg_is hs 2 vpiReg 1) then (None, ev ++ vpi_error)
      else if negb (arg_is hs 3 vpiReg 1) then (None, ev ++ vpi_error)
      else if negb (arg_is hs 5 vpiNet 8) then (None, ev ++ vpi_error)
      else if negb (arg_is hs 6 vpiReg 8) then (None, ev ++ vpi_error)
      else (Some (ut_setup w), ev ++ [VpiUserdata])
  end.

(** [ut_calltf], for a time precision of [10 ^ precision] seconds. *)
Definition ut_calltf `{Vpi} (precision : Z) (data : option ut_state_t)
  : option ut_state_t * list vpi_event :=
  match data with
  | None => (None, vpi_error)
  | Some state => (Some (state <| ut_t_recip := time_recip precision |>), [])
  end.
