(* ===== verification/UlpiSimProps.v ===== *)
(** The simulator: memory safety of every clock edge, the schedule of the test
    cases runs to its end, and the phases of a run. *)

From S2P Require Import Prelude Ulpi UlpiSafe UlpiPhy UlpiPhyProps StdReq StdReqProps UsbHost.
From S2P Require Import UsbHostProps TestCases TestCasesProps UlpiSim.

#[local] Opaque tc_init tc_step usbh_step uphy_step.

(** ** The schedule *)

(** The tests that are not finished, the current one first. *)
Definition todo (s : ut_state_t) : list testcase_t := drop (Z.to_nat (ut_test_curr s)) (ut_tests s).

Record wf_sched (s : ut_state_t) : Prop := {
  sched_num : ut_test_num s = Z.of_nat (length (ut_tests s));
  sched_curr : 0 <= ut_test_curr s <= ut_test_num s;
  sched_step : 0 <= ut_test_step s;
  sched_todo : match todo s with
    | [] => True
    | t :: later =>
        (if ut_test_step s =? 0 then startable t else test_ok t /\ 0 < steps_left t) /\
        Forall startable later
    end;
}.

Lemma wf_sched_ext s s' :
  ut_test_num s' = ut_test_num s -> ut_test_curr s' = ut_test_curr s ->
  ut_test_step s' = ut_test_step s -> ut_tests s' = ut_tests s -> wf_sched s -> wf_sched s'.
Proof.
  intros E1 E2 E3 E4 [H1 H2 H3 H4]. split; unfold todo in *; by rewrite ?E1, ?E2, ?E3, ?E4.
Qed.

(** The calls of [test_step] that are left. *)
Definition calls (ts : list testcase_t) : Z := fold_right (fun t n => 1 + total_steps t + n) 0 ts.
Definition calls_left (s : ut_state_t) : Z :=
  match todo s with
  | [] => 0
  | t :: later => (if ut_test_step s =? 0 then 1 + total_steps t else steps_left t) + calls later
  end.

Lemma total_steps_pos t : startable t -> 0 < total_steps t.
Proof.
  intros [Hok Hst]. destruct t; cbn in *; unfold Ddr3Out.NUM_ITER, Ddr3In.NUM_ITER in *; lia || done.
Qed.

Lemma drop_insert_same {A} (l : list A) i x :
  (i < length l)%nat -> drop i (<[i:=x]> l) = x :: drop (S i) l.
Proof.
  intros H. rewrite (drop_S _ x) by (by rewrite list_lookup_insert_eq).
  by rewrite drop_insert_lt by lia.
Qed.

Lemma todo_lookup s t later :
  wf_sched s -> todo s = t :: later ->
  ut_test_curr s < ut_test_num s /\ ut_tests s !! Z.to_nat (ut_test_curr s) = Some t /\
  drop (S (Z.to_nat (ut_test_curr s))) (ut_tests s) = later.
Proof.
  intros [Hn Hc _ _] Ht. unfold todo in Ht.
  assert (Hl : (Z.to_nat (ut_test_curr s) < length (ut_tests s))%nat).
  { apply (f_equal length) in Ht. rewrite length_drop in Ht. cbn in Ht. lia. }
  split; [lia|]. destruct (lookup_lt_is_Some_2 _ _ Hl) as [t' Hl'].
  rewrite (drop_S _ _ _ Hl') in Ht. by simplify_eq.
Qed.

(** One call of the current test. *)
Definition test_call (s : ut_state_t) : testcase_t -> usb_host_t -> world -> tc_result testcase_t :=
  if ut_test_step s =? 0 then tc_init else tc_step.

(** What a call leaves: the current test with [n] steps, or the failed start. *)
Definition call_post (s : ut_state_t) (n r : Z) (h : usb_host_t) (t : testcase_t) : Prop :=
  (ut_test_step s = 0 /\ refused (ut_host s) r h t) \/
  left_with (ut_host s) n r h t.

Lemma test_call_ok s t later :
  wf_sched s -> wf_host (ut_host s) -> todo s = t :: later ->
  call_ok (call_post s (calls_left s - 1 - calls later)) (test_call s t (ut_host s) (ut_world s)).
Proof.
  intros [_ _ Hs Hw] H Ht. unfold calls_left, test_call. rewrite Ht in *. destruct Hw as [Hw _].
  destruct (Z.eqb_spec (ut_test_step s) 0) as [Hz|Hz].
  - eapply call_ok_mono; [by apply tc_init_any|]. intros r h t' [Hr|Hl]; [by left|right].
    by replace (1 + total_steps t + calls later - 1 - calls later) with (total_steps t) by lia.
  - destruct Hw as [Hok Hp]. eapply call_ok_mono; [by apply tc_step_ok|]. intros r h t' Hl. right.
    by replace (steps_left t + calls later - 1 - calls later) with (steps_left t - 1) by lia.
Qed.

Lemma test_call_running s t later :
  wf_sched s -> wf_host (ut_host s) -> todo s = t :: later ->
  running (ut_world s) (test_call s t (ut_host s) (ut_world s)).
Proof.
  intros [_ _ Hs Hw] H Ht. unfold test_call. rewrite Ht in Hw. destruct Hw as [Hw _].
  destruct (Z.eqb_spec (ut_test_step s) 0) as [Hz|Hz]; [apply init_running|].
  destruct Hw as [Hok _]. by apply step_running.
Qed.

(** The state after a call that returned [0], and after one that finished the
    test. *)
Definition after_call (s : ut_state_t) (h : usb_host_t) (t : testcase_t) (w : world) : ut_state_t :=
  s <| ut_test_step := ut_test_step s + 1 |> <| ut_host := h |>
    <| ut_tests := <[Z.to_nat (ut_test_curr s) := t]> (ut_tests s) |> <| ut_world := w |>.
Definition after_test (s : ut_state_t) (h : usb_host_t) (t : testcase_t) (w : world) : ut_state_t :=
  after_call s h t w <| ut_test_step := 0 |> <| ut_test_curr := ut_test_curr s + 1 |>.

(** The current test of the schedule. *)
Record current (s : ut_state_t) (t : testcase_t) : Prop := {
  current_range : 0 <= ut_test_curr s < ut_test_num s;
  current_test : ut_tests s !! Z.to_nat (ut_test_curr s) = Some t;
}.

Lemma test_step_current s t :
  current s t ->
  test_step s =
    '(r, h, t', w) ← test_call s t (ut_host s) (ut_world s);
    if r <? 0 then Ok (ut_failed (after_call s h t' w))
    else if 0 <? r then Ok (r, after_test s h t' w) else Ok (0, after_call s h t' w).
Proof.
  intros [Hc Hl]. pose proof (lookup_lt_Some _ _ _ Hl) as Hlt.
  unfold test_step. rewrite (proj2 (Z.ltb_lt _ _)) by apply Hc.
  unfold read_at. rewrite (proj2 (Z.leb_le 0 _)), Hl, outcome_bind_ok by lia. cbv beta zeta.
  unfold test_call. set (call := if ut_test_step s =? 0 then tc_init else tc_step).
  change (ut_host (s <| ut_test_step := ut_test_step s + 1 |>)) with (ut_host s).
  change (ut_world (s <| ut_test_step := ut_test_step s + 1 |>)) with (ut_world s).
  destruct (call t (ut_host s) (ut_world s)) as [[[[r h] t'] w]| |]; [|done..].
  rewrite !outcome_bind_ok; cbv beta iota.
  change (ut_tests (s <| ut_test_step := ut_test_step s + 1 |>)) with (ut_tests s).
  change (ut_test_curr (s <| ut_test_step := ut_test_step s + 1 |>)) with (ut_test_curr s).
  rewrite write_at_in by lia. rewrite outcome_bind_ok; cbv beta zeta.
  by destruct (r <? 0), (0 <? r).
Qed.

Lemma test_step_call s t later :
  wf_sched s -> todo s = t :: later ->
  test_step s =
    '(r, h, t', w) ← test_call s t (ut_host s) (ut_world s);
    if r <? 0 then Ok (ut_failed (after_call s h t' w))
    else if 0 <? r then Ok (r, after_test s h t' w) else Ok (0, after_call s h t' w).
Proof.
  intros Hw Ht. destruct (todo_lookup s t later Hw Ht) as (Hlt & Hl & _). destruct Hw as [Hn Hc _ _].
  apply test_step_current. by split; [lia|].
Qed.

Lemma todo_after_call s h t w t0 later :
  wf_sched s -> todo s = t0 :: later -> todo (after_call s h t w) = t :: later.
Proof.
  intros Hw Ht. destruct (todo_lookup s t0 later Hw Ht) as (Hlt & Hl & Hd).
  apply lookup_lt_Some in Hl. unfold todo.
  change (ut_tests (after_call s h t w)) with (<[Z.to_nat (ut_test_curr s) := t]> (ut_tests s)).
  change (ut_test_curr (after_call s h t w)) with (ut_test_curr s).
  by rewrite drop_insert_same, Hd.
Qed.

Lemma todo_after_test s h t w t0 later :
  wf_sched s -> todo s = t0 :: later -> todo (after_test s h t w) = later.
Proof.
  intros Hw Ht. destruct (todo_lookup s t0 later Hw Ht) as (Hlt & Hl & Hd).
  destruct Hw as [_ Hc _ _]. unfold todo.
  change (ut_tests (after_test s h t w)) with (<[Z.to_nat (ut_test_curr s) := t]> (ut_tests s)).
  change (ut_test_curr (after_test s h t w)) with (ut_test_curr s + 1).
  replace (Z.to_nat (ut_test_curr s + 1)) with (S (Z.to_nat (ut_test_curr s))) by lia.
  by rewrite drop_insert_lt, Hd by lia.
Qed.

Lemma after_call_sched s h t w t0 later :
  wf_sched s -> todo s = t0 :: later -> test_ok t -> 0 < steps_left t ->
  wf_sched (after_call s h t w) /\ calls_left (after_call s h t w) = steps_left t + calls later.
Proof.
  intros Hw Ht Hok Hp. pose proof (todo_after_call s h t w t0 later Hw Ht) as Htodo.
  assert (E : (ut_test_step (after_call s h t w) =? 0) = false).
  { change (ut_test_step (after_call s h t w)) with (ut_test_step s + 1). destruct Hw. lia. }
  split.
  - destruct Hw as [Hn Hc Hs Hl]. rewrite Ht in Hl. destruct Hl as [_ Hl]. split.
    + change (ut_test_num s = Z.of_nat (length (<[Z.to_nat (ut_test_curr s) := t]> (ut_tests s)))).
      by rewrite length_insert.
    + exact Hc.
    + change (0 <= ut_test_step s + 1). lia.
    + rewrite Htodo, E. done.
  - unfold calls_left. by rewrite Htodo, E.
Qed.

Lemma after_test_sched s h t w t0 later :
  wf_sched s -> todo s = t0 :: later ->
  wf_sched (after_test s h t w) /\ calls_left (after_test s h t w) = calls later.
Proof.
  intros Hw Ht. pose proof (todo_after_test s h t w t0 later Hw Ht) as Htodo.
  destruct (todo_lookup s t0 later Hw Ht) as (Hlt & _ & _). split.
  - destruct Hw as [Hn Hc Hs Hl]. rewrite Ht in Hl. destruct Hl as [_ Hl]. split.
    + change (ut_test_num s = Z.of_nat (length (<[Z.to_nat (ut_test_curr s) := t]> (ut_tests s)))).
      by rewrite length_insert.
    + change (0 <= ut_test_curr s + 1 <= ut_test_num s). lia.
    + done.
    + rewrite Htodo. change (ut_test_step (after_test s h t w) =? 0) with true. cbv iota.
      by destruct Hl.
  - unfold calls_left. rewrite Htodo. change (ut_test_step (after_test s h t w) =? 0) with true. cbv iota.
    by destruct later.
Qed.

(** What [test_step] leaves unchanged. *)
Definition same_frame (s s' : ut_state_t) : Prop :=
  ut_phy s' = ut_phy s /\ ut_bus s' = ut_bus s /\ ut_op s' = ut_op s /\ ut_cycle s' = ut_cycle s /\
  ut_test_num s' = ut_test_num s.

Lemma test_step_run s t later :
  wf_sched s -> wf_host (ut_host s) -> todo s = t :: later ->
  exists r s', test_step s = Ok (r, s') /\ same_frame s s' /\
    ((r = -1 /\ ut_test_step s = 0 /\ host_op (ut_host s) <> HostIdle /\ wf_sched s' /\ wf_host (ut_host s')) \/
     ((r = 0 \/ r = 1) /\ ut_finish s' = ut_finish s /\ wf_sched s' /\ wf_host (ut_host s') /\
      calls_left s' = calls_left s - 1)).
Proof.
  intros Hw H Ht. pose proof (test_call_ok s t later Hw H Ht) as Hc. rewrite (test_step_call s t later) by done.
  pose proof (test_call_running s t later Hw H Ht) as Hrun.
  apply call_ok_exists in Hc as (r & h & t' & w & E & Hp). rewrite E in Hrun |- *. clear E.
  rewrite outcome_bind_ok; cbv beta iota. unfold running in Hrun. cbn [returns] in Hrun.
  destruct Hp as [(Hs & -> & Ho & -> & Hok & Hpos)|Hl].
  { destruct (after_call_sched s (ut_host s) t' w t later Hw Ht Hok Hpos) as [Hw' _].
    eexists _, _. split; [reflexivity|]. split; [by split_and!|left].
    split_and!; try done. by apply (wf_sched_ext (after_call s (ut_host s) t' w)). }
  destruct Hl as (Hh & Hok & Hn & Hpos & Hr & _).
  destruct (Z.eqb_spec (calls_left s - 1 - calls later) 0) as [Hz|Hz]; subst r.
  - destruct (after_test_sched s h t' w t later Hw Ht) as [Hw' Hcl].
    eexists _, _. split; [reflexivity|]. split; [by split_and!|]. right. rewrite Hcl.
    split_and!; [by right|by apply Hrun|done|exact Hh|lia].
  - destruct (after_call_sched s h t' w t later Hw Ht Hok ltac:(lia)) as [Hw' Hcl].
    eexists _, _. split; [reflexivity|]. split; [by split_and!|]. right. rewrite Hcl.
    split_and!; [by left|by apply Hrun|done|exact Hh|lia].
Qed.

Lemma test_step_end s : wf_sched s -> todo s = [] -> test_step s = Ok (2, s) /\ ut_test_curr s = ut_test_num s.
Proof.
  intros [Hn Hc _ _] Ht. unfold todo in Ht. apply (f_equal length) in Ht. rewrite length_drop in Ht. cbn in Ht.
  unfold test_step. destruct (Z.ltb_spec (ut_test_curr s) (ut_test_num s)); [lia|]. split; [done|lia].
Qed.

(** ** Running the schedule *)

(** [n] calls of [test_step]; before each of them the packet phases have left the
    host in the state that [env] says. *)
Fixpoint sched_run (n : nat) (env : ut_state_t -> usb_host_t) (s : ut_state_t)
  : outcome (list Z * ut_state_t) :=
  match n with
  | O => Ok ([], s)
  | S n =>
      '(r, s) ← test_step (s <| ut_host := env s |>);
      '(rs, s) ← sched_run n env s;
      Ok (r :: rs, s)
  end.

(** The packet phases keep the transfer well formed, and leave the host idle when
    a test is to be started. *)
Definition env_ok (env : ut_state_t -> usb_host_t) : Prop :=
  forall s, wf_host (env s) /\ (ut_test_step s = 0 -> host_op (env s) = HostIdle).

Lemma with_host_sched s h :
  wf_sched s -> wf_sched (s <| ut_host := h |>) /\ calls_left (s <| ut_host := h |>) = calls_left s.
Proof. intros [Hn Hc Hs Hw]. done. Qed.

Lemma calls_pos s t later : wf_sched s -> todo s = t :: later -> 0 < calls_left s.
Proof.
  intros [_ _ _ Hw] Ht. unfold calls_left. rewrite Ht in *. destruct Hw as [Hw Hl].
  assert (Hc : 0 <= calls later).
  { clear Ht. induction Hl as [|t' l Ht' _ IH]; [done|].
    change (calls (t' :: l)) with (1 + total_steps t' + calls l). apply total_steps_pos in Ht'. lia. }
  destruct (ut_test_step s =? 0); [apply total_steps_pos in Hw|destruct Hw]; lia.
Qed.

Lemma sched_run_ok n env s :
  env_ok env -> wf_sched s -> wf_host (ut_host s) -> calls_left s = Z.of_nat n ->
  exists rs s', sched_run n env s = Ok (rs, s') /\ Forall (fun r => r = 0 \/ r = 1) rs /\
    wf_sched s' /\ wf_host (ut_host s') /\ todo s' = [] /\ ut_finish s' = ut_finish s /\
    ut_test_num s' = ut_test_num s.
Proof.
  intros Henv. revert s. induction n as [|n IH]; intros s Hw H Hn.
  - exists [], s. assert (Ht : todo s = []).
    { destruct (todo s) as [|t later] eqn:E; [done|]. pose proof (calls_pos s t later Hw E). lia. }
    split_and!; done.
  - destruct (todo s) as [|t later] eqn:Ht.
    { unfold calls_left in Hn. rewrite Ht in Hn. lia. }
    destruct (Henv s) as [Hh Hi]. destruct (with_host_sched s (env s) Hw) as [Hw1 Hc1].
    destruct (test_step_run (s <| ut_host := env s |>) t later Hw1 Hh Ht) as (r & s1 & E & Hf & Hcase).
    destruct Hcase as [(_ & Hs & Ho & _)|(Hr & Hfin & Hw2 & Hh2 & Hc2)]; [by destruct Ho; apply Hi|].
    destruct (IH s1 Hw2 Hh2 ltac:(lia)) as (rs & s2 & E2 & Hrs & Hw3 & Hh3 & Ht3 & Hf3 & Hn3).
    exists (r :: rs), s2. cbn [sched_run]. rewrite E, outcome_bind_ok; cbv beta iota.
    rewrite E2, outcome_bind_ok. split; [done|]. split; [by apply List.Forall_cons|].
    split_and!; try done; [by rewrite Hf3|]. rewrite Hn3. apply Hf.
Qed.

Lemma schedule_tests w :
  exists st w', ut_schedule w = (fst (ut_schedule w), w') /\
    fst (ut_schedule w) =
    [test_getdesc; TestSetAddr (SetAddr.MkSetAddr SetAddr.SendSETUP 0x23); test_getconf;
     TestSetConf (SetConf.MkSetConf SetConf.SendSETUP 0x01); test_getstrs; test_waitsof; test_bulkout;
     test_ddr3out 0x02A8F0; test_waitsof;
     TestDdr3In (Ddr3In.MkDdr3In 0x02A8F0 Ddr3In.DDR3Cmd 0 DDR3_OUT_EP DDR3_IN_EP st);
     test_bulkout; test_bulkin 1; test_waitsof; test_getconf; test_parity; test_waitsof].
Proof.
  unfold ut_schedule, test_ddr3in. destruct (w_rand_next w) as [v w']. by exists (Z.land v 0x0F), w'.
Qed.

Lemma schedule_startable w : Forall startable (fst (ut_schedule w)).
Proof.
  destruct (schedule_tests w) as (id & _ & _ & ->).
  repeat (apply List.Forall_cons; [|]); try apply List.Forall_nil.
  all: unfold startable; cbn; unfold is_byte, Ddr3Out.NUM_ITER, Ddr3In.NUM_ITER, DDR3_OUT_EP, DDR3_IN_EP.
  all: split_and!; try done; try lia; left; lia.
Qed.

Lemma schedule_quiet w : quiet w (snd (ut_schedule w)).
Proof.
  unfold ut_schedule, test_ddr3in. pose proof (quiet_rand w) as Hq. by destruct (w_rand_next w) as [v w'].
Qed.

Lemma compiletf_tests w : exists w',
  ut_tests (ut_setup w) = fst (ut_schedule w') /\ ut_test_curr (ut_setup w) = 0 /\
  ut_test_step (ut_setup w) = 0 /\
  ut_test_num (ut_setup w) = Z.of_nat (length (ut_tests (ut_setup w))) /\
  ut_finish (ut_setup w) = w_finish w /\ wf_host (ut_host (ut_setup w)).
Proof.
  unfold ut_setup. pose proof (quiet_malloc w) as [_ Hq1]. destruct (w_malloc_next w) as [buf w1]. exists w1.
  pose proof (schedule_quiet w1) as [_ Hq2]. destruct (ut_schedule w1) as [ts w2]. cbn [snd] in *.
  split_and!; try done; [by rewrite <- Hq1|exact wf_zero].
Qed.

Lemma compiletf_sched w : wf_sched (ut_setup w) /\ calls_left (ut_setup w) = 195.
Proof.
  destruct (compiletf_tests w) as (w' & Ht & Hc & Hs & Hn & _ & _).
  pose proof (schedule_startable w') as Hst. destruct (schedule_tests w') as (id & _ & _ & E).
  rewrite E in Ht, Hst. assert (Htodo : todo (ut_setup w) = ut_tests (ut_setup w)).
  { unfold todo. by rewrite Hc. }
  split.
  - split; [done|rewrite Hc, Hn; lia|lia|]. rewrite Htodo, Ht, Hs. by apply Forall_cons_1 in Hst.
  - unfold calls_left. by rewrite Htodo, Ht, Hs.
Qed.

(** C2.  The simulation's schedule completes: started as [ut_setup] sets it up
    and whatever the packet phases in between do to a well-formed host, provided
    it is idle when a test starts, [test_step] takes exactly 195 calls to finish
    the sixteen tests, none of them fails or ends the simulation, and the next
    call reports with 2 that no test is left. *)
Theorem schedule_completes env w :
  env_ok env ->
  exists rs s', sched_run (Z.to_nat 195) env (ut_setup w) = Ok (rs, s') /\
    Forall (fun r => r = 0 \/ r = 1) rs /\ ut_finish s' = w_finish w /\
    ut_test_curr s' = 16 /\ test_step s' = Ok (2, s').
Proof.
  intros Henv. destruct (compiletf_sched w) as [Hw Hc].
  destruct (compiletf_tests w) as (w' & Hts & _ & _ & Hnum & Hfin & Hh).
  destruct (sched_run_ok (Z.to_nat 195) env _ Henv Hw Hh ltac:(lia))
    as (rs & s' & E & Hrs & Hw' & _ & Ht & Hf & Hn).
  destruct (test_step_end s' Hw' Ht) as [E2 Hcur]. exists rs, s'. split; [exact E|].
  split; [done|]. split; [by rewrite Hf|]. split; [|done].
  destruct (schedule_tests w') as (id & _ & _ & El).
  rewrite Hcur, Hn, Hnum, Hts, El. done.
Qed.

(** ** Every clock edge *)

(** The PHY is at high speed and idle: the negotiation is over. *)
Definition negotiated (phy : ulpi_phy_t) : bool := (st_speed phy =? HighSpeed) && is_PhyIdle (st_op phy).

Record wf_ut (s : ut_state_t) : Prop := {
  ut_wf_sched : wf_sched s;
  ut_wf_host : wf_host (ut_host s);
  ut_wf_phy : wf_phy (ut_phy s);
  ut_wf_done : ut_op s = UT_Done -> ut_test_curr s = ut_test_num s;
  ut_wf_startup : ut_op s = UT_PowerOn \/ ut_op s = UT_StartUp -> negotiated (ut_phy s) = false;
}.

(** What the bus must carry: a byte, register commands of the register map, and
    room for the byte to transfer. *)
Definition bus_ok (s : ut_state_t) : Prop :=
  is_byte (data_a (ut_bus s)) /\ reg_in_map (ut_bus s) /\ ready_for (host_xfer (ut_host s)) (ut_bus s).

(** The phases of a run, as one step sees them. *)
Inductive ut_phase : ut_step_t -> ut_step_t -> Prop :=
| phase_power_on : ut_phase UT_PowerOn UT_StartUp
| phase_start_up : ut_phase UT_StartUp UT_StartUp
| phase_negotiated : ut_phase UT_StartUp UT_Idle
| phase_idle : ut_phase UT_Idle UT_Idle
| phase_test : ut_phase UT_Idle UT_Test
| phase_run : ut_phase UT_Test UT_Test
| phase_packet : ut_phase UT_Test UT_Idle
| phase_done : ut_phase UT_Idle UT_Done
| phase_end : ut_phase UT_Done UT_Done.

Definition ut_post (s : ut_state_t) (res : Z * ut_state_t * ulpi_bus_t) : Prop :=
  let '(r, s', _) := res in
  (r = -1 /\ (ut_op s = UT_Idle \/ ut_op s = UT_Test) /\ wf_ut s' /\ ut_op s' = ut_op s) \/
  (r = (if match ut_op s with UT_Done => true | _ => false end then 1 else 0) /\ wf_ut s' /\
   ut_phase (ut_op s) (ut_op s')).

(** ** Start-up *)

Definition stays_down (res : Z * ulpi_phy_t * ulpi_bus_t) : Prop :=
  let '(r, phy, _) := res in r <> 1 -> negotiated phy = false.

Lemma uphy_return_down phy out : returns stays_down (uphy_return phy out).
Proof.
  unfold uphy_return. cbn [returns]. unfold stays_down, negotiated.
  change (st_speed (phy <| phy_bus := out |>)) with (st_speed phy).
  change (st_op (phy <| phy_bus := out |>)) with (st_op phy).
  by destruct (is_PhyIdle (st_op phy)), (st_speed phy =? HighSpeed).
Qed.

Lemma not_idle_down phy : is_PhyIdle (st_op phy) = false -> negotiated phy = false.
Proof. intros H. unfold negotiated. rewrite H. apply andb_false_r. Qed.

Lemma txcmd_down phy inp out : negotiated phy = false -> returns stays_down (uphy_txcmd_step phy inp out).
Proof.
  intros Hn. unfold uphy_txcmd_step. cbv zeta. repeat returns_step; intros _; try done.
  all: by apply not_idle_down.
Qed.

(** A PHY that is not negotiated stays so until a step returns 1. *)
Lemma uphy_step_down phy inp out : negotiated phy = false -> returns stays_down (uphy_step phy inp out).
Proof.
  intros Hn. Transparent uphy_step. unfold_uphy. Opaque uphy_step. cbv zeta.
  assert (Hn' : negotiated (if rst_n inp =? SIG0 then phy <| st_op := PowerOn |> else phy) = false).
  { destruct (rst_n inp =? SIG0); [|done]. by apply not_idle_down. }
  clear Hn. revert Hn'. generalize (if rst_n inp =? SIG0 then phy <| st_op := PowerOn |> else phy).
  clear phy. intros phy Hn. returns_step.
  destruct (st_op phy) eqn:Hop; try (intros _; by apply not_idle_down).
  all: repeat first [apply uphy_return_down | by apply txcmd_down | returns_step
    | intros _; first [exact Hn | by apply not_idle_down]].
  destruct a0; [destruct (uphy_chirp_status phy) as [phy'|]|]; try apply uphy_return_down.
  intros _. apply not_idle_down. change (is_PhyIdle (st_op phy) = false). by rewrite Hop.
Qed.

Lemma wf_ut_cycle s c : wf_ut s -> wf_ut (s <| ut_cycle := c |>).
Proof. intros [Hs Hh Hp Hd Hn]. by split; try done; apply (wf_sched_ext s). Qed.

Lemma ut_usbh_step_safe s curr next :
  wf_ut s -> ready_for (host_xfer (ut_host s)) curr ->
  safe (fun '(_, s', _) => wf_sched s' /\ wf_host (ut_host s') /\ wf_phy (ut_phy s') /\ ut_op s' = ut_op s)
    (ut_usbh_step s curr next).
Proof.
  intros Hw Hr. unfold ut_usbh_step.
  eapply safe_bind; [by apply usbh_step_post; [apply Hw|]|].
  intros [[[r h] o] g] [_ Hh]. apply safe_ok. destruct Hw as [Hs _ Hp _ _].
  split; [by apply (wf_sched_ext s)|done].
Qed.

(** The simulator's state after a step that neither starts up nor ends. *)
Lemma wf_ut_running s op :
  wf_sched s -> wf_host (ut_host s) -> wf_phy (ut_phy s) -> op = UT_Idle \/ op = UT_Test ->
  wf_ut (s <| ut_op := op |>).
Proof. intros Hs Hh Hp Hop. split; try done; [by apply (wf_sched_ext s)| |]; destruct Hop; subst op; cbn; [done|done|by intros []|by intros []]. Qed.

Lemma stim_step_down phy host curr next g :
  wf_phy phy -> negotiated phy = false ->
  is_byte (data_a curr) -> reg_in_map curr ->
  safe (fun '(r, phy', host', _, g', _) => (r = 0 /\ negotiated phy' = false \/ r = 1 /\ negotiated phy' = true) /\
          wf_phy phy' /\ host_xfer host' = host_xfer host /\ g' = g)
    (stim_step phy host curr next g).
Proof.
  intros Hw Hn Hb Hm. unfold stim_step.
  assert (Hc : (st_speed phy <? HighSpeed) || negb (is_PhyIdle (st_op phy)) = true).
  { unfold negotiated in Hn. pose proof (wf_speed _ Hw). apply andb_false_iff in Hn as [Hn|Hn].
    - apply Z.eqb_neq in Hn. by rewrite (proj2 (Z.ltb_lt _ _)) by lia.
    - rewrite Hn. by destruct (st_speed phy <? HighSpeed). }
  rewrite Hc. pose proof (uphy_step_post phy curr next Hw Hb Hm) as Hp.
  pose proof (uphy_step_down phy curr next Hn) as Hd.
  destruct (uphy_step phy curr next) as [[[r phy'] out]| |]; [|done..].
  destruct Hp as (Hr & Hw' & Hup). unfold stays_down in Hd. cbn [returns] in Hd.
  rewrite outcome_bind_ok; cbv beta iota zeta.
  destruct (Z.ltb_spec r 0); [|destruct (Z.ltb_spec 0 r)]; apply safe_ok.
  - split_and!; try done. left. split; [done|]. apply Hd. lia.
  - assert (r = 1) as -> by lia. split_and!; try done. right. split; [done|].
    destruct Hup as [E1 E2]; [done|]. unfold negotiated. by rewrite E1, E2.
  - split_and!; try done. left. split; [lia|]. apply Hd. lia.
Qed.

(** ** The step *)

Lemma ut_post_running s r s' next op :
  wf_sched s' -> wf_host (ut_host s') -> wf_phy (ut_phy s') ->
  ut_op s' = op -> op = UT_Idle \/ op = UT_Test -> ut_phase (ut_op s) op -> r = 0 ->
  ut_op s <> UT_Done -> ut_post s (r, s', next).
Proof.
  intros Hs Hh Hp Ho Hop Hph -> Hd. right. split; [by destruct (ut_op s)|]. split; [|by rewrite Ho].
  split; try done; rewrite Ho; destruct Hop as [-> | ->]; try done; by intros [].
Qed.

Lemma fail_post s s' next :
  ut_op s = UT_Idle \/ ut_op s = UT_Test -> ut_op s' = ut_op s ->
  wf_sched s' -> wf_host (ut_host s') -> wf_phy (ut_phy s') -> safe (ut_post s) (ut_fail_with s' next).
Proof.
  intros H Ho Hs Hh Hp. apply safe_ok. left. split_and!; [done|done| |done].
  split; [by apply (wf_sched_ext s')|exact Hh|exact Hp|..].
  - change (ut_op s' = UT_Done -> ut_test_curr s' = ut_test_num s'). rewrite Ho. by destruct H as [-> | ->].
  - change (ut_op s' = UT_PowerOn \/ ut_op s' = UT_StartUp -> negotiated (ut_phy s') = false).
    rewrite Ho. by destruct H as [-> | ->]; intros [].
Qed.

Lemma ut_step_startup s :
  wf_ut s -> ut_op s = UT_StartUp -> bus_ok s -> safe (ut_post s) (ut_step s).
Proof.
  intros Hw Hop (Hb & Hm & _). unfold ut_step. cbv zeta.
  change (ut_op (s <| ut_cycle := u64 (ut_cycle s + 1) |>)) with (ut_op s). rewrite Hop.
  set (s0 := s <| ut_cycle := _ |>). pose proof Hw as [Hs Hh Hp _ Hn].
  eapply safe_bind.
  { change (ut_bus s0) with (ut_bus s). by apply (stim_step_down (ut_phy s)); [|apply Hn; right|..]. }
  intros [[[[[r phy] host] next] g] err] (Hr & Hwp & Hx & _). cbv beta zeta.
  set (s1 := s0 <| ut_phy := phy |> <| ut_host := host |> <| ut_world := _ |>).
  assert (Hs1 : wf_sched s1 /\ wf_host (ut_host s1) /\ wf_phy (ut_phy s1) /\ ut_phy s1 = phy /\
    ut_op s1 = UT_StartUp).
  { split; [by apply (wf_sched_ext s)|]. split; [|done]. change (wf_xfer (host_xfer host)). by rewrite Hx. }
  assert (Hs2 : wf_sched (if err then snd (ut_error s1) else s1) /\
    wf_host (ut_host (if err then snd (ut_error s1) else s1)) /\
    wf_phy (ut_phy (if err then snd (ut_error s1) else s1)) /\
    ut_phy (if err then snd (ut_error s1) else s1) = phy /\
    ut_op (if err then snd (ut_error s1) else s1) = UT_StartUp).
  { destruct err; [|done]. destruct Hs1 as (? & ? & ? & ? & ?). split_and!; try done. by apply (wf_sched_ext s1). }
  revert Hs2. generalize (if err then snd (ut_error s1) else s1). clearbody s1. clear Hs1 s1.
  intros s2 (Hs2 & Hh2 & Hp2 & <- & Ho2).
  destruct Hr as [[-> Hneg]|[-> Hneg]]; apply safe_ok.
  - right. rewrite Hop, Ho2. split; [done|]. split; [|constructor]. split; try done. by rewrite Ho2.
  - eapply ut_post_running; [| | | reflexivity|..]; rewrite ?Hop; try done; [by apply (wf_sched_ext s2)|by left|constructor].
Qed.

Lemma ut_step_idle s :
  wf_ut s -> ut_op s = UT_Idle -> bus_ok s -> safe (ut_post s) (ut_step s).
Proof.
  intros Hw Hop (Hb & Hm & Hr). unfold ut_step. cbv zeta.
  change (ut_op (s <| ut_cycle := u64 (ut_cycle s + 1) |>)) with (ut_op s). rewrite Hop.
  set (s0 := s <| ut_cycle := _ |>). apply (wf_ut_cycle s (u64 (ut_cycle s + 1))) in Hw as Hw0.
  fold s0 in Hw0. change (ut_bus s0) with (ut_bus s).
  assert (Hnd : ut_op s <> UT_Done) by (by rewrite Hop). safe_step.
  - eapply safe_bind; [by apply ut_usbh_step_safe|]. intros [[r s1] next] (H1 & H2 & H3 & H4).
    change (ut_op s0) with (ut_op s) in H4. rewrite Hop in H4.
    destruct (r <? 0); [apply fail_post; [by left|by rewrite Hop|done..]|]. apply safe_ok.
    by eapply ut_post_running; [| | |exact H4|left|rewrite Hop; constructor|..].
  - set (s1 := ut_host_cycle s0).
    assert (Hs1 : wf_sched s1 /\ wf_host (ut_host s1) /\ wf_phy (ut_phy s1) /\ ut_op s1 = UT_Idle).
    { destruct Hw as [Hs Hh Hp _ _]. split; [by apply (wf_sched_ext s)|done]. }
    clearbody s1. clear Hw0 s0. destruct Hs1 as (Hs1 & Hh1 & Hp1 & Ho1).
    destruct (todo s1) as [|t later] eqn:Ht.
    + destruct (test_step_end s1 Hs1 Ht) as [-> Hend]. rewrite outcome_bind_ok; cbv beta iota. apply safe_ok.
      right. rewrite Hop. split; [done|]. split; [|constructor]. split; try done; [by apply (wf_sched_ext s1)|].
      by intros [].
    + destruct (test_step_run s1 t later Hs1 Hh1 Ht) as (r & s2 & -> & (Hf1 & Hf2 & Hf3 & _) & Hcase).
      rewrite outcome_bind_ok; cbv beta iota.
      rewrite Ho1 in Hf3. rewrite <- Hf1 in Hp1.
      destruct Hcase as [(-> & _ & _ & Hs2 & Hh2)|(Hr01 & _ & Hs2 & Hh2 & _)];
        [apply fail_post; [by left|by rewrite Hop|done..]|].
      destruct Hr01 as [-> | ->]; apply safe_ok.
      * by eapply ut_post_running; [apply (wf_sched_ext s2)| | |reflexivity|right|rewrite Hop; constructor|..].
      * by eapply ut_post_running; [| | |exact Hf3|left|rewrite Hop; constructor|..].
Qed.

Lemma ut_step_test s :
  wf_ut s -> ut_op s = UT_Test -> bus_ok s -> safe (ut_post s) (ut_step s).
Proof.
  intros Hw Hop (Hb & Hm & Hr). unfold ut_step. cbv zeta.
  change (ut_op (s <| ut_cycle := u64 (ut_cycle s + 1) |>)) with (ut_op s). rewrite Hop.
  set (s0 := s <| ut_cycle := _ |>). apply (wf_ut_cycle s (u64 (ut_cycle s + 1))) in Hw as Hw0.
  fold s0 in Hw0. change (ut_bus s0) with (ut_bus s).
  assert (Hnd : ut_op s <> UT_Done) by (by rewrite Hop).
  eapply safe_bind; [by apply ut_usbh_step_safe|]. intros [[r s1] next] (H1 & H2 & H3 & H4).
  change (ut_op s0) with (ut_op s) in H4. rewrite Hop in H4.
  destruct (r <? 0); [apply fail_post; [by right|by rewrite Hop|done..]|]. destruct (0 <? r); apply safe_ok.
  - by eapply ut_post_running; [apply (wf_sched_ext s1)| | |reflexivity|left|rewrite Hop; constructor|..].
  - by eapply ut_post_running; [| | |exact H4|right|rewrite Hop; constructor|..].
Qed.

(** C1.  Safety of a clock edge: from a well-formed simulator, and on any bus that
    carries a byte, register commands of the register map and no more data than
    fits, [ut_step] leaves no array, returns 1 exactly when the tests are done,
    fails only while it runs tests (a PHY error during start-up never makes it
    fail), in which case it stays in its phase, moves otherwise along the phases
    power-on, start-up, idle, test, done only, ends only after the last test, and
    leaves a well-formed simulator in every case. *)
Theorem ut_step_safe s : wf_ut s -> bus_ok s -> safe (ut_post s) (ut_step s).
Proof.
  intros Hw Hb. destruct (ut_op s) eqn:Hop;
    [|by apply ut_step_startup|by apply ut_step_idle|by apply ut_step_test|].
  - unfold ut_step. cbv zeta.
    change (ut_op (s <| ut_cycle := u64 (ut_cycle s + 1) |>)) with (ut_op s). rewrite Hop. apply safe_ok.
    right. rewrite Hop. split; [done|]. split; [|constructor].
    destruct Hw as [Hs Hh Hp _ Hn]. split; try done; [by apply (wf_sched_ext s)|]. intros _. apply Hn. by left.
  - unfold ut_step. cbv zeta.
    change (ut_op (s <| ut_cycle := u64 (ut_cycle s + 1) |>)) with (ut_op s). rewrite Hop. apply safe_ok.
    right. rewrite Hop. split; [done|]. split; [by apply wf_ut_cycle|].
    change (ut_op (s <| ut_cycle := u64 (ut_cycle s + 1) |>)) with (ut_op s). rewrite Hop. constructor.
Qed.

(** ** The callback that drives the bus *)

Lemma test_step_bus s : returns (fun '(_, s') => ut_bus s' = ut_bus s) (test_step s).
Proof.
  unfold test_step. destruct (ut_test_curr s <? ut_test_num s); [|done].
  returns_step. cbv zeta. returns_step. destruct a0 as [[[r h] t] w]. returns_step.
  repeat returns_step; done.
Qed.

Lemma ut_step_bus s : returns (fun '(_, s', _) => ut_bus s' = ut_bus s) (ut_step s).
Proof.
  unfold ut_step. cbv zeta. change (ut_op (s <| ut_cycle := u64 (ut_cycle s + 1) |>)) with (ut_op s).
  destruct (ut_op s); [done| | | |done].
  - returns_step. destruct a as [[[[[r phy] host] next] g] err]. cbv beta zeta.
    destruct err; repeat returns_step; done.
  - returns_step.
    + unfold ut_usbh_step. returns_step. rename H0 into E. revert E.
      match goal with |- context [usbh_step ?h ?c ?n ?g] => destruct (usbh_step h c n g) as [[[[r h'] o] g']| |] end;
        [|done..]. intros [= <-]. by repeat returns_step.
    + match goal with |- context [test_step ?x] => pose proof (test_step_bus x) as Hb; destruct (test_step x) as [[r s']| |] end;
        [|done..]. rewrite outcome_bind_ok; cbv beta iota. cbn [returns] in Hb.
      change (ut_bus (ut_host_cycle (s <| ut_cycle := u64 (ut_cycle s + 1) |>))) with (ut_bus s) in Hb.
      destruct (r <? 0); [done|]. destruct (0 <? r); [by destruct (1 <? r)|done].
  - unfold ut_usbh_step.
    match goal with |- context [usbh_step ?h ?c ?n ?g] => destruct (usbh_step h c n g) as [[[[r h'] o] g']| |] end;
      [|done..]. rewrite !outcome_bind_ok; cbv beta iota. by repeat returns_step.
Qed.

(** The registers of the simulator that the callback writes.  [dir] and [nxt] are also
    the signals that the next edge samples; the data are written to [dato] and
    sampled from [dati], the net that [dato] and the link drive in turn. *)
Record ut_pins : Type := MkPins { pin_dir : Z; pin_nxt : Z; pin_dato : byte_t }.

(** The registers after the writes of [drive]. *)
Definition put_values (pins : ut_pins) (drive : ut_drive) : ut_pins :=
  MkPins (default (pin_dir pins) (drive_dir drive)) (default (pin_nxt pins) (drive_nxt drive))
    (default (pin_dato pins) (drive_data drive)).

#[local] Instance byte_eq_dec : EqDecision byte_t.
Proof. solve_decision. Defined.

Lemma update_drives s next pins :
  pin_dir pins = dir (ut_bus s) -> pin_nxt pins = nxt (ut_bus s) ->
  put_values pins (snd (ut_update_bus_state s next)) =
  MkPins (dir next) (nxt next) (if decide (data (ut_bus s) = data next) then pin_dato pins else data next).
Proof.
  intros Hd Hn. cbn. unfold put_values. cbn [drive_dir drive_nxt drive_data]. f_equal.
  - destruct (Z.eqb_spec (dir (ut_bus s)) (dir next)); cbn; congruence.
  - destruct (Z.eqb_spec (nxt (ut_bus s)) (nxt next)); cbn; congruence.
  - unfold data_a, data_b. destruct (data (ut_bus s)) as [x y], (data next) as [x' y']. cbn [a b].
    destruct (Z.eqb_spec x x') as [->|Hx], (Z.eqb_spec y y') as [->|Hy]; cbn;
      destruct (decide _) as [E|E]; congruence.
Qed.

(** C35.  What a clock edge drives: while the simulation runs, [cb_step_sync] leaves
    the registers [dir] and [nxt] with exactly the values that [ut_step] computed,
    whatever [ut_step] reports, and the PHY remembers the bus; the register of the
    data is written exactly if the new data differ from the data sampled, and keeps
    its value otherwise.  So it holds the computed data if the PHY had the bus, the
    sampled data being those of the register, or if the data change; where the link
    had the bus and the data to drive are those that the link drove, the register
    holds them only if it did before.  Once the tests are done the callback writes
    nothing, steps nothing and ends the simulation. *)
Theorem sync_drives_next s :
  (ut_op s = UT_Done ->
     exists s', cb_step_sync s = Ok (s', MkDrive None None None) /\ ut_finish s' = ut_finish s ++ [0] /\
       ut_host s' = ut_host s /\ ut_phy s' = ut_phy s /\ ut_op s' = UT_Done) /\
  (forall r s1 next pins, ut_op s <> UT_Done -> ut_step s = Ok (r, s1, next) ->
     pin_dir pins = dir (ut_bus s) -> pin_nxt pins = nxt (ut_bus s) ->
     exists s' drive, cb_step_sync s = Ok (s', drive) /\
       phy_bus (ut_phy s') = next /\ ut_host s' = ut_host s1 /\ ut_op s' = ut_op s1 /\ ut_sync_flag s' = 0 /\
       let pins' := put_values pins drive in
       pin_dir pins' = dir next /\ pin_nxt pins' = nxt next /\
       pin_dato pins' = (if decide (data (ut_bus s) = data next) then pin_dato pins else data next) /\
       (pin_dato pins = data (ut_bus s) \/ data (ut_bus s) <> data next -> pin_dato pins' = data next) /\
       (data (ut_bus s) = data next -> pin_dato pins <> data next -> pin_dato pins' <> data next)).
Proof.
  split.
  - intros Hop. unfold cb_step_sync. rewrite Hop. eexists. split; [reflexivity|]. by rewrite <- Hop.
  - intros r s1 next pins Hop E Hd Hn. pose proof (ut_step_bus s) as Hb. rewrite E in Hb.
    cbn [returns] in Hb. rewrite <- Hb in Hd, Hn |- *.
    pose proof (update_drives s1 next pins Hd Hn) as Hput.
    destruct (ut_update_bus_state s1 next) as [s2 drive] eqn:E2.
    exists (s2 <| ut_sync_flag := 0 |>), drive. split.
    + unfold cb_step_sync. rewrite E, outcome_bind_ok; cbv beta iota. rewrite E2. by destruct (ut_op s).
    + unfold ut_update_bus_state in E2. cbv zeta in E2. injection E2 as <- _. cbn [snd] in Hput.
      cbv zeta. rewrite Hput. cbn [pin_dir pin_nxt pin_dato].
      destruct (decide _) as [->|Hne]; split_and!; try done. by intros [?|?].
Qed.

(** ** Witnesses *)

Definition idle_env (s : ut_state_t) : usb_host_t := host_example.

Lemma idle_env_ok : env_ok idle_env.
Proof. intros s. split; [exact host_example_wf|done]. Qed.

Lemma schedule_completes_witness : exists rs s',
  sched_run (Z.to_nat 195) idle_env (ut_setup world_example) = Ok (rs, s') /\ ut_test_curr s' = 16.
Proof.
  destruct (schedule_completes idle_env world_example idle_env_ok) as (rs & s' & H1 & _ & _ & H2 & _).
  exists rs, s'. split; [exact H1|exact H2].
Defined.

Lemma phy_zero_wf : wf_phy phy_zero.
Proof.
  split; try done; [|by left]. apply Forall_replicate. unfold is_byte. lia.
Qed.

Lemma compiletf_phy w :
  ut_phy (ut_setup w) = phy_zero /\ ut_op (ut_setup w) = UT_PowerOn /\
  ut_bus (ut_setup w) = ulpi_bus_zero /\ host_xfer (ut_host (ut_setup w)) = transfer_zero.
Proof. unfold ut_setup. destruct (w_malloc_next w) as [buf w1]. by destruct (ut_schedule w1). Qed.

Lemma compiletf_wf w : wf_ut (ut_setup w) /\ bus_ok (ut_setup w).
Proof.
  destruct (compiletf_phy w) as (Hp & Ho & Hb & Hx). split.
  - split; [apply compiletf_sched|by destruct (compiletf_tests w) as (?&?&?&?&?&?&?)|rewrite Hp; exact phy_zero_wf
      |by rewrite Ho|by rewrite Hp].
  - unfold bus_ok. rewrite Hb, Hx. split; [unfold is_byte; cbn; lia|]. split; [done|].
    split; [done|]. split; [done|unfold is_byte; cbn; lia].
Qed.

Lemma ut_step_safe_witness :
  safe (ut_post (ut_setup world_example)) (ut_step (ut_setup world_example)).
Proof.
  destruct (compiletf_wf world_example) as [Hw Hb]. exact (ut_step_safe _ Hw Hb).
Defined.

Definition ut_example : ut_state_t := ut_setup world_example.

(** A start-of-frame token begins while nothing drives the bus: the data of the
    turn-around, which are to be high impedance, are those sampled, and [dato] keeps
    the byte that it holds. *)
Definition floating_bus : ulpi_bus_t := MkBus SIG1 SIG1 SIG0 SIG0 SIG0 (MkByte 0x00 0xFF).
Definition sof_example : ut_state_t :=
  ut_example <| ut_op := UT_Test |> <| ut_bus := floating_bus |>
    <| ut_host := ut_host ut_example <| host_op := HostSOF |> <| host_cycle := 1 |>
                    <| host_xfer := transfer_zero <| type := SOF |> |> |>.

Lemma sync_drives_next_witness :
  (exists s' drive, cb_step_sync ut_example = Ok (s', drive) /\ ut_op s' = UT_StartUp) /\
  (exists s' drive, cb_step_sync sof_example = Ok (s', drive) /\
     pin_dir (put_values (MkPins SIG0 SIG0 (MkByte 0x4C 0x00)) drive) = SIG1 /\
     pin_dato (put_values (MkPins SIG0 SIG0 (MkByte 0x4C 0x00)) drive) <> MkByte 0x00 0xFF).
Proof.
  split.
  - assert (Hop : ut_op ut_example <> UT_Done) by discriminate.
    destruct (proj2 (sync_drives_next ut_example) 0 (snd (fst (match ut_step ut_example with
      | Ok x => x | _ => (0, ut_example, ulpi_bus_zero) end))) ulpi_bus_zero
      (MkPins 0 0 (MkByte 0 0)) Hop eq_refl eq_refl eq_refl)
      as (s' & drive & H1 & _ & _ & H2 & _).
    exists s', drive. split; [exact H1|]. rewrite H2. reflexivity.
  - assert (Hop : ut_op sof_example <> UT_Done) by discriminate.
    assert (E : match ut_step sof_example with Ok (_, _, next) => Some next | _ => None end =
      Some (floating_bus <| dir := SIG1 |> <| nxt := SIG1 |>)) by (vm_compute; reflexivity).
    destruct (ut_step sof_example) as [[[r s1] next]| |] eqn:E1; [injection E as ->|discriminate..].
    destruct (proj2 (sync_drives_next sof_example) r s1 _ (MkPins SIG0 SIG0 (MkByte 0x4C 0x00))
      Hop E1 eq_refl eq_refl) as (s' & drive & H1 & _ & _ & _ & _ & H2 & _ & _ & _ & H3).
    exists s', drive. split; [exact H1|]. split; [exact H2|]. apply H3; [reflexivity|discriminate].
Defined.
