(* ===== verification/UsbControl.v ===== *)
(** Control transactions as the simulator runs them: the test cases that queue the
    phases, the host that steps them and the link on the other side of the bus,
    composed over the clock edges of [ut_step]. *)

From S2P Require Import Prelude Gf2 UsbCrc Ulpi UlpiSafe UlpiTrace UlpiRecv StdReq.
From S2P Require Import StdReqProps UsbHost UsbHostProps UsbHostTrans UsbHostIn.
From S2P Require Import UlpiPhy TestCases TestCasesProps UlpiSim UlpiSimProps.

#[local] Opaque crc16_calc crc5_calc crc5_check crc16_check.

(** ** Packets

    [packet f t x ins outs x']: the packet step [f] on a transfer of type [t] takes
    one cycle for each bus value of [ins], drives [outs], returns 0 in every cycle
    but the last and 1 in the last one. *)

Inductive packet (f : transfer_t -> ulpi_bus_t -> ulpi_bus_t -> step_result) (t : xfer_type_t)
  : transfer_t -> list ulpi_bus_t -> list ulpi_bus_t -> transfer_t -> Prop :=
| packet_end x i o x' :
    type x = t -> out_of_reset i -> f x i i = Ok (1, x', o) -> packet f t x [i] [o] x'
| packet_cycle x i o x1 ins outs x' :
    type x = t -> out_of_reset i -> f x i i = Ok (0, x1, o) -> packet f t x1 ins outs x' ->
    packet f t x (i :: ins) (o :: outs) x'.

Lemma packet_type f t x ins outs x' : packet f t x ins outs x' -> type x = t.
Proof. by destruct 1. Qed.

(** The bus values that a step reads while nobody else drives: what it has driven
    in the cycle before. *)
Definition own_bus (inp : ulpi_bus_t) (outs : list ulpi_bus_t) : list ulpi_bus_t := inp :: removelast outs.

Lemma own_bus_cons inp o outs : outs <> [] -> own_bus inp (o :: outs) = inp :: own_bus o outs.
Proof. intros H. unfold own_bus. by destruct outs. Qed.

(** *** Tokens *)

Lemma token_loop_own n : forall x inp outs x',
  is_token (type x) = true -> out_of_reset inp ->
  token_loop (S n) x inp = Ok (replicate n 0 ++ [1], outs, x') ->
  packet token_send_step (type x) x (own_bus inp outs) outs x'.
Proof.
  induction n as [|n IH]; intros x inp outs x' Ht Hr H;
    apply token_loop_inv in H as (r & rs & x1 & o & outs' & Hrs & -> & E & E'); injection Hrs as <- <-.
  - injection E' as <- <-. by apply packet_end.
  - destruct (token_send_keeps _ _ _ _ _ E eq_refl) as (Kt & _).
    assert (Ho : outs' <> []) by (intros ->; apply token_loop_inv in E' as (? & ? & ? & ? & ? & _ & [=] & _)).
    rewrite own_bus_cons by done. eapply packet_cycle; [done|done|exact E|].
    rewrite <- Kt. apply IH; [by rewrite Kt| |done].
    unfold out_of_reset. by rewrite (token_send_rst _ _ _ _ _ E).
Qed.

(** The cycles in which the host sends [bytes] on a quiet bus. *)
Definition sending (bytes : list Z) : list ulpi_bus_t := own_bus bus_quiet (packet_trace bytes).

Lemma token_packet x :
  is_token (type x) = true -> stage x = NoXfer ->
  let bytes := [token_pid_byte (type x); tok1 x; tok2 x] in
  packet token_send_step (type x) x (sending bytes) (packet_trace bytes) (token_done x).
Proof.
  intros Ht Hs. cbv zeta. apply (token_loop_own 8); [done|done|]. by apply token_loop_packet.
Qed.

(** *** Data of the host *)

Lemma datax_keeps x inp x' o :
  datax_send_step x inp inp = Ok (0, x', o) -> type x' = type x /\ rst_n o = rst_n inp.
Proof.
  unfold datax_send_step, drive_eop, c_assert. cbv zeta.
  destruct (check_seq x _) as [[]| |]; cbn [mbind outcome_bind negb]; [|done..].
  destruct x as [ad ep t s sq cy tx tl tp rx rl rp t1 t2 c1 c2]. cbn. intros H.
  destruct t; try discriminate H; destruct s; cbn -[Z.add] in H; split_step H; try discriminate H.
  all: by injection H as <- <-.
Qed.

Lemma datax_loop_own n : forall x seen bus out x' seen' bus',
  ulpi_step_loop datax_send_step link_monitor n x seen bus out = Some (Ok (1, x', seen', bus')) ->
  out_of_reset bus ->
  exists outs, seen' = seen ++ outs /\ outs <> [] /\ packet datax_send_step (type x) x (own_bus bus outs) outs x'.
Proof.
  induction n as [|n IH]; intros x seen bus out x' seen' bus' H Hr; [done|].
  cbn [ulpi_step_loop] in H. unfold ulpi_step_once in H.
  assert (Hout : datax_send_step x bus out = datax_send_step x bus bus \/
    datax_send_step x bus out = Ok (-1, x, out)).
  { unfold datax_send_step. destruct (check_seq _ _) as [[]| |]; first [by left|by right]. }
  destruct Hout as [Heq|Heq]; rewrite Heq in H; [|by cbn in H].
  destruct (datax_send_step x bus bus) as [[[r x1] o]| |] eqn:E; cbn in H; [|done..].
  pose proof (datax_send_le x bus bus) as Hle. rewrite E in Hle. cbn in Hle.
  destruct (Z.ltb_spec r 0).
  { cbn in H. destruct (Z.eqb_spec r 0); [lia|]. injection H as -> _ _ _. lia. }
  cbn in H. rewrite Z.lor_0_r in H.
  assert (Hr01 : r = 0 \/ r = 1) by lia. destruct Hr01 as [-> | ->]; cbn in H.
  - destruct (datax_keeps _ _ _ _ E) as [Kt Kr].
    destruct (IH _ _ _ _ _ _ _ H) as (outs & -> & Hne & Hp); [by unfold out_of_reset; rewrite Kr|].
    exists (o :: outs). split; [by rewrite <- app_assoc|]. split; [done|].
    rewrite own_bus_cons by done. rewrite Kt in Hp. by eapply packet_cycle.
  - injection H as -> <- _. exists [o]. split; [done|]. split; [done|]. by apply packet_end.
Qed.

(** The transfer when its data packet is out. *)
Definition data_done (x : transfer_t) (p : Z) : transfer_t :=
  x <| tx_ptr := p |> <| type := XferIdle |> <| stage := NoXfer |>.

Lemma datax_packet x payload :
  sends x payload -> stage x = NoXfer -> tx_ptr x = 0 ->
  let bytes := data_pid_byte (type x) :: payload ++ [first_crc x; crc2 x] in
  packet datax_send_step (type x) x (sending bytes) (packet_trace bytes) (data_done x (Z.of_nat (length payload))).
Proof.
  intros Hs Hst Hp. cbv zeta.
  pose proof (datax_send_run x bus_quiet payload (length payload + 9) Hs Hp ltac:(lia)) as H.
  unfold ulpi_step_with in H. replace (x <| stage := NoXfer |>) with x in H by (by destruct x; cbn in Hst; subst).
  change (ulpi_bus_idle bus_quiet) with bus_quiet in H.
  destruct (datax_loop_own _ _ _ _ _ _ _ _ H ltac:(done)) as (outs & Ho & _ & Hpk).
  cbn [app] in Ho. subst outs. exact Hpk.
Qed.

(** A zero-length packet does not look at [tx_ptr]. *)
Lemma zdp_packet x :
  type x = DnDATA1 -> stage x = NoXfer -> tx_len x = 0 -> crc2 x = 0 ->
  ep_seq x !! Z.to_nat (Z.land (endpoint x) 0x0f) = Some 1 ->
  let bytes := [0x4B; 0x00; 0x00] in
  packet datax_send_step DnDATA1 x (sending bytes) (packet_trace bytes) (token_done x).
Proof.
  intros Ht Hst Hl Hc Hs. destruct x as [ad ep t s sq cy tx tl tp rx rl rp t1 t2 c1 c2].
  cbn in Ht, Hst, Hl, Hc, Hs. subst. cbv zeta. unfold sending, own_bus. cbn [packet_trace app map removelast].
  do 8 (eapply packet_cycle; [done|done|datax_step Hs; reflexivity|]).
  eapply packet_end; [done|done|datax_step Hs; reflexivity].
Qed.

(** *** Handshakes *)

(** Nothing that the host drives here is a byte for the link. *)
Lemma received_none outs : Forall (fun o => is_rx_byte o = false) outs -> received outs = [].
Proof.
  unfold received. induction 1 as [|o outs H _ IH]; [done|]. cbn. by rewrite H.
Qed.

(** A packet of which no byte goes to the link. *)
Definition silent_packet f t x ins x' : Prop := exists outs, packet f t x ins outs x' /\ received outs = [].

Lemma silent_end f t x i o x' :
  type x = t -> out_of_reset i -> f x i i = Ok (1, x', o) -> is_rx_byte o = false ->
  silent_packet f t x [i] x'.
Proof. intros Ht Hr E Ho. exists [o]. split; [by apply packet_end|]. unfold received. cbn. by rewrite Ho. Qed.

Lemma silent_cycle f t x i o x1 ins x' :
  type x = t -> out_of_reset i -> f x i i = Ok (0, x1, o) -> is_rx_byte o = false ->
  silent_packet f t x1 ins x' -> silent_packet f t x (i :: ins) x'.
Proof.
  intros Ht Hr E Ho (outs & Hp & Hn). exists (o :: outs). split; [by eapply packet_cycle|].
  unfold received in *. cbn. by rewrite Ho.
Qed.

(** The link's ACK, after any wait. *)
Record ack_cycles_of (ins : list ulpi_bus_t) (waits : list ulpi_bus_t) (pid : ulpi_bus_t)
    (hold : list ulpi_bus_t) (stop fin : ulpi_bus_t) : Prop := {
  ac_ins : ins = waits ++ pid :: hold ++ [stop; fin];
  ac_waits : Forall (fun inp => ulpi_bus_is_idle inp = true) waits;
  ac_reply : ack_reply pid hold stop fin;
}.

Definition link_acks (ins : list ulpi_bus_t) : Prop :=
  exists waits pid hold stop fin, ack_cycles_of ins waits pid hold stop fin.

Lemma hold_packet hold stop fin x :
  type x = UpACK -> stage x = HskPID ->
  Forall out_of_reset (hold ++ [stop; fin]) ->
  Forall (fun inp => dir inp = SIG0 /\ data_b inp = 0 /\ stp inp <> SIG1) hold ->
  dir stop = SIG0 /\ data_b stop = 0 /\ stp stop = SIG1 ->
  dir fin = SIG0 /\ nxt fin = SIG0 /\ stp fin = SIG0 ->
  silent_packet ack_recv_step UpACK x (hold ++ [stop; fin]) (x <| stage := NoXfer |>).
Proof.
  intros Ht Hs Hr Hh (Hs1 & Hs2 & Hs3) (Hf1 & Hf2 & Hf3).
  induction Hh as [|i hold (Hd & Hb & Hp) Hh IH]; apply Forall_cons_1 in Hr as [Hr1 Hr].
  - apply Forall_cons_1 in Hr as [Hr2 _].
    pose proof (ack_recv_hold x stop Ht Hs Hs1 Hs2) as E1. rewrite Hs3 in E1.
    change (SIG1 =? SIG1) with true in E1. cbv iota in E1.
    set (x1 := x <| stage := HskStop |>) in E1.
    pose proof (ack_recv_fin x1 fin Ht eq_refl Hf1 Hf2 Hf3) as E2.
    eapply silent_cycle; [done|done|exact E1|by apply idle_no_byte|].
    replace (x <| stage := NoXfer |>) with (x1 <| stage := NoXfer |>) by (by destruct x).
    eapply silent_end; [done|done|exact E2|by apply idle_no_byte].
  - pose proof (ack_recv_hold x i Ht Hs Hd Hb) as E. rewrite (proj2 (Z.eqb_neq _ _) Hp) in E.
    eapply silent_cycle; [done|done|exact E|by apply idle_no_byte|]. by apply IH.
Qed.

(** The transfer when the device has acknowledged its data. *)
Definition ack_done (x : transfer_t) (s : Z) : transfer_t :=
  x <| stage := NoXfer |> <| ep_seq := <[Z.to_nat (endpoint x) := flip_seq s]> (ep_seq x) |>.

Lemma ack_recv_packet x ins s :
  type x = UpACK -> stage x = NoXfer -> link_acks ins ->
  0 <= endpoint x -> ep_seq x !! Z.to_nat (endpoint x) = Some s ->
  silent_packet ack_recv_step UpACK x ins (ack_done x s).
Proof.
  intros Ht Hs (waits & pid & hold & stop & fin & [-> Hw [Hr [Hd Hp] Hh H1 H2]]) He Hq.
  induction Hw as [|i waits Hi Hw IH].
  - cbn [app]. apply Forall_cons_1 in Hr as [Hr1 Hr].
    pose proof (ack_recv_pid x pid s Ht Hs Hp He Hq) as E.
    eapply silent_cycle; [done|done|exact E|by apply idle_no_byte|].
    set (y := x <| stage := HskPID |> <| ep_seq := _ |>).
    replace (ack_done x s) with (y <| stage := NoXfer |>) by (by destruct x).
    by apply hold_packet.
  - destruct (is_idle_dir i Hi) as [Hid Hir]. cbn [app].
    eapply silent_cycle; [done|done|by apply ack_recv_idle|by apply idle_no_byte|exact IH].
Qed.

(** The host's ACK. *)
Lemma ack_send_packet x :
  type x = DnACK -> stage x = NoXfer ->
  packet ack_send_step DnACK x (sending [0xD2]) (packet_trace [0xD2]) (token_done x).
Proof.
  intros Ht Hs. destruct (ack_send_phases x Ht Hs) as (E1 & E2 & E3 & E4 & E5 & E6 & E7).
  unfold sending, own_bus. cbn [packet_trace app map removelast].
  eapply packet_cycle; [done|done|exact E1|]. eapply packet_cycle; [done|done|exact E2|].
  eapply packet_cycle; [done|done|exact E3|]. eapply packet_cycle; [done|done|exact E4|].
  eapply packet_cycle; [done|done|exact E5|]. eapply packet_cycle; [done|done|exact E6|].
  eapply packet_end; [done|done|exact E7].
Qed.

(** *** Data of the link *)

(** A stretch of cycles that all return 0, before the rest of a packet. *)
Lemma recv_run_packet ins : forall x out x1 o1 ins2 x',
  is_up_data (type x) = true -> Forall out_of_reset ins ->
  run_steps datax_recv_step x ins out = Ok (0, x1, o1) ->
  silent_packet datax_recv_step (type x) x1 ins2 x' ->
  silent_packet datax_recv_step (type x) x (ins ++ ins2) x'.
Proof.
  induction ins as [|i ins IH]; intros x out x1 o1 ins2 x' Ht Hr H H2; [by injection H as <- _|].
  apply Forall_cons_1 in Hr as [Hr1 Hr]. cbn [run_steps] in H.
  assert (Hout : datax_recv_step x i out = datax_recv_step x i i) by done. rewrite Hout in H.
  destruct (datax_recv_step x i i) as [[[r x2] o2]| |] eqn:E; [|done..].
  rewrite outcome_bind_ok in H. cbv beta iota in H. destruct (Z.eqb_spec r 0) as [->|Hr0]; [|by injection H].
  destruct (recv_keeps _ _ _ _ _ Ht E ltac:(lia)) as [[K1] _].
  cbn [app]. eapply silent_cycle; [done|done|exact E|by apply (recv_silent _ _ _ _ _ E)|].
  rewrite <- K1. apply (IH x2 o2 x1 o1 ins2); [by rewrite K1|done|done|by rewrite K1].
Qed.

(** The link's data packet with sequence bit [s], with a good CRC16, from the first
    idle cycle to the end of the packet; [bytes] has the two bytes of the CRC. *)
Inductive link_data (s : Z) : list ulpi_bus_t -> list Z -> Prop :=
| link_data_cycles waits start pid gap first rest stop e1 e2 e3 e4 :
    up_packet s waits start pid gap first rest stop -> up_eop e1 e2 e3 e4 ->
    Forall is_byte (packet_bytes first rest) -> (2 <= length (packet_bytes first rest) <= 512)%nat ->
    crc16_check (packet_bytes first rest) = true ->
    link_data s ((waits ++ [start; pid] ++ gap) ++ [first] ++ rest ++ [stop] ++ [e1; e2; e3; e4])
      (packet_bytes first rest).

(** The transfer holds the packet. *)
Record holds (x : transfer_t) (bytes : list Z) (x' : transfer_t) : Prop := {
  holds_type : type x' = XferIdle;
  holds_stage : stage x' = NoXfer;
  holds_ep : endpoint x' = endpoint x /\ ep_seq x' = ep_seq x;
  holds_tok : address x' = address x /\ tok1 x' = tok1 x /\ tok2 x' = tok2 x;
  holds_rx : rx_packet x' = bytes;
  holds_len : rx_len x' = Z.of_nat (length bytes) - 2;
  holds_buffers : tx x' = tx x /\ length (rx x') = 512%nat /\ Forall is_byte (rx x');
}.

Lemma up_packet_rst s waits start pid gap first rest stop :
  up_packet s waits start pid gap first rest stop ->
  Forall out_of_reset (waits ++ [start; pid] ++ gap) /\ out_of_reset first /\
  Forall out_of_reset rest /\ out_of_reset stop.
Proof.
  intros H. pose proof (up_rst _ _ _ _ _ _ _ _ H) as Hr. clear H.
  apply Forall_app in Hr as [Ha Hr]. apply Forall_cons_1 in Hr as [Hb Hr].
  apply Forall_cons_1 in Hr as [Hc Hr]. apply Forall_app in Hr as [Hd Hr].
  apply Forall_cons_1 in Hr as [He Hr]. apply Forall_app in Hr as [Hf Hg].
  apply Forall_cons_1 in Hg as [Hg _]. split_and!; try done.
  apply Forall_app_2; [done|]. by apply Forall_cons_2, Forall_cons_2.
Qed.

Lemma recv_packet x s ins bytes :
  is_up_data (type x) = true -> stage x = NoXfer ->
  ep_seq x !! Z.to_nat (Z.land (endpoint x) 0x0f) = Some s ->
  Forall is_byte (rx x) -> length (rx x) = 512%nat -> link_data s ins bytes ->
  exists x', silent_packet datax_recv_step (type x) x ins x' /\ holds x bytes x'.
Proof.
  intros Ht Hs Hq Hrx Hl [waits start pid gap first rest stop e1 e2 e3 e4 Hp He Hby Hlen Hcrc].
  destruct (up_packet_rst _ _ _ _ _ _ _ _ Hp) as (Hr1 & Hr2 & Hr3 & Hr4).
  destruct (recv_head_run s _ _ _ _ _ _ _ x bus_quiet Hp Ht Hs Hq) as [o1 R1].
  destruct Hp as [_ _ _ _ _ _ [Hf Hn] Hre Hst].
  pose proof (recv_first_step x first first Ht ltac:(lia) Hf Hn) as E1.
  destruct (recv_tail_run x first rest stop bus_quiet Ht Hrx Hl Hre Hst Hby Hlen)
    as (x2 & o2 & x3 & o3 & R2 & E2 & Ht2 & K1 & S1 & S2 & S3 & S4 & S5 & S6 & _).
  rewrite Hcrc in E2. destruct (recv_keeps x2 stop _ x3 o3 Ht2 E2 ltac:(lia)) as [K2 _].
  assert (Ht3 : type x3 = type x) by (rewrite (same_type _ _ K2); by destruct K1).
  destruct (recv_eop_run x3 e1 e2 e3 e4 bus_quiet ltac:(by rewrite Ht3) S1 He) as [[o4 R3] [o5 E3]].
  set (x4 := x3 <| stage := LineIdle |>) in *. set (x5 := x4 <| type := XferIdle |> <| stage := NoXfer |>) in *.
  pose proof (eop_rst _ _ _ _ He) as Hr5. change [e1; e2; e3; e4] with ([e1; e2; e3] ++ [e4]) in *.
  apply Forall_app in Hr5 as [Hr5 Hr6]. apply Forall_cons_1 in Hr6 as [Hr6 _].
  assert (P3 : silent_packet datax_recv_step (type x) x3 ([e1; e2; e3] ++ [e4]) x5).
  { rewrite <- Ht3. apply (recv_run_packet _ x3 bus_quiet x4 o4); [by rewrite Ht3|done|exact R3|].
    eapply silent_end; [done|done|exact E3|by apply (recv_silent _ _ _ _ _ E3)]. }
  assert (P2 : silent_packet datax_recv_step (type x) (in_first x (data_a first)) (rest ++ [stop] ++ [e1; e2; e3] ++ [e4]) x5).
  { change (type x) with (type (in_first x (data_a first))).
    apply (recv_run_packet _ _ bus_quiet x2 o2); [done|done|exact R2|]. cbn [app].
    eapply silent_cycle; [|done|exact E2|by apply (recv_silent _ _ _ _ _ E2)|exact P3].
    by destruct K1. }
  exists x5. split.
  - apply (recv_run_packet _ x bus_quiet (in_body x) o1); [done|done|exact R1|].
    change ([first] ++ rest ++ [stop] ++ [e1; e2; e3] ++ [e4])
      with (first :: rest ++ [stop] ++ [e1; e2; e3] ++ [e4]).
    eapply silent_cycle; [done|done|exact E1|by apply (recv_silent _ _ _ _ _ E1)|exact P2].
  - assert (K3 : same_xfer x x3) by (etrans; [|exact K2]; by destruct K1).
    destruct K3. subst x5 x4. by constructor.
Qed.

(** ** The phases of a control transaction *)

Definition enter_recv (x : transfer_t) : transfer_t :=
  if type_eqb (type x) UpDATA1 then x
  else x <| type := UpDATA1 |> <| stage := NoXfer |> <| rx_len := MAX_PACKET_SIZE |> <| rx_ptr := 0 |>.
Definition enter_zdp (x : transfer_t) : transfer_t :=
  if type_eqb (type x) DnDATA1 then x
  else x <| type := DnDATA1 |> <| stage := NoXfer |> <| tx_len := 0 |>.

(** The packet step of each value of [host->step], the type of its transfer, and the
    set-up of the transfer in its first cycle. *)
Inductive ctl_phase : Z -> (transfer_t -> ulpi_bus_t -> ulpi_bus_t -> step_result) -> xfer_type_t ->
    (transfer_t -> transfer_t) -> Prop :=
| phase_setup : ctl_phase 0 token_send_step SETUP (fun x => x)
| phase_data0 : ctl_phase 1 datax_send_step DnDATA0 (fun x => enter_type x DnDATA0)
| phase_ack0 : ctl_phase 2 ack_recv_step UpACK (fun x => enter_type x UpACK)
| phase_in : ctl_phase 3 token_send_step IN (fun x => enter_type x IN)
| phase_data1 : ctl_phase 4 datax_recv_step UpDATA1 enter_recv
| phase_ack1 : ctl_phase 5 ack_send_step DnACK (fun x => enter_type x DnACK)
| phase_out : ctl_phase 6 token_send_step OUT (fun x => enter_type x OUT)
| phase_zdp : ctl_phase 7 datax_send_step DnDATA1 enter_zdp
| phase_ack2 : ctl_phase 8 ack_recv_step UpACK (fun x => enter_type x UpACK).

Lemma type_eqb_eq s t : type_eqb s t = true <-> s = t.
Proof. split; [|intros ->; by destruct t]. by destruct s, t. Qed.

Lemma ctl_enter_same k f t enter x : ctl_phase k f t enter -> type x = t -> enter x = x.
Proof.
  intros H Ht. destruct H; unfold enter_type, enter_recv, enter_zdp; rewrite ?Ht; done.
Qed.

Lemma ctl_data0 k f t enter : ctl_phase k f t enter -> k = 1 -> t = DnDATA0.
Proof. by intros []. Qed.

(** The assertion of the DATA0 phase. *)
Definition data0_ready (k : Z) (x : transfer_t) : Prop := k = 1 -> type x = DnDATA0 \/ 8 <= tx_len x.

Lemma stdreq_phase_run k f t enter host inp :
  ctl_phase k f t enter -> host_step host = k -> type (enter (host_xfer host)) = t ->
  data0_ready k (host_xfer host) ->
  stdreq_phase host inp inp = Some (f (enter (host_xfer host)) inp inp).
Proof.
  intros H Hk Ht Hd. unfold stdreq_phase. rewrite Hk. destruct H; try done; cbn -[type_eqb] in Ht |- *.
  - by rewrite Ht.
  - unfold enter_type. destruct (type_eqb (type (host_xfer host)) DnDATA0) eqn:E; [done|].
    destruct (Hd eq_refl) as [Hx|Hl]; [by rewrite Hx in E|]. unfold c_assert.
    change (tx_len (host_xfer host <| type := DnDATA0 |> <| stage := NoXfer |>)) with (tx_len (host_xfer host)).
    by rewrite (proj2 (Z.leb_le _ _) Hl).
Qed.

(** A cycle of a host that executes a control transaction. *)
Lemma setup_step k f t enter host inp g r x o :
  ctl_phase k f t enter -> host_op host = HostSETUP -> host_step host = k -> out_of_reset inp ->
  type (enter (host_xfer host)) = t -> data0_ready k (host_xfer host) ->
  f (enter (host_xfer host)) inp inp = Ok (r, x, o) -> r = 0 \/ r = 1 ->
  usbh_step host inp inp g =
  Ok (r, host <| host_cycle := u64 (host_cycle host + 1) |> <| host_xfer := x |>, o, g).
Proof.
  intros Hp Ho Hk Hr Ht Hd E Hr01. unfold usbh_step.
  rewrite usbh_pre_not_idle; [|done|cbn; by rewrite Ho]. cbv zeta.
  set (h := host <| host_cycle := u64 (host_cycle host + 1) |>).
  change (host_op h) with (host_op host). rewrite Ho. unfold stdreq_step.
  rewrite (stdreq_phase_run k f t enter h inp Hp Hk Ht Hd).
  change (host_xfer h) with (host_xfer host). rewrite E. unfold on_xfer. rewrite !outcome_bind_ok.
  cbv beta iota. by destruct Hr01 as [-> | ->].
Qed.

(** ** Clock edges *)

#[local] Opaque tc_init tc_step usbh_step uphy_step.

(** A clock edge at which the simulator samples [inp], and a sequence of them. *)
Definition ut_edge (s : ut_state_t) (inp : ulpi_bus_t) : ut_result := ut_step (s <| ut_bus := inp |>).

Fixpoint ut_edges (s : ut_state_t) (ins : list ulpi_bus_t)
  : outcome (list Z * list ulpi_bus_t * ut_state_t) :=
  match ins with
  | [] => Ok ([], [], s)
  | inp :: ins =>
      '(r, s, o) ← ut_edge s inp;
      '(rs, outs, s) ← ut_edges s ins;
      Ok (r :: rs, o :: outs, s)
  end.

(** States that differ in counters and in the sampled bus only. *)
Definition ut_norm (s : ut_state_t) : ut_state_t :=
  s <| ut_bus := ulpi_bus_zero |> <| ut_cycle := 0 |> <| ut_host := ut_host s <| host_cycle := 0 |> |>.
Record ut_same (s s' : ut_state_t) : Prop := UtSame { same_norm : ut_norm s = ut_norm s' }.
#[export] Instance ut_equiv : Equiv ut_state_t := ut_same.

#[export] Instance ut_equiv_equivalence : Equivalence (≡@{ut_state_t}).
Proof. split; [by intros s|intros s s' [H]; exact (UtSame _ _ (eq_sym H))|]. intros s s' s'' [H1] [H2]. exact (UtSame _ _ (eq_trans H1 H2)). Qed.

#[export] Instance ut_op_proper : Proper ((≡) ==> (=)) ut_op.
Proof. intros s s' [H]. exact (f_equal ut_op H). Qed.
#[export] Instance ut_tests_proper : Proper ((≡) ==> (=)) ut_tests.
Proof. intros s s' [H]. exact (f_equal ut_tests H). Qed.
#[export] Instance ut_finish_proper : Proper ((≡) ==> (=)) ut_finish.
Proof. intros s s' [H]. exact (f_equal ut_finish H). Qed.
#[export] Instance ut_world_proper : Proper ((≡) ==> (=)) ut_world.
Proof. intros s s' [H]. exact (f_equal ut_world H). Qed.
#[export] Instance ut_test_curr_proper : Proper ((≡) ==> (=)) ut_test_curr.
Proof. intros s s' [H]. exact (f_equal ut_test_curr H). Qed.
#[export] Instance ut_test_step_proper : Proper ((≡) ==> (=)) ut_test_step.
Proof. intros s s' [H]. exact (f_equal ut_test_step H). Qed.
#[export] Instance ut_test_num_proper : Proper ((≡) ==> (=)) ut_test_num.
Proof. intros s s' [H]. exact (f_equal ut_test_num H). Qed.

(** The host of an equivalent state, up to its cycle counter. *)
Lemma ut_host_equiv s s' :
  s ≡ s' -> ut_host s = ut_host s' <| host_cycle := host_cycle (ut_host s) |>.
Proof.
  intros [H]. apply (f_equal ut_host) in H. cbn in H.
  destruct (ut_host s), (ut_host s'). cbn in *. injection H; intros; by subst.
Qed.

(** The state at phase [op], with the transfer [x]. *)
Definition at_op (s : ut_state_t) (op : ut_step_t) (x : transfer_t) : ut_state_t :=
  s <| ut_op := op |> <| ut_host := ut_host s <| host_xfer := x |> |>.

#[export] Instance at_op_proper : Proper ((≡) ==> (=) ==> (=) ==> (≡)) at_op.
Proof.
  intros s s' [H] op ? <- x ? <-. constructor. unfold ut_norm in *. destruct s as [? ? ? ? ? [] ? ? ? ? ? ? ?], s' as [? ? ? ? ? [] ? ? ? ? ? ? ?].
  cbn in *. injection H; intros; by subst.
Qed.

Lemma at_op_at s op x op' x' : at_op (at_op s op x) op' x' = at_op s op' x'.
Proof. by destruct s as [? ? ? ? ? [] ? ? ? ? ? ? ?]. Qed.

(** A cycle of the host in the test phase. *)
Lemma test_cycle s inp r h o g :
  ut_op s = UT_Test -> r = 0 \/ r = 1 ->
  usbh_step (ut_host s) inp inp (w_rand (ut_world s)) = Ok (r, h, o, g) ->
  exists s', ut_edge s inp = Ok (0, s', o) /\ ut_host s' = h /\
    s' ≡ s <| ut_op := if r =? 1 then UT_Idle else UT_Test |> <| ut_host := h |>
           <| ut_world := ut_world s <| w_rand := g |> |>.
Proof.
  intros Ho Hr E. unfold ut_edge, ut_step.
  set (s1 := s <| ut_bus := inp |> <| ut_cycle := u64 (ut_cycle (s <| ut_bus := inp |>) + 1) |>).
  change (ut_op s1) with (ut_op s). rewrite Ho. unfold ut_usbh_step.
  change (ut_bus s1) with inp. change (ut_host s1) with (ut_host s). change (ut_world s1) with (ut_world s).
  rewrite E, !outcome_bind_ok. cbv beta iota.
  destruct Hr as [-> | ->]; eexists; (split; [reflexivity|]); (split; [reflexivity|]); constructor;
    destruct s as [? ? ? ? ? ? ? ? ? ? ? ? w]; cbn in Ho |- *; by subst.
Qed.

(** A whole packet of a control transaction, edge by edge. *)
Lemma phase_edges k f t enter x ins outs x' :
  ctl_phase k f t enter -> packet f t x ins outs x' -> forall s,
  ut_op s = UT_Test -> host_op (ut_host s) = HostSETUP -> host_step (ut_host s) = k ->
  enter (host_xfer (ut_host s)) = x -> data0_ready k (host_xfer (ut_host s)) ->
  exists s', ut_edges s ins = Ok (replicate (length ins) 0, outs, s') /\ s' ≡ at_op s UT_Idle x'.
Proof.
  intros Hph Hp. induction Hp as [x i o x' Ht Hr E|x i o x1 ins outs x' Ht Hr E Hp IH];
    intros s Ho Hop Hk Hx Hd; rewrite <- Hx in E, Ht.
  - pose proof (setup_step k f t enter (ut_host s) i (w_rand (ut_world s)) 1 x' o Hph Hop Hk Hr Ht Hd E
      ltac:(by right)) as Hst.
    destruct (test_cycle s i 1 _ o _ Ho ltac:(by right) Hst) as (s1 & H1 & _ & H2).
    exists s1. cbn [ut_edges length replicate]. rewrite H1, outcome_bind_ok. split; [done|]. rewrite H2.
    by destruct s as [? ? ? ? ? [] ? ? ? ? ? ? []].
  - pose proof (setup_step k f t enter (ut_host s) i (w_rand (ut_world s)) 0 x1 o Hph Hop Hk Hr Ht Hd E
      ltac:(by left)) as Hst.
    destruct (test_cycle s i 0 _ o _ Ho ltac:(by left) Hst) as (s1 & H1 & _ & H2).
    change (0 =? 1) with false in H2. cbv iota in H2. set (h := ut_host s <| host_cycle := _ |> <| host_xfer := x1 |>) in H2.
    assert (H3 : s1 ≡ at_op s UT_Test x1) by (rewrite H2; by destruct s as [? ? ? ? ? [] ? ? ? ? ? ? []]).
    pose proof (ut_host_equiv _ _ H3) as Hh.
    pose proof (packet_type _ _ _ _ _ _ Hp) as Ht1.
    assert (Hx1 : host_xfer (ut_host s1) = x1) by (rewrite Hh; reflexivity).
    assert (Ho1 : ut_op s1 = UT_Test) by (rewrite H3; reflexivity).
    assert (Hop1 : host_op (ut_host s1) = HostSETUP) by (rewrite Hh; exact Hop).
    assert (Hk1 : host_step (ut_host s1) = k) by (rewrite Hh; exact Hk).
    destruct (IH s1 Ho1 Hop1 Hk1) as (s2 & H4 & H5).
    { rewrite Hx1. exact (ctl_enter_same k f t enter x1 Hph Ht1). }
    { rewrite Hx1. intros Hk0. left. by rewrite Ht1, (ctl_data0 k f t enter Hph Hk0). }
    exists s2. cbn [ut_edges length replicate]. rewrite H1, outcome_bind_ok. rewrite H4, outcome_bind_ok.
    split; [done|]. by rewrite H5, H3, at_op_at.
Qed.

(** ** Rounds: a call of the test on an idle bus, then a packet *)

(** [edges s ins bytes s']: the simulator gets from [s] to [s'] in one edge for each
    bus value of [ins] without an error, and the link receives [bytes]. *)
Definition edges (s : ut_state_t) (ins : list ulpi_bus_t) (bytes : list Z) (s' : ut_state_t) : Prop :=
  exists outs, ut_edges s ins = Ok (replicate (length ins) 0, outs, s') /\ received outs = bytes.

Lemma ut_edges_app s ins1 ins2 :
  ut_edges s (ins1 ++ ins2) =
  ('(rs1, outs1, s) ← ut_edges s ins1;
   '(rs2, outs2, s) ← ut_edges s ins2;
   Ok (rs1 ++ rs2, outs1 ++ outs2, s)).
Proof.
  revert s. induction ins1 as [|i ins1 IH]; intros s; cbn [ut_edges app].
  - rewrite outcome_bind_ok. by destruct (ut_edges s ins2) as [[[]]| |].
  - destruct (ut_edge s i) as [[[r s1] o]| |]; [|done..]. rewrite !outcome_bind_ok. cbv beta iota.
    rewrite IH. destruct (ut_edges s1 ins1) as [[[r1 o1] s2]| |]; [|done..].
    rewrite !outcome_bind_ok. cbv beta iota. by destruct (ut_edges s2 ins2) as [[[]]| |].
Qed.

Lemma edges_app s ins1 b1 s1 ins2 b2 s2 :
  edges s ins1 b1 s1 -> edges s1 ins2 b2 s2 -> edges s (ins1 ++ ins2) (b1 ++ b2) s2.
Proof.
  intros (o1 & E1 & <-) (o2 & E2 & <-). exists (o1 ++ o2). split; [|apply received_app].
  by rewrite ut_edges_app, E1, outcome_bind_ok, E2, outcome_bind_ok, length_app, replicate_add.
Qed.

(** The state of a run: the host is idle between two packets, the current test [t]
    has been called [n] times. *)
Definition between (s : ut_state_t) (n : Z) (t : testcase_t) (h : usb_host_t) (w : world) : ut_state_t :=
  s <| ut_op := UT_Idle |> <| ut_test_step := n |> <| ut_host := h |> <| ut_world := w |>
    <| ut_tests := <[Z.to_nat (ut_test_curr s) := t]> (ut_tests s) |>.

(** A call of the test, whatever the cycle counter. *)
Definition call_gives (n : Z) (t : testcase_t) (h : usb_host_t) (w : world)
    (r : Z) (h' : usb_host_t) (t' : testcase_t) (w' : world) : Prop :=
  forall c, (if n =? 0 then tc_init else tc_step) t (h <| host_cycle := c |>) w =
            Ok (r, h' <| host_cycle := c |>, t', w').

#[export] Instance current_proper : Proper ((≡) ==> (=) ==> iff) current.
Proof.
  intros s s' H t ? <-. split; intros [H1 H2]; constructor.
  - by rewrite <- (ut_test_curr_proper _ _ H), <- (ut_test_num_proper _ _ H).
  - by rewrite <- (ut_test_curr_proper _ _ H), <- (ut_tests_proper _ _ H).
  - by rewrite (ut_test_curr_proper _ _ H), (ut_test_num_proper _ _ H).
  - by rewrite (ut_test_curr_proper _ _ H), (ut_tests_proper _ _ H).
Qed.

Lemma current_between s n t t0 h w : current s t0 -> current (between s n t h w) t.
Proof.
  intros [H1 H2]. constructor; [exact H1|]. apply lookup_lt_Some in H2.
  change (<[Z.to_nat (ut_test_curr s) := t]> (ut_tests s) !! Z.to_nat (ut_test_curr s) = Some t).
  by rewrite list_lookup_insert_eq.
Qed.

#[export] Instance after_call_proper : Proper ((≡) ==> (=) ==> (=) ==> (=) ==> (≡)) after_call.
Proof.
  intros s s' [H] h ? <- t ? <- w ? <-. constructor. unfold ut_norm, after_call in *.
  destruct s as [? ? ? ? ? [] ? ? ? ? ? ? ?], s' as [? ? ? ? ? [] ? ? ? ? ? ? ?].
  cbn in *. injection H; intros; by subst.
Qed.

#[export] Instance after_test_proper : Proper ((≡) ==> (=) ==> (=) ==> (=) ==> (≡)) after_test.
Proof.
  intros s s' [H] h ? <- t ? <- w ? <-. constructor. unfold ut_norm, after_test, after_call in *.
  destruct s as [? ? ? ? ? [] ? ? ? ? ? ? ?], s' as [? ? ? ? ? [] ? ? ? ? ? ? ?].
  cbn in *. injection H; intros; by subst.
Qed.

Lemma after_call_between s n t h w h' t' w' :
  after_call (between s n t h w) h' t' w' = between s (n + 1) t' h' w'.
Proof. unfold after_call, between. cbn. by rewrite list_insert_insert_eq. Qed.

Lemma after_test_between s n t h w h' t' w' :
  after_test (between s n t h w) h' t' w' = between s 0 t' h' w' <| ut_test_curr := ut_test_curr s + 1 |>.
Proof. unfold after_test, after_call, between. cbn. by rewrite list_insert_insert_eq. Qed.

#[export] Instance set_ut_op_proper op : Proper ((≡) ==> (≡)) (fun s => s <| ut_op := op |>).
Proof.
  intros s s' [H]. constructor. unfold ut_norm in *.
  destruct s as [? ? ? ? ? [] ? ? ? ? ? ? ?], s' as [? ? ? ? ? [] ? ? ? ? ? ? ?].
  cbn in *. injection H; intros; by subst.
Qed.

(** The edge on which the test is called. *)
Lemma call_edge s inp t r h' t' w' :
  ut_op s = UT_Idle -> ulpi_bus_is_idle inp = true -> current s t -> r = 0 \/ r = 1 ->
  test_call s t (ut_host s <| host_cycle := u64 (host_cycle (ut_host s) + 1) |>) (ut_world s) = Ok (r, h', t', w') ->
  exists s', ut_edge s inp = Ok (0, s', inp) /\ ut_host s' = h' /\
    s' ≡ if r =? 1 then after_test s h' t' w' else after_call s h' t' w' <| ut_op := UT_Test |>.
Proof.
  intros Ho Hi Hc Hr E. unfold ut_edge, ut_step.
  set (s1 := s <| ut_bus := inp |> <| ut_cycle := u64 (ut_cycle (s <| ut_bus := inp |>) + 1) |>).
  change (ut_op s1) with (ut_op s). change (ut_bus s1) with inp. rewrite Ho, Hi. cbn [negb].
  set (s2 := ut_host_cycle s1). assert (Hc2 : current s2 t) by (destruct Hc; by constructor).
  rewrite (test_step_current s2 t Hc2).
  change (test_call s2 t (ut_host s2) (ut_world s2))
    with (test_call s t (ut_host s <| host_cycle := u64 (host_cycle (ut_host s) + 1) |>) (ut_world s)).
  rewrite E, outcome_bind_ok. cbv beta iota.
  assert (Hs2 : s2 ≡ s) by done. clearbody s2.
  destruct Hr as [-> | ->].
  - change (0 <? 0) with false. change (0 =? 1) with false. cbv iota. rewrite outcome_bind_ok.
    eexists. split; [reflexivity|]. split; [reflexivity|]. apply set_ut_op_proper. by rewrite Hs2.
  - change (1 <? 0) with false. change (0 <? 1) with true. cbv iota. rewrite outcome_bind_ok. cbv beta iota.
    change (1 <? 0) with false. change (0 <? 1) with true. change (1 <? 1) with false. change (1 =? 1) with true.
    cbv iota. eexists. split; [reflexivity|]. split; [reflexivity|]. by rewrite Hs2.
Qed.

Lemma idle_edge s s0 inp n t t0 h w r h' t' w' :
  s ≡ between s0 n t h w -> current s0 t0 -> ulpi_bus_is_idle inp = true ->
  call_gives n t h w r h' t' w' -> r = 0 \/ r = 1 ->
  exists s' c, ut_edge s inp = Ok (0, s', inp) /\
    s' ≡ if r =? 1 then after_test s (h' <| host_cycle := c |>) t' w'
         else after_call s (h' <| host_cycle := c |>) t' w' <| ut_op := UT_Test |>.
Proof.
  intros Hs Hc Hi Hcall Hr.
  assert (Hc' : current s t) by (rewrite Hs; by eapply current_between).
  set (c := u64 (host_cycle (ut_host s) + 1)).
  destruct (call_edge s inp t r (h' <| host_cycle := c |>) t' w') as (s' & H1 & _ & H2);
    [by rewrite Hs|done|done|done| |by exists s', c].
  unfold test_call. rewrite (ut_test_step_proper _ _ Hs), (ut_world_proper _ _ Hs), (ut_host_equiv _ _ Hs).
  exact (Hcall c).
Qed.

Lemma between_cycle s n t h w c : between s n t (h <| host_cycle := c |>) w ≡ between s n t h w.
Proof. constructor. by destruct h. Qed.

Lemma at_op_between s op n t h w x :
  at_op (between s n t h w <| ut_op := op |>) UT_Idle x = between s n t (h <| host_xfer := x |>) w.
Proof. done. Qed.

#[export] Instance set_curr_proper c : Proper ((≡) ==> (≡)) (fun s => s <| ut_test_curr := c |>).
Proof.
  intros s s' [H]. constructor. unfold ut_norm in *.
  destruct s as [? ? ? ? ? [] ? ? ? ? ? ? ?], s' as [? ? ? ? ? [] ? ? ? ? ? ? ?].
  cbn in *. injection H; intros; by subst.
Qed.

(** One round. *)
Lemma control_round s s0 inp n t t0 h w h' t' w' k f ty enter x ins outs x' :
  s ≡ between s0 n t h w -> current s0 t0 -> ulpi_bus_is_idle inp = true ->
  call_gives n t h w 0 h' t' w' ->
  ctl_phase k f ty enter -> host_op h' = HostSETUP -> host_step h' = k ->
  enter (host_xfer h') = x -> data0_ready k (host_xfer h') -> packet f ty x ins outs x' ->
  exists s', edges s (inp :: ins) (received outs) s' /\
    s' ≡ between s0 (n + 1) t' (h' <| host_xfer := x' |>) w'.
Proof.
  intros Hs Hc Hi Hcall Hph Hop Hk Hx Hd Hp.
  destruct (idle_edge s s0 inp n t t0 h w 0 h' t' w' Hs Hc Hi Hcall ltac:(by left)) as (s1 & c & H1 & H2).
  change (0 =? 1) with false in H2. cbv iota in H2.
  assert (H3 : s1 ≡ between s0 (n + 1) t' h' w' <| ut_op := UT_Test |>).
  { rewrite H2. apply set_ut_op_proper.
    rewrite (after_call_proper _ _ Hs _ _ eq_refl _ _ eq_refl _ _ eq_refl), after_call_between.
    apply between_cycle. }
  pose proof (ut_host_equiv _ _ H3) as Hh.
  change (ut_host (between s0 (n + 1) t' h' w' <| ut_op := UT_Test |>)) with h' in Hh.
  destruct (phase_edges k f ty enter x ins outs x' Hph Hp s1) as (s2 & H4 & H5).
  { by rewrite H3. }
  { rewrite Hh. exact Hop. }
  { rewrite Hh. exact Hk. }
  { rewrite Hh. exact Hx. }
  { rewrite Hh. exact Hd. }
  exists s2. split.
  - exists (inp :: outs). cbn [ut_edges length replicate]. rewrite H1, outcome_bind_ok, H4, outcome_bind_ok.
    split; [done|]. unfold received. cbn. by rewrite idle_received.
  - rewrite H5. rewrite (at_op_proper _ _ H3 _ _ eq_refl _ _ eq_refl). by rewrite at_op_between.
Qed.

(** The last call. *)
Lemma control_end s s0 inp n t t0 h w h' t' w' :
  s ≡ between s0 n t h w -> current s0 t0 -> ulpi_bus_is_idle inp = true ->
  call_gives n t h w 1 h' t' w' ->
  exists s', edges s [inp] [] s' /\
    s' ≡ between s0 0 t' h' w' <| ut_test_curr := ut_test_curr s0 + 1 |>.
Proof.
  intros Hs Hc Hi Hcall.
  destruct (idle_edge s s0 inp n t t0 h w 1 h' t' w' Hs Hc Hi Hcall ltac:(by right)) as (s1 & c & H1 & H2).
  change (1 =? 1) with true in H2. cbv iota in H2. exists s1. split.
  - exists [inp]. cbn [ut_edges length replicate]. rewrite H1, outcome_bind_ok. split; [done|].
    unfold received. cbn. by rewrite idle_received.
  - rewrite H2, (after_test_proper _ _ Hs _ _ eq_refl _ _ eq_refl _ _ eq_refl), after_test_between.
    apply set_curr_proper, between_cycle.
Qed.
