(* ===== verification/ControlStages.v ===== *)
(** The stages of a control transaction, each packet of it as one round of the
    simulator: a call of the test case on an idle bus, then the packet. *)

From S2P Require Import Prelude Gf2 UsbCrc Ulpi UlpiSafe UlpiTrace UlpiRecv StdReq.
From S2P Require Import StdReqProps UsbHost UsbHostProps UsbHostTrans UsbHostIn.
From S2P Require Import TestCases TestCasesProps UlpiSim UlpiSimProps UsbControl.

#[local] Opaque crc16_calc crc5_calc crc5_check crc16_check.
#[local] Opaque tc_init tc_step usbh_step.

(** The host when the request is queued. *)
Definition requested (h : usb_host_t) (req : usb_stdreq_t) : usb_host_t :=
  h <| host_xfer := stdreq_xfer h req |> <| host_op := HostSETUP |> <| host_step := 0 |>.

(** ** Between the phases *)

Definition hseq0 (h : usb_host_t) (v : Z) : usb_host_t :=
  h <| host_xfer := host_xfer h <| ep_seq := <[0%nat := v]> (ep_seq (host_xfer h)) |> |>.

Lemma host_seq0_ok h v : (0 < length (ep_seq (host_xfer h)))%nat -> host_seq0 h v = Ok (hseq0 h v).
Proof. intros H. unfold host_seq0. by rewrite write_at_in, outcome_bind_ok by lia. Qed.

Lemma between_start s t : current s t -> ut_op s = UT_Idle -> ut_test_step s = 0 ->
  s ≡ between s 0 t (ut_host s) (ut_world s).
Proof.
  intros [_ Ht] Ho Hs. constructor. unfold ut_norm, between. destruct s. cbn in *. subst.
  by rewrite list_insert_id.
Qed.

(** A write of the bit that is there already. *)
Lemma host_seq0_same h v : ep_seq (host_xfer h) !! 0%nat = Some v -> host_seq0 h v = Ok h.
Proof.
  intros H. rewrite host_seq0_ok by (by apply lookup_lt_Some in H). unfold hseq0.
  rewrite list_insert_id by done. by destruct h as [? ? ? ? [] ? ? ? ? ? ? ?].
Qed.

(** The SETUP stage on the bus: the token, the request, and the device's ACK. *)
Definition setup_token (x : transfer_t) : list Z := [0x2D; tok1 x; tok2 x].
Definition setup_data (req : usb_stdreq_t) (x : transfer_t) : list Z :=
  0xC3 :: stdreq_setup_bytes req ++ [crc1 x; crc2 x].
Definition in_token (x : transfer_t) : list Z := [0x69; tok1 x; tok2 x].

(** A transfer that is set up for the SETUP stage. *)
Record setup_xfer (x : transfer_t) (req : usb_stdreq_t) : Prop := {
  sx_type : type x = SETUP;
  sx_stage : stage x = NoXfer;
  sx_ep : endpoint x = 0;
  sx_seq : ep_seq x !! 0%nat = Some SIG0;
  sx_tx : take 8 (tx x) = stdreq_setup_bytes req;
  sx_len : tx_len x = 8;
  sx_ptr : tx_ptr x = 0;
}.

Lemma stdreq_setup_xfer h req : buffers (host_xfer h) -> setup_xfer (stdreq_xfer h req) req.
Proof.
  intros [Hl _ _ _]. constructor; try reflexivity.
  change (<[0%nat := SIG0]> (ep_seq (host_xfer h)) !! 0%nat = Some SIG0).
  apply list_lookup_insert_eq. lia.
Qed.

Lemma stdreq_xfer_rx h req : rx (stdreq_xfer h req) = rx (host_xfer h).
Proof. reflexivity. Qed.

(** The host of a control transaction, in phase [k] with transfer [x]. *)
Definition in_control (h : usb_host_t) (k : Z) (x : transfer_t) : usb_host_t :=
  h <| host_op := HostSETUP |> <| host_step := k |> <| host_xfer := x |>.

Lemma stdreq_xfer_cycle h req c : stdreq_xfer (h <| host_cycle := c |>) req = stdreq_xfer h req.
Proof. by destruct h. Qed.

Lemma requested_cycle h req c :
  requested (h <| host_cycle := c |>) req = in_control h 0 (stdreq_xfer h req) <| host_cycle := c |>.
Proof. unfold requested. by rewrite stdreq_xfer_cycle. Qed.

(** The transfer when the device has acknowledged the request. *)
Definition setup_over (x : transfer_t) : transfer_t :=
  x <| tx_ptr := 8 |> <| type := UpACK |> <| ep_seq := <[0%nat := SIG1]> (ep_seq x) |>.

(** A round whose call leaves the host in phase [k]. *)
Lemma phase_round s s0 inp n t t0 h w h0 x t' w' k f ty enter ins outs x' :
  s ≡ between s0 n t h w -> current s0 t0 -> ulpi_bus_is_idle inp = true ->
  call_gives n t h w 0 (in_control h0 k x) t' w' ->
  ctl_phase k f ty enter -> data0_ready k x -> packet f ty (enter x) ins outs x' ->
  exists s', edges s (inp :: ins) (received outs) s' /\ s' ≡ between s0 (n + 1) t' (in_control h0 k x') w'.
Proof.
  intros Hs Hc Hi Hcall Hph Hd Hp.
  exact (control_round s s0 inp n t t0 h w (in_control h0 k x) t' w' k f ty enter (enter x) ins outs x'
    Hs Hc Hi Hcall Hph eq_refl eq_refl eq_refl Hd Hp).
Qed.

(** The calls that only move on to the next phase. *)
Lemma next_call n k t t' h0 x w :
  n <> 0 -> 0 <= k < 10 -> (forall c, tc_step t (in_control h0 k x <| host_cycle := c |>) w =
    Ok (0, host_next (in_control h0 k x <| host_cycle := c |>), t', w)) ->
  call_gives n t (in_control h0 k x) w 0 (in_control h0 (k + 1) x) t' w.
Proof.
  intros Hn%Z.eqb_neq Hk Hcall c. rewrite Hn, Hcall. do 3 f_equal.
  unfold host_next, in_control. destruct h0. cbn. by rewrite u32_small by lia.
Qed.

(** The three rounds of the SETUP stage. *)
Lemma setup_round s s0 i0 n t t' t0 w0 w h h0 x :
  type x = SETUP -> stage x = NoXfer -> s0 ≡ between s n t' h w0 -> current s t ->
  ulpi_bus_is_idle i0 = true -> call_gives n t' h w0 0 (in_control h0 0 x) t0 w ->
  exists s', edges s0 (i0 :: sending (setup_token x)) (setup_token x) s' /\
    s' ≡ between s (n + 1) t0 (in_control h0 0 (token_done x)) w.
Proof.
  intros Hty Hst Hs Hc Hi Hcall. pose proof (token_packet x ltac:(by rewrite Hty) Hst) as P0. rewrite Hty in P0.
  destruct (phase_round s0 s i0 n t' t h w0 h0 x t0 w 0 _ _ _ _ _ _ Hs Hc Hi Hcall phase_setup ltac:(by intros [=]) P0)
    as (s1 & E1 & H1). rewrite received_packet in E1. by exists s1.
Qed.

Lemma data0_round s s0 i1 n t t0 t1 w h0 x req :
  type x = XferIdle -> stage x = NoXfer -> endpoint x = 0 -> ep_seq x !! 0%nat = Some SIG0 ->
  take 8 (tx x) = stdreq_setup_bytes req -> tx_len x = 8 -> tx_ptr x = 0 ->
  s0 ≡ between s n t0 (in_control h0 0 x) w -> current s t ->
  ulpi_bus_is_idle i1 = true -> call_gives n t0 (in_control h0 0 x) w 0 (in_control h0 1 x) t1 w ->
  exists s', edges s0 (i1 :: sending (setup_data req x)) (setup_data req x) s' /\
    s' ≡ between s (n + 1) t1 (in_control h0 1 (data_done x 8)) w.
Proof.
  intros Hty Hst He Hq Htx Hl Hp Hs Hc Hi Hcall. set (y := x <| type := DnDATA0 |> <| stage := NoXfer |>).
  assert (Hy : enter_type x DnDATA0 = y) by (unfold enter_type; by rewrite Hty).
  assert (P1 : sends y (stdreq_setup_bytes req)) by (constructor; [done|by cbn; rewrite He|exact Htx|exact Hl]).
  pose proof (datax_packet y _ P1 eq_refl Hp) as P.
  assert (Hf : first_crc y = crc1 x) by (unfold first_crc; cbn; by rewrite Hl). rewrite Hf, <- Hy in P.
  change (type (enter_type x DnDATA0)) with (type (enter_type x DnDATA0)) in P.
  assert (Hty' : type (enter_type x DnDATA0) = DnDATA0) by (by rewrite Hy). rewrite Hty' in P.
  destruct (phase_round s0 s i1 n t0 t _ w h0 x t1 w 1 _ _ _ _ _ _ Hs Hc Hi Hcall phase_data0
    ltac:(intros _; right; by rewrite Hl) P) as (s1 & E1 & H1).
  rewrite received_packet in E1. exists s1. split.
  - replace (crc2 (enter_type x DnDATA0)) with (crc2 x) in E1 by (by rewrite Hy). exact E1.
  - rewrite H1, Hy. done.
Qed.

(** The rounds of the other stages; the call before has set [x]. *)
Section Round.
Context (s s0 : ut_state_t) (inp : ulpi_bus_t) (n : Z) (t tc tc' : testcase_t) (w : world) (h0 : usb_host_t).
Context (h : usb_host_t) (x : transfer_t) (k : Z).
Context (Hs : s0 ≡ between s n tc h w) (Hc : current s t) (Hi : ulpi_bus_is_idle inp = true).
Context (Hcall : call_gives n tc h w 0 (in_control h0 k x) tc' w) (Hk : k <> 1).

Lemma not_data0 : data0_ready k x.
Proof using Hk. by intros E. Qed.

Lemma enter_other t' : type x <> t' -> enter_type x t' = x <| type := t' |> <| stage := NoXfer |>.
Proof using Type.
  intros H. unfold enter_type. destruct (type_eqb (type x) t') eqn:E; [|done]. by apply type_eqb_eq in E.
Qed.

Lemma token_round t' :
  ctl_phase k token_send_step t' (fun x => enter_type x t') -> is_token t' = true -> type x <> t' ->
  let bytes := [token_pid_byte t'; tok1 x; tok2 x] in
  exists s', edges s0 (inp :: sending bytes) bytes s' /\
    s' ≡ between s (n + 1) tc' (in_control h0 k (token_done x)) w.
Proof using All.
  intros Hph Htok Hty. cbv zeta. pose proof (enter_other t' Hty) as Hy.
  set (y := x <| type := t' |> <| stage := NoXfer |>) in Hy.
  assert (P : packet token_send_step t' (enter_type x t') (sending [token_pid_byte t'; tok1 x; tok2 x])
    (packet_trace [token_pid_byte t'; tok1 x; tok2 x]) (token_done y)) by (rewrite Hy; exact (token_packet y Htok eq_refl)).
  destruct (phase_round s0 s inp n tc t h w h0 x tc' w k _ _ _ _ _ _ Hs Hc Hi Hcall Hph not_data0 P) as (s1 & E1 & H1).
  rewrite received_packet in E1. exists s1. split; [exact E1|]. rewrite H1. done.
Qed.

Lemma ack_round acks v :
  ctl_phase k ack_recv_step UpACK (fun x => enter_type x UpACK) -> type x <> UpACK ->
  endpoint x = 0 -> ep_seq x !! 0%nat = Some v -> link_acks acks ->
  exists s', edges s0 (inp :: acks) [] s' /\
    s' ≡ between s (n + 1) tc' (in_control h0 k (ack_done (x <| type := UpACK |>) v)) w.
Proof using All.
  intros Hph Hty He Hq Hack. pose proof (enter_other UpACK Hty) as Hy.
  set (y := x <| type := UpACK |> <| stage := NoXfer |>) in Hy.
  destruct (ack_recv_packet y acks v eq_refl eq_refl Hack ltac:(cbn; by rewrite He) ltac:(cbn; by rewrite He)) as (o & P & N).
  rewrite <- Hy in P at 1.
  destruct (phase_round s0 s inp n tc t h w h0 x tc' w k _ _ _ _ _ _ Hs Hc Hi Hcall Hph not_data0 P) as (s1 & E1 & H1).
  rewrite N in E1. exists s1. split; [exact E1|]. rewrite H1. subst y. by destruct x.
Qed.

Lemma send_ack_round :
  ctl_phase k ack_send_step DnACK (fun x => enter_type x DnACK) -> type x <> DnACK ->
  exists s', edges s0 (inp :: sending [0xD2]) [0xD2] s' /\
    s' ≡ between s (n + 1) tc' (in_control h0 k (token_done x)) w.
Proof using All.
  intros Hph Hty. pose proof (enter_other DnACK Hty) as Hy.
  set (y := x <| type := DnACK |> <| stage := NoXfer |>) in Hy.
  assert (P : packet ack_send_step DnACK (enter_type x DnACK) (sending [0xD2]) (packet_trace [0xD2]) (token_done y))
    by (rewrite Hy; exact (ack_send_packet y eq_refl eq_refl)).
  destruct (phase_round s0 s inp n tc t h w h0 x tc' w k _ _ _ _ _ _ Hs Hc Hi Hcall Hph not_data0 P) as (s1 & E1 & H1).
  rewrite received_packet in E1. exists s1. split; [exact E1|]. rewrite H1. done.
Qed.

Lemma recv_round ins bytes :
  ctl_phase k datax_recv_step UpDATA1 enter_recv -> type x <> UpDATA1 -> endpoint x = 0 ->
  ep_seq x !! 0%nat = Some SIG1 -> Forall is_byte (rx x) -> length (rx x) = 512%nat -> link_data 1 ins bytes ->
  exists s' x', edges s0 (inp :: ins) [] s' /\ holds x bytes x' /\
    s' ≡ between s (n + 1) tc' (in_control h0 k x') w.
Proof using All.
  intros Hph Hty He Hq Hrx Hlen Hdata.
  set (y := x <| type := UpDATA1 |> <| stage := NoXfer |> <| rx_len := MAX_PACKET_SIZE |> <| rx_ptr := 0 |>).
  assert (Hy : enter_recv x = y).
  { unfold enter_recv. destruct (type_eqb (type x) UpDATA1) eqn:E; [|done]. by apply type_eqb_eq in E. }
  destruct (recv_packet y 1 ins bytes eq_refl eq_refl ltac:(cbn; by rewrite He) Hrx Hlen Hdata) as (x' & (o & P & N) & Hh).
  change (type y) with UpDATA1 in P. rewrite <- Hy in P.
  destruct (phase_round s0 s inp n tc t h w h0 x tc' w k _ _ _ _ _ _ Hs Hc Hi Hcall Hph not_data0 P) as (s1 & E1 & H1).
  rewrite N in E1. exists s1, x'. split; [exact E1|]. split; [|exact H1]. destruct Hh. by constructor.
Qed.

Lemma zdp_round :
  ctl_phase k datax_send_step DnDATA1 enter_zdp -> type x = DnDATA1 -> stage x = NoXfer -> tx_len x = 0 ->
  crc2 x = 0 -> endpoint x = 0 -> ep_seq x !! 0%nat = Some SIG1 ->
  exists s', edges s0 (inp :: sending [0x4B; 0x00; 0x00]) [0x4B; 0x00; 0x00] s' /\
    s' ≡ between s (n + 1) tc' (in_control h0 k (token_done x)) w.
Proof using All.
  intros Hph Hty Hst Hl Hcrc He Hq.
  assert (Hy : enter_zdp x = x) by (unfold enter_zdp; by rewrite Hty).
  assert (P : packet datax_send_step DnDATA1 (enter_zdp x) (sending [0x4B; 0x00; 0x00])
    (packet_trace [0x4B; 0x00; 0x00]) (token_done x)) by (rewrite Hy; apply zdp_packet; try done; by rewrite He).
  destruct (phase_round s0 s inp n tc t h w h0 x tc' w k _ _ _ _ _ _ Hs Hc Hi Hcall Hph not_data0 P) as (s1 & E1 & H1).
  rewrite received_packet in E1. by exists s1.
Qed.

End Round.

(** ** The SETUP stage of any control transaction *)

Section Setup.
Context (s s0 : ut_state_t) (req : usb_stdreq_t) (x : transfer_t) (n : Z) (t t' t0 t1 t2 : testcase_t) (w0 w : world).
Context (h h0 : usb_host_t) (i0 i1 i2 : ulpi_bus_t) (acks : list ulpi_bus_t).
Context (Hx : setup_xfer x req) (Hn : 0 <= n) (Hs : s0 ≡ between s n t' h w0) (Hc : current s t).
Context (Hinit : call_gives n t' h w0 0 (in_control h0 0 x) t0 w).
Context (Hset : forall h, ep_seq (host_xfer h) !! 0%nat = Some SIG0 -> tc_step t0 h w = Ok (0, host_next h, t1, w)).
Context (Hdat : forall h, tc_step t1 h w = Ok (0, host_next h, t2, w)).
Context (Hi0 : ulpi_bus_is_idle i0 = true) (Hi1 : ulpi_bus_is_idle i1 = true) (Hi2 : ulpi_bus_is_idle i2 = true).
Context (Hack : link_acks acks).

Definition setup_cycles : list ulpi_bus_t :=
  (i0 :: sending (setup_token x)) ++ (i1 :: sending (setup_data req x)) ++ (i2 :: acks).

(** The test is called three times. *)
Lemma setup_stage :
  exists s', edges s0 setup_cycles (setup_token x ++ setup_data req x) s' /\
    s' ≡ between s (n + 3) t2 (in_control h0 2 (setup_over x)) w.
Proof using All.
  destruct Hx as [Hty Hst He Hq Htx Hl Hp].
  destruct (setup_round s s0 i0 n t t' t0 w0 w h h0 x Hty Hst Hs Hc Hi0 Hinit) as (s1 & E1 & H1).
  assert (C1 : call_gives (n + 1) t0 (in_control h0 0 (token_done x)) w 0 (in_control h0 1 (token_done x)) t1 w)
    by (apply next_call; [lia|lia|intros c; by apply Hset]).
  destruct (data0_round s s1 i1 (n + 1) t t0 t1 w h0 (token_done x) req eq_refl eq_refl He Hq Htx Hl Hp H1 Hc Hi1 C1)
    as (s2 & E2 & H2).
  set (x2 := data_done (token_done x) 8) in H2.
  assert (C2 : call_gives (n + 1 + 1) t1 (in_control h0 1 x2) w 0 (in_control h0 2 x2) t2 w)
    by (apply next_call; [lia|lia|intros c; by apply Hdat]).
  destruct (ack_round s s2 i2 (n + 1 + 1) t t1 t2 w h0 _ x2 2 H2 Hc Hi2 C2 ltac:(done) acks SIG0 phase_ack0 ltac:(done) He Hq Hack)
    as (s3 & E3 & H3).
  exists s3. split.
  - pose proof (edges_app _ _ _ _ _ _ _ E1 (edges_app _ _ _ _ _ _ _ E2 E3)) as E. rewrite app_nil_r in E. exact E.
  - replace (n + 3) with (n + 1 + 1 + 1) by lia. rewrite H3. destruct x. cbn in He, Hst. by subst.
Qed.
End Setup.

(** ** The IN stage: a token, the data packet DATA1 of the device, the host's ACK *)

Section InStage.
Context (s s0 : ut_state_t) (n : Z) (t tc t3 t4 t5 : testcase_t) (w : world) (h h0 : usb_host_t) (x : transfer_t).
Context (i0 i1 i2 : ulpi_bus_t) (ins : list ulpi_bus_t) (bytes : list Z).
Context (Hn : 0 <= n) (Hs : s0 ≡ between s n tc h w) (Hc : current s t).
Context (Hcall : call_gives n tc h w 0 (in_control h0 3 x) t3 w).
Context (Hin : forall h, ep_seq (host_xfer h) !! 0%nat = Some SIG1 -> tc_step t3 h w = Ok (0, host_next h, t4, w)).
Context (Hdat : forall h, tc_step t4 h w = Ok (0, host_next h, t5, w)).
Context (Hi0 : ulpi_bus_is_idle i0 = true) (Hi1 : ulpi_bus_is_idle i1 = true) (Hi2 : ulpi_bus_is_idle i2 = true).
Context (Hdata : link_data 1 ins bytes).
Context (Hty : type x = UpACK) (He : endpoint x = 0) (Hq : ep_seq x !! 0%nat = Some SIG1).
Context (Hrx : Forall is_byte (rx x)) (Hlen : length (rx x) = 512%nat).

Definition in_cycles : list ulpi_bus_t := (i0 :: sending (in_token x)) ++ (i1 :: ins) ++ (i2 :: sending [0xD2]).

(** The test is called three times. *)
Lemma in_stage :
  exists s' x', edges s0 in_cycles (in_token x ++ [0xD2]) s' /\ holds (token_done x) bytes x' /\
    s' ≡ between s (n + 3) t5 (in_control h0 5 (token_done x')) w.
Proof using All.
  destruct (token_round s s0 i0 n t _ _ w h0 _ x 3 Hs Hc Hi0 Hcall ltac:(done) IN phase_in eq_refl
    ltac:(by rewrite Hty)) as (s1 & E1 & H1).
  set (x2 := token_done x) in *.
  assert (C4 : call_gives (n + 1) t3 (in_control h0 3 x2) w 0 (in_control h0 4 x2) t4 w)
    by (apply next_call; [lia|lia|]; intros c; by apply Hin).
  destruct (recv_round s s1 i1 (n + 1) t _ _ w h0 _ x2 4 H1 Hc Hi1 C4 ltac:(done) ins bytes phase_data1 ltac:(done) He Hq Hrx Hlen Hdata)
    as (s2 & x3 & E2 & G & H2).
  assert (C5 : call_gives (n + 1 + 1) t4 (in_control h0 4 x3) w 0 (in_control h0 5 x3) t5 w)
    by (apply next_call; [lia|lia|]; intros c; apply Hdat).
  destruct (send_ack_round s s2 i2 (n + 1 + 1) t _ _ w h0 _ x3 5 H2 Hc Hi2 C5 ltac:(done) phase_ack1
    ltac:(by rewrite (holds_type _ _ _ G))) as (s3 & E3 & H3).
  exists s3, x3. split; [|split; [done|]].
  - exact (edges_app _ _ _ _ _ _ _ E1 (edges_app _ _ _ _ _ _ _ E2 E3)).
  - by replace (n + 3) with (n + 1 + 1 + 1) by lia.
Qed.
End InStage.

(** ** The OUT stage: a token, the zero-length packet of the host, the device's ACK *)

Definition out_token (x : transfer_t) : list Z := [0xE1; tok1 x; tok2 x].

(** The transfer with the zero-length packet set up. *)
Definition zdp_xfer (x : transfer_t) : transfer_t :=
  x <| tx_len := 0 |> <| type := DnDATA1 |> <| crc1 := 0x00 |> <| crc2 := 0x00 |>.

(** The transfer when the device has acknowledged it. *)
Definition out_over (x : transfer_t) : transfer_t :=
  zdp_xfer x <| type := UpACK |> <| stage := NoXfer |> <| ep_seq := <[0%nat := SIG0]> (ep_seq x) |>.

Section OutStage.
Context (s s0 : ut_state_t) (n : Z) (t tc t6 t7 t8 : testcase_t) (w : world) (h0 : usb_host_t) (x : transfer_t).
Context (i0 i1 i2 : ulpi_bus_t) (acks : list ulpi_bus_t).
Context (Hn : 0 < n) (Hs : s0 ≡ between s n tc (in_control h0 5 x) w) (Hc : current s t).
Context (Hack0 : forall h, tc_step tc h w = Ok (0, host_next h, t6, w)).
Context (Hout : forall h, tc_step t6 h w = Ok (0, host_zdp (host_next h), t7, w)).
Context (Hzdp : forall h, tc_step t7 h w = Ok (0, host_next h, t8, w)).
Context (Hi0 : ulpi_bus_is_idle i0 = true) (Hi1 : ulpi_bus_is_idle i1 = true) (Hi2 : ulpi_bus_is_idle i2 = true).
Context (Hacks : link_acks acks).
Context (Hty : type x = XferIdle) (He : endpoint x = 0) (Hq : ep_seq x !! 0%nat = Some SIG1).

Definition out_cycles : list ulpi_bus_t :=
  (i0 :: sending (out_token x)) ++ (i1 :: sending [0x4B; 0x00; 0x00]) ++ (i2 :: acks).

Lemma zdp_call : call_gives (n + 1) t6 (in_control h0 6 (token_done x)) w 0
  (in_control h0 7 (zdp_xfer (token_done x))) t7 w.
Proof using Hn Hout.
  intros c. rewrite (proj2 (Z.eqb_neq (n + 1) 0)) by lia. by rewrite Hout.
Qed.

(** The test is called three times. *)
Lemma out_stage :
  exists s', edges s0 out_cycles (out_token x ++ [0x4B; 0x00; 0x00]) s' /\
    s' ≡ between s (n + 3) t8 (in_control h0 8 (out_over x)) w.
Proof using All.
  assert (C1 : call_gives n tc (in_control h0 5 x) w 0 (in_control h0 6 x) t6 w)
    by (apply next_call; [lia|lia|]; intros c; apply Hack0).
  destruct (token_round s s0 i0 n t _ _ w h0 _ x 6 Hs Hc Hi0 C1 ltac:(done) OUT phase_out eq_refl
    ltac:(by rewrite Hty)) as (s1 & E1 & H1).
  pose proof zdp_call as C2. set (x2 := zdp_xfer (token_done x)) in C2.
  destruct (zdp_round s s1 i1 (n + 1) t _ _ w h0 _ x2 7 H1 Hc Hi1 C2 ltac:(done) phase_zdp eq_refl eq_refl eq_refl
    eq_refl He Hq) as (s2 & E2 & H2).
  set (x3 := token_done x2) in H2.
  assert (C3 : call_gives (n + 1 + 1) t7 (in_control h0 7 x3) w 0 (in_control h0 8 x3) t8 w)
    by (apply next_call; [lia|lia|]; intros c; apply Hzdp).
  destruct (ack_round s s2 i2 (n + 1 + 1) t _ _ w h0 _ x3 8 H2 Hc Hi2 C3 ltac:(done) acks SIG1 phase_ack2 ltac:(done)
    He Hq Hacks) as (s3 & E3 & H3).
  exists s3. split.
  - pose proof (edges_app _ _ _ _ _ _ _ E1 (edges_app _ _ _ _ _ _ _ E2 E3)) as E. rewrite app_nil_r in E. exact E.
  - replace (n + 3) with (n + 1 + 1 + 1) by lia. rewrite H3. unfold ack_done.
    change (endpoint (x3 <| type := UpACK |>)) with (endpoint x). rewrite He. reflexivity.
Qed.
End OutStage.

(** ** Before and after a transaction *)

(** The transfer when the request is acknowledged, for the status stage. *)
Lemma setup_over_ready x req :
  setup_xfer x req -> Forall is_byte (rx x) -> length (rx x) = 512%nat ->
  let y := setup_over x in
  type y = UpACK /\ endpoint y = 0 /\ ep_seq y !! 0%nat = Some SIG1 /\ Forall is_byte (rx y) /\ length (rx y) = 512%nat.
Proof.
  intros [_ _ He Hq _ _ _] Hb Hl. split_and!; try done.
  apply list_lookup_insert_eq. by apply lookup_lt_Some in Hq.
Qed.

Lemma stdreq_xfer_buffers h req : buffers (host_xfer h) -> buffers (stdreq_xfer h req).
Proof.
  intros [H1 H2 H3 H4]. unfold stdreq_xfer.
  constructor; [|change (length (stdreq_bytes req ++ drop 16 (tx (host_xfer h))) = 512%nat)|exact H3|exact H4].
  - change (length (<[0%nat := SIG0]> (ep_seq (host_xfer h))) = 16%nat). by rewrite length_insert.
  - rewrite length_app, length_drop, H2. done.
Qed.

Lemma between_finished s s' t t' h w :
  s' ≡ between s 0 t h w <| ut_test_curr := ut_test_curr s + 1 |> -> current s t' ->
  ut_op s' = UT_Idle /\ ut_test_step s' = 0 /\ ut_test_curr s' = ut_test_curr s + 1 /\
  ut_tests s' !! Z.to_nat (ut_test_curr s) = Some t /\ ut_world s' = w /\
  exists c, ut_host s' = h <| host_cycle := c |>.
Proof.
  intros H [_ Hc]. split_and!; [by rewrite H|by rewrite H|by rewrite H| |by rewrite H|].
  - rewrite H. apply list_lookup_insert_eq. by apply lookup_lt_Some in Hc.
  - eexists. exact (ut_host_equiv _ _ H).
Qed.

(** ** Examples of a simulator and of a link *)

Definition ut_example (t : testcase_t) : ut_state_t :=
  MkUt 0 0 0 ulpi_bus_zero phy_zero host_zero 0 1 0 0 [t] UT_Idle (MkWorld rng_example rng_example [] []).

Lemma ack_cycles_acks : link_acks ack_cycles.
Proof.
  exists [bus_quiet], (link_cycle SIG0 SIG0 ULPITX_ACK), [link_cycle SIG0 SIG1 ULPITX_ACK], (link_cycle SIG1 SIG0 0), bus_quiet.
  constructor; [done|by repeat constructor|]. constructor; try done; repeat constructor; discriminate.
Qed.

(** The zero-length packet DATA1 of a device. *)
Definition zdp_cycles : list ulpi_bus_t :=
  ([bus_quiet] ++ [link_cycle SIG0 SIG0 ULPITX_DATA1; link_cycle SIG0 SIG1 ULPITX_DATA1] ++ [link_cycle SIG0 SIG0 0]) ++
  [link_cycle SIG0 SIG1 0] ++ [link_cycle SIG0 SIG1 0] ++ [link_cycle SIG1 SIG0 0] ++
  [bus_released; bus_rx_cmd 0x4C; bus_rx_cmd 0x4D; bus_released].

Lemma zdp_cycles_data : link_data 1 zdp_cycles [0; 0].
Proof.
  apply (link_data_cycles 1 [bus_quiet] _ _ [link_cycle SIG0 SIG0 0] (link_cycle SIG0 SIG1 0) [link_cycle SIG0 SIG1 0]).
  - constructor; try done; repeat constructor; discriminate.
  - exact in_eop_example.
  - vm_compute. repeat constructor; discriminate.
  - vm_compute. lia.
  - vm_compute. reflexivity.
Qed.

