(* ===== verification/ControlWrite.v ===== *)
(** Control writes, SET ADDRESS and SET CONFIGURATION: the whole transaction over the
    clock edges of the simulator, against what USB 2.0 asks for. *)

From S2P Require Import Prelude Gf2 UsbCrc Ulpi UlpiSafe UlpiTrace UlpiRecv StdReq.
From S2P Require Import StdReqProps UsbHost UsbHostProps UsbHostTrans UsbHostIn.
From S2P Require Import TestCases TestCasesProps UlpiSim UlpiSimProps UsbControl ControlStages.

#[local] Opaque crc16_calc crc5_calc crc5_check crc16_check.

(** ** The interface

    What a test case of a control write promises to the transaction: its states
    after each call, its request, and what it does to the host when the device has
    acknowledged the request. *)

Class ControlWrite : Type := {
  cw_first : testcase_t;
  cw_test : nat -> testcase_t;
  cw_done : testcase_t;
  cw_req : usb_stdreq_t;
  cw_accept : usb_host_t -> usb_host_t;
  cw_address : Z -> Z;
}.

Class ControlWriteLaws (C : ControlWrite) : Prop := {
  cw_req_wf : wf_stdreq cw_req;
  cw_init h w : wf_xfer (host_xfer h) -> tc_init cw_first h w = Ok (0, requested h cw_req, cw_test 0, w);
  cw_setup h w : tc_step (cw_test 0) h w = (h ← host_seq0 h SIG0; Ok (0, host_next h, cw_test 1, w));
  cw_data0 h w : tc_step (cw_test 1) h w = Ok (0, host_next h, cw_test 2, w);
  cw_ack0 h w : tc_step (cw_test 2) h w = Ok (0, host_next (cw_accept h), cw_test 3, w);
  cw_in h w : tc_step (cw_test 3) h w = (h ← host_seq0 h SIG1; Ok (0, host_next h, cw_test 4, w));
  cw_data1 h w : tc_step (cw_test 4) h w = Ok (0, host_next h, cw_test 5, w);
  cw_ack1 h w : tc_step (cw_test 5) h w = Ok (1, host_next h <| host_op := HostIdle |>, cw_done, w);
  cw_accept_frame h : exists a, cw_accept h =
    h <| host_addr := cw_address (host_addr h) |> <| host_xfer := host_xfer h <| address := a |> |>;
  cw_accept_cycle h c : cw_accept (h <| host_cycle := c |>) = cw_accept h <| host_cycle := c |>;
}.

(** ** The two tests *)

Definition set_address_req (addr : Z) : usb_stdreq_t := MkStdReq 0x00 STDREQ_SET_ADDRESS addr 0 0 0.
Definition set_config_req (conf : Z) : usb_stdreq_t := MkStdReq 0x00 STDREQ_SET_CONFIGURATION conf 0 0 0.

Definition setaddr_stage (n : nat) : SetAddr.setaddr_stage_t :=
  nth n [SetAddr.SendSETUP; SetAddr.SendDATA0; SetAddr.RecvACK0; SetAddr.SendIN; SetAddr.RecvDATA1;
         SetAddr.SendACK] SetAddr.AddrDone.
Definition setconf_stage (n : nat) : SetConf.set_stage_t :=
  nth n [SetConf.SendSETUP; SetConf.SendDATA0; SetConf.RecvACK0; SetConf.SendIN; SetConf.RecvDATA1;
         SetConf.SendACK] SetConf.SetDone.

#[export] Instance set_address_write (addr : Z) : ControlWrite := {|
  cw_first := TestSetAddr (SetAddr.MkSetAddr SetAddr.SendSETUP addr);
  cw_test n := TestSetAddr (SetAddr.MkSetAddr (setaddr_stage n) addr);
  cw_done := TestSetAddr (SetAddr.MkSetAddr SetAddr.AddrDone addr);
  cw_req := set_address_req addr;
  cw_accept h := h <| host_addr := addr |> <| host_xfer := host_xfer h <| address := addr |> |>;
  cw_address _ := addr;
|}.

#[export] Instance set_config_write (conf : Z) : ControlWrite := {|
  cw_first := TestSetConf (SetConf.MkSetConf SetConf.SendSETUP conf);
  cw_test n := TestSetConf (SetConf.MkSetConf (setconf_stage n) conf);
  cw_done := TestSetConf (SetConf.MkSetConf SetConf.SetDone conf);
  cw_req := set_config_req conf;
  cw_accept h := h;
  cw_address a := a;
|}.

Lemma write_req_wf r v : is_byte r -> is_byte v -> wf_stdreq (MkStdReq 0x00 r v 0 0 0).
Proof. unfold is_byte. intros Hr Hv. constructor; unfold is_byte; cbn [bmRequestType bRequest wValue wIndex wLength]; lia. Qed.

Lemma set_address_laws addr : is_byte addr -> ControlWriteLaws (set_address_write addr).
Proof.
  intros Ha. constructor.
  - by apply write_req_wf.
  - intros h w Hw. cbn [tc_init cw_first set_address_write]. unfold SetAddr.tc_setaddr_init, tc_call.
    unfold stdreq_set_address. rewrite stdreq_start_run by done. by rewrite !outcome_bind_ok.
  - intros h w. cbn. by destruct (host_seq0 h SIG0).
  - done.
  - done.
  - intros h w. cbn. by destruct (host_seq0 h SIG1).
  - done.
  - done.
  - intros h. by exists addr.
  - done.
Qed.

Lemma set_config_laws conf : is_byte conf -> ControlWriteLaws (set_config_write conf).
Proof.
  intros Ha. constructor.
  - by apply write_req_wf.
  - intros h w Hw. cbn [tc_init cw_first set_config_write]. unfold SetConf.tc_setconf_init, tc_call.
    unfold stdreq_set_config. rewrite stdreq_start_run by done. by rewrite !outcome_bind_ok.
  - intros h w. cbn. by destruct (host_seq0 h SIG0).
  - done.
  - done.
  - intros h w. cbn. by destruct (host_seq0 h SIG1).
  - done.
  - done.
  - intros h. exists (address (host_xfer h)). by destruct h as [? ? ? ? [] ? ? ? ? ? ? ?].
  - done.
Qed.

#[local] Opaque tc_init tc_step usbh_step.

(** ** Control writes *)

Section Write.
Context {C : ControlWrite} {Laws : ControlWriteLaws C}.

(** A simulator that is about to run the test. *)
Record write_ready (s : ut_state_t) : Prop := {
  wr_op : ut_op s = UT_Idle;
  wr_test : current s cw_first;
  wr_step : ut_test_step s = 0;
  wr_wf : wf_xfer (host_xfer (ut_host s));
}.

(** The cycles of the status stage: IN token, zero-length packet of the device, ACK. *)
Definition status_cycles (x : transfer_t) (i3 i4 i5 i6 : ulpi_bus_t) (ins : list ulpi_bus_t) : list ulpi_bus_t :=
  in_cycles x i3 i4 i5 ins ++ [i6].

Lemma status_stage s s0 t w h0 x i3 i4 i5 i6 ins bytes :
  s0 ≡ between s 3 (cw_test 2) (in_control h0 2 x) w -> current s t ->
  ulpi_bus_is_idle i3 = true -> ulpi_bus_is_idle i4 = true -> ulpi_bus_is_idle i5 = true ->
  ulpi_bus_is_idle i6 = true -> link_data 1 ins bytes ->
  type x = UpACK -> endpoint x = 0 -> ep_seq x !! 0%nat = Some SIG1 -> Forall is_byte (rx x) -> length (rx x) = 512%nat ->
  exists s' h', edges s0 (status_cycles x i3 i4 i5 i6 ins) (in_token x ++ [0xD2]) s' /\
    s' ≡ between s 0 cw_done h' w <| ut_test_curr := ut_test_curr s + 1 |> /\
    host_op h' = HostIdle /\ host_addr h' = cw_address (host_addr h0) /\
    rx_packet (host_xfer h') = bytes /\ rx_len (host_xfer h') = Z.of_nat (length bytes) - 2.
Proof using Laws.
  intros Hs Hc Hi3 Hi4 Hi5 Hi6 Hdata Hty He Hq Hrx Hlen.
  destruct (cw_accept_frame (in_control h0 2 x)) as [a Hacc].
  set (h1 := h0 <| host_addr := cw_address (host_addr h0) |>). set (x1 := x <| address := a |>).
  assert (C3 : call_gives 3 (cw_test 2) (in_control h0 2 x) w 0 (in_control h1 3 x1) (cw_test 3) w).
  { intros c. cbn [Z.eqb]. by rewrite cw_ack0, cw_accept_cycle, Hacc. }
  destruct (in_stage s s0 3 t _ _ (cw_test 4) (cw_test 5) w _ h1 x1 i3 i4 i5 ins bytes ltac:(done) Hs Hc C3)
    as (s3 & x3 & E3 & G & H3); try done.
  { intros h Hh. by rewrite cw_in, host_seq0_same. }
  { intros h. apply cw_data1. }
  change (3 + 3) with 6 in H3.
  set (hf := host_next (in_control h1 5 (token_done x3)) <| host_op := HostIdle |>).
  assert (C6 : call_gives 6 (cw_test 5) (in_control h1 5 (token_done x3)) w 1 hf cw_done w).
  { intros c. cbn [Z.eqb]. by rewrite cw_ack1. }
  destruct (control_end s3 s i6 6 _ t _ w hf _ w H3 Hc Hi6 C6) as (s4 & E4 & H4).
  destruct G as [_ _ _ _ G1 G2 _]. exists s4, hf. split; [|by split_and!].
  pose proof (edges_app _ _ _ _ _ _ _ E3 E4) as E. rewrite app_nil_r in E. exact E.
Qed.

Lemma write_init h w :
  wf_xfer (host_xfer h) -> call_gives 0 cw_first h w 0 (in_control h 0 (stdreq_xfer h cw_req)) (cw_test 0) w.
Proof using Laws. intros Hwf c. cbn [Z.eqb]. rewrite cw_init by exact Hwf. by rewrite requested_cycle. Qed.

Lemma write_setup s x i0 i1 i2 acks :
  write_ready s ->
  call_gives 0 cw_first (ut_host s) (ut_world s) 0 (in_control (ut_host s) 0 x) (cw_test 0) (ut_world s) ->
  setup_xfer x cw_req -> ulpi_bus_is_idle i0 = true -> ulpi_bus_is_idle i1 = true -> ulpi_bus_is_idle i2 = true ->
  link_acks acks ->
  exists s1, edges s (setup_cycles cw_req x i0 i1 i2 acks) (setup_token x ++ setup_data cw_req x) s1 /\
    s1 ≡ between s 3 (cw_test 2) (in_control (ut_host s) 2 (setup_over x)) (ut_world s).
Proof using Laws.
  intros [Ho Hc Hstep Hwf] C0 Hx Hi0 Hi1 Hi2 Hack. pose proof (between_start s _ Hc Ho Hstep) as Hs.
  apply (setup_stage s s cw_req x 0 _ _ _ (cw_test 1) (cw_test 2) _ _ _ _ i0 i1 i2 acks Hx (Z.le_refl 0) Hs Hc C0); try done.
  - intros h1 H1. by rewrite cw_setup, host_seq0_same.
  - intros h1. apply cw_data0.
Qed.

Lemma write_run s x i0 i1 i2 i3 i4 i5 i6 acks ins bytes :
  write_ready s -> Forall (fun i => ulpi_bus_is_idle i = true) [i0; i1; i2; i3; i4; i5; i6] ->
  link_acks acks -> link_data 1 ins bytes ->
  call_gives 0 cw_first (ut_host s) (ut_world s) 0 (in_control (ut_host s) 0 x) (cw_test 0) (ut_world s) ->
  setup_xfer x cw_req -> Forall is_byte (rx x) -> length (rx x) = 512%nat ->
  sends_request x (host_addr (ut_host s)) cw_req ->
  exists s' x, sends_request x (host_addr (ut_host s)) cw_req /\
    edges s (setup_cycles cw_req x i0 i1 i2 acks ++ status_cycles x i3 i4 i5 i6 ins)
      ((setup_token x ++ setup_data cw_req x) ++ in_token x ++ [0xD2]) s' /\
    ut_op s' = UT_Idle /\ ut_test_step s' = 0 /\ ut_test_curr s' = ut_test_curr s + 1 /\
    ut_tests s' !! Z.to_nat (ut_test_curr s) = Some cw_done /\ ut_finish s' = ut_finish s /\
    host_op (ut_host s') = HostIdle /\ host_addr (ut_host s') = cw_address (host_addr (ut_host s)) /\
    rx_packet (host_xfer (ut_host s')) = bytes.
Proof using Laws.
  intros Hr Hi Hack Hdata C0 Hx Hb Hl Hsend.
  apply Forall_cons_1 in Hi as [Hi0 Hi]. apply Forall_cons_1 in Hi as [Hi1 Hi].
  apply Forall_cons_1 in Hi as [Hi2 Hi]. apply Forall_cons_1 in Hi as [Hi3 Hi].
  apply Forall_cons_1 in Hi as [Hi4 Hi]. apply Forall_cons_1 in Hi as [Hi5 Hi].
  apply Forall_cons_1 in Hi as [Hi6 _].
  destruct (write_setup s x i0 i1 i2 acks Hr C0 Hx Hi0 Hi1 Hi2 Hack) as (s1 & E1 & H1).
  destruct (setup_over_ready _ _ Hx Hb Hl) as (W1 & W2 & W3 & W4 & W5).
  destruct (status_stage s s1 _ _ _ (setup_over x) i3 i4 i5 i6 ins bytes H1 (wr_test _ Hr) Hi3 Hi4 Hi5 Hi6 Hdata W1 W2 W3 W4 W5)
    as (s2 & h2 & E2 & H2 & A1 & A2 & A3 & _).
  exists s2, x. split; [exact Hsend|]. split; [exact (edges_app _ _ _ _ _ _ _ E1 E2)|].
  destruct (between_finished s s2 _ _ h2 _ H2 (wr_test _ Hr)) as (B1 & B2 & B3 & B4 & B5 & c & B6).
  unfold ut_finish. rewrite B5, B6. by split_and!.
Qed.

(** C6.  SET ADDRESS and SET CONFIGURATION, end to end over the clock edges of the
    simulator.  For every link that acknowledges the request after any wait, and
    answers the IN token with any data packet DATA1 that passes its CRC16, with any
    wait states, and an idle bus between the packets: no edge fails, and what the
    link receives is exactly the SETUP token, the DATA0 packet of the request, the
    IN token and an ACK; both tokens still carry the address from before the
    request, with a valid CRC5.  Afterwards the test is finished and the next one
    is due, the host is idle, and it uses the new address. *)
Theorem control_write_transaction s i0 i1 i2 i3 i4 i5 i6 acks ins bytes :
  write_ready s -> Forall (fun i => ulpi_bus_is_idle i = true) [i0; i1; i2; i3; i4; i5; i6] ->
  link_acks acks -> link_data 1 ins bytes ->
  exists s' x, sends_request x (host_addr (ut_host s)) cw_req /\
    edges s (setup_cycles cw_req x i0 i1 i2 acks ++ status_cycles x i3 i4 i5 i6 ins)
      ((setup_token x ++ setup_data cw_req x) ++ in_token x ++ [0xD2]) s' /\
    ut_op s' = UT_Idle /\ ut_test_step s' = 0 /\ ut_test_curr s' = ut_test_curr s + 1 /\
    ut_tests s' !! Z.to_nat (ut_test_curr s) = Some cw_done /\ ut_finish s' = ut_finish s /\
    host_op (ut_host s') = HostIdle /\ host_addr (ut_host s') = cw_address (host_addr (ut_host s)) /\
    rx_packet (host_xfer (ut_host s')) = bytes.
Proof using Laws.
  intros Hr Hi Hack Hdata. pose proof (wr_wf _ Hr) as Hwf.
  pose proof (wf_buffers _ Hwf) as Hbuf. pose proof (stdreq_setup_xfer (ut_host s) cw_req Hbuf) as Hx.
  destruct (stdreq_xfer_buffers (ut_host s) cw_req Hbuf) as [_ _ Hl Hb].
  pose proof (stdreq_xfer_sends (ut_host s) cw_req Hbuf cw_req_wf) as Hsend.
  pose proof (write_init (ut_host s) (ut_world s) Hwf) as C0.
  exact (write_run s _ i0 i1 i2 i3 i4 i5 i6 acks ins bytes Hr Hi Hack Hdata C0 Hx Hb Hl Hsend).
Qed.
End Write.

(** ** Witness: the address of the schedule, 0x23 *)

Lemma ut_example_ready addr : is_byte addr -> write_ready (C := set_address_write addr) (ut_example (@cw_first (set_address_write addr))).
Proof. intros Ha. constructor; [done| |done|apply wf_zero]. by constructor. Qed.

Lemma control_write_transaction_witness : exists s' x ins,
  edges (ut_example (TestSetAddr (SetAddr.MkSetAddr SetAddr.SendSETUP 0x23))) ins
    (([0x2D; tok1 x; tok2 x] ++ 0xC3 :: [0; 5; 0x23; 0; 0; 0; 0; 0] ++ [crc1 x; crc2 x]) ++
     [0x69; tok1 x; tok2 x] ++ [0xD2]) s' /\
  Z.land (token_word x) 0x07FF = 0 /\ host_addr (ut_host s') = 0x23 /\ ut_test_curr s' = 1.
Proof.
  destruct (@control_write_transaction (set_address_write 0x23) (set_address_laws 0x23 ltac:(by split))
    (ut_example (@cw_first (set_address_write 0x23))) bus_quiet bus_quiet bus_quiet bus_quiet bus_quiet bus_quiet bus_quiet
    ack_cycles zdp_cycles [0; 0] (ut_example_ready 0x23 ltac:(by split)) ltac:(by repeat constructor)
    ack_cycles_acks zdp_cycles_data) as (s' & x & Hx & E & _ & _ & H1 & _ & _ & _ & H2 & _).
  exists s', x, (setup_cycles (@cw_req (set_address_write 0x23)) x bus_quiet bus_quiet bus_quiet ack_cycles ++
    status_cycles x bus_quiet bus_quiet bus_quiet bus_quiet zdp_cycles).
  split; [exact E|]. split; [exact (sr_address _ _ _ Hx)|]. split; [exact H2|exact H1].
Defined.
