(* ===== verification/ControlRead.v ===== *)
(** Control reads, GET DESCRIPTOR, GET CONFIGURATION, GET STRINGS and GET STATUS: the
    whole transactions over the clock edges of the simulator, one test case making
    any number of them one after the other. *)

From S2P Require Import Prelude Gf2 UsbCrc Ulpi UlpiSafe UlpiTrace UlpiRecv StdReq.
From S2P Require Import StdReqProps UsbHost UsbHostProps UsbHostTrans UsbHostIn.
From S2P Require Import TestCases TestCasesProps UlpiSim UlpiSimProps UsbControl ControlStages.

#[local] Opaque crc16_calc crc5_calc crc5_check crc16_check.

(** ** The interface

    What a test case that reads promises to the transactions: how many requests it
    makes and which ones, its state in each phase of each of them, and that the last
    call of one transaction prints the data and queues the next.  A request depends on
    the world by the addresses of [malloc] only. *)

Class ControlRead : Type := {
  cr_first : testcase_t;
  cr_test : nat -> getdesc_state_t -> testcase_t;
  cr_done : testcase_t;
  cr_count : nat;
  cr_req : nat -> world -> usb_stdreq_t;
  cr_world : nat -> world -> world;
}.

(** The host when it has finished a transaction. *)
Definition freed (h : usb_host_t) : usb_host_t := host_next h <| host_op := HostIdle |>.

Class ControlReadLaws (C : ControlRead) : Prop := {
  cr_req_wf i w : (i < cr_count)%nat -> wf_stdreq (cr_req i w);
  cr_some : (0 < cr_count)%nat;
  cr_init h w : buffers (host_xfer h) -> host_op h = HostIdle ->
    tc_init cr_first h w = Ok (0, requested h (cr_req 0 w), cr_test 0 SendSETUP, cr_world 0 w);
  cr_phase i st m h w : getdesc_phase h st = Some m ->
    tc_step (cr_test i st) h w = ('(h, st) ← m; Ok (0, h, cr_test i st, w));
  cr_next i h w0 : (S i < cr_count)%nat -> buffers (host_xfer h) ->
    let w := w_show (host_xfer h) w0 in
    tc_step (cr_test i RecvACK1) h w0 =
    Ok (0, requested (freed h) (cr_req (S i) w), cr_test (S i) SendSETUP, cr_world (S i) w);
  cr_last i h w : S i = cr_count ->
    tc_step (cr_test i RecvACK1) h w = Ok (1, freed h, cr_done, w_show (host_xfer h) w);
  cr_quiet i w : quiet w (cr_world i w);
  cr_req_show i x w : cr_req i (w_show x w) = cr_req i w;
}.

(** ** The three tests *)

Definition get_descriptor_req (num desc : Z) : usb_stdreq_t :=
  MkStdReq 0x80 STDREQ_GET_DESCRIPTOR num 0 MAX_CONFIG_SIZE desc.
Definition get_config_req (len : Z) : usb_stdreq_t :=
  MkStdReq 0x80 STDREQ_GET_DESCRIPTOR (u16 (Z.shiftl DESC_CONFIGURATION 8)) 0 len 0.
Definition get_device_req : usb_stdreq_t :=
  MkStdReq 0x80 STDREQ_GET_DESCRIPTOR (u16 (Z.shiftl DESC_DEVICE 8)) 0 MAX_CONFIG_SIZE 0.
Definition get_status_req : usb_stdreq_t := MkStdReq 0x80 STDREQ_GET_STATUS 0 0 2 0.

#[export] Instance get_descriptor_read : ControlRead := {|
  cr_first := test_getdesc;
  cr_test _ st := TestGetDesc st;
  cr_done := TestGetDesc DescDone;
  cr_count := 1;
  cr_req _ w := get_descriptor_req 0x0301 (w_malloc_next w).1;
  cr_world _ w := (w_malloc_next w).2;
|}.

#[export] Instance get_config_read : ControlRead := {|
  cr_first := test_getconf;
  cr_test i st := TestGetConf (GetConf.MkGetConf st (Z.of_nat i));
  cr_done := TestGetConf (GetConf.MkGetConf DescDone 3);
  cr_count := 3;
  cr_req i _ := nth i [get_device_req; get_config_req 9] (get_config_req 39);
  cr_world _ w := w;
|}.

#[export] Instance get_strings_read : ControlRead := {|
  cr_first := test_getstrs;
  cr_test i st := TestGetStrs (GetStrs.MkGetStrs st (Z.of_nat i));
  cr_done := TestGetStrs (GetStrs.MkGetStrs DescDone 5);
  cr_count := 5;
  cr_req i w := if decide (i < 4)%nat then get_descriptor_req (0x0300 + Z.of_nat i) (w_malloc_next w).1
                else get_status_req;
  cr_world i w := if decide (i < 4)%nat then (w_malloc_next w).2 else w;
|}.

Lemma read_req_wf r v n d : 0 <= v < 2 ^ 16 -> is_byte r -> 0 <= n < 2 ^ 16 -> wf_stdreq (MkStdReq 0x80 r v 0 n d).
Proof. unfold is_byte. intros Hv Hr Hn. constructor; unfold is_byte; cbn [bmRequestType bRequest wValue wIndex wLength]; lia. Qed.

(** The entry points of an idle host. *)
Lemma tc_get_descriptor_run h num w :
  buffers (host_xfer h) -> host_op h = HostIdle ->
  tc_get_descriptor h num w =
  Ok (1, requested h (get_descriptor_req num (w_malloc_next w).1), (w_malloc_next w).2).
Proof.
  intros Hb Ho. unfold tc_get_descriptor, stdreq_get_descriptor, get_descriptor. rewrite Ho.
  destruct (w_malloc_next w) as [d w']. cbn [negb host_op_eqb]. change (1 <? 0) with false. cbv iota.
  rewrite stdreq_start_queue by done. done.
Qed.

Lemma get_descriptor_laws : ControlReadLaws get_descriptor_read.
Proof.
  constructor; cbn [cr_first cr_test cr_done cr_count cr_req cr_world get_descriptor_read].
  - intros i w _. by apply read_req_wf.
  - lia.
  - intros h w Hb Ho. unfold test_getdesc. cbn [tc_init]. unfold tc_call, GetDesc.tc_getdesc_init.
    by rewrite tc_get_descriptor_run by done.
  - intros i st m h w Hm. cbn [tc_step]. unfold GetDesc.tc_getdesc_step. rewrite Hm.
    by destruct m as [[]| |].
  - intros i h w ?. lia.
  - intros i h w _. done.
  - intros i w. apply quiet_malloc.
  - done.
Qed.

Lemma get_config_run i h w :
  buffers (host_xfer h) -> host_op h = HostIdle -> (i < 3)%nat ->
  GetConf.tc_getconf_init h (GetConf.MkGetConf RecvACK1 (Z.of_nat i)) w =
  Ok (0, requested h (@cr_req get_config_read i w), GetConf.MkGetConf SendSETUP (Z.of_nat i), w).
Proof.
  intros Hb Ho Hi. unfold GetConf.tc_getconf_init, stdreq_get_desc_device, stdreq_get_desc_config.
  rewrite Ho. destruct i as [|[|[|i]]]; [..|lia]; cbn [GetConf.gc_stage];
    [change (Z.of_nat 0) with 0|change (Z.of_nat 1) with 1|change (Z.of_nat 2) with 2];
    cbn [Z.eqb Pos.eqb negb host_op_eqb]; cbv zeta; by rewrite stdreq_start_queue by done.
Qed.

Lemma get_config_laws : ControlReadLaws get_config_read.
Proof.
  constructor; cbn [cr_first cr_test cr_done cr_count cr_req cr_world get_config_read].
  - intros i w Hi. destruct i as [|[|[|i]]]; [..|lia]; by apply read_req_wf.
  - lia.
  - intros h w Hb Ho. unfold test_getconf. cbn [tc_init]. unfold tc_call.
    change (GetConf.tc_getconf_init h (GetConf.MkGetConf SendSETUP 0) w)
      with (GetConf.tc_getconf_init h (GetConf.MkGetConf RecvACK1 (Z.of_nat 0)) w).
    rewrite get_config_run by (done || lia). done.
  - intros i st m h w Hm. cbn [tc_step]. unfold GetConf.tc_getconf_step.
    cbn [GetConf.gc_step GetConf.gc_stage]. rewrite Hm. by destruct m as [[]| |].
  - intros i h w Hi Hb. cbn [tc_step]. unfold GetConf.tc_getconf_step, tc_call.
    cbn [GetConf.gc_step GetConf.gc_stage getdesc_phase].
    rewrite u8_small by lia. replace (Z.of_nat i + 1) with (Z.of_nat (S i)) by lia.
    rewrite (proj2 (Z.ltb_lt _ _)) by lia. fold (freed h).
    by rewrite get_config_run by done.
  - intros i h w [= ->]. done.
  - done.
  - done.
Qed.

Lemma get_strings_run i h w :
  buffers (host_xfer h) -> host_op h = HostIdle -> (i < 5)%nat ->
  GetStrs.tc_getstrs_init h (GetStrs.MkGetStrs RecvACK1 (Z.of_nat i)) w =
  Ok (0, requested h (@cr_req get_strings_read i w), GetStrs.MkGetStrs SendSETUP (Z.of_nat i), @cr_world get_strings_read i w).
Proof.
  intros Hb Ho Hi. unfold GetStrs.tc_getstrs_init, stdreq_get_status. cbn [GetStrs.gs_stage].
  rewrite (proj2 (Z.eqb_neq _ _)) by lia. cbn [cr_req cr_world get_strings_read].
  destruct (decide (i < 4)%nat) as [H4|H4].
  - rewrite !(proj2 (Z.leb_le _ _)) by lia. cbn [andb].
    by rewrite tc_get_descriptor_run by done.
  - replace i with 4%nat by lia. change ((0 <=? Z.of_nat 4) && (Z.of_nat 4 <=? 3)) with false.
    change (Z.of_nat 4 =? 4) with true. cbv iota. rewrite Ho. cbn [negb host_op_eqb].
    by rewrite stdreq_start_queue by done.
Qed.

Lemma get_strings_laws : ControlReadLaws get_strings_read.
Proof.
  constructor; cbn [cr_first cr_test cr_done cr_count get_strings_read].
  - intros i w Hi. cbn [cr_req get_strings_read]. case_decide; [|done]. apply read_req_wf; [lia|done|done].
  - lia.
  - intros h w Hb Ho. unfold test_getstrs. cbn [tc_init]. unfold tc_call.
    change (GetStrs.tc_getstrs_init h (GetStrs.MkGetStrs SendSETUP 0) w)
      with (GetStrs.tc_getstrs_init h (GetStrs.MkGetStrs RecvACK1 (Z.of_nat 0)) w).
    rewrite get_strings_run by (done || lia). done.
  - intros i st m h w Hm. cbn [tc_step]. unfold GetStrs.tc_getstrs_step.
    cbn [GetStrs.gs_step GetStrs.gs_stage]. rewrite Hm. by destruct m as [[]| |].
  - intros i h w Hi Hb. cbn [tc_step]. unfold GetStrs.tc_getstrs_step, tc_call.
    cbn [GetStrs.gs_step GetStrs.gs_stage getdesc_phase].
    rewrite u8_small by lia. replace (Z.of_nat i + 1) with (Z.of_nat (S i)) by lia.
    rewrite (proj2 (Z.ltb_lt _ _)) by lia. fold (freed h).
    by rewrite get_strings_run by done.
  - intros i h w [= ->]. done.
  - intros i w. cbn [cr_world get_strings_read]. case_decide; [apply quiet_malloc|done].
  - done.
Qed.

#[local] Opaque tc_init tc_step usbh_step.

(** ** What the link does, and what it gets *)

(** The link's part of one read: the bus between the packets, its two handshakes, its
    data packet, and the bytes of that packet, the two of the CRC included. *)
Record read_link : Type := MkReadLink {
  rl_idle : nat -> ulpi_bus_t;
  rl_ack : list ulpi_bus_t;
  rl_data : list ulpi_bus_t;
  rl_status : list ulpi_bus_t;
  rl_bytes : list Z;
}.

Record link_reads (l : read_link) : Prop := {
  lr_idle n : ulpi_bus_is_idle (rl_idle l n) = true;
  lr_ack : link_acks (rl_ack l);
  lr_data : link_data 1 (rl_data l) (rl_bytes l);
  lr_status : link_acks (rl_status l);
}.

Definition read_cycles (req : usb_stdreq_t) (x : transfer_t) (l : read_link) : list ulpi_bus_t :=
  setup_cycles req x (rl_idle l 0) (rl_idle l 1) (rl_idle l 2) (rl_ack l) ++
  in_cycles x (rl_idle l 3) (rl_idle l 4) (rl_idle l 5) (rl_data l) ++
  out_cycles x (rl_idle l 6) (rl_idle l 7) (rl_idle l 8) (rl_status l).

(** SETUP, DATA0 with the request, IN, ACK, OUT, DATA1 without data. *)
Definition read_packets (req : usb_stdreq_t) (x : transfer_t) : list Z :=
  (setup_token x ++ setup_data req x) ++ (in_token x ++ [0xD2]) ++ (out_token x ++ [0x4B; 0x00; 0x00]).

(** What [show_desc] prints of a packet: the data without its CRC, if it is not
    longer than a configuration. *)
Definition shown (bytes : list Z) : option (list Z) :=
  let n := (length bytes - 2)%nat in
  if MAX_CONFIG_SIZE <? Z.of_nat n then None else Some (take n bytes).

Lemma show_desc_shown x bytes :
  (2 <= length bytes)%nat -> rx_packet x = bytes -> rx_len x = Z.of_nat (length bytes) - 2 ->
  show_desc x = shown bytes.
Proof.
  intros Hl <- Hn. unfold show_desc, shown. rewrite Hn. unfold rx_packet in *.
  set (k := Z.to_nat (rx_ptr x)) in *. rewrite length_take in *.
  replace (Z.of_nat (k `min` length (rx x)) - 2) with (Z.of_nat (k `min` length (rx x) - 2)) by lia.
  rewrite (proj2 (Z.ltb_ge _ 0)) by lia. cbn [orb]. destruct (MAX_CONFIG_SIZE <? _); [done|].
  rewrite Nat2Z.id, take_take. do 2 f_equal. lia.
Qed.

(** ** One read *)

Section Read.
Context {C : ControlRead} {Laws : ControlReadLaws C}.

Lemma read_call i st st' h w :
  getdesc_phase h st = Some (Ok (host_next h, st')) ->
  tc_step (cr_test i st) h w = Ok (0, host_next h, cr_test i st', w).
Proof using Laws. intros H. by rewrite (cr_phase i st _ h w H). Qed.

Context (s s0 : ut_state_t) (i : nat) (n : Z) (t tc : testcase_t) (w0 w : world) (h h0 : usb_host_t).
Context (req : usb_stdreq_t) (x : transfer_t) (l : read_link).

Lemma one_read :
  0 <= n -> s0 ≡ between s n tc h w0 -> current s t ->
  call_gives n tc h w0 0 (in_control h0 0 x) (cr_test i SendSETUP) w ->
  setup_xfer x req -> buffers x -> link_reads l ->
  exists s' x', edges s0 (read_cycles req x l) (read_packets req x) s' /\
    s' ≡ between s (n + 9) (cr_test i RecvACK1) (in_control h0 8 x') w /\
    rx_packet x' = rl_bytes l /\ rx_len x' = Z.of_nat (length (rl_bytes l)) - 2 /\ buffers x'.
Proof using Laws.
  intros Hn Hs Hc Hcall Hx [Hb1 Hb2 Hb3 Hb4] [Hi Ha Hd Hst].
  destruct (setup_stage s s0 req x n t tc _ (cr_test i SendDATA0) (cr_test i RecvACK0) w0 w h h0
    (rl_idle l 0) (rl_idle l 1) (rl_idle l 2) (rl_ack l) Hx Hn Hs Hc Hcall) as (s1 & E1 & H1);
    [intros; by apply read_call|intros; by apply read_call|done..|].
  destruct (setup_over_ready x req Hx Hb4 Hb3) as (W1 & W2 & W3 & W4 & W5).
  set (x1 := setup_over x) in *.
  assert (C1 : call_gives (n + 3) (cr_test i RecvACK0) (in_control h0 2 x1) w 0 (in_control h0 3 x1) (cr_test i SendIN) w).
  { apply next_call; [lia|lia|]. intros c. rewrite (cr_phase i RecvACK0 _ _ w eq_refl).
    rewrite (host_seq0_same _ SIG1) by exact W3. by rewrite !outcome_bind_ok. }
  destruct (in_stage s s1 (n + 3) t _ _ (cr_test i RecvDATA1) (cr_test i SendACK) w _ h0 x1
    (rl_idle l 3) (rl_idle l 4) (rl_idle l 5) (rl_data l) (rl_bytes l) ltac:(lia) H1 Hc C1) as (s2 & x2 & E2 & G & H2);
    [intros; by apply read_call|intros; by apply read_call|done..|].
  destruct G as [_ _ [G1 G2] (_ & G3 & G4) G5 G6 (G7 & G8 & G9)].
  destruct (out_stage s s2 (n + 3 + 3) t _ (cr_test i SendOUT) (cr_test i SendZDP) (cr_test i RecvACK1) w h0 (token_done x2)
    (rl_idle l 6) (rl_idle l 7) (rl_idle l 8) (rl_status l) ltac:(lia) H2 Hc) as (s3 & E3 & H3);
    [intros; by apply read_call|intros; by rewrite (cr_phase i SendOUT _ _ w eq_refl)|intros; by apply read_call|done..
    |cbn; by rewrite G1|cbn; by rewrite G2|].
  exists s3, (out_over (token_done x2)). split_and!; [|by replace (n + 9) with (n + 3 + 3 + 3) by lia|done|done|].
  - assert (Ht : out_token (token_done x2) = out_token x) by (unfold out_token; cbn; by rewrite G3, G4).
    unfold out_cycles in E3. rewrite Ht in E3.
    exact (edges_app _ _ _ _ _ _ _ E1 (edges_app _ _ _ _ _ _ _ E2 E3)).
  - constructor; [|exact (eq_trans (f_equal length G7) Hb2)|done|done].
    change (length (<[0%nat := SIG0]> (ep_seq x2)) = 16%nat). rewrite length_insert, G2.
    change (length (<[0%nat := SIG1]> (ep_seq x)) = 16%nat). by rewrite length_insert.
Qed.
End Read.

(** ** All reads of a test *)

Section Session.
Context {C : ControlRead} {Laws : ControlReadLaws C}.

(** [reads addr i s ls bytes s']: from [s], where the read number [i] is due, the
    simulator makes one read for each [l] of [ls] and gets to [s']; the link receives
    [bytes].  Each token has the address and a good CRC5, each DATA0 packet the
    request of the test and a good CRC16, and at the end of the read the host holds
    the data packet of the link, of which [show_desc] prints the data. *)
Fixpoint reads (addr : Z) (i : nat) (s : ut_state_t) (ls : list read_link) (bytes : list Z) (s' : ut_state_t) : Prop :=
  match ls with
  | [] => bytes = [] /\ s' = s
  | l :: ls => exists x s1 rest,
      sends_request x addr (cr_req i (ut_world s)) /\
      edges s (read_cycles (cr_req i (ut_world s)) x l) (read_packets (cr_req i (ut_world s)) x) s1 /\
      rx_packet (host_xfer (ut_host s1)) = rl_bytes l /\
      show_desc (host_xfer (ut_host s1)) = shown (rl_bytes l) /\
      bytes = read_packets (cr_req i (ut_world s)) x ++ rest /\ reads addr (S i) s1 ls rest s'
  end.

(** The call that queues the read number [i] is due; it will have printed [out]. *)
Record read_due (s s0 : ut_state_t) (h0 : usb_host_t) (i : nat) (out : list (list Z)) (fin : list Z) : Prop := {
  rd_state : exists n tc h x w, 0 <= n /\ s0 ≡ between s n tc h (ut_world s0) /\
    call_gives n tc h (ut_world s0) 0 (in_control h0 0 x) (cr_test i SendSETUP) (cr_world i w) /\
    setup_xfer x (cr_req i (ut_world s0)) /\ buffers x /\
    sends_request x (host_addr h0) (cr_req i (ut_world s0)) /\ w_shown w = out /\ w_finish w = fin;
}.

(** The read number [i] is over; the next call will have printed [out]. *)
Definition read_over (s s0 : ut_state_t) (h0 : usb_host_t) (i : nat) (out : list (list Z)) (fin : list Z) : Prop :=
  exists n x w, 0 < n /\ buffers x /\ s0 ≡ between s n (cr_test i RecvACK1) (in_control h0 8 x) w /\
    w_shown w ++ option_list (show_desc x) = out /\ w_finish w = fin.

Lemma link_data_length s ins bytes : link_data s ins bytes -> (2 <= length bytes)%nat.
Proof. intros [? ? ? ? ? ? ? ? ? ? ? ? ? ? ? ?]. lia. Qed.

Lemma read_due_over s s0 t h0 i l out fin :
  current s t -> read_due s s0 h0 i out fin -> link_reads l ->
  exists x s1, sends_request x (host_addr h0) (cr_req i (ut_world s0)) /\
    edges s0 (read_cycles (cr_req i (ut_world s0)) x l) (read_packets (cr_req i (ut_world s0)) x) s1 /\
    rx_packet (host_xfer (ut_host s1)) = rl_bytes l /\
    show_desc (host_xfer (ut_host s1)) = shown (rl_bytes l) /\
    read_over s s1 h0 i (out ++ option_list (shown (rl_bytes l))) fin.
Proof using Laws.
  intros Hc [(n & tc & h & x & w & Hn & Hs & Hcall & Hx & Hb & Hsend & Ho & Hf)] Hl.
  destruct (one_read s s0 i n t tc _ _ h h0 _ x l Hn Hs Hc Hcall Hx Hb Hl) as (s1 & x' & E & H1 & R1 & R2 & Hb').
  exists x, s1. rewrite (ut_host_equiv _ _ H1). cbn [host_xfer set_field].
  pose proof (link_data_length _ _ _ (lr_data _ Hl)) as H2.
  pose proof (show_desc_shown x' _ H2 R1 R2) as Hshow.
  split_and!; [done|done|done|exact Hshow|].
  destruct (cr_quiet i w) as [Q1 Q2].
  exists (n + 9), x', (cr_world i w). rewrite Q1, Q2, Ho, Hf, Hshow. split_and!; [lia|done..].
Qed.

(** The next request on the host that has finished the read before. *)
Lemma requested_next h0 x req c :
  requested (freed (in_control h0 8 x <| host_cycle := c |>)) req =
  in_control h0 0 (stdreq_xfer (h0 <| host_xfer := x |>) req) <| host_cycle := c |>.
Proof.
  unfold requested.
  assert (E : stdreq_xfer (freed (in_control h0 8 x <| host_cycle := c |>)) req =
              stdreq_xfer (h0 <| host_xfer := x |>) req) by reflexivity.
  rewrite E. generalize (stdreq_xfer (h0 <| host_xfer := x |>) req). intros y. reflexivity.
Qed.

Lemma read_over_due s s0 h0 i out fin :
  (S i < cr_count)%nat -> read_over s s0 h0 i out fin -> read_due s s0 h0 (S i) out fin.
Proof using Laws.
  intros Hi (n & x & w & Hn & Hb & Hs & Ho & Hf). constructor.
  pose proof (ut_world_proper _ _ Hs) as Hw. change (ut_world s0 = w) in Hw. subst w.
  set (req := cr_req (S i) (ut_world s0)). set (hx := h0 <| host_xfer := x |>).
  exists n, (cr_test i RecvACK1), (in_control h0 8 x), (stdreq_xfer hx req), (w_show x (ut_world s0)).
  split_and!; [lia|done| |by apply stdreq_setup_xfer|by apply stdreq_xfer_buffers| |done|done].
  - intros c. rewrite (proj2 (Z.eqb_neq n 0)) by lia. rewrite cr_next by done.
    change (host_xfer (in_control h0 8 x <| host_cycle := c |>)) with x.
    rewrite cr_req_show. by rewrite requested_next.
  - apply (stdreq_xfer_sends hx req Hb). by apply cr_req_wf.
Qed.

(** What the reads print. *)
Definition printed (ls : list read_link) : list (list Z) := omap (fun l => shown (rl_bytes l)) ls.

Lemma printed_cons l ls : printed (l :: ls) = option_list (shown (rl_bytes l)) ++ printed ls.
Proof. unfold printed. cbn. by destruct (shown (rl_bytes l)). Qed.

Lemma reads_run s t h0 ls fin : current s t -> Forall link_reads ls -> forall s0 i out,
  (i + length ls)%nat = cr_count -> (0 < length ls)%nat -> read_due s s0 h0 i out fin ->
  exists bytes s1, reads (host_addr h0) i s0 ls bytes s1 /\
    read_over s s1 h0 (pred cr_count) (out ++ printed ls) fin.
Proof using Laws.
  intros Hc. induction 1 as [|l ls Hl Hls IH]; intros s0 i out Hi Hpos Hd; [by apply Nat.lt_irrefl in Hpos|]. cbn [length] in Hi.
  destruct (read_due_over s s0 t h0 i l out fin Hc Hd Hl) as (x & s1 & Hx & E & R1 & R2 & Ho).
  assert (H : exists rest s2, reads (host_addr h0) (S i) s1 ls rest s2 /\
    read_over s s2 h0 (pred cr_count) (out ++ printed (l :: ls)) fin).
  { rewrite printed_cons, app_assoc. destruct ls as [|l2 ls].
    - exists [], s1. rewrite app_nil_r. split; [done|]. by replace (pred cr_count) with i by (cbn in Hi; lia).
    - cbn [length] in *. apply IH; [lia|lia|]. apply read_over_due; [lia|done]. }
  destruct H as (rest & s2 & H1 & H2).
  exists (read_packets (cr_req i (ut_world s0)) x ++ rest), s2. split; [|done]. by exists x, s1, rest.
Qed.

(** A simulator that is about to run the test. *)
Record read_ready (s : ut_state_t) : Prop := {
  re_op : ut_op s = UT_Idle;
  re_test : current s cr_first;
  re_step : ut_test_step s = 0;
  re_host : host_op (ut_host s) = HostIdle;
  re_buffers : buffers (host_xfer (ut_host s));
}.

Lemma read_ready_due s : read_ready s -> read_due s s (ut_host s) 0 (w_shown (ut_world s)) (ut_finish s).
Proof using Laws.
  intros [Ho Hc Hst Hh Hb]. constructor. set (req := cr_req 0 (ut_world s)).
  exists 0, cr_first, (ut_host s), (stdreq_xfer (ut_host s) req), (ut_world s).
  split_and!; [done|by apply between_start| |by apply stdreq_setup_xfer|by apply stdreq_xfer_buffers| |done|done].
  - intros c. cbn [Z.eqb]. rewrite cr_init by done. by rewrite requested_cycle.
  - apply stdreq_xfer_sends; [done|]. apply cr_req_wf, cr_some.
Qed.

(** The last call ends the test. *)
Lemma read_over_end s s0 h0 inp out fin :
  current s cr_first -> ulpi_bus_is_idle inp = true -> read_over s s0 h0 (pred cr_count) out fin ->
  exists s' h w, edges s0 [inp] [] s' /\
    s' ≡ between s 0 cr_done h w <| ut_test_curr := ut_test_curr s + 1 |> /\
    host_op h = HostIdle /\ host_addr h = host_addr h0 /\ w_shown w = out /\ w_finish w = fin.
Proof using Laws.
  intros Hc Hi (n & x & w & Hn & Hb & Hs & Ho & Hf). set (h1 := in_control h0 8 x) in Hs.
  assert (Hcall : call_gives n (cr_test (pred cr_count) RecvACK1) h1 w 1 (freed h1) cr_done (w_show x w)).
  { intros c. rewrite (proj2 (Z.eqb_neq n 0)) by lia. rewrite cr_last by (pose proof cr_some; lia). done. }
  destruct (control_end s0 s inp n _ _ h1 w (freed h1) _ (w_show x w) Hs Hc Hi Hcall) as (s1 & E & H1).
  by exists s1, (freed h1), (w_show x w).
Qed.

(** C7.  GET DESCRIPTOR, GET CONFIGURATION and GET STRINGS (with its GET STATUS), end
    to end over the clock edges of the simulator.  For every link that acknowledges
    each request after any wait, answers the IN token with any data packet DATA1 that
    passes its CRC16, with any wait states, and acknowledges the status packet, and an
    idle bus between the packets: no edge fails, and the link receives for each
    request of the test in turn exactly the SETUP token, the DATA0 packet of the
    request, the IN token, an ACK, the OUT token and a DATA1 packet without data;
    the host ends each read with the data packet of the link, whose data
    [show_desc] prints; the simulation prints the data of the reads in order, those
    longer than a configuration left out, and nothing else.  Afterwards the test is finished and the next one is due,
    and the host is idle with the address it had. *)
Theorem control_read_session s ls inp :
  read_ready s -> length ls = cr_count -> Forall link_reads ls -> ulpi_bus_is_idle inp = true ->
  exists bytes s1 s', reads (host_addr (ut_host s)) 0 s ls bytes s1 /\ edges s1 [inp] [] s' /\
    ut_op s' = UT_Idle /\ ut_test_step s' = 0 /\ ut_test_curr s' = ut_test_curr s + 1 /\
    ut_tests s' !! Z.to_nat (ut_test_curr s) = Some cr_done /\ ut_finish s' = ut_finish s /\
    host_op (ut_host s') = HostIdle /\ host_addr (ut_host s') = host_addr (ut_host s) /\
    w_shown (ut_world s') = w_shown (ut_world s) ++ printed ls.
Proof using Laws.
  intros Hr Hl Hls Hi. pose proof (re_test _ Hr) as Hc.
  destruct (reads_run s _ (ut_host s) ls _ Hc Hls s 0 _ Hl ltac:(rewrite Hl; apply cr_some) (read_ready_due s Hr))
    as (bytes & s1 & H1 & H2).
  destruct (read_over_end s s1 _ inp _ _ Hc Hi H2) as (s' & h & w & E & H3 & A1 & A2 & A3 & A4).
  destruct (between_finished s s' _ _ h w H3 Hc) as (B1 & B2 & B3 & B4 & B5 & c & B6).
  exists bytes, s1, s'. unfold ut_finish. rewrite B5, B6. by split_and!.
Qed.
End Session.

(** ** Witness: the configuration, with zero-length answers, which print as empty *)

Definition read_link_example : read_link := MkReadLink (fun _ => bus_quiet) ack_cycles zdp_cycles ack_cycles [0; 0].

Lemma read_link_example_reads : link_reads read_link_example.
Proof. constructor; [done|exact ack_cycles_acks|exact zdp_cycles_data|exact ack_cycles_acks]. Qed.

Definition read_example : ut_state_t :=
  ut_example test_getconf <| ut_host := host_zero <| host_op := HostIdle |> |>.

Lemma read_example_ready : read_ready (C := get_config_read) read_example.
Proof. constructor; try done. exact (wf_buffers _ wf_zero). Qed.

Lemma control_read_session_witness : exists bytes s1 s',
  reads (C := get_config_read) 0 0 read_example (replicate 3 read_link_example) bytes s1 /\
  edges s1 [bus_quiet] [] s' /\ ut_test_curr s' = 1 /\ w_shown (ut_world s') = [[]; []; []].
Proof.
  destruct (@control_read_session get_config_read get_config_laws read_example
    (replicate 3 read_link_example) bus_quiet read_example_ready eq_refl
    (Forall_replicate _ 3 _ read_link_example_reads) eq_refl) as (bytes & s1 & s' & H1 & H2 & _ & _ & H3 & _ & _ & _ & _ & H4).
  exists bytes, s1, s'. split; [exact H1|]. split; [exact H2|]. split; [exact H3|exact H4].
Defined.
