(* ===== verification/Bulk.v ===== *)
(** Bulk transactions on the running simulator: the cycles of [usbh_step] as clock
    edges of [ut_step], and a whole OUT or IN transaction of the host as edges. *)

From S2P Require Import Prelude Gf2 UsbCrc Ulpi UlpiSafe UlpiTrace UlpiRecv StdReq.
From S2P Require Import StdReqProps UsbHost UsbHostProps UsbHostTrans UsbHostIn.
From S2P Require Import TestCases TestCasesProps UlpiSim UlpiSimProps UsbControl.

#[local] Opaque crc16_calc crc5_calc crc5_check crc16_check.
#[local] Opaque tc_init tc_step usbh_step.

(** ** Cycles of the host as edges of the simulator *)

(** A bus that nobody else drives is one that has what was driven in the cycle before. *)
Lemma loop_own_bus n : forall host bus g rs outs h g',
  usbh_loop (S n) host bus g = Ok (rs, outs, h, g') ->
  outs <> [] /\ usbh_run host (own_bus bus outs) g = Ok (rs, outs, h, g').
Proof.
  induction n as [|n IH]; intros host bus g rs outs h g' H.
  - cbn [usbh_loop] in H. destruct (usbh_step host bus ulpi_bus_zero g) as [[[[r h1] o] g1]| |] eqn:E; [|done..].
    rewrite !outcome_bind_ok in H. injection H as <- <- <- <-. split; [done|].
    cbn [own_bus removelast usbh_run]. by rewrite E, !outcome_bind_ok.
  - destruct (usbh_step host bus ulpi_bus_zero g) as [[[[r h1] o] g1]| |] eqn:E.
    2, 3: cbn [usbh_loop] in H; by rewrite E in H.
    rewrite (usbh_loop_cons _ _ _ _ _ _ _ _ E) in H.
    destruct (usbh_loop (S n) h1 o g1) as [[[[rs1 outs1] h2] g2]| |] eqn:E1; [|done..].
    rewrite outcome_bind_ok in H. injection H as <- <- <- <-. apply IH in E1 as [Hne E1].
    split; [done|]. rewrite own_bus_cons by done. cbn [usbh_run].
    by rewrite E, outcome_bind_ok, E1, outcome_bind_ok.
Qed.

Lemma loop_length n : forall host bus g rs outs h g',
  usbh_loop n host bus g = Ok (rs, outs, h, g') -> length outs = n.
Proof.
  induction n as [|n IH]; intros host bus g rs outs h g' H; cbn [usbh_loop] in H; [by injection H as <- <- _ _|].
  destruct (usbh_step host bus ulpi_bus_zero g) as [[[[r h1] o] g1]| |]; [|done..].
  rewrite outcome_bind_ok in H. cbv beta iota in H.
  destruct (usbh_loop n h1 o g1) as [[[[rs1 outs1] h2] g2]| |] eqn:E1; [|done..].
  rewrite outcome_bind_ok in H. injection H as <- <- <- <-. cbn. f_equal. by eapply IH.
Qed.

(** The simulator [s0] in phase [op], with host [h] and [rand()] at [g]. *)
Definition with_host (s0 : ut_state_t) (op : ut_step_t) (h : usb_host_t) (g : rng) : ut_state_t :=
  s0 <| ut_op := op |> <| ut_host := h |> <| ut_world := ut_world s0 <| w_rand := g |> |>.

Record stands (s0 : ut_state_t) (op : ut_step_t) (h : usb_host_t) (g : rng) (s : ut_state_t) : Prop := {
  st_host : ut_host s = h;
  st_state : s ≡ with_host s0 op h g;
}.

#[export] Instance with_host_proper : Proper ((≡) ==> (=) ==> (=) ==> (=) ==> (≡)) with_host.
Proof.
  intros s s' [H] op ? <- h ? <- g ? <-. constructor. unfold ut_norm, with_host in *.
  destruct s as [? ? ? ? ? [] ? ? ? ? ? ? ?], s' as [? ? ? ? ? [] ? ? ? ? ? ? ?].
  cbn in *. injection H; intros; by subst.
Qed.

Lemma stands_trans s0 op1 h1 g1 s1 op2 h2 g2 s2 :
  stands s0 op1 h1 g1 s1 -> stands s1 op2 h2 g2 s2 -> stands s0 op2 h2 g2 s2.
Proof.
  intros [_ H1] [H2 H3]. constructor; [done|]. rewrite H3.
  by rewrite (with_host_proper _ _ H1 _ _ eq_refl _ _ eq_refl _ _ eq_refl).
Qed.

Lemma stands_op s0 op h g s : stands s0 op h g s -> ut_op s = op.
Proof. intros [_ H]. by rewrite H. Qed.
Lemma stands_rand s0 op h g s : stands s0 op h g s -> w_rand (ut_world s) = g.
Proof. intros [_ H]. by rewrite (ut_world_proper _ _ H). Qed.

(** Cycles that all return 0, but the last one 0 or 1. *)
Lemma run_edges ins i r : r = 0 \/ r = 1 -> forall s outs h g,
  ut_op s = UT_Test ->
  usbh_run (ut_host s) (ins ++ [i]) (w_rand (ut_world s)) = Ok (replicate (length ins) 0 ++ [r], outs, h, g) ->
  exists s', ut_edges s (ins ++ [i]) = Ok (replicate (length (ins ++ [i])) 0, outs, s') /\
    stands s (if r =? 1 then UT_Idle else UT_Test) h g s'.
Proof.
  intros Hr. induction ins as [|j ins IH]; intros s outs h g Ho H; cbn [app usbh_run length replicate] in H.
  - destruct (usbh_step (ut_host s) i ulpi_bus_zero (w_rand (ut_world s))) as [[[[r1 h1] o] g1]| |] eqn:E; [|done..].
    rewrite !outcome_bind_ok in H. injection H as -> <- -> ->.
    destruct (test_cycle s i r h o g Ho Hr E) as (s' & H1 & H2 & H3). exists s'.
    cbn [app ut_edges length replicate]. by rewrite H1, !outcome_bind_ok.
  - destruct (usbh_step (ut_host s) j ulpi_bus_zero (w_rand (ut_world s))) as [[[[r1 h1] o] g1]| |] eqn:E; [|done..].
    rewrite outcome_bind_ok in H. cbv beta iota in H.
    destruct (usbh_run h1 (ins ++ [i]) g1) as [[[[rs outs1] h2] g2]| |] eqn:E1; [|done..].
    rewrite outcome_bind_ok in H. injection H as -> Hrs <- -> ->.
    destruct (test_cycle s j 0 h1 o g1 Ho ltac:(by left) E) as (s1 & H1 & H2 & H3).
    change (0 =? 1) with false in H3. cbv iota in H3.
    assert (Hst : stands s UT_Test h1 g1 s1) by by constructor.
    destruct (IH s1 outs1 h g (stands_op _ _ _ _ _ Hst)) as (s' & H4 & H5).
    { rewrite H2, (stands_rand _ _ _ _ _ Hst). by rewrite E1, Hrs. }
    exists s'. cbn [app ut_edges length replicate]. rewrite H1, outcome_bind_ok, H4, outcome_bind_ok.
    split; [done|]. by eapply stands_trans.
Qed.

(** While the link drives [ins], the host returns 0 and drives no byte; with [fin], the
    last cycle returns 1. *)
Definition results (fin : bool) (n : nat) : list Z :=
  if fin then replicate (n - 1) 0 ++ [1] else replicate n 0.

Definition op_after (fin : bool) : ut_step_t := if fin then UT_Idle else UT_Test.

Lemma host_edges fin s ins outs h g :
  ut_op s = UT_Test -> ins <> [] ->
  usbh_run (ut_host s) ins (w_rand (ut_world s)) = Ok (results fin (length ins), outs, h, g) ->
  exists s', ut_edges s ins = Ok (replicate (length ins) 0, outs, s') /\ stands s (op_after fin) h g s'.
Proof.
  intros Ho Hne H. destruct (exists_last Hne) as (ins' & i & ->). unfold results in H. rewrite length_app in H.
  cbn [length] in H. destruct fin.
  - replace (length ins' + 1 - 1)%nat with (length ins') in H by lia.
    exact (run_edges ins' i 1 ltac:(by right) s outs h g Ho H).
  - rewrite replicate_add in H. exact (run_edges ins' i 0 ltac:(by left) s outs h g Ho H).
Qed.

(** [drives s bytes s']: on a bus that nobody else drives the simulator gets from [s]
    to [s'] without an error, and the link receives [bytes]. *)
Definition drives (s : ut_state_t) (bytes : list Z) (s' : ut_state_t) : Prop :=
  exists outs, ut_edges s (own_bus bus_quiet outs) = Ok (replicate (length (own_bus bus_quiet outs)) 0, outs, s') /\
    received outs = bytes.

Lemma loop_drives fin m s outs h g :
  ut_op s = UT_Test -> received outs <> [] ->
  usbh_loop m (ut_host s) bus_quiet (w_rand (ut_world s)) = Ok (results fin m, outs, h, g) ->
  exists s', drives s (received outs) s' /\ stands s (op_after fin) h g s'.
Proof.
  intros Ho Hne H. pose proof (loop_length _ _ _ _ _ _ _ _ H) as Hl. destruct m as [|m]; [by destruct outs|].
  apply loop_own_bus in H as [Houts H].
  assert (Hm : length (own_bus bus_quiet outs) = S m).
  { unfold own_bus. cbn [length]. f_equal. destruct (exists_last Houts) as (o & x & ->).
    rewrite removelast_last. rewrite length_app in Hl. cbn in Hl. lia. }
  rewrite <- Hm in H. destruct (host_edges fin s (own_bus bus_quiet outs) outs h g Ho ltac:(done) H) as (s' & H1 & H2).
  exists s'. split; [|done]. exists outs. by rewrite H1.
Qed.

Lemma run_silent fin s ins outs h g :
  ut_op s = UT_Test -> ins <> [] -> received outs = [] ->
  usbh_run (ut_host s) ins (w_rand (ut_world s)) = Ok (results fin (length ins), outs, h, g) ->
  exists s', edges s ins [] s' /\ stands s (op_after fin) h g s'.
Proof.
  intros Ho Hne Hn H. destruct (host_edges fin s ins outs h g Ho Hne H) as (s' & H1 & H2).
  exists s'. split; [|done]. by exists outs.
Qed.

Lemma runs_edges fin s ins h :
  ut_op s = UT_Test -> ins <> [] -> runs (ut_host s) ins (results fin (length ins)) h ->
  exists s' g, edges s ins [] s' /\ stands s (op_after fin) h g s'.
Proof.
  intros Ho Hne H. destruct (H (w_rand (ut_world s))) as (outs & g & E & N).
  destruct (run_silent fin s ins outs h g Ho Hne N E) as (s' & H1 & H2). by exists s', g.
Qed.

(** ** A transaction, from the call that queued it to the call after it *)

(** What a transaction leaves: the simulator idle, with a host that differs in its
    transfer and, by at most [n], in its cycle counter. *)
Record exchanged (s : ut_state_t) (n : Z) (h : usb_host_t) (s' : ut_state_t) : Prop := {
  ex_stands : exists g, stands s UT_Idle h g s';
  ex_addr : host_addr h = host_addr (ut_host s);
  ex_cycle : host_cycle (ut_host s) <= host_cycle h <= host_cycle (ut_host s) + n;
}.

Lemma out_exchange s payload sq reply answered :
  ut_op s = UT_Test -> UsbHostTrans.queued_out (ut_host s) payload sq -> link_answer reply answered ->
  exists s1 s2 h, drives s (out_wire (host_xfer (ut_host s)) payload sq) s1 /\ edges s1 reply [] s2 /\
    exchanged s (2 * Z.of_nat (length payload) + 27 + Z.of_nat (length reply)) h s2 /\
    out_over (host_xfer (ut_host s)) sq answered (host_xfer h).
Proof.
  intros Ho Hq Ha. destruct (bulk_out_packets (ut_host s) payload sq (w_rand (ut_world s)) Hq)
    as (m & outs & h1 & g1 & L & Hm & Hrec & Hack & Hcy & Had & Hx).
  pose proof (UsbHostTrans.qo_cycle _ _ _ Hq) as [Hc Hc'].
  destruct (loop_drives false m s outs h1 g1 Ho ltac:(by rewrite Hrec) L) as (s1 & D & S1). rewrite Hrec in D.
  destruct (bulk_out_reply (ut_host s) h1 payload sq (w_rand (ut_world s1)) reply answered Hq Hack ltac:(lia)
    ltac:(unfold TURNAROUND_TIMER; lia) Hx Ha) as (o & h & R & N & Hov & Hcy2 & Had2).
  assert (Hne : reply <> []) by (intros ->; inversion Ha as [? ? ? ? ? ? ? ? E|? ? E]; [by destruct waits|subst; by cbn in E]).
  rewrite <- (st_host _ _ _ _ _ S1) in R.
  destruct (run_silent true s1 reply o h _ (stands_op _ _ _ _ _ S1) Hne N R) as (s2 & E & S2).
  exists s1, s2, h. split; [exact D|]. split; [exact E|]. split; [|exact Hov].
  constructor; [|by rewrite Had2|lia]. eexists. by eapply stands_trans.
Qed.

Lemma in_token_drives s sq :
  ut_op s = UT_Test -> queued_in (ut_host s) sq ->
  exists s1 h1, drives s [0x69; tok1 (host_xfer (ut_host s)); tok2 (host_xfer (ut_host s))] s1 /\
    stands s UT_Test h1 (w_rand (ut_world s)) s1 /\
    awaits_data h1 sq /\ host_cycle h1 = host_cycle (ut_host s) + 9 /\ rx_ptr (host_xfer h1) = 0 /\
    endpoint (host_xfer h1) = endpoint (host_xfer (ut_host s)) /\ ep_seq (host_xfer h1) = ep_seq (host_xfer (ut_host s)) /\
    tx (host_xfer h1) = tx (host_xfer (ut_host s)) /\ host_addr h1 = host_addr (ut_host s).
Proof.
  intros Ho Hq. destruct (bulk_in_token_sent (ut_host s) sq (w_rand (ut_world s)) Hq) as (h & L & H).
  pose proof (received_packet [0x69; tok1 (host_xfer (ut_host s)); tok2 (host_xfer (ut_host s))]) as Hrec.
  destruct (loop_drives false 9 s _ h _ Ho ltac:(by rewrite Hrec) L) as (s1 & D & S1). rewrite Hrec in D.
  by exists s1, h.
Qed.

Lemma in_exchange s sq packet bytes e1 e2 e3 e4 :
  ut_op s = UT_Test -> queued_in (ut_host s) sq -> in_packet sq packet bytes -> crc16_check bytes = true ->
  up_eop e1 e2 e3 e4 -> host_cycle (ut_host s) + Z.of_nat (length packet) + 20 < 2 ^ 32 ->
  exists s1 s2 s3 h, drives s [0x69; tok1 (host_xfer (ut_host s)); tok2 (host_xfer (ut_host s))] s1 /\
    edges s1 (packet ++ [e1; e2; e3; e4]) [] s2 /\ drives s2 [0xD2] s3 /\
    exchanged s (Z.of_nat (length packet) + 20) h s3 /\ in_done (ut_host s) sq true h /\
    rx_packet (host_xfer h) = bytes.
Proof.
  intros Ho Hq Hp Hcrc He Hlt. pose proof (qi_cycle _ _ Hq) as [Hc0 _].
  destruct (in_token_drives s sq Ho Hq) as (s1 & h1 & D1 & S1 & Ha & Hc & _ & Hep & Hseq & Htx & Had).
  destruct (in_packet_run h1 sq packet bytes Ha Hp ltac:(lia)) as (h2 & R2 & Hr & Hc2 & Had2).
  rewrite Hcrc in R2.
  destruct (packet_acknowledged (ut_host s) sq h1 h2 bytes Hq Hep Hseq Htx Hr ltac:(lia) ltac:(lia) e1 e2 e3 e4 He)
    as (h3 & R3 & A).
  assert (Hne : packet <> []) by (intros ->; inversion Hp as [waits ? ? ? ? ? ? ? ? ? ? E]; by destruct waits).
  pose proof (runs_app _ _ _ _ _ _ _ R2 R3) as R. rewrite <- (st_host _ _ _ _ _ S1) in R.
  assert (Hrs : (replicate (length packet - 1) 0 ++ [0]) ++ replicate 4 0 = results false (length (packet ++ [e1; e2; e3; e4]))).
  { unfold results. rewrite length_app. destruct packet as [|p packet]; [done|]. cbn [length].
    replace (S (length packet) - 1)%nat with (length packet) by lia. change [0] with (replicate 1 0).
    rewrite <- !replicate_add. f_equal. cbn. lia. }
  rewrite Hrs in R.
  destruct (runs_edges false s1 (packet ++ [e1; e2; e3; e4]) h3 (stands_op _ _ _ _ _ S1) ltac:(by destruct packet) R) as (s2 & g2 & E2 & S2).
  destruct (A (w_rand (ut_world s2))) as (outs & h4 & L & Hrec & Hd & Hrx & _ & Hcy & Had4).
  rewrite <- (st_host _ _ _ _ _ S2) in L.
  destruct (loop_drives true 7 s2 outs h4 _ (stands_op _ _ _ _ _ S2) ltac:(by rewrite Hrec) L) as (s3 & D3 & S3).
  rewrite Hrec in D3. exists s1, s2, s3, h4. split_and!; try done.
  constructor; [|by rewrite Had4, Had2|lia]. eexists. eapply stands_trans; [exact S1|]. by eapply stands_trans.
Qed.

(** A link that does not answer; the host returns in the cycle after the turnaround time. *)
Record silence (waits : list ulpi_bus_t) (i : ulpi_bus_t) : Prop := {
  si_rst : Forall out_of_reset (waits ++ [i]);
  si_dir : dir i = SIG0;
  si_none : Forall (fun inp => data_a inp = 0) waits;
  si_time : Z.of_nat (length waits) = TURNAROUND_TIMER;
}.

Lemma silence_exchange s sq waits i :
  ut_op s = UT_Test -> queued_in (ut_host s) sq -> silence waits i ->
  exists s1 s2 h, drives s [0x69; tok1 (host_xfer (ut_host s)); tok2 (host_xfer (ut_host s))] s1 /\
    edges s1 (waits ++ [i]) [] s2 /\ exchanged s 50 h s2 /\ in_done (ut_host s) sq false h.
Proof.
  intros Ho Hq [Hr Hdir Hn Hl]. pose proof (qi_cycle _ _ Hq) as [Hc0 Hlt].
  destruct (in_token_drives s sq Ho Hq) as (s1 & h1 & D1 & S1 & Ha & Hc & Hp & Hep & Hseq & Htx & Had).
  destruct (in_silence_run h1 sq waits i Ha Hp Hr Hdir Hn Hl ltac:(lia)) as (h2 & R & Hx & Had2 & Hc2).
  rewrite <- (st_host _ _ _ _ _ S1) in R.
  assert (Hrs : replicate (length waits) 0 ++ [1] = results true (length (waits ++ [i]))).
  { unfold results. rewrite length_app. cbn [length]. do 2 f_equal. lia. }
  rewrite Hrs in R.
  destruct (runs_edges true s1 (waits ++ [i]) h2 (stands_op _ _ _ _ _ S1) ltac:(by destruct waits) R) as (s2 & g2 & E2 & S2).
  exists s1, s2, h2. split; [exact D1|]. split; [exact E2|]. split.
  - constructor; [|by rewrite Had2|lia]. eexists. by eapply stands_trans.
  - unfold in_done. rewrite Hx. split; [done|]. split; [apply Ha|].
    change (ep_seq (host_xfer h1 <| type := XferIdle |>)) with (ep_seq (host_xfer h1)). rewrite Hseq.
    split; [symmetry; apply list_insert_id, Hq|]. split; [exact Htx|split; apply Ha].
Qed.
