(* ===== verification/BulkTests.v ===== *)
(** The bulk and DDR3 test cases on the running simulator: what USB 2.0 asks of each
    of their transactions, and whole tests against it. *)

From S2P Require Import Prelude Gf2 UsbCrc Ulpi UlpiSafe UlpiTrace UlpiRecv StdReq.
From S2P Require Import StdReqProps UsbHost UsbHostProps UsbHostTrans UsbHostIn.
From S2P Require Import TestCases TestCasesProps UlpiSim UlpiSimProps UsbControl Bulk.

#[local] Opaque crc16_calc crc5_calc crc5_check crc16_check.

(** ** What the link receives *)

Definition token_bytes (addr ep : Z) : list Z :=
  let x := xfer_token transfer_zero addr ep in [tok1 x; tok2 x].
Definition crc_bytes (payload : list Z) : list Z :=
  [crc_lo (crc16_calc payload); crc_hi (crc16_calc payload)].

(** An OUT transaction, with the data packet that the sequence bit selects, and the
    token of an IN transaction. *)
Definition usb_out (addr ep sq : Z) (payload : list Z) : list Z :=
  (0xE1 :: token_bytes addr ep) ++ data_pid_byte (out_type sq) :: payload ++ crc_bytes payload.
Definition usb_in (addr ep : Z) : list Z := 0x69 :: token_bytes addr ep.

(** Every device accepts them: the token has the address, the endpoint and a valid
    CRC5, the packet has a valid CRC16. *)
Lemma usb_packets_valid addr ep payload :
  Forall is_byte payload ->
  (exists t1 t2, token_bytes addr ep = [t1; t2] /\ let w := Z.lor t1 (Z.shiftl t2 8) in
    crc5_check w = true /\ Z.land w 0x7F = Z.land addr 0x7F /\ Z.land (Z.shiftr w 7) 0x0F = Z.land ep 0x0F) /\
  crc16_check (payload ++ crc_bytes payload) = true.
Proof.
  intros Hb. split.
  - pose proof (xfer_start_token (host_zero <| host_addr := addr |>) OUT ep) as H. cbv zeta in H.
    unfold token_bytes. cbv zeta. do 2 eexists. split; [reflexivity|].
    unfold token_word, xfer_start, xfer_token in H. unfold xfer_token. cbv zeta in *.
    cbn [tok1 tok2 set_field set_tok1 set_tok2 host_addr set_host_addr] in *. exact H.
  - apply crc16_check_pair; [done|apply crc_lo_byte|apply crc_hi_byte|done].
Qed.

(** ** The transactions of a test *)

(** A packet for endpoint [ep], its payload being one of [P]; a read from [ep]. *)
Inductive item : Type :=
| SendOut (ep : Z) (P : list Z -> Prop)
| ReadIn (ep : Z).

Definition item_ep (i : item) : Z := match i with SendOut ep _ => ep | ReadIn ep => ep end.
Definition item_ok (i : item) : Prop := 0 <= item_ep i < 16.

(** How the link takes part, after the idle bus value [i]: it acknowledges a packet in
    time or not at all; it sends a packet with a good CRC16, or nothing. *)
Inductive answer : Type :=
| OutAnswer (i : ulpi_bus_t) (reply : list ulpi_bus_t) (answered : bool)
| InAnswer (i : ulpi_bus_t) (packet : list ulpi_bus_t) (bytes : list Z) (e1 e2 e3 e4 : ulpi_bus_t)
| InSilent (i : ulpi_bus_t) (waits : list ulpi_bus_t) (last : ulpi_bus_t).

(** The link follows the protocol, [seqs] being the sequence bits of the endpoints. *)
Fixpoint answers (seqs : list Z) (items : list item) (link : list answer) : Prop :=
  match items, link with
  | [], [] => True
  | SendOut ep _ :: items, OutAnswer i reply answered :: link =>
      ulpi_bus_is_idle i = true /\ link_answer reply answered /\
      exists sq, seqs !! Z.to_nat ep = Some sq /\
        answers (<[Z.to_nat ep := next_seq sq answered]> seqs) items link
  | ReadIn ep :: items, InAnswer i packet bytes e1 e2 e3 e4 :: link =>
      ulpi_bus_is_idle i = true /\ up_eop e1 e2 e3 e4 /\ crc16_check bytes = true /\
      exists sq, seqs !! Z.to_nat ep = Some sq /\ in_packet sq packet bytes /\
        answers (<[Z.to_nat ep := flip_seq sq]> seqs) items link
  | ReadIn ep :: items, InSilent i waits last :: link =>
      ulpi_bus_is_idle i = true /\ silence waits last /\ answers seqs items link
  | _, _ => False
  end.

(** The simulator performs the transactions, in order and in as many clock edges as
    given: it gets from [s] to [s'] without an error, and the link receives exactly
    what USB 2.0 asks for; the sequence bits end as [seqs']. *)
Fixpoint performs (addr : Z) (items : list item) (link : list answer) (seqs : list Z) (s : ut_state_t)
    (s' : ut_state_t) (seqs' : list Z) : Prop :=
  match items, link with
  | [], [] => s' = s /\ seqs' = seqs
  | SendOut ep P :: items, OutAnswer i reply answered :: link =>
      exists payload sq s1 s2 s3, P payload /\ Forall is_byte payload /\ seqs !! Z.to_nat ep = Some sq /\
        edges s [i] [] s1 /\ drives s1 (usb_out addr ep sq payload) s2 /\ edges s2 reply [] s3 /\
        performs addr items link (<[Z.to_nat ep := next_seq sq answered]> seqs) s3 s' seqs'
  | ReadIn ep :: items, InAnswer i packet bytes e1 e2 e3 e4 :: link =>
      exists sq s1 s2 s3 s4, seqs !! Z.to_nat ep = Some sq /\
        edges s [i] [] s1 /\ drives s1 (usb_in addr ep) s2 /\
        edges s2 (packet ++ [e1; e2; e3; e4]) [] s3 /\ drives s3 [0xD2] s4 /\
        rx_packet (host_xfer (ut_host s4)) = bytes /\
        performs addr items link (<[Z.to_nat ep := flip_seq sq]> seqs) s4 s' seqs'
  | ReadIn ep :: items, InSilent i waits last :: link =>
      exists s1 s2 s3, edges s [i] [] s1 /\ drives s1 (usb_in addr ep) s2 /\
        edges s2 (waits ++ [last]) [] s3 /\ performs addr items link seqs s3 s' seqs'
  | _, _ => False
  end.

(** ** The interface of a bulk test *)

(** The host after a call that queues the item. *)
Definition queued_item (i : item) (h h' : usb_host_t) : Prop :=
  host_addr h' = host_addr h /\ host_cycle h' = host_cycle h /\
  match i with
  | SendOut ep P => exists n l, host_op h' = HostBulkOUT /\ host_xfer h' = out_xfer h ep n l /\
      0 <= n <= 512 /\ length l = 512%nat /\ Forall is_byte l /\ P (take (Z.to_nat n) l)
  | ReadIn ep => host_op h' = HostBulkIN /\ host_xfer h' = xfer_start h IN ep <| rx_ptr := 0 |>
  end.

Class BulkTest : Type := {
  bt_first : testcase_t;
  bt_items : world -> list item;
  bt_due : list item -> testcase_t -> Prop;
}.

Class BulkTestLaws (T : BulkTest) : Prop := {
  bt_items_ok w : Forall item_ok (bt_items w);
  bt_init h w : tx_buffer (host_xfer h) -> exists i l h' t w', bt_items w = i :: l /\
    tc_init bt_first h w = Ok (0, h', t, w') /\ queued_item i h h' /\ bt_due l t;
  bt_next i l t h w : bt_due (i :: l) t -> tx_buffer (host_xfer h) -> exists h' t' w',
    tc_step t h w = Ok (0, h', t', w') /\ queued_item i h h' /\ bt_due l t';
  bt_last t h w : bt_due [] t -> exists h' t' w', tc_step t h w = Ok (1, h', t', w') /\
    host_op h' = HostIdle /\ host_addr h' = host_addr h /\ ep_seq (host_xfer h') = ep_seq (host_xfer h);
  bt_quiet_first : bulk_case bt_first = true;
  bt_quiet l t : bt_due l t -> bulk_case t = true;
}.

(** ** The four tests *)

(** A packet of [n] bytes. *)
Definition sized (n : Z) (payload : list Z) : Prop := Z.of_nat (length payload) = n.

(** The commands of the DDR3 core: to read, and to write with the data after the
    header, [n] words at [addr], with the identifier [id]. *)
Definition ddr3_read (n addr id : Z) (payload : list Z) : Prop :=
  decode_ddr3 payload = Some (0x80, n - 1, addr mod 2 ^ 28, Z.land id 0x0F).
Definition ddr3_write (n addr id : Z) (payload : list Z) : Prop :=
  exists header data, payload = header ++ data /\ Z.of_nat (length data) = 4 * n /\
    decode_ddr3 header = Some (0x01, n - 1, addr mod 2 ^ 28, Z.land id 0x0F).

Definition bulkout_items : list item :=
  map (fun n => SendOut BULK_OUT_EP (sized n)) [16; 37; 0; 1; 2; 3; 4].
Definition bulkin_items (ep : Z) : list item := map ReadIn [ep; BULK_IN_EP; BULK_IN_EP].
Definition ddr3in_cmds (addr id : Z) : list item :=
  map (fun n => SendOut DDR3_OUT_EP (ddr3_read n addr id)) [4; 8; 16; 20; 12; 24].
Definition ddr3in_reads : list item := replicate 6 (ReadIn DDR3_IN_EP).
Definition ddr3out_cmds (addr id : Z) : list item :=
  map (fun n => SendOut DDR3_OUT_EP (ddr3_write n addr id)) [4; 4; 8; 16; 20; 12; 24].
Definition ddr3out_reads : list item := replicate 7 (ReadIn DDR3_IN_EP).

Definition bulkout_pos (st : BulkOut.bulkout_state_t) : nat :=
  match st with
  | BulkOut.BulkOUT0 => 1 | BulkOut.BulkOUT1 => 2 | BulkOut.BulkOUT2 => 3 | BulkOut.BulkOUT3 => 4
  | BulkOut.BulkOUT4 => 5 | BulkOut.BulkOUT5 => 6 | BulkOut.BulkOUT6 => 7 | BulkOut.BulkDone => 8
  end.
Definition bulkin_pos (st : BulkIn.bulkin_step_t) : nat :=
  match st with BulkIn.BulkIN0 => 1 | BulkIn.BulkIN1 => 2 | BulkIn.BulkIN2 => 3 | BulkIn.BINDone => 4 end.

(** The state of the DDR3 tests after item [k] of a phase. *)
Definition ddr3in_at (addr id : Z) (p : Ddr3In.ddr3in_step_t) (k : nat) : testcase_t :=
  TestDdr3In (Ddr3In.MkDdr3In addr p (Z.of_nat k) DDR3_OUT_EP DDR3_IN_EP id).
Definition ddr3out_at (addr id : Z) (p : Ddr3Out.ddr3out_step_t) (k : nat) : testcase_t :=
  TestDdr3Out (Ddr3Out.MkDdr3Out addr p (Z.of_nat k) 4 DDR3_OUT_EP DDR3_IN_EP id).

#[export] Instance bulkout_test : BulkTest := {|
  bt_first := test_bulkout;
  bt_items _ := bulkout_items;
  bt_due l t := exists st, t = TestBulkOut st /\ st <> BulkOut.BulkDone /\ l = drop (bulkout_pos st) bulkout_items;
|}.

#[export] Instance bulkin_test (ep : Z) : BulkTest := {|
  bt_first := test_bulkin ep;
  bt_items _ := bulkin_items ep;
  bt_due l t := exists st, t = TestBulkIn (BulkIn.MkBulkIn st 0 ep) /\ st <> BulkIn.BINDone /\
    l = drop (bulkin_pos st) (bulkin_items ep);
|}.

#[export] Instance ddr3in_test (addr id : Z) : BulkTest := {|
  bt_first := ddr3in_at addr id Ddr3In.DDR3Cmd 0;
  bt_items _ := ddr3in_cmds addr id ++ ddr3in_reads;
  bt_due l t :=
    exists k, (k < 6)%nat /\
      (t = ddr3in_at addr id Ddr3In.DDR3Cmd k /\ l = drop (S k) (ddr3in_cmds addr id) ++ ddr3in_reads \/
       t = ddr3in_at addr id Ddr3In.DDR3Dat k /\ l = drop (S k) ddr3in_reads);
|}.

(** The identifier is the random number that the test draws first. *)
#[export] Instance ddr3out_test (addr : Z) : BulkTest := {|
  bt_first := test_ddr3out addr;
  bt_items w := ddr3out_cmds addr (Z.land (w_rand_next w).1 0x0F) ++ ddr3out_reads;
  bt_due l t :=
    exists id k, (k < 7)%nat /\
      (t = ddr3out_at addr id Ddr3Out.DDR3Out k /\ l = drop (S k) (ddr3out_cmds addr id) ++ ddr3out_reads \/
       t = ddr3out_at addr id Ddr3Out.DDR3Res k /\ l = drop (S k) ddr3out_reads);
|}.

Lemma out_queued host ep n l P :
  0 <= n <= 512 -> length l = 512%nat -> Forall is_byte l -> P (take (Z.to_nat n) l) ->
  queued_item (SendOut ep P) host (host <| host_op := HostBulkOUT |> <| host_xfer := out_xfer host ep n l |>).
Proof. intros. split; [done|]. split; [done|]. by exists n, l. Qed.

Lemma bulkout_queued host n w :
  tx_buffer (host_xfer host) -> 0 <= n <= 512 ->
  exists h' w', BulkOut.tc_bulkout_xfer host n BULK_OUT_EP w = Ok (h', w') /\
    queued_item (SendOut BULK_OUT_EP (sized n)) host h'.
Proof.
  intros H Hn. destruct (bulkout_xfer_run host n BULK_OUT_EP w H Hn) as (l & w' & E & Hl & Hb).
  do 2 eexists. split; [exact E|]. apply out_queued; try done. unfold sized. rewrite length_take. lia.
Qed.

Lemma bulkout_laws : BulkTestLaws bulkout_test.
Proof.
  constructor.
  - intros w. repeat constructor; done.
  - intros h w H. destruct (bulkout_queued h 16 w H ltac:(lia)) as (h' & w' & E & Q).
    exists (SendOut BULK_OUT_EP (sized 16)), (drop 1 bulkout_items), (h' <| host_step := 0 |>), (TestBulkOut BulkOut.BulkOUT0), w'.
    split; [done|]. split; [|split; [exact Q|by exists BulkOut.BulkOUT0]].
    cbn [bt_first bulkout_test test_bulkout tc_init]. unfold BulkOut.tc_bulkout_init. by rewrite E, outcome_bind_ok.
  - intros i l t h w (st & -> & Hd & Hl) H.
    assert (Hq : forall n, 0 <= n <= 512 -> exists h' w', BulkOut.tc_bulkout_xfer h n BULK_OUT_EP w = Ok (h', w') /\
      queued_item (SendOut BULK_OUT_EP (sized n)) h h') by (intros; by apply bulkout_queued).
    cbn [tc_step]. unfold BulkOut.tc_bulkout_step. cbv zeta.
    destruct st; try done; cbn [bulkout_pos bulkout_items map drop] in Hl; injection Hl as -> ->.
    all: match goal with |- context [BulkOut.tc_bulkout_xfer _ ?n _ _] =>
      destruct (Hq n ltac:(lia)) as (h' & w' & E & Q) end.
    all: rewrite E, outcome_bind_ok; do 3 eexists; (split; [reflexivity|]); (split; [exact Q|]); by eexists.
  - intros t h w (st & -> & Hd & Hl). destruct st; try done. by do 3 eexists.
  - done.
  - by intros l t (st & -> & _).
Qed.

Lemma bulkin_laws ep : 0 <= ep < 16 -> BulkTestLaws (bulkin_test ep).
Proof.
  intros He. constructor.
  - intros w. destruct He. by repeat constructor.
  - intros h w _. do 5 eexists. split; [reflexivity|]. split; [reflexivity|]. split; [done|]. by exists BulkIn.BulkIN0.
  - intros i l t h w (st & -> & Hd & Hl) _.
    destruct st; try done; cbn [bulkin_pos bulkin_items map drop] in Hl; injection Hl as -> ->.
    + do 3 eexists. split; [reflexivity|]. split; [done|]. by exists BulkIn.BulkIN1.
    + do 3 eexists. split; [reflexivity|]. split; [done|]. by exists BulkIn.BulkIN2.
  - intros t h w (st & -> & Hd & Hl). destruct st; try done. by do 3 eexists.
  - done.
  - by intros l t (st & -> & _).
Qed.

Lemma ddr3_read_queued host n addr id iter :
  tx_buffer (host_xfer host) -> 0 < n <= 64 -> n mod 4 = 0 ->
  exists h', Ddr3In.tc_ddr3in_cmd host n (Ddr3In.MkDdr3In addr Ddr3In.DDR3Cmd iter DDR3_OUT_EP DDR3_IN_EP id) = Ok h' /\
    queued_item (SendOut DDR3_OUT_EP (ddr3_read n addr id)) host h'.
Proof.
  intros H Hn H4. set (st := Ddr3In.MkDdr3In _ _ _ _ _ _).
  destruct (ddr3in_cmd_run host n st H) as (l & E & El & Hl & Hb). eexists. split; [exact E|].
  apply out_queued; [lia|done|done|]. rewrite El. unfold ddr3_read.
  change (take (Z.to_nat 6) _) with (header_bytes 0x80 n addr id). by rewrite decode_header, length_field.
Qed.

Lemma ddr3_write_queued host n addr id iter w :
  tx_buffer (host_xfer host) -> 0 < n <= 64 -> n mod 4 = 0 ->
  exists h' w', Ddr3Out.tc_ddr3out_cmd host n
      (Ddr3Out.MkDdr3Out addr Ddr3Out.DDR3Out iter 4 DDR3_OUT_EP DDR3_IN_EP id) w = Ok (h', w') /\
    queued_item (SendOut DDR3_OUT_EP (ddr3_write n addr id)) host h'.
Proof.
  intros H Hn H4. set (st := Ddr3Out.MkDdr3Out _ _ _ _ _ _ _).
  destruct (ddr3out_cmd_run host n st w H ltac:(lia) eq_refl) as (l & w' & E & El & Hl & Hb).
  do 2 eexists. split; [exact E|]. apply out_queued; [lia|done|done|].
  exists (take 6 l), (take (Z.to_nat (4 * n)) (drop 6 l)). split; [|split].
  - rewrite take_take_drop. f_equal. lia.
  - rewrite length_take, length_drop. lia.
  - by rewrite El, decode_header, length_field.
Qed.

(** Taking the next item of a phase. *)
Lemma next_cmd (f : Z -> item) lengths rest k i l :
  drop (S k) (map f lengths) ++ rest = i :: l -> (S k < length lengths)%nat ->
  exists n, lengths !! S k = Some n /\ i = f n /\ l = drop (S (S k)) (map f lengths) ++ rest.
Proof.
  intros H Hk. destruct (lookup_lt_is_Some_2 lengths (S k) Hk) as [n Hn]. exists n. split; [done|].
  rewrite (drop_S _ (f n) (S k)) in H by (by rewrite list_lookup_fmap, Hn).
  by injection H as <- <-.
Qed.

Lemma next_read (x : item) n k i l :
  drop (S k) (replicate n x) = i :: l -> (S k < n)%nat /\ i = x /\ l = drop (S (S k)) (replicate n x).
Proof.
  rewrite !drop_replicate. intros H. destruct (n - S k)%nat as [|m] eqn:E; [done|]. injection H as <- <-.
  split; [lia|]. split; [done|]. f_equal. lia.
Qed.

Lemma last_cmds (f : Z -> item) lengths rest k :
  (length lengths <= S k)%nat -> drop (S k) (map f lengths) ++ rest = rest.
Proof. intros H. by rewrite drop_ge by (by rewrite length_map). Qed.

Lemma ddr3_counts : Forall (fun n => 0 < n <= 64 /\ n mod 4 = 0) [4; 4; 8; 16; 20; 12; 24].
Proof. repeat (apply List.Forall_cons; [done|]). constructor. Qed.

Lemma u8_succ k : (k < 255)%nat -> u8 (Z.of_nat k + 1) = Z.of_nat (S k).
Proof. intros H. rewrite u8_small by lia. lia. Qed.

Lemma ddr3in_laws addr id : BulkTestLaws (ddr3in_test addr id).
Proof.
  constructor.
  - intros w. by repeat constructor.
  - intros h w H. destruct (ddr3_read_queued h 4 addr id 0 H ltac:(lia) eq_refl) as (h' & E & Q).
    eexists _, _, (h' <| host_step := 0 |>), _, w. split; [reflexivity|].
    split; [|split; [exact Q|exists 0%nat; split; [lia|by left]]].
    cbn [bt_first ddr3in_test ddr3in_at tc_init]. unfold Ddr3In.tc_ddr3in_init. cbv zeta.
    change (read_at Ddr3In.ddr3in_lengths _) with (Ok 4). rewrite outcome_bind_ok.
    cbn [Ddr3In.di_addr Ddr3In.di_iter Ddr3In.di_id]. change (Z.of_nat 0) with 0. by rewrite E, outcome_bind_ok.
  - intros i l t h w (k & Hk & Hd) H.
    assert (Hstep : forall p, tc_step (ddr3in_at addr id p k) h w =
      tc_call TestDdr3In (Ddr3In.tc_ddr3in_step h (Ddr3In.MkDdr3In addr p (Z.of_nat k) DDR3_OUT_EP DDR3_IN_EP id) w))
      by done.
    unfold Ddr3In.tc_ddr3in_step in Hstep. cbv zeta in Hstep.
    cbn [Ddr3In.di_addr Ddr3In.di_iter Ddr3In.di_id Ddr3In.di_step Ddr3In.di_out Ddr3In.di_in] in Hstep.
    rewrite u8_succ in Hstep by lia. unfold Ddr3In.NUM_ITER in Hstep.
    destruct Hd as [[-> Hl]|[-> Hl]]; rewrite Hstep; clear Hstep.
    + destruct (Z.ltb_spec (Z.of_nat (S k)) 6) as [Hlt|Hge].
      * destruct (next_cmd _ [4; 8; 16; 20; 12; 24] _ _ _ _ (eq_sym Hl) ltac:(cbn; lia)) as (n & Hn & -> & ->).
        pose proof (Forall_lookup_1 _ _ (S (S k)) n ddr3_counts Hn) as [Hn1 Hn2].
        rewrite (read_at_Some Ddr3In.ddr3in_lengths (S k) n Hn), outcome_bind_ok.
        destruct (ddr3_read_queued h n addr id (Z.of_nat (S k)) H Hn1 Hn2) as (h' & E & Q).
        rewrite E, !outcome_bind_ok. do 3 eexists. split; [reflexivity|]. split; [exact Q|].
        exists (S k). split; [lia|]. by left.
      * unfold ddr3in_cmds in Hl. rewrite last_cmds in Hl by (cbn; lia). injection Hl as -> ->. do 3 eexists. split; [reflexivity|].
        split; [by split_and!|]. exists 0%nat. split; [lia|]. by right.
    + destruct (next_read _ _ _ _ _ (eq_sym Hl)) as (Hlt & -> & ->).
      rewrite (proj2 (Z.leb_gt _ _)) by lia. do 3 eexists. split; [reflexivity|].
      split; [by split_and!|]. exists (S k). split; [lia|]. by right.
  - intros t h w (k & Hk & [[-> Hl]|[-> Hl]]); [by destruct (drop _ _)|].
    unfold ddr3in_reads in Hl. rewrite drop_replicate in Hl.
    assert (k = 5)%nat as -> by (destruct (6 - S k)%nat eqn:?; [lia|done]).
    by do 3 eexists.
  - done.
  - by intros l t (k & _ & [[-> _]|[-> _]]).
Qed.

Lemma ddr3out_laws addr : BulkTestLaws (ddr3out_test addr).
Proof.
  constructor.
  - intros w. by repeat constructor.
  - intros h w H. cbn [bt_items bt_first ddr3out_test]. destruct (w_rand_next w) as [v w1] eqn:Ew. cbn [fst].
    destruct (ddr3_write_queued h 4 addr (Z.land v 0x0F) 0 w1 H ltac:(lia) eq_refl) as (h' & w' & E & Q).
    eexists _, _, (h' <| host_step := 0 |>), _, w'. split; [reflexivity|].
    split; [|split; [exact Q|exists (Z.land v 0x0F), 0%nat; split; [lia|by left]]].
    cbn [test_ddr3out tc_init]. unfold Ddr3Out.tc_ddr3out_init. rewrite Ew. cbv zeta.
    cbn [Ddr3Out.do_addr Ddr3Out.do_iter].
    change (read_at Ddr3Out.ddr3out_lengths 0) with (Ok 4). rewrite outcome_bind_ok, E, outcome_bind_ok. done.
  - intros i l t h w (id & k & Hk & Hd) H.
    assert (Hstep : forall p, tc_step (ddr3out_at addr id p k) h w =
      tc_call TestDdr3Out (Ddr3Out.tc_ddr3out_step h (Ddr3Out.MkDdr3Out addr p (Z.of_nat k) 4 DDR3_OUT_EP DDR3_IN_EP id) w))
      by done.
    unfold Ddr3Out.tc_ddr3out_step in Hstep. cbv zeta in Hstep.
    cbn [Ddr3Out.do_addr Ddr3Out.do_iter Ddr3Out.do_id Ddr3Out.do_step Ddr3Out.do_out Ddr3Out.do_in Ddr3Out.do_beat] in Hstep.
    rewrite u8_succ in Hstep by lia. unfold Ddr3Out.NUM_ITER in Hstep.
    destruct Hd as [[-> Hl]|[-> Hl]]; rewrite Hstep; clear Hstep.
    + destruct (Z.ltb_spec (Z.of_nat (S k)) 7) as [Hlt|Hge].
      * destruct (next_cmd _ [4; 4; 8; 16; 20; 12; 24] _ _ _ _ (eq_sym Hl) ltac:(cbn; lia)) as (n & Hn & -> & ->).
        pose proof (Forall_lookup_1 _ _ (S k) n ddr3_counts Hn) as [Hn1 Hn2].
        assert (Hn' : Ddr3Out.ddr3out_lengths !! S k = Some n)
          by (exact (lookup_app_l_Some [4; 4; 8; 16; 20; 12; 24] [0] _ _ Hn)).
        rewrite (read_at_Some _ (S k) n Hn'), outcome_bind_ok.
        destruct (ddr3_write_queued h n addr id (Z.of_nat (S k)) w H Hn1 Hn2) as (h' & w' & E & Q).
        rewrite E, !outcome_bind_ok. do 3 eexists. split; [reflexivity|]. split; [exact Q|].
        exists id, (S k). split; [lia|]. by left.
      * unfold ddr3out_cmds in Hl. rewrite last_cmds in Hl by (cbn; lia). injection Hl as -> ->.
        do 3 eexists. split; [reflexivity|]. split; [by split_and!|]. exists id, 0%nat. split; [lia|]. by right.
    + destruct (next_read _ _ _ _ _ (eq_sym Hl)) as (Hlt & -> & ->).
      rewrite (proj2 (Z.ltb_lt _ _)) by lia. do 3 eexists. split; [reflexivity|].
      split; [by split_and!|]. exists id, (S k). split; [lia|]. by right.
  - intros t h w (id & k & Hk & [[-> Hl]|[-> Hl]]); [by destruct (drop _ _)|].
    unfold ddr3out_reads in Hl. rewrite drop_replicate in Hl.
    assert (k = 6)%nat as -> by (destruct (7 - S k)%nat eqn:?; [lia|done]).
    by do 3 eexists.
  - done.
  - by intros l t (id & k & _ & [[-> _]|[-> _]]).
Qed.
