(* ===== verification/BulkSession.v ===== *)
(** Whole bulk and DDR3 tests over the clock edges of the simulator, against
    BulkTests's specification of a sequence of USB transactions. *)

From S2P Require Import Prelude Gf2 UsbCrc Ulpi UlpiSafe UlpiTrace UlpiRecv StdReq.
From S2P Require Import StdReqProps UsbHost UsbHostProps UsbHostTrans UsbHostIn.
From S2P Require Import TestCases TestCasesProps UlpiSim UlpiSimProps UsbControl.
From S2P Require Import ControlStages Bulk BulkTests.

#[local] Opaque crc16_calc crc5_calc crc5_check crc16_check.
#[local] Opaque tc_init tc_step usbh_step.

(** ** Between two transactions *)

(** The buffers and sequence bits of the host. *)
Record bulk_host (h : usb_host_t) : Prop := {
  bh_buffers : buffers (host_xfer h);
  bh_tx : tx_buffer (host_xfer h);
  bh_bits : Forall is_bit (ep_seq (host_xfer h));
}.

(** The current test of [s0] has been called [n] times and is [t]; the host is idle
    between two transactions, with the sequence bits [seqs], at most at cycle [c]. *)
Record due_at (s0 : ut_state_t) (n : Z) (t : testcase_t) (addr : Z) (seqs : list Z) (c : Z) (s : ut_state_t) : Prop := {
  da_state : s ≡ between s0 n t (ut_host s) (ut_world s);
  da_host : bulk_host (ut_host s);
  da_addr : host_addr (ut_host s) = addr;
  da_seqs : ep_seq (host_xfer (ut_host s)) = seqs;
  da_cycle : 0 <= host_cycle (ut_host s) <= c;
  da_quiet : quiet (ut_world s0) (ut_world s);
}.

(** The clock edge on which the test is called. *)
Definition tick (h : usb_host_t) : usb_host_t := h <| host_cycle := u64 (host_cycle h + 1) |>.

Lemma called s0 n t t0 i h' t' w' s :
  s ≡ between s0 n t (ut_host s) (ut_world s) -> current s0 t0 -> ulpi_bus_is_idle i = true ->
  (if n =? 0 then tc_init else tc_step) t (tick (ut_host s)) (ut_world s) = Ok (0, h', t', w') ->
  exists s1, edges s [i] [] s1 /\ ut_host s1 = h' /\ ut_op s1 = UT_Test /\
    s1 ≡ between s0 (n + 1) t' h' w' <| ut_op := UT_Test |>.
Proof.
  intros Hs Hc Hi E.
  assert (Hc' : current s t) by (rewrite Hs; by eapply current_between).
  destruct (call_edge s i t 0 h' t' w') as (s1 & H1 & H2 & H3); [by rewrite Hs|done|done|by left| |].
  { unfold test_call. by rewrite (ut_test_step_proper _ _ Hs). }
  change (0 =? 1) with false in H3. cbv iota in H3.
  assert (H4 : s1 ≡ between s0 (n + 1) t' h' w' <| ut_op := UT_Test |>).
  { rewrite H3. apply set_ut_op_proper.
    by rewrite (after_call_proper _ _ Hs _ _ eq_refl _ _ eq_refl _ _ eq_refl), after_call_between. }
  exists s1. split; [|split; [done|split; [by rewrite H4|done]]].
  exists [i]. cbn [ut_edges length replicate]. rewrite H1, outcome_bind_ok. split; [done|].
  by rewrite received_skip by by apply idle_received.
Qed.

(** The state after the transaction that a call has queued. *)
Lemma exchanged_due s0 n t h' w' s1 m h s2 addr seqs c :
  s1 ≡ between s0 n t h' w' <| ut_op := UT_Test |> -> ut_host s1 = h' -> exchanged s1 m h s2 ->
  bulk_host h -> host_addr h' = addr -> ep_seq (host_xfer h) = seqs -> 0 <= host_cycle h' <= c ->
  quiet (ut_world s0) w' -> due_at s0 n t addr seqs (c + m) s2.
Proof.
  intros H1 Hh [[g [S1 S2]] Ha Hcy] Hb Had Hs Hc Hq. rewrite Hh in *.
  assert (H3 : s2 ≡ between s0 n t h (w' <| w_rand := g |>)).
  { rewrite S2. rewrite (with_host_proper _ _ H1 _ _ eq_refl _ _ eq_refl _ _ eq_refl).
    by destruct s0. }
  pose proof (ut_world_proper _ _ H3) as Hw.
  constructor; rewrite ?S1; try done; [|by rewrite Ha|lia|by rewrite Hw].
  rewrite H3 at 1. by rewrite Hw.
Qed.

Lemma bulk_host_after h h' ep v :
  bulk_host h -> is_bit v -> ep_seq (host_xfer h') = <[ep := v]> (ep_seq (host_xfer h)) ->
  length (tx (host_xfer h')) = 512%nat -> Forall is_byte (tx (host_xfer h')) ->
  length (rx (host_xfer h')) = 512%nat -> Forall is_byte (rx (host_xfer h')) -> bulk_host h'.
Proof.
  intros [[Hl _ _ _] _ Hb] Hv Hs Ht1 Ht2 Hr1 Hr2. constructor; [|done|].
  - constructor; [by rewrite Hs, length_insert|done|done|done].
  - rewrite Hs. by apply Forall_insert.
Qed.

(** ** One transaction *)

Lemma next_seq_bit sq answered : is_bit sq -> is_bit (next_seq sq answered).
Proof. intros [-> | ->]; destruct answered; by (left + right). Qed.

Lemma out_xfer_wire h ep n l sq :
  length l = 512%nat -> 0 <= n <= 512 ->
  out_wire (out_xfer h ep n l) (take (Z.to_nat n) l) sq = usb_out (host_addr h) ep sq (take (Z.to_nat n) l).
Proof.
  intros Hl Hn. unfold out_wire, usb_out, token_bytes, crc_bytes, first_crc. cbv zeta.
  change (tx_len (out_xfer h ep n l)) with n. do 2 f_equal. do 2 f_equal.
  destruct (Z.eqb_spec n 0) as [->|]; [|done].
  change (take (Z.to_nat 0) l) with (@nil Z). by vm_compute.
Qed.

(** The transfer [x] that sends [payload] to [ep], queued by a host [h]. *)
Record sends_to (h : usb_host_t) (ep : Z) (payload : list Z) (x : transfer_t) : Prop := {
  sd_type : type x = OUT;
  sd_stage : stage x = NoXfer;
  sd_ep : endpoint x = ep;
  sd_seq : ep_seq x = ep_seq (host_xfer h);
  sd_data : take (length payload) (tx x) = payload /\ length (tx x) = 512%nat /\ Forall is_byte (tx x);
  sd_rx : rx x = rx (host_xfer h);
  sd_len : tx_len x = Z.of_nat (length payload);
  sd_ptr : tx_ptr x = 0;
  sd_wire sq : out_wire x payload sq = usb_out (host_addr h) ep sq payload;
}.

Lemma out_xfer_sends h ep n l :
  0 <= n <= 512 -> length l = 512%nat -> Forall is_byte l ->
  sends_to h ep (take (Z.to_nat n) l) (out_xfer h ep n l).
Proof.
  intros Hn Hl Hb. assert (Hlen : length (take (Z.to_nat n) l) = Z.to_nat n) by (rewrite length_take; lia).
  constructor; try reflexivity.
  - rewrite Hlen. done.
  - rewrite Hlen. change (n = Z.of_nat (Z.to_nat n)). lia.
  - intros sq. by apply out_xfer_wire.
Qed.

Lemma sends_queued h h0 ep payload x sq :
  sends_to h0 ep payload x -> host_op h = HostBulkOUT -> host_xfer h = x -> 0 <= ep < 16 ->
  ep_seq (host_xfer h0) !! Z.to_nat ep = Some sq -> is_bit sq ->
  0 <= host_cycle h /\ host_cycle h + 2 * Z.of_nat (length payload) + 100 < 2 ^ 32 ->
  UsbHostTrans.queued_out h payload sq.
Proof.
  intros [] Ho <- He Hs Hb Hc. constructor; try done; [by rewrite sd_ep0|by rewrite sd_ep0, sd_seq0|by apply sd_data0].
Qed.

(** The transfer [x] that reads from [ep], queued by a host [h]. *)
Record reads_from (h : usb_host_t) (ep : Z) (x : transfer_t) : Prop := {
  rf_type : type x = IN;
  rf_stage : stage x = NoXfer;
  rf_ep : endpoint x = ep;
  rf_seq : ep_seq x = ep_seq (host_xfer h);
  rf_tx : tx x = tx (host_xfer h);
  rf_rx : rx x = rx (host_xfer h);
  rf_ptr : rx_ptr x = 0;
  rf_wire : [0x69; tok1 x; tok2 x] = usb_in (host_addr h) ep;
}.

Lemma in_xfer_reads h ep : reads_from h ep (xfer_start h IN ep <| rx_ptr := 0 |>).
Proof. by constructor. Qed.

Section Round.
Context (s0 : ut_state_t) (n : Z) (t t0 t' : testcase_t) (addr : Z) (seqs : list Z) (c : Z) (s : ut_state_t).
Context (i : ulpi_bus_t) (h' : usb_host_t) (w' : world) (ep sq : Z).
Context (Hdue : due_at s0 n t addr seqs c s) (Hcur : current s0 t0) (Hi : ulpi_bus_is_idle i = true).
Context (Hcall : (if n =? 0 then tc_init else tc_step) t (tick (ut_host s)) (ut_world s) = Ok (0, h', t', w')).
Context (Hquiet : quiet (ut_world s) w') (Hep : 0 <= ep < 16) (Hsq : seqs !! Z.to_nat ep = Some sq).

Lemma sq_bit : is_bit sq.
Proof using Hdue Hsq.
  destruct Hdue as [_ [_ _ Hb] _ Hs _ _]. rewrite Hs in Hb. by apply (Forall_lookup_1 _ _ _ _ Hb Hsq).
Qed.

Lemma tick_cycle : c + 1 < 2 ^ 32 -> host_cycle (tick (ut_host s)) = host_cycle (ut_host s) + 1.
Proof using Hdue. intros Hc. pose proof (da_cycle _ _ _ _ _ _ _ Hdue). cbn. by rewrite u64_small by lia. Qed.

Lemma send_round P reply answered :
  queued_item (SendOut ep P) (tick (ut_host s)) h' -> link_answer reply answered -> c + 1200 < 2 ^ 32 ->
  exists payload s1 s2 s3, P payload /\ Forall is_byte payload /\
    edges s [i] [] s1 /\ drives s1 (usb_out addr ep sq payload) s2 /\ edges s2 reply [] s3 /\
    due_at s0 (n + 1) t' addr (<[Z.to_nat ep := next_seq sq answered]> seqs) (c + (1200 + Z.of_nat (length reply))) s3.
Proof using All.
  intros (Ha & Hc & m & l & Hop & Hx & Hm & Hl & Hb & HP) Hans Hlt.
  pose proof sq_bit as Hbit. pose proof (tick_cycle ltac:(lia)) as Ht.
  destruct Hdue as [Hs Hh Had Hseq Hcy Hqw]. rewrite Ht in Hc.
  destruct (called s0 n t t0 i h' t' w' s Hs Hcur Hi Hcall) as (s1 & E1 & Hh1 & Ho1 & H1).
  pose proof (out_xfer_sends (tick (ut_host s)) ep m l Hm Hl Hb) as Hsd. rewrite <- Hx in Hsd.
  assert (Hlen : (length (take (Z.to_nat m) l) <= 512)%nat) by (rewrite length_take; lia).
  assert (Hpb : Forall is_byte (take (Z.to_nat m) l)) by (by apply Forall_take).
  set (payload := take (Z.to_nat m) l) in *. clearbody payload. clear Hx Hm Hl Hb. rewrite <- Hh1 in Hsd.
  change (ep_seq (host_xfer (tick (ut_host s)))) with (ep_seq (host_xfer (ut_host s))) in *.
  assert (Hq : UsbHostTrans.queued_out (ut_host s1) payload sq).
  { apply (sends_queued _ (tick (ut_host s)) ep payload _ sq Hsd); rewrite ?Hh1; try done; [|lia].
    change (ep_seq (host_xfer (ut_host s)) !! Z.to_nat ep = Some sq). by rewrite Hseq. }
  destruct (out_exchange s1 payload sq reply answered Ho1 Hq Hans) as (s2 & s3 & h3 & D2 & E3 & Hex & Hov).
  destruct Hsd as [_ _ Hse Hsseq [_ [Hst1 Hst2]] Hsrx _ _ Hw]. rewrite Hw in D2.
  change (host_addr (tick (ut_host s))) with (host_addr (ut_host s)) in D2. rewrite Had in D2.
  destruct Hov as (_ & _ & Hv1 & Hv2 & Hv3). rewrite Hse, Hsseq in Hv1. rewrite Hsrx in Hv3.
  change (host_xfer (tick (ut_host s))) with (host_xfer (ut_host s)) in Hv1, Hv3.
  exists payload, s1, s2, s3. split; [done|]. split; [done|]. split; [exact E1|].
  split; [exact D2|]. split; [exact E3|]. pose proof Hh as [[_ _ Hr1 Hr2] _ _].
  assert (Hb3 : bulk_host h3).
  { apply (bulk_host_after (ut_host s) h3 (Z.to_nat ep) (next_seq sq answered)); rewrite ?Hv2, ?Hv3; try done.
    by apply next_seq_bit. }
  assert (D : due_at s0 (n + 1) t' addr (<[Z.to_nat ep := next_seq sq answered]> seqs)
    (c + 1 + (2 * Z.of_nat (length payload) + 27 + Z.of_nat (length reply))) s3).
  { eapply exchanged_due; [exact H1|exact Hh1|exact Hex|exact Hb3| | |lia|].
    - by rewrite Ha.
    - by rewrite Hv1, Hseq.
    - by eapply quiet_trans. }
  destruct D as [D1 D2' D3 D4 D5 D6]. constructor; try done. lia.
Qed.

(** The state after a call that queues a read. *)
Lemma read_called :
  queued_item (ReadIn ep) (tick (ut_host s)) h' -> c + 1200 < 2 ^ 32 ->
  exists s1, edges s [i] [] s1 /\ ut_host s1 = h' /\ ut_op s1 = UT_Test /\
    s1 ≡ between s0 (n + 1) t' h' w' <| ut_op := UT_Test |> /\
    queued_in (ut_host s1) sq /\ reads_from (ut_host s) ep (host_xfer (ut_host s1)) /\
    host_addr h' = addr /\ 0 <= host_cycle h' <= c + 1.
Proof using All.
  intros (Ha & Hc & Hop & Hx) Hlt. pose proof sq_bit as Hbit. pose proof (tick_cycle ltac:(lia)) as Ht.
  destruct Hdue as [Hs Hh Had Hseq Hcy Hqw]. rewrite Ht in Hc.
  destruct (called s0 n t t0 i h' t' w' s Hs Hcur Hi Hcall) as (s1 & E1 & Hh1 & Ho1 & H1).
  pose proof (in_xfer_reads (tick (ut_host s)) ep) as Hrf. rewrite <- Hx, <- Hh1 in Hrf. clear Hx.
  assert (Hrf' : reads_from (ut_host s) ep (host_xfer (ut_host s1))) by (by destruct Hrf).
  exists s1. split; [done|]. split; [done|]. split; [done|]. split; [done|]. split; [|split; [done|split; [by rewrite Ha|lia]]].
  destruct Hrf' as [R1 R2 R3 R4 R5 R6 R7 _]. pose proof Hh as [[_ _ Hr1 Hr2] _ _].
  constructor; [by rewrite Hh1|done|done|by rewrite R3|by rewrite R3, R4, Hseq|by rewrite R6|done|rewrite Hh1; lia].
Qed.

Lemma read_host_after answered h3 :
  bulk_host (ut_host s) -> ep_seq (host_xfer (ut_host s)) = seqs ->
  reads_from (ut_host s) ep (host_xfer h') -> in_done h' sq answered h3 ->
  bulk_host h3 /\ ep_seq (host_xfer h3) = <[Z.to_nat ep := next_seq sq answered]> seqs.
Proof using Hdue Hsq.
  intros Hh Hseq [_ _ R3 R4 R5 R6 _ _] (_ & _ & Hv & Htx & Hrx1 & Hrx2). rewrite R3, R4 in Hv. rewrite R5 in Htx.
  pose proof sq_bit as Hbit. pose proof Hh as [_ [Ht1 Ht2] _]. split; [|by rewrite Hv, Hseq].
  apply (bulk_host_after (ut_host s) h3 (Z.to_nat ep) (next_seq sq answered)); rewrite ?Htx; try done.
  by apply next_seq_bit.
Qed.

Lemma read_round packet bytes e1 e2 e3 e4 :
  queued_item (ReadIn ep) (tick (ut_host s)) h' -> in_packet sq packet bytes -> crc16_check bytes = true ->
  up_eop e1 e2 e3 e4 -> c + 1200 + Z.of_nat (length packet) < 2 ^ 32 ->
  exists s1 s2 s3 s4, edges s [i] [] s1 /\ drives s1 (usb_in addr ep) s2 /\
    edges s2 (packet ++ [e1; e2; e3; e4]) [] s3 /\ drives s3 [0xD2] s4 /\
    rx_packet (host_xfer (ut_host s4)) = bytes /\
    due_at s0 (n + 1) t' addr (<[Z.to_nat ep := flip_seq sq]> seqs) (c + (1200 + Z.of_nat (length packet))) s4.
Proof using All.
  intros Hq Hp Hcrc He Hlt. pose proof Hdue as [_ Hh Had Hseq _ Hqw].
  pose proof (quiet_trans _ _ _ Hqw Hquiet) as Hqw'.
  destruct (read_called Hq ltac:(lia)) as (s1 & E1 & Hh1 & Ho1 & H1 & Hqi & Hrf & Ha & Hcy).
  destruct (in_exchange s1 sq packet bytes e1 e2 e3 e4 Ho1 Hqi Hp Hcrc He ltac:(rewrite Hh1; lia))
    as (s2 & s3 & s4 & h3 & D2 & E3 & D4 & Hex & Hdone & Hrx).
  rewrite (rf_wire _ _ _ Hrf), Had in D2. rewrite Hh1 in Hdone, Hrf.
  destruct (read_host_after true h3 Hh Hseq Hrf Hdone) as [Hb3 Hs3].
  exists s1, s2, s3, s4. split; [exact E1|]. split; [exact D2|]. split; [exact E3|]. split; [exact D4|].
  split; [destruct (ex_stands _ _ _ _ Hex) as [g [S1 _]]; by rewrite S1|].
  assert (D : due_at s0 (n + 1) t' addr (<[Z.to_nat ep := flip_seq sq]> seqs)
    (c + 1 + (Z.of_nat (length packet) + 20)) s4) by (eapply exchanged_due; done).
  destruct D as [D1 D2' D3 D4' D5 D6]. constructor; try done. lia.
Qed.

Lemma silent_round waits last :
  queued_item (ReadIn ep) (tick (ut_host s)) h' -> silence waits last -> c + 1200 < 2 ^ 32 ->
  exists s1 s2 s3, edges s [i] [] s1 /\ drives s1 (usb_in addr ep) s2 /\ edges s2 (waits ++ [last]) [] s3 /\
    due_at s0 (n + 1) t' addr seqs (c + 1200) s3.
Proof using All.
  intros Hq Hsil Hlt. pose proof Hdue as [_ Hh Had Hseq _ Hqw].
  pose proof (quiet_trans _ _ _ Hqw Hquiet) as Hqw'.
  destruct (read_called Hq Hlt) as (s1 & E1 & Hh1 & Ho1 & H1 & Hqi & Hrf & Ha & Hcy).
  destruct (silence_exchange s1 sq waits last Ho1 Hqi Hsil) as (s2 & s3 & h3 & D2 & E3 & Hex & Hdone).
  rewrite (rf_wire _ _ _ Hrf), Had in D2. rewrite Hh1 in Hdone, Hrf.
  destruct (read_host_after false h3 Hh Hseq Hrf Hdone) as [Hb3 Hs3].
  cbn [next_seq] in Hs3. rewrite list_insert_id in Hs3 by done.
  exists s1, s2, s3. split; [exact E1|]. split; [exact D2|]. split; [exact E3|].
  assert (D : due_at s0 (n + 1) t' addr seqs (c + 1 + 50) s3) by (eapply exchanged_due; done).
  destruct D as [D1 D2' D3 D4' D5 D6]. constructor; try done. lia.
Qed.

End Round.

(** ** A whole test *)

(** The clock cycles of the link's answers, with those of the host: a packet of 512
    bytes takes the host at most 1,051 cycles, wait states included. *)
Definition answer_cycles (a : answer) : Z :=
  match a with
  | OutAnswer _ reply _ => 1200 + Z.of_nat (length reply)
  | InAnswer _ packet _ _ _ _ _ => 1200 + Z.of_nat (length packet)
  | InSilent _ _ _ => 1200
  end.
Fixpoint link_cycles (link : list answer) : Z :=
  match link with [] => 0 | a :: link => answer_cycles a + link_cycles link end.

Lemma link_cycles_nonneg link : 0 <= link_cycles link.
Proof. induction link as [|[] link IH]; cbn [link_cycles answer_cycles]; lia. Qed.

Section Session.
Context {T : BulkTest} {Laws : BulkTestLaws T}.

(** A simulator that is about to run the test. *)
Record bulk_ready (s : ut_state_t) : Prop := {
  br_op : ut_op s = UT_Idle;
  br_test : current s bt_first;
  br_step : ut_test_step s = 0;
  br_host : bulk_host (ut_host s);
}.

(** What the rest of a test does from [s] on. *)
Definition rest_performed (s0 : ut_state_t) (addr : Z) (items : list item) (link : list answer) (seqs : list Z)
    (s : ut_state_t) : Prop :=
  exists s' seqs' n t c, performs addr items link seqs s s' seqs' /\ due_at s0 n t addr seqs' c s' /\
    0 < n /\ bt_due [] t.

Definition rest_of_test (s0 : ut_state_t) (t0 : testcase_t) (addr : Z) (items : list item) : Prop :=
  forall link n t seqs c s, due_at s0 n t addr seqs c s -> current s0 t0 -> 0 < n -> bt_due items t ->
  Forall item_ok items -> answers seqs items link -> c + link_cycles link < 2 ^ 32 ->
  rest_performed s0 addr items link seqs s.

(** A test that has made the call for its next item. *)
Lemma item_performed s0 n t t0 addr i items link seqs c s h' t' w' :
  rest_of_test s0 t0 addr items -> due_at s0 n t addr seqs c s -> current s0 t0 -> 0 <= n ->
  (if n =? 0 then tc_init else tc_step) t (tick (ut_host s)) (ut_world s) = Ok (0, h', t', w') ->
  quiet (ut_world s) w' -> queued_item i (tick (ut_host s)) h' -> bt_due items t' ->
  Forall item_ok (i :: items) -> answers seqs (i :: items) link -> c + link_cycles link < 2 ^ 32 ->
  rest_performed s0 addr (i :: items) link seqs s.
Proof using Type.
  intros IH Hdue Hcur Hn Hcall Hqw Hq Ht' Hok Ha Hlt. apply Forall_cons_1 in Hok as [Hep Hok].
  destruct i as [ep P|ep], link as [|[j reply answered|j packet bytes e1 e2 e3 e4|j waits last] link]; try done;
    cbn [answers] in Ha; cbn [link_cycles answer_cycles] in Hlt; pose proof (link_cycles_nonneg link) as Hpos.
  - destruct Ha as (Hj & Hans & sq & Hsq & Ha).
    destruct (send_round s0 n t t0 t' addr seqs c s j h' w' ep sq Hdue Hcur Hj Hcall Hqw Hep Hsq P reply answered
      Hq Hans ltac:(lia)) as (payload & s1 & s2 & s3 & HP & Hb & E1 & D2 & E3 & Hdue').
    destruct (IH link (n + 1) t' _ _ s3 Hdue' Hcur ltac:(lia) Ht' Hok Ha ltac:(lia)) as (s' & seqs' & m & t1 & c' & H & R).
    exists s', seqs', m, t1, c'. split; [|exact R]. by exists payload, sq, s1, s2, s3.
  - destruct Ha as (Hj & He & Hcrc & sq & Hsq & Hp & Ha).
    destruct (read_round s0 n t t0 t' addr seqs c s j h' w' ep sq Hdue Hcur Hj Hcall Hqw Hep Hsq packet bytes e1 e2 e3 e4
      Hq Hp Hcrc He ltac:(lia)) as (s1 & s2 & s3 & s4 & E1 & D2 & E3 & D4 & Hrx & Hdue').
    destruct (IH link (n + 1) t' _ _ s4 Hdue' Hcur ltac:(lia) Ht' Hok Ha ltac:(lia)) as (s' & seqs' & m & t1 & c' & H & R).
    exists s', seqs', m, t1, c'. split; [|exact R]. by exists sq, s1, s2, s3, s4.
  - destruct Ha as (Hj & Hsil & Ha).
    destruct (lookup_lt_is_Some_2 seqs (Z.to_nat ep)) as [sq Hsq].
    { destruct Hdue as [_ [[Hl _ _ _] _ _] _ <- _ _]. rewrite Hl. unfold item_ok in Hep. cbn in Hep. lia. }
    destruct (silent_round s0 n t t0 t' addr seqs c s j h' w' ep sq Hdue Hcur Hj Hcall Hqw Hep Hsq waits last Hq Hsil
      ltac:(lia)) as (s1 & s2 & s3 & E1 & D2 & E3 & Hdue').
    destruct (IH link (n + 1) t' _ _ s3 Hdue' Hcur ltac:(lia) Ht' Hok Ha ltac:(lia)) as (s' & seqs' & m & t1 & c' & H & R).
    exists s', seqs', m, t1, c'. split; [|exact R]. by exists s1, s2, s3.
Qed.

Lemma tick_tx s : bulk_host (ut_host s) -> tx_buffer (host_xfer (tick (ut_host s))).
Proof using Type. by intros [_ [H1 H2] _]. Qed.

Lemma rest_runs s0 t0 addr items : rest_of_test s0 t0 addr items.
Proof using Laws.
  induction items as [|i items IH]; intros link n t seqs c s Hdue Hcur Hn Ht Hok Ha Hlt.
  - destruct link; [|done]. by exists s, seqs, n, t, c.
  - destruct (bt_next i items t (tick (ut_host s)) (ut_world s) Ht (tick_tx s (da_host _ _ _ _ _ _ _ Hdue)))
      as (h' & t' & w' & E & Q & Ht').
    pose proof (bulk_step_quiet t (tick (ut_host s)) (ut_world s) (bt_quiet _ _ Ht)) as Hqw. rewrite E in Hqw.
    apply (item_performed s0 n t t0 addr i items link seqs c s h' t' w' IH Hdue Hcur ltac:(lia)); try done.
    by rewrite (proj2 (Z.eqb_neq n 0)) by lia.
Qed.

(** The last call. *)
Lemma last_call s0 n t t0 addr seqs c s inp :
  due_at s0 n t addr seqs c s -> current s0 t0 -> 0 < n -> bt_due [] t -> ulpi_bus_is_idle inp = true ->
  exists s' t', edges s [inp] [] s' /\ ut_op s' = UT_Idle /\ ut_test_step s' = 0 /\
    ut_test_curr s' = ut_test_curr s0 + 1 /\ ut_tests s' !! Z.to_nat (ut_test_curr s0) = Some t' /\
    ut_finish s' = ut_finish s0 /\ host_op (ut_host s') = HostIdle /\ host_addr (ut_host s') = addr /\
    ep_seq (host_xfer (ut_host s')) = seqs.
Proof using Laws.
  intros [Hs Hh Had Hseq Hcy Hqw] Hcur Hn Ht Hi.
  destruct (bt_last t (tick (ut_host s)) (ut_world s) Ht) as (h' & t' & w' & E & Ho & Ha & Hq).
  pose proof (bulk_step_quiet t (tick (ut_host s)) (ut_world s) (bt_quiet _ _ Ht)) as Hqw'. rewrite E in Hqw'.
  destruct (quiet_trans _ _ _ Hqw Hqw') as [_ Hfin].
  destruct (call_edge s inp t 1 h' t' w') as (s' & H1 & H2 & H3);
    [by rewrite Hs|done|rewrite Hs; by eapply current_between|by right| |].
  { unfold test_call. rewrite (ut_test_step_proper _ _ Hs).
    change (ut_test_step (between s0 n t (ut_host s) (ut_world s))) with n.
    by rewrite (proj2 (Z.eqb_neq n 0)) by lia. }
  change (1 =? 1) with true in H3. cbv iota in H3.
  assert (H4 : s' ≡ between s0 0 t' h' w' <| ut_test_curr := ut_test_curr s0 + 1 |>).
  { rewrite H3. by rewrite (after_test_proper _ _ Hs _ _ eq_refl _ _ eq_refl _ _ eq_refl), after_test_between. }
  destruct (between_finished s0 s' t' t0 h' w' H4 Hcur) as (B1 & B2 & B3 & B4 & B5 & _).
  exists s', t'. unfold ut_finish. rewrite B5, H2, Ho, Ha, Hq. split; [|by split_and!].
  exists [inp]. cbn [ut_edges length replicate]. rewrite H1, outcome_bind_ok. split; [done|].
  by rewrite received_skip by by apply idle_received.
Qed.

(** C8.  The bulk and DDR3 tests, end to end over the clock edges of the simulator,
    against USB 2.0.  Whatever [rand()] returns, and for every link that acknowledges
    each packet in time or not at all, and sends a data packet with the right sequence
    bit and CRC16 or nothing, with any wait states: no edge fails; the transactions of
    the test are performed in order, each of them with the address of the device, the
    endpoint, and the data packet that the sequence bit of the endpoint selects, which
    flips exactly if the transaction was acknowledged; the payloads are those of the
    test, for the DDR3 tests commands that the core decodes to the test's operations;
    what the device sends is in the host's buffer.  After the last transaction the test
    is finished, the next one is due, and the host is idle. *)
Theorem bulk_session s link inp :
  bulk_ready s -> answers (ep_seq (host_xfer (ut_host s))) (bt_items (ut_world s)) link ->
  0 <= host_cycle (ut_host s) -> host_cycle (ut_host s) + link_cycles link < 2 ^ 32 ->
  ulpi_bus_is_idle inp = true ->
  exists s1 seqs s' t', 
    performs (host_addr (ut_host s)) (bt_items (ut_world s)) link (ep_seq (host_xfer (ut_host s))) s s1 seqs /\
    edges s1 [inp] [] s' /\ ut_op s' = UT_Idle /\ ut_test_step s' = 0 /\
    ut_test_curr s' = ut_test_curr s + 1 /\ ut_tests s' !! Z.to_nat (ut_test_curr s) = Some t' /\
    ut_finish s' = ut_finish s /\ host_op (ut_host s') = HostIdle /\
    host_addr (ut_host s') = host_addr (ut_host s) /\ ep_seq (host_xfer (ut_host s')) = seqs.
Proof using Laws.
  intros [Ho Hcur Hst Hh] Ha Hc0 Hlt Hi. pose proof (bt_items_ok (ut_world s)) as Hok.
  destruct (bt_init (tick (ut_host s)) (ut_world s) (tick_tx s Hh)) as (i & l & h' & t & w' & El & E & Q & Ht).
  pose proof (bulk_init_quiet bt_first (tick (ut_host s)) (ut_world s) bt_quiet_first) as Hqw. rewrite E in Hqw.
  rewrite El in *.
  assert (Hdue : due_at s 0 bt_first (host_addr (ut_host s)) (ep_seq (host_xfer (ut_host s))) (host_cycle (ut_host s)) s)
    by (constructor; try done; by apply between_start).
  destruct (item_performed s 0 bt_first bt_first _ i l link _ _ s h' t w' (rest_runs s bt_first _ l) Hdue Hcur
    (Z.le_refl 0) E Hqw Q Ht Hok Ha Hlt) as (s1 & seqs & n & t1 & c & Hp & Hdue1 & Hn & Ht1).
  destruct (last_call s n t1 bt_first _ seqs c s1 inp Hdue1 Hcur Hn Ht1 Hi) as (s' & t' & H).
  by exists s1, seqs, s', t'.
Qed.
End Session.

(** ** Witness: the DDR3 read of the schedule *)

(** The link acknowledges the six commands, answers the first read with a packet, and
    the others not at all. *)
Definition ddr3in_link_example : list answer :=
  replicate 6 (OutAnswer bus_quiet ack_cycles true) ++
  InAnswer bus_quiet in_packet_example (accepted body_example) bus_released (bus_rx_cmd 0x4C) (bus_rx_cmd 0x4D) bus_released ::
  replicate 5 (InSilent bus_quiet (replicate 40 bus_quiet) bus_quiet).

Lemma silence_example : silence (replicate 40 bus_quiet) bus_quiet.
Proof. constructor; [|done| |done]; repeat constructor; discriminate. Qed.

Lemma ddr3in_link_answers addr id :
  answers (replicate 16 0) (@bt_items (ddr3in_test addr id) (MkWorld rng_example rng_example [] [])) ddr3in_link_example.
Proof.
  cbn [bt_items ddr3in_test ddr3in_cmds ddr3in_reads map replicate app ddr3in_link_example].
  do 6 (cbn [answers]; split; [done|]; split; [exact ack_cycles_answer|]; eexists; split; [reflexivity|]).
  cbn [answers]. split; [done|]. split; [exact in_eop_example|]. split; [by vm_compute|].
  eexists. split; [reflexivity|]. split; [exact in_packet_example_ok|].
  do 5 (cbn [answers]; split; [done|]; split; [exact silence_example|]). exact I.
Qed.

Lemma ddr3in_example_ready addr id :
  @bulk_ready (ddr3in_test addr id) (ut_example (@bt_first (ddr3in_test addr id))).
Proof.
  constructor; [done| |done|]; [by constructor|].
  constructor; [exact (wf_buffers _ wf_zero)|exact (wf_tx_buffer _ wf_zero)|exact (wf_seq_bits _ wf_zero)].
Qed.

Lemma bulk_session_witness : exists s1 seqs s',
  performs 0 (@bt_items (ddr3in_test 0x02A8F0 0x0C) (MkWorld rng_example rng_example [] [])) ddr3in_link_example
    (replicate 16 0) (ut_example (ddr3in_at 0x02A8F0 0x0C Ddr3In.DDR3Cmd 0)) s1 seqs /\
  edges s1 [bus_quiet] [] s' /\ ut_test_curr s' = 1 /\ host_op (ut_host s') = HostIdle.
Proof.
  destruct (@bulk_session (ddr3in_test 0x02A8F0 0x0C) (ddr3in_laws 0x02A8F0 0x0C)
    (ut_example (@bt_first (ddr3in_test 0x02A8F0 0x0C))) ddr3in_link_example bus_quiet
    (ddr3in_example_ready 0x02A8F0 0x0C) (ddr3in_link_answers 0x02A8F0 0x0C) ltac:(done) ltac:(done) eq_refl)
    as (s1 & seqs & s' & t' & H1 & H2 & _ & _ & H3 & _ & _ & H4 & _).
  exists s1, seqs, s'. split; [exact H1|]. split; [exact H2|]. split; [exact H3|exact H4].
Defined.
