(* ===== verification/Monitor.v ===== *)
(** The bus monitor: src/vpi/monitor.c.

    The task [$ulpi_monitor] samples the ULPI bus on every call, reports a change of
    direction with the time and the data, and keeps the sample. *)

From S2P Require Import Prelude Ulpi Vpi.

(** [ulpim_handles_t], without the handles. *)
Record ulpim_handles_t : Type := MkUlpim {
  t_unit : Z;
  t_prec : Z;
  t_recip : Z;
  ulpi_prev : ulpi_bus_t
}.

(** [ulpim_store_bus], with the values that the simulator reads: scalars as [int]s,
    the two words of [data] as 32-bit values. *)
Definition ulpim_store_bus (sampled : ulpi_bus_t) : ulpi_bus_t :=
  MkBus (u8 (clock sampled)) (u8 (rst_n sampled)) (u8 (dir sampled)) (u8 (stp sampled))
    (u8 (nxt sampled)) (MkByte (u8 (data_a sampled)) (u8 (data_b sampled))).

(** The six argument checks of [ulpim_set_handles] are those of [get_signal]; here
    the iterator is freed before the error for an argument too many, too.  [want]
    tells that [data] is not NULL. *)
Definition ulpim_set_handles `{Vpi} (want systf : bool) (args : option iterator) (unit precision : Z)
    (sampled : ulpi_bus_t) : Z * option ulpim_handles_t * list vpi_event :=
  match parse_args 6 systf args with
  | (None, ev) => (0, None, ev)
  | (Some _, ev) =>
      if negb want then (0, None, ev)
      else (0, Some (MkUlpim unit precision (time_recip precision) (ulpim_store_bus sampled)),
            ev ++ [VpiUserdata])
  end.

Definition ulpim_compiletf `{Vpi} := ulpim_set_handles true.

(** What the monitor prints: the time, and the data words that it reads again. *)
Record ulpim_report : Type := MkReport { rp_tick : Z; rp_data : byte_t }.

(** [ulpim_calltf] at time [high:low]: missing user data is reported and then used. *)
Definition ulpim_calltf (data : option ulpim_handles_t) (high low : Z) (sampled : ulpi_bus_t)
  : outcome (ulpim_handles_t * list ulpim_report) :=
  match data with
  | None => Undef
  | Some s =>
      tick_ns ← sim_tick high low (t_recip s);
      let curr := ulpim_store_bus sampled in
      let reports :=
        if negb (dir curr =? dir (ulpi_prev s)) then [MkReport tick_ns (Ulpi.data sampled)] else [] in
      Ok (MkUlpim (t_unit s) (t_prec s) (t_recip s) curr, reports)
  end.

(** [ulpim_StartOfSim]: without a caller. *)
Definition ulpim_StartOfSim (cb_data : Z) : Z := 0.
