(* ===== verification/PacketTb.v ===== *)
(** The packet-FIFO testbench: src/vpi/packet_tb.c.

    The testbench drives the store side of a packet FIFO and checks its fetch
    side, both AXI4 streams, one call per clock edge.  [bit_t], [byte_t] and the
    signal values of the file are those of src/vpi/usb/ulpi.h.  [pt_error] reports
    and calls [vpi_control(vpiFinish, 1)]; the number of such calls is the last
    component of a result.  The steps of a test are [int]s that the code
    increments; they are integers here. *)

From S2P Require Import Prelude Ulpi Vpi.

Definition NUM_TESTCASES : Z := 64.

Record fifo_sigs_t : Type := MkSigs {
  fs_clock : Z;
  fs_reset : Z;
  fs_level : byte_t;
  fs_drop : Z;
  fs_save : Z;
  fs_redo : Z;
  fs_next : Z;
  w_vld : Z;
  w_rdy : Z;
  w_lst : Z;
  w_dat : byte_t;
  r_vld : Z;
  r_rdy : Z;
  r_lst : Z;
  r_dat : byte_t
}.

#[export] Instance set_fs_drop : Setter fs_drop := fun v s =>
  MkSigs (fs_clock s) (fs_reset s) (fs_level s) v (fs_save s) (fs_redo s) (fs_next s) (w_vld s)
    (w_rdy s) (w_lst s) (w_dat s) (r_vld s) (r_rdy s) (r_lst s) (r_dat s).
#[export] Instance set_fs_save : Setter fs_save := fun v s =>
  MkSigs (fs_clock s) (fs_reset s) (fs_level s) (fs_drop s) v (fs_redo s) (fs_next s) (w_vld s)
    (w_rdy s) (w_lst s) (w_dat s) (r_vld s) (r_rdy s) (r_lst s) (r_dat s).
#[export] Instance set_fs_redo : Setter fs_redo := fun v s =>
  MkSigs (fs_clock s) (fs_reset s) (fs_level s) (fs_drop s) (fs_save s) v (fs_next s) (w_vld s)
    (w_rdy s) (w_lst s) (w_dat s) (r_vld s) (r_rdy s) (r_lst s) (r_dat s).
#[export] Instance set_fs_next : Setter fs_next := fun v s =>
  MkSigs (fs_clock s) (fs_reset s) (fs_level s) (fs_drop s) (fs_save s) (fs_redo s) v (w_vld s)
    (w_rdy s) (w_lst s) (w_dat s) (r_vld s) (r_rdy s) (r_lst s) (r_dat s).
#[export] Instance set_w_vld : Setter w_vld := fun v s =>
  MkSigs (fs_clock s) (fs_reset s) (fs_level s) (fs_drop s) (fs_save s) (fs_redo s) (fs_next s) v
    (w_rdy s) (w_lst s) (w_dat s) (r_vld s) (r_rdy s) (r_lst s) (r_dat s).
#[export] Instance set_w_rdy : Setter w_rdy := fun v s =>
  MkSigs (fs_clock s) (fs_reset s) (fs_level s) (fs_drop s) (fs_save s) (fs_redo s) (fs_next s)
    (w_vld s) v (w_lst s) (w_dat s) (r_vld s) (r_rdy s) (r_lst s) (r_dat s).
#[export] Instance set_w_lst : Setter w_lst := fun v s =>
  MkSigs (fs_clock s) (fs_reset s) (fs_level s) (fs_drop s) (fs_save s) (fs_redo s) (fs_next s)
    (w_vld s) (w_rdy s) v (w_dat s) (r_vld s) (r_rdy s) (r_lst s) (r_dat s).
#[export] Instance set_w_dat : Setter w_dat := fun v s =>
  MkSigs (fs_clock s) (fs_reset s) (fs_level s) (fs_drop s) (fs_save s) (fs_redo s) (fs_next s)
    (w_vld s) (w_rdy s) (w_lst s) v (r_vld s) (r_rdy s) (r_lst s) (r_dat s).
#[export] Instance set_r_vld : Setter r_vld := fun v s =>
  MkSigs (fs_clock s) (fs_reset s) (fs_level s) (fs_drop s) (fs_save s) (fs_redo s) (fs_next s)
    (w_vld s) (w_rdy s) (w_lst s) (w_dat s) v (r_rdy s) (r_lst s) (r_dat s).
#[export] Instance set_r_rdy : Setter r_rdy := fun v s =>
  MkSigs (fs_clock s) (fs_reset s) (fs_level s) (fs_drop s) (fs_save s) (fs_redo s) (fs_next s)
    (w_vld s) (w_rdy s) (w_lst s) (w_dat s) (r_vld s) v (r_lst s) (r_dat s).
#[export] Instance set_r_lst : Setter r_lst := fun v s =>
  MkSigs (fs_clock s) (fs_reset s) (fs_level s) (fs_drop s) (fs_save s) (fs_redo s) (fs_next s)
    (w_vld s) (w_rdy s) (w_lst s) (w_dat s) (r_vld s) (r_rdy s) v (r_dat s).
#[export] Instance set_r_dat : Setter r_dat := fun v s =>
  MkSigs (fs_clock s) (fs_reset s) (fs_level s) (fs_drop s) (fs_save s) (fs_redo s) (fs_next s)
    (w_vld s) (w_rdy s) (w_lst s) (w_dat s) (r_vld s) (r_rdy s) (r_lst s) v.

Record tc_state_t : Type := MkTc {
  tc_step : Z;
  tc_size : Z;
  tc_head : Z;
  tc_tail : Z;
  tc_buf : list Z
}.

#[export] Instance set_tc_step : Setter tc_step := fun v s =>
  MkTc v (tc_size s) (tc_head s) (tc_tail s) (tc_buf s).
#[export] Instance set_tc_size : Setter tc_size := fun v s =>
  MkTc (tc_step s) v (tc_head s) (tc_tail s) (tc_buf s).
#[export] Instance set_tc_head : Setter tc_head := fun v s =>
  MkTc (tc_step s) (tc_size s) v (tc_tail s) (tc_buf s).
#[export] Instance set_tc_tail : Setter tc_tail := fun v s =>
  MkTc (tc_step s) (tc_size s) (tc_head s) v (tc_buf s).
#[export] Instance set_tc_buf : Setter tc_buf := fun v s =>
  MkTc (tc_step s) (tc_size s) (tc_head s) (tc_tail s) v.

(** ** Random packets *)

(** [for (int i=len; i--;) buf[i] = rand();] *)
Fixpoint fill_bytes (n : nat) (buf : list Z) (g : rng) : outcome (list Z * rng) :=
  match n with
  | O => Ok (buf, g)
  | S n =>
      let '(v, g) := rng_next g in
      buf ← write_at buf (Z.of_nat n) (u8 v);
      fill_bytes n buf g
  end.

Definition fill_fixed_len (buf : list Z) (len : Z) (g : rng) : outcome (Z * list Z * rng) :=
  '(buf, g) ← fill_bytes (Z.to_nat len) buf g;
  Ok (len, buf, g).

(** No caller in the program. *)
Definition fill_len_masked (buf : list Z) (len : Z) (g : rng) : outcome (Z * list Z * rng) :=
  let '(v, g) := rng_next g in
  fill_fixed_len buf (Z.land v len) g.

(** ** Store and fetch *)

(** The result, the signals and the state, and the calls of [pt_error]. *)
Definition tb_result : Type := outcome (Z * fifo_sigs_t * tc_state_t * nat).

Definition store_packet (curr : fifo_sigs_t) (st : tc_state_t) : tb_result :=
  c_assert ((0 <? tc_size st) && (0 <=? tc_head st));;
  let accepted := (w_vld curr =? SIG1) && (w_rdy curr =? SIG1) in
  if accepted && (w_lst curr =? SIG1) then
    Ok (1, curr <| w_vld := SIG0 |> <| w_lst := SIG0 |> <| w_dat := MkByte 0x00 0xFF |>, st, 0%nat)
  else
    let st := if accepted && (w_lst curr =? SIG0) then st <| tc_head := tc_head st + 1 |> else st in
    let curr := curr <| w_lst := if tc_head st + 1 <? tc_size st then SIG0 else SIG1 |> in
    if tc_head st <? tc_size st then
      d ← read_at (tc_buf st) (tc_head st);
      Ok (0, curr <| w_vld := SIG1 |> <| w_dat := MkByte d 0x00 |>, st, 0%nat)
    else Ok (0, curr, st, 1%nat).

Definition fetch_packet (curr : fifo_sigs_t) (st : tc_state_t) : tb_result :=
  c_assert (0 <=? tc_tail st);;
  if (r_vld curr =? SIG1) && (r_rdy curr =? SIG1) then
    d ← read_at (tc_buf st) (tc_tail st);
    let st := st <| tc_tail := tc_tail st + 1 |> in
    let errs := if negb (d =? a (r_dat curr)) || negb (b (r_dat curr) =? 0x00) then 1%nat else 0%nat in
    if r_lst curr =? SIG1 then Ok (1, curr <| r_rdy := SIG0 |>, st, errs)
    else Ok (0, curr <| r_rdy := SIG1 |>, st, errs)
  else Ok (0, curr <| r_rdy := SIG1 |>, st, 0%nat).

(** ** Test cases *)

Definition tc_result : Type := outcome (Z * fifo_sigs_t * tc_state_t * rng * nat).

Definition tc_waitrst_init (curr : fifo_sigs_t) (st : tc_state_t) (g : rng) : tc_result :=
  Ok (0, curr, st <| tc_step := 0 |>, g, 0%nat).

Definition tc_waitrst_step (curr : fifo_sigs_t) (st : tc_state_t) (g : rng) : tc_result :=
  c_assert (fs_clock curr =? SIG1);;
  let step := tc_step st in
  if step =? 0 then
    if fs_reset curr =? SIG1 then
      Ok (0, curr <| fs_drop := SIG0 |> <| fs_save := SIG0 |> <| fs_redo := SIG0 |>
                  <| fs_next := SIG0 |> <| w_vld := SIG0 |> <| r_rdy := SIG0 |>,
          st <| tc_step := 1 |>, g, 0%nat)
    else Ok (0, curr, st, g, 0%nat)
  else if step =? 1 then
    if fs_reset curr =? SIG0 then Ok (0, curr, st <| tc_step := 2 |>, g, 0%nat)
    else Ok (0, curr, st, g, 0%nat)
  else if step =? 2 then Ok (1, curr, st, g, 0%nat)
  else Ok (-1, curr, st, g, 0%nat).

(** The [init] of the other tests. *)
Definition tc_packet_init (curr : fifo_sigs_t) (st : tc_state_t) (g : rng) : tc_result :=
  let st := st <| tc_step := 0 |> <| tc_head := 0 |> <| tc_tail := 0 |> in
  '(n, buf, g) ← fill_fixed_len (tc_buf st) (tc_size st) g;
  c_assert (n =? tc_size st);;
  Ok (0, curr, st <| tc_buf := buf |>, g, 0%nat).

Definition tc_wrdata1_init := tc_packet_init.
Definition tc_wr_redo_init := tc_packet_init.
Definition tc_wr_drop_init := tc_packet_init.
Definition tc_stop_go_init := tc_packet_init.

(** Their first step: wait for the store side to be ready. *)
Definition wait_w_rdy (curr : fifo_sigs_t) (st : tc_state_t) (g : rng) : tc_result :=
  let curr := curr <| r_rdy := SIG0 |> in
  if w_rdy curr =? SIG1 then Ok (0, curr, st <| tc_step := 1 |>, g, 0%nat)
  else Ok (0, curr, st, g, 0%nat).

Definition in_operation (curr : fifo_sigs_t) : outcome unit :=
  c_assert ((fs_clock curr =? SIG1) && (fs_reset curr =? SIG0)).

Definition tc_wrdata1_step (curr : fifo_sigs_t) (st : tc_state_t) (g : rng) : tc_result :=
  in_operation curr;;
  let step := tc_step st in
  if step =? 0 then wait_w_rdy curr st g
  else if step =? 1 then
    '(result, curr, st, e) ← store_packet curr st;
    if result <? 0 then Ok (result, curr, st, g, e)
    else if 0 <? result then Ok (0, curr, st <| tc_step := 2 |>, g, e)
    else Ok (0, curr, st, g, e)
  else if step =? 2 then Ok (0, curr <| fs_save := SIG1 |>, st <| tc_step := 3 |>, g, 0%nat)
  else if step =? 3 then
    let curr := curr <| fs_save := SIG0 |> in
    if r_vld curr =? SIG1 then Ok (0, curr, st <| tc_step := 4 |>, g, 0%nat)
    else Ok (0, curr, st, g, 0%nat)
  else if step =? 4 then
    '(result, curr, st, e) ← fetch_packet curr st;
    if result <? 0 then Ok (result, curr, st, g, e)
    else if 0 <? result then Ok (0, curr <| fs_next := SIG1 |>, st <| tc_step := 5 |>, g, e)
    else Ok (0, curr, st, g, e)
  else if step =? 5 then Ok (1, curr <| fs_next := SIG0 |>, st, g, 0%nat)
  else Ok (-1, curr, st, g, 0%nat).

(** Steps 1 to 3 of the two tests that store a second packet while the first is
    fetched: [first] is what they drive when the first packet is stored. *)
Definition store_first (first : fifo_sigs_t -> fifo_sigs_t) (curr : fifo_sigs_t) (st : tc_state_t)
    (g : rng) : tc_result :=
  '(result, curr, st, e) ← store_packet curr st;
  if result <? 0 then Ok (-1, curr, st, g, S e)
  else if 0 <? result then
    Ok (0, first curr, st <| tc_head := 0 |> <| tc_step := 2 |>, g, e)
  else Ok (0, curr, st, g, e).

Definition store_second (curr : fifo_sigs_t) (st : tc_state_t) (g : rng) : tc_result :=
  '(result, curr, st, e) ← store_packet curr st;
  if negb (result =? 0) then Ok (-1, curr, st, g, S e)
  else Ok (0, curr, st <| tc_step := 3 |>, g, e).

Definition store_fetch (curr : fifo_sigs_t) (st : tc_state_t) (g : rng) : tc_result :=
  '(result, curr, st, e) ← store_packet curr st;
  let '(curr, st, e) :=
    if result <? 0 then (curr, st, S e)
    else if 0 <? result then (curr <| fs_save := SIG1 |>, st <| tc_step := 4 |>, e)
    else (curr, st, e) in
  '(result, curr, st, e') ← fetch_packet curr st;
  let e := (e + e')%nat in
  Ok (0, curr, st, g, if negb (result =? 0) then S e else e).

(** [done] is what a completed fetch drives, and the next step. *)
Definition fetch_then (finish : fifo_sigs_t -> fifo_sigs_t) (step : Z) (curr : fifo_sigs_t)
    (st : tc_state_t) (g : rng) : tc_result :=
  '(result, curr, st, e) ← fetch_packet curr st;
  if result <? 0 then Ok (0, curr, st, g, S e)
  else if 0 <? result then
    Ok (0, finish curr, st <| tc_step := step |> <| tc_tail := 0 |>, g, e)
  else Ok (0, curr, st, g, e).

Definition tc_wr_redo_step (curr : fifo_sigs_t) (st : tc_state_t) (g : rng) : tc_result :=
  in_operation curr;;
  let step := tc_step st in
  if step =? 0 then wait_w_rdy curr st g
  else if step =? 1 then store_first (fun c => c <| fs_save := SIG1 |>) curr st g
  else if step =? 2 then store_second (curr <| fs_save := SIG0 |>) st g
  else if step =? 3 then store_fetch curr st g
  else if step =? 4 then
    fetch_then (fun c => c <| fs_redo := SIG1 |>) 5 (curr <| fs_save := SIG0 |>) st g
  else if (step =? 5) || (step =? 6) then
    let curr := if step =? 5 then curr <| fs_redo := SIG0 |> else curr in
    fetch_then (fun c => c <| fs_next := SIG1 |>) (step + 1) (curr <| fs_next := SIG0 |>) st g
  else if step =? 7 then Ok (1, curr <| fs_next := SIG0 |>, st, g, 0%nat)
  else Ok (-1, curr, st, g, 0%nat).

Definition tc_wr_drop_step (curr : fifo_sigs_t) (st : tc_state_t) (g : rng) : tc_result :=
  in_operation curr;;
  let step := tc_step st in
  if step =? 0 then wait_w_rdy curr st g
  else if step =? 1 then store_first (fun c => c <| fs_drop := SIG1 |>) curr st g
  else if step =? 2 then store_second (curr <| fs_drop := SIG0 |>) st g
  else if step =? 3 then store_fetch curr st g
  else if step =? 4 then
    fetch_then (fun c => c <| fs_next := SIG1 |>) 5 (curr <| fs_save := SIG0 |>) st g
  else if step =? 5 then Ok (1, curr <| fs_next := SIG0 |>, st, g, 0%nat)
  else Ok (-1, curr, st, g, 0%nat).

Definition fetch_stop_go (curr : fifo_sigs_t) (st : tc_state_t) (g : rng)
  : outcome (Z * fifo_sigs_t * tc_state_t * rng * nat) :=
  '(result, curr, st, e) ← fetch_packet curr st;
  if negb (result =? 0) then Ok (result, curr, st, g, e)
  else
    let '(v, g) := rng_next g in
    Ok (0, curr <| r_rdy := if Z.land v 0x01 =? 1 then SIG1 else SIG0 |>, st, g, e).

Definition tc_stop_go_step (curr : fifo_sigs_t) (st : tc_state_t) (g : rng) : tc_result :=
  in_operation curr;;
  let step := tc_step st in
  if step =? 0 then wait_w_rdy curr st g
  else if step =? 1 then store_first (fun c => c <| fs_save := SIG1 |>) curr st g
  else if step =? 2 then
    '(result, curr, st, g, e) ← fetch_stop_go (curr <| fs_save := SIG0 |>) st g;
    if result <? 0 then Ok (0, curr, st, g, S e)
    else if 0 <? result then
      Ok (0, curr <| fs_next := SIG1 |>, st <| tc_step := 3 |> <| tc_tail := 0 |>, g, e)
    else Ok (0, curr, st, g, e)
  else if step =? 3 then Ok (1, curr <| fs_next := SIG0 |>, st, g, 0%nat)
  else Ok (-1, curr, st, g, 0%nat).

(** ** The schedule *)

Inductive test_kind : Type := WaitRst | WrData1 | WrRedo | WrDrop | StopGo.

(** [testcase_t]: the kind stands for the [init] and [step] pointers. *)
Record testcase_t : Type := MkTest { tc_kind : test_kind; tc_data : tc_state_t }.

Definition test_init (k : test_kind) : fifo_sigs_t -> tc_state_t -> rng -> tc_result :=
  match k with
  | WaitRst => tc_waitrst_init | WrData1 => tc_wrdata1_init | WrRedo => tc_wr_redo_init
  | WrDrop => tc_wr_drop_init | StopGo => tc_stop_go_init
  end.
Definition test_step (k : test_kind) : fifo_sigs_t -> tc_state_t -> rng -> tc_result :=
  match k with
  | WaitRst => tc_waitrst_step | WrData1 => tc_wrdata1_step | WrRedo => tc_wr_redo_step
  | WrDrop => tc_wr_drop_step | StopGo => tc_stop_go_step
  end.

(** The constructors; [mem] is what [malloc] returns. *)
Definition test_waitrst (mem : tc_state_t) : testcase_t := MkTest WaitRst (mem <| tc_step := 0 |>).
Definition test_make (k : test_kind) (mem : tc_state_t) (len : Z) : testcase_t :=
  MkTest k (mem <| tc_step := 0 |> <| tc_size := len |>).
Definition test_wrdata1 := test_make WrData1.
Definition test_wr_redo := test_make WrRedo.
Definition test_wr_drop := test_make WrDrop.
Definition test_stop_go (mem : tc_state_t) : testcase_t := test_make StopGo mem 32.

(** [pt_state_t], without the handles and the previous signals, which only decide
    what is printed. *)
Record pt_state_t : Type := MkPt {
  pt_tick_ns : Z;
  pt_t_recip : Z;
  pt_cycle : Z;
  pt_sync_flag : Z;
  pt_test_num : Z;
  pt_test_curr : Z;
  pt_test_step : Z;
  pt_tests : list testcase_t;
  pt_sigs : fifo_sigs_t;
  pt_rand : rng;
  pt_finish : list Z
}.

(** [pt_failed]: it reports with [pt_error] and returns -1. *)
Definition finish_with (e : nat) (s : pt_state_t) : pt_state_t :=
  MkPt (pt_tick_ns s) (pt_t_recip s) (pt_cycle s) (pt_sync_flag s) (pt_test_num s) (pt_test_curr s)
    (pt_test_step s) (pt_tests s) (pt_sigs s) (pt_rand s) (pt_finish s ++ replicate e 1).
Definition pt_failed (s : pt_state_t) : Z * pt_state_t := (-1, finish_with 1 s).

Definition pt_step (s : pt_state_t) (next : fifo_sigs_t) : outcome (Z * pt_state_t * fifo_sigs_t) :=
  let cycle := u64 (pt_cycle s + 1) in
  let upd curr step tests g e :=
    finish_with e (MkPt (pt_tick_ns s) (pt_t_recip s) cycle (pt_sync_flag s) (pt_test_num s) curr step
      tests (pt_sigs s) g (pt_finish s)) in
  if pt_test_curr s <? pt_test_num s then
    test ← read_at (pt_tests s) (pt_test_curr s);
    let call := if pt_test_step s =? 0 then test_init else test_step in
    '(result, next, st, g, e) ← call (tc_kind test) next (tc_data test) (pt_rand s);
    tests ← write_at (pt_tests s) (pt_test_curr s) (MkTest (tc_kind test) st);
    if result <? 0 then
      let '(r, s) := pt_failed (upd (pt_test_curr s) (pt_test_step s + 1) tests g e) in Ok (r, s, next)
    else if 0 <? result then Ok (result, upd (pt_test_curr s + 1) 0 tests g e, next)
    else Ok (result, upd (pt_test_curr s) (pt_test_step s + 1) tests g e, next)
  else Ok (2, upd (pt_test_curr s) (pt_test_step s) (pt_tests s) (pt_rand s) 0%nat, next).

(** ** Callbacks and set-up *)

(** What [vpi_put_value] writes to the eight output signals. *)
Record pt_drive : Type := MkPtDrive {
  drive_r_rdy : option Z; drive_w_vld : option Z; drive_w_lst : option Z; drive_drop : option Z;
  drive_save : option Z; drive_redo : option Z; drive_next : option Z; drive_w_dat : option byte_t
}.

Definition differs (x y : Z) : option Z := if negb (x =? y) then Some y else None.

Definition pt_update_values (s : pt_state_t) (next : fifo_sigs_t) : pt_state_t * pt_drive :=
  let curr := pt_sigs s in
  (MkPt (pt_tick_ns s) (pt_t_recip s) (pt_cycle s) (pt_sync_flag s) (pt_test_num s) (pt_test_curr s)
     (pt_test_step s) (pt_tests s) next (pt_rand s) (pt_finish s),
   MkPtDrive (differs (r_rdy curr) (r_rdy next)) (differs (w_vld curr) (w_vld next))
     (differs (w_lst curr) (w_lst next)) (differs (fs_drop curr) (fs_drop next))
     (differs (fs_save curr) (fs_save next)) (differs (fs_redo curr) (fs_redo next))
     (differs (fs_next curr) (fs_next next))
     (if negb (a (w_dat curr) =? a (w_dat next)) || negb (b (w_dat curr) =? b (w_dat next))
      then Some (w_dat next) else None)).

Definition cb_step_sync (s : pt_state_t) : outcome (pt_state_t * pt_drive) :=
  '(result, s, next) ← pt_step s (pt_sigs s);
  let s := if 1 <? result then
      MkPt (pt_tick_ns s) (pt_t_recip s) (pt_cycle s) (pt_sync_flag s) (pt_test_num s) (pt_test_curr s)
        (pt_test_step s) (pt_tests s) (pt_sigs s) (pt_rand s) (pt_finish s ++ [0])
    else s in
  let '(s, drive) := pt_update_values s next in
  Ok (MkPt (pt_tick_ns s) (pt_t_recip s) (pt_cycle s) 0 (pt_test_num s) (pt_test_curr s)
        (pt_test_step s) (pt_tests s) (pt_sigs s) (pt_rand s) (pt_finish s), drive).

(** [pt_fetch_values], with the values that the simulator reads. *)
Definition byte8 (v : byte_t) : byte_t := MkByte (u8 (a v)) (u8 (b v)).
Definition pt_fetch_values (v : fifo_sigs_t) : fifo_sigs_t :=
  MkSigs (u8 (fs_clock v)) (u8 (fs_reset v)) (byte8 (fs_level v)) (u8 (fs_drop v)) (u8 (fs_save v))
    (u8 (fs_redo v)) (u8 (fs_next v)) (u8 (w_vld v)) (u8 (w_rdy v)) (u8 (w_lst v)) (byte8 (w_dat v))
    (u8 (r_vld v)) (u8 (r_rdy v)) (u8 (r_lst v)) (byte8 (r_dat v)).

Definition cb_step_clock (s : pt_state_t) (x high low : Z) (sampled : fifo_sigs_t)
  : outcome pt_state_t :=
  if negb (x =? 1) then Ok s
  else
    tick_ns ← sim_tick high low (pt_t_recip s);
    Ok (MkPt tick_ns (pt_t_recip s) (pt_cycle s) 1 (pt_test_num s) (pt_test_curr s) (pt_test_step s)
          (pt_tests s) (pt_fetch_values sampled) (pt_rand s) (pt_finish s)).

Definition sigs_zero : fifo_sigs_t :=
  MkSigs 0 0 (MkByte 0 0) 0 0 0 0 0 0 0 (MkByte 0 0) 0 0 0 (MkByte 0 0).

(** The tests that [pt_compiletf] creates, with the memory of each of them. *)
Definition pt_schedule (mem : nat -> tc_state_t) : list testcase_t :=
  [test_waitrst (mem 0%nat); test_wrdata1 (mem 1%nat) 8; test_wr_redo (mem 2%nat) 8;
   test_wrdata1 (mem 3%nat) 3; test_wr_redo (mem 4%nat) 3; test_wr_drop (mem 5%nat) 8;
   test_wr_drop (mem 6%nat) 1; test_stop_go (mem 7%nat)].

(** The state that [pt_compiletf] sets up. *)
Definition pt_setup (mem : nat -> tc_state_t) (g : rng) : pt_state_t :=
  let tests := pt_schedule mem in
  MkPt 0 0 0 0 (Z.of_nat (length tests)) 0 0 tests sigs_zero g [].

(** [pt_compiletf]: the user data that it leaves, if any; [w_dat] is the eleventh of
    the arguments and [r_dat] the last one. *)
Definition pt_compiletf `{Vpi} (systf : bool) (args : option iterator) (mem : nat -> tc_state_t)
    (g : rng) : option pt_state_t * list vpi_event :=
  match parse_args 15 systf args with
  | (None, ev) => (None, ev)
  | (Some hs, ev) =>
      if negb (vpi_size (arg_at hs 10) =? 8) then (None, ev ++ vpi_error)
      else if negb (vpi_size (arg_at hs 14) =? 8) then (None, ev ++ vpi_error)
      else (Some (pt_setup mem g), ev ++ [VpiUserdata])
  end.

Definition pt_calltf `{Vpi} (precision : Z) (data : option pt_state_t)
  : option pt_state_t * list vpi_event :=
  match data with
  | None => (None, vpi_error)
  | Some s =>
      (Some (MkPt (pt_tick_ns s) (time_recip precision) (pt_cycle s) (pt_sync_flag s) (pt_test_num s)
         (pt_test_curr s) (pt_test_step s) (pt_tests s) (pt_sigs s) (pt_rand s) (pt_finish s)), [])
  end.
