(* ===== verification/VpiProps.v ===== *)
(** The set-up of the simulator tasks against a simulator: which arguments they
    accept, and what they do about the others; and the bus monitor, from its set-up
    on. *)

From S2P Require Import Prelude Ulpi UlpiTrace TestCases Vpi UlpiSim Monitor PacketTb.

(** ** Arguments *)

Section Arguments.
Context `{VpiLaws}.

(** The iterator yields the arguments [l], and then NULL. *)
Fixpoint gives (it : iterator) (l : list handle) : Prop :=
  match l with
  | [] => fst (vpi_scan it) = None
  | h :: l => exists it', vpi_scan it = (Some h, it') /\ gives it' l
  end.

Lemma null_not_signal : is_signal None = false.
Proof.
  unfold is_signal. destruct (Z.eqb_spec (vpi_type None) vpiNet) as [E|_]; [by destruct null_not_net|].
  destruct (Z.eqb_spec (vpi_type None) vpiReg) as [E|_]; [by destruct null_not_reg|done].
Qed.

Definition signals (l : list handle) : bool := forallb (fun h => is_signal (Some h)) l.

(** The first [n] arguments are signals; else one is not, or is missing, and that is
    reported. *)
Lemma get_signals_gives n : forall it l,
  gives it l ->
  if (n <=? length l)%nat && signals (take n l) then
    exists it', get_signals n it = (Some (map Some (take n l)), it', []) /\ gives it' (drop n l)
  else
    exists it0 it' arg, vpi_scan it0 = (arg, it') /\ is_signal arg = false /\
      (signals (take n l) = true -> arg = None) /\
      get_signals n it = (None, it', [VpiFree it'; VpiFinish 1]).
Proof.
  induction n as [|n IH]; intros it l Hl; [by exists it|]. cbn [get_signals]. unfold get_signal.
  destruct l as [|h l]; cbn [gives] in Hl.
  - destruct (vpi_scan it) as [arg it'] eqn:E. cbn in Hl. subst arg. cbn.
    rewrite null_not_signal. cbn. exists it, it', None. by rewrite null_not_signal.
  - destruct Hl as (it' & E & Hl). rewrite E. cbn [take signals forallb length Nat.leb drop map].
    change (S n <=? S (length l))%nat with (n <=? length l)%nat.
    destruct (is_signal (Some h)) eqn:Es; cbn [negb andb].
    + specialize (IH it' l Hl). fold (signals (take n l)).
      destruct ((n <=? length l)%nat && signals (take n l)).
      * destruct IH as (it2 & -> & H2). by exists it2.
      * destruct IH as (it0 & it2 & arg & H1 & H2 & H3 & ->). by exists it0, it2, arg.
    + rewrite andb_false_r. by exists it, it', (Some h).
Qed.

(** A task is given exactly [n] signals. *)
Definition all_signals (n : nat) (l : list handle) : bool := (length l =? n)%nat && signals l.

(** An error: one message that ends the simulation, perhaps after freeing the iterator. *)
Definition rejected (ev : list vpi_event) : Prop :=
  ev = [VpiFinish 1] \/ exists it, ev = [VpiFree it; VpiFinish 1].

Lemma parse_args_gives n it l :
  gives it l ->
  if all_signals n l then parse_args n true (Some it) = (Some (map Some l), [])
  else exists ev, parse_args n true (Some it) = (None, ev) /\ rejected ev.
Proof.
  intros Hl. pose proof (get_signals_gives n it l Hl) as Hg. unfold parse_args, all_signals. cbn [negb].
  destruct (Nat.eqb_spec (length l) n) as [<-|Hn]; cbn [andb].
  - rewrite firstn_all, drop_all, Nat.leb_refl in Hg. cbn [andb] in Hg. destruct (signals l).
    + destruct Hg as (it' & -> & Hd). cbn [gives] in Hd. by destruct (vpi_scan it') as [[] ?].
    + destruct Hg as (it0 & it' & arg & _ & _ & _ & ->). eexists. split; [done|]. right. by eexists.
  - destruct ((n <=? length l)%nat && signals (take n l)) eqn:E.
    + apply andb_true_iff in E as [Hle%Nat.leb_le _]. destruct Hg as (it' & -> & Hd).
      destruct (drop n l) as [|h l'] eqn:El.
      { apply (f_equal length) in El. rewrite length_drop in El. cbn in El. lia. }
      cbn [gives] in Hd. destruct Hd as (it2 & -> & _). eexists. split; [done|]. right. by eexists.
    + destruct Hg as (it0 & it' & arg & _ & _ & _ & ->). eexists. split; [done|]. right. by eexists.
Qed.

(** The arguments that each task asks for. *)
Definition ut_args (l : list handle) : bool :=
  all_signals 7 l && arg_is (map Some l) 2 vpiReg 1 && arg_is (map Some l) 3 vpiReg 1 &&
  arg_is (map Some l) 5 vpiNet 8 && arg_is (map Some l) 6 vpiReg 8.
Definition pt_args (l : list handle) : bool :=
  all_signals 15 l && (vpi_size (arg_at (map Some l) 10) =? 8) && (vpi_size (arg_at (map Some l) 14) =? 8).
Definition ulpim_args (l : list handle) : bool := all_signals 6 l.

(** A set-up leaves the state [v] as the task's user data, or reports an error. *)
Definition set_up {A} (ok : bool) (v : A) (res : option A * list vpi_event) : Prop :=
  if ok then res = (Some v, [VpiUserdata]) else fst res = None /\ rejected (snd res).

(** C23.  The tasks check their arguments: given an iterator over the arguments [l],
    each of the three set-up routines leaves its state as the task's user data, and
    does nothing else to the simulator, exactly when [l] has the right number of
    arguments, all nets or regs, of the types and widths that the task needs;
    without a task handle or arguments, and in every other case, it leaves no user
    data and ends the simulation with one error.  An argument too few makes it pass
    to [vpi_free_object] an iterator that [vpi_scan] has already ended. *)
Theorem task_arguments it l w mem g unit precision sampled :
  gives it l ->
  set_up (ut_args l) (ut_setup w) (ut_compiletf true (Some it) w) /\
  set_up (pt_args l) (pt_setup mem g) (pt_compiletf true (Some it) mem g) /\
  set_up (ulpim_args l) (MkUlpim unit precision (time_recip precision) (ulpim_store_bus sampled))
    (let '(_, s, ev) := ulpim_compiletf true (Some it) unit precision sampled in (s, ev)) /\
  (forall systf args, systf = false \/ args = None ->
   ut_compiletf systf args w = (None, [VpiFinish 1]) /\
   pt_compiletf systf args mem g = (None, [VpiFinish 1]) /\
   ulpim_compiletf systf args unit precision sampled = (0, None, [VpiFinish 1])) /\
  (forall n, signals l = true -> (length l < n)%nat ->
   exists it0 it', vpi_scan it0 = (None, it') /\
     parse_args n true (Some it) = (None, [VpiFree it'; VpiFinish 1])).
Proof.
  intros Hl. split_and!.
  - unfold ut_compiletf, ut_args. pose proof (parse_args_gives 7 it l Hl) as Hp.
    destruct (all_signals 7 l); [rewrite Hp|destruct Hp as (ev & -> & Hev); by split].
    destruct (arg_is _ 2 _ _), (arg_is _ 3 _ _), (arg_is _ 5 _ _), (arg_is _ 6 _ _);
      cbn; try done; (split; [done|by left]).
  - unfold pt_compiletf, pt_args. pose proof (parse_args_gives 15 it l Hl) as Hp.
    destruct (all_signals 15 l); [rewrite Hp|destruct Hp as (ev & -> & Hev); by split].
    destruct (vpi_size (arg_at _ 10) =? 8), (vpi_size (arg_at _ 14) =? 8);
      cbn; try done; (split; [done|by left]).
  - unfold ulpim_compiletf, ulpim_set_handles, ulpim_args. pose proof (parse_args_gives 6 it l Hl) as Hp.
    destruct (all_signals 6 l); [by rewrite Hp|destruct Hp as (ev & -> & Hev); by split].
  - intros systf args [-> | ->]; [done|by destruct systf].
  - intros n Hs Hn. pose proof (get_signals_gives n it l Hl) as Hg.
    rewrite (proj2 (Nat.leb_gt _ _) Hn), take_ge in Hg by lia. cbn [andb] in Hg.
    destruct Hg as (it0 & it' & arg & H1 & _ & H2 & H3). rewrite (H2 Hs) in H1.
    exists it0, it'. split; [done|]. unfold parse_args. cbn [negb]. by rewrite H3.
Qed.

End Arguments.

(** ** The bus monitor *)

Lemma time_recip_ns precision : -15 <= precision <= -9 -> time_recip precision = 10 ^ (-9 - precision).
Proof.
  intros H. assert (Hr : forallb (fun k => time_recip (k - 15) =? 10 ^ (6 - k)) (seqZ 0 7) = true) by reflexivity.
  pose proof (forall_range _ 7 (precision + 15) Hr ltac:(lia)) as E. cbv beta in E. apply Z.eqb_eq in E.
  replace (precision + 15 - 15) with precision in E by lia. rewrite E. f_equal. lia.
Qed.

(** The simulation time is two 32-bit words. *)
Lemma tick_value high low : 0 <= high < 2 ^ 32 -> 0 <= low < 2 ^ 32 ->
  Z.lor (u64 (Z.shiftl high 32)) low = high * 2 ^ 32 + low.
Proof.
  intros Hh Hl. rewrite u64_small by (rewrite Z.shiftl_mul_pow2 by lia; lia).
  rewrite <- Z.shiftl_mul_pow2 by lia. assert (H0 : Z.land (Z.shiftl high 32) low = 0).
  { apply Z.bits_inj'. intros n Hn. rewrite Z.land_spec, Z.bits_0.
    destruct (Z.ltb_spec n 32); [rewrite Z.shiftl_spec_low by lia; done|].
    rewrite (Z.bits_above_log2 low n); [by rewrite andb_false_r|lia|].
    destruct (Z.eq_dec low 0) as [->|]; [cbn; lia|]. apply Z.log2_lt_pow2; [lia|].
    apply Z.lt_le_trans with (2 ^ 32); [lia|]. by apply Z.pow_le_mono_r. }
  rewrite Z.add_nocarry_lxor by done. by rewrite Z.lxor_lor.
Qed.

(** A call of the monitor: the words of the time, and the values on the bus. *)
Definition mon_call : Type := Z * Z * ulpi_bus_t.
Definition call_bus (x : mon_call) : ulpi_bus_t := snd x.
Definition call_time (x : mon_call) : Z := fst (fst x) * 2 ^ 32 + snd (fst x).
Definition call_ok (x : mon_call) : Prop := 0 <= fst (fst x) < 2 ^ 32 /\ 0 <= snd (fst x) < 2 ^ 32.

Fixpoint monitor_run (s : ulpim_handles_t) (calls : list mon_call)
  : outcome (ulpim_handles_t * list ulpim_report) :=
  match calls with
  | [] => Ok (s, [])
  | (high, low, bus) :: calls =>
      '(s, rs) ← ulpim_calltf (Some s) high low bus;
      '(s, rs') ← monitor_run s calls;
      Ok (s, rs ++ rs')
  end.

(** The changes of direction in a sequence of samples, each with its time in
    nanoseconds. *)
Definition change (precision : Z) (before : ulpi_bus_t) (x : mon_call) : list ulpim_report :=
  if u8 (dir before) =? u8 (dir (call_bus x)) then []
  else [MkReport (call_time x / 10 ^ (-9 - precision)) (Ulpi.data (call_bus x))].
Definition changes (precision : Z) (first : ulpi_bus_t) (calls : list mon_call) : list ulpim_report :=
  concat (zip_with (change precision) (first :: map call_bus calls) calls).

Lemma monitor_run_changes precision unit calls : forall bus,
  -15 <= precision <= -9 -> Forall call_ok calls ->
  monitor_run (MkUlpim unit precision (time_recip precision) (ulpim_store_bus bus)) calls =
  Ok (MkUlpim unit precision (time_recip precision) (ulpim_store_bus (List.last (map call_bus calls) bus)),
      changes precision bus calls).
Proof.
  induction calls as [|[[high low] b] calls IH]; intros bus Hp Hc; [done|].
  apply Forall_cons_1 in Hc as [[Hh Hl] Hc]. cbn [fst snd] in Hh, Hl. cbn [monitor_run].
  unfold ulpim_calltf, sim_tick. cbn [t_recip t_unit t_prec ulpi_prev]. rewrite (time_recip_ns _ Hp).
  assert (H10 : 10 ^ (-9 - precision) <> 0) by (apply Z.pow_nonzero; lia).
  rewrite (proj2 (Z.eqb_neq _ _) H10). rewrite outcome_bind_ok. cbv beta zeta.
  rewrite outcome_bind_ok. cbv beta iota. rewrite <- (time_recip_ns _ Hp), (IH b Hp Hc), outcome_bind_ok.
  rewrite (time_recip_ns _ Hp), tick_value by done. f_equal. f_equal.
  - cbn [map]. by rewrite last_cons_default.
  - unfold changes. cbn [map zip_with concat]. f_equal. unfold change, ulpim_store_bus, call_bus, call_time.
    cbn [dir fst snd]. rewrite Z.eqb_sym. by destruct (_ =? _).
Qed.

Section Monitor.
Context `{VpiLaws}.

(** C22.  The monitor reports exactly the turns of the bus: set up with six signals,
    under a time precision between 1 ns and 1 fs, it prints over any sequence of
    calls one line for each call whose DIR differs from that of the sample before
    (the first being taken at set-up), with the simulation time in whole
    nanoseconds and the data words then on the bus, in order, and nothing else; it
    keeps the latest sample.  Called without its user data it reports the error and
    then uses the null pointer. *)
Theorem monitor_reports_changes it l unit precision bus calls :
  gives it l -> all_signals 6 l = true -> -15 <= precision <= -9 -> Forall call_ok calls ->
  (exists s s', ulpim_compiletf true (Some it) unit precision bus = (0, Some s, [VpiUserdata]) /\
    monitor_run s calls = Ok (s', changes precision bus calls) /\
    ulpi_prev s' = ulpim_store_bus (List.last (map call_bus calls) bus)) /\
  (forall high low, ulpim_calltf None high low bus = Undef).
Proof.
  intros Hl Ha Hp Hc. split; [|done]. unfold ulpim_compiletf, ulpim_set_handles.
  pose proof (parse_args_gives 6 it l Hl) as E. rewrite Ha in E. rewrite E. cbn [negb app].
  do 2 eexists. split; [reflexivity|]. by rewrite monitor_run_changes.
Qed.
End Monitor.

(** ** Witnesses *)

(** A simulator whose handles are pairs of a type and a size. *)
#[local] Instance vpi_example : Vpi := {
  handle := Z * Z;
  iterator := list (Z * Z);
  vpi_scan := fun it => match it with [] => (None, []) | h :: it => (Some h, it) end;
  vpi_type := fun h => match h with Some (t, _) => t | None => -1 end;
  vpi_size := fun h => match h with Some (_, n) => n | None => -1 end;
  vpiNet := 36;
  vpiReg := 48
}.
#[local] Instance vpi_example_laws : VpiLaws.
Proof. by constructor. Qed.

Definition ut_args_example : list (Z * Z) := [(48, 1); (48, 1); (48, 1); (48, 1); (36, 1); (36, 8); (48, 8)].

Lemma task_arguments_witness :
  ut_compiletf true (Some ut_args_example) (MkWorld (fun _ => 7) (fun _ => 7) [] []) =
    (Some (ut_setup (MkWorld (fun _ => 7) (fun _ => 7) [] [])), [VpiUserdata]) /\
  parse_args 15 true (Some ut_args_example) = (None, [VpiFree []; VpiFinish 1]).
Proof.
  assert (Hl : gives ut_args_example ut_args_example).
  { unfold ut_args_example. cbn. repeat (eexists; split; [reflexivity|]). reflexivity. }
  destruct (@task_arguments vpi_example vpi_example_laws ut_args_example ut_args_example (MkWorld (fun _ => 7) (fun _ => 7) [] [])
    (fun _ => MkTc 0 0 0 0 []) (fun _ => 7) 0 (-12) ulpi_bus_zero Hl) as (H1 & _ & _ & _ & H5).
  split; [exact H1|]. destruct (H5 15%nat eq_refl ltac:(vm_compute; lia)) as (it0 & it' & E0 & E1).
  destruct it0; [|discriminate E0]. injection E0 as <-. exact E1.
Defined.

Definition mon_bus (d v : Z) : ulpi_bus_t := phy_bus d 0 v 0.
Definition mon_calls : list mon_call := [((0, 1500), mon_bus 1 0x5D); ((0, 2500), mon_bus 1 0x00); ((0, 3500), mon_bus 0 0x4D)].

Lemma monitor_reports_changes_witness : exists s s',
  ulpim_compiletf true (Some (take 6 ut_args_example)) (-9) (-12) (mon_bus 0 0) = (0, Some s, [VpiUserdata]) /\
  monitor_run s mon_calls = Ok (s', [MkReport 1 (MkByte 0x5D 0); MkReport 3 (MkByte 0x4D 0)]).
Proof.
  assert (Hl : gives (take 6 ut_args_example) (take 6 ut_args_example)).
  { unfold ut_args_example. cbn. repeat (eexists; split; [reflexivity|]). reflexivity. }
  destruct (@monitor_reports_changes vpi_example vpi_example_laws (take 6 ut_args_example) (take 6 ut_args_example) (-9) (-12) (mon_bus 0 0)
    mon_calls Hl eq_refl ltac:(lia) ltac:(repeat constructor; cbn; lia)) as [(s & s' & H1 & H2 & _) _].
  exists s, s'. split; [exact H1|exact H2].
Defined.
