(* ===== verification/PacketTbProps.v ===== *)
(** The packet-FIFO testbench: the store side is a correct AXI4 stream source under
    any back-pressure, and the fetch side checks exactly the bytes it takes. *)

From S2P Require Import Prelude Ulpi PacketTb.

(** ** The store side *)

(** The stream that a packet is: its bytes, with TLAST on the last one. *)
Definition last_flag (size i : Z) : Z := if i + 1 <? size then SIG0 else SIG1.
Definition stream (size : Z) (buf : list Z) : list (Z * Z) :=
  imap (fun i d => (d, last_flag size (Z.of_nat i))) (take (Z.to_nat size) buf).

(** A clock edge of the store side: the FIFO's TREADY is [rdy]; the transfer that
    the handshake makes, if any, and what [store_packet] does. *)
Definition transfer (curr : fifo_sigs_t) : list (Z * Z) :=
  if (w_vld curr =? SIG1) && (w_rdy curr =? SIG1) then [(a (w_dat curr), w_lst curr)] else [].

Fixpoint store_run (curr : fifo_sigs_t) (st : tc_state_t) (rdys : list Z)
  : outcome (list (Z * Z) * list Z * fifo_sigs_t * tc_state_t * nat) :=
  match rdys with
  | [] => Ok ([], [], curr, st, 0%nat)
  | rdy :: rdys =>
      let curr := curr <| w_rdy := rdy |> in
      '(result, curr', st, e) ← store_packet curr st;
      '(acc, rs, curr', st, e') ← store_run curr' st rdys;
      Ok (transfer curr ++ acc, result :: rs, curr', st, (e + e')%nat)
  end.

(** Byte [i] of the packet is on the stream. *)
Record presents (i : Z) (d : Z) (curr : fifo_sigs_t) (st : tc_state_t) : Prop := {
  p_vld : w_vld curr = SIG1;
  p_dat : w_dat curr = MkByte d 0x00;
  p_lst : w_lst curr = last_flag (tc_size st) i;
  p_head : tc_head st = i;
}.

(** The packet is in the buffer. *)
Definition wf_packet (st : tc_state_t) : Prop :=
  0 < tc_size st /\ tc_size st <= Z.of_nat (length (tc_buf st)).

Lemma packet_byte st i : wf_packet st -> 0 <= i < tc_size st -> exists d, tc_buf st !! Z.to_nat i = Some d.
Proof. intros [H1 H2] Hi. apply lookup_lt_is_Some_2. lia. Qed.

(** Putting byte [i] on the stream. *)
Lemma store_presents curr st i d :
  wf_packet st -> 0 <= i < tc_size st -> tc_buf st !! Z.to_nat i = Some d ->
  (w_vld curr = SIG1 -> w_rdy curr = SIG1 -> w_lst curr = SIG0) ->
  i = (if (w_vld curr =? SIG1) && (w_rdy curr =? SIG1) then tc_head st + 1 else tc_head st) ->
  0 <= tc_head st ->
  exists curr' st', store_packet curr st = Ok (0, curr', st', 0%nat) /\ presents i d curr' st' /\
    tc_buf st' = tc_buf st /\ tc_size st' = tc_size st.
Proof.
  intros [Hs1 Hs2] Hi Hd Hl Ei Hh. unfold store_packet.
  rewrite (proj2 (Z.ltb_lt 0 _)), (proj2 (Z.leb_le 0 _)) by lia. cbn [c_assert andb]. rewrite outcome_bind_ok. cbv zeta.
  assert (Hrd : read_at (tc_buf st) i = Ok d).
  { rewrite <- (Z2Nat.id i) by lia. by apply read_at_Some. }
  destruct (w_vld curr =? SIG1) eqn:E1, (w_rdy curr =? SIG1) eqn:E2; cbn [andb] in *.
  1: apply Z.eqb_eq in E1, E2; specialize (Hl E1 E2); rewrite Hl.
  all: subst i.
  1: change (SIG0 =? SIG1) with false; change (SIG0 =? SIG0) with true; cbv iota.
  all: cbn [tc_head tc_size tc_buf set_field set_tc_head].
  all: rewrite (proj2 (Z.ltb_lt _ (tc_size st))) by lia; rewrite Hrd, outcome_bind_ok.
  all: do 2 eexists; split; [reflexivity|]; split; [by split|done].
Qed.

Lemma store_last curr st d :
  wf_packet st -> presents (tc_size st - 1) d curr st -> w_rdy curr = SIG1 ->
  exists curr', store_packet curr st = Ok (1, curr', st, 0%nat) /\ w_vld curr' = SIG0.
Proof.
  intros [Hs1 Hs2] [Hv Hd Hl Hh] Hr. unfold store_packet.
  rewrite (proj2 (Z.ltb_lt 0 _)), (proj2 (Z.leb_le 0 _)) by lia. cbn [c_assert andb]. rewrite outcome_bind_ok. cbv zeta.
  assert (E : last_flag (tc_size st) (tc_size st - 1) = SIG1).
  { unfold last_flag. by rewrite (proj2 (Z.ltb_ge _ _)) by lia. }
  rewrite Hv, Hr, Hl, E. cbn. by eexists.
Qed.

(** The number of cycles in which the FIFO is ready. *)
Definition readies (rdys : list Z) : nat := length (filter (fun r => r = SIG1) rdys).

Lemma stream_cons size buf i d :
  buf !! i = Some d -> (Z.of_nat i < size) ->
  drop i (stream size buf) = (d, last_flag size (Z.of_nat i)) :: drop (S i) (stream size buf).
Proof.
  intros Hd Hi. apply drop_S. unfold stream. rewrite list_lookup_imap, lookup_take_lt by lia. by rewrite Hd.
Qed.

(** From byte [i] on, for fewer transfers than bytes are left. *)
Lemma store_run_some rdys : forall curr st i d,
  wf_packet st -> 0 <= i -> presents i d curr st -> tc_buf st !! Z.to_nat i = Some d ->
  i + Z.of_nat (readies rdys) < tc_size st ->
  exists curr' st' d',
    store_run curr st rdys =
      Ok (take (readies rdys) (drop (Z.to_nat i) (stream (tc_size st) (tc_buf st))),
          replicate (length rdys) 0, curr', st', 0%nat) /\
    presents (i + Z.of_nat (readies rdys)) d' curr' st' /\
    tc_buf st !! Z.to_nat (i + Z.of_nat (readies rdys)) = Some d' /\
    tc_buf st' = tc_buf st /\ tc_size st' = tc_size st.
Proof.
  induction rdys as [|r rdys IH]; intros curr st i d Hw Hi Hp Hd Hn.
  { exists curr, st, d. cbn in *. rewrite Z.add_0_r in *. split_and!; done. }
  cbn [store_run]. cbv zeta. pose proof Hp as [Hv Hdat Hl Hh].
  unfold readies in *. rewrite filter_cons in *. destruct (decide (r = SIG1)) as [->|Hr].
  - cbn [length] in *. destruct (packet_byte st (i + 1) Hw ltac:(lia)) as [d1 Hd1].
    destruct (store_presents (curr <| w_rdy := SIG1 |>) st (i + 1) d1 Hw ltac:(lia) Hd1) as (c1 & s1 & E & Hp1 & Hb1 & Hs1).
    { intros _ _. cbn. rewrite Hl. unfold last_flag. by rewrite (proj2 (Z.ltb_lt _ _)) by lia. }
    { cbn. rewrite Hv. cbn. lia. }
    { lia. }
    assert (Hw1 : wf_packet s1) by (unfold wf_packet; by rewrite Hb1, Hs1).
    rewrite <- Hb1 in Hd1.
    destruct (IH c1 s1 (i + 1) d1 Hw1 ltac:(lia) Hp1 Hd1 ltac:(lia)) as (c2 & s2 & d2 & E2 & Hp2 & Hd2 & Hb2 & Hs2).
    rewrite Hb1, Hs1 in *. exists c2, s2, d2. rewrite E, outcome_bind_ok. cbv beta iota. rewrite E2, outcome_bind_ok.
    replace (Z.to_nat (i + 1)) with (S (Z.to_nat i)) by lia.
    rewrite (stream_cons _ _ (Z.to_nat i) d Hd) by lia. rewrite Z2Nat.id by lia.
    replace (i + Z.of_nat (S (length (filter (fun r => r = SIG1) rdys))))
      with (i + 1 + Z.of_nat (length (filter (fun r => r = SIG1) rdys))) by lia.
    split; [|done]. unfold transfer. cbn [w_vld w_rdy w_dat w_lst set_field set_w_rdy].
    rewrite Hv, Hdat, Hl. done.
  - destruct (store_presents (curr <| w_rdy := r |>) st i d Hw ltac:(lia) Hd) as (c1 & s1 & E & Hp1 & Hb1 & Hs1).
    { cbn. intros _ ?. by destruct Hr. }
    { cbn. rewrite (proj2 (Z.eqb_neq r _)) by done. by rewrite andb_false_r. }
    { lia. }
    assert (Hw1 : wf_packet s1) by (unfold wf_packet; by rewrite Hb1, Hs1).
    rewrite <- Hb1 in Hd.
    destruct (IH c1 s1 i d Hw1 Hi Hp1 Hd ltac:(lia)) as (c2 & s2 & d2 & E2 & Hp2 & Hd2 & Hb2 & Hs2).
    rewrite Hb1, Hs1 in *. exists c2, s2, d2. rewrite E, outcome_bind_ok. cbv beta iota. rewrite E2, outcome_bind_ok.
    split; [|done]. unfold transfer. cbn [w_vld w_rdy w_dat w_lst set_field set_w_rdy].
    rewrite (proj2 (Z.eqb_neq r _)) by done. by rewrite andb_false_r.
Qed.

Lemma store_run_app l1 : forall curr st l2 a1 r1 c1 s1 e1 a2 r2 c2 s2 e2,
  store_run curr st l1 = Ok (a1, r1, c1, s1, e1) ->
  store_run c1 s1 l2 = Ok (a2, r2, c2, s2, e2) ->
  store_run curr st (l1 ++ l2) = Ok (a1 ++ a2, r1 ++ r2, c2, s2, (e1 + e2)%nat).
Proof.
  induction l1 as [|r l1 IH]; intros curr st l2 a1 r1 c1 s1 e1 a2 r2 c2 s2 e2 H1 H2.
  { injection H1 as <- <- <- <- <-. exact H2. }
  cbn [app store_run] in *. cbv zeta in *.
  destruct (store_packet (curr <| w_rdy := r |>) st) as [[[[q c] s] e]| |]; [|done..].
  rewrite outcome_bind_ok in *. cbv beta iota in *.
  destruct (store_run c s l1) as [[[[[a' r'] c'] s'] e']| |] eqn:E; [|done..].
  rewrite outcome_bind_ok in H1. injection H1 as <- <- <- <- <-.
  rewrite (IH _ _ _ _ _ _ _ _ _ _ _ _ _ E H2), outcome_bind_ok. rewrite <- app_assoc.
  by rewrite Nat.add_assoc.
Qed.

(** The first call, with nothing on the stream yet. *)
Lemma store_start curr st r :
  wf_packet st -> tc_head st = 0 -> w_vld curr = SIG0 ->
  exists curr' st' d, store_run curr st [r] = Ok ([], [0], curr', st', 0%nat) /\
    presents 0 d curr' st' /\ tc_buf st !! 0%nat = Some d /\ tc_buf st' = tc_buf st /\ tc_size st' = tc_size st.
Proof.
  intros Hw Hh Hv. pose proof Hw as [Hs _]. destruct (packet_byte st 0 Hw ltac:(lia)) as [d Hd].
  destruct (store_presents (curr <| w_rdy := r |>) st 0 d Hw ltac:(lia) Hd) as (c & s & E & Hp & Hb & Hsz).
  - intros H. change (w_vld curr = SIG1) in H. by rewrite Hv in H.
  - cbn. by rewrite Hv.
  - lia.
  - exists c, s, d. cbn [store_run]. cbv zeta. rewrite E, !outcome_bind_ok. split; [|done].
    unfold transfer. cbn [w_vld w_rdy set_field set_w_rdy]. by rewrite Hv.
Qed.

(** C17.  The store side is a correct AXI4 stream source: from an idle stream and a
    packet in the buffer, whatever TREADY does, the transfers that the FIFO accepts
    are the bytes of the packet in order, each of them once, with TLAST on the
    last one only; while bytes are left each call returns 0 and leaves TVALID
    high on the next byte, and the call that sees the last transfer returns 1 and
    ends the stream; no error is reported. *)
Theorem store_packet_stream curr st r rdys :
  wf_packet st -> tc_head st = 0 -> w_vld curr = SIG0 ->
  (Z.of_nat (readies rdys) < tc_size st ->
   exists curr' st' d, store_run curr st (r :: rdys) =
       Ok (take (readies rdys) (stream (tc_size st) (tc_buf st)), replicate (S (length rdys)) 0,
           curr', st', 0%nat) /\
     presents (Z.of_nat (readies rdys)) d curr' st' /\ tc_buf st !! readies rdys = Some d) /\
  (Z.of_nat (readies rdys) = tc_size st - 1 ->
   exists curr' st', store_run curr st (r :: rdys ++ [SIG1]) =
       Ok (stream (tc_size st) (tc_buf st), replicate (S (length rdys)) 0 ++ [1], curr', st', 0%nat) /\
     w_vld curr' = SIG0 /\ tc_buf st' = tc_buf st).
Proof.
  intros Hw Hh Hv. destruct (store_start curr st r Hw Hh Hv) as (c0 & s0 & d0 & E0 & Hp0 & Hd0 & Hb0 & Hs0).
  assert (Hw0 : wf_packet s0) by (unfold wf_packet; by rewrite Hb0, Hs0). rewrite <- Hb0 in Hd0.
  assert (Hsome : Z.of_nat (readies rdys) < tc_size s0 -> exists curr' st' d',
    store_run curr st (r :: rdys) = Ok (take (readies rdys) (stream (tc_size st) (tc_buf st)),
      replicate (S (length rdys)) 0, curr', st', 0%nat) /\
    presents (Z.of_nat (readies rdys)) d' curr' st' /\ tc_buf st !! readies rdys = Some d' /\
    tc_buf st' = tc_buf st /\ tc_size st' = tc_size st).
  { intros Hn. destruct (store_run_some rdys c0 s0 0 d0 Hw0 ltac:(lia) Hp0 Hd0 Hn)
      as (c & s & d & E & Hp & Hd & Hb & Hs).
    exists c, s, d. pose proof (store_run_app [r] curr st rdys _ _ _ _ _ _ _ _ _ _ E0 E) as E1.
    rewrite Hb0, Hs0 in *. rewrite Z.add_0_l, Nat2Z.id in *. by split_and!. }
  rewrite Hs0 in Hsome. split.
  - intros Hn. destruct (Hsome Hn) as (c & s & d & H1 & H2 & H3 & _). by exists c, s, d.
  - intros Hn. destruct (Hsome ltac:(lia)) as (c & s & d & E & Hp & Hd & Hb & Hs).
    assert (Hws : wf_packet s) by (unfold wf_packet; by rewrite Hb, Hs).
    assert (Hpl : presents (tc_size s - 1) d (c <| w_rdy := SIG1 |>) s).
    { rewrite Hs, <- Hn. by destruct Hp. }
    destruct (store_last _ s d Hws Hpl eq_refl) as (c1 & E1 & Hv1).
    exists c1, s. split; [|done].
    assert (E2 : store_run c s [SIG1] = Ok ([(d, SIG1)], [1], c1, s, 0%nat)).
    { cbn [store_run]. cbv zeta. rewrite E1, !outcome_bind_ok. destruct Hp as [Hpv Hpd Hplst _].
      unfold transfer. cbn [w_vld w_rdy w_dat w_lst set_field set_w_rdy]. rewrite Hpv, Hpd, Hplst.
      unfold last_flag. by rewrite (proj2 (Z.ltb_ge _ _)) by lia. }
    pose proof (store_run_app (r :: rdys) curr st [SIG1] _ _ _ _ _ _ _ _ _ _ E E2) as E3.
    change (r :: rdys ++ [SIG1]) with ((r :: rdys) ++ [SIG1]). rewrite E3. do 3 f_equal.
    pose proof (stream_cons (tc_size st) (tc_buf st) (readies rdys) d Hd ltac:(lia)) as Hst.
    rewrite <- (take_drop (readies rdys) (stream (tc_size st) (tc_buf st))) at 2. rewrite Hst.
    unfold last_flag. rewrite (proj2 (Z.ltb_ge _ _)) by lia.
    rewrite drop_ge; [done|]. unfold stream. rewrite length_imap, length_take. lia.
Qed.

(** ** The fetch side *)

(** A clock edge of the fetch side: TVALID, TDATA and TLAST of the FIFO. *)
Record beat : Type := MkBeat { bt_vld : Z; bt_dat : byte_t; bt_lst : Z }.

Definition with_beat (x : beat) (curr : fifo_sigs_t) : fifo_sigs_t :=
  curr <| r_vld := bt_vld x |> <| r_dat := bt_dat x |> <| r_lst := bt_lst x |>.

Fixpoint fetch_run (curr : fifo_sigs_t) (st : tc_state_t) (beats : list beat)
  : outcome (list Z * fifo_sigs_t * tc_state_t * nat) :=
  match beats with
  | [] => Ok ([], curr, st, 0%nat)
  | x :: beats =>
      '(result, curr, st, e) ← fetch_packet (with_beat x curr) st;
      '(rs, curr, st, e') ← fetch_run curr st beats;
      Ok (result :: rs, curr, st, (e + e')%nat)
  end.

(** The bytes that the FIFO transfers while TREADY is high. *)
Definition fetched (beats : list beat) : list byte_t :=
  map bt_dat (filter (fun x => bt_vld x = SIG1) beats).

Definition mismatch (d : Z) (v : byte_t) : bool := negb (d =? a v) || negb (b v =? 0x00).
Fixpoint mismatches (buf : list Z) (vs : list byte_t) : nat :=
  match buf, vs with
  | d :: buf, v :: vs => ((if mismatch d v then 1 else 0) + mismatches buf vs)%nat
  | _, _ => 0%nat
  end.

(** A transfer that does not end the packet, or none. *)
Definition inner (x : beat) : Prop := bt_vld x = SIG1 -> bt_lst x <> SIG1.

Lemma fetch_beat x curr st d :
  0 <= tc_tail st -> r_rdy curr = SIG1 -> bt_vld x = SIG1 -> tc_buf st !! Z.to_nat (tc_tail st) = Some d ->
  fetch_packet (with_beat x curr) st =
    Ok ((if bt_lst x =? SIG1 then 1 else 0),
        with_beat x curr <| r_rdy := if bt_lst x =? SIG1 then SIG0 else SIG1 |>,
        st <| tc_tail := tc_tail st + 1 |>, if mismatch d (bt_dat x) then 1%nat else 0%nat).
Proof.
  intros Ht Hr Hv Hd. unfold fetch_packet. rewrite (proj2 (Z.leb_le 0 _)) by lia.
  cbn [c_assert]. rewrite outcome_bind_ok. unfold with_beat.
  cbn [r_vld r_rdy r_dat r_lst set_field set_r_vld set_r_dat set_r_lst]. rewrite Hv, Hr.
  assert (E : read_at (tc_buf st) (tc_tail st) = Ok d).
  { rewrite <- (Z2Nat.id (tc_tail st)) by lia. by apply read_at_Some. }
  cbn [andb Z.eqb SIG1]. change (SIG1 =? SIG1) with true. cbn [andb]. rewrite E, outcome_bind_ok. cbv zeta.
  by destruct (bt_lst x =? SIG1).
Qed.

Lemma fetch_no_beat x curr st :
  0 <= tc_tail st -> bt_vld x <> SIG1 ->
  fetch_packet (with_beat x curr) st = Ok (0, with_beat x curr <| r_rdy := SIG1 |>, st, 0%nat).
Proof.
  intros Ht Hv. unfold fetch_packet. rewrite (proj2 (Z.leb_le 0 _)) by lia. cbn [c_assert]. rewrite outcome_bind_ok.
  unfold with_beat. cbn [r_vld r_rdy set_field set_r_vld set_r_dat set_r_lst].
  by rewrite (proj2 (Z.eqb_neq _ _)).
Qed.

Lemma fetched_cons x l :
  fetched (x :: l) = (if decide (bt_vld x = SIG1) then bt_dat x :: fetched l else fetched l).
Proof. unfold fetched. rewrite filter_cons. by destruct (decide _). Qed.

Lemma fetch_run_inner beats : forall curr st,
  0 <= tc_tail st -> r_rdy curr = SIG1 -> Forall inner beats ->
  tc_tail st + Z.of_nat (length (fetched beats)) <= Z.of_nat (length (tc_buf st)) ->
  exists curr', fetch_run curr st beats =
      Ok (replicate (length beats) 0, curr', st <| tc_tail := tc_tail st + Z.of_nat (length (fetched beats)) |>,
          mismatches (drop (Z.to_nat (tc_tail st)) (tc_buf st)) (fetched beats)) /\ r_rdy curr' = SIG1.
Proof.
  induction beats as [|x beats IH]; intros curr st Ht Hr Hi Hn.
  { exists curr. cbn [fetch_run]. split; [|done]. cbn. rewrite Z.add_0_r. destruct st. cbn. by destruct (drop _ _). }
  apply Forall_cons_1 in Hi as [Hx Hi]. cbn [fetch_run]. rewrite fetched_cons in *.
  destruct (decide (bt_vld x = SIG1)) as [Hv|Hv].
  - cbn [length] in Hn.
    destruct (lookup_lt_is_Some_2 (tc_buf st) (Z.to_nat (tc_tail st)) ltac:(lia)) as [d Hd].
    rewrite (fetch_beat x curr st d Ht Hr Hv Hd), outcome_bind_ok. cbv beta iota.
    rewrite (proj2 (Z.eqb_neq _ _) (Hx Hv)).
    destruct (IH (with_beat x curr <| r_rdy := SIG1 |>) (st <| tc_tail := tc_tail st + 1 |>))
      as (c & E & Hc); [cbn; lia|done|done|cbn; lia|].
    rewrite E, outcome_bind_ok. exists c. split; [|done].
    rewrite (drop_S _ d (Z.to_nat (tc_tail st))) by done. cbn [mismatches length].
    change (tc_tail (st <| tc_tail := tc_tail st + 1 |>)) with (tc_tail st + 1).
    change (tc_buf (st <| tc_tail := tc_tail st + 1 |>)) with (tc_buf st).
    replace (Z.to_nat (tc_tail st + 1)) with (S (Z.to_nat (tc_tail st))) by lia.
    rewrite Nat2Z.inj_succ. replace (tc_tail st + Z.succ (Z.of_nat (length (fetched beats))))
      with (tc_tail st + 1 + Z.of_nat (length (fetched beats))) by lia.
    done.
  - rewrite (fetch_no_beat x curr st Ht Hv), outcome_bind_ok. cbv beta iota.
    destruct (IH (with_beat x curr <| r_rdy := SIG1 |>) st) as (c & E & Hc); [done|done|done|lia|].
    rewrite E, outcome_bind_ok. by exists c.
Qed.

Lemma fetch_run_app l1 : forall curr st l2 r1 c1 s1 e1 r2 c2 s2 e2,
  fetch_run curr st l1 = Ok (r1, c1, s1, e1) -> fetch_run c1 s1 l2 = Ok (r2, c2, s2, e2) ->
  fetch_run curr st (l1 ++ l2) = Ok (r1 ++ r2, c2, s2, (e1 + e2)%nat).
Proof.
  induction l1 as [|x l1 IH]; intros curr st l2 r1 c1 s1 e1 r2 c2 s2 e2 H1 H2.
  { injection H1 as <- <- <- <-. exact H2. }
  cbn [app fetch_run] in *.
  destruct (fetch_packet (with_beat x curr) st) as [[[[q c] s] e]| |]; [|done..].
  rewrite outcome_bind_ok in *. cbv beta iota in *.
  destruct (fetch_run c s l1) as [[[[r' c'] s'] e']| |] eqn:E; [|done..].
  rewrite outcome_bind_ok in H1. injection H1 as <- <- <- <-.
  rewrite (IH _ _ _ _ _ _ _ _ _ _ _ E H2), outcome_bind_ok. by rewrite Nat.add_assoc.
Qed.

Lemma mismatches_app buf vs v d :
  buf !! length vs = Some d ->
  mismatches buf (vs ++ [v]) = (mismatches buf vs + if mismatch d v then 1 else 0)%nat.
Proof.
  revert vs. induction buf as [|d' buf IH]; intros [|v' vs] H; try done.
  - cbn in H. injection H as ->. cbn. destruct buf; cbn; lia.
  - cbn. rewrite (IH vs) by done. lia.
Qed.

Lemma mismatches_0 buf vs : (length vs <= length buf)%nat ->
  mismatches buf vs = 0%nat <-> vs = map (fun d => MkByte d 0x00) (take (length vs) buf).
Proof.
  revert vs. induction buf as [|d buf IH]; intros [|[x y] vs] Hl; cbn in Hl; try done; try lia.
  cbn. unfold mismatch. cbn. rewrite Nat.eq_add_0, IH by lia.
  destruct (Z.eqb_spec d x), (Z.eqb_spec y 0); cbn; split; try (intros [? ?]); try intros [=]; subst; try done.
  by f_equal.
Qed.

(** C18.  The fetch side checks what it takes: with TREADY high and an empty
    scoreboard, for any packet of at most 256 transfers, with any pauses between
    them, the calls return 0 until the transfer with TLAST, for which the call
    returns 1 and lowers TREADY; [pt_error] is called once for each transfer that
    differs from its byte of the buffer, so that no error is reported if and only
    if the transfers are a prefix of the buffer.  The length is not compared with
    the size of the packet that was stored. *)
Theorem fetch_packet_scoreboard curr st beats last :
  tc_tail st = 0 -> r_rdy curr = SIG1 -> Forall inner beats ->
  bt_vld last = SIG1 -> bt_lst last = SIG1 ->
  (length (fetched (beats ++ [last])) <= length (tc_buf st))%nat ->
  exists curr' st' errors,
    fetch_run curr st (beats ++ [last]) = Ok (replicate (length beats) 0 ++ [1], curr', st', errors) /\
    r_rdy curr' = SIG0 /\ tc_buf st' = tc_buf st /\
    tc_tail st' = Z.of_nat (length (fetched (beats ++ [last]))) /\
    errors = mismatches (tc_buf st) (fetched (beats ++ [last])) /\
    (errors = 0%nat <->
     fetched (beats ++ [last]) =
       map (fun d => MkByte d 0x00) (take (length (fetched (beats ++ [last]))) (tc_buf st))).
Proof.
  intros Ht Hr Hi Hv Hl Hn.
  assert (Ef : fetched (beats ++ [last]) = fetched beats ++ [bt_dat last]).
  { unfold fetched. rewrite list.filter_app, map_app. f_equal. rewrite filter_cons. by rewrite decide_True. }
  rewrite Ef, length_app in Hn. cbn [length] in Hn.
  destruct (fetch_run_inner beats curr st ltac:(lia) Hr Hi ltac:(lia)) as (c & E & Hc).
  rewrite Ht in E. cbn [Z.to_nat drop] in E. set (n := Z.of_nat (length (fetched beats))) in *.
  set (s := st <| tc_tail := 0 + n |>) in *.
  destruct (lookup_lt_is_Some_2 (tc_buf st) (length (fetched beats)) ltac:(lia)) as [d Hd].
  assert (Hd' : tc_buf s !! Z.to_nat (tc_tail s) = Some d).
  { change (tc_tail s) with (0 + n). change (tc_buf s) with (tc_buf st). subst n.
    by rewrite Z.add_0_l, Nat2Z.id. }
  pose proof (fetch_beat last c s d ltac:(change (tc_tail s) with (0 + n); lia) Hc Hv Hd') as E1.
  assert (E2 : fetch_run c s [last] = Ok ([1], with_beat last c <| r_rdy := SIG0 |>,
    s <| tc_tail := tc_tail s + 1 |>, if mismatch d (bt_dat last) then 1%nat else 0%nat)).
  { cbn [fetch_run]. rewrite E1, Hl, !outcome_bind_ok. cbv beta iota. by rewrite Nat.add_0_r. }
  do 3 eexists. split; [exact (fetch_run_app beats curr st [last] _ _ _ _ _ _ _ _ E E2)|].
  split; [done|]. split; [done|].
  split. { rewrite Ef, length_app. change (tc_tail (s <| tc_tail := tc_tail s + 1 |>)) with (0 + n + 1). cbn. lia. }
  assert (Em : (mismatches (tc_buf st) (fetched beats) + (if mismatch d (bt_dat last) then 1 else 0))%nat =
    mismatches (tc_buf st) (fetched (beats ++ [last]))) by (by rewrite Ef, (mismatches_app _ _ _ d)).
  split; [exact Em|].
  pose proof (mismatches_0 (tc_buf st) (fetched (beats ++ [last]))) as H0. rewrite <- Em in H0.
  apply H0. rewrite Ef, length_app. cbn. lia.
Qed.

(** ** Witnesses *)

Definition tc_example : tc_state_t := MkTc 1 3 0 0 ([0x11; 0x22; 0x33] ++ replicate 253 0).

Lemma tc_example_wf : wf_packet tc_example.
Proof. unfold wf_packet. cbn. lia. Qed.

Lemma store_packet_stream_witness : exists curr' st',
  store_run sigs_zero tc_example ([SIG0; SIG1; SIG0; SIG1] ++ [SIG1]) =
    Ok ([(0x11, SIG0); (0x22, SIG0); (0x33, SIG1)], [0; 0; 0; 0; 1], curr', st', 0%nat).
Proof.
  destruct (store_packet_stream sigs_zero tc_example SIG0 [SIG1; SIG0; SIG1] tc_example_wf eq_refl eq_refl)
    as [_ H].
  destruct (H eq_refl) as (curr' & st' & E & _). exists curr', st'. exact E.
Defined.

Definition beat_example (d l : Z) : beat := MkBeat SIG1 (MkByte d 0x00) l.

Definition sigs_example : fifo_sigs_t := sigs_zero <| r_rdy := SIG1 |>.

Lemma fetch_packet_scoreboard_witness : exists curr' st',
  fetch_run sigs_example tc_example
    ([beat_example 0x11 SIG0] ++ [beat_example 0x22 SIG1]) = Ok ([0; 1], curr', st', 0%nat).
Proof.
  assert (Hi : Forall inner [beat_example 0x11 SIG0]) by (constructor; [intros _; discriminate|constructor]).
  assert (Hl : (length (fetched ([beat_example 0x11 SIG0] ++ [beat_example 0x22 SIG1]))
    <= length (tc_buf tc_example))%nat) by (vm_compute; lia).
  destruct (fetch_packet_scoreboard sigs_example tc_example [beat_example 0x11 SIG0]
    (beat_example 0x22 SIG1) eq_refl eq_refl Hi eq_refl eq_refl Hl) as (curr' & st' & errors & E & _ & _ & _ & He & _).
  exists curr', st'. rewrite E, He. reflexivity.
Defined.
