(* ===== verification/PacketTbSafe.v ===== *)
(** The types of the packet-FIFO testbench: the invariant of its schedule, which
    every clock edge keeps, but for the edges that fail an assertion and those that
    read past the end of a packet's buffer; both are characterised exactly. *)

From S2P Require Import Prelude Ulpi PacketTb.

Lemma u8_is_byte v : is_byte (u8 v).
Proof. unfold is_byte, u8. pose proof (Z.mod_pos_bound v (2 ^ 8)). lia. Qed.

(** ** Invariants *)

Definition is_scalar (v : Z) : Prop := 0 <= v <= 5.

(** The signals that the testbench drives. *)
Record wf_sigs (c : fifo_sigs_t) : Prop := {
  wf_drop : is_scalar (fs_drop c);
  wf_save : is_scalar (fs_save c);
  wf_redo : is_scalar (fs_redo c);
  wf_next : is_scalar (fs_next c);
  wf_w_vld : is_scalar (w_vld c);
  wf_w_lst : is_scalar (w_lst c);
  wf_r_rdy : is_scalar (r_rdy c);
  wf_w_dat : is_byte (a (w_dat c)) /\ is_byte (b (w_dat c))
}.

(** The memory of a test, before and after its [init]. *)
Record wf_tc (k : test_kind) (st : tc_state_t) : Prop := {
  wf_buf : length (tc_buf st) = 256%nat;
  wf_bytes : Forall is_byte (tc_buf st);
  wf_size : k <> WaitRst -> 0 < tc_size st <= 255
}.

Definition last_step (k : test_kind) : Z :=
  match k with WaitRst => 2 | WrData1 => 5 | WrRedo => 7 | WrDrop => 5 | StopGo => 3 end.

Record wf_running (k : test_kind) (st : tc_state_t) : Prop := {
  wf_step : 0 <= tc_step st <= last_step k;
  wf_head : k <> WaitRst -> 0 <= tc_head st;
  wf_tail : k <> WaitRst -> 0 <= tc_tail st
}.

Create HintDb ptb discriminated.
#[local] Hint Resolve Build_wf_sigs Build_wf_tc Build_wf_running : ptb.
#[local] Hint Extern 1 (is_scalar _) => unfold is_scalar; cbv; split; discriminate : ptb.

(** What an update of the signals keeps. *)
Ltac wf_signals :=
  match goal with
  | H : wf_sigs ?c |- wf_sigs _ => destruct H; constructor; cbn; auto with ptb; split; unfold is_byte; auto with lia
  end.

(** ** Store and fetch *)

(** What both leave: the position in the other stream, and what a test keeps. *)
Definition stored (c : fifo_sigs_t) (st : tc_state_t) (res : Z * fifo_sigs_t * tc_state_t * nat) : Prop :=
  let '(r, c', st', _) := res in
  wf_sigs c' /\ (r_vld c' = r_vld c /\ r_rdy c' = r_rdy c) /\
  (exists h, st' = st <| tc_head := h |> /\ 0 <= h) /\
  (r = 0 \/ r = 1 /\ w_vld c = SIG1 /\ w_rdy c = SIG1 /\ w_lst c = SIG1).

Lemma tc_head_id st : st <| tc_head := tc_head st |> = st.
Proof. by destruct st. Qed.
Lemma tc_tail_id st : st <| tc_tail := tc_tail st |> = st.
Proof. by destruct st. Qed.

Lemma store_packet_ends k c st :
  k <> WaitRst -> wf_sigs c -> wf_tc k st -> 0 <= tc_head st -> ends (stored c st) (store_packet c st).
Proof.
  intros Hk Hc [Hb Hf Hs] Hh. specialize (Hs Hk). unfold store_packet.
  apply ends_assert; [rewrite (proj2 (Z.ltb_lt _ _)), (proj2 (Z.leb_le _ _)) by lia; done|]. cbv zeta.
  apply ends_if; intros E1.
  { apply andb_true_iff in E1 as [[E1%Z.eqb_eq E2%Z.eqb_eq]%andb_true_iff E3%Z.eqb_eq].
    cbn [ends]. split; [wf_signals|]. split; [done|]. split; [|by right].
    exists (tc_head st). by rewrite tc_head_id. }
  set (st1 := if (_ && _) then _ else st).
  assert (H1 : exists h, st1 = st <| tc_head := h |> /\ 0 <= h).
  { unfold st1. destruct ((w_vld c =? SIG1) && (w_rdy c =? SIG1) && (w_lst c =? SIG0)).
    - exists (tc_head st + 1). split; [done|lia].
    - exists (tc_head st). by rewrite tc_head_id. }
  clearbody st1. destruct H1 as (h & -> & Hh').
  change (tc_head (st <| tc_head := h |>)) with h. change (tc_size (st <| tc_head := h |>)) with (tc_size st).
  change (tc_buf (st <| tc_head := h |>)) with (tc_buf st).
  apply ends_if; intros E2.
  - apply Z.ltb_lt in E2. apply ends_read_at; [lia|]. intros d Hd. cbn [ends].
    pose proof (Forall_lookup_1 _ _ _ _ Hf Hd) as Hbyte.
    split; [|split; [done|split; [by exists h|by left]]]. unfold is_byte in Hbyte. destruct (h + 1 <? tc_size st); wf_signals.
  - cbn [ends]. split; [|split; [done|split; [by exists h|by left]]]. destruct (h + 1 <? tc_size st); wf_signals.
Qed.

Definition fetched_by (st : tc_state_t) (res : Z * fifo_sigs_t * tc_state_t * nat) : Prop :=
  let '(r, c', st', _) := res in
  wf_sigs c' /\ (exists t, st' = st <| tc_tail := t |> /\ 0 <= t) /\ (r = 0 \/ r = 1).

(** The FIFO sends a byte for which the buffer has one to compare it with, or none. *)
Definition fetch_room (c : fifo_sigs_t) (st : tc_state_t) : Prop :=
  r_vld c = SIG1 -> r_rdy c = SIG1 -> tc_tail st < 256.

Lemma fetch_packet_ends k c st :
  wf_sigs c -> wf_tc k st -> 0 <= tc_tail st -> fetch_room c st -> ends (fetched_by st) (fetch_packet c st).
Proof.
  intros Hc [Hb Hf _] Ht Hroom. unfold fetch_packet.
  apply ends_assert; [rewrite (proj2 (Z.leb_le _ _)) by lia; done|].
  apply ends_if; intros E1.
  - apply andb_true_iff in E1 as [E1%Z.eqb_eq E2%Z.eqb_eq]. specialize (Hroom E1 E2).
    apply ends_read_at; [lia|]. intros d Hd. cbv zeta.
    apply ends_if; intros E3; cbn [ends]; (split; [wf_signals|]); (split; [|by auto]).
    all: exists (tc_tail st + 1); split; [done|lia].
  - cbn [ends]. split; [wf_signals|]. split; [|by left]. exists (tc_tail st). rewrite tc_tail_id.
    split; [done|lia].
Qed.

Lemma fetch_packet_overrun k c st :
  wf_tc k st -> r_vld c = SIG1 -> r_rdy c = SIG1 -> 256 <= tc_tail st -> fetch_packet c st = Undef.
Proof.
  intros [Hb _ _] E1 E2 Ht. unfold fetch_packet.
  rewrite (proj2 (Z.leb_le 0 (tc_tail st))), E1, E2 by lia. cbn [c_assert].
  rewrite outcome_bind_ok. change ((SIG1 =? SIG1) && (SIG1 =? SIG1)) with true. cbv iota.
  by rewrite read_at_ge by (rewrite Hb; lia).
Qed.

(** ** The steps of the tests *)

(** Only the second store of a test may fail, where the FIFO completes a packet that
    the testbench has not begun. *)
Definition stepped (k : test_kind) (c : fifo_sigs_t) (st : tc_state_t)
    (res : Z * fifo_sigs_t * tc_state_t * rng * nat) : Prop :=
  let '(r, c', st', _, _) := res in
  wf_sigs c' /\ wf_tc k st' /\ wf_running k st' /\
  (r = 0 \/ r = 1 \/
   r = -1 /\ tc_step st = 2 /\ w_vld c = SIG1 /\ w_rdy c = SIG1 /\ w_lst c = SIG1).

Lemma wf_tc_state k st st' :
  tc_buf st' = tc_buf st -> tc_size st' = tc_size st -> wf_tc k st -> wf_tc k st'.
Proof. intros E1 E2 []. constructor; by rewrite ?E1, ?E2. Qed.

(** A step that returns 0 or 1. *)
Lemma stepped_ok k c st r c' st' g e :
  r = 0 \/ r = 1 -> wf_sigs c' -> wf_tc k st -> tc_buf st' = tc_buf st -> tc_size st' = tc_size st ->
  0 <= tc_step st' <= last_step k -> (k <> WaitRst -> 0 <= tc_head st' /\ 0 <= tc_tail st') ->
  stepped k c st (r, c', st', g, e).
Proof.
  intros Hr Hc Hw E1 E2 Hs Hp. split; [done|]. split; [by eapply wf_tc_state|].
  split; [|destruct Hr; auto]. constructor; [done|apply Hp..].
Qed.

Ltac stepped_step :=
  cbn [ends]; apply stepped_ok;
    [auto|try assumption; wf_signals|eassumption|reflexivity|reflexivity
    |cbn in *; lia|intros _; cbn in *; lia].

Section Steps.
Context (k : test_kind) (c : fifo_sigs_t) (st : tc_state_t) (g : rng).
Hypothesis Hk : k <> WaitRst.
Hypothesis Hw : wf_tc k st.
Hypothesis Hr : wf_running k st.

Let Hhead : 0 <= tc_head st := wf_head k st Hr Hk.
Let Htail : 0 <= tc_tail st := wf_tail k st Hr Hk.
Let Hstep : 0 <= tc_step st <= last_step k := wf_step k st Hr.

Lemma wait_w_rdy_ends : wf_sigs c -> 1 <= last_step k -> ends (stepped k c st) (wait_w_rdy c st g).
Proof. intros Hc Hl. unfold wait_w_rdy. apply ends_if; intros E; stepped_step. Qed.

Lemma store_first_ends first :
  wf_sigs c -> 2 <= last_step k -> (forall c, wf_sigs c -> wf_sigs (first c)) ->
  ends (stepped k c st) (store_first first c st g).
Proof.
  intros Hc Hl Hf. unfold store_first. eapply ends_bind; [by eapply store_packet_ends|].
  intros [[[r c'] st'] e] (Hc' & Hrd & (h & -> & Hh) & Hres). pose proof (Hf _ Hc').
  apply ends_if; intros E1; [apply Z.ltb_lt in E1; lia|]. apply ends_if; intros E2; stepped_step.
Qed.

Lemma store_second_ends c0 :
  wf_sigs c -> 3 <= last_step k -> tc_step st = 2 ->
  w_vld c = w_vld c0 -> w_rdy c = w_rdy c0 -> w_lst c = w_lst c0 ->
  ends (stepped k c0 st) (store_second c st g).
Proof.
  intros Hc Hl Hs E1 E2 E3. unfold store_second. eapply ends_bind; [by eapply store_packet_ends|].
  intros [[[r c'] st'] e] (Hc' & Hrd & (h & -> & Hh) & Hres).
  apply ends_if; intros E; [|stepped_step].
  destruct Hres as [->|(-> & Hv & Hy & Hl')]; [done|]. rewrite E1 in Hv. rewrite E2 in Hy. rewrite E3 in Hl'.
  cbn [ends]. split; [done|]. split; [by eapply wf_tc_state; [| |exact Hw]|]. split; [|by auto 10].
  constructor; [done|intros _; done|intros _; exact Htail].
Qed.

Lemma store_fetch_ends :
  wf_sigs c -> 4 <= last_step k -> fetch_room c st -> ends (stepped k c st) (store_fetch c st g).
Proof.
  intros Hc Hl Hroom. unfold store_fetch. eapply ends_bind; [by eapply store_packet_ends|].
  intros [[[r c'] st'] e] (Hc' & Hrd & (h & -> & Hh) & Hres). cbv beta iota.
  rewrite (proj2 (Z.ltb_ge r 0)) by lia.
  set (res := if 0 <? r then _ else _).
  assert (H : wf_sigs res.1.1 /\ (r_vld res.1.1 = r_vld c /\ r_rdy res.1.1 = r_rdy c) /\ tc_buf res.1.2 = tc_buf st /\ tc_size res.1.2 = tc_size st /\
    tc_tail res.1.2 = tc_tail st /\ tc_head res.1.2 = h /\ 0 <= tc_step res.1.2 <= last_step k).
  { unfold res. destruct (0 <? r); cbn [fst snd]; (split; [try done; wf_signals|]); (split; [exact Hrd|]); cbn in *; lia || split_and!; done || lia. }
  destruct res as [[c1 st1] e1]. cbn [fst snd] in H. destruct H as (Hc1 & [Ev Ey] & E1 & E2 & E3 & E4 & Hs1).
  eapply ends_bind; [apply (fetch_packet_ends k); [done|by eapply wf_tc_state|by rewrite E3|]|].
  { unfold fetch_room. by rewrite Ev, Ey, E3. }
  intros [[[r2 c2] st2] e2] (Hc2 & (t & -> & Ht2) & _). cbn [ends].
  apply stepped_ok; [by left|done|exact Hw|done|done|done|intros _; cbn; by rewrite E4].
Qed.

Lemma fetch_then_ends c0 finish step :
  wf_sigs c -> (forall c, wf_sigs c -> wf_sigs (finish c)) -> 0 <= step <= last_step k ->
  fetch_room c st -> ends (stepped k c0 st) (fetch_then finish step c st g).
Proof.
  intros Hc Hf Hs Hroom. unfold fetch_then. eapply ends_bind; [by eapply (fetch_packet_ends k)|].
  intros [[[r c'] st'] e] (Hc' & (t & -> & Ht') & Hres). pose proof (Hf _ Hc').
  apply ends_if; intros E1; [apply Z.ltb_lt in E1; lia|]. apply ends_if; intros E2; stepped_step.
Qed.

End Steps.

(** What the tests assert of the signals: the clock is high and, except for the test
    that waits for the reset, the FIFO is not in reset. *)
Definition operates (k : test_kind) (c : fifo_sigs_t) : Prop :=
  fs_clock c = SIG1 /\ (k <> WaitRst -> fs_reset c = SIG0).

(** The steps that call [fetch_packet]. *)
Definition fetching (k : test_kind) (step : Z) : bool :=
  match k with
  | WaitRst => false
  | WrData1 => step =? 4
  | WrRedo => (3 <=? step) && (step <=? 6)
  | WrDrop => (3 <=? step) && (step <=? 4)
  | StopGo => step =? 2
  end.

(** The FIFO sends a byte while the test has fetched a whole buffer without an end of
    the packet. *)
Definition overruns (k : test_kind) (c : fifo_sigs_t) (st : tc_state_t) : Prop :=
  fetching k (tc_step st) = true /\ r_vld c = SIG1 /\ r_rdy c = SIG1 /\ 256 <= tc_tail st.

Lemma operates_dec k c : {operates k c} + {~ operates k c}.
Proof.
  destruct (decide (fs_clock c = SIG1)) as [E|E]; [|right; by intros []].
  destruct (decide (fs_reset c = SIG0)) as [E'|E']; [by left; split|].
  destruct k; [left; by split|right; intros [_ H]; by apply E', H..].
Qed.

Lemma overruns_dec k c st : {overruns k c st} + {~ overruns k c st}.
Proof.
  unfold overruns. destruct (fetching _ _); [|right; by intros []].
  destruct (decide (r_vld c = SIG1)), (decide (r_rdy c = SIG1)), (decide (256 <= tc_tail st)); tauto.
Qed.

Lemma fetch_room_in k c c' st :
  ~ overruns k c st -> fetching k (tc_step st) = true -> r_vld c' = r_vld c -> r_rdy c' = r_rdy c ->
  fetch_room c' st.
Proof.
  intros Hn Hf E1 E2 Hv Hy. destruct (Z_lt_dec (tc_tail st) 256); [done|].
  exfalso; apply Hn. unfold overruns. rewrite <- E1, <- E2. split; [done|]. split_and!; [done|done|lia].
Qed.

Ltac sig_fun := intros ? ?; wf_signals.

Ltac side :=
  first [assumption|done|cbn; lia|wf_signals|sig_fun
        |eapply fetch_room_in; [eassumption|cbn; lia|done|done]].

(** Case analysis on the number of the step. *)
Ltac step_case :=
  match goal with
  | |- ends _ (if ?c then _ else _) =>
      let E := fresh "E" in
      apply ends_if; intros E; [try apply Z.eqb_eq in E|try apply Z.eqb_neq in E]
  end.

Definition step_ends (k : test_kind) (step : fifo_sigs_t -> tc_state_t -> rng -> tc_result) : Prop :=
  forall c st g, operates k c -> ~ overruns k c st -> wf_sigs c -> wf_tc k st -> wf_running k st ->
  ends (stepped k c st) (step c st g).

Lemma tc_waitrst_step_ends : step_ends WaitRst tc_waitrst_step.
Proof.
  intros c st g [Hclk _] _ Hc Hw [Hs _ _]. cbn in Hs. unfold tc_waitrst_step.
  apply ends_assert; [by rewrite Hclk|]. cbv zeta.
  repeat step_case; try lia.
  all: cbn [ends]; apply stepped_ok;
    [auto|try assumption; wf_signals|eassumption|reflexivity|reflexivity|cbn in *; lia|by intros []].
Qed.

Lemma in_operation_ends k c st (m : tc_result) :
  k <> WaitRst -> operates k c -> ends (stepped k c st) m -> ends (stepped k c st) (in_operation c;; m).
Proof.
  intros Hk [Hclk H] Hm. unfold in_operation. by apply ends_assert; [rewrite Hclk, (H Hk)|].
Qed.

(** The start of the proof for a step. *)
Ltac start_step :=
  intros c st g Hop Hov Hc Hw Hr; apply in_operation_ends; [done|done|]; cbv zeta;
  pose proof Hr as [Hs Hh Htl]; specialize (Hh ltac:(done)); specialize (Htl ltac:(done)); cbn in Hs.

Lemma tc_wrdata1_step_ends : step_ends WrData1 tc_wrdata1_step.
Proof.
  start_step.
  step_case; [apply wait_w_rdy_ends; side|].
  step_case.
  { eapply ends_bind; [by apply (store_packet_ends WrData1)|].
    intros [[[r c'] st'] e] (Hc' & _ & (h & -> & Hh') & Hres).
    step_case; [lia|]. step_case; stepped_step. }
  step_case; [stepped_step|]. step_case; [step_case; stepped_step|].
  step_case; [|step_case; [stepped_step|lia]].
  eapply ends_bind; [apply (fetch_packet_ends WrData1); side|].
  intros [[[r c'] st'] e] (Hc' & (t & -> & Ht') & Hres).
  step_case; [lia|]. step_case; stepped_step.
Qed.

Lemma tc_wr_redo_step_ends : step_ends WrRedo tc_wr_redo_step.
Proof.
  start_step.
  step_case; [apply wait_w_rdy_ends; side|].
  step_case; [apply store_first_ends; side|].
  step_case; [apply store_second_ends; side|].
  step_case; [apply store_fetch_ends; side|].
  step_case; [apply fetch_then_ends; side|].
  step_case; [|step_case; [stepped_step|]].
  - apply orb_true_iff in E4 as [E4|E4]; apply Z.eqb_eq in E4; rewrite E4; cbn [Z.eqb Pos.eqb].
    all: apply fetch_then_ends; side.
  - apply orb_false_iff in E4 as [N5%Z.eqb_neq N6%Z.eqb_neq]. lia.
Qed.

Lemma tc_wr_drop_step_ends : step_ends WrDrop tc_wr_drop_step.
Proof.
  start_step.
  step_case; [apply wait_w_rdy_ends; side|].
  step_case; [apply store_first_ends; side|].
  step_case; [apply store_second_ends; side|].
  step_case; [apply store_fetch_ends; side|].
  step_case; [apply fetch_then_ends; side|].
  step_case; [stepped_step|lia].
Qed.

Lemma tc_stop_go_step_ends : step_ends StopGo tc_stop_go_step.
Proof.
  start_step.
  step_case; [apply wait_w_rdy_ends; side|].
  step_case; [apply store_first_ends; side|].
  step_case; [|step_case; [stepped_step|lia]].
  eapply ends_bind with (Q := fun res => let '(r, c', st', _, _) := res in
    wf_sigs c' /\ (exists t, st' = st <| tc_tail := t |> /\ 0 <= t) /\ (r = 0 \/ r = 1)).
  - unfold fetch_stop_go. eapply ends_bind; [apply (fetch_packet_ends StopGo); side|].
    intros [[[r c'] st'] e] (Hc' & Hst & Hres). step_case; [by split|].
    destruct (rng_next g) as [v g']. cbn [ends]. split; [destruct (Z.land v 1 =? 1); wf_signals|]. by split; [|left].
  - intros [[[[r c'] st'] g'] e] (Hc' & (t & -> & Ht') & Hres).
    step_case; [lia|]. step_case; stepped_step.
Qed.

Lemma test_step_ends k : step_ends k (test_step k).
Proof.
  destruct k; [exact tc_waitrst_step_ends|exact tc_wrdata1_step_ends|exact tc_wr_redo_step_ends
              |exact tc_wr_drop_step_ends|exact tc_stop_go_step_ends].
Qed.

(** ** Failed assertions and overruns *)

Lemma test_step_not_operates k c st g : ~ operates k c -> test_step k c st g = AssertFail.
Proof.
  intros Hn.
  assert (Hin : k <> WaitRst -> in_operation c = AssertFail).
  { intros Hk. unfold in_operation.
    destruct (Z.eqb_spec (fs_clock c) SIG1); [|done].
    destruct (Z.eqb_spec (fs_reset c) SIG0); [|done]. by destruct Hn. }
  destruct k; cbn [test_step].
  2-5: unfold tc_wrdata1_step, tc_wr_redo_step, tc_wr_drop_step, tc_stop_go_step; by rewrite Hin.
  unfold tc_waitrst_step. destruct (Z.eqb_spec (fs_clock c) SIG1); [|done]. by destruct Hn.
Qed.

Lemma in_operation_ok k c : k <> WaitRst -> operates k c -> in_operation c = Ok tt.
Proof. intros Hk [E1 E2]. unfold in_operation. by rewrite E1, (E2 Hk). Qed.

Lemma fetch_then_overrun k finish step c st g :
  wf_tc k st -> r_vld c = SIG1 -> r_rdy c = SIG1 -> 256 <= tc_tail st ->
  fetch_then finish step c st g = Undef.
Proof. intros Hw E1 E2 Ht. unfold fetch_then. by rewrite (fetch_packet_overrun k). Qed.

Lemma store_fetch_overrun k c st g :
  k <> WaitRst -> wf_sigs c -> wf_tc k st -> 0 <= tc_head st ->
  r_vld c = SIG1 -> r_rdy c = SIG1 -> 256 <= tc_tail st -> store_fetch c st g = Undef.
Proof.
  intros Hk Hc Hw Hh E1 E2 Ht. unfold store_fetch.
  destruct (ends_inv _ _ (store_packet_ends k c st Hk Hc Hw Hh))
    as ([[[r c'] st'] e] & -> & _ & [Ev Ey] & (h & -> & _) & _).
  rewrite outcome_bind_ok. cbv beta iota.
  set (res := if r <? 0 then _ else _).
  assert (H : r_vld res.1.1 = SIG1 /\ r_rdy res.1.1 = SIG1 /\ tc_tail res.1.2 = tc_tail st /\ wf_tc k res.1.2).
  { unfold res. destruct (r <? 0), (0 <? r); cbn; rewrite ?Ev, ?Ey; split_and!; try done.
    all: by eapply wf_tc_state; [| |exact Hw]. }
  destruct res as [[c1 st1] e1]. cbn [fst snd] in H. destruct H as (H1 & H2 & H3 & H4).
  rewrite (fetch_packet_overrun k); [done..|by rewrite H3].
Qed.

Ltac overrun_step E :=
  rewrite ?E; cbn [Z.eqb Pos.eqb orb]; cbv beta iota zeta;
  first [by rewrite (fetch_packet_overrun WrData1) by done
        |by apply (fetch_then_overrun WrRedo)|by apply (fetch_then_overrun WrDrop)
        |by apply (store_fetch_overrun WrRedo)|by apply (store_fetch_overrun WrDrop)
        |unfold fetch_stop_go; by rewrite (fetch_packet_overrun StopGo)].

Lemma test_step_overruns k c st g :
  operates k c -> overruns k c st -> wf_sigs c -> wf_tc k st -> wf_running k st ->
  test_step k c st g = Undef.
Proof.
  intros Hop (Hf & Hv & Hy & Ht) Hc Hw [_ Hh _].
  assert (Hk : k <> WaitRst) by (by intros ->). specialize (Hh Hk).
  destruct k; [done|..]; cbn [test_step fetching] in *.
  all: unfold tc_wrdata1_step, tc_wr_redo_step, tc_wr_drop_step, tc_stop_go_step;
    rewrite (in_operation_ok _ c Hk Hop), outcome_bind_ok; cbv zeta.
  - apply Z.eqb_eq in Hf. overrun_step Hf.
  - assert (E : tc_step st = 3 \/ tc_step st = 4 \/ tc_step st = 5 \/ tc_step st = 6) by lia.
    destruct E as [E|[E|[E|E]]]; overrun_step E.
  - assert (E : tc_step st = 3 \/ tc_step st = 4) by lia. destruct E as [E|E]; overrun_step E.
  - apply Z.eqb_eq in Hf. overrun_step Hf.
Qed.

(** ** The start of the tests *)

Lemma fill_bytes_ends n : forall buf g,
  Forall is_byte buf -> (n <= length buf)%nat ->
  ends (fun '(buf', _) => length buf' = length buf /\ Forall is_byte buf') (fill_bytes n buf g).
Proof.
  induction n as [|n IH]; intros buf g Hf Hn; [done|]. cbn [fill_bytes].
  destruct (rng_next g) as [v g']. apply ends_write_at; [lia|].
  eapply ends_mono; [apply IH|].
  - apply Forall_insert; [done|apply u8_is_byte].
  - rewrite length_insert. lia.
  - intros [buf' g'']. by rewrite length_insert.
Qed.

Lemma packet_init_ends k c st g :
  k <> WaitRst -> wf_sigs c -> wf_tc k st -> ends (stepped k c st) (tc_packet_init c st g).
Proof.
  intros Hk Hc [Hb Hf Hs]. specialize (Hs Hk). unfold tc_packet_init. cbv zeta.
  eapply ends_bind with (Q := fun '(n, buf, _) =>
    n = tc_size st /\ length buf = 256%nat /\ Forall is_byte buf).
  { unfold fill_fixed_len. eapply ends_bind; [apply fill_bytes_ends; [exact Hf|cbn; lia]|].
    intros [buf g'] [Hl Hf']. cbn [ends]. split; [done|]. split; [by rewrite Hl|done]. }
  intros [[n buf] g'] (-> & Hl & Hf'). apply ends_assert; [apply Z.eqb_refl|].
  cbn [ends]. split; [done|]. split; [by constructor|]. split; [|by left].
  constructor; cbn; try lia. by destruct k.
Qed.

Lemma test_init_ends k c st g :
  wf_sigs c -> wf_tc k st -> ends (stepped k c st) (test_init k c st g).
Proof.
  intros Hc Hw. destruct k; [|apply packet_init_ends; done..].
  cbn [ends test_init tc_waitrst_init].
  apply stepped_ok; [by left|done|exact Hw|done|done|cbn; lia|by intros []].
Qed.

(** ** The schedule *)

Record wf_pt (s : pt_state_t) : Prop := {
  wf_num : pt_test_num s = Z.of_nat (length (pt_tests s));
  wf_curr : 0 <= pt_test_curr s <= pt_test_num s;
  wf_count : 0 <= pt_test_step s;
  wf_tests : Forall (fun t => wf_tc (tc_kind t) (tc_data t)) (pt_tests s);
  wf_current : forall t, pt_tests s !! Z.to_nat (pt_test_curr s) = Some t -> pt_test_step s <> 0 ->
    wf_running (tc_kind t) (tc_data t)
}.

(** The test of which a clock edge calls the step, if it calls one. *)
Definition stepping (s : pt_state_t) (t : testcase_t) : Prop :=
  pt_tests s !! Z.to_nat (pt_test_curr s) = Some t /\ pt_test_step s <> 0.

Definition pt_operates (s : pt_state_t) (next : fifo_sigs_t) : Prop :=
  forall t, stepping s t -> operates (tc_kind t) next.

Definition pt_overruns (s : pt_state_t) (next : fifo_sigs_t) : Prop :=
  exists t, stepping s t /\ overruns (tc_kind t) next (tc_data t).

(** What a clock edge does to the schedule. *)
Definition pt_post (s : pt_state_t) (next : fifo_sigs_t) (res : Z * pt_state_t * fifo_sigs_t) : Prop :=
  let '(r, s', next') := res in
  wf_pt s' /\ wf_sigs next' /\ pt_test_num s' = pt_test_num s /\
  map tc_kind (pt_tests s') = map tc_kind (pt_tests s) /\
  (forall i, i <> Z.to_nat (pt_test_curr s) -> pt_tests s' !! i = pt_tests s !! i) /\
  ((pt_test_curr s = pt_test_num s /\ r = 2 /\ pt_test_curr s' = pt_test_curr s /\ next' = next) \/
   (pt_test_curr s < pt_test_num s /\
    ((r = 1 /\ pt_test_curr s' = pt_test_curr s + 1 /\ pt_test_step s' = 0) \/
     ((r = 0 \/ r = -1 /\ w_vld next = SIG1 /\ w_rdy next = SIG1 /\ w_lst next = SIG1) /\
      pt_test_curr s' = pt_test_curr s /\ pt_test_step s' = pt_test_step s + 1)))).

Lemma map_insert_kind (tests : list testcase_t) i t st :
  tests !! i = Some t -> map tc_kind (<[i := MkTest (tc_kind t) st]> tests) = map tc_kind tests.
Proof.
  intros H. change (map tc_kind) with (@fmap list _ _ _ tc_kind). rewrite list_fmap_insert.
  apply list_insert_id. by rewrite list_lookup_fmap, H.
Qed.

(** The state after the call for test [t], at step [n] of test [cur]. *)
Lemma wf_pt_call s t st s' :
  wf_pt s -> pt_tests s !! Z.to_nat (pt_test_curr s) = Some t -> wf_tc (tc_kind t) st ->
  pt_test_num s' = pt_test_num s ->
  pt_tests s' = <[Z.to_nat (pt_test_curr s) := MkTest (tc_kind t) st]> (pt_tests s) ->
  pt_test_curr s < pt_test_num s ->
  (pt_test_curr s' = pt_test_curr s /\ 0 <= pt_test_step s' /\ wf_running (tc_kind t) st) \/
  (pt_test_curr s' = pt_test_curr s + 1 /\ pt_test_step s' = 0) ->
  wf_pt s'.
Proof.
  intros [Hn Hc Hs Ht Hr] Hl Hw En Et Hlt H. constructor.
  - by rewrite En, Et, length_insert.
  - rewrite En. lia.
  - lia.
  - rewrite Et. by apply Forall_insert.
  - rewrite Et. destruct H as [(-> & _ & Hrun)|(_ & ->)]; [|done]. intros t'.
    rewrite list_lookup_insert_eq by (apply lookup_lt_Some in Hl; lia). by intros [= <-].
Qed.

(** The call that [pt_step] makes. *)
Lemma pt_call_ends s next t :
  wf_pt s -> wf_sigs next -> pt_operates s next -> ~ pt_overruns s next -> pt_tests s !! Z.to_nat (pt_test_curr s) = Some t ->
  ends (stepped (tc_kind t) next (tc_data t))
    ((if pt_test_step s =? 0 then test_init else test_step) (tc_kind t) next (tc_data t) (pt_rand s)).
Proof.
  intros Hw Hn He Ho Hl. pose proof (Forall_lookup_1 _ _ _ _ (wf_tests s Hw) Hl) as Ht.
  destruct (Z.eqb_spec (pt_test_step s) 0) as [E|E]; [by apply test_init_ends|].
  apply test_step_ends; [by apply He|intros Hov; apply Ho; by exists t|done|done|].
  by apply (wf_current s Hw).
Qed.

Lemma pt_step_ends s next :
  wf_pt s -> wf_sigs next -> pt_operates s next -> ~ pt_overruns s next ->
  ends (pt_post s next) (pt_step s next).
Proof.
  intros Hw Hn He Hov. pose proof Hw as [Hnum Hcurr Hstep _ _]. unfold pt_step. cbv zeta.
  apply ends_if; intros E.
  - apply Z.ltb_lt in E. apply ends_read_at; [lia|]. intros t Hl.
    eapply ends_bind; [by apply pt_call_ends|].
    intros [[[[r next'] st] g] e] (Hn' & Htc & Hrun & Hr). apply ends_write_at; [lia|].
    assert (Hk := map_insert_kind (pt_tests s) _ t st Hl).
    assert (Ho : forall i, i <> Z.to_nat (pt_test_curr s) ->
      <[Z.to_nat (pt_test_curr s) := MkTest (tc_kind t) st]> (pt_tests s) !! i = pt_tests s !! i)
      by (intros; by apply list_lookup_insert_ne).
    destruct Hr as [->|[->|(-> & Hr)]].
    all: cbn [Z.ltb Z.compare ends pt_failed].
    all: split; [|split; [exact Hn'|split; [done|split; [exact Hk|split; [exact Ho|]]]]].
    2,4,6: right; split; [exact E|cbn; tauto].
    all: apply (wf_pt_call s t st); try done; cbn; try lia.
    all: left; by split_and!; try lia.
  - apply Z.ltb_ge in E. cbn [ends]. split_and!; try done.
    + destruct Hw. by constructor.
    + left. cbn. by split_and!; try lia.
Qed.

(** A clock edge that calls the step of a test, where the step fails. *)
Lemma pt_step_stepping s next t (m : forall A, outcome A) :
  wf_pt s -> stepping s t -> (forall A B (f : A -> outcome B), (m A ≫= f) = m B) ->
  test_step (tc_kind t) next (tc_data t) (pt_rand s) = m _ -> pt_step s next = m _.
Proof.
  intros [Hnum Hcurr _ _ _] [Hl Hs] Hm E. unfold pt_step. cbv zeta.
  pose proof (lookup_lt_Some _ _ _ Hl) as Hlt. rewrite (proj2 (Z.ltb_lt _ _)) by lia.
  rewrite <- (Z2Nat.id (pt_test_curr s)) at 1 by lia. rewrite (read_at_Some _ _ _ Hl), outcome_bind_ok.
  rewrite (proj2 (Z.eqb_neq _ _) Hs). by rewrite E, Hm.
Qed.

(** Every clock edge, one of the three. *)
Lemma pt_step_cases s next : wf_pt s -> wf_sigs next ->
  match pt_step s next with
  | Ok res => (pt_operates s next /\ ~ pt_overruns s next) /\ pt_post s next res
  | AssertFail => ~ pt_operates s next
  | Undef => pt_operates s next /\ pt_overruns s next
  end.
Proof.
  intros Hw Hn.
  destruct (decide (pt_test_step s = 0)) as [E0|E0].
  { assert (H1 : pt_operates s next) by (by intros t [_ ?]).
    assert (H2 : ~ pt_overruns s next) by (by intros (t & [_ ?] & _)).
    by destruct (ends_inv _ _ (pt_step_ends s next Hw Hn H1 H2)) as (res & -> & H). }
  destruct (pt_tests s !! Z.to_nat (pt_test_curr s)) as [t|] eqn:El; cycle 1.
  { assert (H1 : pt_operates s next) by (intros t [? _]; congruence).
    assert (H2 : ~ pt_overruns s next) by (intros (t & [? _] & _); congruence).
    by destruct (ends_inv _ _ (pt_step_ends s next Hw Hn H1 H2)) as (res & -> & H). }
  assert (Hst : stepping s t) by done.
  assert (Hu : forall t', stepping s t' -> t' = t) by (intros t' [? _]; congruence).
  destruct (operates_dec (tc_kind t) next) as [Hop|Hop].
  - assert (H1 : pt_operates s next) by (by intros t' ->%Hu).
    destruct (overruns_dec (tc_kind t) next (tc_data t)) as [Hov|Hov].
    + rewrite (pt_step_stepping s next t (fun _ => Undef) Hw Hst); [split; [done|by exists t]|done|].
      apply test_step_overruns; [done..| |by apply (wf_current s Hw)].
      exact (Forall_lookup_1 _ _ _ _ (wf_tests s Hw) El).
    + assert (H2 : ~ pt_overruns s next) by (by intros (t' & ->%Hu & ?)).
      by destruct (ends_inv _ _ (pt_step_ends s next Hw Hn H1 H2)) as (res & -> & H).
  - rewrite (pt_step_stepping s next t (fun _ => AssertFail) Hw Hst);
      [intros H; by apply Hop, H|done|by apply test_step_not_operates].
Qed.

(** The uninitialised memory of the tests: it has its size, and holds bytes. *)
Definition wf_mem (mem : nat -> tc_state_t) : Prop :=
  forall i, length (tc_buf (mem i)) = 256%nat /\ Forall is_byte (tc_buf (mem i)).

Lemma pt_setup_wf mem g : wf_mem mem -> wf_pt (pt_setup mem g).
Proof.
  intros Hm. constructor; [done|cbn; lia|done| |done].
  cbn [pt_setup pt_tests pt_schedule].
  repeat (apply List.Forall_cons; [constructor; cbn; [apply Hm|apply Hm|done || lia]|]).
  apply List.Forall_nil.
Qed.

(** C3.  The testbench keeps its types: the schedule that [pt_compiletf] sets up is
    well formed whatever the allocated memory holds, and from every well-formed
    schedule and whatever the FIFO drives, a clock edge ends in exactly one of three
    ways.  It fails an assertion exactly if it steps a test while the clock is not
    high or, except for the test that waits for the reset, while the FIFO is in
    reset.  It reads past the end of the buffer of the current test exactly if the
    test is fetching and the FIFO hands it another byte when it has fetched 256
    without an end of the packet: the code has no bound on the position.  Otherwise
    it returns, with a schedule that is well formed and byte and scalar values on
    every signal that it drives: it has changed the data of the current test only
    and no test's kind; it advances to the next test exactly on a result of 1,
    returns 2 exactly when the tests are done, changing nothing, and fails only when
    the FIFO accepts the last byte of a packet in the cycle in which the second
    packet starts: the error returns for an unknown step are never taken. *)
Theorem pt_step_type :
  (forall mem g, wf_mem mem -> wf_pt (pt_setup mem g)) /\
  (forall s next, wf_pt s -> wf_sigs next ->
   match pt_step s next with
   | Ok res => (pt_operates s next /\ ~ pt_overruns s next) /\ pt_post s next res
   | AssertFail => ~ pt_operates s next
   | Undef => pt_operates s next /\ pt_overruns s next
   end).
Proof. split; [apply pt_setup_wf|apply pt_step_cases]. Qed.

(** ** Witness *)

Definition mem_example (i : nat) : tc_state_t := MkTc 0 0 0 0 (replicate 256 0).

(** The schedule set up, its first edge, and the second test fetching while the FIFO
    sends the 257th byte. *)
Definition pt_example : pt_state_t := pt_setup mem_example (fun _ => 7).
Definition fetching_example : pt_state_t :=
  MkPt 0 0 0 0 8 1 1
    (<[1%nat := MkTest WrData1 (MkTc 4 8 0 256 (replicate 256 0))]> (pt_tests pt_example))
    sigs_zero (fun _ => 7) [].
Definition sending_example : fifo_sigs_t :=
  MkSigs SIG1 0 (MkByte 0 0) 0 0 0 0 0 0 0 (MkByte 0 0) SIG1 SIG1 0 (MkByte 0 0).

Lemma wf_sigs_example : wf_sigs sigs_zero /\ wf_sigs sending_example.
Proof. split; constructor; vm_compute; by split_and!. Qed.

Lemma wf_mem_example : wf_mem mem_example.
Proof. intros i. split; [done|]. by apply Forall_replicate. Qed.

Lemma wf_fetching_example : wf_pt fetching_example.
Proof.
  pose proof (pt_setup_wf mem_example (fun _ => 7) wf_mem_example) as [_ _ _ Ht _].
  constructor; [done|cbn; lia|cbn; lia| |].
  - cbn [pt_tests fetching_example]. apply Forall_insert; [exact Ht|]. cbn [tc_kind tc_data].
    constructor; [done|apply (wf_mem_example 0%nat)|cbn; lia].
  - intros t [= <-] _. constructor; cbn; lia.
Qed.

Lemma pt_step_type_witness :
  (exists res, pt_step pt_example sigs_zero = Ok res /\ pt_post pt_example sigs_zero res) /\
  (pt_step fetching_example sending_example = Undef /\ pt_overruns fetching_example sending_example) /\
  ~ pt_operates fetching_example sigs_zero.
Proof.
  pose proof (proj2 pt_step_type pt_example sigs_zero
    (proj1 pt_step_type mem_example (fun _ => 7) wf_mem_example) (proj1 wf_sigs_example)) as H1.
  pose proof (proj2 pt_step_type fetching_example sending_example wf_fetching_example
    (proj2 wf_sigs_example)) as H2.
  pose proof (proj2 pt_step_type fetching_example sigs_zero wf_fetching_example
    (proj1 wf_sigs_example)) as H3.
  split; [|split].
  - destruct (pt_step pt_example sigs_zero) as [res| |] eqn:E; [|vm_compute in E; discriminate E..].
    exists res. split; [done|exact (proj2 H1)].
  - change (pt_step fetching_example sending_example) with (@Undef (Z * pt_state_t * fifo_sigs_t)) in H2 |- *.
    split; [done|exact (proj2 H2)].
  - exact H3.
Defined.
