(* ===== verification/Builds.v ===== *)
(** The other builds: the end of packet of [__fast_eop] (src/vpi/usb/ulpi.c) and the
    delays of [__short_timers] and [__long_timers] (src/vpi/usb/usbhost.h,
    src/vpi/usb/ulpiphy.c), against the default build. *)

From S2P Require Import Prelude UsbCrc Ulpi UlpiTrace UlpiPhy StdReq.

(** ** The end of packet *)

(** [drive_eop] with [__fast_eop]. *)
Definition drive_eop_fast (xfer : transfer_t) (inp out : ulpi_bus_t) : step_result :=
  let rx_cmd :=
    c_assert (dir inp =? SIG1);;
    Ok (0, xfer <| stage := EndRXCMD |>,
        out <| dir := SIG1 |> <| nxt := SIG0 |> <| data_a := 0x4D |> <| data_b := 0x00 |>) in
  match stage xfer with
  | NoXfer (* [case XferIdle], also 0 *) => Ok (1, xfer, out)
  | ULPITurn =>
      Ok (0, xfer <| stage := DATAxStop |>,
          out <| dir := SIG1 |> <| nxt := SIG0 |> <| data_a := 0x00 |> <| data_b := 0xFF |>)
  | Token2 | DATAxCRC2 | HskPID =>
      c_assert (nxt inp =? SIG1);;
      c_assert (data_b inp =? 0x00);;
      rx_cmd (* falls through *)
  | DATAxStop => rx_cmd
  | EndRXCMD =>
      c_assert (dir out =? SIG1);;
      c_assert (nxt out =? SIG0);;
      c_assert (data_b out =? 0x00);;
      Ok (0, xfer <| stage := LineIdle |>, out <| dir := SIG0 |> <| data_a := 0x00 |> <| data_b := 0xFF |>)
  | LineIdle =>
      c_assert (dir inp =? SIG0);;
      c_assert (nxt inp =? SIG0);;
      c_assert (data_a inp =? 0x00);;
      Ok (1, xfer <| type := XferIdle |> <| stage := NoXfer |>, out)
  | _ => Ok (-1, xfer, out)
  end.

(** A run of [n] cycles in which the bus carries what was driven in the cycle before. *)
Fixpoint eop_run (eop : transfer_t -> ulpi_bus_t -> ulpi_bus_t -> step_result) (n : nat)
    (xfer : transfer_t) (bus : ulpi_bus_t) : outcome (list Z * list ulpi_bus_t * transfer_t) :=
  match n with
  | O => Ok ([], [], xfer)
  | S n =>
      '(r, xfer, out) ← eop xfer bus bus;
      '(rs, outs, xfer) ← eop_run eop n xfer out;
      Ok (r :: rs, out :: outs, xfer)
  end.

(** The end of a packet: its last byte is on the bus, or the link has stopped sending
    and the host has taken the bus. *)
Definition eop_entry (s : xfer_stage_t) (bus : ulpi_bus_t) : Prop :=
  dir bus = SIG1 /\
  match s with
  | Token2 | DATAxCRC2 | HskPID => nxt bus = SIG1 /\ data_b bus = 0
  | DATAxStop => nxt bus = SIG0
  | _ => False
  end.

Definition eop_done (x : transfer_t) : transfer_t := x <| type := XferIdle |> <| stage := NoXfer |>.

(** At the end of every packet, both builds release the bus and leave the same idle
    transfer; the fast one takes three cycles instead of four, because it leaves out
    the RX CMD that ends the reception. *)
Lemma eop_builds x bus :
  eop_entry (stage x) bus ->
  let cmd v := bus <| nxt := SIG0 |> <| data_a := v |> <| data_b := 0x00 |> in
  let free := cmd 0x00 <| dir := SIG0 |> <| data_b := 0xFF |> in
  eop_run drive_eop 4 x bus = Ok ([0; 0; 0; 1], [cmd 0x4C; cmd 0x4D; free; free], eop_done x) /\
  eop_run drive_eop_fast 3 x bus = Ok ([0; 0; 1], [cmd 0x4D; free; free], eop_done x).
Proof.
  intros [Hd Hs]. destruct x as [ad ep t s sq cy tx tl tp rx rl rp t1 t2 c1 c2].
  destruct bus as [cl rs di st nx [da db]]. cbn in Hs, Hd. subst. cbv zeta.
  destruct s; try contradiction; first [subst nx|destruct Hs as [Hn Hb]; subst nx db]; by split.
Qed.

(** ** The delays, in ticks of the 60 MHz clock *)

Record timers : Type := MkTimers {
  uphy_chirpk_timer : Z;
  host_chirpk_timer : Z;
  host_chirpj_timer : Z;
  reset_ticks : Z;
  sof_n_ticks : Z;
}.

Definition short_timers : timers := MkTimers 30 5 5 60 75.
Definition long_timers : timers := MkTimers 60000 3000 3000 60000 7500.
Definition default_timers : timers := MkTimers 60 30 30 6000 1500.

(** The models use the default ones; only the long ones have the microframe of USB
    2.0, 125 us. *)
Lemma timers_used :
  default_timers = MkTimers UPHY_CHIRPK_TIMER HOST_CHIRPK_TIMER HOST_CHIRPK_TIMER RESET_TICKS SOF_N_TICKS /\
  sof_n_ticks long_timers * 1000 = 125 * 60000 /\ 
  sof_n_ticks default_timers < sof_n_ticks long_timers /\ sof_n_ticks short_timers < sof_n_ticks long_timers.
Proof. by split_and!. Qed.
