(* ===== verification/Register.v ===== *)
(** The registration of the simulator tasks (src/vpi/startup.c and the three
    [_register] functions), and the life of a test case on the heap
    (src/vpi/testcase.c). *)

From stdpp Require Import gmap strings.
From S2P Require Import Prelude.

#[local] Open Scope string_scope.
#[local] Open Scope Z_scope.

(** ** Tasks *)

(** The routines that a task can point to. *)
Inductive vpi_routine : Type :=
| Ut_calltf | Ut_compiletf | Pt_calltf | Pt_compiletf | Ulpim_calltf | Ulpim_compiletf.

(** The value of [vpiSysTask] belongs to the simulator. *)
Inductive systf_type : Type := VpiSysTask | VpiSysFunc.

(** [s_vpi_systf_data]; of [sizetf] and [user_data] the code only sets NULL. *)
Record systf_data : Type := MkSystf {
  tf_type : systf_type;
  tf_name : string;
  tf_calltf : vpi_routine;
  tf_compiletf : vpi_routine;
  tf_sizetf : option vpi_routine;
  tf_user_data : option Z;
}.

(** What the registration does, in order. *)
Inductive startup_event : Type :=
| VpiRegister (t : systf_data) (* vpi_register_systf(&tf_data) *)
| VpiPrint (s : string).

Definition ut_register : list startup_event :=
  [VpiRegister (MkSystf VpiSysTask "$ulpi_step" Ut_calltf Ut_compiletf None None)].

Definition pt_register : list startup_event :=
  [VpiRegister (MkSystf VpiSysTask "$packet_tb" Pt_calltf Pt_compiletf None None)].

Definition ulpim_register : list startup_event :=
  [VpiPrint "goats are the best"; 
   VpiRegister (MkSystf VpiSysTask "$ulpi_monitor" Ulpim_calltf Ulpim_compiletf None None)].

(** [vlog_startup_routines], with its null pointer at the end. *)
Definition vlog_startup_routines : list (option (list startup_event)) :=
  [Some ut_register; Some pt_register; None].

(** The simulator calls the routines up to the null pointer. *)
Fixpoint run_startup (routines : list (option (list startup_event))) : outcome (list startup_event) :=
  match routines with
  | [] => Undef
  | None :: _ => Ok []
  | Some ev :: routines => evs ← run_startup routines; Ok (ev ++ evs)%list
  end.

Definition task_named (name : string) (e : startup_event) : bool :=
  match e with VpiRegister t => bool_decide (tf_name t = name) | _ => false end.

(** The tasks that a simulation has: the stepper and the FIFO testbench, each with its
    own routines.  The table of the monitor is compiled out, so nothing registers
    [$ulpi_monitor]. *)
Lemma startup_tasks :
  exists evs, run_startup vlog_startup_routines = Ok evs /\
    filter (fun e => task_named "$ulpi_step" e = true) evs = ut_register /\
    filter (fun e => task_named "$packet_tb" e = true) evs = pt_register /\
    filter (fun e => task_named "$ulpi_monitor" e = true) evs = [].
Proof. eexists. split; [reflexivity|]. by vm_compute. Qed.

(** ** Test cases on the heap *)

(** A test case: its name, its data (0 being NULL), and whether its two function
    pointers are set. *)
Record heap_test : Type := MkHeapTest { ht_name : string; ht_data : Z; ht_init : bool; ht_step : bool }.

Inductive block : Type := TestBlock (t : heap_test) | DataBlock.

#[local] Abbreviation heap := (gmap Z block).

(** [free(p)]: of a pointer that is NULL or live. *)
Definition free (p : Z) (h : heap) : outcome heap :=
  if p =? 0 then Ok h else match h !! p with Some _ => Ok (delete p h) | None => Undef end.

(** [tc_create], [at] being what [malloc] returns; the result of [malloc] is not
    checked. *)
Definition tc_create (at_ : Z) (name : string) (data : Z) (h : heap) : outcome (Z * heap) :=
  if at_ =? 0 then Undef
  else Ok (at_, <[at_ := TestBlock (MkHeapTest name data false false)]> h).

Definition tc_finish (test : Z) (h : heap) : outcome heap :=
  if test =? 0 then Ok h
  else
    match h !! test with
    | Some (TestBlock t) =>
        h ← (if negb (ht_data t =? 0) then free (ht_data t) h else Ok h);
        free test h
    | _ => Undef
    end.

(** [phy_free] *)
Definition phy_free (phy : Z) (h : heap) : outcome heap := free phy h.

(** What [tc_create] allocated, and its data, is gone after [tc_finish], and nothing
    else; a second [tc_finish] is an error. *)
Lemma tc_create_finish at_ name data h h1 :
  at_ <> 0 -> h !! at_ = None -> data = 0 \/ h !! data = Some DataBlock ->
  tc_create at_ name data h = Ok (at_, h1) ->
  let h2 := if data =? 0 then h else delete data h in
  tc_finish at_ h1 = Ok h2 /\ tc_finish at_ h2 = Undef.
Proof.
  intros Ha Hf Hd H. unfold tc_create in H. rewrite (proj2 (Z.eqb_neq _ _) Ha) in H. injection H as <-.
  unfold tc_finish, free. rewrite (proj2 (Z.eqb_neq _ _) Ha), lookup_insert_eq. cbn [ht_data].
  destruct (Z.eqb_spec data 0) as [->|Hz]; cbn [negb].
  - rewrite outcome_bind_ok. cbv beta. rewrite lookup_insert_eq, delete_insert_id by done. by rewrite Hf.
  - destruct Hd as [Hd|Hd]; [done|]. assert (Hn : at_ <> data) by congruence.
    rewrite lookup_insert_ne, Hd, outcome_bind_ok by done. cbv beta.
    rewrite lookup_delete_ne, lookup_insert_eq by done.
    rewrite delete_delete, delete_insert_id by done. split; [done|].
    by rewrite lookup_delete_ne, Hf by done.
Qed.
