(* ===== verification/Show.v ===== *)
(** What the models print: the tables of names, and the functions that format the
    bus, a transfer, a request, the host, the device and the states of the tasks. *)

From S2P Require Import Prelude Printf PacketTb UsbCrc Ulpi UlpiPhy StdReq UsbHost UsbFunc.
From S2P Require Import TestCases UlpiSim.

#[local] Open Scope string_scope.
#[local] Open Scope Z_scope.

(** ** The tables *)

Definition type_strings : list string :=
  ["XferIdle"; "NOPID"; "RegWrite"; "RegRead"; "SETUP"; "OUT"; "IN"; "SOF"; "PING";
   "DnDATA0"; "DnDATA1"; "DnACK"; "UpACK"; "UpNYET"; "UpNAK"; "UpSTALL"; "UpDATA0";
   "UpDATA1"; "TimeOut"].

Definition stage_strings : list string :=
  ["NoXfer"; "AssertDir"; "InitRXCMD"; "TokenPID"; "Token1"; "Token2"; "HskPID"; "HskStop";
   "DATAxPID"; "DATAxBody"; "DATAxCRC1"; "DATAxCRC2"; "DATAxStop"; "ULPITurn"; "EndRXCMD";
   "EOP"; "REGW"; "REGR"; "REGD"; "LineIdle"].

Definition host_op_strings : list string :=
  ["HostError"; "HostReset"; "HostSuspend"; "HostResume"; "HostIdle"; "HostSOF";
   "HostSETUP"; "HostBulkOUT"; "HostBulkIN"].

Definition hstates : list string :=
  ["Error"; "Reset"; "Suspend"; "Resume"; "Idle"; "SOF"; "SETUP"; "BulkOUT"; "BulkIN"].

Definition fstates : list string :=
  ["IDLE"; "RECV"; "RXCMD"; "RxPID"; "BUSY"; "EOT"].

Definition op_strings : list string :=
  ["UT_PowerOn"; "UT_StartUp"; "UT_Idle"; "UT_Test"; "UT_Done"].

(** An enumeration with a table of names: the rows, their width, and the index that
    the code computes. *)
Class NameTable (A : Type) : Type := {
  nt_names : list string;
  nt_width : nat;
  nt_index : A -> Z;
}.

(** [table[index]] *)
Definition name_of {A} {N : NameTable A} (a : A) : outcome string := read_at nt_names (nt_index a).

#[export] Instance xfer_type_names : NameTable xfer_type_t :=
  {| nt_names := type_strings; nt_width := 16; nt_index := xfer_type_val |}.
#[export] Instance xfer_stage_names : NameTable xfer_stage_t :=
  {| nt_names := stage_strings; nt_width := 16; nt_index := xfer_stage_val |}.
#[export] Instance host_op_names : NameTable host_op_t :=
  {| nt_names := host_op_strings; nt_width := 16; nt_index op := host_op_val op + 1 |}.
(** The device has a table of its own for the operations. *)
Definition func_op_names : NameTable host_op_t :=
  {| nt_names := hstates; nt_width := 8; nt_index op := host_op_val op - host_op_val HostError |}.

Definition usbf_state_val (s : usbf_state) : Z :=
  match s with
  | FuncIdle => 0 | FuncRecv => 1 | FuncRXCMD => 2 | FuncRxPID => 3 | FuncBusy => 4 | FuncEOT => 5
  end.
#[export] Instance usbf_state_names : NameTable usbf_state :=
  {| nt_names := fstates; nt_width := 8; nt_index := usbf_state_val |}.

Definition ut_step_val (s : ut_step_t) : Z :=
  match s with
  | UT_PowerOn => 0 | UT_StartUp => 1 | UT_Idle => 2 | UT_Test => 3
  | UT_Done => 4
  end.
#[export] Instance ut_step_names : NameTable ut_step_t :=
  {| nt_names := op_strings; nt_width := 16; nt_index := ut_step_val |}.

(** [transfer_type_string] *)
Definition transfer_type_string (xfer : transfer_t) : outcome string := name_of (type xfer).

(** ** The names of the states of the tests

    Each step prints the name of the state it is called in. *)

Definition getdesc_strings : list string :=
  ["SendSETUP"; "SendDATA0"; "RecvACK0"; "SendIN"; "RecvDATA0"; "SendACK"; "SendOUT";
   "SendZDP"; "RecvACK1"; "DescDone"].
Definition getdesc_val (s : getdesc_state_t) : Z :=
  match s with
  | SendSETUP => 0 | SendDATA0 => 1 | RecvACK0 => 2 | SendIN => 3 | RecvDATA1 => 4 | SendACK =>
  5 | SendOUT => 6 | SendZDP => 7 | RecvACK1 => 8 | DescDone => 9
  end.
#[export] Instance getdesc_names : NameTable getdesc_state_t :=
  {| nt_names := getdesc_strings; nt_width := 16; nt_index := getdesc_val |}.

Definition setaddr_strings : list string :=
  ["SendSETUP"; "SendDATA0"; "RecvACK0"; "SendIN"; "RecvDATA0"; "SendACK"; "AddrDone"].
Definition setaddr_val (s : SetAddr.setaddr_stage_t) : Z :=
  match s with
  | SetAddr.SendSETUP => 0 | SetAddr.SendDATA0 => 1 | SetAddr.RecvACK0 => 2 | SetAddr.SendIN =>
  3 | SetAddr.RecvDATA1 => 4 | SetAddr.SendACK => 5 | SetAddr.AddrDone => 6
  end.
#[export] Instance setaddr_names : NameTable SetAddr.setaddr_stage_t :=
  {| nt_names := setaddr_strings; nt_width := 16; nt_index := setaddr_val |}.

Definition setconf_strings : list string :=
  ["SendSETUP"; "SendDATA0"; "RecvACK0"; "SendIN"; "RecvDATA0"; "SendACK"; "SetDone"].
Definition setconf_val (s : SetConf.set_stage_t) : Z :=
  match s with
  | SetConf.SendSETUP => 0 | SetConf.SendDATA0 => 1 | SetConf.RecvACK0 => 2 | SetConf.SendIN =>
  3 | SetConf.RecvDATA1 => 4 | SetConf.SendACK => 5 | SetConf.SetDone => 6
  end.
#[export] Instance setconf_names : NameTable SetConf.set_stage_t :=
  {| nt_names := setconf_strings; nt_width := 16; nt_index := setconf_val |}.

Definition waitsof_strings : list string :=
  ["WaitIdle"; "WaitDone"].
Definition waitsof_val (s : WaitSof.waitsof_state_t) : Z :=
  match s with
  | WaitSof.WaitIdle => 0 | WaitSof.WaitDone => 1
  end.
#[export] Instance waitsof_names : NameTable WaitSof.waitsof_state_t :=
  {| nt_names := waitsof_strings; nt_width := 16; nt_index := waitsof_val |}.

Definition bulkout_strings : list string :=
  ["BulkOUT0"; "BulkOUT1"; "BulkOUT2"; "BulkOUT3"; "BulkOUT4"; "BulkOUT5"; "BulkOUT6";
   "BulkDone"].
Definition bulkout_val (s : BulkOut.bulkout_state_t) : Z :=
  match s with
  | BulkOut.BulkOUT0 => 0 | BulkOut.BulkOUT1 => 1 | BulkOut.BulkOUT2 => 2 | BulkOut.BulkOUT3 =>
  3 | BulkOut.BulkOUT4 => 4 | BulkOut.BulkOUT5 => 5 | BulkOut.BulkOUT6 => 6 | BulkOut.BulkDone
  => 7
  end.
#[export] Instance bulkout_names : NameTable BulkOut.bulkout_state_t :=
  {| nt_names := bulkout_strings; nt_width := 16; nt_index := bulkout_val |}.

Definition bulkin_strings : list string :=
  ["BulkIN0"; "BulkIN1"; "BulkIN2"; "BINDone"].
Definition bulkin_val (s : BulkIn.bulkin_step_t) : Z :=
  match s with
  | BulkIn.BulkIN0 => 0 | BulkIn.BulkIN1 => 1 | BulkIn.BulkIN2 => 2 | BulkIn.BINDone => 3
  end.
#[export] Instance bulkin_names : NameTable BulkIn.bulkin_step_t :=
  {| nt_names := bulkin_strings; nt_width := 16; nt_index := bulkin_val |}.

Definition ddr3in_strings : list string :=
  ["DDR3Cmd"; "DDR3Dat"; "DDR3End"].
Definition ddr3in_val (s : Ddr3In.ddr3in_step_t) : Z :=
  match s with
  | Ddr3In.DDR3Cmd => 0 | Ddr3In.DDR3Dat => 1 | Ddr3In.DDR3End => 2
  end.
#[export] Instance ddr3in_names : NameTable Ddr3In.ddr3in_step_t :=
  {| nt_names := ddr3in_strings; nt_width := 16; nt_index := ddr3in_val |}.

Definition ddr3out_strings : list string :=
  ["DDR3Out"; "DDR3Res"; "DDR3End"].
Definition ddr3out_val (s : Ddr3Out.ddr3out_step_t) : Z :=
  match s with
  | Ddr3Out.DDR3Out => 0 | Ddr3Out.DDR3Res => 1 | Ddr3Out.DDR3End => 2
  end.
#[export] Instance ddr3out_names : NameTable Ddr3Out.ddr3out_step_t :=
  {| nt_names := ddr3out_strings; nt_width := 16; nt_index := ddr3out_val |}.

Definition parity_strings : list string :=
  ["BulkIN0"; "BulkIN1"; "BulkOUT0"; "BulkOUT1"; "DonePar"].
Definition parity_val (s : Parity.parity_step_t) : Z :=
  match s with
  | Parity.BulkIN0 => 0 | Parity.BulkIN1 => 1 | Parity.BulkOUT0 => 2 | Parity.BulkOUT1 => 3 |
  Parity.DonePar => 4
  end.
#[export] Instance parity_names : NameTable Parity.parity_step_t :=
  {| nt_names := parity_strings; nt_width := 16; nt_index := parity_val |}.

(** The tests GET CONFIGURATION and GET STRINGS use the same states. *)
Definition getconf_strings : list string :=
  ["SendSETUP"; "SendDATA0"; "RecvACK0"; "SendIN"; "RecvDATA0"; "SendACK"; "SendOUT";
   "SendZDP"; "RecvACK1"; "DoneSETUP"].
Definition getconf_names : NameTable getdesc_state_t :=
  {| nt_names := getconf_strings; nt_width := 16; nt_index := getdesc_val |}.
Definition getstrs_strings : list string :=
  ["SendSETUP"; "SendDATA0"; "RecvACK0"; "SendIN"; "RecvDATA0"; "SendACK"; "SendOUT";
   "SendZDP"; "RecvACK1"; "DoneSETUP"].
Definition getstrs_names : NameTable getdesc_state_t :=
  {| nt_names := getstrs_strings; nt_width := 16; nt_index := getdesc_val |}.

(** [tc->name] *)
Definition testcase_name (t : TestCases.testcase_t) : string :=
  match t with
  | TestGetDesc _ => "GET DESCRIPTOR"
  | TestSetAddr _ => "SET ADDRESS"
  | TestGetConf _ => "GET CONFIG DESCRIPTOR"
  | TestSetConf _ => "SET CONFIGURATION"
  | TestGetStrs _ => "GET STRING DESCRIPTOR"
  | TestWaitSof _ => "Wait for SOF"
  | TestBulkOut _ => "BULK OUT"
  | TestBulkIn _ => "BULK IN"
  | TestDdr3Out _ => "BULK DDR3 OUT"
  | TestDdr3In _ => "BULK DDR3 IN"
  | TestParity _ => "BULK IN/OUT PARITY"
  | TestRestarts _ => "Link-restart test-case"
  end.

(** The name of the state that the step of a test prints first; the link-restart
    test prints none. *)
Definition testcase_state_name (t : TestCases.testcase_t) : outcome string :=
  match t with
  | TestGetDesc st => name_of st
  | TestSetAddr st => name_of (SetAddr.sa_stage st)
  | TestGetConf st => name_of (N := getconf_names) (GetConf.gc_step st)
  | TestSetConf st => name_of (SetConf.sc_stage st)
  | TestGetStrs st => name_of (N := getstrs_names) (GetStrs.gs_step st)
  | TestWaitSof st => name_of st
  | TestBulkOut st => name_of st
  | TestBulkIn st => name_of (BulkIn.bi_step st)
  | TestDdr3Out st => name_of (Ddr3Out.do_step st)
  | TestDdr3In st => name_of (Ddr3In.di_step st)
  | TestParity st => name_of (Parity.pa_step st)
  | TestRestarts _ => Ok EmptyString
  end.

(** ** The functions that format

    Each [show] function is what it prints. *)

Section Show.
(** How the C library prints a pointer, and [__FILE__]. *)
Context (show_ptr : Z -> string) (file : string).

(** *** ulpi.c *)

(** The loop over [ep_seq]: the bits, and the first entry that is no bit. *)
Fixpoint seq_scan (n : nat) (i : Z) (seq : list Z) (val : Z) : outcome (Z * option (Z * Z)) :=
  match n with
  | O => Ok (val, None)
  | S n =>
      s ← read_at seq i;
      if s =? 0 then seq_scan n (i + 1) seq val
      else if 1 <? s then Ok (val, Some (i, s))
      else seq_scan n (i + 1) seq (u16 (Z.lor val (Z.shiftl 1 i)))
  end.

(** [transfer_string]: what it prints, and the string of its static buffer.  The
    arrays [tx] and [rx] are at [tx_at] and [rx_at]. *)
Definition transfer_string (tx_at rx_at : Z) (xfer : transfer_t) : outcome (string * string) :=
  let tok := Z.lor (u16 (Z.shiftl (tok2 xfer) 8)) (tok1 xfer) in
  let crc := Z.lor (u16 (Z.shiftl (crc2 xfer) 8)) (crc1 xfer) in
  '(seq_val, bad) ← seq_scan 16 0 (ep_seq xfer) 0;
  '(log, seq_str) ←
    match bad with
    | Some (i, s) =>
        log ← printf show_ptr "\n[%s:%d] YUCKY seq[%d] = 0x%x\n\n" [AS file; AI 88; AI i; AU s];
        Ok (log, "0xXXXX")
    | None => seq_str ← sprintf show_ptr 7 "0x%04x" [AU seq_val]; Ok (EmptyString, seq_str)
    end;
  type_name ← name_of (type xfer);
  stage_name ← name_of (stage xfer);
  str ← sprintf show_ptr 256
    "addr: %u, ep: %u, type: %d (%s), stage: %d (%s), ep_seq: %s, cycle: %u, tx: <%p>, tx_len: %d, tx_ptr: %d, rx: <%p>, rx_len: %d, rx_ptr: %d, tok: 0x%04x, crc: 0x%04x"
    [AU (address xfer); AU (endpoint xfer); AI (xfer_type_val (type xfer)); AS type_name;
     AI (xfer_stage_val (stage xfer)); AS stage_name; AS seq_str; AU (xcycle xfer);
     AP tx_at; AI (tx_len xfer); AI (tx_ptr xfer); AP rx_at; AI (rx_len xfer);
     AI (rx_ptr xfer); AU tok; AU crc];
  Ok (log, str).

Definition transfer_show (tx_at rx_at : Z) (xfer : transfer_t) : outcome string :=
  '(log, str) ← transfer_string tx_at rx_at xfer;
  out ← printf show_ptr "Transfer = {\n  %s\n};\n" [AS str];
  Ok (log +:+ out).

Definition ulpi_bus_string (bus : ulpi_bus_t) : outcome string :=
  let dat := Z.lor (Z.shiftl (data_b bus) 8) (data_a bus) in
  sprintf show_ptr 256 "clock: %u, rst#: %u, dir: %u, nxt: %u, stp: %u, data: 0x%x"
    [AU (clock bus); AU (rst_n bus); AU (dir bus); AU (nxt bus); AU (stp bus); AU dat].

Definition ulpi_bus_show (bus : ulpi_bus_t) : outcome string :=
  str ← ulpi_bus_string bus; printf show_ptr "%s\n" [AS str].

(** *** usbhost.c *)

(** [host_string]: [sp] is the number of blanks in the static array [sp], which
    never shrinks; [str] has [size] characters.  It returns what it prints, the new
    [sp], and the string, whose length is the result. *)
Definition host_string (tx_at rx_at : Z) (size : nat) (sp : nat) (host : usb_host_t) (indent : nat)
  : outcome (string * nat * string) :=
  c_assert (indent <? 60)%nat;;
  let sp := Nat.max sp indent in
  let s := repeat_char sp blank in
  let put str f args := sprintf_at show_ptr size str f args in
  str ← put EmptyString "%scycle: %lu,\n" [AS s; AU (host_cycle host)];
  op_name ← name_of (host_op host);
  str ← put str "%sop: %d (%s),\n" [AS s; AI (host_op_val (host_op host)); AS op_name];
  str ← put str "%sstep: %u,\n" [AS s; AU (host_step host)];
  prev ← ulpi_bus_string (host_prev host);
  str ← put str "%sprev: {\n%s  %s\n%s},\n" [AS s; AS s; AS prev; AS s];
  '(log, xfer) ← transfer_string tx_at rx_at (host_xfer host);
  str ← put str "%sxfer: {\n%s  %s\n%s},\n" [AS s; AS s; AS xfer; AS s];
  str ← put str "%ssof: 0x%x (%u),\n" [AS s; AU (host_sof host); AU (host_sof host)];
  str ← put str "%stimer: %d,\n" [AS s; AI (host_turnaround host)];
  str ← put str "%saddr: 0x%02x,\n" [AS s; AU (host_addr host)];
  str ← put str "%serror_count: %d,\n" [AS s; AI (host_error_count host)];
  str ← put str "%sbuf[%u]: <%p>\n" [AS s; AU (host_len host); AP (host_buf host)];
  Ok (log, sp, str).

Definition show_host (tx_at rx_at : Z) (sp : nat) (host : usb_host_t) : outcome (string * nat) :=
  '(log, sp, str) ← host_string tx_at rx_at 4096 sp host 2;
  c_assert (String.length str <? 4096)%nat;;
  out ← printf show_ptr "USB_HOST = {\n%s};\n" [AS str];
  Ok (log +:+ out, sp).

(** *** stdreq.c *)

Definition stdreq_show (req : usb_stdreq_t) : outcome string :=
  s0 ← printf show_ptr "STD_REQ = {\n" [];
  s1 ← printf show_ptr "  bmRequestType:\t  0x%02x,\n" [AU (bmRequestType req)];
  s2 ← printf show_ptr "  bRequest:     \t  0x%02x,\n" [AU (bRequest req)];
  s3 ← printf show_ptr "  wValue:       \t0x%04x,\n" [AU (wValue req)];
  s4 ← printf show_ptr "  wIndex:       \t0x%04x,\n" [AU (wIndex req)];
  s5 ← printf show_ptr "  wLength:      \t0x%04x\n};\n" [AU (wLength req)];
  Ok (s0 +:+ s1 +:+ s2 +:+ s3 +:+ s4 +:+ s5).

(** *** usbfunc.c *)

Definition func_show (func : usb_func_t) : outcome string :=
  state_name ← name_of (func_state func);
  s0 ← printf show_ptr "State\t = %d\t(%s)\n" [AI (usbf_state_val (func_state func)); AS state_name];
  op_name ← name_of (N := func_op_names) (func_op func);
  s1 ← printf show_ptr "OP   \t = %d\t(%s)\n" [AI (host_op_val (func_op func)); AS op_name];
  s2 ← printf show_ptr "Step \t = %d\n" [AI (func_step func)];
  s3 ← printf show_ptr "Timer\t = %d\n" [AI (func_turnaround func)];
  Ok (s0 +:+ s1 +:+ s2 +:+ s3).

(** *** ulpiphy.c *)

Definition ulpi_bus_data_hex (inp : ulpi_bus_t) : Z := Z.lor (Z.shiftl (data_b inp) 8) (data_a inp).

(** *** ulpisim.c *)

(** The tests are at [tests_at], the transfer of the PHY has its arrays at
    [phy_tx_at] and [phy_rx_at]. *)
Definition show_ut_state (tx_at rx_at phy_tx_at phy_rx_at tests_at : Z) (sp : nat) (state : ut_state_t)
  : outcome (string * nat) :=
  '(log, sp, hstr) ← host_string tx_at rx_at 4096 sp (ut_host state) 4;
  c_assert (String.length hstr <? 4096)%nat;;
  s0 ← printf show_ptr "UT_STATE = {\n" [];
  s1 ← printf show_ptr "  tick_ns: %lu,\n" [AU (ut_tick_ns state)];
  s2 ← printf show_ptr "  t_recip: %lu,\n" [AU (ut_t_recip state)];
  s3 ← printf show_ptr "  cycle: %lu,\n" [AU (ut_cycle state)];
  bus ← ulpi_bus_string (ut_bus state);
  s4 ← printf show_ptr "  bus: {\n   %s\n  },\n" [AS bus];
  '(log1, xfer) ← transfer_string phy_tx_at phy_rx_at (phy_xfer (ut_phy state));
  s5 ← printf show_ptr "  phy: {\n   xfer: %s,\n" [AS xfer];
  s6 ← printf show_ptr "  },\n  host: {\n%s\n  },\n" [AS hstr];
  s7 ← printf show_ptr "  sync_flag: %d,\n" [AI (ut_sync_flag state)];
  s8 ← printf show_ptr "  test_curr: %d,\n" [AI (ut_test_curr state)];
  s9 ← printf show_ptr "  test_step: %d,\n" [AI (ut_test_step state)];
  s10 ← printf show_ptr "  tests[%d]: <%p>,\n" [AI (ut_test_num state); AP tests_at];
  op_name ← name_of (ut_op state);
  s11 ← printf show_ptr "  op: %u (%s)\n};\n" [AU (ut_step_val (ut_op state)); AS op_name];
  Ok (log +:+ s0 +:+ s1 +:+ s2 +:+ s3 +:+ s4 +:+ log1 +:+ s5 +:+ s6 +:+ s7 +:+ s8 +:+ s9 +:+
      s10 +:+ s11, sp).

(** *** packet_tb.c *)

Definition byte_to_hex (b : byte_t) : Z := Z.lor (Z.shiftl (Ulpi.b b) 8) (Ulpi.a b).

Definition fifo_sigs_show (sigs : fifo_sigs_t) : outcome string :=
  printf show_ptr
    "reset: %u, level: 0x%04x, {v: %u, r: %u, l: %u, d: 0x%04x}, {v: %u, r: %u, l: %u, d: 0x%04x}\n"
    [AU (fs_reset sigs); AU (byte_to_hex (fs_level sigs)); AU (r_vld sigs); AU (r_rdy sigs);
     AU (r_lst sigs); AU (byte_to_hex (r_dat sigs)); AU (w_vld sigs); AU (w_rdy sigs);
     AU (w_lst sigs); AU (byte_to_hex (w_dat sigs))].

Definition show_pt_state (tests_at : Z) (state : pt_state_t) : outcome string :=
  s0 ← printf show_ptr "PT_STATE = {\n" [];
  s1 ← printf show_ptr "  tick_ns: %lu,\n" [AU (pt_tick_ns state)];
  s2 ← printf show_ptr "  t_recip: %lu,\n" [AU (pt_t_recip state)];
  s3 ← printf show_ptr "  cycle: %lu,\n" [AU (pt_cycle state)];
  s4 ← printf show_ptr "  sync_flag: %d,\n" [AI (pt_sync_flag state)];
  s5 ← printf show_ptr "  test_curr: %d,\n" [AI (pt_test_curr state)];
  s6 ← printf show_ptr "  test_step: %d,\n" [AI (pt_test_step state)];
  s7 ← printf show_ptr "  tests[%d]: <%p>\n};\n" [AI (pt_test_num state); AP tests_at];
  Ok (s0 +:+ s1 +:+ s2 +:+ s3 +:+ s4 +:+ s5 +:+ s6 +:+ s7).

(** The loop of [tc_state_show] over the bytes from [i] on; [str] is not initialised
    before the first of them ([None]). *)
Fixpoint tc_state_bytes (n : nat) (i : Z) (buf : list Z) (str : option string) : outcome (option string) :=
  match n with
  | O => Ok str
  | S n =>
      b ← read_at buf i;
      str ← sprintf_at show_ptr 2048 (default EmptyString str) "0x%02x, " [AU b];
      tc_state_bytes n (i + 1) buf (Some str)
  end.

Definition tc_state_show (st : tc_state_t) : outcome string :=
  str ← tc_state_bytes (Z.to_nat (tc_size st)) 0 (tc_buf st) None;
  s0 ← printf show_ptr "ST: {\n" [];
  s1 ← printf show_ptr "  step: %d,\n" [AI (PacketTb.tc_step st)];
  s2 ← printf show_ptr "  size: %d,\n" [AI (tc_size st)];
  s3 ← printf show_ptr "  head: %d,\n" [AI (tc_head st)];
  s4 ← printf show_ptr "  tail: %d,\n" [AI (tc_tail st)];
  match str with
  | None => Undef (* an array that is not initialised, as a string *)
  | Some str =>
      s5 ← printf show_ptr "  buf[256]: {\n    %s\n  }\n};\n" [AS str];
      Ok (s0 +:+ s1 +:+ s2 +:+ s3 +:+ s4 +:+ s5)
  end.

End Show.
