(* ===== verification/ShowProps.v ===== *)
(** The buffers of the printing functions are long enough, and the tables of names
    cover their enumerations. *)

From S2P Require Import Prelude Printf PacketTb UsbCrc Ulpi UlpiSafe UlpiPhy StdReq UsbHost UsbFunc.
From S2P Require Import TestCases UlpiSim Show.

#[local] Open Scope string_scope.
#[local] Open Scope Z_scope.

(** ** The tables *)

(** Every value has a row, no row is longer than the array it is in, and different
    values have different names. *)
Record table_ok (A : Type) (N : NameTable A) : Prop := {
  to_row (a : A) : exists s, name_of a = Ok s /\ (String.length s < nt_width)%nat;
  to_inj (a b : A) : name_of a = name_of b -> a = b;
}.

Ltac table_done :=
  constructor;
  [intros []; eexists; (split; [reflexivity|cbn; lia])
  |intros [] []; first [reflexivity|discriminate]].

Lemma name_tables : 
  table_ok _ xfer_type_names /\ table_ok _ xfer_stage_names /\ table_ok _ host_op_names /\
  table_ok _ func_op_names /\ table_ok _ usbf_state_names /\ table_ok _ ut_step_names.
Proof. split_and!; table_done. Qed.

Lemma test_tables :
  table_ok _ getdesc_names /\ table_ok _ getconf_names /\ table_ok _ getstrs_names /\
  table_ok _ setaddr_names /\ table_ok _ setconf_names /\ table_ok _ waitsof_names /\
  table_ok _ bulkout_names /\ table_ok _ bulkin_names /\ table_ok _ ddr3in_names /\
  table_ok _ ddr3out_names /\ table_ok _ parity_names.
Proof. split_and!; table_done. Qed.

(** The five tests of control transactions call the state in which they receive
    DATA1 by the name of another packet. *)
Lemma recv_data1_name :
  name_of RecvDATA1 = Ok "RecvDATA0" /\ name_of (N := getconf_names) RecvDATA1 = Ok "RecvDATA0" /\
  name_of (N := getstrs_names) RecvDATA1 = Ok "RecvDATA0" /\
  name_of SetAddr.RecvDATA1 = Ok "RecvDATA0" /\ name_of SetConf.RecvDATA1 = Ok "RecvDATA0".
Proof. by split_and!. Qed.

(** The longest names. *)
Definition names_bound {A} (N : NameTable A) : nat := S (foldr (fun s n => Nat.max (String.length s) n) 0%nat nt_names).

Lemma name_of_ends {A} (N : NameTable A) (a : A) :
  table_ok A N -> ends (fun s => (String.length s < names_bound N)%nat) (name_of a).
Proof.
  intros [H _]. destruct (H a) as (s & E & _). rewrite E. cbn. unfold name_of in E.
  apply read_at_lookup, list_elem_of_lookup_2 in E. unfold names_bound. apply Nat.lt_succ_r.
  induction E as [l|y l H1 H2 IH]; cbn; lia.
Qed.

(** ** What the formatted values range over

    The fields of a bus and a host as C keeps them: a [uint8_t], a [uint16_t], and so
    on.  Those of a transfer as the steps keep them, too, which is less: an endpoint
    below 16, sequence bits, positions that are not negative, and one of at most 512
    in the receive buffer. *)

Definition is_uint (w n : Z) : Prop := 0 <= n < 2 ^ w.
Definition is_int (n : Z) : Prop := - 2 ^ 31 <= n < 2 ^ 31.

Record shown_xfer (x : transfer_t) : Prop := {
  sx_wf : wf_xfer x;
  sx_address : is_uint 8 (address x);
  sx_cycle : is_uint 32 (xcycle x);
  sx_tx_len : is_int (tx_len x);
  sx_tx_ptr : is_int (tx_ptr x);
  sx_rx_len : is_int (rx_len x);
}.

Record shown_bus (b : ulpi_bus_t) : Prop := {
  sb_signals : Forall (is_uint 8) [clock b; rst_n b; dir b; nxt b; stp b];
  sb_data : is_uint 8 (data_a b) /\ is_uint 8 (data_b b);
}.

Record shown_host (h : usb_host_t) : Prop := {
  sh_cycle : is_uint 64 (host_cycle h);
  sh_step : is_uint 32 (host_step h);
  sh_prev : shown_bus (host_prev h);
  sh_xfer : shown_xfer (host_xfer h);
  sh_words : Forall (is_uint 16) [host_sof h; host_turnaround h; host_len h];
  sh_bytes : Forall (is_uint 8) [host_addr h; host_error_count h];
}.

Lemma lor_bound w x y : 0 <= w -> is_uint w x -> is_uint w y -> is_uint w (Z.lor x y).
Proof.
  unfold is_uint. intros Hw Hx Hy. split; [apply Z.lor_nonneg; lia|].
  destruct (Z.eq_dec (Z.lor x y) 0) as [->|Hz]; [apply Z.pow_pos_nonneg; lia|].
  assert (Hp : 0 < Z.lor x y) by (pose proof (proj2 (Z.lor_nonneg x y)); lia).
  apply Z.log2_lt_pow2; [done|]. rewrite Z.log2_lor by lia.
  apply Z.max_lub_lt.
  - destruct (Z.eq_dec x 0) as [->|]; [|apply Z.log2_lt_pow2; lia].
    destruct (Z.eq_dec w 0) as [->|]; [|cbn; lia]. change (2 ^ 0) with 1 in Hy. assert (y = 0) as -> by lia. done.
  - destruct (Z.eq_dec y 0) as [->|]; [|apply Z.log2_lt_pow2; lia].
    destruct (Z.eq_dec w 0) as [->|]; [|cbn; lia]. change (2 ^ 0) with 1 in Hx. assert (x = 0) as -> by lia. done.
Qed.

Lemma bytes_word hi lo : is_uint 8 hi -> is_uint 8 lo -> is_uint 16 (Z.lor (Z.shiftl hi 8) lo).
Proof.
  unfold is_uint. intros Hh Hl. apply lor_bound; [lia| |unfold is_uint; lia].
  unfold is_uint. rewrite Z.shiftl_mul_pow2 by lia. lia.
Qed.

Section Fits.
Context (show_ptr : Z -> string) (file : string).

(** The C library prints a pointer as [(nil)] or as [0x] with 16 digits at most. *)
Definition ptr_fits : Prop := forall addr, (String.length (show_ptr addr) <= 18)%nat.
Context (Hptr : ptr_fits).

Lemma fits_u k h n b :
  0 <= n < b -> (1 <=? k)%nat && (1 <=? h)%nat && (b <=? 10 ^ Z.of_nat k) && (b <=? 16 ^ Z.of_nat h) = true ->
  arg_fits show_ptr (k, h) (AU n).
Proof.
  intros Hn H. rewrite !andb_true_iff, !Nat.leb_le, !Z.leb_le in H. unfold arg_fits. cbn [fst snd]. lia.
Qed.

Lemma fits_d k h n a b :
  a <= n < b -> (1 <=? k)%nat && (b <=? 10 ^ Z.of_nat k) && (- 10 ^ (Z.of_nat k - 1) <? a) = true ->
  arg_fits show_ptr (k, h) (AI n).
Proof.
  intros Hn H. rewrite !andb_true_iff, !Nat.leb_le, !Z.leb_le, !Z.ltb_lt in H. unfold arg_fits. cbn [fst snd]. lia.
Qed.

Lemma fits_s k h s b :
  (String.length s < b)%nat -> (1 <=? k)%nat && (b <=? S k)%nat = true -> arg_fits show_ptr (k, h) (AS s).
Proof. intros Hs H. rewrite !andb_true_iff, !Nat.leb_le in H. unfold arg_fits. cbn [fst snd]. lia. Qed.

Lemma fits_p k h addr : (18 <=? k)%nat = true -> arg_fits show_ptr (k, h) (AP addr).
Proof using Hptr. intros Hk%Nat.leb_le. pose proof (Hptr addr). unfold arg_fits. cbn [fst snd]. lia. Qed.

(** The widths of the types. *)
Definition w8 : width := (3, 2)%nat.
Definition w16 : width := (5, 4)%nat.
Definition w32 : width := (10, 8)%nat.
Definition w64 : width := (20, 16)%nat.
Definition wint : width := (11, 8)%nat.
Definition wptr : width := (18, 16)%nat.
Definition wstr (n : nat) : width := (n, 0)%nat.

(** Arguments of a format, one after the other. *)
Ltac fit :=
  unfold w8, w16, w32, w64, wint, wptr, wstr;
  match goal with
  | |- arg_fits _ _ (AU _) => eapply fits_u; [eassumption|vm_compute; reflexivity]
  | |- arg_fits _ _ (AI _) => eapply fits_d; [eassumption|vm_compute; reflexivity]
  | |- arg_fits _ _ (AS _) => eapply fits_s; [eassumption|vm_compute; reflexivity]
  | |- arg_fits _ _ (AP _) => apply fits_p; vm_compute; reflexivity
  end.
Ltac fits_tac := repeat (apply List.Forall2_cons; [solve [fit]|]); apply List.Forall2_nil.

(** The next call, with the widths of its arguments. *)
Ltac next_printf := eapply ends_bind; [apply printf_ends; reflexivity|intros ? _].
Ltac sprintf_tac ks := apply (sprintf_ends show_ptr _ _ _ ks); [reflexivity|fits_tac|vm_compute; reflexivity].
Ltac next_sprintf ks := eapply ends_bind; [sprintf_tac ks|intros ? ?; cbv beta in *].
Ltac next_put ks :=
  eapply ends_bind; [eapply (sprintf_at_ends show_ptr _ _ _ _ ks); [eassumption|reflexivity|fits_tac|vm_compute; reflexivity]|intros ? ?; cbv beta in *].
Ltac next_name H := eapply ends_bind; [apply name_of_ends, H|intros ? ?; cbv beta in *].

Lemma seq_scan_bits n : forall i seq val,
  (Z.to_nat i + n <= length seq)%nat -> 0 <= i -> i + Z.of_nat n <= 16 -> Forall is_bit seq -> is_uint 16 val ->
  ends (fun r => r.2 = None /\ is_uint 16 r.1) (seq_scan n i seq val).
Proof.
  induction n as [|n IH]; intros i seq val Hl Hi Hn Hb Hv; cbn [seq_scan]; [done|].
  apply ends_read_at; [lia|]. intros s Hs.
  destruct (proj1 (Forall_lookup _ _) Hb _ _ Hs) as [-> | ->].
  - apply IH; lia || done.
  - change (SIG1 =? 0) with false. change (1 <? SIG1) with false. cbv iota. apply IH; try lia; [done|].
    unfold u16, is_uint. change 65536 with (2 ^ 16). apply Z.mod_pos_bound. lia.
Qed.

Lemma lor_word hi lo : is_byte hi -> is_byte lo -> is_uint 16 (Z.lor (u16 (Z.shiftl hi 8)) lo).
Proof.
  intros Hh Hl. rewrite u16_small by (rewrite Z.shiftl_mul_pow2 by lia; unfold is_byte in *; lia). by apply bytes_word.
Qed.

(** What [transfer_string] and [ulpi_bus_string] leave in a static buffer. *)
Definition in_buffer (s : string) : Prop := (String.length s < 256)%nat.

Ltac in_buffer := cbn [snd]; eapply Nat.le_lt_trans; [eassumption|apply Nat.ltb_lt; vm_compute; reflexivity].

Lemma transfer_string_fits tx_at rx_at x :
  shown_xfer x ->
  ends (fun r => r.1 = EmptyString /\ in_buffer r.2) (transfer_string show_ptr file tx_at rx_at x).
Proof using Hptr.
  intros [Hwf Ha Hc Ht1 Ht2 Hr]. destruct Hwf as [He Hsl Hsb _ _ Htr _ _ Hrr [Hc1 Hc2] [Hk1 Hk2]].
  unfold transfer_string. cbv zeta.
  pose proof (lor_word _ _ Hk2 Hk1) as Htok. pose proof (lor_word _ _ Hc2 Hc1) as Hcrc.
  eapply ends_bind; [apply seq_scan_bits; try done; cbn; lia|]. intros [v bad] [Hbad Hv]. cbn in Hbad, Hv. subst bad.
  assert (Hty : 0 <= xfer_type_val (type x) < 19) by (destruct (type x); cbn; lia).
  assert (Hst : 0 <= xfer_stage_val (stage x) < 20) by (destruct (stage x); cbn; lia).
  assert (Hp1 : 0 <= tx_ptr x < 2 ^ 31) by (unfold is_int in Ht2; lia). clear Ht2.
  assert (Hp2 : 0 <= rx_ptr x < 513) by lia. unfold is_uint, is_int in *.
  eapply (ends_bind (fun r => r.1 = EmptyString /\ (String.length r.2 < 7)%nat)).
  { next_sprintf [w16]. split; [done|]. in_buffer. }
  intros [log seq_str] [Hlog Hseq]. cbn in Hlog, Hseq. subst log.
  next_name (proj1 name_tables). next_name (proj1 (proj2 name_tables)).
  next_sprintf [w8; (2, 1)%nat; (2, 1)%nat; wstr 8; (2, 1)%nat; wstr 9; wstr 6; w32; wptr; wint;
    (10, 8)%nat; wptr; wint; (3, 3)%nat; w16; w16].
  split; [done|]. in_buffer.
Qed.

Lemma ulpi_bus_string_fits bus : shown_bus bus -> ends in_buffer (ulpi_bus_string show_ptr bus).
Proof using Hptr.
  intros [Hs [Ha Hb]]. apply Forall_cons_1 in Hs as [H1 Hs]. apply Forall_cons_1 in Hs as [H2 Hs].
  apply Forall_cons_1 in Hs as [H3 Hs]. apply Forall_cons_1 in Hs as [H4 Hs]. apply Forall_cons_1 in Hs as [H5 _].
  unfold ulpi_bus_string. cbv zeta. pose proof (bytes_word _ _ Hb Ha) as Hd.
  set (dat := Z.lor _ _) in *. clearbody dat. unfold is_uint in *.
  eapply ends_mono; [sprintf_tac [w8; w8; w8; w8; w8; w16]|]. intros s H. cbv beta in H. unfold in_buffer. in_buffer.
Qed.

Lemma host_string_fits tx_at rx_at sp h indent :
  shown_host h -> (sp < 60)%nat -> (indent < 60)%nat ->
  ends (fun r => r.1 = (EmptyString, Nat.max sp indent) /\ (String.length r.2 < 4096)%nat)
    (host_string show_ptr file tx_at rx_at 4096 sp h indent).
Proof using Hptr.
  intros [Hc Hst Hprev Hx Hw Hb] Hsp Hin. unfold host_string.
  apply ends_assert; [by apply Nat.ltb_lt|]. cbv zeta.
  apply Forall_cons_1 in Hw as [Hw1 Hw]. apply Forall_cons_1 in Hw as [Hw2 Hw]. apply Forall_cons_1 in Hw as [Hw3 _].
  apply Forall_cons_1 in Hb as [Hb1 Hb]. apply Forall_cons_1 in Hb as [Hb2 _].
  pose proof (strlen_repeat (sp `max` indent) blank) as Hs. apply Nat.eq_le_incl in Hs.
  assert (Hs1 : (String.length (repeat_char (sp `max` indent) blank) < 60)%nat) by lia. clear Hs.
  assert (L0 : (String.length EmptyString <= 0)%nat) by done.
  assert (Ho : -1 <= host_op_val (host_op h) < 8) by (destruct (host_op h); cbn; lia).
  unfold is_uint in *.
  next_put [wstr 59; w64]. next_name (proj1 (proj2 (proj2 name_tables))).
  next_put [wstr 59; (2, 1)%nat; wstr 11].
  next_put [wstr 59; w32].
  eapply ends_bind; [by apply ulpi_bus_string_fits|]. intros prev Lp. unfold in_buffer in Lp.
  next_put [wstr 59; wstr 59; wstr 255; wstr 59].
  eapply ends_bind; [by apply transfer_string_fits|]. intros [log x] [El Lx]. cbn in El, Lx. subst log. unfold in_buffer in Lx.
  next_put [wstr 59; wstr 59; wstr 255; wstr 59].
  next_put [wstr 59; w16; w16]. next_put [wstr 59; w16]. next_put [wstr 59; w8]. next_put [wstr 59; w8].
  next_put [wstr 59; w16; wptr].
  split; [done|]. in_buffer.
Qed.

(** The host with a blank array [sp], on the terminal. *)
Lemma show_host_ends tx_at rx_at sp h :
  shown_host h -> (sp < 60)%nat ->
  ends (fun r => r.2 = Nat.max sp 2) (show_host show_ptr file tx_at rx_at sp h).
Proof using Hptr.
  intros Hh Hsp. unfold show_host. eapply ends_bind; [by apply host_string_fits; [..|lia]|].
  intros [[log sp'] str] [E L]. cbn in E, L. injection E as -> ->.
  apply ends_assert; [by apply Nat.ltb_lt|]. by next_printf.
Qed.

Lemma show_ut_state_ends tx_at rx_at ptx_at prx_at tests_at sp s :
  shown_host (ut_host s) -> shown_bus (ut_bus s) -> shown_xfer (phy_xfer (ut_phy s)) -> (sp < 60)%nat ->
  ends (fun r => r.2 = Nat.max sp 4) (show_ut_state show_ptr file tx_at rx_at ptx_at prx_at tests_at sp s).
Proof using Hptr.
  intros Hh Hb Hx Hsp. unfold show_ut_state. eapply ends_bind; [by apply host_string_fits; [..|lia]|].
  intros [[log sp'] str] [E L]. cbn in E, L. injection E as -> ->.
  apply ends_assert; [by apply Nat.ltb_lt|]. do 4 next_printf.
  eapply ends_bind; [by apply ulpi_bus_string_fits|]. intros bus _. next_printf.
  eapply ends_bind; [by apply transfer_string_fits|]. intros [log1 x] _. do 6 next_printf.
  next_name (proj2 (proj2 (proj2 (proj2 (proj2 name_tables))))). by next_printf.
Qed.

(** The state of a FIFO test. *)
Record shown_test (st : tc_state_t) : Prop := {
  st_size : tc_size st <= 256;
  st_buf : length (tc_buf st) = 256%nat;
  st_bytes : Forall (is_uint 8) (tc_buf st);
}.

Lemma tc_state_bytes_ends n : forall i buf str,
  (Z.to_nat i + n <= 256)%nat -> 0 <= i -> length buf = 256%nat -> Forall (is_uint 8) buf ->
  (String.length (default EmptyString str) <= 6 * Z.to_nat i)%nat ->
  ends (fun r => is_Some str \/ (0 < n)%nat -> is_Some r) (tc_state_bytes show_ptr n i buf str).
Proof using Type.
  induction n as [|n IH]; intros i buf str Hn Hi Hb Hby Hs; cbn [tc_state_bytes]; [intros [H|H]; [done|lia]|].
  apply ends_read_at; [lia|]. intros v Hv. pose proof (proj1 (Forall_lookup _ _) Hby _ _ Hv) as Hu. unfold is_uint in Hu.
  eapply ends_bind.
  { apply (sprintf_at_ends show_ptr 2048 _ _ _ [w8] _ Hs); [reflexivity|fits_tac|].
    apply Nat.ltb_lt. change (printf_bound _ _) with 6%nat. lia. }
  intros t Ht. cbv beta in Ht. change (printf_bound _ _) with 6%nat in Ht.
  eapply ends_mono; [apply IH; try done; [lia|lia|change (String.length t <= 6 * Z.to_nat (i + 1))%nat; lia]|]. intros r Hr _. apply Hr. by left.
Qed.

Lemma tc_state_show_ends st :
  shown_test st -> 0 < tc_size st -> ends (fun _ => True) (tc_state_show show_ptr st).
Proof using Type.
  intros [Hs Hb Hby] Hp. unfold tc_state_show.
  eapply ends_bind; [apply tc_state_bytes_ends; try done; cbn; lia|]. intros str Hstr. cbv beta in Hstr.
  do 5 next_printf. destruct Hstr as [t ->]; [right; lia|]. by next_printf.
Qed.

(** With no byte in the packet, the string is not initialised. *)
Lemma tc_state_show_empty st : tc_size st <= 0 -> tc_state_show show_ptr st = Undef.
Proof using Type.
  intros Hs. unfold tc_state_show. replace (Z.to_nat (tc_size st)) with 0%nat by lia.
  cbn [tc_state_bytes]. rewrite outcome_bind_ok.
  do 5 (match goal with |- (printf ?p ?f ?args ≫= _) = _ =>
    pose proof (printf_ends p f args eq_refl) as H; destruct (printf p f args); [|done..]; rewrite outcome_bind_ok; clear H end).
  done.
Qed.
End Fits.

(** C29.  The printing functions stay in their buffers.  Let the C library print a
    pointer in at most 18 characters.  For every transfer that is well formed as the
    steps keep it ([wf_xfer]: the endpoint below 16, sequence bits of 0 or 1, a
    transmit position that is not negative, a receive position of at most 512) with
    its address, cycle count and lengths in their C types, and for every bus, and
    every host and simulator with such transfers and otherwise any values of their C
    types: [transfer_string] and [ulpi_bus_string] need less than the 256 characters
    of their static arrays, [host_string] with an indentation below 60 less than the
    4096 of its callers, whatever indentation was used before, and [show_host] and
    [show_ut_state] return; of the FIFO testbench, [tc_state_show] stays in its 2048
    characters, and prints an uninitialised string exactly when the test has no
    bytes.  Over the whole C types of a transfer the 256 characters are not enough
    ([transfer_string_overflow]). *)
Theorem printing_fits show_ptr file tx_at rx_at ptx_at prx_at tests_at :
  ptr_fits show_ptr ->
  (forall x, shown_xfer x ->
     ends (fun r => r.1 = EmptyString /\ in_buffer r.2) (transfer_string show_ptr file tx_at rx_at x)) /\
  (forall bus, shown_bus bus -> ends in_buffer (ulpi_bus_string show_ptr bus)) /\
  (forall h sp indent, shown_host h -> (sp < 60)%nat -> (indent < 60)%nat ->
     ends (fun r => r.1 = (EmptyString, Nat.max sp indent) /\ (String.length r.2 < 4096)%nat)
       (host_string show_ptr file tx_at rx_at 4096 sp h indent)) /\
  (forall h sp, shown_host h -> (sp < 60)%nat ->
     ends (fun r => r.2 = Nat.max sp 2) (show_host show_ptr file tx_at rx_at sp h)) /\
  (forall s sp, shown_host (ut_host s) -> shown_bus (ut_bus s) -> shown_xfer (phy_xfer (ut_phy s)) -> (sp < 60)%nat ->
     ends (fun r => r.2 = Nat.max sp 4) (show_ut_state show_ptr file tx_at rx_at ptx_at prx_at tests_at sp s)) /\
  (forall st, shown_test st ->
     if 0 <? tc_size st then ends (fun _ => True) (tc_state_show show_ptr st)
     else tc_state_show show_ptr st = Undef).
Proof.
  intros Hp. split_and!.
  - intros x. by apply transfer_string_fits.
  - intros bus. by apply ulpi_bus_string_fits.
  - intros h sp indent. by apply host_string_fits.
  - intros h sp. by apply show_host_ends.
  - intros s sp. by apply show_ut_state_ends.
  - intros st Hst. destruct (Z.ltb_spec 0 (tc_size st)); [by apply tc_state_show_ends|by apply tc_state_show_empty].
Qed.

(** ** Witness *)

Definition glibc_ptr (addr : Z) : string :=
  if addr =? 0 then "(nil)" else "0x" +:+ digits 16 (addr mod 2 ^ 64).

Lemma glibc_ptr_fits : ptr_fits glibc_ptr.
Proof.
  intros addr. unfold glibc_ptr. destruct (addr =? 0); [cbn; lia|]. rewrite strlen_app.
  pose proof (digits_length 16 (addr mod 2 ^ 64) 16 ltac:(lia) ltac:(change (16 ^ Z.of_nat 16) with (2 ^ 64); apply Z.mod_pos_bound; lia) ltac:(lia)).
  cbn [String.length]. lia.
Qed.

(** Outside of what the steps keep, but in the C types: an endpoint of 255 and
    negative positions, with the longest names and pointers of 18 characters, need
    258 characters and the null, and [sprintf] writes past the array. *)
Definition long_xfer : transfer_t :=
  MkXfer 255 255 UpDATA0 DATAxCRC1 (replicate 16 0) (2 ^ 32 - 1) [] (- 2 ^ 31) (- 2 ^ 31)
    [] (- 2 ^ 31) (- 2 ^ 31) 255 255 255 255.

Lemma transfer_string_overflow :
  transfer_string glibc_ptr "ulpi.c" (2 ^ 64 - 1) (2 ^ 64 - 1) long_xfer = Undef.
Proof. vm_compute. reflexivity. Qed.

Lemma shown_zero : shown_xfer transfer_zero.
Proof. constructor; [exact wf_zero|done..]. Qed.

Lemma printing_fits_witness :
  ends (fun r => r.1 = EmptyString /\ in_buffer r.2) (transfer_string glibc_ptr "ulpi.c" 4096 8192 transfer_zero).
Proof.
  destruct (printing_fits glibc_ptr "ulpi.c" 4096 8192 0 0 0 glibc_ptr_fits) as (H & _).
  exact (H transfer_zero shown_zero).
Defined.

Example transfer_string_example :
  transfer_string glibc_ptr "ulpi.c" 4096 0 (transfer_tok (transfer_zero <| address := 35 |> <| type := IN |> <| stage := Token1 |>)) =
  Ok (EmptyString, "addr: 35, ep: 0, type: 6 (IN), stage: 4 (Token1), ep_seq: 0x0000, cycle: 0, tx: <0x1000>, tx_len: 0, tx_ptr: 0, rx: <(nil)>, rx_len: 0, rx_ptr: 0, tok: 0xd823, crc: 0x0000").
Proof. vm_compute. reflexivity. Qed.
